(* ===== verification/_CoqProject ===== *)
-Q . S2P
Prelude.v
X86.v
Machine.v
CLib.v
Printf.v
Hardware.v
Entry.v
PageTable.v
Frames.v
Syscalls.v
Isolation.v
Demo.v
Duplicate.v
Fork.v
ForkSafe.v
Exit.v
PageAlloc.v
Canonical.v
Mmu.v
Contracts.v
Mapping.v
AddressSpace.v
Display.v
ElfFormat.v
BootLoader.v
BootLoads.v
QemuNograb.v
MkBootDisk.v
DiskImage.v
Partition.v
User.v
Programs.v
Loader.v
Through.v
Load.v
Segment.v
Elf.v
Image.v
Kernel.v
Setup.v
Loading.v
Calm.v
System.v
Reachable.v
Scheduler.v
Faults.v
Typing.v
Checks.v
Progress.v
Running.v
UserKernel.v
Served.v
World.v
Boot.v
Start.v
Steady.v
Whole.v
TrapPath.v
