(* ===== verification/Prelude.v ===== *)
(** * WeensyOS virtual memory

    A verification development for the WeensyOS kernel of [src/]: a teaching
    operating system in C for x86-64 that runs up to fifteen processes in
    2 MB of physical memory, each in its own four-level page table, with fork,
    exit, page allocation and a few smaller system calls.

    ** The program and its model

    - [src/x86-64.h], [src/kernel.h], [src/lib.h] (constants, structures,
      address arithmetic): [X86].
    - physical memory, ports, control registers: [Machine].  Memory is a finite
      map from byte addresses; the kernel reads and writes it through [read]
      and [write], which fault outside [MEMSIZE_PHYSICAL].
    - [src/lib.c]: [CLib] (memory, strings, random numbers) and [Printf]
      ([printer_vprintf], the console and the string printers).
    - [src/k-hardware.c]: [Hardware] (descriptor tables, interrupt controller,
      PCI, keyboard, log port, [panic], [assert_fail], [check_keyboard]).
    - [src/k-exception.S]: [Entry], as instructions of a processor that delivers
      interrupts through the tables that [Hardware] sets up.
    - [src/vm.c]: [PageTable], on page tables stored in that memory.  How the
      code reaches their entries is a parameter of its functions, [Access]:
      [physical] under the kernel's own page table, which maps memory to itself,
      and [through_cr3] ([Mmu]) where the code runs under the table of a process:
      in the loader, and in [exception] until the kernel's table is installed.
    - [src/kernel.c]: [Frames] (the static variables as the record [kstate], the
      page allocator), [Syscalls] (the cases of [exception], one definition
      each, with [duplicate_pagetable]), [Display] (the consistency checks and
      the memory display) and [Kernel] ([exception], [schedule], [run],
      [kernel], [process_setup]).
    - [src/elf.h]: [ElfFormat]; [src/k-loader.c]: [Loader], where everything
      between the two switches of page tables goes through the processor's
      translation: the copy, the zeros, the protection of the pages and the
      lookups of the second switch.
    - [src/boot.c]: [BootLoader], on a memory and a disk controller of its own.
    - [src/build/mkbootdisk.c], which makes the disk: [MkBootDisk], on the files
      and system calls of a host.
    - [src/build/qemu-nograb.c], which wraps the emulator's allocator:
      [QemuNograb].
    - [src/process.h], [src/process.c]: [User]; [src/p-allocator.c],
      [src/p-fork.c], [src/p-forkexit.c], [src/p-test.c]: [Programs].  User code
      is an interaction tree over system calls, loads, stores and output.

    A C function is a function of the state with the outcomes [Ok] and [Halt]:
    [Halt] is a panic, a fault in the kernel, the switch to user mode at the end
    of [run], a reboot or power-off, a return from [exception] to its assembly
    caller, behaviour that C leaves undefined, or a search that is not followed
    further.  C integers are [Z] with the conversions of the source written out
    ([u64], [s32], ...).  Assertions are kept.

    What is not in [src/] in C is a parameter: [Devices] gives the values read
    from ports, [Layout] the addresses the linker chose (with [LayoutOk], true
    of the image recorded in [src/obj/kernel.sym]), [Images] those of the
    program images, [Padding] the bytes of a structure C leaves open,
    [Controller] the disk controller (with [AtaDisk], the protocol it keeps),
    [Host] the outcome of the host's reads, writes and seeks (with [HostOk], that they
    make progress), [Program] the size and stack of a user program, [Text] the
    address after the call of [exception], [Allocators] the allocators behind
    the wrapper.

    ** Loops and fuel

    Loops with a bound in the source run that many iterations.  String loops
    run over physical memory, which bounds them.  [printer_vprintf] consumes a
    character per iteration, so the length of the format is enough.  The
    loader's loops end at the latest when the pages run out ([page_fuel]) or
    after 65535 headers ([phnum_fuel]).  [schedule] has no bound; [Patience] is
    the number of iterations followed, and [schedule_round_robin] and
    [schedule_spins] say what happens for every such number.  [Polls] bounds the
    waits of the boot loader, by the controller's latency; its other loops run
    as often as their limits say.  [retries] and [chunks] of [Host] bound the
    loops of [mkbootdisk] over interrupted calls and over a file.  The loops of
    the user programs are [ITree.iter], without a bound.  No piece of the
    assembly between two entries is longer than [code_fuel] instructions.

    ** What the theorems show

    [Isolation] defines [safe], the invariant of page tables, page owners and
    reference counts: page tables are well formed and belong to one process,
    kernel addresses map identically and only the console is open to user code,
    a writable page is its process's alone, and references are counted.
    [Fork], [ForkSafe], [Exit], [PageAlloc] and [Mapping] prove, for each system
    call, its functional contract on every branch and that it keeps [safe];
    [Contracts] states them.  [Calm] shows that output, keyboard, checks and
    display leave everything but the screen alone, whatever they do.

    [System] composes them: from a state in which a process runs ([running]), a
    trap that is handled and enters user mode again leads to such a state, and
    spares every other process.  [Reachable] adds user code, which stores
    through the processor's page walk ([Mmu]), and concludes for all runs: the
    invariant, isolation, non-interference, and that user code writes its own
    pages and the console only.  [admissible] names the traps for which this
    holds; the excluded ones are those of the findings: fork without memory,
    a page_alloc address above 2^48, a mapping buffer that crosses a page.
    [Scheduler] shows round robin and [Faults] the error paths.

    [Typing] takes the C types as an invariant: registers, process fields, page
    information, kernel variables and port writes stay in the range of their
    types however the handler of a trap ends.

    Safety leaves it open whether the kernel goes on; [Checks], [Progress] and
    [Running] settle it.  [consistent] is what the run-time checks of the
    kernel look at: [Checks] proves that they pass, and that the display, which
    they accompany, returns.  [Progress] proves for each system call that it
    returns or enters user mode and leaves a consistent state, and [Running]
    composes them: as long as the traps are [orderly], no run ends in a panic
    or a fault ([system_progresses]).  [orderly] asks of an admissible trap that
    the vector is one of a system call other than panic, the timer or a user
    page fault, that page_alloc is called with a page-aligned address, and that
    the process that exits has no page that another still refers to; for the
    last, [exit_survives_iff] gives the exact condition.  [no_key] says that no
    key is pressed, since a key can reboot the machine.

    The boot is followed from the command line to user mode.  [Load] describes
    a process that is being set up and the pages the loader gives it, [Segment]
    a segment copied through the process's own page table and then protected,
    [Elf] the images in memory and when they are well formed, [Image] all
    segments of an image, [Setup] what [process_setup] promises, [Boot] the
    state before the first process, [Start] the list of processes and the
    theorem [kernel_starts]: the system boots into a [running] state, with the
    selected programs in their address spaces.  Its witness boots the images
    recorded in [src/obj].  [Loading] states both returns of the loader.
    [Through] shows that the page-table code works through the table of a
    process as it does physically, when the tables it walks lie below
    [PROC_START_ADDR] ([low_tables]); when they do not, the loader faults
    ([high_tables_fault]).  So everything from boot on asks for [room_for] the
    programs: a page for each that they take, and five pages left below
    [PROC_START_ADDR] when each is set up; 134 are there at first, of which the
    four programs of [src/obj] need 29.
    [Steady] carries consistency and types through the boot: from the command
    line on, orderly user code never stops the system ([boot_progresses]).

    Before the kernel: [BootLoads] shows what is in memory when the boot loader
    calls the kernel, [DiskImage] what [mkbootdisk] writes and that the boot
    loader reads it back ([disk_boots]), [Partition] that an existing disk is
    changed in one partition only (with [-p DISK]; an option [-m FILE] after it
    turns to another file).  After it: [Programs] shows that the user
    programs ask only for what they may, whatever the kernel answers, by
    coinduction over their trees with rules for calls and loops, and
    [UserKernel] that their calls are admissible traps, and orderly ones where
    the state does not decide it.

    The closed system puts the two together.  [Served] shows what a trap does to
    address spaces and who runs after it, [World] takes the steps of a program's
    tree as loads and stores through the processor's page walk, output on the
    console, and traps, with the timer between any two steps, and [Whole] starts
    it at the command line: with p-allocator or p-test as processes the system
    runs for ever without a fault ([programs_run_forever]) and no process waits
    through 15 interrupts of the timer ([turn_comes]); with any of the four
    programs, as long as forks and exits keep to the rules of [orderly], none
    ever faults ([programs_never_fault]).

    [Entry] is the way into the kernel and back: what the processor and the
    assembly save is the structure that [exception] reads, and
    [exception_return] brings it back ([trap_round_trip]); [unhandled_vectors]
    says what becomes of the exceptions that have no handler.  [TrapPath] joins
    it with the closed system: the stack that a trap writes, the interrupt
    descriptors and the task state are among the kernel's own pages, which the
    invariant [consistent] keeps, so every trap of the running programs takes
    the way through the assembly and back ([traps_through_assembly]).
    [QemuNograb] shows that the wrapper changes the emulator's memory at most
    once; it reads memory only where there is some, so it may crash on a block
    that is not there.

    [AddressSpace] is the contract of [vm.c]: mapping refines the update of a
    function from addresses to mappings, mapping and lookup are inverse, the
    kernel's table is built and installed.  [Mmu] shows that the software lookup
    agrees with the hardware on these tables, and [lookup_permissions] how it
    differs on others.

    [Demo] is a concrete state on which the theorems are instantiated; the
    whole handler evaluates on it.

    ** Not modelled

    [src/bootstart.S], the switch from real mode to a mapped first gigabyte, is
    assembly for modes of the processor that the model does not have.  The
    machine code of the C sources is not modelled: that [exception] and the
    programs are what the compiler makes of their sources is taken for granted.
    The processor of [Entry] has no flags but those it is given and ZF, and its
    [iretq] does not check selectors.  Large pages, caches and interrupts that
    arrive in the kernel, which runs with interrupts off, are not part of the
    machine.  A program's own variables are the state of its tree, not bytes of
    its pages.  The instructions of [src/x86-64.h] that no code uses (cpuid,
    atomic additions and others) have no definition.  A fork that
    runs out of memory and an exit that leaves a shared page behind stop the
    system, so runs with p-fork and p-forkexit are followed up to there. *)
From Stdlib Require Export ZArith Lia.
From stdpp Require Export strings base numbers gmap list list_numbers.

#[global] Open Scope Z_scope.
#[export] Set Warnings "-clear-no-such-hyp".

(** ** Machine integers

    A C integer is a [Z]; each conversion of the source to a narrower or
    differently signed type is one of the functions below. *)

Definition u8 (x : Z) : Z := x mod 2 ^ 8.
Definition u16 (x : Z) : Z := x mod 2 ^ 16.
Definition u32 (x : Z) : Z := x mod 2 ^ 32.
Definition u64 (x : Z) : Z := x mod 2 ^ 64.
Definition s8 (x : Z) : Z := (x + 2 ^ 7) mod 2 ^ 8 - 2 ^ 7.
Definition s32 (x : Z) : Z := (x + 2 ^ 31) mod 2 ^ 32 - 2 ^ 31.
Definition s64 (x : Z) : Z := (x + 2 ^ 63) mod 2 ^ 64 - 2 ^ 63.

(** The truth value of a C integer in a condition. *)
Definition istrue (x : Z) : bool := negb (x =? 0).

(** [x & f] used as a condition. *)
Definition has (x f : Z) : bool := istrue (Z.land x f).

Lemma u64_small x : 0 ≤ x < 2 ^ 64 → u64 x = x.
Proof. apply Z.mod_small. Qed.

Lemma u64_range x : 0 ≤ u64 x < 2 ^ 64.
Proof. apply Z.mod_pos_bound; lia. Qed.

Lemma u32_range x : 0 ≤ u32 x < 2 ^ 32.
Proof. apply Z.mod_pos_bound; lia. Qed.

Lemma u16_range x : 0 ≤ u16 x < 2 ^ 16.
Proof. apply Z.mod_pos_bound; lia. Qed.

Lemma u8_range x : 0 ≤ u8 x < 2 ^ 8.
Proof. apply Z.mod_pos_bound; lia. Qed.

Lemma s32_small x : - 2 ^ 31 ≤ x < 2 ^ 31 → s32 x = x.
Proof. intros ?. unfold s32. rewrite Z.mod_small; lia. Qed.

Lemma s8_small x : - 2 ^ 7 ≤ x < 2 ^ 7 → s8 x = x.
Proof. intros ?. unfold s8. rewrite Z.mod_small; lia. Qed.

Lemma s8_range x : - 2 ^ 7 ≤ s8 x < 2 ^ 7.
Proof. unfold s8. pose proof (Z.mod_pos_bound (x + 2 ^ 7) (2 ^ 8)). lia. Qed.

Lemma s32_range x : - 2 ^ 31 ≤ s32 x < 2 ^ 31.
Proof. unfold s32. pose proof (Z.mod_pos_bound (x + 2 ^ 31) (2 ^ 32)). lia. Qed.

(** ** Outcomes and the state monad

    A C function that reads and writes the state is a function of that state.
    It returns ([Ok]) or control leaves it for good ([Halt]): [panic] and
    failed assertions, a page fault taken in kernel mode, the switch to user
    mode at the end of [run], a reboot or power-off requested at the keyboard,
    and behaviour the C standard leaves undefined. *)

Inductive stop : Type :=
  | Panicked (msg : list Z)   (* panic(): the text is printed, then fail() loops *)
  | KernelFault (addr : Z)    (* the kernel touched an unmapped address *)
  | UserMode                  (* exception_return(): `current` runs *)
  | Rebooted (arg : list Z)   (* jmp entry_from_boot with this command line *)
  | Jumped (entry : Z)        (* the boot loader called the kernel at this address *)
  | Exited (status : Z)       (* exit() of a host program *)
  | PoweredOff                (* poweroff() *)
  | Returned                  (* exception() returned to its assembly caller *)
  | Undefined                 (* undefined behaviour of C *)
  | Spinning.                 (* a loop that cannot be left any more *)

Inductive outcome (S A : Type) : Type :=
  | Ok (a : A) (s : S)
  | Halt (e : stop) (s : S).
Arguments Ok {S A} a s.
Arguments Halt {S A} e s.

Definition M (S A : Type) : Type := S → outcome S A.

#[global] Instance M_ret {S} : MRet (M S) := λ A a s, Ok a s.
#[global] Instance M_bind {S} : MBind (M S) := λ A B f m s,
  match m s with
  | Ok a s' => f a s'
  | Halt e s' => Halt e s'
  end.

Definition halt {S A} (e : stop) : M S A := λ s, Halt e s.
Definition gets {S A} (f : S → A) : M S A := λ s, Ok (f s) s.
Definition modify {S} (f : S → S) : M S () := λ s, Ok () (f s).

(** Running a computation of a component of the state. *)
Definition zoom {S T A} (get : S → T) (put : T → S → S) (m : M T A) : M S A := λ s,
  match m (get s) with
  | Ok a t => Ok a (put t s)
  | Halt e t => Halt e (put t s)
  end.

(** [for (i = lo; n iterations; i += step) body(i)] *)
Fixpoint for_loop {S} (n : nat) (lo step : Z) (body : Z → M S ()) : M S () :=
  match n with
  | O => mret ()
  | S n => body lo ;; for_loop n (lo + step) step body
  end.

(** ** Total correctness

    [runs m s Q]: started in [s], [m] returns, and its result and final state
    satisfy [Q]. *)

Definition runs {S A} (m : M S A) (s : S) (Q : A → S → Prop) : Prop :=
  match m s with
  | Ok a s' => Q a s'
  | Halt _ _ => False
  end.

Section runs.
Context {S A B : Type}.
Implicit Types (m : M S A) (s : S).

Lemma runs_iff m s Q : runs m s Q ↔ ∃ a s', m s = Ok a s' ∧ Q a s'.
Proof.
  unfold runs. destruct (m s) as [a s1|e s1].
  - split; [by eauto|]. by intros (?&?&[= <- <-]&?).
  - split; [done|]. by intros (?&?&[=]&?).
Qed.

Lemma runs_ret (a : A) s (Q : A → S → Prop) : Q a s → runs (mret a) s Q.
Proof. done. Qed.

Lemma runs_bind m (f : A → M S B) s (Q : B → S → Prop) :
  runs m s (λ a s', runs (f a) s' Q) → runs (m ≫= f) s Q.
Proof. unfold runs, mbind, M_bind. by destruct (m s). Qed.

Lemma runs_mono m s (Q Q' : A → S → Prop) :
  runs m s Q → (∀ a s', Q a s' → Q' a s') → runs m s Q'.
Proof. unfold runs. destruct (m s); eauto. Qed.

Lemma runs_gets (f : S → A) s (Q : A → S → Prop) : Q (f s) s → runs (gets f) s Q.
Proof. done. Qed.

Lemma runs_modify (f : S → S) s (Q : () → S → Prop) : Q () (f s) → runs (modify f) s Q.
Proof. done. Qed.

Lemma runs_eq m s a s' (Q : A → S → Prop) : m s = Ok a s' → Q a s' → runs m s Q.
Proof. unfold runs. by intros ->. Qed.

Lemma bind_ok m (f : A → M S B) s a s' : m s = Ok a s' → (m ≫= f) s = f a s'.
Proof. unfold mbind, M_bind. by intros ->. Qed.

Lemma bind_halt m (f : A → M S B) s e s' : m s = Halt e s' → (m ≫= f) s = Halt e s'.
Proof. unfold mbind, M_bind. by intros ->. Qed.
End runs.

(** A loop establishes what its body keeps, for every iteration count. *)
Lemma runs_for {S} (I : Z → S → Prop) (body : Z → M S ()) step n lo s :
  I lo s →
  (∀ k s, (k < n)%nat → I (lo + Z.of_nat k * step) s →
     runs (body (lo + Z.of_nat k * step)) s
          (λ _ s', I (lo + Z.of_nat k * step + step) s')) →
  runs (for_loop n lo step body) s (λ _ s', I (lo + Z.of_nat n * step) s').
Proof.
  revert lo s. induction n as [|n IH]; intros lo s HI Hb; cbn [for_loop].
  - apply runs_ret. by replace (lo + Z.of_nat 0 * step) with lo by lia.
  - apply runs_bind. eapply runs_mono.
    { specialize (Hb 0%nat s). replace (lo + Z.of_nat 0 * step) with lo in Hb by lia.
      apply Hb; [lia|done]. }
    intros [] s' HI'. eapply runs_mono; [apply (IH (lo + step)); [done|]|].
    + intros k s2 Hk. specialize (Hb (Datatypes.S k) s2).
      replace (lo + Z.of_nat (Datatypes.S k) * step)
        with (lo + step + Z.of_nat k * step) in Hb by lia.
      apply Hb; lia.
    + intros [] s2. by replace (lo + step + Z.of_nat n * step)
        with (lo + Z.of_nat (Datatypes.S n) * step) by lia.
Qed.

Lemma runs_zoom {S T A} (get : S → T) (put : T → S → S) (m : M T A) s (Q : A → S → Prop) :
  runs m (get s) (λ a t, Q a (put t s)) → runs (zoom get put m) s Q.
Proof. unfold runs, zoom. by destruct (m (get s)). Qed.

(** ** Hoare triples

    [triple P m Q E]: from a state with [P], [m] returns with [Q], or control
    leaves it with [E]. *)

Definition triple {S A} (P : S → Prop) (m : M S A) (Q : A → S → Prop) (E : S → Prop) : Prop := ∀ s,
  P s → match m s with Ok a s' => Q a s' | Halt _ s' => E s' end.

Definition final {S A} (o : outcome S A) : S := match o with Ok _ s | Halt _ s => s end.

Lemma triple_final {S A} P (m : M S A) (E : S → Prop) s : triple P m (λ _, E) E → P s → E (final (m s)).
Proof. intros Ht Hs. specialize (Ht s Hs). by destruct (m s). Qed.

Section triple.
Context {S : Type}.
Implicit Types (P E : S → Prop).

Lemma triple_ret {A} (a : A) P (Q : A → S → Prop) E : (∀ s, P s → Q a s) → triple P (mret a) Q E.
Proof. intros HQ s Hs. by apply HQ. Qed.

Lemma triple_bind {A B} (m : M S A) (f : A → M S B) P R Q E :
  triple P m R E → (∀ a, triple (R a) (f a) Q E) → triple P (m ≫= f) Q E.
Proof.
  intros Hm Hf s Hs. specialize (Hm s Hs). unfold mbind, M_bind. destruct (m s) as [a s1|e s1]; [by apply Hf|done].
Qed.

Lemma triple_conseq {A} (m : M S A) P P' (Q Q' : A → S → Prop) E :
  triple P' m Q' E → (∀ s, P s → P' s) → (∀ a s, Q' a s → Q a s) → triple P m Q E.
Proof. intros Hm HP HQ s Hs. specialize (Hm s (HP s Hs)). destruct (m s); [by apply HQ|done]. Qed.

Lemma triple_pre {A} (m : M S A) P P' (Q : A → S → Prop) E :
  triple P' m Q E → (∀ s, P s → P' s) → triple P m Q E.
Proof. intros Hm HP. by apply (triple_conseq _ _ P' _ Q). Qed.

Lemma triple_halt {A} e P (Q : A → S → Prop) E : (∀ s, P s → E s) → triple P (halt e) Q E.
Proof. intros HE s Hs. by apply HE. Qed.

Lemma triple_gets {A} (f : S → A) P (Q : A → S → Prop) E : (∀ s, P s → Q (f s) s) → triple P (gets f) Q E.
Proof. intros HQ s Hs. by apply HQ. Qed.

Lemma triple_modify (f : S → S) P (Q : () → S → Prop) E : (∀ s, P s → Q () (f s)) → triple P (modify f) Q E.
Proof. intros HQ s Hs. by apply HQ. Qed.

Lemma triple_if {A} (b : bool) (m m' : M S A) P Q E :
  (b = true → triple P m Q E) → (b = false → triple P m' Q E) → triple P (if b then m else m') Q E.
Proof. destruct b; auto. Qed.
End triple.

(** ** Computations that keep an invariant, however they end *)

Definition maintains {S A} (P : S → Prop) (m : M S A) : Prop := triple P m (λ _, P) P.

(** [yields P R m]: and a result that is returned satisfies [R]. *)
Definition yields {S A} (P : S → Prop) (R : A → Prop) (m : M S A) : Prop := triple P m (λ a s, P s ∧ R a) P.

Section maintains.
Context {S : Type} (P : S → Prop).

Lemma maintains_ret {A} (a : A) : maintains P (mret a).
Proof. by apply triple_ret. Qed.

Lemma maintains_halt {A} e : maintains P (halt e : M S A).
Proof. by apply triple_halt. Qed.

Lemma maintains_gets {A} (f : S → A) : maintains P (gets f).
Proof. by apply triple_gets. Qed.

Lemma maintains_modify f : (∀ s, P s → P (f s)) → maintains P (modify f).
Proof. intros Hf. by apply triple_modify. Qed.

Lemma maintains_bind {A B} (m : M S A) (f : A → M S B) :
  maintains P m → (∀ a, maintains P (f a)) → maintains P (m ≫= f).
Proof. intros Hm Hf. by apply (triple_bind _ _ _ (λ _, P)). Qed.

Lemma yields_bind {A B} (R : A → Prop) (m : M S A) (f : A → M S B) :
  yields P R m → (∀ a, R a → maintains P (f a)) → maintains P (m ≫= f).
Proof.
  intros Hm Hf. apply (triple_bind _ _ _ (λ a s, P s ∧ R a)); [exact Hm|].
  intros a s [Hs Ha]. by apply (Hf a Ha).
Qed.

Lemma yields_gets {A} (R : A → Prop) (f : S → A) : (∀ s, P s → R (f s)) → yields P R (gets f).
Proof. intros Hf. apply triple_gets. auto. Qed.

Lemma yields_ret {A} (R : A → Prop) (a : A) : R a → yields P R (mret a).
Proof. intros Ha. by apply triple_ret. Qed.

Lemma yields_step {A B} (R : B → Prop) (m : M S A) (f : A → M S B) :
  maintains P m → (∀ a, yields P R (f a)) → yields P R (m ≫= f).
Proof. intros Hm Hf. by apply (triple_bind _ _ _ (λ _, P)). Qed.

Lemma yields_chain {A B} (R : A → Prop) (R' : B → Prop) (m : M S A) (f : A → M S B) :
  yields P R m → (∀ a, R a → yields P R' (f a)) → yields P R' (m ≫= f).
Proof.
  intros Hm Hf. apply (triple_bind _ _ _ (λ a s, P s ∧ R a)); [exact Hm|].
  intros a s [Hs Ha]. by apply (Hf a Ha).
Qed.

Lemma yields_maintains {A} (R : A → Prop) (m : M S A) : yields P R m → maintains P m.
Proof. intros Hm s Hs. specialize (Hm s Hs). destruct (m s); [by destruct Hm|done]. Qed.

Lemma maintains_for n lo step (body : Z → M S ()) :
  (∀ i, maintains P (body i)) → maintains P (for_loop n lo step body).
Proof.
  intros Hb. revert lo. induction n as [|n IH]; intros lo; cbn [for_loop]; [apply maintains_ret|].
  by apply maintains_bind.
Qed.
End maintains.

Create HintDb types discriminated.
#[global] Hint Constants Opaque : types.

Ltac maintains :=
  repeat match goal with
    | |- maintains _ (mret _) => apply maintains_ret
    | |- maintains _ (halt _) => apply maintains_halt
    | |- maintains _ (gets _) => apply maintains_gets
    | |- maintains _ (_ ≫= _) => apply maintains_bind; [|intros ?]
    | |- maintains _ (for_loop _ _ _ _) => apply maintains_for; intros ?
    | |- maintains _ (let '(_, _) := ?x in _) => destruct x
    | |- maintains _ (if ?b then _ else _) => destruct b
    | |- maintains _ (match ?x with _ => _ end) => destruct x
    | |- maintains _ _ => solve [auto with types nocore]
    end.

(** ** Effects

    [keeps R m]: when [m] returns, it has changed the state within [R], and it
    does not enter user mode; nothing is said of runs that end otherwise. *)

Definition keeps {S A} (R : S → S → Prop) (m : M S A) : Prop := ∀ s,
  match m s with
  | Ok _ s' => R s s'
  | Halt UserMode _ => False
  | _ => True
  end.

Section keeps.
Context {S : Type} (R : S → S → Prop) `{!PreOrder R}.

Lemma keeps_ret {A} (a : A) : keeps R (mret a : M S A).
Proof. intros s. by cbn. Qed.

Lemma keeps_gets {A} (f : S → A) : keeps R (gets f).
Proof. intros s. by cbn. Qed.

Lemma keeps_modify (f : S → S) : (∀ s, R s (f s)) → keeps R (modify f).
Proof. intros Hf s. by cbn. Qed.

Lemma keeps_halt {A} e : e ≠ UserMode → keeps R (halt e : M S A).
Proof. intros He s. cbn. by destruct e. Qed.

Lemma keeps_bind {A B} (m : M S A) (f : A → M S B) :
  keeps R m → (∀ a, keeps R (f a)) → keeps R (m ≫= f).
Proof.
  intros Hm Hf s. unfold mbind, M_bind. specialize (Hm s). destruct (m s) as [a s1|e s1]; [|done].
  specialize (Hf a s1). destruct (f a s1) as [b s2|[] s2]; try done; by transitivity s1.
Qed.

Lemma keeps_for n lo step (body : Z → M S ()) :
  (∀ k, (k < n)%nat → keeps R (body (lo + Z.of_nat k * step))) → keeps R (for_loop n lo step body).
Proof.
  revert lo. induction n as [|n IH]; intros lo Hb; cbn [for_loop]; [apply keeps_ret|].
  apply keeps_bind.
  - specialize (Hb 0%nat ltac:(lia)). by replace (lo + Z.of_nat 0 * step) with lo in Hb by lia.
  - intros []. apply IH. intros k Hk. specialize (Hb (Datatypes.S k) ltac:(lia)).
    by replace (lo + step + Z.of_nat k * step) with (lo + Z.of_nat (Datatypes.S k) * step) by lia.
Qed.

Lemma keeps_runs {A} (m : M S A) : (∀ s, runs m s (λ _ s', R s s')) → keeps R m.
Proof. intros Hm s. specialize (Hm s). unfold runs in Hm. by destruct (m s). Qed.

Lemma keeps_ok {A} (m : M S A) s a s' : keeps R m → m s = Ok a s' → R s s'.
Proof. intros Hm E. specialize (Hm s). by rewrite E in Hm. Qed.

(** A computation that enters user mode does so after its first step. *)
Lemma keeps_enters {A B} (m : M S A) (f : A → M S B) s s' :
  keeps R m → (m ≫= f) s = Halt UserMode s' → ∃ a s1, m s = Ok a s1 ∧ R s s1 ∧ f a s1 = Halt UserMode s'.
Proof.
  intros Hm. specialize (Hm s). unfold mbind, M_bind. destruct (m s) as [a s1|e s1].
  - intros E. by exists a, s1.
  - intros [= ->]. done.
Qed.
End keeps.

Lemma keeps_zoom {S T A} (R : S → S → Prop) (R' : T → T → Prop) (get : S → T) put (m : M T A) :
  (∀ s t, R' (get s) t → R s (put t s)) → keeps R' m → keeps R (zoom get put m).
Proof.
  intros HR Hm s. specialize (Hm (get s)). unfold zoom.
  destruct (m (get s)) as [a t|e t]; [by apply HR|]. by destruct e.
Qed.

(** Routines that end the run. *)
Definition stops {S A} (m : M S A) : Prop := ∀ s, ∃ e s', m s = Halt e s' ∧ e ≠ UserMode.

Lemma stops_keeps {S A} (R : S → S → Prop) (m : M S A) : stops m → keeps R m.
Proof. intros Hm s. destruct (Hm s) as (e & s' & -> & He). by destruct e. Qed.

Lemma stops_halt {S A} e : e ≠ UserMode → stops (halt e : M S A).
Proof. intros He s. by exists e, s. Qed.

Lemma stops_bind {S A B} (R : S → S → Prop) (m : M S A) (f : A → M S B) :
  keeps R m → (∀ a, stops (f a)) → stops (m ≫= f).
Proof.
  intros Hm Hf s. specialize (Hm s). unfold mbind, M_bind. destruct (m s) as [a s1|e s1].
  - apply Hf.
  - exists e, s1. split; [done|]. by intros ->.
Qed.

Create HintDb keeps discriminated.
#[global] Hint Constants Opaque : keeps.

(** Computes the effect of a composed routine from those of its parts. *)
Ltac keeps :=
  repeat match goal with
    | |- keeps _ (mret _) => apply keeps_ret; apply _
    | |- keeps _ (halt _) => apply keeps_halt; discriminate
    | |- keeps _ (gets _) => apply keeps_gets; apply _
    | |- keeps _ (_ ≫= _) => apply keeps_bind; [apply _| |intros ?]
    | |- keeps _ (for_loop _ _ _ _) => apply keeps_for; [apply _|intros ? ?]
    | |- keeps _ (let '(_, _) := ?x in _) => destruct x
    | |- keeps _ (if ?b then _ else _) => destruct b
    | |- keeps _ (match ?x with _ => _ end) => destruct x
    | |- keeps _ _ => solve [auto with keeps nocore]
    end.

(** ** Counting *)

(** The number of occurrences of [f]. *)
Fixpoint occ (f : Z) (l : list Z) : Z :=
  match l with
  | [] => 0
  | x :: l => (if decide (x = f) then 1 else 0) + occ f l
  end.

Lemma occ_nonneg f l : 0 ≤ occ f l.
Proof. induction l; simpl; [lia|]. case_decide; lia. Qed.

Lemma occ_app f l k : occ f (l ++ k) = occ f l + occ f k.
Proof. induction l; simpl; lia. Qed.

Lemma occ_pos f l : 0 < occ f l ↔ f ∈ l.
Proof.
  induction l as [|x l IH]; simpl; [rewrite elem_of_nil; lia|].
  rewrite elem_of_cons, <- IH. pose proof (occ_nonneg f l). case_decide; split; intros; (lia || naive_solver lia).
Qed.

Lemma occ_zero f l : f ∉ l → occ f l = 0.
Proof. intros Hf. pose proof (occ_nonneg f l). rewrite <- occ_pos in Hf. lia. Qed.

Fixpoint zsum (h : Z → Z) (l : list Z) : Z :=
  match l with
  | [] => 0
  | x :: l => h x + zsum h l
  end.

Lemma zsum_ext g h l : (∀ x, x ∈ l → g x = h x) → zsum g l = zsum h l.
Proof.
  induction l as [|x l IH]; simpl; intros E; [done|].
  rewrite (E x), IH; [done| |]; [|set_solver].
  intros y Hy. apply E. set_solver.
Qed.

Lemma zsum_app h l k : zsum h (l ++ k) = zsum h l + zsum h k.
Proof. induction l as [|x l IH]; cbn [zsum app]; lia. Qed.

Lemma zsum_nonneg h l : (∀ x, x ∈ l → 0 ≤ h x) → 0 ≤ zsum h l.
Proof.
  induction l as [|x l IH]; simpl; intros Hh; [lia|].
  pose proof (Hh x ltac:(set_solver)). assert (0 ≤ zsum h l); [|lia]. apply IH. set_solver.
Qed.

(** One term of a sum, and the rest. *)
Lemma zsum_split h x l :
  NoDup l → x ∈ l → zsum h l = h x + zsum (λ y, if decide (y = x) then 0 else h y) l.
Proof.
  induction l as [|z l IH]; simpl; intros Hnd Hx; [set_solver|].
  apply NoDup_cons in Hnd as [Hz Hnd]. apply elem_of_cons in Hx as [->|Hx].
  - rewrite decide_True by done. rewrite (zsum_ext (λ y, if decide (y = z) then 0 else h y) h); [lia|].
    intros y Hy. rewrite decide_False; [done|]. intros ->. done.
  - rewrite IH by done. rewrite decide_False; [lia|]. intros ->. done.
Qed.
