(* ===== verification/X86.v ===== *)
(** The constants, address arithmetic and data types of [src/x86-64.h],
    [src/kernel.h] and [src/lib.h]. *)
From S2P Require Import Prelude.
Open Scope Z_scope.

(** ** Paged memory (x86-64.h) *)

Definition PAGEOFFBITS : Z := 12.
Definition PAGESIZE : Z := Z.shiftl 1 PAGEOFFBITS.
Definition PAGEINDEXBITS : Z := 9.
Definition NPAGETABLEENTRIES : Z := Z.shiftl 1 PAGEINDEXBITS.
Definition PAGENUMBER (ptr : Z) : Z := s32 (Z.shiftr ptr PAGEOFFBITS).
Definition PAGEADDRESS (pn : Z) : Z := u64 (Z.shiftl (u64 pn) PAGEOFFBITS).
Definition PAGEOFFMASK : Z := PAGESIZE - 1.
Definition PAGEOFFSET (addr : Z) : Z := Z.land addr PAGEOFFMASK.

(** The value [pageindex(addr, level)] returns once its assertion holds. *)
Definition pageindex_bits (addr level : Z) : Z :=
  Z.land (s32 (Z.shiftr addr (PAGEOFFBITS + (3 - level) * PAGEINDEXBITS))) 0x1FF.

Definition PTE_ADDR (pageentry : Z) : Z := Z.land pageentry (u64 (Z.lnot 0xFFF)).
Definition PTE_FLAGS (pageentry : Z) : Z := Z.land pageentry 0xFFF.
Definition PTE_P : Z := 1.
Definition PTE_W : Z := 2.
Definition PTE_U : Z := 4.
Definition PTE_PS : Z := 128.
Definition PTE_PW : Z := Z.lor PTE_P PTE_W.
Definition PTE_PU : Z := Z.lor PTE_P PTE_U.
Definition PTE_PWU : Z := Z.lor (Z.lor PTE_P PTE_W) PTE_U.

Definition PFERR_PRESENT : Z := 1.
Definition PFERR_WRITE : Z := 2.
Definition PFERR_USER : Z := 4.

(** ** Interrupt numbers (x86-64.h, kernel.h, lib.h) *)

Definition INT_GPF : Z := 0xd.
Definition INT_PAGEFAULT : Z := 0xe.
Definition INT_HARDWARE : Z := 32.
Definition INT_TIMER : Z := INT_HARDWARE + 0.
Definition INT_SYS : Z := 48.
Definition INT_SYS_PANIC : Z := INT_SYS + 0.
Definition INT_SYS_GETPID : Z := INT_SYS + 1.
Definition INT_SYS_YIELD : Z := INT_SYS + 2.
Definition INT_SYS_PAGE_ALLOC : Z := INT_SYS + 3.
Definition INT_SYS_FORK : Z := INT_SYS + 4.
Definition INT_SYS_EXIT : Z := INT_SYS + 5.
Definition INT_SYS_MAPPING : Z := INT_SYS + 6.
Definition INT_SYS_MEM_TOG : Z := INT_SYS + 8.

(** ** Kernel parameters (kernel.h) *)

Definition NPROC : Z := 16.
Definition KERNEL_START_ADDR : Z := 0x40000.
Definition KERNEL_STACK_TOP : Z := 0x80000.
Definition PROC_START_ADDR : Z := 0x100000.
Definition MEMSIZE_PHYSICAL : Z := 0x200000.
Definition NPAGES : Z := MEMSIZE_PHYSICAL / PAGESIZE.
Definition MEMSIZE_VIRTUAL : Z := 0x300000.

(** ** The console (lib.h, link/shared.ld) *)

Definition CONSOLE_COLUMNS : Z := 80.
Definition CONSOLE_ROWS : Z := 25.
Definition CPOS (row col : Z) : Z := row * 80 + col.
Definition CROW (cpos : Z) : Z := Z.quot cpos 80.
Definition CCOL (cpos : Z) : Z := Z.rem cpos 80.
Definition console : Z := 0xB8000.
Definition CONSOLE_ADDR : Z := console.
Definition cursorpos : Z := 0xB8FFC.

(** ** Registers (x86-64.h) *)

Record x86_64_registers : Type := MkRegs {
  reg_rax : Z; reg_rcx : Z; reg_rdx : Z; reg_rbx : Z; reg_rbp : Z;
  reg_rsi : Z; reg_rdi : Z; reg_r8 : Z; reg_r9 : Z; reg_r10 : Z;
  reg_r11 : Z; reg_r12 : Z; reg_r13 : Z; reg_r14 : Z; reg_r15 : Z;
  reg_fs : Z; reg_gs : Z; reg_intno : Z; reg_err : Z; reg_rip : Z;
  reg_cs : Z; reg_rflags : Z; reg_rsp : Z; reg_ss : Z }.

Definition zero_regs : x86_64_registers :=
  MkRegs 0 0 0 0 0 0 0 0 0 0 0 0 0 0 0 0 0 0 0 0 0 0 0 0.

(** [x.reg_rax = v], and the other assignments the kernel makes; each value
    is converted to the type of the field. *)
Definition set_rax (v : Z) (r : x86_64_registers) : x86_64_registers :=
  match r with
  | MkRegs _ a b c d e f g h i j k l m n o p q s t u v' w x =>
      MkRegs (u64 v) a b c d e f g h i j k l m n o p q s t u v' w x
  end.

Definition set_rip (v : Z) (r : x86_64_registers) : x86_64_registers :=
  match r with
  | MkRegs z a b c d e f g h i j k l m n o p q s _ u v' w x =>
      MkRegs z a b c d e f g h i j k l m n o p q s (u64 v) u v' w x
  end.

Definition set_rsp (v : Z) (r : x86_64_registers) : x86_64_registers :=
  match r with
  | MkRegs z a b c d e f g h i j k l m n o p q s t u v' _ x =>
      MkRegs z a b c d e f g h i j k l m n o p q s t u v' (u64 v) x
  end.

Definition set_segments (cs fs gs ss : Z) (r : x86_64_registers) : x86_64_registers :=
  match r with
  | MkRegs z a b c d e f g h i j k l m n _ _ q s t _ v' w _ =>
      MkRegs z a b c d e f g h i j k l m n (u64 fs) (u64 gs) q s t (u16 cs) v' w (u16 ss)
  end.

Definition set_rflags (v : Z) (r : x86_64_registers) : x86_64_registers :=
  match r with
  | MkRegs z a b c d e f g h i j k l m n o p q s t u _ w x =>
      MkRegs z a b c d e f g h i j k l m n o p q s t u (u64 v) w x
  end.

(** ** Process descriptors and mappings (kernel.h, lib.h) *)

Inductive procstate : Type := P_FREE | P_RUNNABLE | P_BLOCKED | P_BROKEN.

#[global] Instance procstate_eq_dec : EqDecision procstate.
Proof. solve_decision. Defined.

Record proc : Type := MkProc {
  p_pid : Z;
  p_registers : x86_64_registers;
  p_state : procstate;
  p_pagetable : Z;
  display_status : Z }.

Record vamapping : Type := MkMap { pn : Z; pa : Z; perm : Z }.

#[global] Instance vamapping_eq_dec : EqDecision vamapping.
Proof. solve_decision. Defined.

(** ** Arithmetic of pages and entries *)

Ltac consts :=
  change PAGESIZE with 4096 in *; change NPAGES with 512 in *;
  change NPAGETABLEENTRIES with 512 in *; change MEMSIZE_PHYSICAL with 0x200000 in *;
  change MEMSIZE_VIRTUAL with 0x300000 in *; change PROC_START_ADDR with 0x100000 in *;
  change NPROC with 16 in *; change PAGEOFFBITS with 12 in *;
  change PAGEINDEXBITS with 9 in *; change PAGEOFFMASK with 4095 in *;
  change KERNEL_START_ADDR with 0x40000 in *; change KERNEL_STACK_TOP with 0x80000 in *.

Ltac zlia := consts; lia.

Lemma PAGEOFFSET_mod a : PAGEOFFSET a = a mod 4096.
Proof. unfold PAGEOFFSET. change PAGEOFFMASK with (Z.ones 12). by rewrite Z.land_ones. Qed.

Lemma PTE_FLAGS_mod e : PTE_FLAGS e = e mod 4096.
Proof. unfold PTE_FLAGS. change 0xFFF with (Z.ones 12). by rewrite Z.land_ones. Qed.

Lemma PTE_FLAGS_range e : 0 ≤ PTE_FLAGS e < 4096.
Proof. rewrite PTE_FLAGS_mod. apply Z.mod_pos_bound. lia. Qed.

Lemma PTE_ADDR_sub e : 0 ≤ e < 2 ^ 64 → PTE_ADDR e = e - e mod 4096.
Proof.
  intros He. unfold PTE_ADDR.
  assert (Z.land e (u64 (Z.lnot 0xFFF)) = Z.ldiff e (Z.ones 12)) as ->.
  { apply Z.bits_inj'. intros i Hi. rewrite Z.land_spec, Z.ldiff_spec.
    change (u64 (Z.lnot 0xFFF)) with (Z.ldiff (Z.ones 64) (Z.ones 12)).
    rewrite Z.ldiff_spec. destruct (decide (i < 64)).
    - by rewrite (Z.ones_spec_low 64) by lia.
    - rewrite (Z.ones_spec_high 64) by lia.
      assert (Z.testbit e i = false) as ->; [|done].
      rewrite <- (Z.mod_small e (2 ^ 64)) by lia. apply Z.mod_pow2_bits_high. lia. }
  rewrite Z.ldiff_ones_r by lia. rewrite Z.shiftl_mul_pow2, Z.shiftr_div_pow2 by lia.
  change (2 ^ 12) with 4096. pose proof (Z.div_mod e 4096). lia.
Qed.

Lemma PTE_ADDR_range e : 0 ≤ e < 2 ^ 64 → 0 ≤ PTE_ADDR e ≤ e.
Proof.
  intros He. rewrite PTE_ADDR_sub by done.
  pose proof (Z.mod_pos_bound e 4096). pose proof (Z.mod_le e 4096). lia.
Qed.

(** An entry built from a page address and 12 bits of flags. *)
Lemma PTE_ADDR_entry a f :
  0 ≤ a < 2 ^ 63 → a mod 4096 = 0 → 0 ≤ f < 4096 → PTE_ADDR (a + f) = a.
Proof.
  intros Ha Hal Hf. rewrite PTE_ADDR_sub by lia.
  rewrite Z.add_mod, Hal, Z.add_0_l, Z.mod_mod, (Z.mod_small f) by lia. lia.
Qed.

Lemma PTE_FLAGS_entry a f :
  a mod 4096 = 0 → 0 ≤ f < 4096 → PTE_FLAGS (a + f) = f.
Proof.
  intros Hal Hf. rewrite PTE_FLAGS_mod.
  rewrite Z.add_mod, Hal, Z.add_0_l, Z.mod_mod, (Z.mod_small f) by lia. done.
Qed.

Lemma PAGENUMBER_div a : 0 ≤ a < 2 ^ 43 → PAGENUMBER a = a / 4096.
Proof.
  intros Ha. unfold PAGENUMBER. consts. rewrite Z.shiftr_div_pow2 by lia.
  change (2 ^ 12) with 4096. rewrite s32_small; [done|].
  split; [|apply Z.div_lt_upper_bound; lia].
  transitivity 0; [lia|]. apply Z.div_pos; lia.
Qed.

Lemma PAGEADDRESS_mul p : 0 ≤ p < 2 ^ 52 → PAGEADDRESS p = p * 4096.
Proof.
  intros Hp. unfold PAGEADDRESS. consts.
  rewrite (u64_small p) by lia. rewrite Z.shiftl_mul_pow2 by lia.
  rewrite u64_small; lia.
Qed.

Lemma pageindex_mod addr level :
  0 ≤ level ≤ 3 →
  pageindex_bits addr level = (addr / 2 ^ (12 + (3 - level) * 9)) mod 512.
Proof.
  intros Hl. unfold pageindex_bits, s32. consts. rewrite Z.shiftr_div_pow2 by lia.
  set (x := addr / _). change 0x1FF with (Z.ones 9). rewrite Z.land_ones by lia.
  change (2 ^ 9) with 512. change (2 ^ 32) with (512 * 2 ^ 23).
  rewrite Zminus_mod. rewrite Z.rem_mul_r by lia.
  rewrite Z.add_mod, (Z.mul_comm 512), Z.mod_mul, Z.add_0_r, !Z.mod_mod by lia.
  change (2 ^ 31 mod 512) with 0. rewrite Z.sub_0_r, Z.mod_mod by lia.
  rewrite Z.add_mod by lia. change (2 ^ 31 mod 512) with 0.
  by rewrite Z.add_0_r, Z.mod_mod by lia.
Qed.

Lemma pageindex_range addr level : 0 ≤ level ≤ 3 → 0 ≤ pageindex_bits addr level < 512.
Proof. intros. rewrite pageindex_mod by done. apply Z.mod_pos_bound. lia. Qed.

(** ** Flag bits *)

Lemma has_pow2 k e : 0 ≤ k → has e (2 ^ k) = Z.testbit e k.
Proof.
  intros Hk. unfold has, istrue.
  assert (Z.testbit (Z.land e (2 ^ k)) k = Z.testbit e k) as Hb.
  { by rewrite Z.land_spec, Z.pow2_bits_true, andb_true_r by lia. }
  destruct (Z.eqb_spec (Z.land e (2 ^ k)) 0) as [E|E]; cbn.
  - by rewrite E, Z.testbit_0_l in Hb.
  - destruct (Z.testbit e k) eqn:Ek; [done|]. exfalso. apply E.
    apply Z.bits_inj'. intros i Hi. rewrite Z.land_spec, Z.testbit_0_l.
    destruct (decide (i = k)) as [->|]; [by rewrite Ek|].
    rewrite Z.pow2_bits_false by lia. apply andb_false_r.
Qed.

Lemma has_P e : has e PTE_P = Z.testbit e 0.
Proof. apply (has_pow2 0). lia. Qed.
Lemma has_W e : has e PTE_W = Z.testbit e 1.
Proof. apply (has_pow2 1). lia. Qed.
Lemma has_U e : has e PTE_U = Z.testbit e 2.
Proof. apply (has_pow2 2). lia. Qed.

(** [e & ~x] on 64 bits. *)
Lemma land_not e x : 0 ≤ e < 2 ^ 64 → Z.land e (u64 (Z.lnot x)) = Z.ldiff e x.
Proof.
  intros He. apply Z.bits_inj'. intros i Hi. rewrite Z.land_spec, Z.ldiff_spec.
  destruct (decide (i < 64)).
  - unfold u64. by rewrite Z.mod_pow2_bits_low, Z.lnot_spec by lia.
  - assert (Z.testbit e i = false) as ->; [|done].
    rewrite <- (Z.mod_small e (2 ^ 64)) by lia. apply Z.mod_pow2_bits_high. lia.
Qed.

Lemma ldiff_range e x : 0 ≤ e < 2 ^ 64 → 0 ≤ Z.ldiff e x < 2 ^ 64.
Proof.
  intros He. rewrite <- (land_not e x) by done. split.
  - apply Z.land_nonneg. lia.
  - destruct (Z.eq_dec (Z.land e (u64 (Z.lnot x))) 0) as [->|Hne]; [lia|].
    assert (0 ≤ Z.land e (u64 (Z.lnot x))) by (apply Z.land_nonneg; lia).
    apply Z.log2_lt_pow2; [lia|]. eapply Z.le_lt_trans; [apply Z.log2_land; try lia; apply u64_range|].
    apply Z.min_lt_iff. right.
    pose proof (u64_range (Z.lnot x)).
    destruct (Z.eq_dec (u64 (Z.lnot x)) 0) as [->|]; [cbn; lia|].
    apply Z.log2_lt_pow2; lia.
Qed.

(** Masking off flag bits leaves the address and the other flags. *)
Lemma PTE_ADDR_ldiff e x : 0 ≤ x < 4096 → PTE_ADDR (Z.ldiff e x) = PTE_ADDR e.
Proof.
  intros Hx. unfold PTE_ADDR. apply Z.bits_inj'. intros i Hi.
  rewrite !Z.land_spec, Z.ldiff_spec.
  destruct (decide (i < 12)).
  - assert (Z.testbit (u64 (Z.lnot 0xFFF)) i = false) as ->; [|by rewrite !andb_false_r].
    unfold u64. rewrite Z.mod_pow2_bits_low, Z.lnot_spec by lia.
    change 0xFFF with (Z.ones 12). by rewrite Z.ones_spec_low by lia.
  - assert (Z.testbit x i = false) as ->; [|by rewrite andb_true_r].
    rewrite <- (Z.mod_small x (2 ^ 12)) by lia. apply Z.mod_pow2_bits_high. lia.
Qed.

(** Disjoint bits add up. *)
Lemma lor_page p f : p mod 4096 = 0 → 0 ≤ f < 4096 → Z.lor p f = p + f.
Proof.
  intros Hp Hf.
  assert (Z.land p f = 0) as Hz.
  { apply Z.bits_inj'. intros i Hi. rewrite Z.land_spec, Z.testbit_0_l.
    destruct (decide (i < 12)).
    - assert (Z.testbit p i = false) as ->; [|done].
      rewrite <- (Z.mod_pow2_bits_low p 12) by lia. change (2 ^ 12) with 4096.
      by rewrite Hp, Z.testbit_0_l.
    - assert (Z.testbit f i = false) as ->; [|apply andb_false_r].
      rewrite <- (Z.mod_small f (2 ^ 12)) by lia. apply Z.mod_pow2_bits_high. lia. }
  rewrite Z.add_nocarry_lxor by done. by rewrite Z.lxor_lor.
Qed.

Lemma PTE_split e : 0 ≤ e < 2 ^ 64 → PTE_ADDR e + PTE_FLAGS e = e.
Proof. intros. rewrite PTE_ADDR_sub, PTE_FLAGS_mod by done. lia. Qed.

Lemma PTE_ADDR_aligned e : 0 ≤ e < 2 ^ 64 → PTE_ADDR e mod 4096 = 0.
Proof.
  intros. rewrite PTE_ADDR_sub by done. rewrite Zminus_mod, Z.mod_mod, Z.sub_diag by lia. done.
Qed.

(** The low twelve bits are the flags. *)
Lemma has_flags e f : 0 ≤ f < 4096 → has (PTE_FLAGS e) f = has e f.
Proof.
  intros Hf. unfold has, PTE_FLAGS. f_equal. rewrite <- Z.land_assoc. f_equal.
  rewrite Z.land_comm. change 0xFFF with (Z.ones 12). rewrite Z.land_ones by lia.
  by apply Z.mod_small.
Qed.
