(* ===== verification/Machine.v ===== *)
(** Physical memory, the I/O ports and the processor and device state that the
    C code reaches through pointers and inline assembly. *)
From S2P Require Import Prelude X86.
Open Scope Z_scope.

(** ** Physical memory

    Bytes by physical address; an address the map leaves out holds 0.  A cell
    is read modulo 256, so a byte is a byte whatever was stored. *)

Definition load8 (m : gmap Z Z) (a : Z) : Z := default 0 (m !! a) mod 256.

Fixpoint load (n : nat) (m : gmap Z Z) (a : Z) : Z :=
  match n with
  | O => 0
  | S n => load8 m a + 256 * load n m (a + 1)
  end.

Fixpoint store (n : nat) (m : gmap Z Z) (a v : Z) : gmap Z Z :=
  match n with
  | O => m
  | S n => store n (<[a := v mod 256]> m) (a + 1) (v / 256)
  end.

(** [memset] and the forward copy of [memcpy], on the bytes alone. *)
Fixpoint fill (n : nat) (m : gmap Z Z) (a c : Z) : gmap Z Z :=
  match n with
  | O => m
  | S n => fill n (store 1 m a c) (a + 1) c
  end.

Fixpoint copy (n : nat) (m : gmap Z Z) (d s : Z) : gmap Z Z :=
  match n with
  | O => m
  | S n => copy n (store 1 m d (load 1 m s)) (d + 1) (s + 1)
  end.

(** Memories that agree on every byte of a region. *)
Definition agree (P : Z → Prop) (m m' : gmap Z Z) : Prop :=
  ∀ a, P a → load8 m a = load8 m' a.

#[global] Instance agree_equiv P : Equivalence (agree P).
Proof.
  split.
  - by intros m a.
  - intros m m' H a Ha. by rewrite H.
  - intros m1 m2 m3 H1 H2 a Ha. by rewrite H1, H2.
Qed.

Lemma agree_weaken (P Q : Z → Prop) m m' :
  (∀ a, Q a → P a) → agree P m m' → agree Q m m'.
Proof. intros HPQ H a Ha. apply H, HPQ, Ha. Qed.

Lemma load8_range m a : 0 ≤ load8 m a < 256.
Proof. apply Z.mod_pos_bound; lia. Qed.

Lemma load8_insert m a v b :
  load8 (<[a := v]> m) b = if decide (a = b) then v mod 256 else load8 m b.
Proof. unfold load8. rewrite lookup_insert. by case_decide. Qed.

Lemma load_1 m a : load 1 m a = load8 m a.
Proof. simpl. lia. Qed.

Lemma load_app n k m a :
  load (n + k) m a = load n m a + 256 ^ Z.of_nat n * load k m (a + Z.of_nat n).
Proof.
  revert a. induction n as [|n IH]; intros a; cbn [load Nat.add].
  - rewrite Z.pow_0_r. replace (a + Z.of_nat 0) with a by lia. lia.
  - rewrite IH, Nat2Z.inj_succ, Z.pow_succ_r by lia.
    replace (a + 1 + Z.of_nat n) with (a + Z.succ (Z.of_nat n)) by lia. lia.
Qed.

Lemma load_range n m a : 0 ≤ load n m a < 256 ^ Z.of_nat n.
Proof.
  revert a. induction n as [|n IH]; intros a; cbn [load]; [simpl; lia|].
  rewrite Nat2Z.inj_succ, Z.pow_succ_r by lia.
  pose proof (IH (a + 1)). pose proof (load8_range m a). lia.
Qed.

Lemma load_agree n m m' a :
  (∀ b, a ≤ b < a + Z.of_nat n → load8 m b = load8 m' b) → load n m a = load n m' a.
Proof.
  revert a. induction n as [|n IH]; intros a H; cbn [load]; [done|].
  rewrite H by lia. by rewrite IH by (intros; apply H; lia).
Qed.

Lemma load8_store_out n m a v b :
  b < a ∨ a + Z.of_nat n ≤ b → load8 (store n m a v) b = load8 m b.
Proof.
  revert m a v. induction n as [|n IH]; intros m a v H; cbn [store]; [done|].
  rewrite IH by lia. rewrite load8_insert. case_decide; [lia|done].
Qed.

Lemma load_store_out n k m a v b :
  b + Z.of_nat k ≤ a ∨ a + Z.of_nat n ≤ b → load k (store n m a v) b = load k m b.
Proof. intros H. apply load_agree. intros c Hc. apply load8_store_out. lia. Qed.

Lemma load_store_eq n m a v : load n (store n m a v) a = v mod 256 ^ Z.of_nat n.
Proof.
  revert m a v. induction n as [|n IH]; intros m a v; cbn [load store].
  - by rewrite Z.mod_1_r.
  - rewrite IH, load8_store_out, load8_insert by lia. rewrite decide_True by done.
    rewrite Z.mod_mod by lia.
    rewrite Nat2Z.inj_succ, Z.pow_succ_r, Z.rem_mul_r by lia. lia.
Qed.

Lemma load8_store_1 m a v b :
  load8 (store 1 m a v) b = if decide (a = b) then v mod 256 else load8 m b.
Proof. cbn [store]. rewrite load8_insert. case_decide; [|done]. apply Z.mod_mod; lia. Qed.

Lemma load8_fill n m a c b :
  load8 (fill n m a c) b
  = if decide (a ≤ b < a + Z.of_nat n) then c mod 256 else load8 m b.
Proof.
  revert m a. induction n as [|n IH]; intros m a; cbn [fill].
  - rewrite decide_False by lia. done.
  - rewrite IH, load8_store_1. repeat case_decide; try done; lia.
Qed.

(** The forward copy moves the source bytes whenever the destination does not
    start inside the source. *)
Lemma load8_copy n m d s b :
  d ≤ s ∨ s + Z.of_nat n ≤ d →
  load8 (copy n m d s) b
  = if decide (d ≤ b < d + Z.of_nat n) then load8 m (s + (b - d)) else load8 m b.
Proof.
  revert m d s. induction n as [|n IH]; intros m d s H; cbn [copy].
  - rewrite decide_False by lia. done.
  - rewrite IH by lia. rewrite !load8_store_1, load_1.
    assert (load8 m s mod 256 = load8 m s) as Hs
      by (apply Z.mod_small, load8_range).
    destruct (decide (d = b)) as [->|].
    + rewrite decide_False, decide_True by lia.
      rewrite Hs. f_equal. lia.
    + destruct (decide (d + 1 ≤ b < d + 1 + Z.of_nat n)).
      * rewrite (decide_True (P := d ≤ b < _)) by lia. rewrite decide_False by lia.
        f_equal. lia.
      * rewrite (decide_False (P := d ≤ b < _)) by lia. done.
Qed.

(** ** The machine

    [mem] is physical memory.  The kernel's own static variables that are
    reached by name and never through a computed pointer are fields here (those
    of [k-hardware.c] and [vm.c]) or in [Kernel.kstate] (those of [kernel.c]).
    [outs] lists the port writes, latest first, as (port, value); [reads]
    counts the port reads.  [cr0], [cr2] and [cr3] are the control registers. *)

Record machine : Type := MkMachine {
  mem : gmap Z Z;
  outs : list (Z * Z);
  reads : nat;
  cr0 : Z;
  cr2 : Z;
  cr3 : Z;
  segments : list Z;
  interrupt_descriptors : list (Z * Z);
  interrupts_enabled : Z;
  modifiers : Z;
  last_escape : Z;
  initialized : Z;
  kernel_pagetable : Z }.

(** What is set up at boot and then stays: the kernel's page table and the
    interrupt descriptors. *)
Definition fixed_tables (s : machine) : Z * list (Z * Z) := (kernel_pagetable s, interrupt_descriptors s).

Definition set_mem (x : gmap Z Z) (s : machine) : machine :=
  MkMachine x (outs s) (reads s) (cr0 s) (cr2 s) (cr3 s) (segments s)
    (interrupt_descriptors s) (interrupts_enabled s) (modifiers s) (last_escape s)
    (initialized s) (kernel_pagetable s).
Definition set_io (o : list (Z * Z)) (n : nat) (s : machine) : machine :=
  MkMachine (mem s) o n (cr0 s) (cr2 s) (cr3 s) (segments s) (interrupt_descriptors s)
    (interrupts_enabled s) (modifiers s) (last_escape s) (initialized s)
    (kernel_pagetable s).
Definition set_cr0 (x : Z) (s : machine) : machine :=
  MkMachine (mem s) (outs s) (reads s) x (cr2 s) (cr3 s) (segments s)
    (interrupt_descriptors s) (interrupts_enabled s) (modifiers s) (last_escape s)
    (initialized s) (kernel_pagetable s).
Definition set_cr3 (x : Z) (s : machine) : machine :=
  MkMachine (mem s) (outs s) (reads s) (cr0 s) (cr2 s) x (segments s)
    (interrupt_descriptors s) (interrupts_enabled s) (modifiers s) (last_escape s)
    (initialized s) (kernel_pagetable s).
Definition set_descriptors (x : list Z) (y : list (Z * Z)) (s : machine) : machine :=
  MkMachine (mem s) (outs s) (reads s) (cr0 s) (cr2 s) (cr3 s) x y (interrupts_enabled
    s) (modifiers s) (last_escape s) (initialized s) (kernel_pagetable s).
Definition set_interrupts (x : Z) (s : machine) : machine :=
  MkMachine (mem s) (outs s) (reads s) (cr0 s) (cr2 s) (cr3 s) (segments s)
    (interrupt_descriptors s) x (modifiers s) (last_escape s) (initialized s)
    (kernel_pagetable s).
Definition set_keyboard (x y : Z) (s : machine) : machine :=
  MkMachine (mem s) (outs s) (reads s) (cr0 s) (cr2 s) (cr3 s) (segments s)
    (interrupt_descriptors s) (interrupts_enabled s) x y (initialized s)
    (kernel_pagetable s).
Definition set_initialized (x : Z) (s : machine) : machine :=
  MkMachine (mem s) (outs s) (reads s) (cr0 s) (cr2 s) (cr3 s) (segments s)
    (interrupt_descriptors s) (interrupts_enabled s) (modifiers s) (last_escape s) x
    (kernel_pagetable s).
Definition set_kernel_pagetable (x : Z) (s : machine) : machine :=
  MkMachine (mem s) (outs s) (reads s) (cr0 s) (cr2 s) (cr3 s) (segments s)
    (interrupt_descriptors s) (interrupts_enabled s) (modifiers s) (last_escape s)
    (initialized s) x.

(** A dereference in the kernel, which runs with all of physical memory mapped
    at its own address and nothing else: outside it, a page fault. *)
Definition in_memory (a n : Z) : bool := (0 <=? a) && (a + n <=? MEMSIZE_PHYSICAL).

Definition read (n : nat) (a : Z) : M machine Z := λ s,
  if in_memory a (Z.of_nat n) then Ok (load n (mem s) a) s else Halt (KernelFault a) s.

Definition write (n : nat) (a v : Z) : M machine () := λ s,
  if in_memory a (Z.of_nat n) then Ok () (set_mem (store n (mem s) a v) s)
  else Halt (KernelFault a) s.

(** ** Port I/O

    What a port read returns is up to the device: an arbitrary function of the
    number of reads so far and of the port. *)

Class Devices : Type := port_in : nat → Z → Z.

Definition inb `{Devices} (port : Z) : M machine Z := λ s,
  Ok (u8 (port_in (reads s) port)) (set_io (outs s) (Datatypes.S (reads s)) s).
Definition inl `{Devices} (port : Z) : M machine Z := λ s,
  Ok (u32 (port_in (reads s) port)) (set_io (outs s) (Datatypes.S (reads s)) s).
Definition outb (port data : Z) : M machine () := λ s,
  Ok () (set_io ((port, u8 data) :: outs s) (reads s) s).
Definition outw (port data : Z) : M machine () := λ s,
  Ok () (set_io ((port, u16 data) :: outs s) (reads s) s).
Definition outl (port data : Z) : M machine () := λ s,
  Ok () (set_io ((port, u32 data) :: outs s) (reads s) s).

Definition lcr0 (val : Z) : M machine () := modify (set_cr0 (u32 val)).
Definition rcr0 : M machine Z := gets (λ s, u32 (cr0 s)).
Definition rcr2 : M machine Z := gets cr2.
Definition lcr3 (val : Z) : M machine () := modify (set_cr3 val).

Lemma in_memory_true a n : 0 ≤ a → a + n ≤ 0x200000 → in_memory a n = true.
Proof. intros. unfold in_memory. apply andb_true_intro. split; apply Z.leb_le; zlia. Qed.

Lemma read_ok n a s :
  0 ≤ a → a + Z.of_nat n ≤ 0x200000 → read n a s = Ok (load n (mem s) a) s.
Proof. intros. unfold read. by rewrite in_memory_true. Qed.

Lemma write_ok n a v s :
  0 ≤ a → a + Z.of_nat n ≤ 0x200000 →
  write n a v s = Ok () (set_mem (store n (mem s) a v) s).
Proof. intros. unfold write. by rewrite in_memory_true. Qed.

(** Machines that differ in memory only. *)
Lemma set_mem_twice x y s : set_mem x (set_mem y s) = set_mem x s.
Proof. done. Qed.

Lemma set_mem_id s : set_mem (mem s) s = s.
Proof. by destruct s. Qed.

Arguments load : simpl never.
Arguments store : simpl never.

(** Aligned 8-byte accesses. *)
Lemma load_store_aligned m a b v :
  a mod 8 = 0 → b mod 8 = 0 →
  load 8 (store 8 m a v) b = if decide (a = b) then u64 v else load 8 m b.
Proof.
  intros Ha Hb. case_decide as E.
  - subst. apply (load_store_eq 8).
  - apply load_store_out. pose proof (Z.div_mod a 8). pose proof (Z.div_mod b 8). lia.
Qed.

Lemma load_zero n m a :
  (∀ b, a ≤ b < a + Z.of_nat n → load8 m b = 0) → load n m a = 0.
Proof.
  revert a. induction n as [|n IH]; intros a H; cbn -[load8]; [done|].
  change (load (Datatypes.S n) m a) with (load8 m a + 256 * load n m (a + 1)).
  rewrite H by lia. rewrite IH; [done|]. intros b ?. apply H. lia.
Qed.

(** A machine with the given memory and its static variables zero. *)
Definition machine_with (m : gmap Z Z) : machine := MkMachine m [] 0 0 0 0 [] [] 0 0 0 0 0.
