(* ===== verification/CLib.v ===== *)
(** The C library subset of [src/lib.c]: memory and string functions, on
    physical memory, and the pseudo-random generator. *)
From S2P Require Import Prelude X86 Machine.
Open Scope Z_scope.

(** ** memcpy, memmove, memset *)

Fixpoint memcpy_loop (n : nat) (d s : Z) : M machine () :=
  match n with
  | O => mret ()
  | S n => c ← read 1 s; write 1 d c;; memcpy_loop n (d + 1) (s + 1)
  end.

Definition memcpy (dst src n : Z) : M machine Z :=
  memcpy_loop (Z.to_nat n) dst src;; mret dst.

(** [*--d = *--s] *)
Fixpoint memmove_down (n : nat) (d s : Z) : M machine () :=
  match n with
  | O => mret ()
  | S n => c ← read 1 (s - 1); write 1 (d - 1) c;; memmove_down n (d - 1) (s - 1)
  end.

Definition memmove (dst src n : Z) : M machine Z :=
  (if (src <? dst) && (dst <? src + n)
   then memmove_down (Z.to_nat n) (dst + n) (src + n)
   else memcpy_loop (Z.to_nat n) dst src);;
  mret dst.

Fixpoint memset_loop (n : nat) (p c : Z) : M machine () :=
  match n with
  | O => mret ()
  | S n => write 1 p c;; memset_loop n (p + 1) c
  end.

Definition memset (v c n : Z) : M machine Z :=
  memset_loop (Z.to_nat n) v c;; mret v.

Lemma memset_loop_ok n p c s :
  0 ≤ p → p + Z.of_nat n ≤ 0x200000 →
  memset_loop n p c s = Ok () (set_mem (fill n (mem s) p c) s).
Proof.
  revert p s. induction n as [|n IH]; intros p s H0 H1; cbn [memset_loop fill].
  - by rewrite set_mem_id.
  - erewrite bind_ok by (apply write_ok; lia). by rewrite IH by lia.
Qed.

Lemma memset_ok v c n s :
  0 ≤ v → 0 ≤ n → v + n ≤ 0x200000 →
  memset v c n s = Ok v (set_mem (fill (Z.to_nat n) (mem s) v c) s).
Proof. intros. unfold memset. by erewrite bind_ok by (apply memset_loop_ok; lia). Qed.

Lemma memcpy_loop_ok n d p s :
  0 ≤ d → d + Z.of_nat n ≤ 0x200000 → 0 ≤ p → p + Z.of_nat n ≤ 0x200000 →
  memcpy_loop n d p s = Ok () (set_mem (copy n (mem s) d p) s).
Proof.
  revert d p s. induction n as [|n IH]; intros d p s ????; cbn [memcpy_loop copy].
  - by rewrite set_mem_id.
  - erewrite bind_ok by (apply read_ok; lia).
    erewrite bind_ok by (apply write_ok; lia). by rewrite IH by lia.
Qed.

Lemma memcpy_ok d p n s :
  0 ≤ n → 0 ≤ d → d + n ≤ 0x200000 → 0 ≤ p → p + n ≤ 0x200000 →
  memcpy d p n s = Ok d (set_mem (copy (Z.to_nat n) (mem s) d p) s).
Proof. intros. unfold memcpy. by erewrite bind_ok by (apply memcpy_loop_ok; lia). Qed.

(** The backward copy moves the source bytes when the destination starts after
    the source. *)
Lemma memmove_down_ok n d p s :
  p < d → Z.of_nat n ≤ p → d ≤ 0x200000 →
  ∃ m, memmove_down n d p s = Ok () (set_mem m s) ∧
  ∀ b, load8 m b = if decide (d - Z.of_nat n ≤ b < d)
                   then load8 (mem s) (p + (b - d)) else load8 (mem s) b.
Proof.
  revert d p s. induction n as [|n IH]; intros d p s H1 H2 H3; cbn [memmove_down].
  - exists (mem s). split; [by rewrite set_mem_id|]. intros b.
    by rewrite decide_False by lia.
  - erewrite bind_ok by (apply read_ok; lia). erewrite bind_ok by (apply write_ok; lia).
    rewrite load_1. set (m1 := store 1 (mem s) (d - 1) (load8 (mem s) (p - 1))).
    destruct (IH (d - 1) (p - 1) (set_mem m1 s)) as (m & -> & Hm); [lia..|].
    exists m. split; [done|]. intros b. rewrite Hm. cbn [mem set_mem]. unfold m1.
    rewrite !load8_store_1. pose proof (load8_range (mem s) (p - 1)).
    rewrite (Z.mod_small (load8 _ _)) by done.
    repeat case_decide; try lia; try done; f_equal; lia.
Qed.

(** ** Strings

    A string runs to its first NUL.  The loops read one byte after the other;
    they leave physical memory, with a kernel fault, after at most [str_fuel]
    reads. *)

Definition str_fuel (s : Z) : nat := Datatypes.S (Z.to_nat (MEMSIZE_PHYSICAL - s)).

Fixpoint strlen_loop (fuel : nat) (s n : Z) : M machine Z :=
  match fuel with
  | O => halt Spinning
  | S fuel => c ← read 1 s;
              if c =? 0 then mret n else strlen_loop fuel (s + 1) (n + 1)
  end.

Definition strlen (s : Z) : M machine Z := strlen_loop (str_fuel s) s 0.

Fixpoint strnlen_loop (fuel : nat) (s n maxlen : Z) : M machine Z :=
  match fuel with
  | O => halt Spinning
  | S fuel =>
      if n =? maxlen then mret n else
      c ← read 1 s;
      if c =? 0 then mret n else strnlen_loop fuel (s + 1) (n + 1) maxlen
  end.

Definition strnlen (s maxlen : Z) : M machine Z := strnlen_loop (str_fuel s) s 0 maxlen.

Fixpoint strcpy_loop (fuel : nat) (d s : Z) : M machine () :=
  match fuel with
  | O => halt Spinning
  | S fuel => c ← read 1 s; write 1 d c;;
              if c =? 0 then mret () else strcpy_loop fuel (d + 1) (s + 1)
  end.

Definition strcpy (dst src : Z) : M machine Z :=
  strcpy_loop (str_fuel src) dst src;; mret dst.

Fixpoint strcmp_loop (fuel : nat) (a b : Z) : M machine Z :=
  match fuel with
  | O => halt Spinning
  | S fuel =>
      ca ← read 1 a; cb ← read 1 b;
      if istrue ca && istrue cb && (ca =? cb)
      then strcmp_loop fuel (a + 1) (b + 1)
      else mret ((if cb <? ca then 1 else 0) - (if ca <? cb then 1 else 0))
  end.

Definition strcmp (a b : Z) : M machine Z := strcmp_loop (str_fuel a) a b.

Fixpoint strchr_loop (fuel : nat) (s c : Z) : M machine Z :=
  match fuel with
  | O => halt Spinning
  | S fuel =>
      x ← read 1 s;
      if istrue x && negb (x =? u8 c) then strchr_loop fuel (s + 1) c
      else mret (if x =? u8 c then s else 0)
  end.

Definition strchr (s c : Z) : M machine Z := strchr_loop (str_fuel s) s c.

(** [l], without its NUL, is the string at address [s]. *)
Fixpoint cstr (m : gmap Z Z) (s : Z) (l : list Z) : Prop :=
  0 ≤ s < MEMSIZE_PHYSICAL ∧
  match l with
  | [] => load8 m s = 0
  | c :: l => c ≠ 0 ∧ load8 m s = c ∧ cstr m (s + 1) l
  end.

(** The sign of the first difference of two strings. *)
Fixpoint str_compare (a b : list Z) : Z :=
  match a, b with
  | [], [] => 0
  | [], _ :: _ => -1
  | _ :: _, [] => 1
  | x :: a, y :: b => if x =? y then str_compare a b else if y <? x then 1 else -1
  end.

Lemma str_fuel_step s : s < MEMSIZE_PHYSICAL → str_fuel s = Datatypes.S (str_fuel (s + 1)).
Proof. unfold str_fuel. zlia. Qed.

Lemma cstr_range m s l : cstr m s l → 0 ≤ s < 0x200000.
Proof. destruct l; simpl; intros [? ?]; zlia. Qed.

Lemma read_byte m s : 0 ≤ s < 0x200000 → read 1 s m = Ok (load8 (mem m) s) m.
Proof. intros. rewrite read_ok, load_1 by lia. done. Qed.

Lemma strlen_loop_ok s m l n :
  cstr (mem m) s l →
  strlen_loop (str_fuel s) s n m = Ok (n + Z.of_nat (length l)) m.
Proof.
  revert s n. induction l as [|c l IH]; intros s n H; pose proof (cstr_range _ _ _ H);
    rewrite str_fuel_step by zlia; cbn [strlen_loop];
    erewrite bind_ok by (apply read_byte; done); destruct H as [_ H].
  - rewrite H. cbn. f_equal. lia.
  - destruct H as (Hc & -> & H). rewrite (proj2 (Z.eqb_neq c 0)) by done.
    rewrite IH by done. f_equal. cbn [length]. lia.
Qed.

Lemma strcmp_loop_ok a b m la lb :
  cstr (mem m) a la → cstr (mem m) b lb →
  strcmp_loop (str_fuel a) a b m = Ok (str_compare la lb) m.
Proof.
  revert a b lb. induction la as [|x la IH]; intros a b lb Ha Hb;
    pose proof (cstr_range _ _ _ Ha); pose proof (cstr_range _ _ _ Hb);
    rewrite str_fuel_step by zlia; cbn [strcmp_loop];
    do 2 (erewrite bind_ok by (apply read_byte; done));
    destruct Ha as [_ Ha];
    pose proof (load8_range (mem m) a); pose proof (load8_range (mem m) b).
  - rewrite Ha in *. destruct lb as [|y lb]; destruct Hb as [_ Hb]; cbn.
    + by rewrite Hb.
    + destruct Hb as (?&<-&_). destruct (Z.ltb_spec 0 (load8 (mem m) b)); [|lia].
      by destruct (Z.ltb_spec (load8 (mem m) b) 0); [lia|].
  - destruct Ha as (Hx & Hax & Ha). rewrite Hax in *.
    destruct lb as [|y lb]; destruct Hb as [_ Hb]; cbn.
    + rewrite Hb. unfold istrue. rewrite andb_false_r. cbn.
      destruct (Z.ltb_spec 0 x); [|lia]. by destruct (Z.ltb_spec x 0); [lia|].
    + destruct Hb as (Hy&->&Hb). unfold istrue.
      rewrite (proj2 (Z.eqb_neq x 0)), (proj2 (Z.eqb_neq y 0)) by done. cbn.
      destruct (Z.eqb_spec x y) as [->|]; [by apply IH|].
      destruct (Z.ltb_spec y x), (Z.ltb_spec x y); try lia; done.
Qed.

(** ** rand, srand *)

Record rand_state : Type := MkRand { rand_seed_set : Z; rand_seed : Z }.

Definition RAND_MAX : Z := 0x7FFFFFFF.

Definition srand (seed : Z) : M rand_state () := modify (λ _, MkRand 1 (u32 seed)).

Definition rand : M rand_state Z :=
  set ← gets rand_seed_set;
  (if istrue set then mret () else srand 819234718);;
  modify (λ s, MkRand (rand_seed_set s) (u32 (u32 (rand_seed s * 1664525) + 1013904223)));;
  gets (λ s, Z.land (rand_seed s) RAND_MAX).

(** ** Properties *)

(** C39: [memmove] copies [n] bytes as if through a temporary buffer, however
    source and destination overlap, and changes nothing else. *)
Theorem memmove_copies dst src n s :
  0 ≤ n → 0 ≤ dst → dst + n ≤ 0x200000 → 0 ≤ src → src + n ≤ 0x200000 →
  ∃ m, memmove dst src n s = Ok dst (set_mem m s) ∧
  ∀ b, load8 m b = if decide (dst ≤ b < dst + n) then load8 (mem s) (src + (b - dst)) else load8 (mem s) b.
Proof.
  intros Hn Hd Hd2 Hs Hs2. unfold memmove.
  destruct (Z.ltb_spec src dst), (Z.ltb_spec dst (src + n)); cbn [andb].
  2-4: (erewrite bind_ok by (apply memcpy_loop_ok; lia)); eexists; (split; [reflexivity|]);
    intros b; rewrite load8_copy by lia; by rewrite Z2Nat.id.
  destruct (memmove_down_ok (Z.to_nat n) (dst + n) (src + n) s) as (m & E & Hm); [lia..|].
  exists m. split; [by rewrite (bind_ok _ _ _ _ _ E)|]. intros b. rewrite Hm, Z2Nat.id by done.
  rewrite (decide_ext (dst + n - n ≤ b < dst + n) (dst ≤ b < dst + n)) by lia.
  case_decide; [f_equal; lia|done].
Qed.

Lemma memmove_copies_witness :
  let s := machine_with {[0x1000 := 1; 0x1001 := 2; 0x1002 := 3]} in
  ∃ m, memmove 0x1001 0x1000 3 s = Ok 0x1001 (set_mem m s) ∧ load8 m 0x1003 = 3.
Proof.
  intros s. destruct (memmove_copies 0x1001 0x1000 3 s) as (m & E & Hm); [lia..|].
  exists m. split; [exact E|]. rewrite Hm. reflexivity.
Defined.

(** [strcmp] compares as the dictionary order of the two strings does, and
    terminates for all strings in physical memory. *)
Theorem strcmp_orders a b la lb s :
  cstr (mem s) a la → cstr (mem s) b lb → strcmp a b s = Ok (str_compare la lb) s.
Proof. apply strcmp_loop_ok. Qed.

Lemma strcmp_orders_witness :
  strcmp 0x1000 0x2000 (machine_with {[0x1000 := 65; 0x1001 := 66; 0x2000 := 65]})
  = Ok 1 (machine_with {[0x1000 := 65; 0x1001 := 66; 0x2000 := 65]}).
Proof. apply (strcmp_orders 0x1000 0x2000 [65; 66] [65]); cbn; repeat split; done. Defined.

(** [strlen] returns the number of bytes before the NUL, for every string
    that ends inside physical memory. *)
Lemma strlen_counts a l s : cstr (mem s) a l → strlen a s = Ok (Z.of_nat (length l)) s.
Proof. intros Hl. unfold strlen. by rewrite (strlen_loop_ok _ _ l) by done. Qed.

Lemma strlen_counts_witness :
  strlen 0x1000 (machine_with {[0x1000 := 65; 0x1001 := 66]})
  = Ok 2 (machine_with {[0x1000 := 65; 0x1001 := 66]}).
Proof. apply (strlen_counts 0x1000 [65; 66]). cbn. repeat split; done. Defined.
