(* ===== verification/Printf.v ===== *)
(** Formatted output of [src/lib.c]: [printer_vprintf] as the list of its
    [putc] calls, and the console and string printers that consume it. *)
From S2P Require Import Prelude X86 Machine CLib.
Open Scope Z_scope.

(** ** Characters, formats and arguments

    A string constant is the list of its character codes, without the NUL. *)

Definition str (s : string) : list Z :=
  map (λ a, Z.of_N (Ascii.N_of_ascii a)) (String.list_ascii_of_string s).

Inductive va : Type :=
  | VInt (x : Z)          (* an integer or a pointer *)
  | VStr (l : list Z).    (* a char* to this string *)

(** [va_arg] of an integer type, and of [char*]; an argument that is missing
    or of the other kind is undefined behaviour. *)
Definition va_int (conv : Z → Z) (args : list va) : option (Z * list va) :=
  match args with
  | VInt x :: args => Some (conv x, args)
  | _ => None
  end.

Definition va_str (args : list va) : option (list Z * list va) :=
  match args with
  | VStr l :: args => Some (l, args)
  | _ => None
  end.

(** ** fill_numbuf *)

Definition digit_char (lower : bool) (d : Z) : Z :=
  if d <? 10 then 48 + d else if lower then 97 + (d - 10) else 65 + (d - 10).

Fixpoint numbuf_loop (fuel : nat) (lower : bool) (val base : Z) (acc : list Z) : list Z :=
  match fuel with
  | O => acc
  | S fuel =>
      let acc := digit_char lower (val mod base) :: acc in
      let val := val / base in
      if val =? 0 then acc else numbuf_loop fuel lower val base acc
  end.

(** 64 digits are enough for a 64-bit value in any base. *)
Definition fill_numbuf (val base : Z) : list Z :=
  numbuf_loop 64 (base <? 0) val (Z.abs base) [].

(** ** printer_vprintf *)

Definition FLAG_ALT : Z := Z.shiftl 1 0.
Definition FLAG_ZERO : Z := Z.shiftl 1 1.
Definition FLAG_LEFTJUSTIFY : Z := Z.shiftl 1 2.
Definition FLAG_SPACEPOSITIVE : Z := Z.shiftl 1 3.
Definition FLAG_PLUSPOSITIVE : Z := Z.shiftl 1 4.
Definition FLAG_NUMERIC : Z := Z.shiftl 1 5.
Definition FLAG_SIGNED : Z := Z.shiftl 1 6.
Definition FLAG_NEGATIVE : Z := Z.shiftl 1 7.
Definition FLAG_ALT2 : Z := Z.shiftl 1 8.
Definition flag_chars : list Z := str "#0- +".

Definition is_digit (c : Z) : bool := (48 <=? c) && (c <=? 57).

Fixpoint flag_index (cs : list Z) (i c : Z) : option Z :=
  match cs with
  | [] => None
  | d :: cs => if c =? d then Some i else flag_index cs (i + 1) c
  end.

Fixpoint parse_flags (fmt : list Z) (flags : Z) : Z * list Z :=
  match fmt with
  | [] => (flags, [])
  | c :: rest =>
      match flag_index flag_chars 0 c with
      | Some i => parse_flags rest (Z.lor flags (Z.shiftl 1 i))
      | None => (flags, fmt)
      end
  end.

(** [n = 10 * n + *format++ - '0'], undefined when the [int] overflows. *)
Fixpoint parse_number (fmt : list Z) (n : Z) : option (Z * list Z) :=
  match fmt with
  | [] => Some (n, [])
  | c :: rest =>
      if is_digit c then
        if 10 * n + c <? 2 ^ 31 then parse_number rest (10 * n + c - 48) else None
      else Some (n, fmt)
  end.

Definition parse_width (fmt : list Z) (args : list va) : option (Z * list Z * list va) :=
  match fmt with
  | c :: rest =>
      if is_digit c && negb (c =? 48) then
        '(w, fmt) ← parse_number fmt 0; Some (w, fmt, args)
      else if c =? 42 then
        '(w, args) ← va_int s32 args; Some (w, rest, args)
      else Some (-1, fmt, args)
  | [] => Some (-1, [], args)
  end.

Definition parse_precision (fmt : list Z) (args : list va) : option (Z * list Z * list va) :=
  match fmt with
  | 46 :: fmt =>
      '(p, fmt, args) ←
        match fmt with
        | c :: rest =>
            if is_digit c then '(p, fmt) ← parse_number fmt 0; Some (p, fmt, args)
            else if c =? 42 then '(p, args) ← va_int s32 args; Some (p, rest, args)
            else Some (-1, fmt, args)
        | [] => Some (-1, [], args)
        end;
      Some (if p <? 0 then 0 else p, fmt, args)
  | _ => Some (-1, fmt, args)
  end.

(** What the [switch] on the conversion character leaves in [flags], [base],
    [num] and [data]; [ToColor] is the [goto done] of [%C]. *)
Inductive conversion : Type :=
  | ToNumber (flags base num : Z)
  | ToString (data : list Z)
  | ToColor (color : Z).

Definition conv_unsigned (long : bool) (flags base : Z) (args : list va)
    : option (conversion * list va) :=
  '(n, args) ← va_int (if long then u64 else u32) args;
  Some (ToNumber (Z.lor flags FLAG_NUMERIC) base n, args).

Fixpoint convert (fmt : list Z) (long : bool) (flags : Z) (args : list va)
    : option (conversion * list Z * list va) :=
  match fmt with
  | [] => Some (ToString [37], [], args)
  | c :: rest =>
      if (c =? 108) || (c =? 122) then convert rest true flags args
      else if (c =? 100) || (c =? 105) then
        '(x, args) ← va_int (if long then s64 else s32) args;
        let negative := if x <? 0 then FLAG_NEGATIVE else 0 in
        let num := u64 (if x <? 0 then - x else x) in
        Some (ToNumber (Z.lor flags (Z.lor (Z.lor FLAG_NUMERIC FLAG_SIGNED) negative)) 10 num,
              rest, args)
      else if c =? 117 then '(v, args) ← conv_unsigned long flags 10 args; Some (v, rest, args)
      else if c =? 120 then '(v, args) ← conv_unsigned long flags (-16) args; Some (v, rest, args)
      else if c =? 88 then '(v, args) ← conv_unsigned long flags 16 args; Some (v, rest, args)
      else if c =? 112 then
        '(n, args) ← va_int u64 args;
        Some (ToNumber (Z.lor flags (Z.lor (Z.lor FLAG_ALT FLAG_ALT2) FLAG_NUMERIC)) (-16) n,
              rest, args)
      else if c =? 115 then '(l, args) ← va_str args; Some (ToString l, rest, args)
      else if c =? 67 then '(x, args) ← va_int s32 args; Some (ToColor x, rest, args)
      else if c =? 99 then
        '(x, args) ← va_int u8 args;
        Some (ToString (if x =? 0 then [] else [x]), rest, args)
      else Some (ToString [c], rest, args)
  end.

Definition num_prefix (flags base num : Z) : list Z :=
  if has flags FLAG_SIGNED then
    if has flags FLAG_NEGATIVE then str "-"
    else if has flags FLAG_PLUSPOSITIVE then str "+"
    else if has flags FLAG_SPACEPOSITIVE then str " "
    else []
  else if has flags FLAG_ALT && ((base =? 16) || (base =? -16))
          && (istrue num || has flags FLAG_ALT2)
       then (if base =? -16 then str "0x" else str "0X")
  else [].

Definition replicateZ (n : Z) (c : Z) : list Z := replicate (Z.to_nat n) c.

Definition zlen (l : list Z) : Z := Z.of_nat (length l).

(** Padding, prefix, zeros, data, padding. *)
Definition layout (flags width zeros : Z) (prefix data : list Z) : list Z :=
  let w := width - (zlen data + zeros + zlen prefix) in
  let left := has flags FLAG_LEFTJUSTIFY in
  (if left then [] else replicateZ w 32) ++ prefix ++ replicateZ zeros 48 ++ data
  ++ (if left then replicateZ w 32 else []).

Definition format_number (flags width precision base num : Z) : list Z :=
  let data := fill_numbuf num base in
  let prefix := num_prefix flags base num in
  let zeros :=
    if 0 <=? precision then (if zlen data <? precision then precision - zlen data else 0)
    else if has flags FLAG_ZERO && negb (has flags FLAG_LEFTJUSTIFY)
            && (zlen data + zlen prefix <? width)
    then width - zlen data - zlen prefix else 0 in
  layout flags width zeros prefix data.

Definition format_string (flags width precision : Z) (data : list Z) : list Z :=
  let data := if 0 <=? precision then take (Z.to_nat precision) data else data in
  layout flags width 0 [] data.

(** The calls [p->putc(p, c, color)], in order; [None] is undefined behaviour.
    Every iteration consumes a character of the format. *)
Fixpoint vprintf_loop (fuel : nat) (color : Z) (fmt : list Z) (args : list va)
    : option (list (Z * Z)) :=
  match fuel, fmt with
  | _, [] => Some []
  | O, _ => None
  | S fuel, c :: rest =>
      if negb (c =? 37) then
        out ← vprintf_loop fuel color rest args; Some ((c, color) :: out)
      else
        let '(flags, fmt) := parse_flags rest 0 in
        '(width, fmt, args) ← parse_width fmt args;
        '(precision, fmt, args) ← parse_precision fmt args;
        '(conv, fmt, args) ← convert fmt false flags args;
        match conv with
        | ToColor color => vprintf_loop fuel color fmt args
        | ToNumber flags base num =>
            out ← vprintf_loop fuel color fmt args;
            Some (map (λ ch, (ch, color)) (format_number flags width precision base num) ++ out)
        | ToString data =>
            out ← vprintf_loop fuel color fmt args;
            Some (map (λ ch, (ch, color)) (format_string flags width precision data) ++ out)
        end
  end.

Definition printer_vprintf (color : Z) (fmt : list Z) (args : list va) : option (list (Z * Z)) :=
  vprintf_loop (length fmt) color fmt args.

Example printf_example :
  map fst <$> printer_vprintf 0 (str "%d 0x%06X %-5s|%p%5.3u%%") [VInt (-12); VInt 0xABC; VStr (str "hi"); VInt 255; VInt 7]
  = Some (str "-12 0x000ABC hi   |0xff  007%").
Proof. reflexivity. Qed.

(** ** The console printer

    [cp->cursor] is kept as its offset, in cells, from [console]. *)

Definition console_cell (i : Z) : Z := console + 2 * i.

Fixpoint console_pad (n : nat) (cursor color : Z) : M machine Z :=
  match n with
  | O => mret cursor
  | S n => write 2 (console_cell cursor) (Z.lor 32 color);; console_pad n (cursor + 1) color
  end.

Definition console_putc (cursor c color : Z) : M machine Z :=
  let cursor := if CONSOLE_ROWS * CONSOLE_COLUMNS <=? cursor then 0 else cursor in
  if c =? 10 then console_pad (Z.to_nat (80 - cursor mod 80)) cursor color
  else write 2 (console_cell cursor) (Z.lor c color);; mret (cursor + 1).

Fixpoint console_puts (out : list (Z * Z)) (cursor : Z) : M machine Z :=
  match out with
  | [] => mret cursor
  | (c, color) :: out => cursor ← console_putc cursor (u8 c) color; console_puts out cursor
  end.

Definition console_vprintf (cpos color : Z) (fmt : list Z) (args : list va) : M machine Z :=
  let cpos := if (cpos <? 0) || (CONSOLE_ROWS * CONSOLE_COLUMNS <=? cpos) then 0 else cpos in
  match printer_vprintf color fmt args with
  | None => halt Undefined
  | Some out => console_puts out cpos
  end.

Definition console_printf (cpos color : Z) (fmt : list Z) (args : list va) : M machine Z :=
  console_vprintf cpos color fmt args.

Definition console_clear : M machine () :=
  for_loop 2000 0 1 (λ i, write 2 (console_cell i) (Z.lor 32 0x0700));;
  write 4 cursorpos 0.

(** ** The string printer *)

Fixpoint string_puts (out : list (Z * Z)) (s send : Z) : M machine Z :=
  match out with
  | [] => mret s
  | (c, _) :: out =>
      if s <? send then write 1 s c;; string_puts out (s + 1) send
      else string_puts out s send
  end.

Definition vsnprintf (s size : Z) (fmt : list Z) (args : list va) : M machine Z :=
  if istrue size then
    match printer_vprintf 0 fmt args with
    | None => halt Undefined
    | Some out => e ← string_puts out s (s + size - 1); write 1 e 0;; mret (s32 (e - s))
    end
  else mret 0.

Definition snprintf (s size : Z) (fmt : list Z) (args : list va) : M machine Z :=
  vsnprintf s size fmt args.

(** The string that [snprintf(s, size, fmt, ...)] leaves in [s]. *)
Definition printed (size : Z) (fmt : list Z) (args : list va) : option (list Z) :=
  out ← printer_vprintf 0 fmt args; Some (take (Z.to_nat (size - 1)) (map (λ p, u8 p.1) out)).

(** ** Lemmas *)

(** The number a list of digits denotes, most significant first. *)
Definition digit_val (c : Z) : Z :=
  if c <=? 57 then c - 48 else if 97 <=? c then c - 87 else c - 55.

Definition digits_val (base : Z) (ds : list Z) : Z :=
  foldl (λ n c, n * base + digit_val c) 0 ds.

Lemma digit_val_char lower d : 0 ≤ d < 16 → digit_val (digit_char lower d) = d.
Proof.
  intros Hd. unfold digit_val, digit_char.
  destruct (Z.ltb_spec d 10).
  - destruct (Z.leb_spec (48 + d) 57); lia.
  - destruct lower.
    + destruct (Z.leb_spec (97 + (d - 10)) 57); [lia|].
      destruct (Z.leb_spec 97 (97 + (d - 10))); lia.
    + destruct (Z.leb_spec (65 + (d - 10)) 57); [lia|].
      destruct (Z.leb_spec 97 (65 + (d - 10))); lia.
Qed.

Lemma foldl_digits base n acc :
  foldl (λ n c, n * base + digit_val c) n acc
  = n * base ^ zlen acc + digits_val base acc.
Proof.
  unfold digits_val, zlen. revert n. induction acc as [|c acc IH]; intros n; cbn [foldl length].
  - cbn. lia.
  - rewrite IH, (IH (0 * base + _)). rewrite Nat2Z.inj_succ, Z.pow_succ_r by lia. ring.
Qed.

(** Dividing by the base, a value below [base ^ fuel] needs [fuel] digits. *)
Lemma numbuf_loop_val fuel lower base val acc :
  2 ≤ base ≤ 16 → 0 ≤ val < base ^ Z.of_nat fuel → (0 < fuel)%nat →
  digits_val base (numbuf_loop fuel lower val base acc)
  = val * base ^ zlen acc + digits_val base acc.
Proof.
  intros Hb. revert val acc. induction fuel as [|fuel IH]; intros val acc Hv Hf; [lia|].
  cbn [numbuf_loop]. cbv zeta.
  pose proof (Z.mod_pos_bound val base ltac:(lia)) as Hm.
  pose proof (Z.div_mod val base ltac:(lia)) as Hdm.
  assert (digits_val base (digit_char lower (val mod base) :: acc)
          = (val mod base) * base ^ zlen acc + digits_val base acc) as Hhd.
  { unfold digits_val. cbn [foldl]. rewrite foldl_digits, digit_val_char by lia.
    unfold digits_val. ring. }
  destruct (Z.eqb_spec (val / base) 0) as [E|E].
  - rewrite Hhd. replace (val mod base) with val by lia. done.
  - rewrite Nat2Z.inj_succ, Z.pow_succ_r in Hv by lia.
    assert (0 ≤ val / base < base ^ Z.of_nat fuel).
    { split; [apply Z.div_pos; lia|apply Z.div_lt_upper_bound; lia]. }
    destruct fuel as [|fuel]; [cbn in *; lia|].
    rewrite IH by (done || lia). rewrite Hhd. unfold zlen. cbn [length].
    rewrite Nat2Z.inj_succ, Z.pow_succ_r by lia.
    rewrite Hdm at 3. ring.
Qed.

Lemma numbuf_loop_length fuel k lower base val acc :
  2 ≤ base → 0 ≤ val < base ^ Z.of_nat k → (0 < k)%nat →
  (length (numbuf_loop fuel lower val base acc) ≤ k + length acc)%nat.
Proof.
  intros Hb. revert k val acc. induction fuel as [|fuel IH]; intros k val acc Hv Hk;
    cbn [numbuf_loop]; [lia|]. cbv zeta.
  destruct (Z.eqb_spec (val / base) 0) as [E|E]; [cbn; lia|].
  destruct k as [|k]; [lia|]. rewrite Nat2Z.inj_succ, Z.pow_succ_r in Hv by lia.
  destruct k as [|k].
  { exfalso. apply E, Z.div_small. cbn in Hv. lia. }
  specialize (IH (Datatypes.S k) (val / base) (digit_char lower (val mod base) :: acc)).
  cbn [length] in IH. assert (0 ≤ val / base < base ^ Z.of_nat (Datatypes.S k)).
  { split; [apply Z.div_pos; lia|apply Z.div_lt_upper_bound; lia]. }
  lia.
Qed.

Lemma numbuf_loop_nonempty fuel lower val base acc :
  (0 < fuel ∨ 1 ≤ length acc → 1 ≤ length (numbuf_loop fuel lower val base acc))%nat.
Proof.
  revert val acc. induction fuel as [|fuel IH]; intros val acc Ha; cbn [numbuf_loop]; [lia|]. cbv zeta.
  destruct (_ =? 0); [cbn; lia|]. apply IH. cbn. lia.
Qed.

(** The field width: the output is padded to [width], and never cut. *)
Lemma layout_length flags width zeros prefix data :
  0 ≤ zeros →
  zlen (layout flags width zeros prefix data) = Z.max width (zlen data + zeros + zlen prefix).
Proof.
  intros Hz. unfold layout, replicateZ, zlen.
  destruct (has flags FLAG_LEFTJUSTIFY); rewrite !length_app, ?length_replicate; cbn [length]; lia.
Qed.

Lemma string_puts_ok out s send st :
  0 ≤ s ≤ send → send ≤ 0x200000 →
  ∃ m, string_puts out s send st = Ok (Z.min (s + Z.of_nat (length out)) send) (set_mem m st) ∧
  ∀ b, load8 m b = if decide (s ≤ b < Z.min (s + Z.of_nat (length out)) send)
                   then default 0 ((λ p, u8 p.1) <$> out !! Z.to_nat (b - s))
                   else load8 (mem st) b.
Proof.
  revert s st. induction out as [|[c k] out IH]; intros s st Hs Hend; cbn [string_puts].
  - exists (mem st). cbn [length]. split.
    + rewrite set_mem_id. unfold mret, M_ret. f_equal. lia.
    + intros b. by rewrite decide_False by lia.
  - destruct (Z.ltb_spec s send) as [Hlt|Hge].
    + erewrite bind_ok by (apply write_ok; lia).
      set (m1 := store 1 (mem st) s c).
      destruct (IH (s + 1) (set_mem m1 st)) as (m & -> & Hm); [lia..|].
      exists m. split; [cbn [length]; f_equal; lia|]. intros b. rewrite Hm.
      cbn [mem set_mem length]. unfold m1. rewrite load8_store_1.
      destruct (decide (s = b)) as [->|Hne].
      * rewrite decide_False, decide_True by lia. by rewrite Z.sub_diag.
      * destruct (decide (s + 1 ≤ b < _)).
        -- rewrite decide_True by lia.
           replace (Z.to_nat (b - s)) with (Datatypes.S (Z.to_nat (b - (s + 1)))) by lia. done.
        -- by rewrite decide_False by lia.
    + destruct (IH s st) as (m & -> & Hm); [lia..|].
      exists m. cbn [length]. split; [f_equal; lia|]. intros b. rewrite Hm.
      by rewrite !decide_False by lia.
Qed.

(** The bytes of the text screen. *)
Definition on_screen (a : Z) : Prop := console ≤ a < console + 2 * (CONSOLE_ROWS * CONSOLE_COLUMNS).

(** [m] differs from [s] in memory only, and there only on the screen. *)
Definition screen_update (s s' : machine) : Prop :=
  s' = set_mem (mem s') s ∧ agree (λ a, ¬ on_screen a) (mem s) (mem s').

#[global] Instance screen_update_preorder : PreOrder screen_update.
Proof.
  split.
  - intros s. split; [by rewrite set_mem_id|done].
  - intros s1 s2 s3 [E1 A1] [E2 A2]. split.
    + rewrite E2 at 1. rewrite E1. by rewrite set_mem_twice.
    + by transitivity (mem s2).
Qed.

Lemma write_cell_ok i v s :
  0 ≤ i < 2000 → runs (write 2 (console_cell i) v) s (λ _ s', screen_update s s').
Proof.
  intros Hi. unfold console_cell. eapply runs_eq.
  { apply write_ok; change console with 0xB8000; lia. }
  split; [done|]. intros b Hb. cbn [mem set_mem]. symmetry. apply load8_store_out.
  unfold on_screen in Hb. change (CONSOLE_ROWS * CONSOLE_COLUMNS) with 2000 in Hb. lia.
Qed.

Lemma console_pad_ok n cursor color s :
  0 ≤ cursor → cursor + Z.of_nat n ≤ 2000 →
  runs (console_pad n cursor color) s
    (λ c s', c = cursor + Z.of_nat n ∧ screen_update s s').
Proof.
  revert cursor s. induction n as [|n IH]; intros cursor s H0 H1; cbn [console_pad].
  - apply runs_ret. split; [lia|done].
  - apply runs_bind. eapply runs_mono; [apply write_cell_ok; lia|]. intros [] s1 Hs1.
    eapply runs_mono; [apply IH; lia|]. intros c s2 [-> Hs2].
    split; [lia|by transitivity s1].
Qed.

Lemma console_putc_ok cursor c color s :
  0 ≤ cursor ≤ 2000 →
  runs (console_putc cursor c color) s (λ p s', 0 ≤ p ≤ 2000 ∧ screen_update s s').
Proof.
  intros Hc. unfold console_putc. change (CONSOLE_ROWS * CONSOLE_COLUMNS) with 2000.
  set (p := if 2000 <=? cursor then 0 else cursor).
  assert (0 ≤ p < 2000) as Hp by (unfold p; destruct (Z.leb_spec 2000 cursor); lia).
  destruct (c =? 10).
  - pose proof (Z.mod_pos_bound p 80 ltac:(lia)).
    pose proof (Z.div_mod p 80 ltac:(lia)). assert (p / 80 < 25) by (apply Z.div_lt_upper_bound; lia).
    eapply runs_mono; [apply console_pad_ok; lia|]. intros c' s' [-> ?]. split; [lia|done].
  - apply runs_bind. eapply runs_mono; [apply write_cell_ok; lia|]. intros [] s1 ?.
    apply runs_ret. split; [lia|done].
Qed.

Lemma console_puts_ok out cursor s :
  0 ≤ cursor ≤ 2000 →
  runs (console_puts out cursor) s (λ p s', 0 ≤ p ≤ 2000 ∧ screen_update s s').
Proof.
  revert cursor s. induction out as [|[c color] out IH]; intros cursor s Hc; cbn [console_puts].
  - by apply runs_ret.
  - apply runs_bind. eapply runs_mono; [by apply console_putc_ok|]. intros p s1 [??].
    eapply runs_mono; [by apply IH|]. intros p2 s2 [??]. split; [done|by transitivity s1].
Qed.

(** Whether the output is defined depends on the format and on the kinds of the
    arguments, not on their values. *)
Definition same_kind (x y : va) : Prop :=
  match x, y with
  | VInt _, VInt _ | VStr _, VStr _ => True
  | _, _ => False
  end.

Abbreviation kinds := (Forall2 same_kind).

Lemma va_int_kinds f args args' :
  kinds args args' → option_Forall2 (λ p p', kinds p.2 p'.2) (va_int f args) (va_int f args').
Proof. destruct 1 as [|[|] [|] ???]; simpl in *; try done; constructor; done. Qed.

Lemma va_str_kinds args args' :
  kinds args args' → option_Forall2 (λ p p', kinds p.2 p'.2) (va_str args) (va_str args').
Proof. destruct 1 as [|[|] [|] ???]; simpl in *; try done; constructor; done. Qed.

Lemma parse_width_kinds fmt args args' :
  kinds args args' →
  option_Forall2 (λ p p', p.1.2 = p'.1.2 ∧ kinds p.2 p'.2)
    (parse_width fmt args) (parse_width fmt args').
Proof.
  intros H. unfold parse_width. destruct fmt as [|c rest]; [by constructor|].
  destruct (_ && _).
  - destruct (parse_number _ _) as [[??]|]; by constructor.
  - destruct (c =? 42); [|by constructor].
    destruct (va_int_kinds s32 _ _ H) as [[??] [??] ?|]; by constructor.
Qed.

Lemma parse_precision_kinds fmt args args' :
  kinds args args' →
  option_Forall2 (λ p p', p.1.2 = p'.1.2 ∧ kinds p.2 p'.2)
    (parse_precision fmt args) (parse_precision fmt args').
Proof.
  intros H. unfold parse_precision.
  destruct fmt as [|c rest]; [by constructor|].
  repeat (case_match; try (by constructor)); simplify_eq;
  repeat match goal with
  | |- context [parse_number ?a ?b] => destruct (parse_number a b) as [[??]|]
  | |- context [va_int s32 args] => destruct (va_int_kinds s32 _ _ H) as [[??] [??] ?|]
  end; by constructor.
Qed.

Definition same_conv (x y : conversion) : Prop :=
  match x, y with
  | ToNumber _ _ _, ToNumber _ _ _ | ToString _, ToString _ | ToColor _, ToColor _ => True
  | _, _ => False
  end.

Ltac kinds_cases H :=
  repeat match goal with
  | |- context [va_int ?f ?a] => destruct (va_int_kinds f _ _ H) as [[??] [??] ?|]
  | |- context [va_str ?a] => destruct (va_str_kinds _ _ H) as [[??] [??] ?|]
  end.

Lemma convert_kinds fmt long flags args args' :
  kinds args args' →
  option_Forall2 (λ p p', same_conv p.1.1 p'.1.1 ∧ p.1.2 = p'.1.2 ∧ kinds p.2 p'.2)
    (convert fmt long flags args) (convert fmt long flags args').
Proof.
  intros H. revert long. induction fmt as [|c rest IH]; intros long; cbn [convert].
  - by constructor.
  - destruct (_ || _); [apply IH|]. unfold conv_unsigned.
    repeat case_match; kinds_cases H; by constructor.
Qed.

Lemma vprintf_kinds fuel color color' fmt args args' :
  kinds args args' → is_Some (vprintf_loop fuel color fmt args) →
  is_Some (vprintf_loop fuel color' fmt args').
Proof.
  revert color color' fmt args args'. induction fuel as [|fuel IH];
    intros color color' fmt args args' H; destruct fmt as [|c rest]; cbn [vprintf_loop]; try done.
  destruct (negb (c =? 37)).
  - pose proof (IH color color' rest args args' H) as IH1.
    destruct (vprintf_loop fuel color rest args); [|by intros [??]].
    intros _. destruct IH1 as [? ->]; by eauto.
  - destruct (parse_flags rest 0) as [flags f1].
    destruct (parse_width_kinds f1 _ _ H) as [[[??]?] [[??]?] [E1 H1]|]; [|by intros [??]].
    cbn in E1, H1 |- *. subst.
    match goal with |- context [parse_precision ?f _] =>
      destruct (parse_precision_kinds f _ _ H1) as [[[??]?] [[??]?] [E2 H2]|] end; [|by intros [??]].
    cbn in E2, H2 |- *. subst.
    match goal with |- context [convert ?f false flags _] =>
      destruct (convert_kinds f false flags _ _ H2) as [[[c1 f2] a1] [[c2 f3] a2] (Hc & E3 & H3)|] end;
      [|by intros [??]].
    cbn in Hc, E3, H3 |- *. subst f3.
    destruct c1, c2; try done; [| |by apply IH].
    + pose proof (IH color color' f2 a1 a2 H3) as IH1.
      destruct (vprintf_loop fuel color f2 a1); [|by intros [??]].
      intros _. destruct IH1 as [? ->]; by eauto.
    + pose proof (IH color color' f2 a1 a2 H3) as IH1.
      destruct (vprintf_loop fuel color f2 a1); [|by intros [??]].
      intros _. destruct IH1 as [? ->]; by eauto.
Qed.

Lemma printf_defined color color' fmt args args' :
  kinds args args' → is_Some (printer_vprintf color fmt args) →
  is_Some (printer_vprintf color' fmt args').
Proof. apply vprintf_kinds. Qed.

(** ** Properties *)

(** [fill_numbuf] writes the number in the given base: reading the digits
    back gives the value, for every 64-bit value and every base from 2 to 16,
    in either case (a negative base asks for lower-case digits). *)
Theorem fill_numbuf_denotes val base :
  2 ≤ Z.abs base ≤ 16 → 0 ≤ val < 2 ^ 64 → digits_val (Z.abs base) (fill_numbuf val base) = val.
Proof.
  intros Hb Hv. unfold fill_numbuf. rewrite numbuf_loop_val; [|done| |lia].
  - unfold zlen, digits_val. cbn. lia.
  - assert (2 ^ 64 ≤ Z.abs base ^ 64) by (apply Z.pow_le_mono_l; lia).
    change (Z.of_nat 64) with 64. lia.
Qed.

Lemma fill_numbuf_denotes_witness : digits_val 16 (fill_numbuf 0xBEEF (-16)) = 0xBEEF.
Proof. apply (fill_numbuf_denotes 0xBEEF (-16)); lia. Defined.

(** The digits and the final NUL fit the 24 bytes of [numbuf] in
    [printer_vprintf], in each base it uses. *)
Theorem fill_numbuf_fits val base :
  base = 10 ∨ base = 16 ∨ base = -16 → 0 ≤ val < 2 ^ 64 →
  (1 ≤ length (fill_numbuf val base) ∧ length (fill_numbuf val base) + 1 < 24)%nat.
Proof.
  intros Hb Hv. unfold fill_numbuf.
  assert (∀ b lower, 10 ≤ b → (length (numbuf_loop 64 lower val b []) ≤ 20)%nat) as Hle.
  { intros b lower H10.
    pose proof (numbuf_loop_length 64 20 lower b val [] ltac:(lia)) as Hl. cbn [length] in Hl.
    rewrite Nat.add_0_r in Hl. apply Hl; [|lia].
    assert (10 ^ 20 ≤ b ^ 20) by (apply Z.pow_le_mono_l; lia).
    change (Z.of_nat 20) with 20. assert (2 ^ 64 < 10 ^ 20) by (vm_compute; done). lia. }
  pose proof (Hle (Z.abs base) (base <? 0) ltac:(lia)).
  split; [|lia]. apply numbuf_loop_nonempty. lia.
Qed.

Lemma fill_numbuf_fits_witness :
  (1 ≤ length (fill_numbuf (2 ^ 64 - 1) 10) ∧ length (fill_numbuf (2 ^ 64 - 1) 10) + 1 < 24)%nat.
Proof. apply (fill_numbuf_fits (2 ^ 64 - 1) 10); lia. Defined.

(** C38: [snprintf] writes at most [size] bytes at [s]: the formatted text cut
    to [size - 1] characters, and a NUL; it returns the length written and
    changes nothing else. *)
Theorem snprintf_writes s size fmt args text st :
  0 ≤ s → 0 < size → s + size ≤ 0x200000 → printed size fmt args = Some text →
  ∃ m, snprintf s size fmt args st = Ok (zlen text) (set_mem m st) ∧ zlen text < size ∧
  ∀ b, load8 m b =
    if decide (s ≤ b ≤ s + zlen text) then default 0 (text !! Z.to_nat (b - s)) else load8 (mem st) b.
Proof.
  intros Hs Hsize Hend Hp. unfold printed in Hp.
  destruct (printer_vprintf 0 fmt args) as [out|] eqn:Eo; [|discriminate Hp]. cbn in Hp. injection Hp as <-.
  unfold snprintf, vsnprintf, istrue. rewrite (proj2 (Z.eqb_neq size 0)) by lia. cbn [negb]. rewrite Eo.
  destruct (string_puts_ok out s (s + size - 1) st) as (m & E & Hm); [lia..|].
  erewrite bind_ok by exact E. set (e := Z.min _ _) in *.
  erewrite bind_ok by (apply write_ok; lia).
  assert (zlen (take (Z.to_nat (size - 1)) (map (λ p : Z * Z, u8 p.1) out)) = e - s) as Hlen.
  { unfold zlen, e. rewrite length_take, length_map. lia. }
  eexists. rewrite Hlen. split; [|split; [lia|]].
  - unfold mret, M_ret. rewrite set_mem_twice, s32_small by lia. reflexivity.
  - intros b. cbn [mem set_mem]. rewrite load8_store_1. destruct (decide (e = b)) as [<-|Hne].
    + rewrite decide_True by lia. rewrite lookup_ge_None_2; [done|]. unfold zlen in Hlen. lia.
    + rewrite Hm. destruct (decide (s ≤ b < e)).
      * rewrite decide_True by lia. rewrite lookup_take_lt by lia. by rewrite list_lookup_fmap.
      * by rewrite decide_False by lia.
Qed.

Lemma snprintf_writes_witness :
  ∃ m, snprintf 0x1000 4 (str "%d ") [VInt 12345] (machine_with ∅) = Ok 3 (set_mem m (machine_with ∅)) ∧
       load8 m 0x1003 = 0.
Proof.
  destruct (snprintf_writes 0x1000 4 (str "%d ") [VInt 12345] (str "123") (machine_with ∅))
    as (m & E & _ & Hm); [lia..|reflexivity|].
  exists m. split; [exact E|]. rewrite Hm. reflexivity.
Defined.

(** Console output never leaves the text screen: whatever the cursor
    position, text and colour, [console_printf] returns a position from 0
    to 2000, one past the last cell, and changes only the screen's 4000 bytes. *)
Theorem console_stays_on_screen cpos color fmt args st :
  is_Some (printer_vprintf color fmt args) →
  ∃ p st', console_printf cpos color fmt args st = Ok p st' ∧ 0 ≤ p ≤ CONSOLE_ROWS * CONSOLE_COLUMNS ∧
    st' = set_mem (mem st') st ∧ agree (λ a, ¬ on_screen a) (mem st) (mem st').
Proof.
  intros [out Ho]. unfold console_printf, console_vprintf. rewrite Ho.
  change (CONSOLE_ROWS * CONSOLE_COLUMNS) with 2000.
  assert (0 ≤ (if (cpos <? 0) || (2000 <=? cpos) then 0 else cpos) ≤ 2000) as Hc.
  { destruct (Z.ltb_spec cpos 0), (Z.leb_spec 2000 cpos); cbn; lia. }
  pose proof (console_puts_ok out _ st Hc) as Hr. apply runs_iff in Hr as (p & st' & E & Hp & E2 & A).
  by exists p, st'.
Qed.

Lemma console_stays_on_screen_witness :
  ∃ p st', console_printf 1999 0x0700 (str "page %d" ++ [10]) [VInt 7] (machine_with ∅) = Ok p st' ∧ 0 ≤ p ≤ 2000.
Proof.
  destruct (console_stays_on_screen 1999 0x0700 (str "page %d" ++ [10]) [VInt 7] (machine_with ∅))
    as (p & st' & E & Hp & _); [eexists; vm_compute; reflexivity|].
  exists p, st'. split; [exact E|exact Hp].
Defined.
