(* ===== verification/Hardware.v ===== *)
(** [src/k-hardware.c]: descriptor tables, interrupt controller, timer, PCI,
    keyboard, log port, console messages, [panic] and assertions. *)
From S2P Require Import Prelude X86 Machine CLib Printf.
Open Scope Z_scope.

(** ** What the linker decides

    The addresses of the symbols the kernel takes the address of. *)

Class Layout : Type := MkLayout {
  default_int_handler : Z;
  gpf_int_handler : Z;
  pagefault_int_handler : Z;
  timer_int_handler : Z;
  sys_int_handlers : list Z;
  kernel_task_descriptor : Z;
  kernel_pagetables : Z;
  virtual_memory_map_addr : Z;
  start_data : Z;
  end_addr : Z }.

(** The kernel's own page tables are five pages of its data segment, between
    [start_data] and [end]; code it checks for lies in its text. *)
Class LayoutOk (L : Layout) : Prop := {
  handlers_16 : length sys_int_handlers = 16%nat;
  handlers_64 : Forall (λ a, 0 ≤ a < 2 ^ 64)
    (default_int_handler :: gpf_int_handler :: pagefault_int_handler
       :: timer_int_handler :: sys_int_handlers);
  kernel_pagetables_aligned : kernel_pagetables mod 4096 = 0;
  kernel_pagetables_data : start_data ≤ kernel_pagetables ∧ kernel_pagetables + 5 * 4096 ≤ end_addr;
  kernel_task_descriptor_data : start_data ≤ kernel_task_descriptor ∧ kernel_task_descriptor + 96 ≤ end_addr;
  start_data_text : KERNEL_START_ADDR ≤ start_data ∧ start_data mod 4096 = 0;
  default_int_handler_text : KERNEL_START_ADDR ≤ default_int_handler < start_data;
  virtual_memory_map_text : KERNEL_START_ADDR ≤ virtual_memory_map_addr < start_data;
  task_descriptor_apart : kernel_task_descriptor + 96 ≤ kernel_pagetables ∨ kernel_pagetables + 5 * 4096 ≤ kernel_task_descriptor;
  end_stack : end_addr ≤ KERNEL_STACK_TOP - PAGESIZE }.

(** The image in [src/obj/kernel.sym]. *)
Definition kernel_sym : Layout := {|
  default_int_handler := 0x4009c;
  gpf_int_handler := 0x4002e;
  pagefault_int_handler := 0x40032;
  timer_int_handler := 0x40036;
  sys_int_handlers := [0x4003c; 0x40042; 0x40048; 0x4004e; 0x40054; 0x4005a; 0x40060; 0x40066;
                       0x4006c; 0x40072; 0x40078; 0x4007e; 0x40084; 0x4008a; 0x40090; 0x40096];
  kernel_task_descriptor := 0x502a0;
  kernel_pagetables := 0x52000;
  virtual_memory_map_addr := 0x42e14;
  start_data := 0x45000;
  end_addr := 0x57008 |}.

#[global] Instance kernel_sym_ok : LayoutOk kernel_sym.
Proof.
  split; cbn; try done; try (consts; lia).
  repeat (apply List.Forall_cons; [lia|]). apply List.Forall_nil.
Qed.

(** ** Segments and gates *)

Definition SEGSEL_KERN_CODE : Z := 0x8.
Definition SEGSEL_APP_CODE : Z := 0x10.
Definition SEGSEL_KERN_DATA : Z := 0x18.
Definition SEGSEL_APP_DATA : Z := 0x20.
Definition SEGSEL_TASKSTATE : Z := 0x28.

Definition X86SEG_S : Z := Z.shiftl 1 44.
Definition X86SEG_P : Z := Z.shiftl 1 47.
Definition X86SEG_L : Z := Z.shiftl 1 53.
Definition X86SEG_W : Z := Z.shiftl 2 40.
Definition X86SEG_X : Z := Z.shiftl 8 40.
Definition X86SEG_TSS : Z := Z.shiftl 9 40.
Definition X86GATE_INTERRUPT : Z := Z.shiftl 0xE 40.

Definition set_app_segment (type dpl : Z) : Z :=
  Z.lor (Z.lor (Z.lor type X86SEG_S) (u64 (Z.shiftl dpl 45))) X86SEG_P.

Definition set_sys_segment (type dpl addr size : Z) : Z * Z :=
  (Z.lor (Z.lor (Z.lor (Z.lor (Z.lor (Z.lor
     (u64 (Z.shiftl (Z.land addr 0xFFFFFF) 16))
     (u64 (Z.shiftl (Z.land addr 0xFF000000) 32)))
     (Z.land (u64 (size - 1)) 0xFFFF))
     (u64 (Z.shiftl (Z.land (u64 (size - 1)) 0xF0000) 48)))
     type) (u64 (Z.shiftl dpl 45))) X86SEG_P,
   Z.shiftr addr 32).

Definition set_gate (type dpl function : Z) : Z * Z :=
  (Z.lor (Z.lor (Z.lor (Z.lor (Z.lor
     (Z.land function 0xFFFF)
     (Z.shiftl SEGSEL_KERN_CODE 16))
     type) (u64 (Z.shiftl dpl 45))) X86SEG_P)
     (u64 (Z.shiftl (Z.land function 0xFFFF0000) 32)),
   Z.shiftr function 32).

Definition sizeof_taskstate : Z := 96.

Definition gdt_table `{Layout} : list Z :=
  let tss := set_sys_segment X86SEG_TSS 0 kernel_task_descriptor sizeof_taskstate in
  [0;
   set_app_segment (Z.lor X86SEG_X X86SEG_L) 0;
   set_app_segment (Z.lor X86SEG_X X86SEG_L) 3;
   set_app_segment X86SEG_W 0;
   set_app_segment X86SEG_W 3;
   tss.1; tss.2].

Fixpoint default_gates (n : nat) (i : nat) (handler : Z) (idt : list (Z * Z)) : list (Z * Z) :=
  match n with
  | O => idt
  | S n => default_gates n (Datatypes.S i) handler (<[i := set_gate X86GATE_INTERRUPT 0 handler]> idt)
  end.

Fixpoint sys_gates (handlers : list Z) (i : nat) (idt : list (Z * Z)) : list (Z * Z) :=
  match handlers with
  | [] => idt
  | h :: handlers => sys_gates handlers (Datatypes.S i) (<[i := set_gate X86GATE_INTERRUPT 3 h]> idt)
  end.

Definition idt_table `{Layout} : list (Z * Z) :=
  let idt := replicate 256 (0, 0) in
  let idt := default_gates 240 16 default_int_handler idt in
  let idt := <[Z.to_nat INT_TIMER := set_gate X86GATE_INTERRUPT 0 timer_int_handler]> idt in
  let idt := <[Z.to_nat INT_GPF := set_gate X86GATE_INTERRUPT 0 gpf_int_handler]> idt in
  let idt := <[Z.to_nat INT_PAGEFAULT := set_gate X86GATE_INTERRUPT 0 pagefault_int_handler]> idt in
  sys_gates sys_int_handlers (Z.to_nat INT_SYS) idt.

Definition CR0_PE : Z := 0x00000001.
Definition CR0_MP : Z := 0x00000002.
Definition CR0_NE : Z := 0x00000020.
Definition CR0_WP : Z := 0x00010000.
Definition CR0_AM : Z := 0x00040000.
Definition CR0_PG : Z := 0x80000000.

Definition CR0_flags : Z :=
  Z.lor (Z.lor (Z.lor (Z.lor (Z.lor CR0_PE CR0_PG) CR0_WP) CR0_AM) CR0_MP) CR0_NE.

(** [ts_rsp] is at offset 4 of the packed [x86_64_taskstate].  The descriptor
    tables are loaded as the values [gdt_table] and [idt_table]; the task
    register is not part of the machine. *)
Definition segments_init `{Layout} : M machine () :=
  memset kernel_task_descriptor 0 sizeof_taskstate;;
  write 8 (kernel_task_descriptor + 4) KERNEL_STACK_TOP;;
  modify (set_descriptors gdt_table idt_table);;
  cr0 ← rcr0;
  lcr0 (Z.lor cr0 CR0_flags).

(** ** Interrupt controller and timer *)

Definition IO_PIC1 : Z := 0x20.
Definition IO_PIC2 : Z := 0xA0.
Definition IRQ_SLAVE : Z := 2.

Definition interrupt_mask : M machine () :=
  enabled ← gets interrupts_enabled;
  let masked := u16 (Z.lnot enabled) in
  outb (IO_PIC1 + 1) (Z.land masked 0xFF);;
  outb (IO_PIC2 + 1) (Z.land (Z.shiftr masked 8) 0xFF).

Fixpoint outbs (l : list (Z * Z)) : M machine () :=
  match l with
  | [] => mret ()
  | (port, v) :: l => outb port v;; outbs l
  end.

Definition interrupt_init : M machine () :=
  modify (set_interrupts 0);;
  interrupt_mask;;
  outbs [(IO_PIC1, 0x11); (IO_PIC1 + 1, INT_HARDWARE); (IO_PIC1 + 1, Z.shiftl 1 IRQ_SLAVE);
         (IO_PIC1 + 1, 0x3);
         (IO_PIC2, 0x11); (IO_PIC2 + 1, INT_HARDWARE + 8); (IO_PIC2 + 1, IRQ_SLAVE);
         (IO_PIC2 + 1, 0x01);
         (IO_PIC1, 0x68); (IO_PIC1, 0x0a); (IO_PIC2, 0x68); (IO_PIC2, 0x0a)];;
  interrupt_mask.

Definition IO_TIMER1 : Z := 0x40.
Definition TIMER_MODE : Z := IO_TIMER1 + 3.
Definition TIMER_FREQ : Z := 1193182.
Definition TIMER_DIV (x : Z) : Z := (TIMER_FREQ + x ÷ 2) ÷ x.

Definition timer_init (rate : Z) : M machine () :=
  (if 0 <? rate then
     outb TIMER_MODE (Z.lor (Z.lor 0x00 0x04) 0x30);;
     outb IO_TIMER1 (Z.rem (TIMER_DIV rate) 256);;
     outb IO_TIMER1 (Z.quot (TIMER_DIV rate) 256);;
     modify (λ s, set_interrupts (u16 (Z.lor (interrupts_enabled s)
                                     (Z.shiftl 1 (INT_TIMER - INT_HARDWARE)))) s)
   else
     modify (λ s, set_interrupts (u16 (Z.land (interrupts_enabled s)
                                     (Z.lnot (Z.shiftl 1 (INT_TIMER - INT_HARDWARE))))) s));;
  interrupt_mask.

(** ** Reserved memory *)

Definition IOPHYSMEM : Z := 0xA0000.
Definition EXTPHYSMEM : Z := 0x100000.

Definition physical_memory_isreserved (pa : Z) : bool :=
  (pa =? 0) || ((IOPHYSMEM <=? pa) && (pa <? EXTPHYSMEM)).

(** ** Process registers *)

Definition EFLAGS_IF : Z := 0x200.
Definition EFLAGS_IOPL_3 : Z := 0x3000.
Definition PROCINIT_ALLOW_PROGRAMMED_IO : Z := 1.
Definition PROCINIT_DISABLE_INTERRUPTS : Z := 2.

Definition process_init_regs (flags : Z) : x86_64_registers :=
  let app_data := Z.lor SEGSEL_APP_DATA 3 in
  let r := set_segments (Z.lor SEGSEL_APP_CODE 3) app_data app_data app_data zero_regs in
  let r := set_rflags EFLAGS_IF r in
  let r := if has flags PROCINIT_ALLOW_PROGRAMMED_IO
           then set_rflags (Z.lor (reg_rflags r) EFLAGS_IOPL_3) r else r in
  if has flags PROCINIT_DISABLE_INTERRUPTS
  then set_rflags (Z.land (reg_rflags r) (u64 (Z.lnot EFLAGS_IF))) r else r.

Definition process_init (p : proc) (flags : Z) : proc :=
  MkProc (p_pid p) (process_init_regs flags) (p_state p) (p_pagetable p) (display_status p).

(** ** Cursor *)

Definition console_show_cursor (cpos : Z) : M machine () :=
  let cpos := if (cpos <? 0) || (CONSOLE_ROWS * CONSOLE_COLUMNS <? cpos) then 0 else cpos in
  outb 0x3D4 14;; outb 0x3D5 (Z.quot cpos 256);; outb 0x3D4 15;; outb 0x3D5 (Z.rem cpos 256).

(** ** PCI and power-off *)

Definition pci_make_configaddr (bus slot func : Z) : Z :=
  Z.lor (Z.lor (Z.shiftl bus 16) (Z.shiftl slot 11)) (Z.shiftl func 8).

Definition PCI_HOST_BRIDGE_CONFIG_ADDR : Z := 0xCF8.
Definition PCI_HOST_BRIDGE_CONFIG_DATA : Z := 0xCFC.
Definition PCI_VENDOR_ID_INTEL : Z := 0x8086.
Definition PCI_DEVICE_ID_PIIX4 : Z := 0x7113.

Definition pci_config_readl `{Devices} (configaddr offset : Z) : M machine Z :=
  outl PCI_HOST_BRIDGE_CONFIG_ADDR (Z.lor (Z.lor 0x80000000 configaddr) offset);;
  inl PCI_HOST_BRIDGE_CONFIG_DATA.

(** The three nested loops; [Some a] is the [return] from inside them. *)
Fixpoint pci_funcs `{Devices} (n : nat) (bus slot func vendor device : Z) : M machine (option Z) :=
  match n with
  | O => mret None
  | S n =>
      let configaddr := pci_make_configaddr bus slot func in
      vendor_device ← pci_config_readl configaddr 0;
      if vendor_device =? u32 (Z.lor vendor (Z.shiftl device 16)) then mret (Some configaddr)
      else if (vendor_device =? u32 (-1)) && (func =? 0) then mret None
      else pci_funcs n bus slot (func + 1) vendor device
  end.

Fixpoint pci_slots `{Devices} (n : nat) (bus slot vendor device : Z) : M machine (option Z) :=
  match n with
  | O => mret None
  | S n =>
      r ← pci_funcs 8 bus slot 0 vendor device;
      match r with
      | Some a => mret (Some a)
      | None => pci_slots n bus (slot + 1) vendor device
      end
  end.

Fixpoint pci_buses `{Devices} (n : nat) (bus vendor device : Z) : M machine (option Z) :=
  match n with
  | O => mret None
  | S n =>
      r ← pci_slots 32 bus 0 vendor device;
      match r with
      | Some a => mret (Some a)
      | None => pci_buses n (bus + 1) vendor device
      end
  end.

Definition pci_find_device `{Devices} (vendor device : Z) : M machine Z :=
  r ← pci_buses 256 0 vendor device;
  mret (default (-1) r).

(** Both routines end in an infinite loop. *)
Definition poweroff {A} `{Devices} : M machine A :=
  configaddr ← pci_find_device PCI_VENDOR_ID_INTEL PCI_DEVICE_ID_PIIX4;
  (if 0 <=? configaddr then
     v ← pci_config_readl configaddr 0x40;
     outw (Z.land v 0xFFC0 + 4) 0x2000
   else mret ());;
  console_printf (CPOS 24 0) 0xC000 (str "Cannot power off!" ++ [10]) [];;
  halt PoweredOff.

Definition reboot {A} : M machine A := outb 0x92 3;; halt Spinning.

(** ** The log port and messages *)

Definition IO_PARALLEL1_DATA : Z := 0x378.
Definition IO_PARALLEL1_STATUS : Z := 0x379.
Definition IO_PARALLEL_STATUS_BUSY : Z := 0x80.
Definition IO_PARALLEL1_CONTROL : Z := 0x37A.

Definition delay `{Devices} : M machine () :=
  inb 0x84;; inb 0x84;; inb 0x84;; inb 0x84;; mret ().

Fixpoint parallel_wait `{Devices} (n : nat) : M machine () :=
  match n with
  | O => mret ()
  | S n =>
      st ← inb IO_PARALLEL1_STATUS;
      if has st IO_PARALLEL_STATUS_BUSY then mret () else delay;; parallel_wait n
  end.

Definition parallel_port_putc `{Devices} (c : Z) : M machine () :=
  init ← gets initialized;
  (if istrue init then mret ()
   else outb IO_PARALLEL1_CONTROL 0;; modify (set_initialized 1));;
  parallel_wait (Z.to_nat 12800);;
  outb IO_PARALLEL1_DATA c;;
  outb IO_PARALLEL1_CONTROL (Z.lor (Z.lor 0x08 0x04) 0x01);;
  outb IO_PARALLEL1_CONTROL (Z.lor 0x08 0x04).

Fixpoint log_puts `{Devices} (out : list (Z * Z)) : M machine () :=
  match out with
  | [] => mret ()
  | (c, _) :: out => parallel_port_putc (u8 c);; log_puts out
  end.

Definition log_vprintf `{Devices} (fmt : list Z) (args : list va) : M machine () :=
  match printer_vprintf 0 fmt args with
  | None => halt Undefined
  | Some out => log_puts out
  end.

Definition log_printf `{Devices} (fmt : list Z) (args : list va) : M machine () :=
  log_vprintf fmt args.

Definition error_vprintf `{Devices} (cpos color : Z) (fmt : list Z) (args : list va) : M machine Z :=
  log_vprintf fmt args;; console_vprintf cpos color fmt args.

Definition error_printf `{Devices} (cpos color : Z) (fmt : list Z) (args : list va) : M machine Z :=
  error_vprintf cpos color fmt args.

(** [panic(format, ...)]; [format] is [None] for a null pointer.  [fail] then
    polls the keyboard for ever. *)
Definition panic {A} `{Devices} (fmt : option (list Z)) (args : list va) : M machine A :=
  match fmt with
  | Some fmt =>
      cpos ← error_printf (CPOS 23 0) 0xC000 (str "PANIC: ") [];
      cpos ← error_vprintf cpos 0xC000 fmt args;
      (if istrue (CCOL cpos) then error_printf cpos 0xC000 [10] [];; mret () else mret ());;
      halt (Panicked fmt)
  | None =>
      error_printf (CPOS 23 0) 0xC000 (str "PANIC") [];;
      halt (Panicked [])
  end.

Definition assert_fail {A} `{Devices} (file : string) (line : Z) (msg : string) : M machine A :=
  panic (Some (str "%s:%d: assertion '%s' failed" ++ [10])) [VStr (str file); VInt line; VStr (str msg)].

(** The macro [assert(x)] of lib.h. *)
Definition assert_ `{Devices} (x : bool) (file : string) (line : Z) (msg : string) : M machine () :=
  if x then mret () else assert_fail file line msg.

Definition default_exception {A} `{Devices} (p : proc) : M machine A :=
  panic (Some (str "Unexpected exception %d!" ++ [10])) [VInt (reg_intno (p_registers p))].

(** ** Keyboard *)

Definition KEYBOARD_STATUSREG : Z := 0x64.
Definition KEYBOARD_STATUS_READY : Z := 0x01.
Definition KEYBOARD_DATAREG : Z := 0x60.
Definition MOD_SHIFT : Z := 1.
Definition MOD_CONTROL : Z := 2.
Definition MOD_CAPSLOCK : Z := 8.
Definition KEY_SHIFT : Z := 250.
Definition KEY_CONTROL : Z := 251.
Definition KEY_ALT : Z := 252.
Definition KEY_CAPSLOCK : Z := 253.
Definition KEY_NUMLOCK : Z := 254.
Definition KEY_SCROLLLOCK : Z := 255.
Definition CKEY (cn : Z) : Z := 0x80 + cn.

Definition zeros (n : nat) : list Z := replicate n 0.

Definition keymap : list Z :=
  [0; 27; CKEY 0; CKEY 1; CKEY 2; CKEY 3; CKEY 4; CKEY 5;
   CKEY 6; CKEY 7; CKEY 8; CKEY 9; CKEY 10; CKEY 11; 8; 9] ++
  str "qwertyui" ++ str "op" ++ [CKEY 12; CKEY 13; CKEY 14; KEY_CONTROL] ++ str "as" ++
  str "dfghjkl" ++ [CKEY 15; CKEY 16; CKEY 17; KEY_SHIFT; CKEY 18] ++ str "zxcv" ++
  str "bnm" ++ [CKEY 19; CKEY 20; CKEY 21; KEY_SHIFT] ++ str "*" ++
  [KEY_ALT; 32; KEY_CAPSLOCK; 0; 0; 0; 0; 0] ++
  [0; 0; 0; 0; 0; KEY_NUMLOCK; KEY_SCROLLLOCK] ++ str "7" ++ str "89-456+1" ++
  str "230." ++ zeros 12 ++ zeros 16 ++ zeros 16 ++ zeros 16 ++
  zeros 12 ++ [CKEY 14; KEY_CONTROL; 0; 0] ++ zeros 16 ++
  [0; 0; 0; 0; 0; 47; 0; 0; KEY_ALT; 0; 0; 0; 0; 0; 0; 0] ++
  [0; 0; 0; 0; 0; 0; 0; 199; 192; 200; 0; 195; 0; 193; 0; 197] ++
  [194; 201; 202; 203; 0; 0; 0; 0] ++ zeros 8 ++ zeros 16 ++ zeros 16.

Definition complex_keymap : list (list Z) :=
  [str "1!" ++ [0; 0]; str "2@" ++ [0; 0]; str "3#" ++ [0; 0]; str "4$" ++ [0; 0];
   str "5%" ++ [0; 0]; str "6^" ++ [0; 30]; str "7&" ++ [0; 0]; str "8*" ++ [0; 0];
   str "9(" ++ [0; 0]; str "0)" ++ [0; 0]; str "-_" ++ [0; 31]; str "=+" ++ [0; 0];
   str "[{" ++ [27; 0]; str "]}" ++ [29; 0]; [10; 10; 13; 13]; str ";:" ++ [0; 0];
   [39; 34; 0; 0]; str "`~" ++ [0; 0]; str "\|" ++ [28; 0]; str ",<" ++ [0; 0];
   str ".>" ++ [0; 0]; str "/?" ++ [0; 0]].

Definition keymap_at (i : Z) : Z := nth (Z.to_nat i) keymap 0.
Definition complex_at (i j : Z) : Z := nth (Z.to_nat j) (nth (Z.to_nat i) complex_keymap []) 0.

(** The effect of a key press with code [ch]: the character returned and the
    new modifiers. *)
Definition key_press (ch mods : Z) : Z * Z :=
  if (97 <=? ch) && (ch <=? 122) then
    if has mods MOD_CONTROL then (ch - 0x60, mods)
    else if negb (eqb (negb (has mods MOD_SHIFT)) (negb (has mods MOD_CAPSLOCK)))
         then (ch - 0x20, mods)
    else (ch, mods)
  else if KEY_CAPSLOCK <=? ch then (0, u8 (Z.lxor mods (Z.shiftl 1 (ch - KEY_SHIFT))))
  else if KEY_SHIFT <=? ch then (0, u8 (Z.lor mods (Z.shiftl 1 (ch - KEY_SHIFT))))
  else if (CKEY 0 <=? ch) && (ch <=? CKEY 21) then (complex_at (ch - CKEY 0) (Z.land mods 3), mods)
  else if (ch <? 0x80) && has mods MOD_CONTROL then (0, mods)
  else (ch, mods).

Definition key_release (ch mods : Z) : Z :=
  if (KEY_SHIFT <=? ch) && (ch <? KEY_CAPSLOCK)
  then u8 (Z.land mods (Z.lnot (Z.shiftl 1 (ch - KEY_SHIFT)))) else mods.

Definition keyboard_readc `{Devices} : M machine Z :=
  st ← inb KEYBOARD_STATUSREG;
  if Z.land st KEYBOARD_STATUS_READY =? 0 then mret (-1) else
  data ← inb KEYBOARD_DATAREG;
  escape ← gets last_escape;
  modify (λ s, set_keyboard (modifiers s) 0 s);;
  if data =? 0xE0 then
    modify (λ s, set_keyboard (modifiers s) 0x80 s);; mret 0
  else if istrue (Z.land data 0x80) then
    let ch := keymap_at (Z.lor (Z.land data 0x7F) escape) in
    modify (λ s, set_keyboard (key_release ch (modifiers s)) (last_escape s) s);; mret 0
  else
    let ch := keymap_at (Z.lor data escape) in
    mods ← gets modifiers;
    let '(ch, mods) := key_press ch mods in
    modify (λ s, set_keyboard mods (last_escape s) s);; mret ch.

(** [check_keyboard]: the soft reboot installs the boot page table at 0x8000
    and jumps to [entry_from_boot] with a command line. *)
Definition reboot_argument (c : Z) : list Z :=
  if c =? 97 then str "allocator"
  else if c =? 101 then str "forkexit"
  else if c =? 116 then str "test"
  else if c =? 50 then str "test2"
  else str "fork".

Definition soft_reboot (c : Z) : M machine Z :=
  memset 0x8000 0 (PAGESIZE * 3);;
  write 8 0x8000 (Z.lor 0x9000 PTE_PWU);;
  write 8 0x9000 (Z.lor 0xA000 PTE_PWU);;
  write 8 0xA000 (Z.lor PTE_PWU PTE_PS);;
  lcr3 0x8000;;
  halt (Rebooted (reboot_argument c)).

Definition check_keyboard `{Devices} : M machine Z :=
  c ← keyboard_readc;
  if (c =? 97) || (c =? 102) || (c =? 101) || (c =? 116) || (c =? 50) then soft_reboot c
  else if (c =? 3) || (c =? 113) then poweroff
  else mret c.

(** What [segments_init] leaves for the processor: the interrupt descriptors, and
    the kernel's stack in the task state. *)
Definition traps_ready `{Layout} (m : machine) : Prop :=
  interrupt_descriptors m = idt_table ∧ load 8 (mem m) (kernel_task_descriptor + 4) = KERNEL_STACK_TOP.

(** ** Effects of logging, console output and the keyboard

    [io_only]: only the ports and the log's [initialized] flag changed.
    [quiet]: the above, and the screen and the keyboard state. *)

Definition io_only (s s' : machine) : Prop :=
  ∃ o n i, s' = set_initialized i (set_io o n s).

Definition quiet (s s' : machine) : Prop :=
  ∃ o n i k l, s' = set_mem (mem s') (set_keyboard k l (set_initialized i (set_io o n s))) ∧
  agree (λ a, ¬ on_screen a) (mem s) (mem s').

#[global] Instance io_only_preorder : PreOrder io_only.
Proof.
  split.
  - intros s. exists (outs s), (reads s), (initialized s). by destruct s.
  - intros s1 s2 s3 (?&?&?&->) (o&n&i&->). by exists o, n, i.
Qed.

#[global] Instance quiet_preorder : PreOrder quiet.
Proof.
  split.
  - intros s. exists (outs s), (reads s), (initialized s), (modifiers s), (last_escape s).
    split; [by destruct s|done].
  - intros s1 s2 s3 (?&?&?&?&?&E1&A1) (o&n&i&k&l&E2&A2). exists o, n, i, k, l. split.
    + rewrite E2 at 1. by rewrite E1.
    + by transitivity (mem s2).
Qed.

Lemma io_only_quiet s s' : io_only s s' → quiet s s'.
Proof.
  intros (o&n&i&->). exists o, n, i, (modifiers s), (last_escape s).
  split; [by destruct s|done].
Qed.

Lemma screen_quiet s s' : screen_update s s' → quiet s s'.
Proof.
  intros [E A]. exists (outs s), (reads s), (initialized s), (modifiers s), (last_escape s).
  split; [|done]. rewrite E at 1. by destruct s.
Qed.

Lemma io_only_mem s s' : io_only s s' → mem s' = mem s.
Proof. by intros (?&?&?&->). Qed.

Lemma quiet_fields s s' : quiet s s' →
  cr3 s' = cr3 s ∧ fixed_tables s' = fixed_tables s ∧
  agree (λ a, ¬ on_screen a) (mem s) (mem s').
Proof. intros (?&?&?&?&?&E&A). split_and!; [by rewrite E..|done]. Qed.

Create HintDb effects.
#[export] Hint Resolve io_only_quiet screen_quiet : effects.

Section effects.
Context `{Devices}.

Lemma outb_io port v s : runs (outb port v) s (λ _ s', io_only s s').
Proof. unfold runs, outb. exists ((port, u8 v) :: outs s), (reads s), (initialized s). by destruct s. Qed.

Lemma inb_io port s : runs (inb port) s (λ v s', 0 ≤ v < 256 ∧ io_only s s').
Proof.
  unfold runs, inb. split; [apply u8_range|].
  exists (outs s), (Datatypes.S (reads s)), (initialized s). by destruct s.
Qed.

(** Sequencing computations whose effects compose. *)
Lemma runs_seq {A B} (R : machine → machine → Prop) `{!PreOrder R}
    (m : M machine A) (f : A → M machine B) (P : A → Prop) (Q : B → Prop) s :
  runs m s (λ a s', P a ∧ R s s') →
  (∀ a s', P a → runs (f a) s' (λ b s'', Q b ∧ R s' s'')) →
  runs (m ≫= f) s (λ b s', Q b ∧ R s s').
Proof.
  intros Hm Hf. apply runs_bind. eapply runs_mono; [exact Hm|]. intros a s1 [Ha ?].
  eapply runs_mono; [by apply Hf|]. intros b s2 [??]. split; [done|]. by transitivity s1.
Qed.

Lemma runs_seq_ (R : machine → machine → Prop) `{!PreOrder R} {A B}
    (m : M machine A) (f : A → M machine B) s :
  runs m s (λ _ s', R s s') →
  (∀ a s', runs (f a) s' (λ _ s'', R s' s'')) →
  runs (m ≫= f) s (λ _ s', R s s').
Proof.
  intros Hm Hf. apply runs_bind. eapply runs_mono; [exact Hm|]. intros a s1 ?.
  eapply runs_mono; [by apply Hf|]. intros b s2 ?. by transitivity s1.
Qed.

Lemma delay_io s : runs delay s (λ _ s', io_only s s').
Proof.
  unfold delay. repeat (apply (runs_seq_ io_only);
    [eapply runs_mono; [apply inb_io|by intros ?? [??]]|intros]). by apply runs_ret.
Qed.

Lemma parallel_wait_io n s : runs (parallel_wait n) s (λ _ s', io_only s s').
Proof.
  revert s. induction n as [|n IH]; intros s; cbn [parallel_wait]; [by apply runs_ret|].
  apply (runs_seq_ io_only); [eapply runs_mono; [apply inb_io|by intros ?? [??]]|].
  intros a s'. destruct (has _ _); [by apply runs_ret|].
  apply (runs_seq_ io_only); [apply delay_io|]. intros. apply IH.
Qed.

Lemma parallel_port_putc_io c s : runs (parallel_port_putc c) s (λ _ s', io_only s s').
Proof.
  unfold parallel_port_putc. apply (runs_seq_ io_only); [by apply runs_gets|]. intros i s1.
  apply (runs_seq_ io_only).
  { destruct (istrue i); [by apply runs_ret|].
    apply (runs_seq_ io_only); [apply outb_io|]. intros _ s2.
    apply runs_modify. exists (outs s2), (reads s2), 1. by destruct s2. }
  intros _ s3. apply (runs_seq_ io_only); [apply parallel_wait_io|]. intros _ s4.
  repeat (apply (runs_seq_ io_only); [apply outb_io|intros]). apply outb_io.
Qed.

Lemma log_puts_io out s : runs (log_puts out) s (λ _ s', io_only s s').
Proof.
  revert s. induction out as [|[c k] out IH]; intros s; cbn [log_puts]; [by apply runs_ret|].
  apply (runs_seq_ io_only); [apply parallel_port_putc_io|]. intros. apply IH.
Qed.

(** A message whose format fits the kinds of its arguments only reaches the
    ports; [args'] are sample arguments of these kinds. *)
Lemma log_printf_io args' fmt args s :
  kinds args' args → is_Some (printer_vprintf 0 fmt args') →
  runs (log_printf fmt args) s (λ _ s', io_only s s').
Proof.
  intros Hk Hd. unfold log_printf, log_vprintf.
  destruct (printf_defined 0 0 fmt _ _ Hk Hd) as [out ->]. apply log_puts_io.
Qed.

Lemma console_printf_screen args' cpos color fmt args s :
  kinds args' args → is_Some (printer_vprintf 0 fmt args') →
  runs (console_printf cpos color fmt args) s (λ p s', 0 ≤ p ≤ 2000 ∧ screen_update s s').
Proof.
  intros Hk Hd. unfold console_printf, console_vprintf.
  destruct (printf_defined 0 color fmt _ _ Hk Hd) as [out ->]. apply console_puts_ok.
  change (CONSOLE_ROWS * CONSOLE_COLUMNS) with 2000.
  destruct (Z.ltb_spec cpos 0), (Z.leb_spec 2000 cpos); cbn; lia.
Qed.
End effects.

(** *** panic *)

Section panic.
Context `{Devices}.

Lemma console_vprintf_quiet args' cpos color fmt args s :
  kinds args' args → is_Some (printer_vprintf 0 fmt args') →
  runs (console_vprintf cpos color fmt args) s (λ _ s', quiet s s').
Proof.
  intros Hk Hd. eapply runs_mono; [by apply (console_printf_screen args')|].
  intros p s' [_ ?]. by apply screen_quiet.
Qed.

Lemma error_vprintf_quiet args' cpos color fmt args s :
  kinds args' args → is_Some (printer_vprintf 0 fmt args') →
  runs (error_vprintf cpos color fmt args) s (λ _ s', quiet s s').
Proof.
  intros Hk Hd. apply (runs_seq_ quiet).
  - eapply runs_mono; [by apply (log_printf_io args')|]. intros [] s' ?. by apply io_only_quiet.
  - intros _ s'. by apply (console_vprintf_quiet args').
Qed.

(** [panic] with a format that fits its arguments prints and never returns. *)
Lemma panic_halts {A} args' fmt args s :
  kinds args' args → is_Some (printer_vprintf 0 fmt args') →
  ∃ s', panic (A := A) (Some fmt) args s = Halt (Panicked fmt) s' ∧ quiet s s'.
Proof.
  intros Hk Hd. unfold panic.
  pose proof (error_vprintf_quiet [] (CPOS 23 0) 0xC000 (str "PANIC: ") [] s) as H1.
  apply runs_iff in H1 as (c1 & s1 & E1 & Q1); [|constructor|by eexists; vm_compute; reflexivity].
  erewrite bind_ok by exact E1.
  pose proof (error_vprintf_quiet args' c1 0xC000 fmt args s1 Hk Hd) as H2.
  apply runs_iff in H2 as (c2 & s2 & E2 & Q2). erewrite bind_ok by exact E2.
  destruct (istrue (CCOL c2)).
  - pose proof (error_vprintf_quiet [] c2 0xC000 [10] [] s2) as H3.
    apply runs_iff in H3 as (c3 & s3 & E3 & Q3); [|constructor|by eexists; vm_compute; reflexivity].
    exists s3. split; [|transitivity s1; [done|]; by transitivity s2].
    erewrite bind_ok; [|erewrite bind_ok by exact E3; reflexivity]. reflexivity.
  - exists s2. split; [|by transitivity s1]. by erewrite bind_ok by reflexivity.
Qed.

Lemma assert_fail_panics {A} file line msg s :
  ∃ text s', assert_fail (A := A) file line msg s = Halt (Panicked text) s'.
Proof.
  destruct (panic_halts (A := A) [VStr []; VInt 0; VStr []] (str "%s:%d: assertion '%s' failed" ++ [10])
    [VStr (str file); VInt line; VStr (str msg)] s) as (s' & E & _);
    [repeat constructor|by eexists; vm_compute; reflexivity|].
  by eexists _, s'.
Qed.

Lemma assert_fail_halts {A} file line msg s :
  ∃ e s', assert_fail (A := A) file line msg s = Halt e s' ∧ quiet s s'.
Proof.
  destruct (panic_halts (A := A) [VStr []; VInt 0; VStr []] (str "%s:%d: assertion '%s' failed" ++ [10])
    [VStr (str file); VInt line; VStr (str msg)] s) as (s' & E & Hq);
    [repeat constructor|by eexists; vm_compute; reflexivity|].
  by exists (Panicked (str "%s:%d: assertion '%s' failed" ++ [10])), s'.
Qed.
End panic.

(** ** Properties *)

(** The fields of a gate, as the processor reads them. *)
Definition gate_offset (g : Z * Z) : Z :=
  Z.lor (Z.lor (Z.land g.1 0xFFFF) (Z.shiftl (Z.land (Z.shiftr g.1 48) 0xFFFF) 16)) (Z.shiftl g.2 32).
Definition gate_selector (g : Z * Z) : Z := Z.land (Z.shiftr g.1 16) 0xFFFF.
Definition gate_dpl (g : Z * Z) : Z := Z.land (Z.shiftr g.1 45) 3.
Definition gate_present (g : Z * Z) : bool := Z.testbit g.1 47.

Lemma testbit_small x i k : 0 ≤ x < 2 ^ k → 0 ≤ k ≤ i → Z.testbit x i = false.
Proof. intros Hx Hk. rewrite <- (Z.mod_small x (2 ^ k)) by done. apply Z.mod_pow2_bits_high. lia. Qed.

Lemma testbit_shl a k i : 0 ≤ k → Z.testbit (Z.shiftl a k) i = Z.testbit a (i - k).
Proof.
  intros Hk. destruct (decide (0 ≤ i)); [by apply Z.shiftl_spec|].
  by rewrite !Z.testbit_neg_r by lia.
Qed.

(** The constant part of an interrupt gate has the selector, the type and the
    present bit; the handler's address fills the rest. *)
Lemma set_gate_bits dpl f i :
  0 ≤ dpl < 4 → 0 ≤ f < 2 ^ 64 → 0 ≤ i < 64 →
  Z.testbit (set_gate X86GATE_INTERRUPT dpl f).1 i =
  if decide (i < 16) then Z.testbit f i
  else if decide (i < 45) then Z.testbit 0xE0000080000 i
  else if decide (i < 47) then Z.testbit dpl (i - 45)
  else if decide (i = 47) then true else Z.testbit f (i - 32).
Proof.
  intros Hd Hf Hi. unfold set_gate. cbn [fst].
  rewrite !Z.lor_spec. change 0xFFFF with (Z.ones 16). change 0xFFFF0000 with (Z.shiftl (Z.ones 16) 16).
  assert (u64 (Z.shiftl dpl 45) = Z.shiftl dpl 45) as ->.
  { rewrite Z.shiftl_mul_pow2 by lia. apply u64_small. lia. }
  assert (u64 (Z.shiftl (Z.land f (Z.shiftl (Z.ones 16) 16)) 32) = Z.shiftl (Z.land f (Z.shiftl (Z.ones 16) 16)) 32) as ->.
  { apply u64_small. rewrite Z.shiftl_mul_pow2 by lia.
    assert (Z.land f (Z.shiftl (Z.ones 16) 16) = Z.land (Z.land f (Z.ones 32)) (Z.shiftl (Z.ones 16) 16)) as ->.
    { rewrite <- Z.land_assoc. reflexivity. }
    rewrite Z.land_ones by lia. set (g := f mod 2 ^ 32).
    pose proof (Z.mod_pos_bound f (2 ^ 32) ltac:(lia)) as Hg. fold g in Hg.
    assert (Z.land g (Z.shiftl (Z.ones 16) 16) = Z.shiftl (Z.shiftr g 16) 16) as ->.
    { apply Z.bits_inj'. intros k Hk. rewrite Z.land_spec, !Z.shiftl_spec by lia.
      destruct (decide (k < 16)).
      - rewrite !(Z.testbit_neg_r _ (k - 16)) by lia. apply andb_false_r.
      - rewrite Z.shiftr_spec by lia. replace (k - 16 + 16) with k by lia.
        destruct (decide (k < 32)); [by rewrite Z.ones_spec_low, andb_true_r by lia|].
        rewrite Z.ones_spec_high, andb_false_r by lia. symmetry. apply (testbit_small _ _ 32); lia. }
    rewrite Z.shiftl_mul_pow2, Z.shiftr_div_pow2 by lia. pose proof (Z.div_mod g (2 ^ 16)).
    pose proof (Z.mod_pos_bound g (2 ^ 16)). lia. }
  rewrite !testbit_shl, !Z.land_spec, !testbit_shl by lia.
  change X86GATE_INTERRUPT with (Z.shiftl 0xE 40). change X86SEG_P with (2 ^ 47).
  rewrite testbit_shl by lia. rewrite (Z.pow2_bits_eqb 47) by lia.
  repeat case_decide.
  - rewrite (Z.ones_spec_low 16 i), andb_true_r by lia.
    rewrite (Z.testbit_neg_r SEGSEL_KERN_CODE), (Z.testbit_neg_r 0xE), (Z.testbit_neg_r dpl), (Z.testbit_neg_r f (i - 32)) by lia.
    destruct (Z.eqb_spec 47 i); [lia|]. by rewrite !orb_false_r.
  - rewrite (Z.ones_spec_high 16 i) by lia. rewrite (Z.testbit_neg_r dpl) by lia.
    destruct (Z.eqb_spec 47 i); [lia|]. rewrite andb_false_r. cbn [orb].
    assert (Z.testbit f (i - 32) && Z.testbit (Z.ones 16) (i - 32 - 16) = false) as ->.
    { rewrite (Z.testbit_neg_r (Z.ones 16)) by lia. apply andb_false_r. }
    rewrite !orb_false_r. change 0xE0000080000 with (Z.lor (Z.shiftl SEGSEL_KERN_CODE 16) (Z.shiftl 0xE 40)).
    by rewrite Z.lor_spec, !Z.shiftl_spec by lia.
  - rewrite (Z.ones_spec_high 16 i) by lia.
    destruct (Z.eqb_spec 47 i); [lia|]. rewrite andb_false_r. cbn [orb].
    rewrite (testbit_small SEGSEL_KERN_CODE (i - 16) 4), (testbit_small 0xE (i - 40) 4) by (unfold SEGSEL_KERN_CODE; lia).
    rewrite (Z.testbit_neg_r (Z.ones 16)) by lia. by rewrite andb_false_r, !orb_false_r.
  - subst i. rewrite Z.eqb_refl. by rewrite !orb_true_r.
  - rewrite (Z.ones_spec_high 16 i) by lia.
    destruct (Z.eqb_spec 47 i); [lia|]. rewrite andb_false_r. cbn [orb].
    rewrite (testbit_small SEGSEL_KERN_CODE (i - 16) 4), (testbit_small 0xE (i - 40) 4),
      (testbit_small dpl (i - 45) 2) by (unfold SEGSEL_KERN_CODE; lia). cbn [orb].
    by rewrite (Z.ones_spec_low 16 (i - 32 - 16)), andb_true_r by lia.
Qed.

(** An interrupt gate decodes to the handler it was built for, the kernel's
    code segment and the privilege level asked for. *)
Lemma set_gate_decodes dpl f :
  0 ≤ dpl < 4 → 0 ≤ f < 2 ^ 64 →
  let g := set_gate X86GATE_INTERRUPT dpl f in
  gate_offset g = f ∧ gate_selector g = SEGSEL_KERN_CODE ∧ gate_dpl g = dpl ∧ gate_present g = true.
Proof.
  intros Hd Hf g. pose proof (set_gate_bits dpl f) as Hb. fold g in Hb.
  assert (g.2 = Z.shiftr f 32) as Hg2 by done.
  split_and!.
  - unfold gate_offset. rewrite Hg2. apply Z.bits_inj'. intros i Hi.
    rewrite !Z.lor_spec, !Z.shiftl_spec, Z.land_spec by lia. change 0xFFFF with (Z.ones 16).
    destruct (decide (i < 16)); [|destruct (decide (i < 32))].
    + rewrite Hb, decide_True, Z.ones_spec_low by lia.
      rewrite !(Z.testbit_neg_r _ (i - 16)), !(Z.testbit_neg_r _ (i - 32)) by lia. by rewrite !orb_false_r, andb_true_r.
    + rewrite (Z.ones_spec_high 16 i), andb_false_r, (Z.testbit_neg_r _ (i - 32)) by lia.
      rewrite Z.land_spec, Z.ones_spec_low, Z.shiftr_spec, Hb by lia.
      do 4 (rewrite decide_False by lia). replace (i - 16 + 48 - 32) with i by lia.
      by rewrite andb_true_r, orb_false_r.
    + rewrite (Z.ones_spec_high 16 i), andb_false_r by lia.
      rewrite Z.land_spec, Z.ones_spec_high, andb_false_r, Z.shiftr_spec by lia.
      by replace (i - 32 + 32) with i by lia.
  - unfold gate_selector. change SEGSEL_KERN_CODE with 8. apply Z.bits_inj'. intros i Hi.
    rewrite Z.land_spec, Z.shiftr_spec by lia. change 0xFFFF with (Z.ones 16). destruct (decide (i < 16)).
    + rewrite Z.ones_spec_low, andb_true_r, Hb by lia. rewrite decide_False, decide_True by lia.
      assert (i = 0 ∨ i = 1 ∨ i = 2 ∨ i = 3 ∨ i = 4 ∨ i = 5 ∨ i = 6 ∨ i = 7 ∨ i = 8 ∨ i = 9 ∨ i = 10 ∨ i = 11
        ∨ i = 12 ∨ i = 13 ∨ i = 14 ∨ i = 15) as Hc by lia.
      repeat (destruct Hc as [->|Hc]; [reflexivity|]). by subst i.
    + rewrite Z.ones_spec_high, andb_false_r by lia. symmetry. apply (testbit_small 8 i 4); lia.
  - unfold gate_dpl. apply Z.bits_inj'. intros i Hi.
    rewrite Z.land_spec, Z.shiftr_spec by lia. change 3 with (Z.ones 2). destruct (decide (i < 2)).
    + rewrite Z.ones_spec_low, andb_true_r, Hb by lia.
      do 2 (rewrite decide_False by lia). rewrite decide_True by lia. f_equal. lia.
    + rewrite Z.ones_spec_high, andb_false_r by lia. symmetry. apply (testbit_small dpl i 2); lia.
  - unfold gate_present. rewrite Hb by lia. reflexivity.
Qed.

Lemma set_gate_decodes_witness :
  gate_offset (set_gate X86GATE_INTERRUPT 3 0x4003c) = 0x4003c ∧ gate_dpl (set_gate X86GATE_INTERRUPT 3 0x4003c) = 3.
Proof. destruct (set_gate_decodes 3 0x4003c) as (E & _ & Ed & _); [lia..|]. split; [exact E|exact Ed]. Defined.

Lemma default_gates_lookup n i h idt k :
  (i + n ≤ length idt)%nat →
  default_gates n i h idt !! k =
  if decide (i ≤ k < i + n)%nat then Some (set_gate X86GATE_INTERRUPT 0 h) else idt !! k.
Proof.
  revert i idt. induction n as [|n IH]; intros i idt Hl; cbn [default_gates].
  - by rewrite decide_False by lia.
  - rewrite IH by (rewrite length_insert; lia). destruct (decide (k = i)) as [->|Hne].
    + rewrite decide_False, decide_True by lia. by rewrite list_lookup_insert_eq by lia.
    + rewrite list_lookup_insert_ne by congruence.
      destruct (decide (Datatypes.S i ≤ k < Datatypes.S i + n)%nat); [by rewrite decide_True by lia|].
      by rewrite decide_False by lia.
Qed.

Lemma default_gates_length n i h idt : length (default_gates n i h idt) = length idt.
Proof. revert i idt. induction n as [|n IH]; intros i idt; cbn [default_gates]; [done|]. by rewrite IH, length_insert. Qed.

Lemma sys_gates_lookup hs i idt k :
  (i + length hs ≤ length idt)%nat →
  sys_gates hs i idt !! k =
  if decide (i ≤ k < i + length hs)%nat then set_gate X86GATE_INTERRUPT 3 <$> hs !! (k - i)%nat else idt !! k.
Proof.
  revert i idt. induction hs as [|h hs IH]; intros i idt Hl; cbn [sys_gates length].
  - by rewrite decide_False by lia.
  - cbn [length] in Hl. rewrite IH by (rewrite length_insert; lia). destruct (decide (k = i)) as [->|Hne].
    + rewrite decide_False, decide_True by lia. rewrite list_lookup_insert_eq by lia.
      by rewrite Nat.sub_diag.
    + rewrite list_lookup_insert_ne by congruence.
      destruct (decide (Datatypes.S i ≤ k < Datatypes.S i + length hs)%nat).
      * rewrite decide_True by lia. by replace (k - i)%nat with (Datatypes.S (k - Datatypes.S i)) by lia.
      * by rewrite decide_False by lia.
Qed.

(** The handler and privilege level of vector [i]. *)
Definition vector `{Layout} (i : nat) : option (Z * Z) :=
  if decide (48 ≤ i < 64)%nat then (λ h, (3, h)) <$> sys_int_handlers !! (i - 48)%nat
  else if decide (i = 14)%nat then Some (0, pagefault_int_handler)
  else if decide (i = 13)%nat then Some (0, gpf_int_handler)
  else if decide (i = 32)%nat then Some (0, timer_int_handler)
  else if decide (16 ≤ i)%nat then Some (0, default_int_handler) else None.

Lemma idt_lookup (L : Layout) i :
  LayoutOk L → (i < 256)%nat →
  idt_table !! i = Some (match vector i with Some (dpl, h) => set_gate X86GATE_INTERRUPT dpl h | None => (0, 0) end).
Proof.
  intros Hok Hi. unfold idt_table, vector. pose proof (handlers_16 (L := L)) as H16.
  change (Z.to_nat INT_SYS) with 48%nat.
  change (Z.to_nat INT_PAGEFAULT) with 14%nat. change (Z.to_nat INT_GPF) with 13%nat.
  change (Z.to_nat INT_TIMER) with 32%nat.
  rewrite sys_gates_lookup by (rewrite !length_insert, default_gates_length, length_replicate, H16; lia).
  rewrite H16.
  destruct (decide (48 ≤ i < 64)%nat) as [Hs|Hs].
  - rewrite decide_True by lia. destruct (lookup_lt_is_Some_2 sys_int_handlers (i - 48)) as [h ->]; [lia|done].
  - rewrite decide_False by lia.
    destruct (decide (i = 14)%nat) as [->|]; [apply list_lookup_insert_eq; rewrite ?length_insert, default_gates_length, length_replicate; lia|].
    rewrite list_lookup_insert_ne by congruence.
    destruct (decide (i = 13)%nat) as [->|]; [apply list_lookup_insert_eq; rewrite ?length_insert, default_gates_length, length_replicate; lia|].
    rewrite list_lookup_insert_ne by congruence.
    destruct (decide (i = 32)%nat) as [->|]; [apply list_lookup_insert_eq; rewrite ?length_insert, default_gates_length, length_replicate; lia|].
    rewrite list_lookup_insert_ne by congruence.
    rewrite default_gates_lookup by (rewrite length_replicate; lia).
    destruct (decide (16 ≤ i)%nat); [by rewrite decide_True by lia|].
    rewrite decide_False by lia. by apply lookup_replicate_2.
Qed.

(** C28: the interrupt descriptor table gives user code exactly the system
    calls.  Of the 256 vectors, those a process can raise with [int] (present,
    privilege level 3) are 48 to 63, each enters its own handler in the kernel's
    code segment, and faults and the timer enter theirs at level 0. *)
Theorem idt_user_vectors (L : Layout) i g :
  LayoutOk L → idt_table !! i = Some g →
  (gate_present g = true ∧ gate_dpl g = 3 ↔ (48 ≤ i < 64)%nat) ∧
  (∀ dpl h, vector i = Some (dpl, h) → gate_offset g = h ∧ gate_selector g = SEGSEL_KERN_CODE ∧ gate_dpl g = dpl) ∧
  (vector i = None ↔ gate_present g = false).
Proof.
  intros Hok Hg.
  assert (i < 256)%nat as Hi.
  { apply lookup_lt_Some in Hg. unfold idt_table in Hg. revert Hg.
    assert (∀ hs k l, length (sys_gates hs k l) = length l) as Hlen.
    { intros hs. induction hs as [|x hs IH]; intros k l; cbn [sys_gates]; [done|]. by rewrite IH, length_insert. }
    by rewrite Hlen, !length_insert, default_gates_length, length_replicate. }
  rewrite idt_lookup in Hg by done. injection Hg as <-.
  pose proof (handlers_16 (L := L)) as H16. pose proof (handlers_64 (L := L)) as H64.
  rewrite !Forall_cons in H64. destruct H64 as (?&?&?&?&Hsys). rewrite Forall_forall in Hsys.
  assert (∀ dpl h, vector i = Some (dpl, h) → 0 ≤ dpl < 4 ∧ 0 ≤ h < 2 ^ 64 ∧ (dpl = 3 ↔ (48 ≤ i < 64)%nat)) as Hv.
  { unfold vector. intros dpl h. destruct (decide (48 ≤ i < 64)%nat) as [Hs|Hs].
    - intros Eh. apply fmap_Some in Eh as (x & Hx & [= -> ->]).
      split; [lia|]. split; [|done]. apply Hsys. by eapply list_elem_of_lookup_2.
    - repeat case_decide; intros [= <- <-]; split_and!; try done; lia. }
  destruct (vector i) as [[dpl h]|] eqn:Ev.
  - destruct (Hv dpl h eq_refl) as (Hd & Hh & Hu).
    destruct (set_gate_decodes dpl h Hd Hh) as (Eo & Es & Ed & Ep). split_and!.
    + rewrite Ep, Ed. tauto.
    + intros ? ? [= <- <-]. done.
    + by rewrite Ep.
  - split_and!; [|done|done]. split; [by intros [? _]|]. intros Hs. unfold vector in Ev.
    rewrite decide_True in Ev by done. destruct (lookup_lt_is_Some_2 sys_int_handlers (i - 48)) as [x Ex]; [lia|].
    by rewrite Ex in Ev.
Qed.

Lemma idt_user_vectors_witness :
  gate_dpl (nth 48 (@idt_table kernel_sym) (0, 0)) = 3 ∧
  gate_offset (nth 48 (@idt_table kernel_sym) (0, 0)) = 0x4003c.
Proof.
  destruct (idt_user_vectors kernel_sym 48 (nth 48 (@idt_table kernel_sym) (0, 0)) kernel_sym_ok)
    as (Hu & Hv & _); [vm_compute; reflexivity|].
  split; [apply Hu; lia|]. apply (Hv 3 0x4003c). reflexivity.
Defined.

(** *** Keyboard *)

Lemma keymap_byte i : 0 ≤ keymap_at i < 256.
Proof.
  assert (Forall (λ c, 0 ≤ c < 256) keymap) as HF.
  { apply (bool_decide_unpack _). vm_compute. exact I. }
  unfold keymap_at. destruct (nth_in_or_default (Z.to_nat i) keymap 0) as [Hin| ->]; [|lia].
  rewrite Forall_forall in HF. apply HF. by apply list_elem_of_In.
Qed.

Lemma complex_byte i j : 0 ≤ complex_at i j < 256.
Proof.
  assert (Forall (Forall (λ c, 0 ≤ c < 256)) complex_keymap) as HF.
  { apply (bool_decide_unpack _). vm_compute. exact I. }
  unfold complex_at. destruct (nth_in_or_default (Z.to_nat j) (nth (Z.to_nat i) complex_keymap []) 0) as [Hin| ->]; [|lia].
  destruct (nth_in_or_default (Z.to_nat i) complex_keymap []) as [Hl|E]; [|rewrite E in Hin; destruct Hin].
  rewrite Forall_forall in HF. specialize (HF _ (proj2 (list_elem_of_In _ _) Hl)).
  rewrite Forall_forall in HF. apply HF. by apply list_elem_of_In.
Qed.

Lemma key_press_byte ch mods :
  0 ≤ ch < 256 → 0 ≤ mods < 256 → 0 ≤ (key_press ch mods).1 < 256 ∧ 0 ≤ (key_press ch mods).2 < 256.
Proof.
  intros Hc Hm. unfold key_press. destruct (Z.leb_spec 97 ch), (Z.leb_spec ch 122); cbn [andb].
  1: repeat case_match; cbn [fst snd]; lia.
  all: destruct (KEY_CAPSLOCK <=? ch); [split; [cbn; lia|apply u8_range]|].
  all: destruct (KEY_SHIFT <=? ch); [split; [cbn; lia|apply u8_range]|].
  all: destruct (_ && _); [split; [apply complex_byte|cbn; lia]|].
  all: destruct (_ && _); cbn [fst snd]; lia.
Qed.

(** [keyboard_readc] returns -1 exactly when no key is waiting, and
    otherwise a character code between 0 and 255; it never fails, touches no
    memory, and keeps the modifier byte a byte. *)
Theorem keyboard_readc_range `{Devices} s :
  0 ≤ modifiers s < 256 →
  ∃ c s', keyboard_readc s = Ok c s' ∧ -1 ≤ c < 256 ∧ mem s' = mem s ∧ 0 ≤ modifiers s' < 256 ∧
    (c = -1 ↔ Z.land (u8 (port_in (reads s) KEYBOARD_STATUSREG)) KEYBOARD_STATUS_READY = 0).
Proof.
  intros Hm. unfold keyboard_readc. erewrite bind_ok by reflexivity.
  destruct (Z.eqb_spec (Z.land (u8 (port_in (reads s) KEYBOARD_STATUSREG)) KEYBOARD_STATUS_READY) 0) as [E|E].
  - eexists _, _. split; [reflexivity|]. split; [lia|]. split; [done|]. split; [exact Hm|done].
  - erewrite bind_ok by reflexivity. erewrite bind_ok by reflexivity. erewrite bind_ok by reflexivity.
    set (data := u8 _). cbn [reads set_io set_keyboard last_escape modifiers].
    destruct (data =? 0xE0).
    { eexists _, _. split; [reflexivity|]. split; [lia|]. split; [done|]. split; [exact Hm|]. split; [lia|done]. }
    destruct (istrue (Z.land data 0x80)).
    { eexists _, _. split; [reflexivity|]. split; [lia|]. split; [done|]. split.
      - cbn [modifiers set_keyboard set_io]. unfold key_release. case_match; [apply u8_range|exact Hm].
      - split; [lia|done]. }
    erewrite bind_ok by reflexivity.
    pose proof (key_press_byte (keymap_at (Z.lor data (last_escape s))) (modifiers s) (keymap_byte _) Hm) as Hk.
    cbn [modifiers set_keyboard set_io]. destruct (key_press _ _) as [ch mods]. cbn [fst snd] in Hk.
    eexists _, _. split; [reflexivity|]. split; [lia|]. split; [done|]. split; [apply Hk|]. split; [lia|done].
Qed.

Lemma keyboard_readc_range_witness :
  ∃ c s', @keyboard_readc (λ _ _, 1) (machine_with ∅) = Ok c s' ∧ -1 ≤ c < 256.
Proof.
  destruct (@keyboard_readc_range (λ _ _, 1) (machine_with ∅)) as (c & s' & E & Hc & _); [cbn; lia|].
  exists c, s'. split; [exact E|exact Hc].
Defined.
