(* ===== verification/Entry.v ===== *)
(** Exception entry and return: the assembly of [src/k-exception.S] on a
    processor that delivers interrupts through the tables of
    [src/k-hardware.c]. *)
From S2P Require Import Prelude X86 Machine CLib Printf Hardware.
Open Scope Z_scope.

(** ** The processor *)

Inductive register : Type :=
  | RAX | RCX | RDX | RBX | RBP | RSI | RDI | R8 | R9 | R10 | R11 | R12 | R13 | R14 | R15 | FS | GS | RSP.

#[global] Instance register_eq_dec : EqDecision register.
Proof. solve_decision. Defined.

(** The registers, and the machine they belong to. *)
Record cpu : Type := MkCpu {
  gpr : register → Z;
  rip : Z;
  cs : Z;
  rflags : Z;
  ss : Z;
  ram : machine }.

Definition set_gpr (r : register) (v : Z) (c : cpu) : cpu :=
  MkCpu (λ q, if decide (q = r) then v else gpr c q) (rip c) (cs c) (rflags c) (ss c) (ram c).
Definition set_ram (m : machine) (c : cpu) : cpu := MkCpu (gpr c) (rip c) (cs c) (rflags c) (ss c) m.
Definition set_flags (f : Z) (c : cpu) : cpu := MkCpu (gpr c) (rip c) (cs c) f (ss c) (ram c).
Definition jump (rip cs ss : Z) (c : cpu) : cpu := MkCpu (gpr c) rip cs (rflags c) ss (ram c).

Definition on_ram {A} (m : M machine A) : M cpu A := zoom ram set_ram m.

Definition push (v : Z) : M cpu () :=
  rsp ← gets (λ c, gpr c RSP);
  on_ram (write 8 (rsp - 8) v);;
  modify (set_gpr RSP (rsp - 8)).

Definition pop : M cpu Z :=
  rsp ← gets (λ c, gpr c RSP);
  v ← on_ram (read 8 rsp);
  modify (set_gpr RSP (rsp + 8));;
  mret v.

(** A segment register holds a selector. *)
Definition fitted (r : register) (v : Z) : Z :=
  match r with FS | GS => u16 v | _ => u64 v end.

(** ** Instructions

    Those of [src/k-exception.S].  Of the flags that comparisons set, ZF is
    part of the model: the code tests no other. *)

Inductive op : Type :=
  | Pushi (v : Z) | Push (r : register) | Pop (r : register) | Popf
  | Movi (v : Z) (dst : register) | Mov (src dst : register)
  | Loadl (disp : Z) (base dst : register)
  | Addi (v : Z) (r : register)
  | Cmpli (v : Z) (r : register)
  | Testli (v : Z) (base : register).

(** The functions in C that the code enters. *)
Inductive c_function : Type := Exception | Kernel.

Inductive label : Type :=
  | Gpf_int_handler | Pagefault_int_handler | Timer_int_handler | Sys_int_handler (n : Z)
  | Default_int_handler | Generic_exception_handler | Exception_return
  | Entry_from_boot | Entry_1 | Entry_2.

Inductive instr : Type :=
  | Op (o : op)
  | Jmp (l : label) | Je (l : label) | Jne (l : label)
  | Call (f : c_function) | JmpTo (f : c_function)
  | Iretq.

Definition ZF : Z := 0x40.
Definition set_zf (b : bool) (f : Z) : Z := if b then Z.lor f ZF else Z.ldiff f ZF.

Definition exec (o : op) : M cpu () :=
  match o with
  | Pushi v => push v
  | Push r => v ← gets (λ c, gpr c r); push v
  | Pop r => v ← pop; modify (set_gpr r (fitted r v))
  | Popf => v ← pop; modify (set_flags v)
  | Movi v dst => modify (set_gpr dst v)
  | Mov src dst => v ← gets (λ c, gpr c src); modify (set_gpr dst v)
  | Loadl disp base dst =>
      a ← gets (λ c, gpr c base);
      v ← on_ram (read 4 (a + disp));
      modify (set_gpr dst v)
  | Addi v r => x ← gets (λ c, gpr c r); modify (set_gpr r (u64 (x + v)))
  | Cmpli v r =>
      x ← gets (λ c, gpr c r);
      modify (λ c, set_flags (set_zf (u32 x =? v) (rflags c)) c)
  | Testli v base =>
      a ← gets (λ c, gpr c base);
      x ← on_ram (read 4 a);
      modify (λ c, set_flags (set_zf (Z.land x v =? 0) (rflags c)) c)
  end.

(** The return to another privilege level. *)
Definition iretq : M cpu () :=
  rsp ← gets (λ c, gpr c RSP);
  ip ← on_ram (read 8 rsp);
  sel ← on_ram (read 8 (rsp + 8));
  flags ← on_ram (read 8 (rsp + 16));
  sp ← on_ram (read 8 (rsp + 24));
  stack ← on_ram (read 8 (rsp + 32));
  modify (λ c, set_gpr RSP sp (set_flags flags (jump ip (u16 sel) (u16 stack) c))).

(** ** The code *)

Definition saved_registers : list register :=
  [GS; FS; R15; R14; R13; R12; R11; R10; R9; R8; RDI; RSI; RBP; RBX; RDX; RCX; RAX].

Definition handler (pushes : list Z) : list instr :=
  ((λ v, Op (Pushi v)) <$> pushes) ++ [Jmp Generic_exception_handler].

(** The instructions from a label on, to the next jump that is always taken. *)
Definition code (l : label) : list instr :=
  match l with
  | Gpf_int_handler => handler [13]
  | Pagefault_int_handler => handler [14]
  | Timer_int_handler => handler [0; 32]
  | Sys_int_handler n => handler [0; n]
  | Default_int_handler => handler [0]
  | Generic_exception_handler =>
      [Op (Push GS); Op (Push FS); Op (Push R15); Op (Push R14); Op (Push R13); Op (Push R12); Op (Push R11);
       Op (Push R10); Op (Push R9); Op (Push R8); Op (Push RDI); Op (Push RSI); Op (Push RBP); Op (Push RBX);
       Op (Push RDX); Op (Push RCX); Op (Push RAX); Op (Mov RSP RDI); Call Exception]
  | Exception_return =>
      [Op (Mov RDI RSP);
       Op (Pop RAX); Op (Pop RCX); Op (Pop RDX); Op (Pop RBX); Op (Pop RBP); Op (Pop RSI); Op (Pop RDI);
       Op (Pop R8); Op (Pop R9); Op (Pop R10); Op (Pop R11); Op (Pop R12); Op (Pop R13); Op (Pop R14);
       Op (Pop R15); Op (Pop FS); Op (Pop GS); Op (Addi 16 RSP); Iretq]
  | Entry_from_boot =>
      [Op (Movi 0x80000 RSP); Op (Mov RSP RBP); Op (Pushi 0); Op Popf;
       Op (Cmpli 0x2BADB002 RAX); Jne Entry_1;
       Op (Testli 4 RBX); Je Entry_1;
       Op (Loadl 16 RBX RDI); Jmp Entry_2]
  | Entry_1 => [Op (Movi 0 RDI); JmpTo Kernel]
  | Entry_2 => [JmpTo Kernel]
  end.

(** How a piece of assembly is left: into a function in C, or to user mode. *)
Inductive transfer : Type := Entered (f : c_function) | Resumed.

(** The address after [call exception], which never returns. *)
Class Text : Type := after_call : Z.

Fixpoint run `{Text} (fuel : nat) (k : list instr) : M cpu transfer :=
  match fuel, k with
  | S n, Op o :: k => exec o;; run n k
  | S n, Jmp l :: k => run n (code l)
  | S n, Je l :: k => f ← gets rflags; if has f ZF then run n (code l) else run n k
  | S n, Jne l :: k => f ← gets rflags; if has f ZF then run n k else run n (code l)
  | S n, Call f :: k => push after_call;; mret (Entered f)
  | S n, JmpTo f :: k => mret (Entered f)
  | S n, Iretq :: k => iretq;; mret Resumed
  | _, _ => halt Undefined
  end.

(** No piece of the code is longer, jumps included. *)
Definition code_fuel : nat := 24.

(** ** Delivery of interrupts

    What the processor does with vector [n] and, for the vectors that have
    one, an error code.  A gate that is not present raises segment-not-present;
    for a vector that is an exception of certain classes already, a double
    fault; and when that cannot be delivered either, the processor shuts down. *)

Definition INT_DOUBLEFAULT : Z := 0x8.
Definition INT_SEGMENT : Z := 0xb.
Definition contributory : list Z := [0x0; 0xa; 0xb; 0xc; 0xd; 0xe].

Definition gate_of (idt : list (Z * Z)) (n : Z) : Z * Z := nth (Z.to_nat n) idt (0, 0).

Definition deliverable (idt : list (Z * Z)) (n : Z) : option Z :=
  if gate_present (gate_of idt n) then Some n
  else
    let double := if gate_present (gate_of idt INT_DOUBLEFAULT) then Some INT_DOUBLEFAULT else None in
    if bool_decide (n ∈ contributory) || (n =? INT_DOUBLEFAULT) then double
    else if gate_present (gate_of idt INT_SEGMENT) then Some INT_SEGMENT else double.

(** The flags an interrupt gate clears: TF, IF, NT, RF and VM. *)
Definition gate_clears : Z := 0x34300.

Fixpoint push_all (l : list Z) : M cpu () :=
  match l with
  | [] => mret ()
  | v :: l => push v;; push_all l
  end.

(** The processor switches to the stack of the task state and saves where it
    was; [ss] is the null selector. *)
Definition interrupt `{Layout} (n : Z) (err : option Z) : M cpu () :=
  idt ← gets (λ c, interrupt_descriptors (ram c));
  let g := gate_of idt n in
  frame ← gets (λ c, [ss c; gpr c RSP; rflags c; cs c; rip c] ++ match err with Some e => [e] | None => [] end);
  rsp0 ← on_ram (read 8 (kernel_task_descriptor + 4));
  modify (set_gpr RSP (rsp0 - rsp0 mod 16));;
  push_all frame;;
  modify (λ c, set_flags (Z.ldiff (rflags c) gate_clears) (jump (gate_offset g) (gate_selector g) 0 c)).

(** The label at an address the linker gave a handler. *)
Definition label_at `{Layout} (a : Z) : option label :=
  if a =? default_int_handler then Some Default_int_handler
  else if a =? gpf_int_handler then Some Gpf_int_handler
  else if a =? pagefault_int_handler then Some Pagefault_int_handler
  else if a =? timer_int_handler then Some Timer_int_handler
  else (λ p, Sys_int_handler (INT_SYS + Z.of_nat p.1)) <$> list_find (λ h, h = a) sys_int_handlers.

(** A trap: delivery, and the handler's code. *)
Definition trap `{Layout} `{Text} (n : Z) (err : option Z) : M cpu transfer :=
  interrupt n err;;
  a ← gets rip;
  match label_at a with
  | Some l => run code_fuel (code l)
  | None => halt Undefined
  end.

(** ** Saved registers *)

Definition sizeof_registers : Z := 192.

Definition read_registers (m : gmap Z Z) (a : Z) : x86_64_registers :=
  MkRegs (load 8 m a) (load 8 m (a + 8)) (load 8 m (a + 16)) (load 8 m (a + 24)) (load 8 m (a + 32))
    (load 8 m (a + 40)) (load 8 m (a + 48)) (load 8 m (a + 56)) (load 8 m (a + 64)) (load 8 m (a + 72))
    (load 8 m (a + 80)) (load 8 m (a + 88)) (load 8 m (a + 96)) (load 8 m (a + 104)) (load 8 m (a + 112))
    (load 8 m (a + 120)) (load 8 m (a + 128)) (load 8 m (a + 136)) (load 8 m (a + 144)) (load 8 m (a + 152))
    (load 2 m (a + 160)) (load 8 m (a + 168)) (load 8 m (a + 176)) (load 2 m (a + 184)).

(** The registers of the processor, with a vector and an error code. *)
Definition registers (n err : Z) (c : cpu) : x86_64_registers :=
  MkRegs (gpr c RAX) (gpr c RCX) (gpr c RDX) (gpr c RBX) (gpr c RBP) (gpr c RSI) (gpr c RDI) (gpr c R8)
    (gpr c R9) (gpr c R10) (gpr c R11) (gpr c R12) (gpr c R13) (gpr c R14) (gpr c R15) (gpr c FS) (gpr c GS)
    n err (rip c) (cs c) (rflags c) (gpr c RSP) (ss c).

(** ** Pushing *)

Lemma gpr_same r v c : gpr (set_gpr r v c) r = v.
Proof. cbn. by rewrite decide_True. Qed.

Lemma gpr_other r q v c : q ≠ r → gpr (set_gpr r v c) q = gpr c q.
Proof. intros Hr. cbn. by rewrite decide_False. Qed.

Lemma on_ram_read n a c :
  0 ≤ a → a + Z.of_nat n ≤ MEMSIZE_PHYSICAL → on_ram (read n a) c = Ok (load n (mem (ram c)) a) c.
Proof. intros ? H. change MEMSIZE_PHYSICAL with 0x200000 in H. unfold on_ram, zoom. rewrite read_ok by lia. by destruct c. Qed.

(** The words on the stack, from the address [a] up. *)
Definition stacked (m : gmap Z Z) (a : Z) (l : list Z) : Prop :=
  ∀ i v, l !! i = Some v → load 8 m (a + 8 * Z.of_nat i) = v.

Lemma stacked_push m a l v : stacked m a l → stacked (store 8 m (a - 8) v) (a - 8) (u64 v :: l).
Proof.
  intros Hl [|i] w Hw; cbn in Hw.
  - injection Hw as <-. replace (a - 8 + 8 * Z.of_nat 0) with (a - 8) by lia. apply (load_store_eq 8).
  - rewrite load_store_out by lia. replace (a - 8 + 8 * Z.of_nat (S i)) with (a + 8 * Z.of_nat i) by lia. by apply Hl.
Qed.

(** [c] is [c0] with the words [l] pushed on the empty stack below [top]. *)
Record pushed_on (top : Z) (l : list Z) (c0 c : cpu) : Prop := {
  po_rsp : gpr c RSP = top - 8 * Z.of_nat (length l);
  po_stack : stacked (mem (ram c)) (gpr c RSP) l;
  po_gpr : ∀ r, r ≠ RSP → gpr c r = gpr c0 r;
  po_rest : rip c = rip c0 ∧ cs c = cs c0 ∧ rflags c = rflags c0 ∧ ss c = ss c0;
  po_ram : ram c = set_mem (mem (ram c)) (ram c0);
  po_mem : agree (λ a, ¬ gpr c RSP ≤ a < top) (mem (ram c)) (mem (ram c0)) }.

Section pushes.
Context (top : Z) (c0 : cpu) (Htop : top ≤ MEMSIZE_PHYSICAL).

Lemma pushed_none : pushed_on top [] c0 (set_gpr RSP top c0).
Proof.
  split; rewrite ?gpr_same; try done; [cbn; lia|intros r Hr; by apply gpr_other|by rewrite set_mem_id].
Qed.

Lemma push_runs v l c Q :
  pushed_on top l c0 c → 8 * Z.of_nat (S (length l)) ≤ top →
  (∀ c', pushed_on top (u64 v :: l) c0 c' → Q () c') → runs (push v) c Q.
Proof.
  intros [Hr Hs Hg Hf Hm Ha] Hl HQ. change MEMSIZE_PHYSICAL with 0x200000 in Htop.
  unfold push. apply runs_bind, runs_gets, runs_bind. eapply runs_eq.
  { unfold on_ram, zoom. by rewrite write_ok by lia. }
  apply HQ. split; rewrite ?gpr_same; try done.
  - rewrite Hr. cbn [length]. lia.
  - by apply stacked_push.
  - intros r Hne. rewrite gpr_other by done. by apply Hg.
  - change (set_mem (store 8 (mem (ram c)) (gpr c RSP - 8) v) (ram c) = set_mem (store 8 (mem (ram c)) (gpr c RSP - 8) v) (ram c0)).
    by rewrite Hm.
  - intros a Hout. change (load8 (store 8 (mem (ram c)) (gpr c RSP - 8) v) a = load8 (mem (ram c0)) a).
    rewrite load8_store_out by lia. apply Ha. lia.
Qed.

Lemma push_all_runs vs l c Q :
  pushed_on top l c0 c → 8 * Z.of_nat (length vs + length l) ≤ top →
  (∀ c', pushed_on top (reverse (u64 <$> vs) ++ l) c0 c' → Q () c') → runs (push_all vs) c Q.
Proof.
  revert l c. induction vs as [|v vs IH]; intros l c Hp Hl HQ; cbn [push_all fmap list_fmap] in *; [by apply HQ|].
  cbn [length] in Hl. apply runs_bind, (push_runs v l); [done|lia|]. intros c' Hp'.
  apply (IH (u64 v :: l)); [done|cbn [length]; lia|]. intros c2 Hp2. apply HQ.
  by rewrite reverse_cons, <- app_assoc.
Qed.

Lemma run_op `{Text} n o k c Q :
  runs (exec o) c (λ _ c', runs (run n k) c' Q) → runs (run (S n) (Op o :: k)) c Q.
Proof. apply runs_bind. Qed.

Lemma run_pushi `{Text} vs n k l c Q :
  pushed_on top l c0 c → 8 * Z.of_nat (length vs + length l) ≤ top →
  (∀ c', pushed_on top (reverse (u64 <$> vs) ++ l) c0 c' → runs (run n k) c' Q) →
  runs (run (length vs + n) (((λ v, Op (Pushi v)) <$> vs) ++ k)) c Q.
Proof.
  revert l c. induction vs as [|v vs IH]; intros l c Hp Hl HQ; cbn [fmap list_fmap] in *; [by apply HQ|].
  cbn [length] in Hl. apply run_op, (push_runs v l); [done|lia|]. intros c' Hp'.
  apply (IH (u64 v :: l)); [done|cbn [length]; lia|]. intros c2 Hp2. apply HQ.
  by rewrite reverse_cons, <- app_assoc.
Qed.

Lemma run_push `{Text} rs n k l c Q :
  RSP ∉ rs → pushed_on top l c0 c → 8 * Z.of_nat (length rs + length l) ≤ top →
  (∀ c', pushed_on top (reverse (u64 <$> (gpr c0 <$> rs)) ++ l) c0 c' → runs (run n k) c' Q) →
  runs (run (length rs + n) (((λ r, Op (Push r)) <$> rs) ++ k)) c Q.
Proof.
  revert l c. induction rs as [|r rs IH]; intros l c Hr Hp Hl HQ; cbn [fmap list_fmap] in *; [by apply HQ|].
  apply not_elem_of_cons in Hr as [Hne Hr]. cbn [length] in Hl.
  apply run_op. cbn [exec]. apply runs_bind, runs_gets. rewrite (po_gpr _ _ _ _ Hp) by done.
  apply (push_runs _ l); [done|lia|]. intros c' Hp'.
  apply (IH (u64 (gpr c0 r) :: l)); [done..|cbn [length]; lia|]. intros c2 Hp2. apply HQ.
  by rewrite reverse_cons, <- app_assoc.
Qed.
End pushes.

(** ** Entering [exception] *)

Section entry.
Context (L : Layout) (T : Text) (HL : LayoutOk L).

Lemma task_descriptor_range : 0 ≤ kernel_task_descriptor ∧ kernel_task_descriptor + 96 ≤ KERNEL_STACK_TOP - 4096.
Proof.
  pose proof (kernel_task_descriptor_data (L := L)) as Hd. pose proof (start_data_text (L := L)) as [Hs _].
  pose proof (end_stack (L := L)) as He. change PAGESIZE with 4096 in He. change KERNEL_START_ADDR with 0x40000 in Hs. lia.
Qed.

(** [c] is inside [exception], with the words [l] on the stack and their
    address as its argument; it got there from [c0]. *)
Record in_exception (l : list Z) (c0 c : cpu) : Prop := {
  in_arg : gpr c RDI = KERNEL_STACK_TOP - 8 * Z.of_nat (length l);
  in_stack : stacked (mem (ram c)) (gpr c RDI) l;
  in_ram : ram c = set_mem (mem (ram c)) (ram c0);
  in_mem : agree (λ a, ¬ gpr c RDI - 8 ≤ a < KERNEL_STACK_TOP) (mem (ram c)) (mem (ram c0)) }.

(** What an interrupt leaves on the stack, from the address of the last word up. *)
Definition interrupted (err : option Z) (c : cpu) : list Z :=
  match err with Some e => [u64 e] | None => [] end
  ++ (u64 <$> [rip c; cs c; rflags c; gpr c RSP; ss c]).

Lemma interrupt_runs n err c :
  traps_ready (ram c) →
  runs (interrupt n err) c (λ _ c', ∃ c0, ram c0 = ram c ∧ (∀ r, gpr c0 r = gpr c r) ∧
    rip c0 = gate_offset (gate_of idt_table n) ∧ pushed_on KERNEL_STACK_TOP (interrupted err c) c0 c').
Proof.
  intros [Hi Ht]. pose proof task_descriptor_range as Hk. change KERNEL_STACK_TOP with 0x80000 in *.
  unfold interrupt. apply runs_bind, runs_gets. rewrite Hi. cbv zeta. set (g := gate_of _ _).
  apply runs_bind, runs_gets, runs_bind. eapply runs_eq; [apply on_ram_read; change MEMSIZE_PHYSICAL with 0x200000; lia|].
  rewrite Ht. apply runs_bind, runs_modify. change (0x80000 - 0x80000 mod 16) with 0x80000.
  apply runs_bind, (push_all_runs 0x80000 c ltac:(by vm_compute) _ []); [apply pushed_none|by destruct err|].
  intros c' [Hr Hs Hg Hf Hm Ha]. apply runs_modify. exists (set_flags (Z.ldiff (rflags c') gate_clears) (jump (gate_offset g) (gate_selector g) 0 c)).
  split; [done|]. split; [done|]. split; [done|]. rewrite app_nil_r in *.
  assert (reverse (u64 <$> [ss c; gpr c RSP; rflags c; cs c; rip c] ++ match err with Some e => [e] | None => [] end)
    = interrupted err c) as E by (by destruct err). rewrite E in *. by split.
Qed.

Lemma handler_runs l pushes ws c0 c :
  code l = handler pushes → (length pushes ≤ 3)%nat → (length ws ≤ 8)%nat → pushed_on KERNEL_STACK_TOP ws c0 c →
  runs (run code_fuel (code l)) c (λ t c', t = Entered Exception ∧
    in_exception (reverse (u64 <$> (gpr c0 <$> saved_registers)) ++ reverse (u64 <$> pushes) ++ ws) c0 c').
Proof.
  intros -> Hp Hw Hc. assert (KERNEL_STACK_TOP ≤ MEMSIZE_PHYSICAL) as Htop by by vm_compute.
  change KERNEL_STACK_TOP with 0x80000 in *. unfold handler.
  replace code_fuel with (length pushes + (24 - length pushes))%nat by (unfold code_fuel; lia).
  apply (run_pushi 0x80000 c0 Htop pushes _ _ ws); [done|lia|]. intros c1 H1.
  destruct (24 - length pushes)%nat as [|n] eqn:En; [lia|].
  change (run (S n) [Jmp Generic_exception_handler]) with (run n (((λ r, Op (Push r)) <$> saved_registers) ++ [Op (Mov RSP RDI); Call Exception])).
  replace n with (length saved_registers + S (S (n - 19)))%nat by (cbn; lia).
  apply (run_push 0x80000 c0 Htop _ _ _ (reverse (u64 <$> pushes) ++ ws)).
  { apply (bool_decide_unpack _). vm_compute. exact I. }
  { done. }
  { rewrite length_app, length_reverse, length_fmap. cbn [length saved_registers]. lia. }
  intros c2 [Hr Hs Hg Hf Hm Ha]. set (words := _ ++ _ ++ ws) in *.
  assert (length words ≤ 28)%nat as Hlen.
  { unfold words. rewrite !length_app, !length_reverse, !length_fmap. cbn. lia. }
  apply run_op. cbn [exec]. apply runs_bind, runs_gets, runs_modify. apply runs_bind, (runs_mono _ _ (λ _ c',
    c' = set_gpr RSP (gpr c2 RSP - 8) (set_ram (set_mem (store 8 (mem (ram c2)) (gpr c2 RSP - 8) after_call) (ram c2)) (set_gpr RDI (gpr c2 RSP) c2)))).
  - unfold push. apply runs_bind, runs_gets, runs_bind. eapply runs_eq.
    { unfold on_ram, zoom. rewrite gpr_other by done. cbn [ram set_gpr]. by rewrite write_ok by lia. }
    by apply runs_modify.
  - intros _ c' ->. apply runs_ret. split; [done|]. split.
    + rewrite gpr_other by done. change (gpr (set_ram _ ?c) RDI) with (gpr c RDI). by rewrite gpr_same.
    + rewrite gpr_other by done. change (gpr (set_ram _ ?c) RDI) with (gpr c RDI). rewrite gpr_same.
      intros i v Hi. cbn [ram set_gpr set_ram mem set_mem]. rewrite load_store_out by lia. by apply Hs.
    + cbn [ram set_gpr set_ram mem set_mem]. by rewrite Hm.
    + rewrite gpr_other by done. change (gpr (set_ram _ ?c) RDI) with (gpr c RDI). rewrite gpr_same.
      intros a Hout. change KERNEL_STACK_TOP with 0x80000 in Hout. cbn [ram set_gpr set_ram mem set_mem]. rewrite load8_store_out by lia. apply Ha. lia.
Qed.

(** ** Which handler *)

Definition handler_of (n : Z) : option label :=
  if decide (48 ≤ n < 64) then Some (Sys_int_handler n)
  else if decide (n = 14) then Some Pagefault_int_handler
  else if decide (n = 13) then Some Gpf_int_handler
  else if decide (n = 32) then Some Timer_int_handler
  else if decide (16 ≤ n) then Some Default_int_handler else None.

(** The linker gave the handlers different addresses. *)
Definition handlers_apart : Prop :=
  NoDup (default_int_handler :: gpf_int_handler :: pagefault_int_handler :: timer_int_handler :: sys_int_handlers).

Lemma gate_of_idt n :
  0 ≤ n < 256 → gate_of idt_table n
  = match vector (Z.to_nat n) with Some (dpl, h) => set_gate X86GATE_INTERRUPT dpl h | None => (0, 0) end.
Proof. intros Hn. unfold gate_of. apply nth_lookup_Some, (idt_lookup L); [done|lia]. Qed.

Lemma gate_decodes n dpl h :
  0 ≤ n < 256 → vector (Z.to_nat n) = Some (dpl, h) →
  gate_offset (gate_of idt_table n) = h ∧ gate_present (gate_of idt_table n) = true.
Proof.
  intros Hn E. rewrite gate_of_idt, E by done. pose proof (handlers_64 (L := L)) as H64.
  rewrite !Forall_cons in H64. destruct H64 as (?&?&?&?&Hsys). rewrite Forall_forall in Hsys.
  destruct (set_gate_decodes dpl h) as (Eo & _ & _ & Ep); [| |done]; unfold vector in E;
    repeat case_decide; simplify_eq; try lia; try done; apply fmap_Some in E as (x & Hx & [= -> ->]); [lia|].
  apply Hsys. by eapply list_elem_of_lookup_2.
Qed.

Lemma handler_vector n l :
  handler_of n = Some l →
  ∃ dpl h, vector (Z.to_nat n) = Some (dpl, h) ∧
    match l with
    | Sys_int_handler k => k = n ∧ 48 ≤ n ∧ sys_int_handlers !! (Z.to_nat n - 48)%nat = Some h
    | Pagefault_int_handler => h = pagefault_int_handler
    | Gpf_int_handler => h = gpf_int_handler
    | Timer_int_handler => h = timer_int_handler
    | _ => l = Default_int_handler ∧ h = default_int_handler
    end.
Proof.
  pose proof (handlers_16 (L := L)) as H16. unfold handler_of, vector.
  destruct (decide (48 ≤ n < 64)).
  { intros [= <-]. rewrite decide_True by lia. destruct (lookup_lt_is_Some_2 sys_int_handlers (Z.to_nat n - 48)) as [h Eh]; [lia|].
    rewrite Eh. exists 3, h. repeat split; lia. }
  rewrite (decide_False (P := (48 ≤ Z.to_nat n < 64)%nat)) by lia.
  destruct (decide (n = 14)); [intros [= <-]; rewrite decide_True by lia; by do 2 eexists|].
  rewrite (decide_False (P := Z.to_nat n = 14%nat)) by lia.
  destruct (decide (n = 13)); [intros [= <-]; rewrite decide_True by lia; by do 2 eexists|].
  rewrite (decide_False (P := Z.to_nat n = 13%nat)) by lia.
  destruct (decide (n = 32)); [intros [= <-]; rewrite decide_True by lia; by do 2 eexists|].
  rewrite (decide_False (P := Z.to_nat n = 32%nat)) by lia.
  destruct (decide (16 ≤ n)); [intros [= <-]; rewrite decide_True by lia; by do 2 eexists|done].
Qed.

Lemma handler_label n l :
  handlers_apart → 0 ≤ n < 256 → handler_of n = Some l →
  label_at (gate_offset (gate_of idt_table n)) = Some l.
Proof.
  unfold handlers_apart. rewrite !NoDup_cons, !not_elem_of_cons. intros ((? & ? & ? & Hd) & (? & ? & Hg) & (? & Hp) & Ht & Hnd) Hn Hl.
  destruct (handler_vector n l Hl) as (dpl & h & E & Hh). destruct (gate_decodes n dpl h Hn E) as [-> _].
  assert (∀ a, a ∉ sys_int_handlers → l = Sys_int_handler n → sys_int_handlers !! (Z.to_nat n - 48)%nat = Some h → (h =? a) = false) as Hne.
  { intros a Ha _ Eh. apply Z.eqb_neq. intros ->. apply Ha. by eapply list_elem_of_lookup_2. }
  unfold label_at. destruct l; try (by destruct Hh); [| | | |destruct Hh as [_ ->]; by rewrite Z.eqb_refl].
  1-3: subst h; rewrite ?Z.eqb_refl, ?(proj2 (Z.eqb_neq _ _)) by congruence; done.
  destruct Hh as (-> & H48 & Eh). rewrite !Hne by done.
  assert (list_find (λ a, a = h) sys_int_handlers = Some ((Z.to_nat n - 48)%nat, h)) as ->.
  { apply list_find_Some. split; [done|]. split; [done|]. intros j y Hj Hlt ->.
    pose proof (NoDup_lookup _ _ _ _ Hnd Hj Eh). lia. }
  cbn. do 2 f_equal. change INT_SYS with 48. lia.
Qed.

(** ** The saved structure *)

Lemma load_2 m a : load 2 m a = u16 (load 8 m a).
Proof.
  change 8%nat with (2 + 6)%nat. rewrite load_app. unfold u16. change (256 ^ Z.of_nat 2) with (2 ^ 16).
  rewrite Z.mul_comm, Z.mod_add by lia. symmetry. apply Z.mod_small. apply (load_range 2).
Qed.

(** The 24 words of the structure, from its address up. *)
Definition words_registers (l : list Z) : x86_64_registers :=
  let w i := nth i l 0 in
  MkRegs (w 0%nat) (w 1%nat) (w 2%nat) (w 3%nat) (w 4%nat) (w 5%nat) (w 6%nat) (w 7%nat) (w 8%nat) (w 9%nat)
    (w 10%nat) (w 11%nat) (w 12%nat) (w 13%nat) (w 14%nat) (w 15%nat) (w 16%nat) (w 17%nat) (w 18%nat) (w 19%nat)
    (u16 (w 20%nat)) (w 21%nat) (w 22%nat) (u16 (w 23%nat)).

Lemma read_stacked m a l : stacked m a l → (24 ≤ length l)%nat → read_registers m a = words_registers l.
Proof.
  intros Hs Hl. assert (∀ i, (i < 24)%nat → nth i l 0 = load 8 m (a + 8 * Z.of_nat i)) as Hw.
  { intros i Hi. destruct (lookup_lt_is_Some_2 l i) as [v Hv]; [lia|]. by rewrite (nth_lookup_Some _ _ _ _ Hv), (Hs i v Hv). }
  unfold read_registers, words_registers. cbv zeta. rewrite !Hw by lia. rewrite !load_2.
  f_equal; rewrite ?Z.add_0_r; reflexivity.
Qed.

(** Every register holds a value of its width. *)
Record cpu_typed (c : cpu) : Prop := {
  ct_gpr : ∀ r, fitted r (gpr c r) = gpr c r;
  ct_rip : u64 (rip c) = rip c;
  ct_cs : u16 (cs c) = cs c;
  ct_rflags : u64 (rflags c) = rflags c;
  ct_ss : u16 (ss c) = ss c }.

Lemma u64_u16 x : u64 (u16 x) = u16 x.
Proof. apply u64_small. pose proof (u16_range x). lia. Qed.

Lemma u16_u64 x : u16 (u64 x) = u16 x.
Proof. unfold u16, u64. apply Z.mod_mod_divide. by exists (2 ^ 48). Qed.

Lemma typed_word c r : cpu_typed c → u64 (gpr c r) = gpr c r.
Proof. intros Hc. rewrite <- (ct_gpr c Hc r). destruct r; cbn [fitted]; try (apply Z.mod_mod; lia); apply u64_u16. Qed.

(** The words that the handler for a vector with number and error code, or
    with [n] and 0 in their place, has pushed make up the registers. *)
Lemma words_saved c n e :
  cpu_typed c → 0 ≤ n < 64 →
  words_registers (reverse (u64 <$> (gpr c <$> saved_registers)) ++ n :: u64 e :: (u64 <$> [rip c; cs c; rflags c; gpr c RSP; ss c]))
  = registers n (u64 e) c.
Proof.
  intros Hc Hn. unfold words_registers, registers. cbv zeta. cbn [saved_registers fmap list_fmap reverse rev_append app nth].
  rewrite !(typed_word c _ Hc), !u16_u64, (ct_rip c Hc), (ct_cs c Hc), (ct_rflags c Hc), (ct_ss c Hc). done.
Qed.

(** The vectors whose handlers save a complete structure, and whether the
    processor pushes an error code. *)
Definition reporting (n : Z) (err : option Z) : Prop :=
  match err with
  | Some _ => n = INT_GPF ∨ n = INT_PAGEFAULT
  | None => n = INT_TIMER ∨ INT_SYS ≤ n < INT_SYS + 16
  end.

Lemma trap_runs n err l pushes c :
  handlers_apart → traps_ready (ram c) → 0 ≤ n < 256 → handler_of n = Some l → code l = handler pushes → (length pushes ≤ 2)%nat →
  ∃ c', trap n err c = Ok (Entered Exception) c' ∧
    in_exception (reverse (u64 <$> (gpr c <$> saved_registers)) ++ reverse (u64 <$> pushes) ++ interrupted err c) c c'.
Proof.
  intros Ha Hp Hn Hl Hc Hlen. unfold trap.
  destruct (proj1 (runs_iff _ _ _) (interrupt_runs n err c Hp)) as ([] & c1 & E1 & c0 & Er & Eg & Erip & H1).
  rewrite (bind_ok _ _ _ _ _ E1). erewrite bind_ok by reflexivity.
  destruct (po_rest _ _ _ _ H1) as [-> _]. rewrite Erip, (handler_label n l) by done.
  assert (length (interrupted err c) ≤ 8)%nat as Hw by (destruct err; cbn; lia).
  pose proof (handler_runs l pushes _ c0 c1 Hc ltac:(lia) Hw H1) as Hr.
  destruct (proj1 (runs_iff _ _ _) Hr) as (t & c2 & E2 & -> & [Ea Es Em Eo]).
  exists c2. split; [done|]. rewrite Er in *.
  assert (gpr c0 <$> saved_registers = gpr c <$> saved_registers) as Eq by (apply list_fmap_ext; intros; apply Eg).
  rewrite Eq in *. by split.
Qed.

Lemma trap_saves_run c n err :
  handlers_apart → traps_ready (ram c) → cpu_typed c → reporting n err →
  ∃ c', trap n err c = Ok (Entered Exception) c' ∧
    gpr c' RDI = KERNEL_STACK_TOP - sizeof_registers ∧
    read_registers (mem (ram c')) (gpr c' RDI) = registers n (u64 (default 0 err)) c ∧
    ram c' = set_mem (mem (ram c')) (ram c) ∧
    agree (λ a, ¬ KERNEL_STACK_TOP - sizeof_registers - 8 ≤ a < KERNEL_STACK_TOP) (mem (ram c')) (mem (ram c)).
Proof.
  intros Ha Hp Hc Hn.
  assert (∃ l pushes, 0 ≤ n < 64 ∧ handler_of n = Some l ∧ code l = handler pushes ∧ (length pushes ≤ 2)%nat ∧
    reverse (u64 <$> pushes) ++ interrupted err c = n :: u64 (default 0 err) :: (u64 <$> [rip c; cs c; rflags c; gpr c RSP; ss c]))
    as (l & pushes & Hr & Hl & Hcode & Hlen & Ew).
  { unfold reporting in Hn. change INT_GPF with 13 in Hn. change INT_PAGEFAULT with 14 in Hn. change INT_TIMER with 32 in Hn. change INT_SYS with 48 in Hn.
    destruct err as [e|]; [destruct Hn as [-> | ->]; [exists Gpf_int_handler, [13]|exists Pagefault_int_handler, [14]]|
      destruct Hn as [-> |Hs]; [exists Timer_int_handler, [0; 32]|]].
    1-3: split; [lia|]; split; [done|]; split; [done|]; split; [cbn; lia|done].
    exists (Sys_int_handler n), [0; n]. split; [lia|]. split; [unfold handler_of; by rewrite decide_True by lia|].
    split; [done|]. split; [cbn; lia|]. cbn [fmap list_fmap reverse rev_append app interrupted]. rewrite (u64_small n) by lia. done. }
  destruct (trap_runs n err l pushes c Ha Hp ltac:(lia) Hl Hcode Hlen) as (c' & E & [Ea Es Em Eo]).
  rewrite Ew in *. set (ws := reverse (u64 <$> (gpr c <$> _)) ++ _) in *. assert (length ws = 24%nat) as H24 by reflexivity.
  exists c'. split; [done|]. rewrite H24 in Ea. split; [done|].
  split; [rewrite (read_stacked _ _ ws Es) by lia; apply words_saved; [done|lia]|]. split; [done|].
  rewrite Ea in Eo. exact Eo.
Qed.

(** ** Returning to user mode *)

Lemma pop_runs v l c Q :
  0 ≤ gpr c RSP → gpr c RSP + 8 ≤ MEMSIZE_PHYSICAL → stacked (mem (ram c)) (gpr c RSP) (v :: l) →
  Q v (set_gpr RSP (gpr c RSP + 8) c) → runs pop c Q.
Proof.
  intros H1 H2 Hs HQ. unfold pop. apply runs_bind, runs_gets, runs_bind. eapply runs_eq; [by apply on_ram_read|].
  pose proof (Hs 0%nat v eq_refl) as E. rewrite Z.add_0_r in E. rewrite E. apply runs_bind, runs_modify. exact HQ.
Qed.

Lemma stacked_pop m a v l : stacked m a (v :: l) → stacked m (a + 8) l.
Proof. intros Hs i w Hi. replace (a + 8 + 8 * Z.of_nat i) with (a + 8 * Z.of_nat (S i)) by lia. by apply Hs. Qed.

(** [f] with the registers [rs] set to the values [vs], one after the other. *)
Fixpoint assigned (rs : list register) (vs : list Z) (f : register → Z) : register → Z :=
  match rs, vs with
  | q :: rs, v :: vs => assigned rs vs (λ r, if decide (r = q) then fitted q v else f r)
  | _, _ => f
  end.

Lemma assigned_lookup rs vs f i r v :
  NoDup rs → rs !! i = Some r → vs !! i = Some v → assigned rs vs f r = fitted r v.
Proof.
  assert (∀ rs vs (f : register → Z), r ∉ rs → assigned rs vs f r = f r) as Hout.
  { intros qs. induction qs as [|q qs IH]; intros [|w ws] g Hr; cbn [assigned]; try done.
    apply not_elem_of_cons in Hr as [Hne Hr]. rewrite IH by done. by rewrite decide_False. }
  intros Hnd. revert vs f i. induction Hnd as [|q qs Hq Hnd IH]; intros [|w ws] f [|i] Hr Hv; try done; cbn [assigned].
  - injection Hr as ->. injection Hv as ->. rewrite Hout by done. by rewrite decide_True.
  - by apply (IH _ _ i).
Qed.

Lemma assigned_ext rs vs f g (P : register → Prop) r :
  (∀ r, P r → f r = g r) → P r → assigned rs vs f r = assigned rs vs g r.
Proof.
  revert vs f g. induction rs as [|q rs IH]; intros [|v vs] f g Hfg Hr; cbn [assigned]; try by apply Hfg.
  apply IH; [|done]. intros q' Hq. case_decide; [done|by apply Hfg].
Qed.

Lemma run_pops rs vs l n k c Q :
  RSP ∉ rs → length vs = length rs → 0 ≤ gpr c RSP → gpr c RSP + 8 * Z.of_nat (length rs) ≤ MEMSIZE_PHYSICAL →
  stacked (mem (ram c)) (gpr c RSP) (vs ++ l) →
  (∀ c', ram c' = ram c → gpr c' RSP = gpr c RSP + 8 * Z.of_nat (length rs) →
    (∀ r, r ≠ RSP → gpr c' r = assigned rs vs (gpr c) r) → runs (run n k) c' Q) →
  runs (run (length rs + n) (((λ r, Op (Pop r)) <$> rs) ++ k)) c Q.
Proof.
  revert vs c. induction rs as [|q rs IH]; intros [|v vs] c Hq Hl H1 H2 Hs HQ; cbn [length fmap list_fmap] in *; try lia.
  { apply HQ; [done|lia|done]. }
  apply not_elem_of_cons in Hq as [Hne Hq]. apply run_op. cbn [exec].
  apply runs_bind, (pop_runs v (vs ++ l)); [lia..|done|]. apply runs_modify.
  set (c1 := set_gpr q (fitted q v) _). assert (gpr c1 RSP = gpr c RSP + 8) as E1 by (unfold c1; by rewrite gpr_other, gpr_same).
  assert (ram c1 = ram c) as Er by done.
  apply (IH vs); rewrite ?E1, ?Er; [done|lia|lia|lia|by apply (stacked_pop _ _ v)|].
  intros c2 R2 S2 G2. apply HQ; [by rewrite R2|rewrite S2; lia|]. intros r Hr. rewrite G2 by done.
  cbn [assigned]. apply (assigned_ext _ _ _ _ (λ r, r ≠ RSP)); [|done]. intros r' Hr'. unfold c1. cbn [gpr set_gpr].
  case_decide; [done|]. by rewrite decide_False.
Qed.

Lemma iretq_eq c :
  0 ≤ gpr c RSP → gpr c RSP + 40 ≤ MEMSIZE_PHYSICAL →
  let w i := load 8 (mem (ram c)) (gpr c RSP + i) in
  iretq c = Ok () (set_gpr RSP (w 24) (set_flags (w 16) (jump (w 0) (u16 (w 8)) (u16 (w 32)) c))).
Proof.
  intros H1 H2 w. unfold iretq. erewrite bind_ok by reflexivity.
  do 5 (erewrite bind_ok by (apply on_ram_read; lia)). unfold modify, w. by rewrite Z.add_0_r.
Qed.

Lemma stacked_words m a : stacked m a ((λ i, load 8 m (a + 8 * Z.of_nat i)) <$> seq 0 24).
Proof.
  intros i v Hi. rewrite list_lookup_fmap in Hi. apply fmap_Some in Hi as (j & Hj & ->). apply lookup_seq in Hj as [-> _].
  done.
Qed.

(** The processor's registers are those of the structure; it is in user mode. *)
Definition restored (reg : x86_64_registers) (c : cpu) : Prop :=
  registers (reg_intno reg) (reg_err reg) c
  = MkRegs (reg_rax reg) (reg_rcx reg) (reg_rdx reg) (reg_rbx reg) (reg_rbp reg) (reg_rsi reg) (reg_rdi reg)
      (reg_r8 reg) (reg_r9 reg) (reg_r10 reg) (reg_r11 reg) (reg_r12 reg) (reg_r13 reg) (reg_r14 reg) (reg_r15 reg)
      (u16 (reg_fs reg)) (u16 (reg_gs reg)) (reg_intno reg) (reg_err reg) (reg_rip reg) (reg_cs reg) (reg_rflags reg)
      (reg_rsp reg) (reg_ss reg).

Lemma return_runs c :
  0 ≤ gpr c RDI → gpr c RDI + sizeof_registers ≤ MEMSIZE_PHYSICAL →
  runs (run code_fuel (code Exception_return)) c (λ t c', t = Resumed ∧ ram c' = ram c ∧
    restored (read_registers (mem (ram c)) (gpr c RDI)) c').
Proof.
  change sizeof_registers with 192. change MEMSIZE_PHYSICAL with 0x200000. intros H1 H2.
  assert (RSP ∉ reverse saved_registers) as Hno by (apply (bool_decide_unpack _); vm_compute; exact I).
  set (m := mem (ram c)). set (a := gpr c RDI) in *.
  set (w := λ i : nat, load 8 m (a + 8 * Z.of_nat i)).
  change (code Exception_return) with (Op (Mov RDI RSP) :: (((λ r, Op (Pop r)) <$> reverse saved_registers) ++ [Op (Addi 16 RSP); Iretq])).
  apply (run_op 23). cbn [exec]. apply runs_bind, runs_gets, runs_modify.
  set (c1 := set_gpr RSP _ c). assert (gpr c1 RSP = a) as E1 by (unfold c1; by rewrite gpr_same).
  change 23%nat with (length (reverse saved_registers) + 6)%nat.
  apply (run_pops _ (w <$> seq 0 17) (w <$> seq 17 7)); rewrite ?E1; try done.
  { change MEMSIZE_PHYSICAL with 0x200000. cbn. lia. }
  { apply (stacked_words m a). }
  intros c2 R2 S2 G2. change (8 * Z.of_nat _) with 136 in S2.
  apply run_op. cbn [exec]. apply runs_bind, runs_gets, runs_modify. rewrite S2, u64_small by lia.
  set (c3 := set_gpr RSP _ c2). assert (gpr c3 RSP = a + 152) as E3 by (unfold c3; rewrite gpr_same; lia).
  apply runs_bind. eapply runs_eq.
  { apply iretq_eq; rewrite E3; change MEMSIZE_PHYSICAL with 0x200000; lia. }
  apply runs_ret. split; [done|]. split; [done|]. rewrite E3. cbv zeta.
  change (ram c3) with (ram c2). rewrite R2. change (mem (ram c1)) with m.
  assert (∀ r, r ≠ RSP → gpr c3 r = assigned (reverse saved_registers) (w <$> seq 0 17) (gpr c1) r) as G3.
  { intros r Hr. unfold c3. rewrite gpr_other by done. by apply G2. }
  set (c4 := set_gpr RSP (load 8 m (a + 152 + 24)) _).
  assert (∀ i r, reverse saved_registers !! i = Some r → gpr c4 r = fitted r (load 8 m (a + 8 * Z.of_nat i))) as Hg.
  { intros i r Hi. assert (r ≠ RSP) as Hr.
    { intros ->. apply Hno. by eapply list_elem_of_lookup_2. }
    assert (gpr c4 r = gpr c3 r) as -> by (unfold c4; by rewrite gpr_other). rewrite G3 by done.
    apply (assigned_lookup _ _ _ i); [|done|].
    - apply (bool_decide_unpack _). vm_compute. exact I.
    - apply lookup_lt_Some in Hi. cbn in Hi. rewrite list_lookup_fmap, lookup_seq_lt by lia. done. }
  assert (∀ x, u64 (load 8 m x) = load 8 m x) as Hu by (intros x; apply u64_small, (load_range 8)).
  unfold restored, registers.
  rewrite (Hg 0%nat RAX eq_refl), (Hg 1%nat RCX eq_refl), (Hg 2%nat RDX eq_refl), (Hg 3%nat RBX eq_refl), (Hg 4%nat RBP eq_refl), (Hg 5%nat RSI eq_refl), (Hg 6%nat RDI eq_refl), (Hg 7%nat R8 eq_refl), (Hg 8%nat R9 eq_refl), (Hg 9%nat R10 eq_refl), (Hg 10%nat R11 eq_refl), (Hg 11%nat R12 eq_refl), (Hg 12%nat R13 eq_refl), (Hg 13%nat R14 eq_refl), (Hg 14%nat R15 eq_refl), (Hg 15%nat FS eq_refl), (Hg 16%nat GS eq_refl).
  assert (gpr c4 RSP = load 8 m (a + 152 + 24)) as -> by (unfold c4; by rewrite gpr_same).
  change (rip c4) with (load 8 m (a + 152 + 0)). change (cs c4) with (u16 (load 8 m (a + 152 + 8))).
  change (rflags c4) with (load 8 m (a + 152 + 16)). change (ss c4) with (u16 (load 8 m (a + 152 + 32))).
  cbn [fitted]. unfold read_registers. cbn [reg_rax reg_rcx reg_rdx reg_rbx reg_rbp reg_rsi reg_rdi reg_r8 reg_r9 reg_r10
    reg_r11 reg_r12 reg_r13 reg_r14 reg_r15 reg_fs reg_gs reg_intno reg_err reg_rip reg_cs reg_rflags reg_rsp reg_ss].
  rewrite !Hu, !load_2. f_equal; first [done|f_equal; lia|do 2 f_equal; lia].
Qed.

Lemma registers_inj n e c c' :
  registers n e c = registers n e c' →
  (∀ r, gpr c r = gpr c' r) ∧ rip c = rip c' ∧ cs c = cs c' ∧ rflags c = rflags c' ∧ ss c = ss c'.
Proof. intros E. injection E as. split; [by intros []|done]. Qed.

(** The structure of a trap brings back the registers at the trap. *)
Lemma saved_restores c n err k :
  cpu_typed c → 0 ≤ gpr k RDI → gpr k RDI + sizeof_registers ≤ MEMSIZE_PHYSICAL →
  read_registers (mem (ram k)) (gpr k RDI) = registers n err c →
  ∃ c', run code_fuel (code Exception_return) k = Ok Resumed c' ∧ ram c' = ram k ∧
    (∀ r, gpr c' r = gpr c r) ∧ rip c' = rip c ∧ cs c' = cs c ∧ rflags c' = rflags c ∧ ss c' = ss c.
Proof.
  intros Hc H1 H2 E. destruct (proj1 (runs_iff _ _ _) (return_runs k H1 H2)) as (t & c' & Er & -> & Em & Hres).
  exists c'. split; [done|]. split; [done|]. apply (registers_inj n err). rewrite E in Hres. unfold restored in Hres.
  cbn [registers reg_rax reg_rcx reg_rdx reg_rbx reg_rbp reg_rsi reg_rdi reg_r8 reg_r9 reg_r10
    reg_r11 reg_r12 reg_r13 reg_r14 reg_r15 reg_fs reg_gs reg_intno reg_err reg_rip reg_cs reg_rflags reg_rsp reg_ss] in Hres.
  rewrite Hres. unfold registers. pose proof (ct_gpr c Hc FS) as Ef. pose proof (ct_gpr c Hc GS) as Eg.
  cbn [fitted] in Ef, Eg. by rewrite Ef, Eg.
Qed.

(** C17: exception entry and return.  A system call, the timer, a page fault or
    a general protection fault in user mode enters [exception] with, on the
    kernel's stack, a structure that holds every register of the process, the
    vector's number and the error code, and changes no memory outside the
    kernel's stack; and [exception_return], given that structure wherever the
    kernel has copied it, brings back every register of the process. *)
Theorem trap_round_trip c n err :
  handlers_apart → traps_ready (ram c) → cpu_typed c → reporting n err →
  ∃ c', trap n err c = Ok (Entered Exception) c' ∧
    read_registers (mem (ram c')) (gpr c' RDI) = registers n (u64 (default 0 err)) c ∧
    ram c' = set_mem (mem (ram c')) (ram c) ∧
    agree (λ a, ¬ KERNEL_STACK_TOP - PAGESIZE ≤ a < KERNEL_STACK_TOP) (mem (ram c')) (mem (ram c)) ∧
    ∀ k, 0 ≤ gpr k RDI → gpr k RDI + sizeof_registers ≤ MEMSIZE_PHYSICAL →
      read_registers (mem (ram k)) (gpr k RDI) = read_registers (mem (ram c')) (gpr c' RDI) →
      ∃ c2, run code_fuel (code Exception_return) k = Ok Resumed c2 ∧ ram c2 = ram k ∧
        (∀ r, gpr c2 r = gpr c r) ∧ rip c2 = rip c ∧ cs c2 = cs c ∧ rflags c2 = rflags c ∧ ss c2 = ss c.
Proof.
  intros Ha Hp Hc Hn. destruct (trap_saves_run c n err Ha Hp Hc Hn) as (c' & E & Ea & Er & Em & Ho).
  exists c'. split; [done|]. split; [done|]. split; [done|]. split.
  - revert Ho. apply agree_weaken. change KERNEL_STACK_TOP with 0x80000. change sizeof_registers with 192. change PAGESIZE with 4096. lia.
  - intros k H1 H2 Ek. apply (saved_restores c n (u64 (default 0 err))); [done..|]. by rewrite Ek.
Qed.

(** ** Vectors without a handler of their own *)

Lemma no_gate n : 0 ≤ n < 16 → n ≠ INT_GPF → n ≠ INT_PAGEFAULT → deliverable idt_table n = None.
Proof.
  change INT_GPF with 13. change INT_PAGEFAULT with 14. intros Hn H13 H14.
  assert (∀ k, 0 ≤ k < 16 → k ≠ 13 → k ≠ 14 → gate_present (gate_of idt_table k) = false) as Hg.
  { intros k Hk K1 K2. rewrite gate_of_idt by lia. unfold vector. by rewrite !decide_False by lia. }
  unfold deliverable. rewrite !Hg by (unfold INT_DOUBLEFAULT, INT_SEGMENT; lia). by destruct (_ || _).
Qed.

Lemma stacked_snoc m a l : stacked m a l → stacked m a (l ++ [load 8 m (a + 8 * Z.of_nat (length l))]).
Proof.
  intros Hs i v Hi. apply lookup_app_Some in Hi as [Hi|[Hle Hi]]; [by apply Hs|].
  apply list_lookup_singleton_Some in Hi as [Hi <-]. by replace i with (length l) by lia.
Qed.

(** Registers as the handler of an unknown vector hands them over. *)
Definition shifted (m : gmap Z Z) (c : cpu) : x86_64_registers :=
  MkRegs (gpr c RAX) (gpr c RCX) (gpr c RDX) (gpr c RBX) (gpr c RBP) (gpr c RSI) (gpr c RDI) (gpr c R8)
    (gpr c R9) (gpr c R10) (gpr c R11) (gpr c R12) (gpr c R13) (gpr c R14) (gpr c R15) (gpr c FS) (gpr c GS)
    0 (rip c) (cs c) (u16 (rflags c)) (gpr c RSP) (ss c) (load 2 m KERNEL_STACK_TOP).

Lemma words_shifted c w :
  cpu_typed c →
  words_registers ((reverse (u64 <$> (gpr c <$> saved_registers)) ++ 0 :: (u64 <$> [rip c; cs c; rflags c; gpr c RSP; ss c])) ++ [w])
  = MkRegs (gpr c RAX) (gpr c RCX) (gpr c RDX) (gpr c RBX) (gpr c RBP) (gpr c RSI) (gpr c RDI) (gpr c R8)
      (gpr c R9) (gpr c R10) (gpr c R11) (gpr c R12) (gpr c R13) (gpr c R14) (gpr c R15) (gpr c FS) (gpr c GS)
      0 (rip c) (cs c) (u16 (rflags c)) (gpr c RSP) (ss c) (u16 w).
Proof.
  intros Hc. unfold words_registers. cbv zeta. cbn [saved_registers fmap list_fmap reverse rev_append app nth].
  assert (u64 (cs c) = cs c) as Ecs by (rewrite <- (ct_cs c Hc); apply u64_u16).
  assert (u64 (ss c) = ss c) as Ess by (rewrite <- (ct_ss c Hc); apply u64_u16).
  rewrite !(typed_word c _ Hc), u16_u64, (ct_rip c Hc), Ecs, Ess. done.
Qed.

Lemma default_trap c n :
  handlers_apart → traps_ready (ram c) → cpu_typed c → 0 ≤ n < 256 → handler_of n = Some Default_int_handler →
  ∃ c', trap n None c = Ok (Entered Exception) c' ∧ read_registers (mem (ram c')) (gpr c' RDI) = shifted (mem (ram c)) c.
Proof.
  intros Ha Hp Hc Hn Hh. destruct (trap_runs n None _ [0] c Ha Hp Hn Hh eq_refl ltac:(cbn; lia)) as (c' & E & [Ea Es _ Eo]).
  exists c'. split; [done|]. apply stacked_snoc in Es. cbn [reverse rev_append fmap list_fmap app interrupted] in Es, Ea.
  change (u64 0) with 0 in *. set (ws := reverse (u64 <$> (gpr c <$> _)) ++ _) in *.
  assert (length ws = 23%nat) as H23 by reflexivity. rewrite H23 in *.
  rewrite (read_stacked _ _ _ Es) by (rewrite length_app, H23; cbn; lia). unfold ws.
  etransitivity; [by apply words_shifted|]. unfold shifted. f_equal. rewrite <- load_2.
  replace (gpr c' RDI + 8 * Z.of_nat 23) with KERNEL_STACK_TOP by lia.
  apply load_agree. intros b Hb. apply Eo. lia.
Qed.

(** C29: exceptions that the kernel does not expect.  For the vectors below 16
    other than the general protection and the page fault, such as a division
    by zero or an invalid instruction, the processor finds no gate, none for
    segment-not-present and none for a double fault: it shuts down.  The
    vectors from 16 on without a handler of their own enter [exception] as
    number 0, and unless the processor pushes an error code each field after
    the number holds the value of the next: the error code is the instruction
    pointer, the instruction pointer the code segment, and the stack segment is
    read from above the stack. *)
Theorem unhandled_vectors c n :
  handlers_apart → traps_ready (ram c) → cpu_typed c → 0 ≤ n < 256 →
  (handler_of n = None → deliverable idt_table n = None) ∧
  (handler_of n = Some Default_int_handler → deliverable idt_table n = Some n ∧
    ∃ c', trap n None c = Ok (Entered Exception) c' ∧ read_registers (mem (ram c')) (gpr c' RDI) = shifted (mem (ram c)) c).
Proof.
  intros Ha Hp Hc Hn. split.
  - intros Hh. apply no_gate; unfold handler_of in Hh; repeat case_decide; try done; unfold INT_GPF, INT_PAGEFAULT; lia.
  - intros Hh. split; [|by apply default_trap].
    destruct (handler_vector n _ Hh) as (dpl & h & E & _). unfold deliverable. by destruct (gate_decodes n dpl h Hn E) as [_ ->].
Qed.

(** ** The kernel's entry point *)

Lemma zf_set b f : has (set_zf b f) ZF = b.
Proof.
  unfold has, set_zf, istrue. destruct b.
  - rewrite Z.land_lor_distr_l. change (Z.land ZF ZF) with ZF.
    destruct (Z.eqb_spec (Z.lor (Z.land f ZF) ZF) 0) as [E|]; [|done]. apply Z.lor_eq_0_iff in E as [_ E]. done.
  - by rewrite Z.land_ldiff.
Qed.

Section jumps.
Context (n : nat) (k : list instr) (c : cpu) (Q : transfer → cpu → Prop).

Lemma run_jne l : runs (if has (rflags c) ZF then run n k else run n (code l)) c Q → runs (run (S n) (Jne l :: k)) c Q.
Proof. done. Qed.

Lemma run_je l : runs (if has (rflags c) ZF then run n (code l) else run n k) c Q → runs (run (S n) (Je l :: k)) c Q.
Proof. done. Qed.

Lemma run_jmp l : runs (run n (code l)) c Q → runs (run (S n) (Jmp l :: k)) c Q.
Proof. done. Qed.

Lemma run_jmpto f : Q (Entered f) c → runs (run (S n) (JmpTo f :: k)) c Q.
Proof. done. Qed.
End jumps.

(** The command line that a multiboot loader passes, as the address of its
    text; without one the kernel starts with a null pointer. *)
Definition boot_argument (m : gmap Z Z) (rax rbx : Z) : Z :=
  if (u32 rax =? 0x2BADB002) && negb (Z.land (load 4 m rbx) 4 =? 0) then load 4 m (rbx + 16) else 0.

(** [entry_from_boot] puts the kernel on its own stack and passes it the
    command line of a multiboot loader, if there is one. *)
Lemma entry_from_boot_starts c :
  (u32 (gpr c RAX) = 0x2BADB002 → 0 ≤ gpr c RBX ∧ gpr c RBX + 20 ≤ MEMSIZE_PHYSICAL) →
  let m := store 8 (mem (ram c)) (KERNEL_STACK_TOP - 8) 0 in
  runs (run code_fuel (code Entry_from_boot)) c (λ t c', t = Entered Kernel ∧
    gpr c' RDI = boot_argument m (gpr c RAX) (gpr c RBX) ∧ gpr c' RSP = KERNEL_STACK_TOP ∧ ram c' = set_mem m (ram c)).
Proof.
  change KERNEL_STACK_TOP with 0x80000. change MEMSIZE_PHYSICAL with 0x200000. intros Hb m. unfold code_fuel. cbn [code].
  apply run_op, runs_modify. apply run_op. cbn [exec]. apply runs_bind, runs_gets, runs_modify. rewrite gpr_same.
  set (c1 := set_gpr RBP _ _). assert (gpr c1 RSP = 0x80000) as E1 by (unfold c1; by rewrite gpr_other, gpr_same).
  apply run_op. cbn [exec]. unfold push. apply runs_bind, runs_gets, runs_bind. rewrite E1. eapply runs_eq.
  { unfold on_ram, zoom. rewrite write_ok by lia. reflexivity. }
  apply runs_modify. change (set_mem _ (ram c1)) with (set_mem m (ram c)). set (c2 := set_gpr RSP _ _).
  assert (gpr c2 RSP = 0x7fff8) as E2 by (unfold c2; by rewrite gpr_same).
  apply run_op. cbn [exec]. unfold pop. apply runs_bind, runs_bind, runs_gets, runs_bind. rewrite E2.
  eapply runs_eq; [apply on_ram_read; [lia|change MEMSIZE_PHYSICAL with 0x200000; lia]|].
  apply runs_bind, runs_modify, runs_ret, runs_modify. set (c3 := set_flags _ _).
  assert (gpr c3 RSP = 0x80000 ∧ (∀ r, r ≠ RSP → r ≠ RBP → gpr c3 r = gpr c r) ∧ ram c3 = set_mem m (ram c)) as (E3 & G3 & R3).
  { unfold c3. split; [apply gpr_same|]. split; [|done]. intros r H1 H2. cbn [gpr set_flags].
    rewrite gpr_other by done. unfold c2. rewrite gpr_other by done. change (gpr (set_ram _ c1) r) with (gpr c1 r).
    unfold c1. by rewrite !gpr_other. }
  clearbody c3. clear E1 E2. apply run_op. cbn [exec]. apply runs_bind, runs_gets, runs_modify. rewrite G3 by done.
  apply run_jne. cbn [rflags set_flags]. rewrite zf_set. unfold boot_argument.
  destruct (Z.eqb_spec (u32 (gpr c RAX)) 0x2BADB002) as [Em|Em]; cbn [andb].
  2:{ cbn [code]. apply run_op, runs_modify, run_jmpto. split; [done|]. rewrite gpr_same, gpr_other by done. by repeat split. }
  destruct (Hb Em) as [H1 H2]. apply run_op. cbn [exec]. apply runs_bind, runs_gets. cbn [gpr set_flags]. rewrite G3 by done.
  apply runs_bind. eapply runs_eq; [apply on_ram_read; [lia|change MEMSIZE_PHYSICAL with 0x200000; lia]|].
  cbn [ram set_flags]. rewrite R3. apply runs_modify, run_je. cbn [rflags set_flags]. rewrite zf_set.
  change (mem (set_mem m (ram c))) with m. destruct (_ =? 0); cbn [negb].
  { cbn [code]. apply run_op, runs_modify, run_jmpto. split; [done|]. rewrite gpr_same, gpr_other by done. by repeat split. }
  apply run_op. cbn [exec]. apply runs_bind, runs_gets. cbn [gpr set_flags]. rewrite G3 by done.
  apply runs_bind. eapply runs_eq; [apply on_ram_read; [lia|change MEMSIZE_PHYSICAL with 0x200000; lia]|].
  cbn [ram set_flags]. rewrite R3. apply runs_modify, run_jmp. cbn [code]. apply run_jmpto. split; [done|].
  rewrite gpr_same, gpr_other by done. by repeat split.
Qed.
End entry.

(** ** A trap of the demo processor *)

#[local] Existing Instance kernel_sym.
#[local] Instance kernel_text : Text := 0x400c3.

Definition demo_ram : machine :=
  set_descriptors gdt_table idt_table (machine_with (store 8 ∅ (kernel_task_descriptor + 4) KERNEL_STACK_TOP)).

Definition demo_cpu : cpu :=
  MkCpu (λ r, match r with RAX => 7 | RDI => 0x101000 | RSP => 0x2ffff0 | FS | GS => 0x23 | _ => 0 end)
    0x100004 0x13 0x202 0x23 demo_ram.

Lemma demo_apart : handlers_apart kernel_sym.
Proof. apply (bool_decide_unpack _). vm_compute. exact I. Qed.

Lemma demo_prepared : traps_ready demo_ram.
Proof. split; [reflexivity|]. vm_compute. reflexivity. Qed.

Lemma demo_typed : cpu_typed demo_cpu.
Proof. split; [by intros []|done..]. Qed.

Lemma trap_round_trip_witness :
  ∃ c', trap INT_SYS_GETPID None demo_cpu = Ok (Entered Exception) c' ∧
    reg_rax (read_registers (mem (ram c')) (gpr c' RDI)) = 7 ∧
    ∃ c2, run code_fuel (code Exception_return) c' = Ok Resumed c2 ∧ gpr c2 RAX = 7 ∧ rip c2 = 0x100004.
Proof.
  destruct (trap_round_trip kernel_sym kernel_text kernel_sym_ok demo_cpu INT_SYS_GETPID None demo_apart demo_prepared demo_typed)
    as (c' & E & Er & _ & _ & Hret); [right; by vm_compute|].
  exists c'. split; [exact E|]. split; [rewrite Er; reflexivity|].
  assert (gpr c' RDI = 0x7ff40) as Ea.
  { assert (match trap INT_SYS_GETPID None demo_cpu with Ok _ c => gpr c RDI | Halt _ _ => 0 end = 0x7ff40) as Eq by (vm_compute; reflexivity).
    rewrite E in Eq. exact Eq. }
  destruct (Hret c') as (c2 & E2 & _ & Eg & Eip & _); [rewrite Ea; lia|rewrite Ea; vm_compute; discriminate|reflexivity|].
  exists c2. split; [exact E2|]. split; [rewrite Eg; reflexivity|exact Eip].
Defined.

Lemma unhandled_vectors_witness :
  deliverable idt_table 0 = None ∧
  ∃ c', trap 16 None demo_cpu = Ok (Entered Exception) c' ∧ reg_intno (read_registers (mem (ram c')) (gpr c' RDI)) = 0 ∧
    reg_rip (read_registers (mem (ram c')) (gpr c' RDI)) = 0x13.
Proof.
  split.
  - apply (unhandled_vectors kernel_sym kernel_text kernel_sym_ok demo_cpu 0 demo_apart demo_prepared demo_typed ltac:(lia)). reflexivity.
  - destruct (proj2 (unhandled_vectors kernel_sym kernel_text kernel_sym_ok demo_cpu 16 demo_apart demo_prepared demo_typed ltac:(lia)) eq_refl)
      as (_ & c' & E & Er).
    exists c'. split; [exact E|]. rewrite Er. split; reflexivity.
Defined.
