(* ===== verification/PageTable.v ===== *)
(** [src/vm.c]: four-level page tables in physical memory, and the address
    spaces they implement. *)
From S2P Require Import Prelude X86 Machine CLib Printf Hardware.
Open Scope Z_scope.

(** ** The code *)

(** How the code reaches an entry of a page table: by a load and a store of
    eight bytes at the entry's address.  While the kernel's own table is
    installed, which maps physical memory to itself, the address is the
    physical one; the loader and the entry of the exception handler also work on
    page tables under the table of a process, for which [Mmu.through_cr3]
    translates the address. *)
Class Access : Type := MkAccess {
  read_entry : Z → M machine Z;
  write_entry : Z → Z → M machine () }.

#[global] Instance physical : Access := MkAccess (read 8) (write 8).

(** [pageindex(addr, level)] of x86-64.h. *)
Definition pageindex `{Devices} (addr level : Z) : M machine Z :=
  assert_ ((0 <=? level) && (level <=? 3)) "x86-64.h" 30 "level >= 0 && level <= 3";;
  mret (pageindex_bits addr level).

(** [pt->entry[PAGEINDEX(va, level)]] *)
Definition entry_at `{Devices} {acc : Access} (pt va level : Z) : M machine Z :=
  i ← pageindex va level; read_entry (pt + 8 * i).

Definition PTE_WU : Z := Z.lor PTE_W PTE_U.

(** [for (i = 0; i <= 3 && (pe & PTE_P); ++i)]: at most four iterations. *)
Fixpoint lookup_loop `{Devices} {acc : Access} (n : nat) (i pt pe va : Z) : M machine Z :=
  match n with
  | O => mret pe
  | S n =>
      if (i <=? 3) && has pe PTE_P then
        e ← entry_at pt va i;
        let pe := Z.land e (u64 (Z.lnot (Z.land pe PTE_WU))) in
        lookup_loop n (i + 1) (PTE_ADDR pe) pe va
      else mret pe
  end.

Definition unmapped : vamapping := MkMap (-1) (u64 (-1)) 0.

Definition virtual_memory_lookup `{Devices} {acc : Access} (pagetable va : Z) : M machine vamapping :=
  pe ← lookup_loop 4 0 pagetable (Z.lor (Z.lor PTE_W PTE_U) PTE_P) va;
  mret (if has pe PTE_P
        then MkMap (PAGENUMBER pe) (u64 (PTE_ADDR pe + PAGEOFFSET va)) (s32 (PTE_FLAGS pe))
        else unmapped).

Definition NULL : Z := 0.

(** [for (i = 0; i <= 2; ++i)] *)
Fixpoint l4_loop `{Devices} {acc : Access} (n : nat) (i pt va perm : Z) : M machine Z :=
  match n with
  | O => mret pt
  | S n =>
      pe ← entry_at pt va i;
      if negb (has pe PTE_P) then
        log_printf (str "[Kern Info] Error looking up l4pagetable: Pagetable address: 0x%x perm: 0x%x. Failed to get level (%d)" ++ [10])
          [VInt (PTE_ADDR pe); VInt (PTE_FLAGS pe); VInt (i + 2)];;
        if negb (has perm PTE_P) then mret NULL
        else log_printf (str "[Kern Info] failed to find pagetable address at vm.c: %d" ++ [10]) [VInt 169];;
             mret NULL
      else
        assert_ (PTE_ADDR pe <? MEMSIZE_PHYSICAL) "vm.c" 174 "PTE_ADDR(pe) < MEMSIZE_PHYSICAL";;
        (if has perm PTE_W then assert_ (has pe PTE_W) "vm.c" 176 "pe & PTE_W" else mret ());;
        (if has perm PTE_U then assert_ (has pe PTE_U) "vm.c" 179 "pe & PTE_U" else mret ());;
        l4_loop n (i + 1) (PTE_ADDR pe) va perm
  end.

Definition lookup_l4pagetable `{Devices} {acc : Access} (pagetable va perm : Z) : M machine Z :=
  l4_loop 3 0 pagetable va perm.

(** The loop of [virtual_memory_map], [n = sz / PAGESIZE] iterations. *)
Fixpoint map_loop `{Devices} {acc : Access} (n : nat) (pagetable va pa perm last_index123 l4pagetable : Z)
    : M machine Z :=
  match n with
  | O => mret 0
  | S n =>
      let cur_index123 := s32 (Z.shiftr va (PAGEOFFBITS + PAGEINDEXBITS)) in
      l4 ← (if cur_index123 =? last_index123 then mret l4pagetable
            else lookup_l4pagetable pagetable va perm);
      if has perm PTE_P && istrue l4 then
        i ← pageindex va 3;
        write_entry (l4 + 8 * i) (u64 (pa + perm));;
        map_loop n pagetable (u64 (va + PAGESIZE)) (u64 (pa + PAGESIZE)) perm cur_index123 l4
      else if istrue l4 then
        i ← pageindex va 3;
        write_entry (l4 + 8 * i) (u64 perm);;
        map_loop n pagetable (u64 (va + PAGESIZE)) (u64 (pa + PAGESIZE)) perm cur_index123 l4
      else if has perm PTE_P then
        log_printf (str "[Kern Info] failed to find l4pagetable address at vm.c: %d" ++ [10]) [VInt 135];;
        mret (-1)
      else map_loop n pagetable (u64 (va + PAGESIZE)) (u64 (pa + PAGESIZE)) perm cur_index123 l4
  end.

Definition virtual_memory_map `{Devices} {acc : Access} (pagetable va pa sz perm : Z) : M machine Z :=
  assert_ (va mod PAGESIZE =? 0) "vm.c" 102 "va % PAGESIZE == 0";;
  assert_ (sz mod PAGESIZE =? 0) "vm.c" 103 "sz % PAGESIZE == 0";;
  assert_ ((va <=? u64 (va + sz)) || (u64 (va + sz) =? 0)) "vm.c" 104 "va + sz >= va || va + sz == 0";;
  (if has perm PTE_P then
     assert_ (pa mod PAGESIZE =? 0) "vm.c" 106 "pa % PAGESIZE == 0";;
     assert_ (pa <=? u64 (pa + sz)) "vm.c" 107 "pa + sz >= pa";;
     assert_ (u64 (pa + sz) <=? MEMSIZE_PHYSICAL) "vm.c" 108 "pa + sz <= MEMSIZE_PHYSICAL"
   else mret ());;
  assert_ ((0 <=? perm) && (perm <? 0x1000)) "vm.c" 110 "perm >= 0 && perm < 0x1000";;
  assert_ (pagetable mod PAGESIZE =? 0) "vm.c" 111 "(uintptr_t) pagetable % PAGESIZE == 0";;
  map_loop (Z.to_nat (sz / PAGESIZE)) pagetable va pa perm (-1) NULL.

Definition set_pagetable `{Devices} {acc : Access} `{Layout} (pagetable : Z) : M machine () :=
  assert_ (PAGEOFFSET pagetable =? 0) "vm.c" 61 "PAGEOFFSET(pagetable) == 0";;
  m ← virtual_memory_lookup pagetable default_int_handler;
  assert_ (pa m =? default_int_handler) "vm.c" 63 "virtual_memory_lookup(pagetable, (uintptr_t) default_int_handler).pa == (uintptr_t) default_int_handler";;
  kpt ← gets kernel_pagetable;
  m ← virtual_memory_lookup kpt pagetable;
  assert_ (pa m =? pagetable) "vm.c" 65 "virtual_memory_lookup(kernel_pagetable, (uintptr_t) pagetable).pa == (uintptr_t) pagetable";;
  m ← virtual_memory_lookup pagetable kpt;
  assert_ (pa m =? kpt) "vm.c" 67 "virtual_memory_lookup(pagetable, (uintptr_t) kernel_pagetable).pa == (uintptr_t) kernel_pagetable";;
  m ← virtual_memory_lookup pagetable virtual_memory_map_addr;
  assert_ (pa m =? virtual_memory_map_addr) "vm.c" 69 "virtual_memory_lookup(pagetable, (uintptr_t) virtual_memory_map).pa == (uintptr_t) virtual_memory_map";;
  lcr3 pagetable.

Definition virtual_memory_init `{Devices} `{Layout} : M machine () :=
  let kpt i := kernel_pagetables + i * PAGESIZE in
  modify (set_kernel_pagetable (kpt 0));;
  memset kernel_pagetables 0 (5 * PAGESIZE);;
  write 8 (kpt 0) (Z.lor (kpt 1) PTE_PWU);;
  write 8 (kpt 1) (Z.lor (kpt 2) PTE_PWU);;
  write 8 (kpt 2) (Z.lor (kpt 3) PTE_PWU);;
  write 8 (kpt 2 + 8) (Z.lor (kpt 4) PTE_PWU);;
  virtual_memory_map (kpt 0) 0 0 MEMSIZE_PHYSICAL PTE_PWU;;
  for_loop (Z.to_nat NPAGES) 0 PAGESIZE (λ addr,
    kpt ← gets kernel_pagetable;
    vmap ← virtual_memory_lookup kpt addr;
    assert_ (pa vmap =? addr) "vm.c" 45 "vmap.pa == addr";;
    assert_ (Z.land (perm vmap) PTE_PW =? PTE_PW) "vm.c" 46 "(vmap.perm & (PTE_P|PTE_W)) == (PTE_P|PTE_W)");;
  kpt ← gets kernel_pagetable;
  set_pagetable kpt.

(** ** Walking any table *)

(** A table page of physical memory; [NULL] is not one. *)
Definition table_page (p : Z) : Prop :=
  0 < p ∧ p mod 4096 = 0 ∧ p + 4096 ≤ MEMSIZE_PHYSICAL.

Definition in_page (p a : Z) : Prop := p ≤ a < p + 4096.

(** What [virtual_memory_lookup] reports for a last-level entry. *)
Definition vamapping_of (e va : Z) : vamapping :=
  if has e PTE_P then MkMap (PAGENUMBER e) (u64 (PTE_ADDR e + PAGEOFFSET va)) (PTE_FLAGS e)
  else unmapped.

(** The entry for [va] in the table at [pt], of level [level] (0 is the root). *)
Definition pte (m : gmap Z Z) (pt va level : Z) : Z := load 8 m (pt + 8 * pageindex_bits va level).

Lemma pte_range m pt va level : 0 ≤ pte m pt va level < 2 ^ 64.
Proof. apply (load_range 8). Qed.

Lemma in_page_disjoint p q a :
  p mod 4096 = 0 → q mod 4096 = 0 → p ≠ q → in_page p a → in_page q a → False.
Proof.
  unfold in_page. intros Hp Hq Hne ??.
  pose proof (Z.div_mod p 4096). pose proof (Z.div_mod q 4096). lia.
Qed.

Section walk.
Context `{Devices}.
Implicit Types (s : machine).

Lemma pageindex_ok addr level s :
  0 ≤ level ≤ 3 → pageindex addr level s = Ok (pageindex_bits addr level) s.
Proof.
  intros Hl. unfold pageindex.
  destruct (Z.leb_spec 0 level), (Z.leb_spec level 3); try lia. done.
Qed.

Lemma entry_at_ok pt va level s :
  0 ≤ level ≤ 3 → table_page pt → entry_at pt va level s = Ok (pte (mem s) pt va level) s.
Proof.
  intros Hl (?&?&?). unfold entry_at. erewrite bind_ok by (by apply pageindex_ok).
  pose proof (pageindex_range va level Hl). apply read_ok; zlia.
Qed.

Lemma masked_P e x : has (Z.ldiff e (Z.land x PTE_WU)) PTE_P = has e PTE_P.
Proof. rewrite !has_P, Z.ldiff_spec, Z.land_spec. by rewrite !andb_false_r, andb_true_r. Qed.

Lemma wu_range x : 0 ≤ Z.land x PTE_WU < 4096.
Proof.
  change PTE_WU with (Z.land 6 (Z.ones 3)). rewrite Z.land_assoc, Z.land_ones by lia.
  pose proof (Z.mod_pos_bound (Z.land x 6) (2 ^ 3)). lia.
Qed.

Lemma lookup_loop_step n i pt pe va s :
  0 ≤ i ≤ 3 → has pe PTE_P = true → table_page pt →
  let e := pte (mem s) pt va i in
  lookup_loop (Datatypes.S n) i pt pe va s
  = lookup_loop n (i + 1) (PTE_ADDR e) (Z.ldiff e (Z.land pe PTE_WU)) va s.
Proof.
  intros Hi Hp Ht e. cbn [lookup_loop]. rewrite Hp.
  destruct (Z.leb_spec i 3); [|lia]. cbn [andb].
  erewrite bind_ok by (by apply entry_at_ok). fold e.
  rewrite land_not by apply pte_range. by rewrite PTE_ADDR_ldiff by apply wu_range.
Qed.

Lemma lookup_loop_stop n i pt pe va s :
  has pe PTE_P = false → lookup_loop n i pt pe va s = Ok pe s.
Proof. intros Hp. destruct n; cbn [lookup_loop]; [done|]. by rewrite Hp, andb_false_r. Qed.

(** The loop ends with [pe]: what is reported. *)
Lemma lookup_ends pt va pe s :
  lookup_loop 4 0 pt 7 va s = Ok pe s →
  virtual_memory_lookup pt va s = Ok (vamapping_of pe va) s.
Proof.
  intros Hl. unfold virtual_memory_lookup. erewrite bind_ok by exact Hl.
  unfold vamapping_of. pose proof (PTE_FLAGS_range pe). by rewrite s32_small by lia.
Qed.

(** A walk through four present levels.  The write and user bits that the
    loop clears at one level are those it kept at the level above, so the
    first and third level never restrict anything by themselves. *)
Lemma lookup_walk pt va s e1 e2 e3 e4 :
  e1 = pte (mem s) pt va 0 → e2 = pte (mem s) (PTE_ADDR e1) va 1 →
  e3 = pte (mem s) (PTE_ADDR e2) va 2 → e4 = pte (mem s) (PTE_ADDR e3) va 3 →
  table_page pt → table_page (PTE_ADDR e1) → table_page (PTE_ADDR e2) → table_page (PTE_ADDR e3) →
  has e1 PTE_P = true → has e2 PTE_P = true → has e3 PTE_P = true →
  virtual_memory_lookup pt va s
  = Ok (vamapping_of (Z.ldiff e4 (Z.land (Z.ldiff e3 (Z.land e2 PTE_WU)) PTE_WU)) va) s.
Proof.
  intros E1 E2 E3 E4 T0 T1 T2 T3 P1 P2 P3. apply lookup_ends.
  rewrite lookup_loop_step by (done || lia). rewrite <- E1.
  rewrite lookup_loop_step by (rewrite ?masked_P; done || lia).
  change (0 + 1) with 1. rewrite <- E2.
  assert (Z.land (Z.ldiff e1 (Z.land 7 PTE_WU)) PTE_WU = 0) as ->.
  { change (Z.land 7 PTE_WU) with PTE_WU. apply Z.bits_inj'. intros i Hi.
    rewrite Z.land_spec, Z.ldiff_spec, Z.testbit_0_l. destruct (Z.testbit PTE_WU i); [|by rewrite andb_false_r].
    by rewrite andb_false_r. }
  rewrite Z.ldiff_0_r.
  rewrite lookup_loop_step by (done || lia). change (1 + 1) with 2. rewrite <- E3.
  rewrite lookup_loop_step by (rewrite ?masked_P; done || lia).
  change (2 + 1) with 3. by rewrite <- E4.
Qed.

(** A level that is not present ends the walk: nothing is mapped. *)
Lemma lookup_absent pt va s e1 e2 e3 :
  e1 = pte (mem s) pt va 0 → e2 = pte (mem s) (PTE_ADDR e1) va 1 →
  e3 = pte (mem s) (PTE_ADDR e2) va 2 →
  table_page pt →
  (has e1 PTE_P = true → table_page (PTE_ADDR e1)) →
  (has e1 PTE_P = true → has e2 PTE_P = true → table_page (PTE_ADDR e2)) →
  has e1 PTE_P && has e2 PTE_P && has e3 PTE_P = false →
  virtual_memory_lookup pt va s = Ok unmapped s.
Proof.
  intros E1 E2 E3 T0 T1 T2 Hno.
  assert (∀ pe, has pe PTE_P = false → lookup_loop 4 0 pt 7 va s = Ok pe s →
            virtual_memory_lookup pt va s = Ok unmapped s) as Hend.
  { intros pe Hpe Hl. rewrite (lookup_ends pt va pe s Hl). unfold vamapping_of. by rewrite Hpe. }
  destruct (has e1 PTE_P) eqn:P1; [destruct (has e2 PTE_P) eqn:P2|].
  - eapply Hend; [|rewrite lookup_loop_step by (done || lia); rewrite <- E1;
      rewrite lookup_loop_step by (rewrite ?masked_P; auto || lia); change (0 + 1) with 1; rewrite <- E2;
      rewrite lookup_loop_step by (rewrite ?masked_P; auto || lia); change (1 + 1) with 2; rewrite <- E3;
      apply lookup_loop_stop; rewrite masked_P; exact Hno].
    by rewrite masked_P.
  - eapply Hend; [|rewrite lookup_loop_step by (done || lia); rewrite <- E1;
      rewrite lookup_loop_step by (rewrite ?masked_P; auto || lia); change (0 + 1) with 1; rewrite <- E2;
      apply lookup_loop_stop; rewrite masked_P; exact P2].
    by rewrite masked_P.
  - eapply Hend; [|rewrite lookup_loop_step by (done || lia); rewrite <- E1;
      apply lookup_loop_stop; rewrite masked_P; exact P1].
    by rewrite masked_P.
Qed.
End walk.

(** ** Address spaces

    Every page table this kernel builds has five pages: one of each of the
    first three levels and two of the last, which together map the first four
    megabytes of virtual addresses, page [vpn] through the entry [leaf]. *)

Record pt_shape : Type := MkShape { L1 : Z; L2 : Z; L3 : Z; L4_1 : Z; L4_2 : Z }.

Definition pt_pages (sh : pt_shape) : list Z := [L1 sh; L2 sh; L3 sh; L4_1 sh; L4_2 sh].

(** The entry at [a] leads to the table [p] and restricts nothing. *)
Definition link (m : gmap Z Z) (a p : Z) : Prop :=
  PTE_ADDR (load 8 m a) = p ∧ Z.land (load 8 m a) PTE_PWU = PTE_PWU.

Record shape_ok (m : gmap Z Z) (sh : pt_shape) : Prop := {
  shape_pages : Forall table_page (pt_pages sh);
  shape_nodup : NoDup (pt_pages sh);
  shape_1 : link m (L1 sh) (L2 sh);
  shape_2 : link m (L2 sh) (L3 sh);
  shape_31 : link m (L3 sh) (L4_1 sh);
  shape_32 : link m (L3 sh + 8) (L4_2 sh);
  shape_rest1 : Forall (λ i, load 8 m (L1 sh + 8 * i) = 0) (seqZ 1 511);
  shape_rest2 : Forall (λ i, load 8 m (L2 sh + 8 * i) = 0) (seqZ 1 511);
  shape_rest3 : Forall (λ i, load 8 m (L3 sh + 8 * i) = 0) (seqZ 2 510) }.

#[global] Instance table_page_dec p : Decision (table_page p).
Proof. unfold table_page. apply _. Defined.

#[global] Instance link_dec m a p : Decision (link m a p).
Proof. unfold link. apply _. Defined.

#[global] Instance shape_ok_dec m sh : Decision (shape_ok m sh).
Proof.
  refine (match decide (
    (Forall table_page (pt_pages sh) ∧ NoDup (pt_pages sh)) ∧
    (link m (L1 sh) (L2 sh) ∧ link m (L2 sh) (L3 sh) ∧
     link m (L3 sh) (L4_1 sh) ∧ link m (L3 sh + 8) (L4_2 sh)) ∧
    Forall (λ i, load 8 m (L1 sh + 8 * i) = 0) (seqZ 1 511) ∧
    Forall (λ i, load 8 m (L2 sh + 8 * i) = 0) (seqZ 1 511) ∧
    Forall (λ i, load 8 m (L3 sh + 8 * i) = 0) (seqZ 2 510))
  with left H => left _ | right H => right _ end).
  - destruct H as ((?&?)&(?&?&?&?)&?&?&?). by split.
  - intros []. by apply H.
Defined.

Definition l4_of (sh : pt_shape) (i : Z) : Z := if i =? 0 then L4_1 sh else L4_2 sh.

(** The entry of virtual page [vpn], 0 ≤ vpn < 1024. *)
Definition leaf_addr (sh : pt_shape) (vpn : Z) : Z := l4_of sh (vpn / 512) + 8 * (vpn mod 512).
Definition leaf (m : gmap Z Z) (sh : pt_shape) (vpn : Z) : Z := load 8 m (leaf_addr sh vpn).

(** What [virtual_memory_map] writes for a page. *)
Definition new_entry (pa perm : Z) : Z := if has perm PTE_P then pa + perm else perm.

Lemma leaf_range m sh vpn : 0 ≤ leaf m sh vpn < 2 ^ 64.
Proof. apply (load_range 8). Qed.

Lemma index_small va :
  0 ≤ va < 0x400000 →
  pageindex_bits va 0 = 0 ∧ pageindex_bits va 1 = 0 ∧
  pageindex_bits va 2 = va / 4096 / 512 ∧ pageindex_bits va 3 = (va / 4096) mod 512.
Proof.
  intros Hva. rewrite !pageindex_mod by lia. cbn [Z.sub Z.mul Z.add Z.pow].
  change (2 ^ (12 + (3 - 0) * 9)) with (2 ^ 39). change (2 ^ (12 + (3 - 1) * 9)) with (2 ^ 30).
  change (2 ^ (12 + (3 - 2) * 9)) with (4096 * 512). change (2 ^ (12 + (3 - 3) * 9)) with 4096.
  rewrite (Z.div_small va (2 ^ 39)), (Z.div_small va (2 ^ 30)) by lia.
  rewrite <- Z.div_div by lia. split_and!; try done.
  apply Z.mod_small. split; [apply Z.div_pos; [apply Z.div_pos|]; lia|].
  apply Z.div_lt_upper_bound; [lia|]. apply Z.div_lt_upper_bound; lia.
Qed.

Lemma vpn_range va : 0 ≤ va < 0x400000 → 0 ≤ va / 4096 < 1024.
Proof. intros. split; [apply Z.div_pos; lia|apply Z.div_lt_upper_bound; lia]. Qed.

Lemma vpn_l4 vpn : 0 ≤ vpn < 1024 → 0 ≤ vpn / 512 ≤ 1.
Proof.
  intros. split; [apply Z.div_pos; lia|]. pose proof (Z.div_lt_upper_bound vpn 512 2). lia.
Qed.

(** A link lets every access through. *)
Lemma link_flags m a p :
  link m a p → has (load 8 m a) PTE_P = true ∧ has (load 8 m a) PTE_W = true ∧
               has (load 8 m a) PTE_U = true ∧ Z.land (load 8 m a) PTE_WU = PTE_WU.
Proof.
  intros [_ Hf]. rewrite has_P, has_W, has_U.
  assert (∀ i, Z.testbit PTE_PWU i = true → Z.testbit (load 8 m a) i = true) as Hb.
  { intros i Hi. rewrite <- Hf, Z.land_spec in Hi. by apply andb_prop in Hi as [??]. }
  split_and!; [by apply Hb..|].
  change PTE_WU with (Z.land PTE_PWU PTE_WU) at 1. rewrite Z.land_assoc, Hf. done.
Qed.

Section shape.
Context (m : gmap Z Z) (sh : pt_shape) (Hsh : shape_ok m sh).

Lemma shape_page p : p ∈ pt_pages sh → table_page p.
Proof. intros Hp. pose proof (shape_pages m sh Hsh) as HF. rewrite Forall_forall in HF. by apply HF. Qed.

Lemma shape_tables : table_page (L1 sh) ∧ table_page (L2 sh) ∧ table_page (L3 sh) ∧
  table_page (L4_1 sh) ∧ table_page (L4_2 sh).
Proof. split_and!; apply shape_page; unfold pt_pages; set_solver. Qed.

Lemma l4_table i : table_page (l4_of sh i).
Proof. unfold l4_of. destruct (i =? 0); apply shape_tables. Qed.

Lemma l4_link i : 0 ≤ i ≤ 1 → link m (L3 sh + 8 * i) (l4_of sh i).
Proof.
  intros Hi. unfold l4_of. destruct (Z.eqb_spec i 0) as [->|].
  - rewrite Z.mul_0_r, Z.add_0_r. apply Hsh.
  - replace i with 1 by lia. apply Hsh.
Qed.

Lemma leaf_addr_in vpn : 0 ≤ vpn < 1024 →
  l4_of sh (vpn / 512) ≤ leaf_addr sh vpn ∧ leaf_addr sh vpn + 8 ≤ l4_of sh (vpn / 512) + 4096.
Proof. intros. unfold leaf_addr. pose proof (Z.mod_pos_bound vpn 512). lia. Qed.

(** Distinct pages have disjoint entries. *)
Lemma leaf_addr_disjoint v w :
  0 ≤ v < 1024 → 0 ≤ w < 1024 → v ≠ w →
  leaf_addr sh v + 8 ≤ leaf_addr sh w ∨ leaf_addr sh w + 8 ≤ leaf_addr sh v.
Proof.
  intros Hv Hw Hne. unfold leaf_addr.
  pose proof (vpn_l4 v Hv). pose proof (vpn_l4 w Hw).
  pose proof (Z.div_mod v 512). pose proof (Z.div_mod w 512).
  pose proof (Z.mod_pos_bound v 512). pose proof (Z.mod_pos_bound w 512).
  destruct (decide (v / 512 = w / 512)) as [E|E]; [rewrite E; lia|].
  destruct shape_tables as (_&_&_&(?&?&?)&(?&?&?)).
  assert (L4_1 sh ≠ L4_2 sh).
  { pose proof (shape_nodup m sh Hsh) as Hnd. unfold pt_pages in Hnd.
    rewrite !NoDup_cons in Hnd. set_solver. }
  pose proof (Z.div_mod (L4_1 sh) 4096). pose proof (Z.div_mod (L4_2 sh) 4096).
  unfold l4_of. destruct (Z.eqb_spec (v / 512) 0), (Z.eqb_spec (w / 512) 0); lia.
Qed.
End shape.

(** A table stays one when its first three levels keep their bytes. *)
Lemma shape_agree m m' sh :
  shape_ok m sh →
  agree (λ a, in_page (L1 sh) a ∨ in_page (L2 sh) a ∨ in_page (L3 sh) a) m m' →
  shape_ok m' sh.
Proof.
  intros Hsh Ha.
  assert (∀ p i, p ∈ [L1 sh; L2 sh; L3 sh] → 0 ≤ i < 512 → load 8 m' (p + 8 * i) = load 8 m (p + 8 * i)) as Hl.
  { intros p i Hp Hi. apply load_agree. intros b Hb. symmetry. apply Ha. unfold in_page.
    rewrite !elem_of_cons, elem_of_nil in Hp. destruct Hp as [->|[->|[->|[]]]]; lia. }
  assert (∀ p i q, p ∈ [L1 sh; L2 sh; L3 sh] → 0 ≤ i < 512 →
            link m (p + 8 * i) q → link m' (p + 8 * i) q) as Hlk.
  { intros p i q Hp Hi. unfold link. by rewrite Hl. }
  assert (∀ p lo n, p ∈ [L1 sh; L2 sh; L3 sh] → 0 ≤ lo → lo + n ≤ 512 →
    Forall (λ i, load 8 m (p + 8 * i) = 0) (seqZ lo n) →
    Forall (λ i, load 8 m' (p + 8 * i) = 0) (seqZ lo n)) as Hz.
  { intros p lo n Hp ?? Hf. rewrite Forall_forall in *. intros i Hi.
    rewrite Hl; [by apply Hf|done|]. apply elem_of_seqZ in Hi. lia. }
  destruct Hsh. split; try done.
  - specialize (Hlk (L1 sh) 0). rewrite Z.mul_0_r, Z.add_0_r in Hlk. apply Hlk; [set_solver|lia|done].
  - specialize (Hlk (L2 sh) 0). rewrite Z.mul_0_r, Z.add_0_r in Hlk. apply Hlk; [set_solver|lia|done].
  - specialize (Hlk (L3 sh) 0). rewrite Z.mul_0_r, Z.add_0_r in Hlk. apply Hlk; [set_solver|lia|done].
  - apply (Hlk (L3 sh) 1); [set_solver|lia|done].
  - apply Hz; [set_solver|lia|lia|done].
  - apply Hz; [set_solver|lia|lia|done].
  - apply Hz; [set_solver|lia|lia|done].
Qed.

(** ** Lookup and map on an address space *)

Section address_space.
Context `{Devices}.
Implicit Types (s : machine) (sh : pt_shape).

Lemma shape_levels s sh va :
  shape_ok (mem s) sh → 0 ≤ va < 0x400000 →
  pte (mem s) (L1 sh) va 0 = load 8 (mem s) (L1 sh) ∧
  pte (mem s) (L2 sh) va 1 = load 8 (mem s) (L2 sh) ∧
  link (mem s) (L3 sh + 8 * pageindex_bits va 2) (l4_of sh (va / 4096 / 512)).
Proof.
  intros Hsh Hva. destruct (index_small va Hva) as (E0&E1&E2&_). unfold pte.
  rewrite E0, E1, E2. change (8 * 0) with 0. rewrite !Z.add_0_r. split_and!; [done..|].
  apply l4_link; [done|]. apply vpn_l4, vpn_range, Hva.
Qed.

Lemma pte_leaf s sh va :
  0 ≤ va < 0x400000 → pte (mem s) (l4_of sh (va / 4096 / 512)) va 3 = leaf (mem s) sh (va / 4096).
Proof. intros Hva. destruct (index_small va Hva) as (_&_&_&E3). unfold pte. by rewrite E3. Qed.

Lemma lookup_leaf s sh va :
  shape_ok (mem s) sh → 0 ≤ va < 0x400000 →
  virtual_memory_lookup (L1 sh) va s = Ok (vamapping_of (leaf (mem s) sh (va / 4096)) va) s.
Proof.
  intros Hsh Hva. destruct (shape_levels s sh va Hsh Hva) as (E0&E1&H3).
  destruct (shape_tables _ _ Hsh) as (T1&T2&T3&_&_).
  pose proof (shape_1 _ _ Hsh) as K1. pose proof (shape_2 _ _ Hsh) as K2.
  destruct (link_flags _ _ _ K1) as (P1&_). destruct (link_flags _ _ _ K2) as (P2&_&_&W2).
  destruct (link_flags _ _ _ H3) as (P3&_).
  destruct K1 as [A1 _], K2 as [A2 _], H3 as [A3 _].
  rewrite (lookup_walk (L1 sh) va s (load 8 (mem s) (L1 sh)) (load 8 (mem s) (L2 sh))
    (load 8 (mem s) (L3 sh + 8 * pageindex_bits va 2)) (leaf (mem s) sh (va / 4096)));
    rewrite ?A1, ?A2, ?A3; try done.
  - rewrite W2. do 2 f_equal. rewrite <- (Z.ldiff_0_r (leaf _ _ _)) at 2. f_equal.
    apply Z.bits_inj'. intros i Hi. rewrite Z.land_spec, Z.ldiff_spec, Z.testbit_0_l.
    destruct (Z.testbit PTE_WU i); by rewrite ?andb_false_r.
  - by rewrite pte_leaf.
  - by apply (l4_table (mem s)).
Qed.

Lemma l4_loop_step n i pt q va perm s :
  0 ≤ i ≤ 3 → table_page pt → table_page q → link (mem s) (pt + 8 * pageindex_bits va i) q →
  l4_loop (Datatypes.S n) i pt va perm s = l4_loop n (i + 1) q va perm s.
Proof.
  intros Hi Hpt (?&?&?) Hl. destruct (link_flags _ _ _ Hl) as (P&W&U&_).
  destruct Hl as [A _]. cbn [l4_loop].
  erewrite bind_ok by (by apply entry_at_ok). unfold pte. rewrite P. cbn [negb].
  rewrite A. destruct (Z.ltb_spec q MEMSIZE_PHYSICAL); [|zlia].
  erewrite bind_ok by reflexivity. rewrite W, U.
  by destruct (has perm PTE_W), (has perm PTE_U).
Qed.

Lemma lookup_l4_ok s sh va perm :
  shape_ok (mem s) sh → 0 ≤ va < 0x400000 →
  lookup_l4pagetable (L1 sh) va perm s = Ok (l4_of sh (va / 4096 / 512)) s.
Proof.
  intros Hsh Hva. unfold lookup_l4pagetable.
  destruct (shape_levels s sh va Hsh Hva) as (_&_&K3).
  destruct (shape_tables _ _ Hsh) as (T1&T2&T3&_&_). destruct (index_small va Hva) as (I0&I1&_).
  rewrite (l4_loop_step _ 0 _ (L2 sh)); try done; [|rewrite I0, Z.mul_0_r, Z.add_0_r; apply Hsh].
  rewrite (l4_loop_step _ (0 + 1) _ (L3 sh)); try done;
    [|change (0 + 1) with 1; rewrite I1, Z.mul_0_r, Z.add_0_r; apply Hsh].
  rewrite (l4_loop_step _ (0 + 1 + 1) _ (l4_of sh (va / 4096 / 512))); try done.
  by apply (l4_table (mem s)).
Qed.
End address_space.

(** Writing one entry of a last-level table. *)
Section write_leaf.
Context (m : gmap Z Z) (sh : pt_shape) (Hsh : shape_ok m sh) (vpn v : Z).
Context (Hvpn : 0 ≤ vpn < 1024) (Hv : 0 ≤ v < 2 ^ 64).

Definition in_l4 (sh : pt_shape) (a : Z) : Prop := in_page (L4_1 sh) a ∨ in_page (L4_2 sh) a.

Lemma leaf_addr_l4 a : leaf_addr sh vpn ≤ a < leaf_addr sh vpn + 8 → in_l4 sh a.
Proof.
  intros Ha. pose proof (leaf_addr_in sh vpn Hvpn) as Hin.
  unfold in_l4, in_page. unfold l4_of in Hin. destruct (vpn / 512 =? 0); lia.
Qed.

Lemma write_leaf_agree : agree (λ a, ¬ in_l4 sh a) m (store 8 m (leaf_addr sh vpn) v).
Proof.
  intros a Ha. symmetry. apply load8_store_out.
  destruct (decide (leaf_addr sh vpn ≤ a < leaf_addr sh vpn + 8)); [|lia].
  exfalso. by apply Ha, leaf_addr_l4.
Qed.

Lemma l4_upper_disjoint a :
  in_page (L1 sh) a ∨ in_page (L2 sh) a ∨ in_page (L3 sh) a → ¬ in_l4 sh a.
Proof.
  pose proof (shape_nodup _ _ Hsh) as Hnd.
  change (pt_pages sh) with ([L1 sh; L2 sh; L3 sh] ++ [L4_1 sh; L4_2 sh]) in Hnd.
  apply NoDup_app in Hnd as (_&Hne&_).
  assert (∀ p q, p ∈ [L1 sh; L2 sh; L3 sh] → q ∈ [L4_1 sh; L4_2 sh] →
            in_page p a → in_page q a → False) as Hd.
  { intros p q Hp Hq. apply in_page_disjoint.
    - eapply shape_page; [done|]. unfold pt_pages. set_solver.
    - eapply shape_page; [done|]. unfold pt_pages. set_solver.
    - intros ->. by apply (Hne q). }
  intros [Hu|[Hu|Hu]] [Hl|Hl]; (eapply Hd; [| |exact Hu|exact Hl]); set_solver.
Qed.

Lemma write_leaf_shape : shape_ok (store 8 m (leaf_addr sh vpn) v) sh.
Proof.
  eapply shape_agree; [done|]. eapply agree_weaken; [|apply write_leaf_agree].
  apply l4_upper_disjoint.
Qed.

Lemma write_leaf_leaf w :
  0 ≤ w < 1024 →
  leaf (store 8 m (leaf_addr sh vpn) v) sh w = if decide (w = vpn) then v else leaf m sh w.
Proof.
  intros Hw. unfold leaf. case_decide as E.
  - subst. rewrite load_store_eq. apply Z.mod_small. done.
  - apply load_store_out. destruct (leaf_addr_disjoint m sh Hsh w vpn); try done; lia.
Qed.
End write_leaf.

(** ** virtual_memory_map on an address space *)

(** [m'] is [m] with the pages [v], ..., [v + n - 1] mapped to [pa], ... *)
Record mapped (sh : pt_shape) (m m' : gmap Z Z) (v n pa perm : Z) : Prop := {
  mapped_shape : shape_ok m' sh;
  mapped_leaf : ∀ w, 0 ≤ w < 1024 →
    leaf m' sh w = if decide (v ≤ w < v + n)
                   then new_entry (pa + (w - v) * 4096) perm else leaf m sh w;
  mapped_agree : agree (λ a, ¬ in_l4 sh a) m m' }.

Section map.
Context `{Devices}.
Implicit Types (s : machine) (sh : pt_shape).

Lemma cur_index_small va :
  0 ≤ va < 0x400000 → s32 (Z.shiftr va (PAGEOFFBITS + PAGEINDEXBITS)) = va / 4096 / 512.
Proof.
  intros Hva. rewrite Z.shiftr_div_pow2 by done.
  change (2 ^ (PAGEOFFBITS + PAGEINDEXBITS)) with (4096 * 512).
  rewrite <- Z.div_div by lia. pose proof (vpn_l4 _ (vpn_range va Hva)). by apply s32_small; lia.
Qed.

Lemma l4_nonnull m sh i : shape_ok m sh → istrue (l4_of sh i) = true.
Proof.
  intros Hsh. destruct (l4_table m sh Hsh i) as (?&_). unfold istrue.
  by destruct (Z.eqb_spec (l4_of sh i) 0); [lia|].
Qed.

(** One iteration writes one entry. *)
Lemma map_loop_step n sh va pa perm last l4 s :
  shape_ok (mem s) sh → 0 ≤ va < 0x400000 → va mod 4096 = 0 → 0 ≤ perm < 4096 →
  (has perm PTE_P = true → 0 ≤ pa < 0x200000) →
  (last = -1 ∨ l4 = l4_of sh last) →
  map_loop (Datatypes.S n) (L1 sh) va pa perm last l4 s
  = map_loop n (L1 sh) (va + 4096) (u64 (pa + 4096)) perm (va / 4096 / 512) (l4_of sh (va / 4096 / 512))
      (set_mem (store 8 (mem s) (leaf_addr sh (va / 4096)) (new_entry pa perm)) s).
Proof.
  intros Hsh Hva Hal Hperm Hpa Hlast. cbn [map_loop]. rewrite cur_index_small by done.
  pose proof (vpn_range va Hva) as Hv. pose proof (vpn_l4 _ Hv) as Hi.
  erewrite (bind_ok _ _ s (l4_of sh (va / 4096 / 512)) s); cycle 1.
  { destruct (Z.eqb_spec (va / 4096 / 512) last) as [<-|]; [|by apply lookup_l4_ok].
    destruct Hlast as [?|E]; [lia|by rewrite E]. }
  rewrite (l4_nonnull (mem s)) by done.
  rewrite andb_true_r. change PAGESIZE with 4096. rewrite (u64_small (va + 4096)) by lia.
  destruct (index_small va Hva) as (_&_&_&I3).
  assert (∀ v, write 8 (l4_of sh (va / 4096 / 512) + 8 * pageindex_bits va 3) v s
               = Ok () (set_mem (store 8 (mem s) (leaf_addr sh (va / 4096)) v) s)) as Hw.
  { intros v. rewrite I3. destruct (l4_table _ sh Hsh (va / 4096 / 512)) as (?&?&?).
    pose proof (Z.mod_pos_bound (va / 4096) 512). unfold leaf_addr. apply write_ok; zlia. }
  unfold new_entry. destruct (has perm PTE_P) eqn:HP;
    (erewrite bind_ok by (by apply pageindex_ok)); (erewrite bind_ok by apply Hw).
  - specialize (Hpa eq_refl). by rewrite (u64_small (pa + perm)) by lia.
  - by rewrite (u64_small perm) by lia.
Qed.

Lemma map_loop_ok n sh va pa perm last l4 s :
  shape_ok (mem s) sh → 0 ≤ va → va mod 4096 = 0 → va + Z.of_nat n * 4096 ≤ 0x400000 →
  0 ≤ perm < 4096 →
  (has perm PTE_P = true → 0 ≤ pa ∧ pa + Z.of_nat n * 4096 ≤ 0x200000) →
  (last = -1 ∨ l4 = l4_of sh last) →
  ∃ m', map_loop n (L1 sh) va pa perm last l4 s = Ok 0 (set_mem m' s) ∧
        mapped sh (mem s) m' (va / 4096) (Z.of_nat n) pa perm.
Proof.
  revert va pa last l4 s. induction n as [|n IH]; intros va pa last l4 s Hsh H0 Hal H1 Hperm Hpa Hlast.
  - exists (mem s). split; [by rewrite set_mem_id|]. split; [done| |done].
    intros w Hw. by rewrite decide_False by lia.
  - assert (0 ≤ va < 0x400000) as Hva by lia. pose proof (vpn_range va Hva) as Hv.
    rewrite map_loop_step; try done; [|intros HP; specialize (Hpa HP); lia].
    assert (0 ≤ new_entry pa perm < 2 ^ 64) as Hne.
    { unfold new_entry. destruct (has perm PTE_P) eqn:HP; [|lia]. destruct (Hpa eq_refl). lia. }
    set (m1 := store 8 _ _ _).
    assert ((va + 4096) / 4096 = va / 4096 + 1) as Hd.
    { replace (va + 4096) with (va + 1 * 4096) by lia. rewrite Z.div_add by lia. done. }
    destruct (IH (va + 4096) (u64 (pa + 4096)) (va / 4096 / 512) (l4_of sh (va / 4096 / 512)) (set_mem m1 s))
      as (m' & -> & [S L A]).
    + by apply write_leaf_shape.
    + lia.
    + rewrite Z.add_mod, Hal by lia. done.
    + lia.
    + done.
    + intros HP. destruct (Hpa HP). rewrite u64_small by lia. lia.
    + by right.
    + exists m'. rewrite set_mem_twice. split; [done|]. split; [done| |].
      * intros w Hw. rewrite L by done. rewrite Hd. cbn [mem set_mem]. unfold m1.
        rewrite write_leaf_leaf by done.
        destruct (decide (va / 4096 + 1 ≤ w < va / 4096 + 1 + Z.of_nat n)).
        { rewrite decide_True by lia. unfold new_entry. destruct (has perm PTE_P) eqn:HP; [|done].
          destruct (Hpa eq_refl). rewrite u64_small by lia. lia. }
        destruct (decide (w = va / 4096)) as [->|].
        { rewrite decide_True by lia. f_equal. lia. }
        by rewrite decide_False by lia.
      * etransitivity; [|exact A]. cbn [mem set_mem]. by apply write_leaf_agree.
Qed.

(** The assertions of [virtual_memory_map] that a caller has to meet. *)
Definition map_args (va pa sz perm : Z) : Prop :=
  0 ≤ va ∧ va mod 4096 = 0 ∧ 0 ≤ sz ∧ sz mod 4096 = 0 ∧ 0 ≤ perm < 4096 ∧
  (has perm PTE_P = true → 0 ≤ pa ∧ pa mod 4096 = 0 ∧ pa + sz ≤ 0x200000).

Lemma virtual_memory_map_asserts {acc : Access} pt va pa sz perm s :
  map_args va pa sz perm → va + sz ≤ 2 ^ 63 → pt mod 4096 = 0 →
  virtual_memory_map pt va pa sz perm s = map_loop (Z.to_nat (sz / 4096)) pt va pa perm (-1) NULL s.
Proof.
  intros (?&Hal&?&Hsz&?&Hpa) Hend Hpt. unfold virtual_memory_map. change PAGESIZE with 4096.
  rewrite Hal, Hsz, Hpt. rewrite (u64_small (va + sz)) by lia.
  destruct (Z.leb_spec va (va + sz)); [|lia]. destruct (Z.leb_spec 0 perm); [|lia].
  destruct (Z.ltb_spec perm 0x1000); [|lia]. cbn [andb orb].
  do 3 (erewrite bind_ok by reflexivity).
  destruct (has perm PTE_P) eqn:HP.
  - destruct (Hpa eq_refl) as (?&Hpal&?). rewrite Hpal. rewrite (u64_small (pa + sz)) by lia.
    destruct (Z.leb_spec pa (pa + sz)); [|lia].
    destruct (Z.leb_spec (pa + sz) MEMSIZE_PHYSICAL); [|zlia]. done.
  - done.
Qed.

(** The contract of [virtual_memory_map]: in range, it returns 0 and maps
    exactly the pages asked for. *)
Lemma map_ok s sh va pa sz perm :
  shape_ok (mem s) sh → map_args va pa sz perm → va + sz ≤ 0x400000 →
  ∃ m', virtual_memory_map (L1 sh) va pa sz perm s = Ok 0 (set_mem m' s) ∧
        mapped sh (mem s) m' (va / 4096) (sz / 4096) pa perm.
Proof.
  intros Hsh Hargs Hend. destruct (shape_tables _ _ Hsh) as ((?&?&?)&_).
  rewrite virtual_memory_map_asserts; try done; [|lia].
  destruct Hargs as (?&?&?&Hsz&?&Hpa).
  assert (sz = sz / 4096 * 4096) as Hs by (pose proof (Z.div_mod sz 4096); lia).
  assert (0 ≤ sz / 4096) by (apply Z.div_pos; lia).
  assert (Z.of_nat (Z.to_nat (sz / 4096)) = sz / 4096) as Hn by lia.
  destruct (map_loop_ok (Z.to_nat (sz / 4096)) sh va pa perm (-1) NULL s) as (m' & E & Hm);
    try done; rewrite ?Hn; try lia.
  - intros HP. destruct (Hpa HP) as (?&?&?). lia.
  - exists m'. by rewrite Hn in Hm.
Qed.
End map.
