(* ===== verification/Frames.v ===== *)
(** The state of [src/kernel.c] and its physical page allocator. *)
From S2P Require Import Prelude X86 Machine CLib Printf Hardware PageTable.
Open Scope Z_scope.

(** ** Kernel state

    The static variables of kernel.c.  [processes] and [pageinfo] are arrays,
    kept as maps from the index; a cell that was never written is zero.
    [pageinfo] also answers for the index -1 that the fork handler uses: the
    two bytes in front of the array, which are padding in the built image.
    [current] is the index of the process that [current] points to. *)

Record physical_pageinfo : Type := MkInfo { owner : Z; refcount : Z }.

#[global] Instance physical_pageinfo_eq_dec : EqDecision physical_pageinfo.
Proof. solve_decision. Defined.

Record kstate : Type := MkK {
  mach : machine;
  pageinfo : gmap Z physical_pageinfo;
  processes : gmap Z proc;
  current : Z;
  ticks : Z;
  disp_global : Z;
  last_ticks : Z;
  showing : Z }.

Definition set_mach (x : machine) (s : kstate) : kstate :=
  MkK x (pageinfo s) (processes s) (current s) (ticks s) (disp_global s) (last_ticks s) (showing s).
Definition set_pageinfo (x : gmap Z physical_pageinfo) (s : kstate) : kstate :=
  MkK (mach s) x (processes s) (current s) (ticks s) (disp_global s) (last_ticks s) (showing s).
Definition set_processes (x : gmap Z proc) (s : kstate) : kstate :=
  MkK (mach s) (pageinfo s) x (current s) (ticks s) (disp_global s) (last_ticks s) (showing s).
Definition set_current (x : Z) (s : kstate) : kstate :=
  MkK (mach s) (pageinfo s) (processes s) x (ticks s) (disp_global s) (last_ticks s) (showing s).
Definition set_ticks (x : Z) (s : kstate) : kstate :=
  MkK (mach s) (pageinfo s) (processes s) (current s) x (disp_global s) (last_ticks s) (showing s).
Definition set_disp_global (x : Z) (s : kstate) : kstate :=
  MkK (mach s) (pageinfo s) (processes s) (current s) (ticks s) x (last_ticks s) (showing s).
Definition set_showing (t x : Z) (s : kstate) : kstate :=
  MkK (mach s) (pageinfo s) (processes s) (current s) (ticks s) (disp_global s) t x.

Definition on_machine {A} (m : M machine A) : M kstate A := zoom mach set_mach m.

Definition kmem (s : kstate) : gmap Z Z := mem (mach s).

Definition zero_proc : proc := MkProc 0 zero_regs P_FREE 0 0.

Definition pinfo (s : kstate) (n : Z) : physical_pageinfo := default (MkInfo 0 0) (pageinfo s !! n).
Definition process (s : kstate) (pid : Z) : proc := default zero_proc (processes s !! pid).

(** [pageinfo[n].owner = o] and [pageinfo[n].refcount = r] *)
Definition put_owner (n o : Z) : M kstate () :=
  modify (λ s, set_pageinfo (<[n := MkInfo (s8 o) (refcount (pinfo s n))]> (pageinfo s)) s).
Definition put_refcount (n r : Z) : M kstate () :=
  modify (λ s, set_pageinfo (<[n := MkInfo (owner (pinfo s n)) (s8 r)]> (pageinfo s)) s).

(** [processes[pid] = f(processes[pid])], for the assignments to its fields. *)
Definition put_process (pid : Z) (f : proc → proc) : M kstate () :=
  modify (λ s, set_processes (<[pid := f (process s pid)]> (processes s)) s).

Definition with_pid (x : Z) (p : proc) : proc :=
  MkProc x (p_registers p) (p_state p) (p_pagetable p) (display_status p).
Definition with_registers (x : x86_64_registers) (p : proc) : proc :=
  MkProc (p_pid p) x (p_state p) (p_pagetable p) (display_status p).
Definition with_state (x : procstate) (p : proc) : proc :=
  MkProc (p_pid p) (p_registers p) x (p_pagetable p) (display_status p).
Definition with_pagetable (x : Z) (p : proc) : proc :=
  MkProc (p_pid p) (p_registers p) (p_state p) x (display_status p).
Definition with_display (x : Z) (p : proc) : proc :=
  MkProc (p_pid p) (p_registers p) (p_state p) (p_pagetable p) x.

(** Page owners that are not processes. *)
Definition PO_FREE : Z := 0.
Definition PO_RESERVED : Z := -1.
Definition PO_KERNEL : Z := -2.

(** ** The allocator *)

Definition assign_physical_page (addr own : Z) : M kstate Z :=
  info ← gets (λ s, pinfo s (PAGENUMBER addr));
  if istrue (Z.land addr 0xFFF) || (MEMSIZE_PHYSICAL <=? addr) || istrue (refcount info)
  then mret (-1)
  else
    put_refcount (PAGENUMBER addr) 1;;
    put_owner (PAGENUMBER addr) own;;
    mret 0.

(** [for (p = 1; p < NPAGES; p++) if (pageinfo[p].refcount == 0) break;] *)
Fixpoint find_free (n : nat) (p : Z) (s : kstate) : Z :=
  match n with
  | O => p
  | S n => if refcount (pinfo s p) =? 0 then p else find_free n (p + 1) s
  end.

Definition alloc_page_process (pid : Z) : M kstate Z :=
  p ← gets (find_free (Z.to_nat (NPAGES - 1)) 1);
  page ← assign_physical_page (PAGEADDRESS p) (s8 pid);
  mret (if -1 <? page then PAGEADDRESS p else NULL).

(** The loop here returns -1 from the last page instead of running past it. *)
Definition sys_page_alloc_find_free `{Devices} (pagetable pid addr : Z) : M kstate Z :=
  p ← gets (find_free (Z.to_nat (NPAGES - 1)) 1);
  if p =? NPAGES then mret (-1) else
  r ← assign_physical_page (PAGEADDRESS p) (s8 pid);
  let r := if addr <? PROC_START_ADDR then -1 else r in
  (if 0 <=? r
   then on_machine (virtual_memory_map pagetable addr (PAGEADDRESS p) PAGESIZE PTE_PWU);; mret ()
   else mret ());;
  mret r.

(** ** pageinfo_init *)

Definition initial_owner `{Layout} (addr : Z) : Z :=
  if physical_memory_isreserved addr then PO_RESERVED
  else if ((KERNEL_START_ADDR <=? addr) && (addr <? end_addr))
          || (addr =? KERNEL_STACK_TOP - PAGESIZE) then PO_KERNEL
  else PO_FREE.

Definition pageinfo_init `{Layout} : M kstate () :=
  for_loop (Z.to_nat NPAGES) 0 PAGESIZE (λ addr,
    let own := initial_owner addr in
    put_owner (PAGENUMBER addr) own;;
    put_refcount (PAGENUMBER addr) (if own =? PO_FREE then 0 else 1)).

(** ** What the allocator promises *)

(** [n] is the first free page from [lo] on. *)
Definition first_free (s : kstate) (lo n : Z) : Prop :=
  lo ≤ n ∧ refcount (pinfo s n) = 0 ∧ ∀ k, lo ≤ k < n → refcount (pinfo s k) ≠ 0.

Definition no_free (s : kstate) : Prop := ∀ k, 1 ≤ k < 512 → refcount (pinfo s k) ≠ 0.

(** The page [n] taken for [own], everything else as it was. *)
Definition take_page (n own : Z) (s : kstate) : kstate :=
  set_pageinfo (<[n := MkInfo own 1]> (pageinfo s)) s.

Lemma find_free_spec n p s :
  (first_free s p (find_free n p s) ∧ find_free n p s < p + Z.of_nat n) ∨
  (find_free n p s = p + Z.of_nat n ∧ ∀ k, p ≤ k < p + Z.of_nat n → refcount (pinfo s k) ≠ 0).
Proof.
  revert p. induction n as [|n IH]; intros p; cbn [find_free].
  - right. split; [lia|]. intros. lia.
  - destruct (Z.eqb_spec (refcount (pinfo s p)) 0) as [E|E].
    + left. split; [|lia]. split; [lia|]. split; [done|]. intros. lia.
    + destruct (IH (p + 1)) as [[(?&?&Hk) ?]|[-> Hk]].
      * left. split; [|lia]. split; [lia|]. split; [done|]. intros k ?.
        destruct (decide (k = p)) as [->|]; [done|]. apply Hk. lia.
      * right. split; [lia|]. intros k ?.
        destruct (decide (k = p)) as [->|]; [done|]. apply Hk. lia.
Qed.

(** The allocator's search over pages 1, ..., 511. *)
Lemma find_free_pages s :
  (∃ n, find_free (Z.to_nat (NPAGES - 1)) 1 s = n ∧ 1 ≤ n < 512 ∧ first_free s 1 n) ∨
  (find_free (Z.to_nat (NPAGES - 1)) 1 s = 512 ∧ no_free s).
Proof.
  change (Z.to_nat (NPAGES - 1)) with (Z.to_nat 511).
  destruct (find_free_spec (Z.to_nat 511) 1 s) as [[Hf Hlt]|[E Hk]].
  - left. eexists. split; [done|]. destruct Hf as (?&?&?). split; [lia|done].
  - right. split; [lia|]. intros k ?. apply Hk. lia.
Qed.

Lemma pinfo_take n own s k :
  pinfo (take_page n own s) k = if decide (n = k) then MkInfo own 1 else pinfo s k.
Proof. unfold pinfo, take_page. cbn. rewrite lookup_insert. by case_decide. Qed.

Lemma page_facts n :
  1 ≤ n < 512 →
  PAGEADDRESS n = n * 4096 ∧ PAGENUMBER (n * 4096) = n ∧ Z.land (n * 4096) 0xFFF = 0.
Proof.
  intros Hn. split_and!.
  - apply PAGEADDRESS_mul. lia.
  - rewrite PAGENUMBER_div by lia. apply Z.div_mul. lia.
  - change (Z.land (n * 4096) 0xFFF) with (PTE_FLAGS (n * 4096)).
    rewrite PTE_FLAGS_mod. apply Z.mod_mul. lia.
Qed.

Lemma assign_ok n own s :
  1 ≤ n < 512 → refcount (pinfo s n) = 0 →
  assign_physical_page (n * 4096) own s = Ok 0 (take_page n (s8 own) s).
Proof.
  intros Hn Hr. destruct (page_facts n Hn) as (_&E&L). unfold assign_physical_page.
  rewrite E, L. erewrite bind_ok by reflexivity. rewrite Hr.
  destruct (Z.leb_spec MEMSIZE_PHYSICAL (n * 4096)); [zlia|]. cbn.
  unfold take_page, put_refcount, put_owner, modify, mbind, M_bind, mret, M_ret. f_equal.
  unfold set_pageinfo, pinfo. cbn. rewrite insert_insert_eq, lookup_insert_eq. done.
Qed.

Lemma alloc_ok pid s n :
  first_free s 1 n → n < 512 → - 128 ≤ pid < 128 →
  alloc_page_process pid s = Ok (n * 4096) (take_page n pid s).
Proof.
  intros (?&Hr&Hk) Hn Hpid. unfold alloc_page_process. erewrite bind_ok by reflexivity.
  destruct (find_free_pages s) as [(m & -> & ? & (?&Hm&Hkm))|[_ Hno]]; [|exfalso; by apply (Hno n)].
  assert (m = n) as ->.
  { destruct (Z.lt_trichotomy m n) as [?|[?|?]]; [|done|].
    - exfalso. apply (Hk m); [lia|done].
    - exfalso. apply (Hkm n); [lia|done]. }
  destruct (page_facts n ltac:(lia)) as (->&_&_).
  erewrite bind_ok by (apply assign_ok; [lia|done]).
  rewrite !s8_small by (rewrite ?s8_small; lia). done.
Qed.

Lemma alloc_null pid s : no_free s → alloc_page_process pid s = Ok NULL s.
Proof.
  intros Hno. unfold alloc_page_process. erewrite bind_ok by reflexivity.
  destruct (find_free_pages s) as [(m & -> & ? & (?&Hm&_))|[-> _]]; [exfalso; by apply (Hno m)|done].
Qed.

(** The number of free pages the allocator can hand out. *)
Definition nfree (s : kstate) : Z :=
  zsum (λ k, if decide (refcount (pinfo s k) = 0) then 1 else 0) (seqZ 1 511).

Lemma nfree_ext s s' :
  (∀ k, 1 ≤ k < 512 → refcount (pinfo s k) = 0 ↔ refcount (pinfo s' k) = 0) → nfree s = nfree s'.
Proof.
  intros E. apply zsum_ext. intros k Hk. apply elem_of_seqZ in Hk.
  specialize (E k ltac:(lia)). repeat case_decide; naive_solver.
Qed.

Lemma nfree_range s : 0 ≤ nfree s ≤ 511.
Proof.
  unfold nfree. assert (∀ l, 0 ≤ zsum (λ k, if decide (refcount (pinfo s k) = 0) then 1 else 0) l ≤ Z.of_nat (length l)) as Hl.
  { induction l as [|x l IH]; cbn [zsum foldr length]; [lia|]. unfold zsum in IH |- *. cbn. case_decide; lia. }
  specialize (Hl (seqZ 1 511)). by rewrite length_seqZ in Hl.
Qed.

(** The number of free pages in the list [l] goes down when one of them is taken. *)
Lemma zsum_take n own s l :
  NoDup l → refcount (pinfo s n) = 0 →
  zsum (λ k, if decide (refcount (pinfo (take_page n own s) k) = 0) then 1 else 0) l
  = zsum (λ k, if decide (refcount (pinfo s k) = 0) then 1 else 0) l - (if decide (n ∈ l) then 1 else 0).
Proof.
  intros Hnd Hr. case_decide as Hin.
  - rewrite (zsum_split (λ k, if decide (refcount (pinfo s k) = 0) then 1 else 0) n l) by assumption.
    rewrite (zsum_split _ n l) by assumption.
    rewrite pinfo_take, (decide_True (P := n = n)) by done. cbn [refcount].
    rewrite (decide_True (P := refcount (pinfo s n) = 0)), (decide_False (P := 1 = 0)) by done.
    rewrite (zsum_ext _ (λ y, if decide (y = n) then 0 else
      if decide (refcount (pinfo s y) = 0) then 1 else 0)); [lia|].
    intros k _. case_decide; [done|]. rewrite pinfo_take. by rewrite (decide_False (P := n = k)) by congruence.
  - rewrite Z.sub_0_r. apply zsum_ext. intros k Hk. rewrite pinfo_take. destruct (decide (n = k)); [by subst|done].
Qed.

Lemma nfree_take n own s :
  1 ≤ n < 512 → refcount (pinfo s n) = 0 → nfree (take_page n own s) = nfree s - 1.
Proof.
  intros Hn Hr. unfold nfree. rewrite zsum_take by (done || apply NoDup_seqZ).
  rewrite decide_True; [done|]. apply elem_of_seqZ. lia.
Qed.

(** Those of them that lie below [PROC_START_ADDR]. *)
Definition nlow (s : kstate) : Z :=
  zsum (λ k, if decide (refcount (pinfo s k) = 0) then 1 else 0) (seqZ 1 255).

Lemma nlow_nonneg s : 0 ≤ nlow s.
Proof. apply zsum_nonneg. intros k _. by case_decide. Qed.

Lemma nlow_ext s s' :
  (∀ k, 1 ≤ k < 256 → refcount (pinfo s k) = 0 ↔ refcount (pinfo s' k) = 0) → nlow s = nlow s'.
Proof.
  intros E. apply zsum_ext. intros k Hk. apply elem_of_seqZ in Hk.
  specialize (E k ltac:(lia)). repeat case_decide; naive_solver.
Qed.

Lemma nlow_take n own s : refcount (pinfo s n) = 0 → nlow s - 1 ≤ nlow (take_page n own s).
Proof. intros Hr. unfold nlow. rewrite zsum_take by (done || apply NoDup_seqZ). case_decide; lia. Qed.

(** While there are such pages, the first free page is one. *)
Lemma nlow_first n s : 0 < nlow s → first_free s 1 n → n < 256.
Proof.
  intros Hl (Hn & _ & Hused). destruct (decide (n < 256)) as [|Hge]; [done|]. exfalso.
  unfold nlow in Hl. rewrite (zsum_ext _ (λ _, 0)) in Hl.
  - clear -Hl. induction (seqZ 1 255); simpl in Hl; [lia|]. auto.
  - intros k Hk. apply elem_of_seqZ in Hk. rewrite decide_False; [done|]. apply Hused. lia.
Qed.

(** Where no page is given back, no more low pages go than pages. *)
Lemma nlow_kept s s' :
  (∀ k, 1 ≤ k < 512 → refcount (pinfo s k) ≠ 0 → refcount (pinfo s' k) ≠ 0) →
  nlow s - (nfree s - nfree s') ≤ nlow s'.
Proof.
  intros Hk. unfold nlow, nfree. change 511 with (255 + 256). rewrite !seqZ_app, !zsum_app by lia.
  assert (∀ l, (∀ k, k ∈ l → 1 ≤ k < 512) →
    zsum (λ k, if decide (refcount (pinfo s' k) = 0) then 1 else 0) l
    ≤ zsum (λ k, if decide (refcount (pinfo s k) = 0) then 1 else 0) l) as Hle; [|specialize (Hle (seqZ (1 + 255) 256))].
  - induction l as [|k l IH]; intros Hl; cbn [zsum]; [lia|].
    specialize (IH (λ j Hj, Hl j (list_elem_of_further _ _ _ Hj))). specialize (Hl k (list_elem_of_here _ _)).
    specialize (Hk k Hl). repeat case_decide; tauto || lia.
  - lapply Hle; [lia|]. intros k Hin. apply elem_of_seqZ in Hin. lia.
Qed.

Lemma nfree_first s : 0 < nfree s → ∃ n, n < 512 ∧ first_free s 1 n.
Proof.
  intros Hf. destruct (find_free_pages s) as [(n&_&Hn&Hff)|[_ Hno]]; [exists n; split; [lia|done]|].
  exfalso. unfold nfree in Hf. rewrite (zsum_ext _ (λ _, 0)) in Hf.
  - clear -Hf. induction (seqZ 1 511); simpl in Hf; [lia|]. auto.
  - intros k Hk. apply elem_of_seqZ in Hk. rewrite decide_False; [done|]. apply Hno. lia.
Qed.

(** While a page is free, an allocation succeeds with some free page. *)
Lemma alloc_step pid s :
  0 < nfree s → - 128 ≤ pid < 128 →
  ∃ n, alloc_page_process pid s = Ok (n * 4096) (take_page n pid s) ∧
       1 ≤ n < 512 ∧ refcount (pinfo s n) = 0 ∧ nfree (take_page n pid s) = nfree s - 1 ∧
       (0 < nlow s → n < 256).
Proof.
  intros Hf Hpid. destruct (nfree_first s Hf) as (n & Hn & Hff).
  exists n. pose proof Hff as (?&Hr&?). split_and!; try done; try lia.
  - apply alloc_ok; [by repeat split|lia|done].
  - by apply nfree_take.
  - intros Hl. by apply (nlow_first n s).
Qed.

(** ** Properties *)

(** C25: the allocator hands out the lowest-numbered free page above page 0: it
    returns that page's address, records the owner with one reference, and
    changes nothing else. *)
Theorem alloc_takes_first_free pid s n :
  first_free s 1 n → n < 512 → - 128 ≤ pid < 128 →
  ∃ s', alloc_page_process pid s = Ok (n * 4096) s' ∧
    pinfo s' n = MkInfo pid 1 ∧ (∀ k, k ≠ n → pinfo s' k = pinfo s k) ∧
    mach s' = mach s ∧ processes s' = processes s.
Proof.
  intros Hf Hn Hpid. exists (take_page n pid s). split; [by apply alloc_ok|].
  split; [by rewrite pinfo_take, decide_True|]. split; [|done].
  intros k Hk. by rewrite pinfo_take, decide_False by congruence.
Qed.

Definition empty_state : kstate := MkK (machine_with ∅) ∅ ∅ 0 0 1 0 1.

Lemma alloc_takes_first_free_witness :
  ∃ s', alloc_page_process 3 empty_state = Ok 4096 s' ∧ pinfo s' 1 = MkInfo 3 1.
Proof.
  destruct (alloc_takes_first_free 3 empty_state 1) as (s' & E & Hi & _); [|lia|lia|].
  - split; [lia|]. split; [reflexivity|]. intros k Hk. lia.
  - exists s'. split; [exact E|exact Hi].
Defined.

(** Without a free page the allocator returns a null pointer and changes
    nothing; so does the search of the page allocation system call, with -1. *)
Theorem alloc_exhausted `{Devices} pid pt addr s :
  no_free s →
  alloc_page_process pid s = Ok NULL s ∧ sys_page_alloc_find_free pt pid addr s = Ok (-1) s.
Proof.
  intros Hno. split; [by apply alloc_null|].
  unfold sys_page_alloc_find_free. erewrite bind_ok by reflexivity.
  destruct (find_free_pages s) as [(m & -> & ? & (?&Hm&_))|[-> _]]; [exfalso; by apply (Hno m)|done].
Qed.

Definition full_state : kstate :=
  set_pageinfo (list_to_map ((λ n, (n, MkInfo 1 1)) <$> seqZ 0 512)) empty_state.

Lemma full_state_full : no_free full_state.
Proof.
  intros k Hk. unfold full_state, pinfo. cbn [pageinfo set_pageinfo].
  rewrite (elem_of_list_to_map_1 _ k (MkInfo 1 1)); [done| |].
  - rewrite <- list_fmap_compose. change (fst ∘ _) with (λ n : Z, n). rewrite list_fmap_id. apply NoDup_seqZ.
  - apply list_elem_of_fmap. exists k. split; [done|]. apply elem_of_seqZ. lia.
Qed.

Lemma alloc_exhausted_witness : alloc_page_process 1 full_state = Ok 0 full_state.
Proof. exact (proj1 (@alloc_exhausted (λ _ _, 0) 1 0 0 full_state full_state_full)). Defined.

Lemma pageinfo_init_run `{Layout} s :
  ∃ s', pageinfo_init s = Ok () s' ∧ mach s' = mach s ∧ processes s' = processes s ∧
    ∀ n, 0 ≤ n < 512 →
      pinfo s' n = MkInfo (initial_owner (n * 4096)) (if initial_owner (n * 4096) =? PO_FREE then 0 else 1).
Proof.
  assert (∀ a, initial_owner a = -1 ∨ initial_owner a = -2 ∨ initial_owner a = 0) as Ho.
  { intros a. unfold initial_owner, PO_RESERVED, PO_KERNEL, PO_FREE. repeat case_match; tauto. }
  assert (runs pageinfo_init s (λ _ s', mach s' = mach s ∧ processes s' = processes s ∧
    ∀ n, 0 ≤ n < 512 → pinfo s' n = MkInfo (initial_owner (n * 4096))
      (if initial_owner (n * 4096) =? PO_FREE then 0 else 1))) as Hr.
  { pose (I := λ a s', mach s' = mach s ∧ processes s' = processes s ∧
      ∀ n, 0 ≤ n * 4096 < a → pinfo s' n = MkInfo (initial_owner (n * 4096))
        (if initial_owner (n * 4096) =? PO_FREE then 0 else 1)).
    unfold pageinfo_init. eapply runs_mono.
    - apply (runs_for I _ PAGESIZE (Z.to_nat NPAGES) 0 s).
      + split_and!; try done. intros n Hn. lia.
      + intros k st Hk (E1 & E2 & Hn). apply runs_bind, runs_modify, runs_modify.
        rewrite Z.add_0_l in *. set (a := Z.of_nat k * PAGESIZE) in *.
        assert (a = Z.of_nat k * 4096) as Ea by done.
        assert (PAGENUMBER a = Z.of_nat k) as Ep.
        { rewrite PAGENUMBER_div, Ea by (change NPAGES with 512 in Hk; lia). by apply Z.div_mul. }
        rewrite Ep. split_and!; [exact E1|exact E2|]. intros n Hlt. change PAGESIZE with 4096 in Hlt.
        unfold pinfo. cbn [pageinfo set_pageinfo]. rewrite lookup_insert. case_decide as E.
        * subst n. rewrite <- Ea. unfold pinfo. cbn [pageinfo set_pageinfo]. rewrite lookup_insert_eq.
          cbn [default owner refcount]. destruct (Ho a) as [-> |[-> | ->]]; reflexivity.
        * rewrite lookup_insert_ne by done. apply Hn. lia.
    - intros [] s' (E1 & E2 & Hn). split_and!; try done. intros n Hlt. apply Hn.
      change (0 + Z.of_nat (Z.to_nat NPAGES) * PAGESIZE) with (512 * 4096). lia. }
  apply runs_iff in Hr as ([] & s' & E & E1 & E2 & Hn). exists s'. by split_and!.
Qed.

(** After [pageinfo_init] a page is free exactly when it is neither
    reserved nor the kernel's: page 0 and the I/O hole belong to [PO_RESERVED],
    the kernel image and stack to [PO_KERNEL], with one reference each. *)
Theorem pageinfo_init_marks `{Layout} s :
  ∃ s', pageinfo_init s = Ok () s' ∧ mach s' = mach s ∧ processes s' = processes s ∧
    ∀ n, 0 ≤ n < 512 →
      pinfo s' n = MkInfo (initial_owner (n * 4096)) (if initial_owner (n * 4096) =? PO_FREE then 0 else 1) ∧
      (refcount (pinfo s' n) = 0 ↔
         n ≠ 0 ∧ ¬ (0xA0 ≤ n < 0x100) ∧ ¬ (0x40 ≤ n ∧ n * 4096 < end_addr) ∧ n ≠ 0x7F).
Proof.
  destruct (pageinfo_init_run s) as (s' & E & E1 & E2 & Hn). exists s'. split_and!; try done.
  intros n Hlt. rewrite Hn by done. split; [done|]. cbn [refcount].
  unfold initial_owner, physical_memory_isreserved. change IOPHYSMEM with 0xA0000. change EXTPHYSMEM with 0x100000.
  change KERNEL_START_ADDR with 0x40000. change (KERNEL_STACK_TOP - PAGESIZE) with 0x7F000.
  destruct (Z.eqb_spec (n * 4096) 0), (Z.leb_spec 0xA0000 (n * 4096)), (Z.ltb_spec (n * 4096) 0x100000),
    (Z.leb_spec 0x40000 (n * 4096)), (Z.ltb_spec (n * 4096) end_addr), (Z.eqb_spec (n * 4096) 0x7F000);
    cbn; lia.
Qed.
