(* ===== verification/Syscalls.v ===== *)
(** The system calls of [src/kernel.c]: page tables for a process, fork, exit,
    page allocation and the mapping and display calls. *)
From S2P Require Import Prelude X86 Machine CLib Printf Hardware PageTable Frames.
Open Scope Z_scope.

Definition current_proc (s : kstate) : proc := process s (current s).

(** [current->p_registers.reg_rax = v] *)
Definition put_current_rax (v : Z) : M kstate () :=
  cur ← gets current;
  put_process cur (λ p, with_registers (set_rax v (p_registers p)) p).

(** ** duplicate_pagetable *)

Definition duplicate_body `{Devices} (fill_pagetable pagetable va : Z) : M kstate () :=
  map ← on_machine (virtual_memory_lookup pagetable va);
  on_machine (virtual_memory_map fill_pagetable va (pa map) PAGESIZE (perm map));;
  mret ().

Definition duplicate_pagetable `{Devices} (pagetable pid : Z) : M kstate Z :=
  L1 ← alloc_page_process pid;
  L2 ← alloc_page_process pid;
  L3 ← alloc_page_process pid;
  L4_1 ← alloc_page_process pid;
  L4_2 ← alloc_page_process pid;
  on_machine (memset L1 0 PAGESIZE);;
  on_machine (memset L2 0 PAGESIZE);;
  on_machine (memset L3 0 PAGESIZE);;
  on_machine (memset L4_1 0 PAGESIZE);;
  on_machine (memset L4_2 0 PAGESIZE);;
  if istrue L1 && istrue L2 && istrue L3 && istrue L4_1 && istrue L4_2 then
    on_machine (write 8 L1 (Z.lor L2 PTE_PWU));;
    on_machine (write 8 L2 (Z.lor L3 PTE_PWU));;
    on_machine (write 8 L3 (Z.lor L4_1 PTE_PWU));;
    on_machine (write 8 (L3 + 8) (Z.lor L4_2 PTE_PWU));;
    for_loop (Z.to_nat (PROC_START_ADDR / PAGESIZE)) 0 PAGESIZE (duplicate_body L1 pagetable);;
    mret L1
  else mret NULL.

(** ** fork *)

(** One page of the parent: a writable page is copied, any other is shared.
    For an unmapped page [map.pn] is -1. *)
Definition fork_page `{Devices} (free_pid v : Z) : M kstate () :=
  cur ← gets current_proc;
  map ← on_machine (virtual_memory_lookup (p_pagetable cur) v);
  child ← gets (λ s, p_pagetable (process s free_pid));
  if negb (pa map =? CONSOLE_ADDR) && has (perm map) PTE_W then
    page ← alloc_page_process free_pid;
    on_machine (memcpy page (pa map) PAGESIZE);;
    on_machine (virtual_memory_map child v page PAGESIZE (perm map));;
    mret ()
  else
    on_machine (virtual_memory_map child v (pa map) PAGESIZE (perm map));;
    info ← gets (λ s, pinfo s (pn map));
    put_refcount (pn map) (refcount info + 1).

Definition user_pages : nat := Z.to_nat ((MEMSIZE_VIRTUAL - PROC_START_ADDR) / PAGESIZE).

(** The handler once a free slot is found. *)
Definition fork_into `{Devices} (free_pid : Z) : M kstate () :=
  put_process free_pid (with_pid free_pid);;
  put_process free_pid (with_state P_RUNNABLE);;
  cur ← gets current_proc;
  pt ← duplicate_pagetable (p_pagetable cur) free_pid;
  put_process free_pid (with_pagetable pt);;
  if istrue pt then
    for_loop user_pages PROC_START_ADDR PAGESIZE (fork_page free_pid);;
    cur ← gets current_proc;
    put_process free_pid (with_registers (p_registers cur));;
    put_process free_pid (λ p, with_registers (set_rax 0 (p_registers p)) p);;
    put_current_rax free_pid
  else
    put_process free_pid (with_state P_FREE);;
    put_current_rax (-1);;
    halt Returned.

(** [while (free_pid < NPROC)] *)
Fixpoint fork_loop `{Devices} (n : nat) (free_pid : Z) : M kstate () :=
  match n with
  | O => mret ()
  | S n =>
      p ← gets (λ s, process s free_pid);
      if decide (p_state p = P_FREE) then fork_into free_pid
      else
        (if free_pid + 1 =? NPROC then put_current_rax (-1) else mret ());;
        fork_loop n (free_pid + 1)
  end.

Definition sys_fork `{Devices} : M kstate () := fork_loop (Z.to_nat (NPROC - 1)) 1.

(** ** exit *)

Definition exit_page `{Devices} (tables : list Z) (v : Z) : M kstate () :=
  cur ← gets current_proc;
  if istrue (p_pagetable cur) then
    map ← on_machine (virtual_memory_lookup (p_pagetable cur) v);
    info ← gets (λ s, pinfo s (pn map));
    if negb (has (perm map) PTE_W) && (0 <? pn map) && istrue (refcount info) then
      (if refcount info =? 0 then put_owner (pn map) 0 else mret ());;
      put_refcount (pn map) (refcount info - 1)
    else if (0 <? pn map) && has (perm map) PTE_W && (owner info =? p_pid cur)
            && istrue (refcount info)
            && forallb (λ t, negb (pn map =? PAGENUMBER t)) tables then
      put_owner (pn map) 0;;
      put_refcount (pn map) 0
    else mret ()
  else mret ().

Fixpoint for_each {S} (l : list Z) (f : Z → M S ()) : M S () :=
  match l with
  | [] => mret ()
  | x :: l => f x;; for_each l f
  end.

Definition sys_exit `{Devices} : M kstate () :=
  cur ← gets current_proc;
  let L1 := p_pagetable cur in
  e ← on_machine (read 8 L1);
  let L2 := PTE_ADDR e in
  e ← on_machine (read 8 L2);
  let L3 := PTE_ADDR e in
  e ← on_machine (read 8 L3);
  let L4_1 := PTE_ADDR e in
  e ← on_machine (read 8 (L3 + 8));
  let L4_2 := PTE_ADDR e in
  let tables := [L1; L2; L3; L4_1; L4_2] in
  for_each tables (λ t, put_owner (PAGENUMBER t) 0);;
  for_each tables (λ t, put_refcount (PAGENUMBER t) 0);;
  cur ← gets current;
  put_process cur (with_state P_FREE);;
  for_loop user_pages PROC_START_ADDR PAGESIZE (exit_page tables).

(** ** sys_page_alloc, sys_mapping, sys_mem_tog *)

Definition sys_page_alloc `{Devices} : M kstate () :=
  cur ← gets current_proc;
  r ← sys_page_alloc_find_free (p_pagetable cur) (p_pid cur) (reg_rdi (p_registers cur));
  put_current_rax r.

(** The padding bytes of a [vamapping] object, which C leaves unspecified. *)
Class Padding : Type := padding : nat → Z.

Definition sizeof_vamapping : Z := 24.

(** [memcpy(dst, &map, sizeof(vamapping))] *)
Definition copy_vamapping `{Padding} (dst : Z) (map : vamapping) : M machine () :=
  write 4 dst (pn map);; write 4 (dst + 4) (padding 0);;
  write 8 (dst + 8) (pa map);;
  write 4 (dst + 16) (perm map);; write 4 (dst + 20) (padding 1).

Definition syscall_mapping `{Devices} `{Padding} : M kstate () :=
  p ← gets current_proc;
  let mapping_ptr := reg_rdi (p_registers p) in
  let ptr := reg_rsi (p_registers p) in
  map ← on_machine (virtual_memory_lookup (p_pagetable p) mapping_ptr);
  if negb (Z.land (perm map) PTE_WU =? PTE_WU) then mret () else
  let endaddr := u64 (pa map + sizeof_vamapping - 1) in
  end_map ← on_machine (virtual_memory_lookup (p_pagetable p) endaddr);
  if negb (Z.land (perm end_map) PTE_PW =? PTE_PW) then mret () else
  ptr_lookup ← on_machine (virtual_memory_lookup (p_pagetable p) ptr);
  on_machine (copy_vamapping (pa map) ptr_lookup).

Definition logical_not (x : Z) : Z := if x =? 0 then 1 else 0.

Definition syscall_mem_tog : M kstate () :=
  process ← gets current_proc;
  let p := s32 (reg_rdi (p_registers process)) in
  if p =? 0 then modify (λ s, set_disp_global (logical_not (disp_global s)) s)
  else if (p <? 0) || (NPROC <? p) || negb (p =? p_pid process) then mret ()
  else
    cur ← gets current;
    put_process cur (λ q, with_display (logical_not (display_status q)) q).
