(* ===== verification/Isolation.v ===== *)
(** The safety invariant of the kernel state: page tables, reference counts
    and the absence of shared writable pages. *)
From S2P Require Import Prelude X86 Machine CLib Printf Hardware PageTable Frames Syscalls.
Open Scope Z_scope.

(** ** Frames of a process *)

Definition frame (e : Z) : Z := PTE_ADDR e / 4096.

Definition present (e : Z) : bool := has e PTE_P.
Definition writable (e : Z) : bool := has e PTE_P && has e PTE_W.
Definition shared (e : Z) : bool := has e PTE_P && negb (has e PTE_W).

(** The frames that the entries [vpn] of a table selected by [sel] lead to. *)
Definition frames_where (sel : Z → bool) (m : gmap Z Z) (sh : pt_shape) (lo n : Z) : list Z :=
  omap (λ vpn, let e := leaf m sh vpn in if sel e then Some (frame e) else None) (seqZ lo n).

Definition user_frames (m : gmap Z Z) (sh : pt_shape) : list Z := frames_where present m sh 256 768.

(** The page table below a root, read from memory. *)
Definition shape_at (m : gmap Z Z) (p : Z) : pt_shape :=
  let l2 := PTE_ADDR (load 8 m p) in
  let l3 := PTE_ADDR (load 8 m l2) in
  MkShape p l2 l3 (PTE_ADDR (load 8 m l3)) (PTE_ADDR (load 8 m (l3 + 8))).

Definition table_of (s : kstate) (pid : Z) : pt_shape :=
  shape_at (kmem s) (p_pagetable (process s pid)).

Definition table_frames (sh : pt_shape) : list Z := (λ p, p / 4096) <$> pt_pages sh.

Definition live (s : kstate) (pid : Z) : Prop := 1 ≤ pid < 16 ∧ p_state (process s pid) ≠ P_FREE.

#[global] Instance live_dec s pid : Decision (live s pid).
Proof. unfold live. apply _. Defined.

(** Every frame a process refers to, as often as it does. *)
Definition frames_of (s : kstate) (pid : Z) : list Z :=
  if decide (live s pid)
  then table_frames (table_of s pid) ++ user_frames (kmem s) (table_of s pid)
  else [].

Definition pids : list Z := seqZ 1 15.

Definition refs (s : kstate) (f : Z) : Z := zsum (λ pid, occ f (frames_of s pid)) pids.

(** ** The invariant *)

(** The entries below [PROC_START_ADDR]: the identity, for the kernel only
    except for the console. *)
Definition kernel_entry (e vpn : Z) : Prop :=
  PTE_ADDR e = vpn * 4096 ∧ has e PTE_P = true ∧ has e PTE_W = true ∧
  has e PTE_U = bool_decide (vpn = CONSOLE_ADDR / 4096).

Record safe (s : kstate) : Prop := {
  safe_pid : ∀ pid, live s pid → p_pid (process s pid) = pid;
  (* page tables *)
  safe_shape : ∀ pid, live s pid → shape_ok (kmem s) (table_of s pid);
  safe_tables : ∀ pid f, live s pid → f ∈ table_frames (table_of s pid) →
    pinfo s f = MkInfo pid 1;
  safe_kernel : ∀ pid vpn, live s pid → 0 ≤ vpn < 256 →
    kernel_entry (leaf (kmem s) (table_of s pid) vpn) vpn;
  (* user pages *)
  safe_frames : ∀ pid f, live s pid → f ∈ user_frames (kmem s) (table_of s pid) →
    1 ≤ f < 512 ∧ 0 < owner (pinfo s f);
  safe_writable : ∀ pid vpn, live s pid → 256 ≤ vpn < 1024 →
    writable (leaf (kmem s) (table_of s pid) vpn) = true →
    pinfo s (frame (leaf (kmem s) (table_of s pid) vpn)) = MkInfo pid 1;
  (* reference counts *)
  safe_refs : ∀ f, 0 ≤ f < 512 → refs s f ≤ refcount (pinfo s f);
  safe_counts : ∀ f, 0 ≤ f < 512 → 0 ≤ refcount (pinfo s f) ≤ 127;
  safe_console : owner (pinfo s (CONSOLE_ADDR / 4096)) ≤ 0 ∧ refcount (pinfo s (CONSOLE_ADDR / 4096)) ≠ 0 }.

Lemma shape_at_ok m sh : shape_ok m sh → shape_at m (L1 sh) = sh.
Proof.
  intros [_ _ [E1 _] [E2 _] [E3 _] [E4 _] _ _ _]. destruct sh as [l1 l2 l3 l41 l42]; cbn in *.
  unfold shape_at. by rewrite E1, E2, E3, E4.
Qed.

(** The bytes of a table. *)
Definition in_table (sh : pt_shape) (a : Z) : Prop := ∃ p, p ∈ pt_pages sh ∧ in_page p a.

Lemma in_pages sh :
  L1 sh ∈ pt_pages sh ∧ L2 sh ∈ pt_pages sh ∧ L3 sh ∈ pt_pages sh ∧
  L4_1 sh ∈ pt_pages sh ∧ L4_2 sh ∈ pt_pages sh.
Proof. unfold pt_pages. rewrite !elem_of_cons. tauto. Qed.

Lemma l4_in_pages sh i : l4_of sh i ∈ pt_pages sh.
Proof. unfold l4_of. destruct (i =? 0); apply in_pages. Qed.

Lemma table_agree m m' sh :
  shape_ok m sh → agree (in_table sh) m m' →
  shape_ok m' sh ∧ ∀ w, 0 ≤ w < 1024 → leaf m' sh w = leaf m sh w.
Proof.
  intros Hsh Ha. destruct (in_pages sh) as (M1&M2&M3&M4&M5). split.
  - eapply shape_agree; [done|]. eapply agree_weaken; [|done].
    intros a [?|[?|?]]; eexists; (split; [|done]); done.
  - intros w Hw. unfold leaf. apply load_agree. intros b Hb. symmetry. apply Ha.
    exists (l4_of sh (w / 512)). split; [apply l4_in_pages|].
    pose proof (leaf_addr_in sh w Hw). unfold in_page. lia.
Qed.

Lemma addr_page e : 0 ≤ e < 2 ^ 64 → PTE_ADDR e = frame e * 4096.
Proof.
  intros He. unfold frame. pose proof (Z.div_mod (PTE_ADDR e) 4096).
  pose proof (PTE_ADDR_aligned e He). lia.
Qed.

Lemma in_table_frames sh a :
  Forall table_page (pt_pages sh) → in_table sh a → a / 4096 ∈ table_frames sh.
Proof.
  intros HF (p & Hp & Hin). rewrite Forall_forall in HF. destruct (HF p Hp) as (_&Hal&_).
  apply list_elem_of_fmap. exists p. split; [|done]. unfold in_page in Hin.
  pose proof (Z.div_mod p 4096). symmetry. apply Z.div_unique with (a - p); lia.
Qed.

Lemma frames_in_table sh a :
  Forall table_page (pt_pages sh) → a / 4096 ∈ table_frames sh → in_table sh a.
Proof.
  intros HF Hin. apply list_elem_of_fmap in Hin as (p & E & Hp). rewrite Forall_forall in HF.
  destruct (HF p Hp) as (_&Hal&_). exists p. split; [done|]. unfold in_page.
  pose proof (Z.div_mod p 4096). pose proof (Z.div_mod a 4096).
  pose proof (Z.mod_pos_bound a 4096). lia.
Qed.

Lemma present_shared_writable e : present e = writable e || shared e.
Proof. unfold present, writable, shared. by destruct (has e PTE_P), (has e PTE_W). Qed.

Lemma elem_frames_where sel m sh lo n f :
  f ∈ frames_where sel m sh lo n ↔
  ∃ vpn, lo ≤ vpn < lo + n ∧ sel (leaf m sh vpn) = true ∧ frame (leaf m sh vpn) = f.
Proof.
  unfold frames_where. rewrite list_elem_of_omap. setoid_rewrite elem_of_seqZ.
  split.
  - intros (vpn & ? & E). cbn in E. destruct (sel _) eqn:?; [|done]. simplify_eq. eauto.
  - intros (vpn & ? & E & <-). exists vpn. split; [done|]. cbn. by rewrite E.
Qed.

Lemma frames_where_ext sel m m' sh sh' lo n :
  (∀ vpn, lo ≤ vpn < lo + n → leaf m sh vpn = leaf m' sh' vpn) →
  frames_where sel m sh lo n = frames_where sel m' sh' lo n.
Proof.
  intros E. unfold frames_where.
  assert (Forall (λ vpn, leaf m sh vpn = leaf m' sh' vpn) (seqZ lo n)) as HF.
  { apply Forall_forall. intros vpn Hv. apply elem_of_seqZ in Hv. by apply E. }
  induction HF as [|x l Hx _ IH]; [done|]. cbn. rewrite Hx. cbn in IH. by rewrite IH.
Qed.

Lemma frames_where_app sel m sh lo n k :
  0 ≤ n → 0 ≤ k →
  frames_where sel m sh lo (n + k) = frames_where sel m sh lo n ++ frames_where sel m sh (lo + n) k.
Proof. intros. unfold frames_where. by rewrite seqZ_app, omap_app by lia. Qed.

Lemma frames_where_nil sel m sh lo : frames_where sel m sh lo 0 = [].
Proof. done. Qed.

Lemma frames_where_snoc sel m sh lo n :
  0 ≤ n →
  frames_where sel m sh lo (n + 1)
  = frames_where sel m sh lo n ++
    (if sel (leaf m sh (lo + n)) then [frame (leaf m sh (lo + n))] else []).
Proof.
  intros. rewrite frames_where_app by lia. f_equal. unfold frames_where.
  change (seqZ (lo + n) 1) with [0 + (lo + n)]. cbn. change (0 + (lo + n)) with (lo + n).
  by destruct (sel _).
Qed.

Lemma elem_pids pid : pid ∈ pids ↔ 1 ≤ pid < 16.
Proof. unfold pids. rewrite elem_of_seqZ. lia. Qed.

Lemma pids_nodup : NoDup pids.
Proof. apply NoDup_seqZ. Qed.

Lemma refs_ge s pid f : 1 ≤ pid < 16 → occ f (frames_of s pid) ≤ refs s f.
Proof.
  intros Hp. unfold refs. rewrite (zsum_split _ pid) by (apply elem_pids || apply pids_nodup; done).
  pose proof (zsum_nonneg (λ y, if decide (y = pid) then 0 else occ f (frames_of s y)) pids).
  cut (0 ≤ zsum (λ y, if decide (y = pid) then 0 else occ f (frames_of s y)) pids); [lia|].
  apply H. intros x _. case_decide; [done|apply occ_nonneg].
Qed.

(** A frame is counted once by every process that refers to it. *)
Lemma refs_ge2 s pid q f :
  1 ≤ pid < 16 → 1 ≤ q < 16 → pid ≠ q → occ f (frames_of s pid) + occ f (frames_of s q) ≤ refs s f.
Proof.
  intros Hp Hq Hne. unfold refs. rewrite (zsum_split _ pid) by (apply elem_pids || apply pids_nodup; done).
  rewrite (zsum_split _ q) by (apply elem_pids || apply pids_nodup; done).
  rewrite (decide_False (P := q = pid)) by congruence.
  match goal with |- _ ≤ _ + (_ + zsum ?h pids) =>
    assert (0 ≤ zsum h pids); [|lia]; apply zsum_nonneg end.
  intros x _. repeat case_decide; try done. apply occ_nonneg.
Qed.

(** Present entries are the writable and the shared ones. *)
Lemma occ_present m sh lo n f :
  occ f (frames_where present m sh lo n)
  = occ f (frames_where writable m sh lo n) + occ f (frames_where shared m sh lo n).
Proof.
  unfold frames_where. induction (seqZ lo n) as [|x l IH]; [done|].
  cbn [omap list_omap]. rewrite (present_shared_writable (leaf m sh x)).
  assert (writable (leaf m sh x) && shared (leaf m sh x) = false) as Hx.
  { unfold writable, shared. by destruct (has _ PTE_P), (has _ PTE_W). }
  cbn [omap list_omap] in IH.
  destruct (writable (leaf m sh x)), (shared (leaf m sh x)); try done; cbn [orb occ]; lia.
Qed.

Lemma frames_of_live s pid :
  live s pid → frames_of s pid = table_frames (table_of s pid) ++ user_frames (kmem s) (table_of s pid).
Proof. intros. unfold frames_of. by rewrite decide_True. Qed.

(** The references of a live process to a frame. *)
Lemma occ_frames_of s pid f :
  live s pid → occ f (frames_of s pid)
  = occ f (table_frames (table_of s pid))
    + (occ f (frames_where writable (kmem s) (table_of s pid) 256 768)
       + occ f (frames_where shared (kmem s) (table_of s pid) 256 768)).
Proof. intros Hp. rewrite frames_of_live, occ_app by done. f_equal. apply occ_present. Qed.

(** A page that a process has for itself is shared with none. *)
Lemma private_frame s pid q f :
  safe s → live s pid → live s q → 0 ≤ f < 512 → refcount (pinfo s f) = 1 →
  f ∈ table_frames (table_of s pid) ∨ f ∈ frames_where writable (kmem s) (table_of s pid) 256 768 →
  occ f (frames_where shared (kmem s) (table_of s q) 256 768) = 0.
Proof.
  intros Hs Hp Hq Hf Hr Hin. pose proof (safe_refs _ Hs f Hf) as Hle. rewrite Hr in Hle.
  pose proof (occ_frames_of s pid f Hp) as Ep. pose proof (occ_frames_of s q f Hq) as Eq.
  pose proof (refs_ge s q f (proj1 Hq)) as Hge.
  pose proof (refs_ge2 s pid q f (proj1 Hp) (proj1 Hq)) as Hge2.
  pose proof (proj2 (occ_pos f (table_frames (table_of s pid)))) as Ht.
  pose proof (proj2 (occ_pos f (frames_where writable (kmem s) (table_of s pid) 256 768))) as Hw.
  pose proof (occ_nonneg f (table_frames (table_of s pid))).
  pose proof (occ_nonneg f (table_frames (table_of s q))).
  pose proof (occ_nonneg f (frames_where writable (kmem s) (table_of s pid) 256 768)).
  pose proof (occ_nonneg f (frames_where writable (kmem s) (table_of s q) 256 768)).
  pose proof (occ_nonneg f (frames_where shared (kmem s) (table_of s pid) 256 768)).
  pose proof (occ_nonneg f (frames_where shared (kmem s) (table_of s q) 256 768)).
  destruct (decide (pid = q)) as [->|Hne]; [|specialize (Hge2 Hne)];
    (destruct Hin as [Hin|Hin]; [specialize (Ht Hin)|specialize (Hw Hin)]; lia).
Qed.

(** Every frame of a process is counted. *)
Lemma frame_counted s pid f :
  safe s → live s pid → 0 ≤ f < 512 → f ∈ frames_of s pid → 1 ≤ refcount (pinfo s f).
Proof.
  intros Hs Hp Hf Hin. pose proof (safe_refs _ Hs f Hf). pose proof (refs_ge s pid f (proj1 Hp)).
  apply occ_pos in Hin. lia.
Qed.

Lemma user_frame_counted s pid w :
  safe s → live s pid → 256 ≤ w < 1024 → present (leaf (kmem s) (table_of s pid) w) = true →
  let f := frame (leaf (kmem s) (table_of s pid) w) in
  1 ≤ f < 512 ∧ 0 < owner (pinfo s f) ∧ 1 ≤ refcount (pinfo s f).
Proof.
  intros Hs Hp Hw HP f.
  assert (f ∈ user_frames (kmem s) (table_of s pid)) as Hin.
  { apply elem_frames_where. exists w. split_and!; try done; lia. }
  destruct (safe_frames _ Hs pid f Hp Hin) as [Hf Ho]. split_and!; try lia.
  apply (frame_counted s pid); try done; [lia|]. rewrite frames_of_live by done.
  apply elem_of_app. by right.
Qed.

Lemma table_of_eq s pid : table_of s pid = shape_at (kmem s) (p_pagetable (process s pid)).
Proof. reflexivity. Qed.

Lemma shape_at_root m p : L1 (shape_at m p) = p.
Proof. reflexivity. Qed.

Lemma table_of_root s pid : L1 (table_of s pid) = p_pagetable (process s pid).
Proof. apply shape_at_root. Qed.

(** A process keeps its address space when its table pages are not written. *)
Lemma live_kept s s' pid :
  safe s → live s pid → p_pagetable (process s' pid) = p_pagetable (process s pid) →
  agree (in_table (table_of s pid)) (kmem s) (kmem s') →
  table_of s' pid = table_of s pid ∧ shape_ok (kmem s') (table_of s pid) ∧
  ∀ w, 0 ≤ w < 1024 → leaf (kmem s') (table_of s pid) w = leaf (kmem s) (table_of s pid) w.
Proof.
  intros Hs Hp Hpt Ha. destruct (table_agree _ _ _ (safe_shape _ Hs pid Hp) Ha) as [Hsh Hl].
  split; [|split; assumption].
  rewrite (table_of_eq s' pid), Hpt, <- table_of_root. by apply shape_at_ok.
Qed.

(** ** Changes that the invariant does not see

    Registers, the screen, the keyboard, the ports and the page information
    kept outside physical memory. *)

Record core (s s' : kstate) : Prop := {
  core_pid : ∀ q, p_pid (process s' q) = p_pid (process s q);
  core_state : ∀ q, p_state (process s' q) = P_FREE ↔ p_state (process s q) = P_FREE;
  core_table : ∀ q, p_pagetable (process s' q) = p_pagetable (process s q);
  core_pinfo : ∀ f, 0 ≤ f < 512 → pinfo s' f = pinfo s f;
  core_memory : agree (λ a, ¬ on_screen a) (kmem s) (kmem s') }.

#[global] Instance core_preorder : PreOrder core.
Proof.
  split; [by intros s; split|]. intros s1 s2 s3 [A1 A2 A3 A4 A5] [B1 B2 B3 B4 B5]. split.
  - intros q. by rewrite B1.
  - intros q. by rewrite B2.
  - intros q. by rewrite B3.
  - intros f Hf. rewrite B4 by done. by apply A4.
  - by transitivity (kmem s2).
Qed.

Lemma screen_page a : on_screen a → a / 4096 = CONSOLE_ADDR / 4096.
Proof.
  unfold on_screen. change (CONSOLE_ADDR / 4096) with 184.
  change (console + 2 * (CONSOLE_ROWS * CONSOLE_COLUMNS)) with (184 * 4096 + 4000).
  change console with (184 * 4096). intros Ha. symmetry. apply Z.div_unique with (a - 184 * 4096); lia.
Qed.

Lemma table_off_screen s (Hs : safe s) q a : live s q → in_table (table_of s q) a → ¬ on_screen a.
Proof.
  intros Hq Ha Hscr. apply screen_page in Hscr.
  pose proof (in_table_frames _ _ (shape_pages _ _ (safe_shape s Hs q Hq)) Ha) as Hin.
  pose proof (safe_tables s Hs q _ Hq Hin) as Hi. rewrite Hscr in Hi.
  destruct (safe_console s Hs) as [Ho _]. rewrite Hi in Ho. cbn in Ho. destruct Hq. lia.
Qed.

Lemma table_frame_range s (Hs : safe s) q f : live s q → f ∈ table_frames (table_of s q) → 1 ≤ f < 512.
Proof.
  intros Hq Hin. apply list_elem_of_fmap in Hin as (pg & -> & Hpg).
  destruct (shape_page _ _ (safe_shape s Hs q Hq) pg Hpg) as (?&Hal&?).
  pose proof (Z.div_mod pg 4096). change MEMSIZE_PHYSICAL with (512 * 4096) in *. lia.
Qed.

(** More generally, the tables of the live processes stay. *)
Record undisturbed (s s' : kstate) : Prop := {
  un_pid : ∀ q, p_pid (process s' q) = p_pid (process s q);
  un_state : ∀ q, p_state (process s' q) = P_FREE ↔ p_state (process s q) = P_FREE;
  un_table : ∀ q, p_pagetable (process s' q) = p_pagetable (process s q);
  un_pinfo : ∀ f, 0 ≤ f < 512 → pinfo s' f = pinfo s f;
  un_memory : ∀ q, live s q → agree (in_table (table_of s q)) (kmem s) (kmem s') }.

Section undisturbed.
Context (s s' : kstate) (Hs : safe s) (Hc : undisturbed s s').

Lemma un_live q : live s' q ↔ live s q.
Proof. unfold live. pose proof (un_state _ _ Hc q). tauto. Qed.

Lemma un_kept q :
  live s q → table_of s' q = table_of s q ∧ shape_ok (kmem s') (table_of s q) ∧
  ∀ w, 0 ≤ w < 1024 → leaf (kmem s') (table_of s q) w = leaf (kmem s) (table_of s q) w.
Proof.
  intros Hq. apply live_kept; [exact Hs|exact Hq|apply Hc|]. by apply (un_memory _ _ Hc).
Qed.

Lemma un_frames q : frames_of s' q = frames_of s q.
Proof.
  destruct (decide (live s q)) as [Hq|Hq].
  - rewrite !frames_of_live by (done || by apply un_live).
    destruct (un_kept q Hq) as (-> & _ & Hl). f_equal. apply frames_where_ext. intros w Hw. apply Hl. lia.
  - unfold frames_of. rewrite !decide_False; [done|done|]. by rewrite un_live.
Qed.

Lemma un_user_frames q :
  live s q → user_frames (kmem s') (table_of s' q) = user_frames (kmem s) (table_of s q).
Proof.
  intros Hq. destruct (un_kept q Hq) as (-> & _ & Hl). apply frames_where_ext.
  intros w Hw. apply Hl. lia.
Qed.

Lemma un_refs f : refs s' f = refs s f.
Proof. apply zsum_ext. intros q _. by rewrite un_frames. Qed.

Lemma un_safe : safe s'.
Proof.
  split.
  - intros q Hq. apply un_live in Hq. rewrite (un_pid _ _ Hc). by apply (safe_pid s Hs).
  - intros q Hq. apply un_live in Hq. destruct (un_kept q Hq) as (->&?&_). done.
  - intros q f Hq Hin. apply un_live in Hq. rewrite (proj1 (un_kept q Hq)) in Hin.
    pose proof (table_frame_range s Hs q f Hq Hin). rewrite (un_pinfo _ _ Hc) by lia. by apply (safe_tables s Hs).
  - intros q w Hq Hw. apply un_live in Hq. destruct (un_kept q Hq) as (->&_&->); [|lia].
    by apply (safe_kernel s Hs).
  - intros q f Hq Hin. apply un_live in Hq. rewrite un_user_frames in Hin by done.
    destruct (safe_frames s Hs q f Hq Hin). rewrite (un_pinfo _ _ Hc) by lia. done.
  - intros q w Hq Hw Hwr. apply un_live in Hq. destruct (un_kept q Hq) as (Et&_&El).
    rewrite Et, El in Hwr |- * by lia.
    assert (present (leaf (kmem s) (table_of s q) w) = true) as HP by (by apply andb_prop in Hwr as [? _]).
    destruct (user_frame_counted s q w Hs Hq Hw HP) as (?&_&_).
    rewrite (un_pinfo _ _ Hc) by lia. by apply (safe_writable s Hs).
  - intros f Hf. rewrite un_refs, (un_pinfo _ _ Hc) by done. by apply (safe_refs s Hs).
  - intros f Hf. rewrite (un_pinfo _ _ Hc) by done. by apply (safe_counts s Hs).
  - change (CONSOLE_ADDR / 4096) with 184. rewrite (un_pinfo _ _ Hc) by lia. apply (safe_console s Hs).
Qed.
End undisturbed.

Lemma core_undisturbed s s' : safe s → core s s' → undisturbed s s'.
Proof.
  intros Hs [A1 A2 A3 A4 A5]. split; try assumption. intros q Hq a Ha. apply A5.
  by apply (table_off_screen s Hs q).
Qed.

Lemma core_safe s s' : safe s → core s s' → safe s'.
Proof. intros Hs Hc. apply (un_safe s s' Hs). by apply core_undisturbed. Qed.

(** ** The other processes

    What a step of [p] leaves alone: the record of every other live process,
    and every byte of its page table and of its pages. *)

Record spares (p : Z) (s s' : kstate) : Prop := {
  sp_process : ∀ q, live s q → q ≠ p → process s' q = process s q;
  sp_memory : ∀ q, live s q → q ≠ p → agree (λ a, a / 4096 ∈ frames_of s q) (kmem s) (kmem s') }.

Lemma spares_refl p s : spares p s s.
Proof. by split. Qed.

Lemma spares_kept p s s' q :
  safe s → spares p s s' → live s q → q ≠ p → live s' q ∧ frames_of s' q = frames_of s q.
Proof.
  intros Hs [Hp Hm] Hq Hne.
  assert (live s' q) as Hq' by (unfold live; rewrite Hp by done; exact Hq).
  destruct (live_kept s s' q Hs Hq) as (Et & _ & El); [by rewrite Hp| |].
  { intros a Ha. apply (Hm q Hq Hne). rewrite frames_of_live by done. apply elem_of_app. left.
    apply in_table_frames; [|done]. apply (safe_shape s Hs q Hq). }
  split; [done|]. rewrite !frames_of_live, Et by done. f_equal. apply frames_where_ext.
  intros w Hw. apply El. lia.
Qed.

Lemma spares_trans p s1 s2 s3 : safe s1 → spares p s1 s2 → spares p s2 s3 → spares p s1 s3.
Proof.
  intros Hs H12 H23. split; intros q Hq Hne; destruct (spares_kept p s1 s2 q Hs H12 Hq Hne) as [Hq2 E].
  - by rewrite (sp_process _ _ _ H23), (sp_process _ _ _ H12).
  - transitivity (kmem s2); [by apply (sp_memory _ _ _ H12)|]. rewrite <- E. by apply (sp_memory _ _ _ H23).
Qed.

Lemma frame_range s q f : safe s → live s q → f ∈ frames_of s q → 1 ≤ f < 512.
Proof.
  intros Hs Hq Hf. rewrite frames_of_live in Hf by done. apply elem_of_app in Hf as [Ht|Hu].
  - by apply (table_frame_range s Hs q).
  - by apply (safe_frames s Hs q).
Qed.

(** No process has the console's page among its own. *)
Lemma frames_off_console s q : safe s → live s q → CONSOLE_ADDR / 4096 ∉ frames_of s q.
Proof.
  intros Hs Hq Hin. destruct (safe_console s Hs) as [Ho _].
  rewrite frames_of_live, elem_of_app in Hin by done. destruct Hin as [Hin|Hin].
  - rewrite (safe_tables s Hs q _ Hq Hin) in Ho. cbn in Ho. destruct Hq. lia.
  - destruct (safe_frames s Hs q _ Hq Hin). lia.
Qed.

Lemma off_screen_spares p s s' :
  safe s → (∀ q, live s q → q ≠ p → process s' q = process s q) →
  agree (λ a, ¬ on_screen a) (kmem s) (kmem s') → spares p s s'.
Proof.
  intros Hs Hp Ha. split; [done|]. intros q Hq Hne a Hin. apply Ha. intros Hscr.
  apply screen_page in Hscr. rewrite Hscr in Hin. by apply (frames_off_console s q).
Qed.
