(* ===== verification/Demo.v ===== *)
(** A small concrete kernel state, on which the theorems about processes are
    instantiated: the kernel's own page table, and one process with a code
    page, a read-only page and a stack page. *)
From S2P Require Import Prelude X86 Machine CLib Printf Hardware PageTable Frames Syscalls Isolation.
Open Scope Z_scope.

(** Writing a list of entries, one after the other. *)
Fixpoint store_entries (l : list Z) (a : Z) (m : gmap Z Z) : gmap Z Z :=
  match l with
  | [] => m
  | e :: l => store_entries l (a + 8) (store 8 m a e)
  end.

(** The entries of the five pages, for a list of last-level entries. *)
Definition store_table (sh : pt_shape) (low high : list Z) (m : gmap Z Z) : gmap Z Z :=
  store_entries low (L4_1 sh) (store_entries high (L4_2 sh)
    (store 8 (store 8 (store 8 (store 8 m (L1 sh) (L2 sh + 7)) (L2 sh) (L3 sh + 7))
       (L3 sh) (L4_1 sh + 7)) (L3 sh + 8) (L4_2 sh + 7))).

Definition kernel_leaf (w : Z) : Z := w * 4096 + (if w =? 184 then 7 else 3).

Definition demo_kernel : pt_shape := MkShape 0x52000 0x53000 0x54000 0x55000 0x56000.
Definition demo_shape : pt_shape := MkShape 0x10000 0x11000 0x12000 0x13000 0x14000.

(** Page 0x100 is code and data, in the physical page just below the page
    table; page 0x101 is read-only, page 0x2FF the stack. *)
Definition demo_low : list Z := (kernel_leaf <$> seqZ 0 256) ++ [15 * 4096 + 7; 301 * 4096 + 5].
Definition demo_high : list Z := replicate 255 0 ++ [302 * 4096 + 7].

Definition demo_mem : gmap Z Z :=
  store 8 (store_table demo_shape demo_low demo_high
    (store_table demo_kernel ((kernel_leaf <$> seqZ 0 256) ++ ((λ w, w * 4096 + 7) <$> seqZ 256 256)) []
      (store 8 ∅ (@kernel_task_descriptor kernel_sym + 4) KERNEL_STACK_TOP)))
    (15 * 4096) 0x2A.

Definition demo_machine : machine := MkMachine demo_mem [] 0 0 0 0x52000 [] (@idt_table kernel_sym) 0 0 0 0 0x52000.

Definition demo_info (n : Z) : physical_pageinfo :=
  if bool_decide (n ∈ [16; 17; 18; 19; 20; 15; 301; 302]) then MkInfo 1 1
  else let own := @initial_owner kernel_sym (n * 4096) in
       MkInfo own (if own =? PO_FREE then 0 else 1).

Definition demo_pageinfo : gmap Z physical_pageinfo := list_to_map ((λ n, (n, demo_info n)) <$> seqZ 0 512).

Definition demo_regs : x86_64_registers :=
  MkRegs 0 0 0 0 0 0 0x104000 0 0 0 0 0 0 0 0 0 0 INT_SYS_PAGE_ALLOC 0 0x100000 0x13 0x200 0x300000 0x23.

Definition demo_proc : proc := MkProc 1 demo_regs P_RUNNABLE 0x10000 0.

(** Process 1 runs; the other slots are free. *)
Definition demo : kstate := MkK demo_machine demo_pageinfo {[1 := demo_proc]} 1 0 0 0 1.

Definition forall_range (lo n : Z) (P : Z → bool) : bool := forallb P (seqZ lo n).

Lemma forall_range_spec lo n P k : forall_range lo n P = true → lo ≤ k < lo + n → P k = true.
Proof.
  unfold forall_range. rewrite forallb_forall. intros HP Hk. apply HP. apply list_elem_of_In, elem_of_seqZ. done.
Qed.

Lemma demo_live q : live demo q ↔ q = 1.
Proof.
  unfold live, process, demo. cbn [processes]. destruct (decide (q = 1)) as [->|Hne].
  - split; [done|]. intros _. split; [lia|]. rewrite lookup_singleton_eq. done.
  - rewrite lookup_singleton_ne by congruence. cbn. split; [|done]. by intros [_ ?].
Qed.

Lemma demo_table : table_of demo 1 = demo_shape.
Proof. vm_compute. reflexivity. Qed.

Lemma demo_machine_shape : shape_ok (mem demo_machine) demo_shape.
Proof. apply (bool_decide_unpack _). vm_compute. exact I. Qed.

Lemma demo_shape_ok : shape_ok (kmem demo) demo_shape.
Proof. exact demo_machine_shape. Qed.

Abbreviation demo_leaf w := (leaf demo_mem demo_shape w).

Definition demo_frames : list Z := [16; 17; 18; 19; 20; 15; 301; 302].

Lemma demo_frames_of : frames_of demo 1 = demo_frames.
Proof.
  unfold frames_of. rewrite decide_True by (by apply demo_live). rewrite demo_table. vm_compute. reflexivity.
Qed.

Lemma demo_refs f : refs demo f = occ f demo_frames.
Proof.
  unfold refs. rewrite (zsum_split _ 1) by (apply elem_pids || apply pids_nodup; lia).
  rewrite demo_frames_of. rewrite (zsum_ext _ (λ _, 0)); [by rewrite Z.add_0_r|].
  intros q _. case_decide; [done|]. unfold frames_of. rewrite decide_False; [done|]. by rewrite demo_live.
Qed.

Definition kernel_entry_b (e w : Z) : bool :=
  (PTE_ADDR e =? w * 4096) && has e PTE_P && has e PTE_W && eqb (has e PTE_U) (bool_decide (w = CONSOLE_ADDR / 4096)).

Lemma kernel_entry_spec e w : kernel_entry_b e w = true → kernel_entry e w.
Proof.
  unfold kernel_entry_b, kernel_entry. rewrite !andb_true_iff, Z.eqb_eq, eqb_true_iff. tauto.
Qed.

Lemma demo_kernel_entries : forall_range 0 256 (λ w, kernel_entry_b (demo_leaf w) w) = true.
Proof. vm_compute. reflexivity. Qed.

Definition user_entry_b (e : Z) (i : physical_pageinfo) : bool :=
  (negb (present e) || ((1 <=? frame e) && (frame e <? 512) && (0 <? owner i))) &&
  (negb (writable e) || bool_decide (i = MkInfo 1 1)).

Lemma user_entry_spec e i :
  user_entry_b e i = true →
  (present e = true → 1 ≤ frame e < 512 ∧ 0 < owner i) ∧ (writable e = true → i = MkInfo 1 1).
Proof.
  unfold user_entry_b. rewrite andb_true_iff, !orb_true_iff, !negb_true_iff, !andb_true_iff,
    Z.leb_le, !Z.ltb_lt, bool_decide_eq_true. intros [H1 H2]. split; intros E; rewrite E in *.
  - destruct H1 as [?|H1]; [discriminate|]. lia.
  - by destruct H2 as [?|H2].
Qed.

Definition count_b (k r : Z) : bool := (k <=? r) && (0 <=? r) && (r <=? 127).

Lemma count_spec k r : count_b k r = true → k ≤ r ∧ 0 ≤ r ≤ 127.
Proof. unfold count_b. rewrite !andb_true_iff, !Z.leb_le. lia. Qed.

Lemma demo_user_entries :
  forall_range 256 768 (λ w, user_entry_b (demo_leaf w) (pinfo demo (frame (demo_leaf w)))) = true.
Proof. vm_compute. reflexivity. Qed.

Lemma demo_counts : forall_range 0 512 (λ f, count_b (occ f demo_frames) (refcount (pinfo demo f))) = true.
Proof. vm_compute. reflexivity. Qed.

Lemma demo_table_pages : forallb (λ f, bool_decide (pinfo demo f = MkInfo 1 1)) (table_frames demo_shape) = true.
Proof. vm_compute. reflexivity. Qed.

Lemma demo_console : owner (pinfo demo 184) = -1 ∧ refcount (pinfo demo 184) = 1.
Proof. vm_compute. done. Qed.

#[local] Opaque frames_where demo_mem demo_pageinfo leaf pinfo frame.

(** The demo state satisfies the invariant. *)
Lemma demo_safe : safe demo.
Proof.
  assert (∀ w, 256 ≤ w < 1024 →
    (present (demo_leaf w) = true → 1 ≤ frame (demo_leaf w) < 512 ∧ 0 < owner (pinfo demo (frame (demo_leaf w)))) ∧
    (writable (demo_leaf w) = true → pinfo demo (frame (demo_leaf w)) = MkInfo 1 1)) as Hu.
  { intros w Hw. apply user_entry_spec. apply (forall_range_spec _ _ _ w demo_user_entries). lia. }
  assert (∀ f, 0 ≤ f < 512 → occ f demo_frames ≤ refcount (pinfo demo f) ∧ 0 ≤ refcount (pinfo demo f) ≤ 127) as Hc.
  { intros f Hf. apply count_spec. apply (forall_range_spec _ _ _ f demo_counts). lia. }
  split.
  - intros q ->%demo_live. reflexivity.
  - intros q ->%demo_live. rewrite demo_table. apply demo_shape_ok.
  - intros q f ->%demo_live. rewrite demo_table. intros Hf. pose proof demo_table_pages as Hb.
    rewrite forallb_forall in Hb. apply list_elem_of_In in Hf. by apply Hb, bool_decide_eq_true in Hf.
  - intros q w ->%demo_live Hw. rewrite demo_table. apply kernel_entry_spec.
    apply (forall_range_spec _ _ _ w demo_kernel_entries). lia.
  - intros q f ->%demo_live. rewrite demo_table. intros (w & Hw & HP & <-)%elem_frames_where.
    apply Hu; [lia|done].
  - intros q w ->%demo_live Hw. rewrite demo_table. intros HW. by apply Hu.
  - intros f Hf. rewrite demo_refs. apply (Hc f Hf).
  - intros f Hf. apply (Hc f Hf).
  - change (CONSOLE_ADDR / 4096) with 184. destruct demo_console as [-> ->]. lia.
Qed.
