(* ===== verification/Duplicate.v ===== *)
(** The page tables of a new process: [duplicate_pagetable] of src/kernel.c. *)
From S2P Require Import Prelude X86 Machine CLib Printf Hardware PageTable Frames Syscalls Isolation.
Open Scope Z_scope.

(** ** Memory updates of the kernel state *)

Definition set_kmem (m : gmap Z Z) (s : kstate) : kstate := set_mach (set_mem m (mach s)) s.

Lemma on_machine_ok {A} (c : M machine A) s a m :
  c (mach s) = Ok a (set_mem m (mach s)) → on_machine c s = Ok a (set_kmem m s).
Proof. intros E. unfold on_machine, zoom. by rewrite E. Qed.

Lemma on_machine_pure {A} (c : M machine A) s a :
  c (mach s) = Ok a (mach s) → on_machine c s = Ok a s.
Proof. intros E. unfold on_machine, zoom. rewrite E. by destruct s. Qed.

(** ** Taking several pages *)

Definition takes (l : list Z) (pid : Z) (s : kstate) : kstate :=
  foldl (λ s n, take_page n pid s) s l.

Lemma pinfo_takes l pid s k :
  pinfo (takes l pid s) k = if decide (k ∈ l) then MkInfo pid 1 else pinfo s k.
Proof.
  revert s. induction l as [|n l IH]; intros s.
  - by rewrite decide_False by apply not_elem_of_nil.
  - change (takes (n :: l) pid s) with (takes l pid (take_page n pid s)). rewrite IH, pinfo_take. destruct (decide (k ∈ l)).
    + rewrite decide_True; [done|]. by apply elem_of_cons; right.
    + destruct (decide (n = k)) as [->|].
      * rewrite decide_True; [done|]. by apply elem_of_cons; left.
      * rewrite decide_False; [done|]. intros [->|?]%elem_of_cons; done.
Qed.

Lemma takes_snoc l n pid s : takes (l ++ [n]) pid s = take_page n pid (takes l pid s).
Proof. unfold takes. by rewrite foldl_app. Qed.

(** One more page after [l] of them. *)
Lemma alloc_next pid l s :
  0 < nfree (takes l pid s) → - 128 ≤ pid < 128 →
  ∃ n, alloc_page_process pid (takes l pid s) = Ok (n * 4096) (takes (l ++ [n]) pid s) ∧
       1 ≤ n < 512 ∧ refcount (pinfo s n) = 0 ∧ (n ∉ l) ∧
       nfree (takes (l ++ [n]) pid s) = nfree (takes l pid s) - 1 ∧
       nlow (takes l pid s) - 1 ≤ nlow (takes (l ++ [n]) pid s) ∧ (0 < nlow (takes l pid s) → n < 256).
Proof.
  intros Hf Hpid. destruct (alloc_step pid (takes l pid s) Hf Hpid) as (n & E & Hn & Hr & Hnf & Hlow).
  exists n. rewrite takes_snoc. pose proof (nlow_take n pid _ Hr). rewrite pinfo_takes in Hr.
  case_decide; [done|]. done.
Qed.

Lemma alloc_five pid s :
  5 ≤ nfree s → - 128 ≤ pid < 128 →
  ∃ n1 n2 n3 n4 n5,
    alloc_page_process pid s = Ok (n1 * 4096) (takes [n1] pid s) ∧
    alloc_page_process pid (takes [n1] pid s) = Ok (n2 * 4096) (takes [n1; n2] pid s) ∧
    alloc_page_process pid (takes [n1; n2] pid s) = Ok (n3 * 4096) (takes [n1; n2; n3] pid s) ∧
    alloc_page_process pid (takes [n1; n2; n3] pid s) = Ok (n4 * 4096) (takes [n1; n2; n3; n4] pid s) ∧
    alloc_page_process pid (takes [n1; n2; n3; n4] pid s)
      = Ok (n5 * 4096) (takes [n1; n2; n3; n4; n5] pid s) ∧
    NoDup [n1; n2; n3; n4; n5] ∧
    Forall (λ n, 1 ≤ n < 512 ∧ refcount (pinfo s n) = 0) [n1; n2; n3; n4; n5] ∧
    nfree (takes [n1; n2; n3; n4; n5] pid s) = nfree s - 5 ∧
    (5 ≤ nlow s → Forall (λ n, n < 256) [n1; n2; n3; n4; n5]).
Proof.
  intros Hf Hpid.
  destruct (alloc_next pid [] s) as (n1 & E1 & ? & ? & _ & F1 & M1 & W1); [cbn; lia|done|].
  destruct (alloc_next pid [n1] s) as (n2 & E2 & ? & ? & N2 & F2 & M2 & W2); [cbn in *; lia|done|].
  destruct (alloc_next pid [n1; n2] s) as (n3 & E3 & ? & ? & N3 & F3 & M3 & W3); [cbn in *; lia|done|].
  destruct (alloc_next pid [n1; n2; n3] s) as (n4 & E4 & ? & ? & N4 & F4 & M4 & W4); [cbn in *; lia|done|].
  destruct (alloc_next pid [n1; n2; n3; n4] s) as (n5 & E5 & ? & ? & N5 & F5 & M5 & W5); [cbn in *; lia|done|].
  exists n1, n2, n3, n4, n5. split_and!; try done.
  - clear -N2 N3 N4 N5. repeat (apply NoDup_cons; split; [set_solver|]). apply NoDup_nil_2.
  - rewrite !Forall_cons. split_and!; try done; try lia.
  - cbn in *. lia.
  - intros Hlow. cbn in *. rewrite !Forall_cons. split_and!; try done; [apply W1|apply W2|apply W3|apply W4|apply W5]; lia.
Qed.

(** ** Five cleared and linked pages are a page table *)

Definition linked (m : gmap Z Z) (sh : pt_shape) : gmap Z Z :=
  store 8 (store 8 (store 8 (store 8 m (L1 sh) (Z.lor (L2 sh) PTE_PWU))
    (L2 sh) (Z.lor (L3 sh) PTE_PWU)) (L3 sh) (Z.lor (L4_1 sh) PTE_PWU))
    (L3 sh + 8) (Z.lor (L4_2 sh) PTE_PWU).

Lemma link_entry p : table_page p → u64 (Z.lor p PTE_PWU) = p + 7.
Proof.
  intros (?&?&?). change PTE_PWU with 7. rewrite lor_page by (done || lia). apply u64_small. zlia.
Qed.

Lemma link_of_entry m a p : table_page p → load 8 m a = p + 7 → link m a p.
Proof.
  intros (?&?&?) E. unfold link. rewrite E. split.
  - apply PTE_ADDR_entry; [zlia|done|lia].
  - rewrite <- lor_page by (done || lia). apply Z.bits_inj'. intros i Hi.
    rewrite Z.land_spec, Z.lor_spec. change PTE_PWU with 7.
    destruct (Z.testbit 7 i); [by rewrite orb_true_r|by rewrite andb_false_r].
Qed.

Section linked.
Context (m : gmap Z Z) (sh : pt_shape).
Context (Hpages : Forall table_page (pt_pages sh)) (Hnd : NoDup (pt_pages sh)).
Context (Hzero : ∀ a, in_table sh a → load8 m a = 0).

Lemma linked_load p i :
  p ∈ pt_pages sh → 0 ≤ i < 512 →
  load 8 (linked m sh) (p + 8 * i)
  = if decide (L3 sh = p ∧ 1 = i) then L4_2 sh + 7
    else if decide (L3 sh = p ∧ 0 = i) then L4_1 sh + 7
    else if decide (L2 sh = p ∧ 0 = i) then L3 sh + 7
    else if decide (L1 sh = p ∧ 0 = i) then L2 sh + 7
    else 0.
Proof.
  intros Hp Hi.
  assert (∀ q, q ∈ pt_pages sh → table_page q) as Ht by (by apply Forall_forall).
  assert (∀ q k, q ∈ pt_pages sh → (q + 8 * k) mod 8 = 0) as Ha8.
  { intros q k Hq. destruct (Ht q Hq) as (?&?&?). pose proof (Z.div_mod q 4096).
    replace (q + 8 * k) with ((q / 4096 * 512 + k) * 8) by lia. apply Z.mod_mul. lia. }
  destruct (in_pages sh) as (M1&M2&M3&M4&M5).
  assert (∀ q k, q ∈ pt_pages sh → 0 ≤ k < 512 → q + 8 * k = p + 8 * i ↔ q = p ∧ k = i) as Hinj.
  { intros q k Hq Hk. destruct (Ht q Hq) as (?&?&?), (Ht p Hp) as (?&?&?).
    pose proof (Z.div_mod q 4096). pose proof (Z.div_mod p 4096). lia. }
  assert (load 8 m (p + 8 * i) = 0) as Hz.
  { apply load_zero. intros b Hb. apply Hzero. exists p. unfold in_page. split; [done|lia]. }
  pose proof (Ha8 p i Hp) as Hb8.
  pose proof (Ha8 _ 0 M1) as A1. pose proof (Ha8 _ 0 M2) as A2.
  pose proof (Ha8 _ 0 M3) as A3. pose proof (Ha8 _ 1 M3) as A4.
  change (8 * 0) with 0 in A1, A2, A3. rewrite Z.add_0_r in A1, A2, A3. change (8 * 1) with 8 in A4.
  unfold linked. rewrite !load_store_aligned by done. rewrite !link_entry by (by apply Ht). rewrite Hz.
  pose proof (Hinj _ 0 M1 ltac:(lia)) as I1. pose proof (Hinj _ 0 M2 ltac:(lia)) as I2.
  pose proof (Hinj _ 0 M3 ltac:(lia)) as I3. pose proof (Hinj _ 1 M3 ltac:(lia)) as I4.
  change (8 * 0) with 0 in I1, I2, I3. rewrite Z.add_0_r in I1, I2, I3. change (8 * 1) with 8 in I4.
  by rewrite (decide_ext _ _ _ _ I1), (decide_ext _ _ _ _ I2),
    (decide_ext _ _ _ _ I3), (decide_ext _ _ _ _ I4).
Qed.

Lemma linked_distinct :
  L1 sh ≠ L2 sh ∧ L1 sh ≠ L3 sh ∧ L2 sh ≠ L3 sh ∧
  ∀ i, l4_of sh i ≠ L1 sh ∧ l4_of sh i ≠ L2 sh ∧ l4_of sh i ≠ L3 sh.
Proof.
  unfold pt_pages in Hnd. clear -Hnd. rewrite !NoDup_cons, !not_elem_of_cons in Hnd.
  destruct_and!. split_and!; [done..|]. intros i. unfold l4_of. destruct (i =? 0); split_and!; congruence.
Qed.

Lemma linked_shape : shape_ok (linked m sh) sh.
Proof.
  destruct linked_distinct as (D1&D2&D3&_).
  destruct (in_pages sh) as (M1&M2&M3&M4&M5).
  assert (∀ q, q ∈ pt_pages sh → table_page q) as Ht by (by apply Forall_forall).
  pose proof (linked_load (L1 sh) 0 M1 ltac:(lia)) as E1.
  pose proof (linked_load (L2 sh) 0 M2 ltac:(lia)) as E2.
  pose proof (linked_load (L3 sh) 0 M3 ltac:(lia)) as E3.
  pose proof (linked_load (L3 sh) 1 M3 ltac:(lia)) as E4.
  change (8 * 0) with 0 in E1, E2, E3. rewrite Z.add_0_r in E1, E2, E3. change (8 * 1) with 8 in E4.
  assert (∀ lo n p, p ∈ [L1 sh; L2 sh; L3 sh] → 0 ≤ lo → lo + n ≤ 512 → 0 < lo →
    (p = L3 sh → 1 < lo) → Forall (λ i, load 8 (linked m sh) (p + 8 * i) = 0) (seqZ lo n)) as Hr.
  { intros lo n p Hp ? ? ? Hlo. apply Forall_forall. intros i Hi. apply elem_of_seqZ in Hi.
    rewrite linked_load; [| |lia]; cycle 1.
    { rewrite !elem_of_cons in Hp. destruct Hp as [->|[->|[->|[]%elem_of_nil]]]; done. }
    do 4 (rewrite decide_False by (intros [<- ?]; (lia || (specialize (Hlo ltac:(done)); lia)))). done. }
  split; try done.
  - apply link_of_entry; [by apply Ht|].
    rewrite E1. do 3 (rewrite decide_False by (intros [? ?]; congruence)). by rewrite decide_True.
  - apply link_of_entry; [by apply Ht|].
    rewrite E2. do 2 (rewrite decide_False by (intros [? ?]; congruence)). by rewrite decide_True.
  - apply link_of_entry; [by apply Ht|].
    rewrite E3. rewrite decide_False by (intros [? ?]; congruence). by rewrite decide_True.
  - apply link_of_entry; [by apply Ht|].
    rewrite E4. by rewrite decide_True.
  - apply Hr; try lia. rewrite !elem_of_cons. tauto.
  - apply Hr; try lia. rewrite !elem_of_cons. tauto.
  - apply Hr; try lia. rewrite !elem_of_cons. tauto.
Qed.

Lemma linked_leaf w : 0 ≤ w < 1024 → leaf (linked m sh) sh w = 0.
Proof.
  intros Hw. destruct linked_distinct as (_&_&_&D). destruct (D (w / 512)) as (?&?&?).
  unfold leaf, leaf_addr. rewrite linked_load.
  - do 4 (rewrite decide_False by (intros [? ?]; congruence)). done.
  - apply l4_in_pages.
  - apply Z.mod_pos_bound. lia.
Qed.

Lemma linked_agree : agree (λ a, ¬ in_table sh a) m (linked m sh).
Proof.
  intros a Ha. unfold linked.
  assert (∀ p k v m', p ∈ pt_pages sh → 0 ≤ k < 512 →
            load8 (store 8 m' (p + 8 * k) v) a = load8 m' a) as Hs.
  { intros p k v m' Hp Hk. apply load8_store_out.
    destruct (decide (p ≤ a < p + 4096)) as [Hin|]; [|lia]. exfalso. apply Ha. by exists p. }
  destruct (in_pages sh) as (M1&M2&M3&M4&M5).
  rewrite (Hs (L3 sh) 1) by (done || lia).
  pose proof (λ p v m' Hp, Hs p 0 v m' Hp ltac:(lia)) as Hs0. cbn beta in Hs0.
  change (8 * 0) with 0 in Hs0. setoid_rewrite Z.add_0_r in Hs0.
  by rewrite !Hs0.
Qed.
End linked.

(** ** Copying an entry from one table to another *)

(** The entry reported by a lookup, mapped again, is the same entry; one that is
    not present becomes 0. *)
Lemma copy_entry e va :
  0 ≤ e < 2 ^ 64 → va mod 4096 = 0 →
  new_entry (pa (vamapping_of e va)) (perm (vamapping_of e va)) = if present e then e else 0.
Proof.
  intros He Hva. unfold vamapping_of, present. destruct (has e PTE_P) eqn:HP; [|done].
  cbn [pa perm]. unfold new_entry. rewrite has_flags by done. rewrite HP, PAGEOFFSET_mod, Hva.
  pose proof (PTE_ADDR_range e He). rewrite Z.add_0_r, u64_small by lia. by apply PTE_split.
Qed.

Lemma copy_args e va :
  0 ≤ e < 2 ^ 64 → 0 ≤ va → va mod 4096 = 0 → (present e = true → 0 ≤ frame e < 512) →
  map_args va (pa (vamapping_of e va)) 4096 (perm (vamapping_of e va)).
Proof.
  intros He H0 Hva Hf. unfold vamapping_of, present in *. destruct (has e PTE_P) eqn:HP.
  - cbn [pa perm]. rewrite PAGEOFFSET_mod, Hva.
    pose proof (PTE_ADDR_range e He). rewrite Z.add_0_r, u64_small by lia.
    pose proof (PTE_ADDR_aligned e He) as Hal. pose proof (PTE_FLAGS_range e).
    specialize (Hf eq_refl). unfold frame in Hf. pose proof (Z.div_mod (PTE_ADDR e) 4096).
    split_and!; try done; lia.
  - cbn. split_and!; try done; lia.
Qed.

Lemma kmem_set m s : kmem (set_kmem m s) = m.
Proof. done. Qed.

Lemma set_kmem_twice m m' s : set_kmem m (set_kmem m' s) = set_kmem m s.
Proof. done. Qed.

Lemma kmem_takes l pid s : kmem (takes l pid s) = kmem s.
Proof. revert s. induction l as [|n l IH]; intros s; [done|]. exact (IH (take_page n pid s)). Qed.

Lemma on_memset p n s :
  0 ≤ p → 0 ≤ n → p + n ≤ 0x200000 →
  on_machine (memset p 0 n) s = Ok p (set_kmem (fill (Z.to_nat n) (kmem s) p 0) s).
Proof. intros. apply on_machine_ok. by apply memset_ok. Qed.

Lemma on_memcpy d p n s :
  0 ≤ n → 0 ≤ d → d + n ≤ 0x200000 → 0 ≤ p → p + n ≤ 0x200000 →
  on_machine (memcpy d p n) s = Ok d (set_kmem (copy (Z.to_nat n) (kmem s) d p) s).
Proof. intros. apply on_machine_ok. by apply memcpy_ok. Qed.

Lemma on_write p v s :
  0 ≤ p → p + 8 ≤ 0x200000 →
  on_machine (write 8 p v) s = Ok () (set_kmem (store 8 (kmem s) p v) s).
Proof. intros. apply on_machine_ok. by apply write_ok. Qed.

(** ** duplicate_pagetable *)

(** [d] is a new table on the pages [l] with the entries below
    [PROC_START_ADDR] of the table [sh] in [m], and nothing else. *)
Record duplicated (m m' : gmap Z Z) (sh d : pt_shape) : Prop := {
  dup_shape : shape_ok m' d;
  dup_leaf : ∀ w, 0 ≤ w < 1024 → leaf m' d w = if decide (w < 256) then
      (if present (leaf m sh w) then leaf m sh w else 0) else 0;
  dup_agree : agree (λ a, ¬ in_table d a) m m' }.

Definition shape_of (n1 n2 n3 n4 n5 : Z) : pt_shape :=
  MkShape (n1 * 4096) (n2 * 4096) (n3 * 4096) (n4 * 4096) (n5 * 4096).

Section duplicate.
Context `{Devices}.

(** The loop over the pages below [PROC_START_ADDR]. *)
Lemma duplicate_loop sh d s m0 :
  shape_ok m0 sh → (∀ w, 0 ≤ w < 256 → present (leaf m0 sh w) = true → 0 ≤ frame (leaf m0 sh w) < 512) →
  (∀ a, in_table sh a → ¬ in_table d a) →
  shape_ok (kmem s) d → (∀ w, 0 ≤ w < 1024 → leaf (kmem s) d w = 0) →
  agree (λ a, ¬ in_table d a) m0 (kmem s) →
  ∃ m', for_loop (Z.to_nat (PROC_START_ADDR / PAGESIZE)) 0 PAGESIZE (duplicate_body (L1 d) (L1 sh)) s
        = Ok () (set_kmem m' s) ∧ duplicated m0 m' sh d.
Proof.
  intros Hsh Hfr Hdis Hd Hz Hag.
  change (Z.to_nat (PROC_START_ADDR / PAGESIZE)) with 256%nat. change PAGESIZE with 4096.
  pose (I := λ v st, ∃ m, st = set_kmem m s ∧ shape_ok m d ∧ agree (λ a, ¬ in_table d a) m0 m ∧
    ∀ w, 0 ≤ w < 1024 → leaf m d w = if decide (w < v / 4096) then
      (if present (leaf m0 sh w) then leaf m0 sh w else 0) else 0).
  assert (runs (for_loop 256 0 4096 (duplicate_body (L1 d) (L1 sh))) s
            (λ _ s', I (0 + Z.of_nat 256 * 4096) s')) as Hr.
  { apply (runs_for I).
    - exists (kmem s). split_and!; try done.
      { unfold set_kmem, kmem. rewrite set_mem_id. by destruct s. }
      intros w Hw. change (0 / 4096) with 0. rewrite decide_False by lia. by apply Hz.
    - intros k st Hk (m & -> & Hm & Ha & Hl). rewrite Z.add_0_l in *.
      rewrite Z.div_mul in Hl by lia.
      set (va := Z.of_nat k * 4096) in *.
      assert (va / 4096 = Z.of_nat k) as Hv by (by apply Z.div_mul).
      assert (va mod 4096 = 0) as Hal by (by apply Z.mod_mul).
      destruct (table_agree m0 m sh Hsh) as [Hsh' Hl'].
      { eapply agree_weaken; [|exact Ha]. intros a Ht. by apply Hdis. }
      unfold duplicate_body. eapply runs_iff.
      pose proof (leaf_range m0 sh (Z.of_nat k)) as Her. set (e := leaf m0 sh (Z.of_nat k)) in *.
      erewrite bind_ok; [|apply on_machine_pure, lookup_leaf; [exact Hsh'|unfold va; lia]].
      rewrite Hv. cbn [kmem mach set_kmem set_mach mem set_mem]. rewrite Hl' by lia. fold e.
      destruct (map_ok (mach (set_kmem m s)) d va (pa (vamapping_of e va)) 4096 (perm (vamapping_of e va)))
        as (m' & Em & [S L A]); [done|apply copy_args; try done; unfold va; [lia|apply Hfr; lia]|unfold va; lia|].
      erewrite bind_ok; [|apply on_machine_ok; exact Em].
      eexists _, _. split; [done|]. exists m'. split; [done|]. split; [done|]. split.
      + transitivity m; [done|]. eapply agree_weaken; [|exact A].
        intros a Hna Hl4. apply Hna. destruct (in_pages d) as (_&_&_&?&?).
        destruct Hl4; eexists; (split; [|done]); done.
      + intros w Hw. replace (va + 4096) with ((Z.of_nat k + 1) * 4096) by (unfold va; lia).
        rewrite Z.div_mul by lia. rewrite L, Hv by done. change (4096 / 4096) with 1.
        cbn [kmem mach set_kmem set_mach mem set_mem].
        destruct (decide (w = Z.of_nat k)) as [->|].
        * rewrite !decide_True by lia. rewrite Z.sub_diag, Z.mul_0_l, Z.add_0_r.
          by apply copy_entry.
        * rewrite decide_False by lia. rewrite Hl by done.
          destruct (decide (w < Z.of_nat k)); [by rewrite decide_True by lia|by rewrite decide_False by lia]. }
  apply runs_iff in Hr as ([] & st & E & (m & -> & Hm & Ha & Hl)). exists m. split; [done|].
  by split.
Qed.

Lemma table_frames_of n1 n2 n3 n4 n5 :
  table_frames (shape_of n1 n2 n3 n4 n5) = [n1; n2; n3; n4; n5].
Proof. unfold table_frames, shape_of, pt_pages. cbn. by rewrite !Z.div_mul. Qed.

Lemma pages_of n1 n2 n3 n4 n5 :
  NoDup [n1; n2; n3; n4; n5] → Forall (λ n, 1 ≤ n < 512) [n1; n2; n3; n4; n5] →
  Forall table_page (pt_pages (shape_of n1 n2 n3 n4 n5)) ∧ NoDup (pt_pages (shape_of n1 n2 n3 n4 n5)).
Proof.
  intros Hnd HF. change (pt_pages _) with ((λ n, n * 4096) <$> [n1; n2; n3; n4; n5]). split.
  - apply Forall_fmap. eapply Forall_impl; [exact HF|]. intros n Hn. cbv beta in Hn. change (table_page (n * 4096)). unfold table_page.
    rewrite Z.mod_mul by lia. zlia.
  - apply NoDup_fmap_2_strong; [|done]. intros x y _ _ E. cbv beta in E. lia.
Qed.

(** The five [memset]s. *)
Definition cleared (m : gmap Z Z) (d : pt_shape) : gmap Z Z :=
  foldl (λ m p, fill (Z.to_nat PAGESIZE) m p 0) m (pt_pages d).

Lemma cleared_load m d a :
  Forall table_page (pt_pages d) →
  load8 (cleared m d) a = if decide (a / 4096 ∈ table_frames d) then 0 else load8 m a.
Proof.
  intros HF. unfold cleared, table_frames. revert m.
  induction HF as [|p l (?&Hal&?) _ IH]; intros m; cbn [foldl fmap list_fmap].
  - by rewrite decide_False by apply not_elem_of_nil.
  - rewrite IH, load8_fill, Z2Nat.id by done. change PAGESIZE with 4096. change (0 mod 256) with 0.
    assert (a / 4096 = p / 4096 ↔ p ≤ a < p + 4096) as Hp.
    { pose proof (Z.div_mod p 4096). pose proof (Z.div_mod a 4096).
      pose proof (Z.mod_pos_bound a 4096). lia. }
    destruct (decide (a / 4096 ∈ _)) as [Hin|Hin].
    + by rewrite decide_True by (apply elem_of_cons; by right).
    + destruct (decide (p ≤ a < p + 4096)).
      * rewrite decide_True; [done|]. apply elem_of_cons. left. by apply Hp.
      * rewrite decide_False; [done|]. rewrite elem_of_cons, Hp. tauto.
Qed.

#[local] Opaque fill.

(** The straight-line part: allocate, clear, link. *)
Lemma duplicate_run d pagetable pid s s1 s2 s3 s4 s5 s6 :
  Forall table_page (pt_pages d) →
  alloc_page_process pid s = Ok (L1 d) s1 → alloc_page_process pid s1 = Ok (L2 d) s2 →
  alloc_page_process pid s2 = Ok (L3 d) s3 → alloc_page_process pid s3 = Ok (L4_1 d) s4 →
  alloc_page_process pid s4 = Ok (L4_2 d) s5 →
  for_loop (Z.to_nat (PROC_START_ADDR / PAGESIZE)) 0 PAGESIZE (duplicate_body (L1 d) pagetable)
    (set_kmem (linked (cleared (kmem s5) d) d) s5) = Ok () s6 →
  duplicate_pagetable pagetable pid s = Ok (L1 d) s6.
Proof.
  intros Hpg E1 E2 E3 E4 E5 E6. unfold duplicate_pagetable.
  rewrite Forall_forall in Hpg. destruct (in_pages d) as (M1&M2&M3&M4&M5).
  pose proof (Hpg _ M1) as (?&_&?). pose proof (Hpg _ M2) as (?&_&?). pose proof (Hpg _ M3) as (?&_&?).
  pose proof (Hpg _ M4) as (?&_&?). pose proof (Hpg _ M5) as (?&_&?).
  change MEMSIZE_PHYSICAL with 0x200000 in *.
  rewrite (bind_ok _ _ _ _ _ E1), (bind_ok _ _ _ _ _ E2), (bind_ok _ _ _ _ _ E3),
    (bind_ok _ _ _ _ _ E4), (bind_ok _ _ _ _ _ E5).
  do 5 (erewrite bind_ok by (apply on_memset; zlia); rewrite ?kmem_set, ?set_kmem_twice).
  assert (∀ p, 0 < p → istrue p = true) as Hp by (intros p ?; unfold istrue; by destruct (Z.eqb_spec p 0); [lia|]).
  rewrite !Hp by lia. cbn [andb].
  do 4 (erewrite bind_ok by (apply on_write; lia); rewrite ?kmem_set, ?set_kmem_twice).
  unfold linked, cleared, pt_pages in E6. cbn [foldl] in E6.
  by rewrite (bind_ok _ _ _ _ _ E6).
Qed.

Lemma duplicate_ok sh pid s :
  shape_ok (kmem s) sh →
  (∀ w, 0 ≤ w < 256 → present (leaf (kmem s) sh w) = true → 0 ≤ frame (leaf (kmem s) sh w) < 512) →
  (∀ f, f ∈ table_frames sh → refcount (pinfo s f) ≠ 0) → 5 ≤ nfree s → - 128 ≤ pid < 128 →
  ∃ d m', duplicate_pagetable (L1 sh) pid s = Ok (L1 d) (set_kmem m' (takes (table_frames d) pid s)) ∧
    duplicated (kmem s) m' sh d ∧ NoDup (table_frames d) ∧
    Forall (λ n, 1 ≤ n < 512 ∧ refcount (pinfo s n) = 0) (table_frames d) ∧
    nfree (takes (table_frames d) pid s) = nfree s - 5 ∧
    (5 ≤ nlow s → Forall (λ n, n < 256) (table_frames d)).
Proof.
  intros Hsh Hfr Hused Hn Hpid.
  destruct (alloc_five pid s Hn Hpid) as (n1&n2&n3&n4&n5&E1&E2&E3&E4&E5&Hnd&HF&Hnf&Hlow).
  pose (d := shape_of n1 n2 n3 n4 n5). exists d.
  destruct (pages_of n1 n2 n3 n4 n5) as [Hpg Hpn]; [done|eapply Forall_impl; [done|tauto]|].
  pose proof (table_frames_of n1 n2 n3 n4 n5) as Htf. fold d in Hpg, Hpn, Htf. rewrite Htf in *.
  set (s5 := takes [n1; n2; n3; n4; n5] pid s) in *.
  pose (m5 := cleared (kmem s) d).
  assert (∀ a, in_table d a → load8 m5 a = 0) as Hz.
  { intros a Ha. unfold m5. rewrite cleared_load by done. by rewrite decide_True by (by apply in_table_frames). }
  assert (agree (λ a, ¬ in_table d a) (kmem s) m5) as Hag.
  { intros a Ha. unfold m5. rewrite cleared_load by done.
    by rewrite decide_False by (intros ?; by apply Ha, frames_in_table). }
  assert (∀ a, in_table sh a → ¬ in_table d a) as Hdis.
  { intros a Ha Hda. apply in_table_frames in Ha; [|apply Hsh]. apply in_table_frames in Hda; [|exact Hpg].
    rewrite Htf in Hda. rewrite Forall_forall in HF. by apply (Hused _ Ha), HF. }
  assert (agree (λ a, ¬ in_table d a) (kmem s) (linked m5 d)) as Hag'.
  { transitivity m5; [exact Hag|]. by apply linked_agree. }
  destruct (duplicate_loop sh d (set_kmem (linked m5 d) s5) (kmem s) Hsh Hfr Hdis
    (linked_shape m5 d Hpg Hpn Hz) (linked_leaf m5 d Hpg Hpn Hz) Hag') as (m' & El & Hd).
  exists m'. split; [|by split_and!].
  eapply (duplicate_run d); [exact Hpg|exact E1|exact E2|exact E3|exact E4|exact E5|].
  unfold s5. rewrite kmem_takes. exact El.
Qed.
End duplicate.
