(* ===== verification/Fork.v ===== *)
(** The fork handler of [src/kernel.c]: what the child gets, page by page. *)
From S2P Require Import Prelude X86 Machine CLib Printf Hardware PageTable Frames Syscalls Isolation Duplicate.
Open Scope Z_scope.

(** 1 when [b] holds of the frame [f], to count occurrences. *)
Definition hit (b : bool) (f g : Z) : Z := if b then (if decide (f = g) then 1 else 0) else 0.

Lemma occ_hit (b : bool) f g : occ g (if b then [f] else []) = hit b f g.
Proof. unfold hit. destruct b; cbn; lia. Qed.

Lemma hit_range b f g : 0 ≤ hit b f g ≤ 1.
Proof. unfold hit. destruct b; [case_decide|]; lia. Qed.

Section fork_loop.
Context `{Devices} (s1 : kstate) (sh d : pt_shape) (c : Z).

Abbreviation used f := (refcount (pinfo s1 f) ≠ 0).
Abbreviation parent w := (leaf (kmem s1) sh w).

(** The state when the loop starts: the child [c] has the table [d], which
    is empty from [PROC_START_ADDR] on; the frames of the parent are in use;
    there is room for the copies and for the reference counts. *)
Record fork_ready : Prop := {
  fr_pid : 1 ≤ c < 16;
  fr_table : p_pagetable (current_proc s1) = L1 sh;
  fr_child : p_pagetable (process s1 c) = L1 d;
  fr_shape : shape_ok (kmem s1) sh;
  fr_shape_d : shape_ok (kmem s1) d;
  fr_empty : ∀ w, 256 ≤ w < 1024 → leaf (kmem s1) d w = 0;
  fr_used : ∀ f, f ∈ table_frames sh ++ table_frames d → used f;
  fr_disjoint : ∀ a, in_table sh a → ¬ in_table d a;
  fr_frames : ∀ w, 256 ≤ w < 768 → present (parent w) = true →
    1 ≤ frame (parent w) < 512 ∧ used (frame (parent w)) ∧ frame (parent w) ∉ table_frames d;
  fr_console : ∀ w, 256 ≤ w < 768 → writable (parent w) = true →
    frame (parent w) ≠ CONSOLE_ADDR / 4096;
  fr_counts : ∀ f, 0 ≤ f < 512 → 0 ≤ refcount (pinfo s1 f) ∧
    refcount (pinfo s1 f) + occ f (frames_where shared (kmem s1) sh 256 512) ≤ 127;
  fr_room : Z.of_nat (length (frames_where writable (kmem s1) sh 256 512)) ≤ nfree s1 }.

(** The child's entry for a parent's entry [e]: a private copy of a writable
    page, with the same permissions; any other page shared. *)
Definition fork_entry (st : kstate) (e e' : Z) : Prop :=
  if writable e then
    1 ≤ frame e' < 512 ∧ e' = frame e' * 4096 + PTE_FLAGS e ∧
    refcount (pinfo s1 (frame e')) = 0 ∧ pinfo st (frame e') = MkInfo c 1 ∧
    ∀ i, 0 ≤ i < 4096 →
      load8 (kmem st) (frame e' * 4096 + i) = load8 (kmem s1) (frame e * 4096 + i)
  else e' = if present e then e else 0.

(** The loop has done the pages below [V]. *)
Record fork_inv (V : Z) (st : kstate) : Prop := {
  fi_state : st = set_pageinfo (pageinfo st) (set_kmem (kmem st) s1);
  fi_shape : shape_ok (kmem st) d;
  fi_low : ∀ w, 0 ≤ w < 256 → leaf (kmem st) d w = leaf (kmem s1) d w;
  fi_entry : ∀ w, 256 ≤ w < V → fork_entry st (parent w) (leaf (kmem st) d w);
  fi_high : ∀ w, V ≤ w < 1024 → leaf (kmem st) d w = 0;
  fi_count : ∀ f, 0 ≤ f < 512 → refcount (pinfo st f) =
    refcount (pinfo s1 f) + occ f (frames_where present (kmem st) d 256 (V - 256));
  fi_shared : ∀ f, 0 ≤ f < 512 → used f →
    occ f (frames_where present (kmem st) d 256 (V - 256)) =
    occ f (frames_where shared (kmem s1) sh 256 (V - 256));
  fi_owner : ∀ f, 0 ≤ f < 512 → refcount (pinfo st f) ≠ 0 →
    owner (pinfo st f) = if decide (used f) then owner (pinfo s1 f) else c;
  fi_unused : ∀ f, 0 ≤ f < 512 → refcount (pinfo st f) = 0 → pinfo st f = pinfo s1 f;
  fi_mem : agree (λ a, 0 ≤ a / 4096 < 512 ∧ used (a / 4096) ∧ ¬ in_l4 d a) (kmem s1) (kmem st);
  fi_free : nfree st = nfree s1 - Z.of_nat (length (frames_where writable (kmem s1) sh 256 (V - 256))) }.

(** One page: the child's entry [V] becomes [e']. *)
Record fork_step (V : Z) (st st' : kstate) (e' : Z) : Prop := {
  fs_state : st' = set_pageinfo (pageinfo st') (set_kmem (kmem st') st);
  fs_shape : shape_ok (kmem st') d;
  fs_leaf : ∀ w, 0 ≤ w < 1024 →
    leaf (kmem st') d w = if decide (w = V) then e' else leaf (kmem st) d w;
  fs_entry : fork_entry st' (parent V) e';
  fs_count : ∀ f, 0 ≤ f < 512 →
    refcount (pinfo st' f) = refcount (pinfo st f) + hit (present e') (frame e') f;
  fs_owner : ∀ f, 0 ≤ f < 512 → owner (pinfo st' f) =
    if decide (refcount (pinfo st f) = 0 ∧ hit (present e') (frame e') f = 1) then c else owner (pinfo st f);
  fs_fresh : present e' = true →
    1 ≤ frame e' < 512 ∧ (refcount (pinfo st (frame e')) = 0 ∨ used (frame e'));
  fs_shared : ∀ f, 0 ≤ f < 512 → used f →
    hit (present e') (frame e') f = hit (shared (parent V)) (frame (parent V)) f;
  fs_mem : agree (λ a, 0 ≤ a / 4096 < 512 ∧ refcount (pinfo st (a / 4096)) ≠ 0 ∧ ¬ in_l4 d a)
    (kmem st) (kmem st');
  fs_free : nfree st' = nfree st - (if writable (parent V) then 1 else 0) }.

Hypothesis Hready : fork_ready.

Lemma count_mono V st f :
  fork_inv V st → 0 ≤ f < 512 → 0 ≤ refcount (pinfo s1 f) ≤ refcount (pinfo st f).
Proof.
  intros Hi Hf. rewrite (fi_count _ _ Hi) by done. pose proof (fr_counts Hready f Hf).
  pose proof (occ_nonneg f (frames_where present (kmem st) d 256 (V - 256))). lia.
Qed.

Lemma table_page_l4 f i :
  f ∉ table_frames d → 0 ≤ i < 4096 → ¬ in_l4 d (f * 4096 + i).
Proof.
  intros Hf Hi Hin. apply Hf. destruct (in_pages d) as (_&_&_&M4&M5).
  assert ((f * 4096 + i) / 4096 = f) as <-.
  { rewrite Z.add_comm, Z.div_add, Z.div_small by lia. done. }
  apply in_table_frames; [apply (shape_pages _ _ (fr_shape_d Hready))|].
  destruct Hin; eexists; (split; [|done]); done.
Qed.

Lemma page_div f i : 0 ≤ i < 4096 → (f * 4096 + i) / 4096 = f.
Proof. intros. rewrite Z.add_comm, Z.div_add, Z.div_small by lia. done. Qed.

Lemma info_eq (x y : physical_pageinfo) : owner x = owner y → refcount x = refcount y → x = y.
Proof. destruct x, y; cbn. by intros -> ->. Qed.

(** A copied page stays the child's, with its contents. *)
Lemma entry_step V st st' e' w :
  fork_inv V st → fork_step V st st' e' → 256 ≤ w < V → V < 768 →
  fork_entry st (parent w) (leaf (kmem st) d w) → fork_entry st' (parent w) (leaf (kmem st) d w).
Proof.
  intros Hi Hs Hw HV. unfold fork_entry. destruct (writable (parent w)); [|done].
  set (x := leaf (kmem st) d w). intros (Hf & Hx & Hr & Hp & Hc).
  assert (hit (present e') (frame e') (frame x) = 0) as Hh.
  { unfold hit. destruct (present e') eqn:HP; [|done]. case_decide as E; [|done]. exfalso.
    destruct (fs_fresh _ _ _ _ Hs HP) as [_ [K|K]]; rewrite E in K; [|done].
    by rewrite Hp in K. }
  do 3 (split; [done|]). split.
  - apply info_eq.
    + rewrite (fs_owner _ _ _ _ Hs) by lia. rewrite Hp, Hh. by rewrite decide_False by (intros [??]; done).
    + rewrite (fs_count _ _ _ _ Hs) by lia. by rewrite Hp, Hh.
  - intros i Hi'. rewrite <- Hc by done. symmetry. apply (fs_mem _ _ _ _ Hs).
    rewrite page_div by done. split; [lia|]. rewrite Hp. split; [done|].
    apply table_page_l4; [|done]. intros Hin. by apply (fr_used Hready (frame x)); [apply elem_of_app; right|].
Qed.

Lemma inv_step V st st' e' :
  256 ≤ V < 768 → fork_inv V st → fork_step V st st' e' → fork_inv (V + 1) st'.
Proof.
  intros HV Hi Hs.
  assert (∀ w, 0 ≤ w < 1024 → w ≠ V → leaf (kmem st') d w = leaf (kmem st) d w) as Hl.
  { intros w Hw Hne. rewrite (fs_leaf _ _ _ _ Hs) by done. by rewrite decide_False. }
  assert (leaf (kmem st') d V = e') as HlV.
  { rewrite (fs_leaf _ _ _ _ Hs) by lia. by rewrite decide_True. }
  assert (V + 1 - 256 = V - 256 + 1) as EV by lia. assert (256 + (V - 256) = V) as EV' by lia.
  assert (∀ f, occ f (frames_where present (kmem st') d 256 (V + 1 - 256)) =
    occ f (frames_where present (kmem st) d 256 (V - 256)) + hit (present e') (frame e') f) as Hocc.
  { intros f. rewrite EV, frames_where_snoc by lia. rewrite EV', HlV, occ_app, occ_hit. f_equal.
    f_equal. apply frames_where_ext. intros w Hw. apply Hl; lia. }
  assert (∀ f, refcount (pinfo st' f) = 0 → 0 ≤ f < 512 →
    refcount (pinfo st f) = 0 ∧ hit (present e') (frame e') f = 0) as Hzero.
  { intros f Hz Hf. rewrite (fs_count _ _ _ _ Hs) in Hz by done. pose proof (count_mono V st f Hi Hf).
    pose proof (hit_range (present e') (frame e') f). lia. }
  split.
  - rewrite (fs_state _ _ _ _ Hs). rewrite (fi_state _ _ Hi). done.
  - apply Hs.
  - intros w Hw. rewrite Hl by lia. by apply Hi.
  - intros w Hw. destruct (decide (w = V)) as [->|].
    + rewrite HlV. apply Hs.
    + rewrite Hl by lia. eapply entry_step; [done|done|lia|lia|]. apply Hi. lia.
  - intros w Hw. rewrite Hl by lia. apply Hi. lia.
  - intros f Hf. rewrite (fs_count _ _ _ _ Hs), (fi_count _ _ Hi), Hocc by done. lia.
  - intros f Hf Hu. rewrite Hocc, (fi_shared _ _ Hi), (fs_shared _ _ _ _ Hs) by done.
    by rewrite EV, frames_where_snoc, occ_app, occ_hit, EV' by lia.
  - intros f Hf Hr. rewrite (fs_owner _ _ _ _ Hs) by done. case_decide as E.
    + destruct E as [E _]. pose proof (count_mono V st f Hi Hf). by rewrite decide_False by lia.
    + apply Hi; [done|]. intros Hz. apply E. split; [done|].
      rewrite (fs_count _ _ _ _ Hs) in Hr by done. pose proof (hit_range (present e') (frame e') f). lia.
  - intros f Hf Hz. destruct (Hzero f Hz Hf) as [Hz1 Hh].
    rewrite <- (fi_unused _ _ Hi) by done. apply info_eq.
    + rewrite (fs_owner _ _ _ _ Hs) by done. rewrite Hh. by rewrite decide_False by (intros [??]; done).
    + by rewrite Hz, Hz1.
  - transitivity (kmem st); [apply Hi|]. eapply agree_weaken; [|apply Hs].
    intros a (Ha&Hu&Hn). split; [done|]. split; [|done]. pose proof (count_mono V st _ Hi Ha). lia.
  - rewrite (fs_free _ _ _ _ Hs), (fi_free _ _ Hi). rewrite EV, frames_where_snoc, length_app by lia.
    rewrite EV'. destruct (writable _); cbn [length]; lia.
Qed.

(** *** One page *)

#[local] Opaque copy.

Lemma parent_range w : 0 ≤ parent w < 2 ^ 64.
Proof. apply leaf_range. Qed.

Lemma inv_procs V st :
  fork_inv V st → current_proc st = current_proc s1 ∧ process st c = process s1 c.
Proof. intros Hi. rewrite (fi_state _ _ Hi). done. Qed.

(** The parent's table is as it was. *)
Lemma parent_table V st :
  fork_inv V st → shape_ok (kmem st) sh ∧ ∀ w, 0 ≤ w < 1024 → leaf (kmem st) sh w = parent w.
Proof.
  intros Hi. apply table_agree; [apply Hready|]. intros a Ha. apply (fi_mem _ _ Hi).
  pose proof (shape_pages _ _ (fr_shape Hready)) as HF.
  pose proof (in_table_frames _ _ HF Ha) as Hin. split.
  { destruct Ha as (p&Hp&Hpa). rewrite Forall_forall in HF. destruct (HF p Hp) as (?&?&?).
    unfold in_page in Hpa. change MEMSIZE_PHYSICAL with (512 * 4096) in *.
    split; [apply Z.div_pos; lia|apply Z.div_lt_upper_bound; lia]. }
  split; [apply (fr_used Hready), elem_of_app; by left|].
  intros Hl. apply (fr_disjoint Hready a Ha). destruct (in_pages d) as (_&_&_&?&?).
  destruct Hl; eexists; (split; [|done]); done.
Qed.

Lemma fork_lookup V st :
  256 ≤ V < 768 → fork_inv V st →
  on_machine (virtual_memory_lookup (p_pagetable (current_proc st)) (V * 4096)) st
  = Ok (vamapping_of (parent V) (V * 4096)) st.
Proof.
  intros HV Hi. destruct (inv_procs V st Hi) as [-> _]. rewrite (fr_table Hready).
  destruct (parent_table V st Hi) as [Hsh Hl]. apply on_machine_pure.
  rewrite lookup_leaf by (done || lia). rewrite Z.div_mul by lia. fold (kmem st).
  by rewrite Hl by lia.
Qed.

(** The branch taken: copy exactly the writable pages. *)
Lemma fork_condition V :
  256 ≤ V < 768 →
  let map := vamapping_of (parent V) (V * 4096) in
  negb (pa map =? CONSOLE_ADDR) && has (perm map) PTE_W = writable (parent V).
Proof.
  intros HV. unfold vamapping_of, writable. pose proof (parent_range V) as Hr.
  destruct (has (parent V) PTE_P) eqn:HP; cbn [pa perm].
  - rewrite has_flags by done. destruct (has (parent V) PTE_W) eqn:HW; [|by rewrite andb_false_r].
    rewrite PAGEOFFSET_mod, Z.mod_mul, Z.add_0_r by lia.
    pose proof (PTE_ADDR_range (parent V) Hr). rewrite u64_small by lia.
    assert (frame (parent V) ≠ CONSOLE_ADDR / 4096) as Hne.
    { apply (fr_console Hready); [done|]. unfold writable. by rewrite HP, HW. }
    destruct (Z.eqb_spec (PTE_ADDR (parent V)) CONSOLE_ADDR) as [E|]; [|done].
    exfalso. apply Hne. unfold frame. by rewrite E.
  - by rewrite andb_false_r.
Qed.

Lemma d_page_refcount V st f : fork_inv V st → f ∈ table_frames d → 0 ≤ f < 512 → refcount (pinfo st f) ≠ 0.
Proof.
  intros Hi Hin Hf. pose proof (count_mono V st f Hi Hf).
  assert (used f) by (apply (fr_used Hready), elem_of_app; by right). lia.
Qed.

(** Memory changed only on a page outside the child's table. *)
Lemma child_table_kept m m' n :
  shape_ok m d → n ∉ table_frames d → agree (λ a, a / 4096 ≠ n) m m' →
  shape_ok m' d ∧ ∀ w, 0 ≤ w < 1024 → leaf m' d w = leaf m d w.
Proof.
  intros Hm Hn Ha. apply table_agree; [done|]. intros a Hin. apply Ha. intros <-.
  apply Hn, in_table_frames; [apply Hm|done].
Qed.

Lemma room_left V st :
  256 ≤ V < 768 → fork_inv V st → writable (parent V) = true → 0 < nfree st.
Proof.
  intros HV Hi Hw. rewrite (fi_free _ _ Hi). pose proof (fr_room Hready) as Hroom.
  replace 512 with ((V - 256) + (512 - (V - 256))) in Hroom by lia.
  rewrite frames_where_app, length_app in Hroom by lia.
  replace (256 + (V - 256)) with V in Hroom by lia.
  replace (512 - (V - 256)) with (1 + (767 - V)) in Hroom by lia.
  rewrite frames_where_app, length_app in Hroom by lia.
  change 1 with (0 + 1) in Hroom at 1. rewrite frames_where_snoc, length_app, Z.add_0_r, Hw in Hroom by lia.
  cbn [length] in Hroom. lia.
Qed.

Lemma load_copy_page m n f a :
  0 ≤ n → 0 ≤ f → n ≠ f →
  load8 (copy (Z.to_nat PAGESIZE) m (n * 4096) (f * 4096)) a
  = if decide (a / 4096 = n) then load8 m (f * 4096 + a mod 4096) else load8 m a.
Proof.
  intros Hn Hf Hne. rewrite load8_copy; rewrite Z2Nat.id by done; change PAGESIZE with 4096; [|lia].
  pose proof (Z.div_mod a 4096). pose proof (Z.mod_pos_bound a 4096).
  destruct (decide (a / 4096 = n)).
  - rewrite decide_True by lia. f_equal. lia.
  - by rewrite decide_False by lia.
Qed.

(** The new entry of a copied page. *)
Lemma copied_entry n e :
  1 ≤ n < 512 → 0 ≤ e < 2 ^ 64 → writable e = true →
  new_entry (n * 4096) (PTE_FLAGS e) = n * 4096 + PTE_FLAGS e ∧
  frame (n * 4096 + PTE_FLAGS e) = n ∧ present (n * 4096 + PTE_FLAGS e) = true.
Proof.
  intros Hn He Hw. apply andb_prop in Hw as [HP HW]. pose proof (PTE_FLAGS_range e).
  unfold new_entry, frame, present. rewrite has_flags, HP by done. split; [done|]. split.
  - rewrite PTE_ADDR_entry; [by apply Z.div_mul|lia|by apply Z.mod_mul|done].
  - rewrite <- has_flags by done. rewrite PTE_FLAGS_entry; [by rewrite has_flags|by apply Z.mod_mul|done].
Qed.

Lemma page_args V n f :
  0 ≤ V → 0 ≤ n < 512 → 0 ≤ f < 4096 → map_args (V * 4096) (n * 4096) 4096 f.
Proof.
  intros. unfold map_args. rewrite !Z.mod_mul by lia. change (4096 mod 4096) with 0. lia.
Qed.

Lemma copy_step V st :
  256 ≤ V < 768 → fork_inv V st → writable (parent V) = true →
  ∃ st' e', fork_page c (V * 4096) st = Ok () st' ∧ fork_step V st st' e'.
Proof.
  intros HV Hi Hw. destruct (inv_procs V st Hi) as [Hcur Hch].
  pose proof (parent_range V) as He. pose proof (fr_pid Hready).
  assert (present (parent V) = true) as HP by (by apply andb_prop in Hw as [? _]).
  destruct (fr_frames Hready V HV HP) as (Hfr & Hused & Hnd).
  destruct (alloc_step c st) as (n & Ea & Hn & Hr & Hnf & _); [by eapply room_left|lia|].
  pose proof (count_mono V st (frame (parent V)) Hi ltac:(lia)) as Hcm.
  assert (n ≠ frame (parent V)) as Hne by (intros ->; lia).
  assert (n ∉ table_frames d) as Hntab.
  { intros Hin. by apply (d_page_refcount V st n Hi Hin ltac:(lia)). }
  pose (sta := take_page n c st).
  assert (∃ m2, m2 = copy (Z.to_nat PAGESIZE) (kmem st) (n * 4096) (frame (parent V) * 4096) ∧
    ∀ a, load8 m2 a = if decide (a / 4096 = n)
    then load8 (kmem st) (frame (parent V) * 4096 + a mod 4096) else load8 (kmem st) a) as (m2 & Em2 & Hm2).
  { eexists. split; [reflexivity|]. intros a. apply load_copy_page; lia. }
  destruct (child_table_kept (kmem st) m2 n (fi_shape _ _ Hi) Hntab) as [Hsh2 Hl2].
  { intros a Ha. rewrite Hm2. by rewrite decide_False. }
  destruct (copied_entry n (parent V) Hn He Hw) as (Ene & Efr & Epr).
  pose proof (PTE_FLAGS_range (parent V)).
  destruct (map_ok (mach (set_kmem m2 sta)) d (V * 4096) (n * 4096) 4096 (PTE_FLAGS (parent V)))
    as (m3 & Em & [S3 L3 A3]); [done| |lia|].
  { apply page_args; lia. }
  rewrite Z.div_mul in L3 by lia. change (4096 / 4096) with 1 in L3.
  change (mem (mach (set_kmem m2 sta))) with m2 in A3, L3.
  assert (0 ≤ PAGESIZE) as Hpz by done. assert (0 ≤ n * 4096) as Hd0 by lia.
  assert (n * 4096 + PAGESIZE ≤ 0x200000) as Hd1 by (change PAGESIZE with 4096; lia).
  assert (0 ≤ frame (parent V) * 4096) as Hp0 by lia.
  assert (frame (parent V) * 4096 + PAGESIZE ≤ 0x200000) as Hp1 by (change PAGESIZE with 4096; lia).
  exists (set_kmem m3 sta), (n * 4096 + PTE_FLAGS (parent V)). split.
  - unfold fork_page. erewrite bind_ok by reflexivity.
    erewrite bind_ok by (by eapply fork_lookup). erewrite bind_ok by reflexivity.
    rewrite fork_condition, Hw by done. rewrite Hch, (fr_child Hready).
    erewrite bind_ok by exact Ea. fold sta.
    assert (pa (vamapping_of (parent V) (V * 4096)) = frame (parent V) * 4096 ∧
            perm (vamapping_of (parent V) (V * 4096)) = PTE_FLAGS (parent V)) as [-> ->].
    { unfold vamapping_of. unfold present in HP. rewrite HP. cbn [pa perm].
      rewrite PAGEOFFSET_mod, Z.mod_mul, Z.add_0_r by lia.
      pose proof (PTE_ADDR_range (parent V) He). rewrite u64_small, addr_page by lia.
      split; reflexivity. }
    rewrite (bind_ok _ _ _ _ _ (on_memcpy _ _ _ _ Hpz Hd0 Hd1 Hp0 Hp1)).
    change (kmem sta) with (kmem st). rewrite <- Em2.
    erewrite bind_ok; [|apply on_machine_ok; exact Em]. done.
  - assert (∀ k, pinfo (set_kmem m3 sta) k = if decide (n = k) then MkInfo c 1 else pinfo st k) as Hpi
      by apply pinfo_take.
    assert (∀ f, hit true n f = if decide (n = f) then 1 else 0) as Hh by done.
    split; try (rewrite Epr, Efr).
    + done.
    + exact S3.
    + intros w Hw'. rewrite L3 by done. destruct (decide (w = V)) as [->|].
      * rewrite decide_True by lia. by rewrite Z.sub_diag, Z.mul_0_l, Z.add_0_r.
      * rewrite decide_False by lia. by apply Hl2.
    + unfold fork_entry. rewrite Hw, Efr, Hpi, decide_True by done.
      do 2 (split; [done|]). split; [|split; [done|]].
      { pose proof (count_mono V st n Hi ltac:(lia)). lia. }
      intros i Hii. transitivity (load8 m2 (n * 4096 + i)).
      { symmetry. apply A3. by apply table_page_l4. }
      rewrite Hm2, page_div, decide_True by done.
      rewrite (Z.add_comm (n * 4096)), Z.mod_add, Z.mod_small by lia. symmetry. apply (fi_mem _ _ Hi).
      rewrite page_div by done. split_and!; [lia|lia|done|]. by apply table_page_l4.
    + intros f Hf. rewrite Hpi, Hh. case_decide as E; [|lia]. subst f. rewrite Hr. reflexivity.
    + intros f Hf. rewrite Hpi, Hh. case_decide as E.
      * subst f. rewrite decide_True by (split; [exact Hr|reflexivity]). reflexivity.
      * rewrite decide_False by (intros [_ ?]; lia). reflexivity.
    + intros _. split; [exact Hn|left; exact Hr].
    + intros f Hf Hu. rewrite Hh. unfold shared. rewrite (decide_False (P := n = f)).
      * apply andb_prop in Hw as [-> ->]. reflexivity.
      * intros ->. pose proof (count_mono V st f Hi Hf). lia.
    + intros a (Ha & Hra & Hl4). change (kmem (set_kmem m3 sta)) with m3. rewrite <- (A3 a Hl4), Hm2. rewrite decide_False; [reflexivity|]. intros <-. by apply Hra.
    + rewrite Hw. exact Hnf.
Qed.

Lemma pagenumber_frame e : 0 ≤ e < 2 ^ 64 → 0 ≤ frame e < 512 → PAGENUMBER e = frame e.
Proof.
  intros He Hf. pose proof (addr_page e He) as Ha. pose proof (PTE_ADDR_sub e He) as Hs.
  pose proof (Z.mod_pos_bound e 4096 ltac:(lia)). rewrite PAGENUMBER_div by lia.
  symmetry. apply Z.div_unique with (e mod 4096); lia.
Qed.

(** Sharing never overflows a reference count. *)
Lemma shared_room V st :
  256 ≤ V < 768 → fork_inv V st → shared (parent V) = true →
  0 < refcount (pinfo st (frame (parent V))) < 127.
Proof.
  intros HV Hi Hsh. assert (present (parent V) = true) as HP.
  { apply andb_prop in Hsh as [? _]. done. }
  destruct (fr_frames Hready V HV HP) as (Hfr & Hu & _).
  destruct (fr_counts Hready (frame (parent V)) ltac:(lia)) as [Hc0 Hc].
  rewrite (fi_count _ _ Hi), (fi_shared _ _ Hi) by (lia || exact Hu).
  pose proof (occ_nonneg (frame (parent V)) (frames_where shared (kmem s1) sh 256 (V - 256))).
  replace 512 with ((V - 256) + (512 - (V - 256))) in Hc by lia.
  rewrite frames_where_app, occ_app in Hc by lia.
  replace (256 + (V - 256)) with V in Hc by lia.
  replace (512 - (V - 256)) with (0 + 1 + (767 - V)) in Hc by lia.
  rewrite frames_where_app, occ_app in Hc by lia.
  rewrite frames_where_snoc, Z.add_0_r, occ_app, occ_hit, Hsh in Hc by lia.
  unfold hit in Hc. rewrite decide_True in Hc by reflexivity.
  pose proof (occ_nonneg (frame (parent V)) (frames_where shared (kmem s1) sh V 0)).
  pose proof (occ_nonneg (frame (parent V)) (frames_where shared (kmem s1) sh (V + (0 + 1)) (767 - V))). lia.
Qed.

(** [put_refcount]; only the frames of memory matter. *)
Lemma pinfo_put st k r f :
  pinfo (set_pageinfo (<[k := MkInfo (owner (pinfo st k)) (s8 r)]> (pageinfo st)) st) f
  = if decide (k = f) then MkInfo (owner (pinfo st f)) (s8 r) else pinfo st f.
Proof. unfold pinfo. cbn [pageinfo set_pageinfo]. rewrite lookup_insert. case_decide as E; [by subst|done]. Qed.

(** The entry of a page that is not copied; its frame is counted once more. *)
Lemma share_entry V :
  256 ≤ V < 768 → writable (parent V) = false →
  let e' := if present (parent V) then parent V else 0 in
  present e' = shared (parent V) ∧
  (present e' = true → frame e' = frame (parent V) ∧ pn (vamapping_of (parent V) (V * 4096)) = frame e') ∧
  (present e' = false → pn (vamapping_of (parent V) (V * 4096)) = -1).
Proof.
  intros HV Hw e'. pose proof (present_shared_writable (parent V)) as Hpsw. rewrite Hw in Hpsw. cbn in Hpsw.
  subst e'. rewrite <- Hpsw. unfold vamapping_of. fold (present (parent V)).
  destruct (present (parent V)) eqn:HP.
  - split; [exact HP|]. split; [|rewrite HP; discriminate]. intros _. split; [reflexivity|]. cbn [pn].
    destruct (fr_frames Hready V HV HP) as (Hfr & _). apply pagenumber_frame; [apply parent_range|lia].
  - split; [reflexivity|]. split; [intros E; discriminate E|reflexivity].
Qed.

Lemma share_step V st :
  256 ≤ V < 768 → fork_inv V st → writable (parent V) = false →
  ∃ st' e', fork_page c (V * 4096) st = Ok () st' ∧ fork_step V st st' e'.
Proof.
  intros HV Hi Hw. destruct (inv_procs V st Hi) as [Hcur Hch].
  pose proof (parent_range V) as He.
  destruct (share_entry V HV Hw) as (Eps & Efr & Eno).
  set (map := vamapping_of (parent V) (V * 4096)) in *.
  set (e' := if present (parent V) then parent V else 0) in *.
  destruct (map_ok (mach st) d (V * 4096) (pa map) 4096 (perm map)) as (m & Em & [S3 L3 A3]);
    [apply Hi| |lia|].
  { apply copy_args; [exact He|lia|apply Z.mod_mul; lia|]. intros HP.
    destruct (fr_frames Hready V HV HP). lia. }
  rewrite Z.div_mul in L3 by lia. change (4096 / 4096) with 1 in L3. fold (kmem st) in L3, A3.
  assert (new_entry (pa map) (perm map) = e') as Ene by (apply copy_entry; [exact He|apply Z.mod_mul; lia]).
  set (k := pn map) in *. pose (r := refcount (pinfo st k) + 1).
  pose (st' := set_pageinfo (<[k := MkInfo (owner (pinfo st k)) (s8 r)]> (pageinfo st)) (set_kmem m st)).
  assert (∀ f, pinfo st' f = if decide (k = f) then MkInfo (owner (pinfo st f)) (s8 r) else pinfo st f)
    as Hpi by apply (pinfo_put (set_kmem m st)).
  assert (∀ f, 0 ≤ f < 512 → pinfo st' f = MkInfo (owner (pinfo st f))
            (refcount (pinfo st f) + hit (present e') (frame e') f) ∧
            (hit (present e') (frame e') f = 1 → f = frame (parent V) ∧ shared (parent V) = true)) as Hpf.
  { intros f Hf. rewrite Hpi. unfold hit. destruct (present e') eqn:HP.
    - destruct (Efr eq_refl) as [Ef Ek]. rewrite <- Ek. case_decide as E;
        [|split; [destruct (pinfo st f); cbn; f_equal; lia|lia]].
      assert (f = frame (parent V)) as Hff by congruence.
      split; [|intros _; split; [exact Hff|congruence]]. f_equal. unfold r. rewrite E, Hff.
      pose proof (shared_room V st HV Hi ltac:(congruence)) as Hroom.
      apply s8_small. lia.
    - rewrite (Eno eq_refl). rewrite decide_False by lia. split; [destruct (pinfo st f); cbn; f_equal; lia|lia]. }
  exists st', e'. split.
  - unfold fork_page. erewrite bind_ok by reflexivity.
    erewrite bind_ok by (by eapply fork_lookup). erewrite bind_ok by reflexivity.
    rewrite fork_condition, Hw by done. rewrite Hch, (fr_child Hready).
    erewrite bind_ok; [|apply on_machine_ok; exact Em]. reflexivity.
  - split.
    + reflexivity.
    + exact S3.
    + intros w Hw'. change (kmem st') with m. rewrite L3 by done. destruct (decide (w = V)) as [->|].
      * rewrite decide_True by lia. rewrite Z.sub_diag, Z.mul_0_l, Z.add_0_r. exact Ene.
      * rewrite decide_False by lia. reflexivity.
    + unfold fork_entry. rewrite Hw. reflexivity.
    + intros f Hf. destruct (Hpf f Hf) as [-> _]. reflexivity.
    + intros f Hf. destruct (Hpf f Hf) as [-> Hhit]. cbn [owner]. case_decide as E; [|reflexivity].
      destruct E as [Ez Eh]. destruct (Hhit Eh) as [-> Hsh].
      pose proof (shared_room V st HV Hi Hsh). lia.
    + intros HP. destruct (Efr HP) as [Ef _]. rewrite Ef.
      assert (present (parent V) = true) as HPp.
      { rewrite Eps in HP. apply andb_prop in HP as [? _]. done. }
      destruct (fr_frames Hready V HV HPp) as (?&?&_). split; [done|by right].
    + intros f Hf Hu. rewrite Eps. unfold hit. destruct (shared (parent V)) eqn:Hsh; [|reflexivity].
      destruct (Efr Eps) as [-> _]. reflexivity.
    + change (kmem st') with m. eapply agree_weaken; [|exact A3]. intros a (?&?&?). done.
    + rewrite Hw. rewrite Z.sub_0_r. symmetry. apply nfree_ext. intros f Hf.
      destruct (Hpf f ltac:(lia)) as [-> Hhit]. cbn [refcount].
      pose proof (hit_range (present e') (frame e') f) as Hhr.
      destruct (decide (hit (present e') (frame e') f = 1)) as [Eh|]; [|lia].
      destruct (Hhit Eh) as [-> Hsh]. pose proof (shared_room V st HV Hi Hsh). lia.
Qed.

(** *** The loop *)

Lemma fork_loop_ok :
  ∃ st, for_loop user_pages PROC_START_ADDR PAGESIZE (fork_page c) s1 = Ok () st ∧ fork_inv 768 st.
Proof.
  assert (runs (for_loop user_pages PROC_START_ADDR PAGESIZE (fork_page c)) s1
    (λ _ s', fork_inv ((PROC_START_ADDR + Z.of_nat user_pages * PAGESIZE) / 4096) s')) as Hr.
  { apply (runs_for (λ v st, fork_inv (v / 4096) st)).
    - change (PROC_START_ADDR / 4096) with 256.
      assert (∀ sel m sh, frames_where sel m sh 256 0 = []) as Hnil by done.
      split; rewrite ?Z.sub_diag, ?Hnil; try done; try (apply Hready).
      + unfold set_kmem, kmem. rewrite set_mem_id. by destruct s1.
      + intros w Hw. lia.
      + intros f Hf. cbn [occ]. lia.
      + intros f Hf Hu. by rewrite decide_True.
      + cbn [length]. lia.
    - intros k st Hk Hi. change user_pages with (Z.to_nat 512) in Hk.
      assert (PROC_START_ADDR + Z.of_nat k * PAGESIZE = (256 + Z.of_nat k) * 4096) as E.
      { change PROC_START_ADDR with (256 * 4096). change PAGESIZE with 4096. lia. }
      rewrite E in *. rewrite Z.div_mul in Hi by lia.
      replace ((256 + Z.of_nat k) * 4096 + PAGESIZE) with ((256 + Z.of_nat k + 1) * 4096)
        by (change PAGESIZE with 4096; lia).
      rewrite Z.div_mul by lia.
      assert (256 ≤ 256 + Z.of_nat k < 768) as HV by lia.
      assert (∃ st' e', fork_page c ((256 + Z.of_nat k) * 4096) st = Ok () st' ∧
                fork_step (256 + Z.of_nat k) st st' e') as (st' & e' & Ef & Hs).
      { destruct (writable (parent (256 + Z.of_nat k))) eqn:Hw; [by apply copy_step|by apply share_step]. }
      eapply runs_eq; [exact Ef|]. by eapply inv_step. }
  apply runs_iff in Hr as ([] & st & E & Hi). by exists st.
Qed.
End fork_loop.
