(* ===== verification/ForkSafe.v ===== *)
(** The fork system call as a whole: its contract, and that it keeps the
    safety invariant. *)
From S2P Require Import Prelude X86 Machine CLib Printf Hardware PageTable Frames Syscalls Isolation Duplicate Fork.
Open Scope Z_scope.

#[local] Opaque frames_where.

(** ** Process descriptors *)

Definition upd_proc (pid : Z) (f : proc → proc) (s : kstate) : kstate :=
  set_processes (<[pid := f (process s pid)]> (processes s)) s.

Lemma put_process_eq pid f s : put_process pid f s = Ok () (upd_proc pid f s).
Proof. reflexivity. Qed.

Lemma process_upd pid f s q :
  process (upd_proc pid f s) q = if decide (pid = q) then f (process s pid) else process s q.
Proof. unfold process, upd_proc. cbn [processes set_processes]. rewrite lookup_insert. by case_decide. Qed.

Lemma pinfo_upd pid f s k : pinfo (upd_proc pid f s) k = pinfo s k.
Proof. reflexivity. Qed.

Lemma kmem_upd pid f s : kmem (upd_proc pid f s) = kmem s.
Proof. reflexivity. Qed.

Lemma nfree_upd pid f s : nfree (upd_proc pid f s) = nfree s.
Proof. reflexivity. Qed.

Lemma takes_processes l pid s :
  processes (takes l pid s) = processes s ∧ current (takes l pid s) = current s.
Proof. revert s. induction l as [|n l IH]; intros s; [done|]. exact (IH (take_page n pid s)). Qed.

(** The loop over the process slots finds the first free one. *)
Lemma fork_finds `{Devices} s c :
  1 ≤ c < 16 → p_state (process s c) = P_FREE →
  (∀ k, 1 ≤ k < c → p_state (process s k) ≠ P_FREE) → sys_fork s = fork_into c s.
Proof.
  intros Hc Hfree Hfirst.
  assert (∀ n k, 1 ≤ k ≤ c → (Z.to_nat (c - k) < n)%nat → fork_loop n k s = fork_into c s) as Hl.
  { intros n. induction n as [|n IH]; intros k Hk Hn; [lia|].
    cbn [fork_loop]. erewrite bind_ok by reflexivity. destruct (decide (k = c)) as [->|Hne].
    - by rewrite decide_True.
    - rewrite decide_False by (apply Hfirst; lia).
      destruct (Z.eqb_spec (k + 1) NPROC) as [E|_]; [change NPROC with 16 in E; lia|].
      erewrite bind_ok by reflexivity. apply IH; lia. }
  apply Hl; [lia|]. change NPROC with 16. lia.
Qed.

Lemma occ_nodup f l : NoDup l → f ∈ l → occ f l = 1.
Proof.
  induction 1 as [|x l Hx Hnd IH]; intros Hf; [by apply elem_of_nil in Hf|]. cbn [occ].
  apply elem_of_cons in Hf as [->|Hf].
  - rewrite decide_True, occ_zero by done. done.
  - rewrite decide_False by congruence. by rewrite IH.
Qed.

(** ** The contract of fork *)

(** What holds of a live process when it forks: a free slot [c], the first
    one, frames enough for the table and the copies, and reference counts that
    have room for the shared pages. *)
Record fork_pre (s : kstate) (c : Z) : Prop := {
  fp_live : live s (current s);
  fp_slot : 1 ≤ c < 16 ∧ p_state (process s c) = P_FREE;
  fp_first : ∀ k, 1 ≤ k < c → p_state (process s k) ≠ P_FREE;
  fp_room : 5 + Z.of_nat (length (frames_where writable (kmem s) (table_of s (current s)) 256 512)) ≤ nfree s;
  fp_counts : ∀ f, 0 ≤ f < 512 →
    refcount (pinfo s f) + occ f (frames_where shared (kmem s) (table_of s (current s)) 256 512) ≤ 127 }.

(** The child [c] after the fork of [s] into [s']. *)
Record forked (s s' : kstate) (c : Z) : Prop := {
  (* control state *)
  fk_current : current s' = current s;
  fk_parent : process s' (current s)
    = with_registers (set_rax c (p_registers (process s (current s)))) (process s (current s));
  fk_child : process s' c = MkProc c (set_rax 0 (p_registers (process s (current s)))) P_RUNNABLE
    (L1 (table_of s' c)) (display_status (process s c));
  fk_others : ∀ q, q ≠ c → q ≠ current s → process s' q = process s q;
  (* memory in use is untouched *)
  fk_memory : agree (λ a, 0 ≤ a / 4096 < 512 ∧ refcount (pinfo s (a / 4096)) ≠ 0) (kmem s) (kmem s');
  (* the child's address space *)
  fk_shape : shape_ok (kmem s') (table_of s' c);
  fk_kernel : ∀ w, 0 ≤ w < 256 →
    leaf (kmem s') (table_of s' c) w = leaf (kmem s) (table_of s (current s)) w;
  fk_shared : ∀ w, 256 ≤ w < 768 → writable (leaf (kmem s) (table_of s (current s)) w) = false →
    leaf (kmem s') (table_of s' c) w =
      (if present (leaf (kmem s) (table_of s (current s)) w)
       then leaf (kmem s) (table_of s (current s)) w else 0);
  fk_copied : ∀ w, 256 ≤ w < 768 → writable (leaf (kmem s) (table_of s (current s)) w) = true →
    let e := leaf (kmem s) (table_of s (current s)) w in
    let e' := leaf (kmem s') (table_of s' c) w in
    PTE_FLAGS e' = PTE_FLAGS e ∧ refcount (pinfo s (frame e')) = 0 ∧ pinfo s' (frame e') = MkInfo c 1 ∧
    ∀ i, 0 ≤ i < 4096 →
      load8 (kmem s') (frame e' * 4096 + i) = load8 (kmem s) (frame e * 4096 + i);
  fk_beyond : ∀ w, 768 ≤ w < 1024 → leaf (kmem s') (table_of s' c) w = 0;
  (* the page information *)
  fk_counts : ∀ f, 0 ≤ f < 512 → refcount (pinfo s' f) =
    refcount (pinfo s f) + occ f (table_frames (table_of s' c))
    + occ f (frames_where present (kmem s') (table_of s' c) 256 512);
  fk_owners : ∀ f, 0 ≤ f < 512 → refcount (pinfo s f) ≠ 0 → owner (pinfo s' f) = owner (pinfo s f) }.

(** The state before the loop over the parent's pages. *)
Record prepared (s s1 : kstate) (c : Z) (sh d : pt_shape) : Prop := {
  pr_processes : processes s1 = <[c := MkProc c (p_registers (process s c)) P_RUNNABLE (L1 d)
                                         (display_status (process s c))]> (processes s);
  pr_current : current s1 = current s;
  pr_pinfo : ∀ k, pinfo s1 k = if decide (k ∈ table_frames d) then MkInfo c 1 else pinfo s k;
  pr_dup : duplicated (kmem s) (kmem s1) sh d;
  pr_nodup : NoDup (table_frames d);
  pr_fresh : ∀ k, k ∈ table_frames d → 1 ≤ k < 512 ∧ refcount (pinfo s k) = 0;
  pr_free : nfree s1 = nfree s - 5 }.

Section fork.
Context `{Devices} (s : kstate) (c : Z) (Hs : safe s) (Hpre : fork_pre s c).

Abbreviation p := (current s).
Abbreviation sh := (table_of s p).
Abbreviation parent w := (leaf (kmem s) sh w).

Lemma parent_ne : c ≠ p.
Proof. intros E. destruct (fp_live s c Hpre) as [_ Hl]. apply Hl. rewrite <- E. apply Hpre. Qed.

Lemma table_used f : f ∈ table_frames sh → refcount (pinfo s f) ≠ 0.
Proof. intros Hf. by rewrite (safe_tables s Hs p f (fp_live s c Hpre) Hf). Qed.

Lemma kernel_frames w : 0 ≤ w < 256 → present (parent w) = true ∧ 0 ≤ frame (parent w) < 512.
Proof.
  intros Hw. destruct (safe_kernel s Hs p w (fp_live s c Hpre) Hw) as (Ha&HP&_). split; [done|].
  unfold frame. rewrite Ha, Z.div_mul by lia. lia.
Qed.

Definition fork_rest (c : Z) : M kstate () :=
  for_loop user_pages PROC_START_ADDR PAGESIZE (fork_page c);;
  cur ← gets current_proc;
  put_process c (with_registers (p_registers cur));;
  put_process c (λ p, with_registers (set_rax 0 (p_registers p)) p);;
  put_current_rax c.

Lemma fork_prepare :
  ∃ s1 d, fork_into c s = fork_rest c s1 ∧ prepared s s1 c sh d.
Proof.
  pose (sa := upd_proc c (with_state P_RUNNABLE) (upd_proc c (with_pid c) s)).
  pose proof (fp_slot s c Hpre) as [Hc _]. pose proof (fp_room s c Hpre) as Hroom.
  pose proof parent_ne as Hne.
  assert (process sa p = process s p) as Hproc.
  { unfold sa. rewrite !process_upd. by rewrite !decide_False by done. }
  destruct (duplicate_ok sh c sa) as (d & m' & Ed & Hd & Hnd & HF & Hn & _).
  { apply (safe_shape s Hs p), Hpre. }
  { intros w Hw _. by apply kernel_frames. }
  { apply table_used. }
  { unfold sa. rewrite !nfree_upd. lia. }
  { lia. }
  pose (s1 := upd_proc c (with_pagetable (L1 d)) (set_kmem m' (takes (table_frames d) c sa))).
  exists s1, d. split.
  - unfold fork_into. erewrite bind_ok by apply put_process_eq. erewrite bind_ok by apply put_process_eq.
    fold sa. erewrite bind_ok by reflexivity. unfold current_proc.
    change (current sa) with p. rewrite Hproc, <- table_of_root.
    erewrite bind_ok by exact Ed. erewrite bind_ok by apply put_process_eq.
    destruct (shape_tables _ _ (dup_shape _ _ _ _ Hd)) as ((?&_)&_).
    assert (istrue (L1 d) = true) as ->.
    { unfold istrue. by destruct (Z.eqb_spec (L1 d) 0); [lia|]. }
    fold s1. unfold fork_rest. cbv iota. reflexivity.
  - assert (process (takes (table_frames d) c sa) c = process sa c) as Hpc
      by (unfold process; by rewrite (proj1 (takes_processes (table_frames d) c sa))).
    split.
    + unfold s1, upd_proc at 1. cbn [processes set_processes].
      change (process (set_kmem m' ?x) c) with (process x c).
      change (processes (set_kmem m' ?x)) with (processes x).
      rewrite Hpc, (proj1 (takes_processes _ _ _)). unfold sa. rewrite !process_upd.
      rewrite !(decide_True (P := c = c)) by done.
      unfold upd_proc. cbn [processes set_processes]. by rewrite !insert_insert_eq.
    + apply (takes_processes (table_frames d) c sa).
    + intros k. apply (pinfo_takes (table_frames d) c sa).
    + exact Hd.
    + exact Hnd.
    + rewrite Forall_forall in HF. exact HF.
    + exact Hn.
Qed.

Section ready.
Context (s1 : kstate) (d : pt_shape) (Hp : prepared s s1 c sh d).

Lemma fresh_unused f : f ∈ table_frames d → refcount (pinfo s f) = 0.
Proof. intros Hf. by apply (pr_fresh _ _ _ _ _ Hp). Qed.

Lemma used_not_d f : refcount (pinfo s f) ≠ 0 → f ∉ table_frames d.
Proof. intros Hu Hf. by apply Hu, fresh_unused. Qed.

Lemma pinfo_used f : refcount (pinfo s f) ≠ 0 → pinfo s1 f = pinfo s f.
Proof.
  intros Hu. rewrite (pr_pinfo _ _ _ _ _ Hp). by rewrite decide_False by (by apply used_not_d).
Qed.

Lemma used_memory a : refcount (pinfo s (a / 4096)) ≠ 0 → ¬ in_table d a.
Proof.
  intros Hu Hin. apply (used_not_d _ Hu). apply in_table_frames; [|done].
  apply (shape_pages _ _ (dup_shape _ _ _ _ (pr_dup _ _ _ _ _ Hp))).
Qed.

(** The tables of the live processes after the preparation. *)
Lemma live_prepared q :
  live s q → shape_ok (kmem s1) (table_of s q) ∧
  ∀ w, 0 ≤ w < 1024 → leaf (kmem s1) (table_of s q) w = leaf (kmem s) (table_of s q) w.
Proof.
  intros Hq. pose proof (safe_shape s Hs q Hq) as Hsh.
  apply table_agree; [exact Hsh|]. intros a Ha. apply (dup_agree _ _ _ _ (pr_dup _ _ _ _ _ Hp)).
  apply used_memory. pose proof (in_table_frames _ _ (shape_pages _ _ Hsh) Ha) as Hin.
  by rewrite (safe_tables s Hs q _ Hq Hin).
Qed.

Lemma prepared_frames q sel lo n :
  live s q → 0 ≤ lo → lo + n ≤ 1024 →
  frames_where sel (kmem s1) (table_of s q) lo n = frames_where sel (kmem s) (table_of s q) lo n.
Proof.
  intros Hq ??. apply frames_where_ext. intros w Hw. apply (live_prepared q Hq). lia.
Qed.

Lemma prepared_process q :
  process s1 q = if decide (q = c)
    then MkProc c (p_registers (process s c)) P_RUNNABLE (L1 d) (display_status (process s c))
    else process s q.
Proof.
  unfold process at 1. rewrite (pr_processes _ _ _ _ _ Hp), lookup_insert.
  destruct (decide (c = q)) as [->|]; [by rewrite decide_True|by rewrite decide_False].
Qed.

Lemma parent_frame_used w :
  256 ≤ w < 1024 → present (parent w) = true →
  1 ≤ frame (parent w) < 512 ∧ refcount (pinfo s (frame (parent w))) ≠ 0.
Proof.
  intros Hw HP. destruct (user_frame_counted s p w Hs (fp_live s c Hpre) Hw HP) as (?&_&?). lia.
Qed.

Lemma ready : fork_ready s1 sh d c.
Proof.
  pose proof (fp_live s c Hpre) as Hl. destruct (live_prepared p Hl) as [Hsh Hlf].
  pose proof (pr_dup _ _ _ _ _ Hp) as Hd. pose proof parent_ne as Hne.
  split.
  - apply (fp_slot s c Hpre).
  - unfold current_proc. rewrite (pr_current _ _ _ _ _ Hp), prepared_process, decide_False by done.
    symmetry. apply table_of_root.
  - by rewrite prepared_process, decide_True.
  - exact Hsh.
  - apply Hd.
  - intros w Hw. rewrite (dup_leaf _ _ _ _ Hd) by lia. by rewrite decide_False by lia.
  - intros f Hf. apply elem_of_app in Hf as [Hf|Hf].
    + rewrite pinfo_used by (by apply table_used). by apply table_used.
    + rewrite (pr_pinfo _ _ _ _ _ Hp), decide_True by done. done.
  - intros a Ha. apply used_memory, table_used, in_table_frames; [apply Hsh|done].
  - intros w Hw. rewrite Hlf by lia. intros HP.
    destruct (parent_frame_used w ltac:(lia) HP) as [Hf Hu].
    rewrite pinfo_used by done. split; [done|]. split; [done|]. by apply used_not_d.
  - intros w Hw. rewrite Hlf by lia. intros Hwr Hc.
    pose proof (safe_writable s Hs p w Hl ltac:(lia) Hwr) as Hi. rewrite Hc in Hi.
    destruct (safe_console s Hs) as [Ho _]. rewrite Hi in Ho. cbn in Ho. destruct Hl as [? _]. lia.
  - intros f Hf. rewrite prepared_frames by (done || lia).
    pose proof (fp_counts s c Hpre f Hf). pose proof (safe_counts s Hs f Hf).
    rewrite (pr_pinfo _ _ _ _ _ Hp). case_decide as Hin; [|lia]. cbn [refcount].
    rewrite occ_zero; [lia|]. intros Hx. apply elem_frames_where in Hx as (w & Hw & Hsw & <-).
    assert (present (parent w) = true) as HP by (rewrite present_shared_writable, Hsw; apply orb_true_r).
    destruct (parent_frame_used w ltac:(lia) HP) as [_ Hu]. by apply (used_not_d _ Hu).
  - rewrite prepared_frames by (done || lia). pose proof (fp_room s c Hpre).
    rewrite (pr_free _ _ _ _ _ Hp). lia.
Qed.
End ready.

(** The state after the system call. *)
Record finished (s1 st s' : kstate) (d : pt_shape) : Prop := {
  fn_kmem : kmem s' = kmem st;
  fn_pinfo : ∀ k, pinfo s' k = pinfo st k;
  fn_current : current s' = p;
  fn_process : ∀ q, process s' q =
    if decide (q = c) then MkProc c (set_rax 0 (p_registers (process s p))) P_RUNNABLE (L1 d)
                             (display_status (process s c))
    else if decide (q = p) then with_registers (set_rax c (p_registers (process s p))) (process s p)
    else process s q }.

Lemma fork_finish s1 st d :
  prepared s s1 c sh d → fork_inv s1 sh d c 768 st →
  for_loop user_pages PROC_START_ADDR PAGESIZE (fork_page c) s1 = Ok () st →
  ∃ s', fork_rest c s1 = Ok () s' ∧ finished s1 st s' d.
Proof.
  intros Hp Hi El. pose proof parent_ne as Hne.
  assert (current st = p) as Hcur.
  { rewrite (fi_state _ _ _ _ _ _ Hi). exact (pr_current _ _ _ _ _ Hp). }
  assert (∀ q, process st q = process s1 q) as Hpr.
  { intros q. by rewrite (fi_state _ _ _ _ _ _ Hi). }
  pose (x := upd_proc c (λ q, with_registers (set_rax 0 (p_registers q)) q)
               (upd_proc c (with_registers (p_registers (process st p))) st)).
  exists (upd_proc p (λ q, with_registers (set_rax c (p_registers q)) q) x). split.
  - unfold fork_rest. erewrite bind_ok by exact El. erewrite bind_ok by reflexivity.
    unfold current_proc. rewrite Hcur. erewrite bind_ok by apply put_process_eq.
    erewrite bind_ok by apply put_process_eq. unfold put_current_rax. erewrite bind_ok by reflexivity.
    fold x. change (current x) with (current st). rewrite Hcur. reflexivity.
  - split.
    + reflexivity.
    + intros k. reflexivity.
    + exact Hcur.
    + intros q. unfold x. rewrite !process_upd, !Hpr, !(prepared_process s1 d Hp).
      rewrite !(decide_True (P := c = c)), !(decide_False (P := c = p)), !(decide_False (P := p = c)) by done.
      destruct (decide (q = c)) as [->|Hqc].
      * rewrite decide_False by congruence. rewrite !(decide_True (P := c = c)) by done. reflexivity.
      * rewrite !(decide_False (P := c = q)) by congruence.
        destruct (decide (q = p)) as [->|]; [by rewrite decide_True|by rewrite decide_False].
Qed.

Section result.
Context (s1 st s' : kstate) (d : pt_shape) (Hp : prepared s s1 c sh d).
Context (Hi : fork_inv s1 sh d c 768 st) (Hf : finished s1 st s' d).

Lemma child_table : table_of s' c = d.
Proof.
  rewrite table_of_eq, (fn_kmem _ _ _ _ Hf), (fn_process _ _ _ _ Hf), decide_True by done.
  apply shape_at_ok. apply (fi_shape _ _ _ _ _ _ Hi).
Qed.

Lemma not_l4 a : ¬ in_table d a → ¬ in_l4 d a.
Proof.
  intros Hn Hl. apply Hn. destruct (in_pages d) as (_&_&_&?&?).
  destruct Hl; eexists; (split; [|done]); done.
Qed.

(** Memory in use before the call. *)
Lemma used_kept : agree (λ a, 0 ≤ a / 4096 < 512 ∧ refcount (pinfo s (a / 4096)) ≠ 0) (kmem s) (kmem s').
Proof.
  rewrite (fn_kmem _ _ _ _ Hf). intros a (Ha & Hu).
  pose proof (used_memory s1 d Hp a Hu) as Hn.
  rewrite (dup_agree _ _ _ _ (pr_dup _ _ _ _ _ Hp) a Hn).
  apply (fi_mem _ _ _ _ _ _ Hi). split; [done|]. split; [|by apply not_l4].
  by rewrite (pinfo_used s1 d Hp).
Qed.

Lemma parent_leaf w : 0 ≤ w < 1024 → leaf (kmem s1) sh w = parent w.
Proof. intros Hw. by apply (live_prepared s1 d Hp p (fp_live s c Hpre)). Qed.

Lemma fresh_not_used f : 0 ≤ f < 512 → refcount (pinfo s1 f) = 0 → refcount (pinfo s f) = 0.
Proof.
  intros _ Hr. rewrite (pr_pinfo _ _ _ _ _ Hp) in Hr. by case_decide.
Qed.

Abbreviation child_frames := (frames_where present (kmem st) d 256 512).

Lemma count_after f :
  0 ≤ f < 512 →
  refcount (pinfo s' f) = refcount (pinfo s f) + occ f (table_frames d) + occ f child_frames.
Proof.
  intros Hr. rewrite (fn_pinfo _ _ _ _ Hf), (fi_count _ _ _ _ _ _ Hi) by done.
  change (768 - 256) with 512. f_equal. rewrite (pr_pinfo _ _ _ _ _ Hp). case_decide as Hin.
  - rewrite (fresh_unused s1 d Hp f Hin), occ_nodup by (apply Hp || done). done.
  - rewrite occ_zero by done. lia.
Qed.

Lemma owner_kept f :
  0 ≤ f < 512 → refcount (pinfo s f) ≠ 0 → owner (pinfo s' f) = owner (pinfo s f).
Proof.
  intros Hr Hu. rewrite (fn_pinfo _ _ _ _ Hf). pose proof (pinfo_used s1 d Hp f Hu) as E.
  rewrite (fi_owner _ _ _ _ _ _ Hi), decide_True, E; rewrite ?E; try done.
  pose proof (count_mono s1 sh d c (ready s1 d Hp) 768 st f Hi Hr) as Hm. rewrite E in Hm.
  pose proof (safe_counts s Hs f Hr). lia.
Qed.

Lemma fork_contract : forked s s' c.
Proof.
  pose proof parent_ne as Hne. pose proof (pr_dup _ _ _ _ _ Hp) as Hd.
  assert (∀ w, 256 ≤ w < 768 → fork_entry s1 c st (parent w) (leaf (kmem st) d w)) as He.
  { intros w Hw. rewrite <- parent_leaf by lia. by apply (fi_entry _ _ _ _ _ _ Hi). }
  split; rewrite ?child_table, ?(fn_kmem _ _ _ _ Hf).
  - apply Hf.
  - rewrite (fn_process _ _ _ _ Hf). rewrite decide_False by done. by rewrite decide_True.
  - rewrite (fn_process _ _ _ _ Hf). by rewrite decide_True.
  - intros q ??. rewrite (fn_process _ _ _ _ Hf). by rewrite !decide_False.
  - rewrite <- (fn_kmem _ _ _ _ Hf). apply used_kept.
  - apply (fi_shape _ _ _ _ _ _ Hi).
  - intros w Hw. rewrite (fi_low _ _ _ _ _ _ Hi), (dup_leaf _ _ _ _ Hd) by lia.
    rewrite decide_True by lia. by rewrite (proj1 (kernel_frames w Hw)).
  - intros w Hw Hwr. specialize (He w Hw). unfold fork_entry in He. by rewrite Hwr in He.
  - intros w Hw Hwr. cbv zeta. specialize (He w Hw). unfold fork_entry in He. rewrite Hwr in He.
    destruct He as (Hfr & Hx & Hr & Hpi & Hc). split_and!.
    + rewrite Hx. apply PTE_FLAGS_entry; [by apply Z.mod_mul|apply PTE_FLAGS_range].
    + apply fresh_not_used; [lia|done].
    + by rewrite (fn_pinfo _ _ _ _ Hf).
    + intros i Hii. rewrite Hc by done. symmetry. apply (dup_agree _ _ _ _ Hd).
      apply (used_memory s1 d Hp). rewrite page_div by done.
      apply parent_frame_used; [lia|]. by apply andb_prop in Hwr as [? _].
  - intros w Hw. by apply (fi_high _ _ _ _ _ _ Hi).
  - apply count_after.
  - apply owner_kept.
Qed.

(** **** The invariant *)

Lemma live_after q : live s' q ↔ live s q ∨ q = c.
Proof.
  unfold live. rewrite (fn_process _ _ _ _ Hf). destruct (fp_slot s c Hpre) as [Hc _].
  pose proof (proj2 (fp_live s c Hpre)). case_decide as E1; [subst; by intuition|].
  case_decide as E2; [subst|]; cbn [p_state with_registers]; tauto.
Qed.

Lemma live_not_c q : live s q → q ≠ c.
Proof. intros [_ Hq] ->. by apply Hq, (fp_slot s c Hpre). Qed.

Lemma kept q :
  live s q → table_of s' q = table_of s q ∧ shape_ok (kmem s') (table_of s q) ∧
  ∀ w, 0 ≤ w < 1024 → leaf (kmem s') (table_of s q) w = leaf (kmem s) (table_of s q) w.
Proof.
  intros Hq. apply live_kept; [done|done| |].
  - rewrite (fn_process _ _ _ _ Hf). rewrite decide_False by (by apply live_not_c).
    case_decide as E; [by subst|done].
  - intros a Ha. apply used_kept.
    pose proof (in_table_frames _ _ (shape_pages _ _ (safe_shape s Hs q Hq)) Ha) as Hin.
    pose proof (table_frame_range s Hs q _ Hq Hin). rewrite (safe_tables s Hs q _ Hq Hin). cbn. lia.
Qed.

Lemma kept_frames q sel lo n :
  live s q → 0 ≤ lo → lo + n ≤ 1024 →
  frames_where sel (kmem s') (table_of s' q) lo n = frames_where sel (kmem s) (table_of s q) lo n.
Proof.
  intros Hq ??. destruct (kept q Hq) as (-> & _ & Hl). apply frames_where_ext.
  intros w Hw. apply Hl. lia.
Qed.

(** The child's frames are those of the parent it shares, and fresh ones. *)
Lemma child_frame w :
  256 ≤ w < 768 → present (leaf (kmem st) d w) = true →
  (writable (leaf (kmem st) d w) = true ∧ pinfo s' (frame (leaf (kmem st) d w)) = MkInfo c 1 ∧
   refcount (pinfo s1 (frame (leaf (kmem st) d w))) = 0 ∧ 1 ≤ frame (leaf (kmem st) d w) < 512) ∨
  (writable (leaf (kmem st) d w) = false ∧ leaf (kmem st) d w = parent w).
Proof.
  intros Hw HP. pose proof (fi_entry _ _ _ _ _ _ Hi w Hw) as He. rewrite parent_leaf in He by lia.
  unfold fork_entry in He. destruct (writable (parent w)) eqn:Hwr.
  - left. destruct He as (Hfr & Hx & Hr & Hpi & _). rewrite (fn_pinfo _ _ _ _ Hf).
    split_and!; try done; try lia. apply andb_prop in Hwr as [_ HW].
    unfold present, writable in *. rewrite HP. cbn.
    rewrite <- has_flags in HW |- * by done. rewrite Hx, PTE_FLAGS_entry; [done|by apply Z.mod_mul|apply PTE_FLAGS_range].
  - right. destruct (present (parent w)) eqn:HPp; rewrite He in HP |- *; [done|]. discriminate HP.
Qed.

(** A page private to some process before is not touched by the fork. *)
Lemma private_kept q f :
  live s q → 0 ≤ f < 512 → pinfo s f = MkInfo q 1 →
  f ∈ table_frames (table_of s q) ∨ f ∈ frames_where writable (kmem s) (table_of s q) 256 768 →
  pinfo s' f = MkInfo q 1.
Proof.
  intros Hq Hr Hpi Hin. pose proof (fp_live s c Hpre) as Hl.
  assert (refcount (pinfo s f) = 1) as Hr1 by (by rewrite Hpi).
  assert (refcount (pinfo s1 f) ≠ 0) as Hu by (rewrite (pinfo_used s1 d Hp); lia).
  pose proof (private_frame s q p f Hs Hq Hl Hr Hr1 Hin) as Hz.
  assert (occ f (frames_where shared (kmem s) sh 256 512) = 0) as Hz2.
  { change 768 with (512 + 256) in Hz. rewrite frames_where_app, occ_app in Hz by lia.
    pose proof (occ_nonneg f (frames_where shared (kmem s) sh 256 512)).
    pose proof (occ_nonneg f (frames_where shared (kmem s) sh (256 + 512) 256)). lia. }
  assert (refcount (pinfo s' f) = 1) as Hc.
  { rewrite (fn_pinfo _ _ _ _ Hf), (fi_count _ _ _ _ _ _ Hi) by done.
    rewrite (fi_shared _ _ _ _ _ _ Hi) by done. change (768 - 256) with 512.
    rewrite (prepared_frames s1 d Hp p shared) by (done || lia). rewrite Hz2, (pinfo_used s1 d Hp); lia. }
  apply info_eq; [|exact Hc]. rewrite (fn_pinfo _ _ _ _ Hf) in Hc |- *.
  rewrite (fi_owner _ _ _ _ _ _ Hi) by lia. rewrite decide_True by done.
  rewrite (pinfo_used s1 d Hp) by lia. by rewrite Hpi.
Qed.

Lemma live_c : live s' c.
Proof. apply live_after. by right. Qed.

Lemma child_user_frames f : f ∈ user_frames (kmem st) d → f ∈ child_frames.
Proof.
  intros Hin. apply elem_frames_where in Hin as (w & Hw & HP & <-).
  apply elem_frames_where. exists w. split; [|done]. destruct (decide (w < 768)); [lia|].
  rewrite (fi_high _ _ _ _ _ _ Hi) in HP by lia. discriminate HP.
Qed.

Lemma occ_child_user f : occ f (user_frames (kmem st) d) = occ f child_frames.
Proof.
  unfold user_frames. change 768 with (512 + 256). rewrite frames_where_app, occ_app by lia.
  rewrite (occ_zero f (frames_where present (kmem st) d (256 + 512) 256)); [lia|].
  intros Hin. apply elem_frames_where in Hin as (w & Hw & HP & _).
  rewrite (fi_high _ _ _ _ _ _ Hi) in HP by lia. discriminate HP.
Qed.

Lemma refs_after f : refs s' f = refs s f + (occ f (table_frames d) + occ f child_frames).
Proof.
  destruct (fp_slot s c Hpre) as [Hc _]. unfold refs.
  rewrite (zsum_split (λ q, occ f (frames_of s' q)) c) by (apply elem_pids || apply pids_nodup; done).
  rewrite (zsum_split (λ q, occ f (frames_of s q)) c) by (apply elem_pids || apply pids_nodup; done).
  assert (frames_of s c = []) as ->.
  { unfold frames_of. rewrite decide_False; [done|]. intros Hl. by apply (live_not_c c Hl). }
  rewrite (frames_of_live s' c live_c), child_table, occ_app, (fn_kmem _ _ _ _ Hf), occ_child_user.
  rewrite (zsum_ext _ (λ q, if decide (q = c) then 0 else occ f (frames_of s q))); [cbn [occ]; lia|].
  intros q _. case_decide as E; [done|]. f_equal. unfold frames_of.
  destruct (decide (live s q)) as [Hq|Hq].
  - rewrite decide_True by (apply live_after; by left). f_equal; [by rewrite (proj1 (kept q Hq))|].
    by apply kept_frames.
  - rewrite decide_False; [done|]. intros Hl. apply live_after in Hl as [?|?]; done.
Qed.

(** A reference count never exceeds 127. *)
Lemma counts_after f : 0 ≤ f < 512 → 0 ≤ refcount (pinfo s' f) ≤ 127.
Proof.
  intros Hr. pose proof (safe_counts s Hs f Hr) as Hsc. rewrite count_after by done.
  pose proof (occ_nonneg f (table_frames d)). pose proof (occ_nonneg f child_frames).
  split; [lia|]. rewrite <- count_after by done. rewrite (fn_pinfo _ _ _ _ Hf).
  destruct (decide (refcount (pinfo s1 f) = 0)) as [Hz|Hu].
  - destruct (decide (0 < occ f child_frames)) as [Ho|Ho].
    + apply occ_pos, elem_frames_where in Ho as (w & Hw & HP & <-).
      destruct (child_frame w ltac:(lia) HP) as [(_&Hpi&_)|[_ E]].
      * rewrite <- (fn_pinfo _ _ _ _ Hf), Hpi. done.
      * exfalso. rewrite E in HP, Hz. destruct (parent_frame_used w ltac:(lia) HP) as [_ Hu].
        by rewrite (pinfo_used s1 d Hp) in Hz.
    + rewrite (fi_count _ _ _ _ _ _ Hi) by done. change (768 - 256) with 512. lia.
  - rewrite (fi_count _ _ _ _ _ _ Hi), (fi_shared _ _ _ _ _ _ Hi) by done.
    apply (fr_counts _ _ _ _ (ready s1 d Hp) f Hr).
Qed.

Lemma child_tables f : f ∈ table_frames d → pinfo s' f = MkInfo c 1.
Proof.
  intros Hin. pose proof (proj1 (pr_fresh _ _ _ _ _ Hp f Hin)) as Hr.
  assert (refcount (pinfo s' f) = 1) as Hc.
  { rewrite count_after by lia. rewrite (fresh_unused s1 d Hp f Hin), occ_nodup by (apply Hp || done).
    rewrite occ_zero; [done|]. intros Ho. apply elem_frames_where in Ho as (w & Hw & HP & <-).
    destruct (child_frame w ltac:(lia) HP) as [(_&_&Hz&_)|[_ E]].
    - rewrite (pr_pinfo _ _ _ _ _ Hp), decide_True in Hz by done. discriminate Hz.
    - rewrite E in HP, Hin. destruct (parent_frame_used w ltac:(lia) HP) as [_ Hu].
      by apply (used_not_d s1 d Hp _ Hu). }
  apply info_eq; [|exact Hc]. rewrite (fn_pinfo _ _ _ _ Hf) in Hc |- *.
  rewrite (fi_owner _ _ _ _ _ _ Hi) by lia.
  rewrite (pr_pinfo _ _ _ _ _ Hp), (decide_True (P := f ∈ table_frames d)) by done. by rewrite decide_True.
Qed.

Lemma fork_safe : safe s'.
Proof.
  destruct (fp_slot s c Hpre) as [Hc _].
  split.
  - intros q Hq. rewrite (fn_process _ _ _ _ Hf). case_decide as E1; [by subst|].
    apply live_after in Hq as [Hq|]; [|done]. pose proof (safe_pid s Hs q Hq).
    case_decide as E2; [by subst|done].
  - intros q Hq. apply live_after in Hq as [Hq| ->].
    + destruct (kept q Hq) as (->&?&_). done.
    + rewrite child_table, (fn_kmem _ _ _ _ Hf). apply (fi_shape _ _ _ _ _ _ Hi).
  - intros q f Hq Hin. apply live_after in Hq as [Hq| ->].
    + rewrite (proj1 (kept q Hq)) in Hin. pose proof (table_frame_range s Hs q f Hq Hin).
      apply private_kept; [done|lia|by apply (safe_tables s Hs q)|by left].
    + rewrite child_table in Hin. by apply child_tables.
  - intros q w Hq Hw. apply live_after in Hq as [Hq| ->].
    + destruct (kept q Hq) as (->&_&->); [|lia]. by apply (safe_kernel s Hs q).
    + pose proof (fk_kernel _ _ _ fork_contract w Hw) as ->.
      apply (safe_kernel s Hs p w); [apply Hpre|done].
  - intros q f Hq Hin. apply live_after in Hq as [Hq| ->].
    + unfold user_frames in Hin. rewrite kept_frames in Hin by (done || lia).
      destruct (safe_frames s Hs q f Hq Hin) as [Hr Ho]. split; [done|].
      rewrite owner_kept; [done|lia|]. apply elem_frames_where in Hin as (w&Hw&HP&<-).
      destruct (user_frame_counted s q w Hs Hq ltac:(lia) HP) as (_&_&?). lia.
    + rewrite child_table, (fn_kmem _ _ _ _ Hf) in Hin. apply child_user_frames in Hin.
      apply elem_frames_where in Hin as (w&Hw&HP&<-).
      destruct (child_frame w ltac:(lia) HP) as [(_&->&_&?)|[_ E]]; [cbn; lia|].
      rewrite E in HP |- *.
      destruct (user_frame_counted s p w Hs (fp_live s c Hpre) ltac:(lia) HP) as (?&?&?).
      rewrite owner_kept; lia.
  - intros q w Hq Hw Hwr. apply live_after in Hq as [Hq| ->].
    + destruct (kept q Hq) as (Et&_&El). rewrite Et, El in Hwr |- * by lia.
      assert (present (leaf (kmem s) (table_of s q) w) = true) as HP by (by apply andb_prop in Hwr as [? _]).
      destruct (user_frame_counted s q w Hs Hq Hw HP) as (?&_&_).
      apply private_kept; [done|lia|by apply (safe_writable s Hs q)|].
      right. apply elem_frames_where. exists w. split_and!; try done; lia.
    + rewrite child_table, (fn_kmem _ _ _ _ Hf) in Hwr |- *.
      assert (present (leaf (kmem st) d w) = true) as HP by (by apply andb_prop in Hwr as [? _]).
      destruct (decide (w < 768)); [|rewrite (fi_high _ _ _ _ _ _ Hi) in HP by lia; discriminate HP].
      destruct (child_frame w ltac:(lia) HP) as [(_&?&_)|[Hn _]]; [done|congruence].
  - intros f Hr. rewrite refs_after, count_after by done. pose proof (safe_refs s Hs f Hr). lia.
  - apply counts_after.
  - destruct (safe_console s Hs) as [Ho Hu].
    assert (0 ≤ CONSOLE_ADDR / 4096 < 512) as Hr by (change (CONSOLE_ADDR / 4096) with 184; lia).
    split; [by rewrite owner_kept|].
    rewrite count_after by done. pose proof (safe_counts s Hs _ Hr).
    pose proof (occ_nonneg (CONSOLE_ADDR / 4096) (table_frames d)).
    pose proof (occ_nonneg (CONSOLE_ADDR / 4096) child_frames). lia.
Qed.
End result.

Lemma fork_ok : ∃ s', sys_fork s = Ok () s' ∧ forked s s' c ∧ safe s'.
Proof.
  destruct (fp_slot s c Hpre) as [Hc _].
  destruct fork_prepare as (s1 & d & Ei & Hp).
  destruct (fork_loop_ok s1 sh d c (ready s1 d Hp)) as (st & El & Hi).
  destruct (fork_finish s1 st d Hp Hi El) as (s' & Er & Hf).
  exists s'. split; [|split; [by eapply fork_contract|by eapply fork_safe]].
  rewrite (fork_finds s c) by (done || apply Hpre). by rewrite Ei.
Qed.
End fork.
