(* ===== verification/Exit.v ===== *)
(** The exit system call of [src/kernel.c]: what it frees, and that it keeps the
    safety invariant. *)
From S2P Require Import Prelude X86 Machine CLib Printf Hardware PageTable Frames Syscalls Isolation Duplicate Fork ForkSafe.
Open Scope Z_scope.

#[local] Opaque frames_where.

(** A page with one reference belongs to one process. *)
Lemma frame_exclusive s p q f :
  safe s → live s p → live s q → p ≠ q → 0 ≤ f < 512 → refcount (pinfo s f) ≤ 1 →
  f ∈ frames_of s p → f ∉ frames_of s q.
Proof.
  intros Hs Hp Hq Hne Hr H1 Hin Hin'. pose proof (safe_refs s Hs f Hr).
  pose proof (refs_ge2 s p q f (proj1 Hp) (proj1 Hq) Hne).
  apply occ_pos in Hin, Hin'. lia.
Qed.

(** ** Updates of the page information *)

(** [m] changes the information of the page [n], by [h], and nothing else. *)
Definition updates (m : M kstate ()) (n : Z) (h : physical_pageinfo → physical_pageinfo) : Prop :=
  ∀ s, ∃ pi, m s = Ok () (set_pageinfo pi s) ∧
    ∀ k, pinfo (set_pageinfo pi s) k = if decide (n = k) then h (pinfo s k) else pinfo s k.

Lemma put_owner_updates n o : updates (put_owner n o) n (λ i, MkInfo (s8 o) (refcount i)).
Proof.
  intros s. eexists. split; [reflexivity|]. intros k. unfold pinfo at 1. cbn [pageinfo set_pageinfo].
  rewrite lookup_insert. case_decide as E; [by subst|done].
Qed.

Lemma put_refcount_updates n r : updates (put_refcount n r) n (λ i, MkInfo (owner i) (s8 r)).
Proof.
  intros s. eexists. split; [reflexivity|]. intros k. unfold pinfo at 1. cbn [pageinfo set_pageinfo].
  rewrite lookup_insert. case_decide as E; [by subst|done].
Qed.

Lemma updates_seq m m' n h h' :
  updates m n h → updates m' n h' → updates (m;; m') n (λ i, h' (h i)).
Proof.
  intros H1 H2 s. destruct (H1 s) as (pi & E & Hp). destruct (H2 (set_pageinfo pi s)) as (pi' & E' & Hp').
  exists pi'. split; [by rewrite (bind_ok _ _ _ _ _ E)|]. intros k.
  change (set_pageinfo pi' s) with (set_pageinfo pi' (set_pageinfo pi s)).
  rewrite Hp', Hp. by case_decide.
Qed.

Lemma for_each_updates (l : list Z) (g : Z → Z) (m : Z → M kstate ()) h s :
  (∀ t, updates (m t) (g t) h) → (∀ i, h (h i) = h i) →
  ∃ pi, for_each l m s = Ok () (set_pageinfo pi s) ∧
    ∀ k, pinfo (set_pageinfo pi s) k = if decide (k ∈ g <$> l) then h (pinfo s k) else pinfo s k.
Proof.
  intros Hm Hh. revert s. induction l as [|t l IH]; intros s; cbn [for_each fmap list_fmap].
  - exists (pageinfo s). split; [by destruct s|]. intros k. by rewrite decide_False by apply not_elem_of_nil.
  - destruct (Hm t s) as (pi & E & Hp). destruct (IH (set_pageinfo pi s)) as (pi' & E' & Hp').
    exists pi'. split; [by rewrite (bind_ok _ _ _ _ _ E)|]. intros k.
    change (set_pageinfo pi' s) with (set_pageinfo pi' (set_pageinfo pi s)). rewrite Hp', Hp.
    destruct (decide (k ∈ _)) as [Hin|Hin].
    + rewrite (decide_True (P := k ∈ _ :: _)) by (apply elem_of_cons; by right). case_decide; [apply Hh|done].
    + case_decide as E1.
      * rewrite decide_True; [done|]. subst. apply elem_of_cons. by left.
      * rewrite decide_False; [done|]. intros [->|?]%elem_of_cons; done.
Qed.

(** ** The contract of exit *)

(** The frames of [p] that exit gives back: its table, and the writable pages
    below the end of the user address space. *)
Definition private_frames (s : kstate) (p : Z) (n : Z) : list Z :=
  table_frames (table_of s p) ++ frames_where writable (kmem s) (table_of s p) 256 n.

Record exited (s s' : kstate) : Prop := {
  ex_current : current s' = current s;
  ex_memory : mach s' = mach s;
  ex_process : ∀ q, process s' q =
    if decide (q = current s) then with_state P_FREE (process s q) else process s q;
  ex_pinfo : ∀ f, 0 ≤ f < 512 → pinfo s' f =
    if decide (f ∈ private_frames s (current s) 512) then MkInfo 0 0
    else MkInfo (owner (pinfo s f))
           (refcount (pinfo s f) - occ f (frames_where shared (kmem s) (table_of s (current s)) 256 512)) }.

Section exit.
Context `{Devices} (s : kstate) (Hs : safe s) (Hl : live s (current s)).

Abbreviation p := (current s).
Abbreviation sh := (table_of s p).
Abbreviation entry w := (leaf (kmem s) sh w).

Definition exit_state (st : kstate) : kstate := upd_proc p (with_state P_FREE) st.

(** The loop has done the pages below [V]. *)
Record exit_inv (V : Z) (st : kstate) : Prop := {
  xi_state : st = set_pageinfo (pageinfo st) (exit_state s);
  xi_pinfo : ∀ f, 0 ≤ f < 512 → pinfo st f =
    if decide (f ∈ private_frames s p (V - 256)) then MkInfo 0 0
    else MkInfo (owner (pinfo s f)) (refcount (pinfo s f) - occ f (frames_where shared (kmem s) sh 256 (V - 256))) }.

Lemma exit_references f :
  0 ≤ f < 512 →
  occ f (table_frames sh) + (occ f (frames_where writable (kmem s) sh 256 768)
    + occ f (frames_where shared (kmem s) sh 256 768)) ≤ refcount (pinfo s f).
Proof.
  intros Hf. rewrite <- occ_frames_of by done. etransitivity; [|by apply (safe_refs s Hs)].
  apply refs_ge, Hl.
Qed.

(** The entries from [V] on, with [V] apart. *)
Lemma occ_from sel V f :
  256 ≤ V < 768 →
  occ f (frames_where sel (kmem s) sh 256 (V - 256)) + hit (sel (entry V)) (frame (entry V)) f
  ≤ occ f (frames_where sel (kmem s) sh 256 768).
Proof.
  intros HV. replace 768 with ((V - 256) + 1 + (1023 - V)) by lia.
  rewrite frames_where_app, frames_where_snoc, !occ_app, occ_hit by lia.
  replace (256 + (V - 256)) with V by lia.
  pose proof (occ_nonneg f (frames_where sel (kmem s) sh (256 + (V - 256 + 1)) (1023 - V))). lia.
Qed.

Lemma occ_step sel V f :
  256 ≤ V →
  occ f (frames_where sel (kmem s) sh 256 (V + 1 - 256))
  = occ f (frames_where sel (kmem s) sh 256 (V - 256)) + hit (sel (entry V)) (frame (entry V)) f.
Proof.
  intros HV. replace (V + 1 - 256) with (V - 256 + 1) by lia.
  rewrite frames_where_snoc, occ_app, occ_hit by lia. by replace (256 + (V - 256)) with V by lia.
Qed.

Lemma private_step V f :
  256 ≤ V →
  f ∈ private_frames s p (V + 1 - 256) ↔
  f ∈ private_frames s p (V - 256) ∨ (writable (entry V) = true ∧ f = frame (entry V)).
Proof.
  intros HV. unfold private_frames. rewrite !elem_of_app, <- !occ_pos, occ_step by done.
  unfold hit. pose proof (occ_nonneg f (frames_where writable (kmem s) sh 256 (V - 256))).
  destruct (writable (entry V)); [case_decide as E|]; rewrite ?Z.add_0_r.
  - split; [by right|]. intros _. right. lia.
  - split; [by left|]. intros [?|[_ ->]]; done.
  - split; [by left|]. by intros [?|[? _]].
Qed.

(** A page met by the loop was not freed before. *)
Lemma not_private V :
  256 ≤ V < 768 → 0 ≤ frame (entry V) < 512 → present (entry V) = true →
  refcount (pinfo s (frame (entry V))) = 1 ∨ shared (entry V) = true →
  frame (entry V) ∉ private_frames s p (V - 256).
Proof.
  intros HV Hf HP Hone Hin. pose proof (exit_references _ Hf) as Hx.
  pose proof (occ_from writable V (frame (entry V)) HV) as H1.
  pose proof (occ_from shared V (frame (entry V)) HV) as H2.
  pose proof (occ_nonneg (frame (entry V)) (table_frames sh)).
  pose proof (occ_nonneg (frame (entry V)) (frames_where writable (kmem s) sh 256 (V - 256))).
  pose proof (occ_nonneg (frame (entry V)) (frames_where shared (kmem s) sh 256 (V - 256))).
  unfold private_frames in Hin. rewrite elem_of_app in Hin.
  assert (refcount (pinfo s (frame (entry V))) = 1) as Hr.
  { destruct Hone as [Hone|_]; [done|]. destruct Hin as [Hin|Hin].
    - by rewrite (safe_tables s Hs p _ Hl Hin).
    - apply elem_frames_where in Hin as (w & Hw & Hwr & Ew). rewrite <- Ew.
      by rewrite (safe_writable s Hs p w Hl ltac:(lia) Hwr). }
  rewrite <- !occ_pos in Hin. rewrite present_shared_writable in HP. unfold hit in H1, H2.
  rewrite (decide_True (P := frame (entry V) = frame (entry V))) in H1, H2 by done.
  apply orb_prop in HP as [HP|HP]; rewrite HP in *; destruct (writable _), (shared _); lia.
Qed.

Lemma exit_tables : p_pagetable (process s p) = L1 sh.
Proof. symmetry. apply table_of_root. Qed.

Lemma exit_lookup V st :
  256 ≤ V < 768 → exit_inv V st →
  p_pagetable (current_proc st) = L1 sh ∧ p_pid (current_proc st) = p ∧
  on_machine (virtual_memory_lookup (L1 sh) (V * 4096)) st = Ok (vamapping_of (entry V) (V * 4096)) st.
Proof.
  intros HV Hi. rewrite (xi_state _ _ Hi).
  assert (current_proc (set_pageinfo (pageinfo st) (exit_state s)) = with_state P_FREE (process s p)) as ->.
  { change (current_proc _) with (process (exit_state s) p). unfold exit_state.
    by rewrite process_upd, decide_True. }
  split; [apply exit_tables|]. split; [apply (safe_pid s Hs p Hl)|].
  apply on_machine_pure. change (mach (set_pageinfo (pageinfo st) (exit_state s))) with (mach s).
  rewrite lookup_leaf by (apply (safe_shape s Hs p Hl) || lia). rewrite Z.div_mul by lia. done.
Qed.

(** The invariant after a page whose information became [x]. *)
Lemma exit_next V st pi x :
  256 ≤ V < 768 → exit_inv V st → present (entry V) = true → frame (entry V) ∉ private_frames s p (V - 256) →
  (∀ k, pinfo (set_pageinfo pi st) k = if decide (frame (entry V) = k) then x else pinfo st k) →
  x = (if writable (entry V) then MkInfo 0 0
       else MkInfo (owner (pinfo st (frame (entry V)))) (refcount (pinfo st (frame (entry V))) - 1)) →
  exit_inv (V + 1) (set_pageinfo pi st).
Proof.
  intros HV Hi HP Hnp Hpi ->. rewrite present_shared_writable in HP. split.
  - rewrite (xi_state _ _ Hi). reflexivity.
  - intros f Hf. rewrite Hpi, occ_step by lia. pose proof (xi_pinfo _ _ Hi f Hf) as Hx.
    rewrite (decide_ext _ _ _ _ (private_step V f ltac:(lia))). unfold hit.
    destruct (writable (entry V)) eqn:Hw.
    + assert (shared (entry V) = false) as ->.
      { unfold writable, shared in *. by destruct (has _ PTE_P), (has _ PTE_W). }
      rewrite Z.add_0_r. destruct (decide (frame (entry V) = f)) as [E|E].
      * by rewrite decide_True by (right; split; congruence).
      * rewrite Hx. destruct (decide (f ∈ private_frames s p (V - 256))) as [Hin|Hin].
        { by rewrite decide_True by (by left). }
        rewrite decide_False; [done|]. intros [?|[_ ?]]; [done|congruence].
    + cbn [orb] in HP. rewrite HP. destruct (decide (frame (entry V) = f)) as [E|E].
      * rewrite <- E in Hx |- *. rewrite decide_False in Hx by done.
        rewrite decide_False by (intros [?|[? _]]; [by apply Hnp|discriminate]). rewrite Hx. cbn [owner refcount].
        f_equal. lia.
      * rewrite Hx, Z.add_0_r. destruct (decide (f ∈ private_frames s p (V - 256))) as [Hin|Hin].
        { by rewrite decide_True by (by left). }
        rewrite decide_False; [done|]. intros [?|[? _]]; [done|discriminate].
Qed.

Lemma exit_next_absent V st :
  256 ≤ V < 768 → exit_inv V st → present (entry V) = false → exit_inv (V + 1) st.
Proof.
  intros HV Hi HP. assert (writable (entry V) = false ∧ shared (entry V) = false) as [Hw Hsh].
  { rewrite present_shared_writable in HP. by apply orb_false_elim in HP. }
  split; [apply Hi|]. intros f Hf. rewrite (xi_pinfo _ _ Hi f Hf), occ_step, Hsh by lia.
  unfold hit. rewrite Z.add_0_r. rewrite (decide_ext _ _ _ _ (private_step V f ltac:(lia))), Hw.
  destruct (decide (f ∈ private_frames s p (V - 256))) as [Hin|Hin].
  - by rewrite decide_True by (by left).
  - rewrite decide_False; [done|]. intros [?|[? _]]; [done|discriminate].
Qed.

(** What the loop reads about the page of a present entry. *)
Lemma exit_reads V st :
  256 ≤ V < 768 → exit_inv V st → present (entry V) = true →
  1 ≤ frame (entry V) < 512 ∧ (frame (entry V) ∉ private_frames s p (V - 256)) ∧
  1 ≤ refcount (pinfo st (frame (entry V))) ≤ 127 ∧
  (writable (entry V) = true → owner (pinfo st (frame (entry V))) = p ∧
     forallb (λ t, negb (frame (entry V) =? PAGENUMBER t)) (pt_pages sh)).
Proof.
  intros HV Hi HP. destruct (user_frame_counted s p V Hs Hl ltac:(lia) HP) as (Hf & Ho & Hr).
  assert (frame (entry V) ∉ private_frames s p (V - 256)) as Hnp.
  { apply not_private; [done|lia|done|]. rewrite present_shared_writable in HP.
    apply orb_prop in HP as [Hw|?]; [left|by right]. by rewrite (safe_writable s Hs p V Hl ltac:(lia) Hw). }
  split; [done|]. split; [done|]. rewrite (xi_pinfo _ _ Hi) by lia. rewrite decide_False by done.
  cbn [owner refcount]. pose proof (exit_references (frame (entry V)) ltac:(lia)) as Hx.
  pose proof (occ_from writable V (frame (entry V)) HV) as H1.
  pose proof (occ_from shared V (frame (entry V)) HV) as H2.
  pose proof (occ_nonneg (frame (entry V)) (table_frames sh)).
  pose proof (occ_nonneg (frame (entry V)) (frames_where writable (kmem s) sh 256 (V - 256))).
  pose proof (occ_nonneg (frame (entry V)) (frames_where shared (kmem s) sh 256 (V - 256))).
  pose proof (safe_counts s Hs (frame (entry V)) ltac:(lia)).
  split.
  - split; [|lia]. rewrite present_shared_writable in HP. unfold hit in H1, H2.
    rewrite (decide_True (P := frame (entry V) = frame (entry V))) in H1, H2 by done.
    apply orb_prop in HP as [HP|HP]; rewrite HP in *; destruct (writable _), (shared _); lia.
  - intros Hw. split; [by rewrite (safe_writable s Hs p V Hl ltac:(lia) Hw)|].
    apply Is_true_true_2, forallb_forall. intros t Ht. apply list_elem_of_In in Ht.
    destruct (shape_page _ _ (safe_shape s Hs p Hl) t Ht) as (?&?&?).
    rewrite PAGENUMBER_div by zlia. destruct (Z.eqb_spec (frame (entry V)) (t / 4096)) as [E|]; [|done].
    exfalso. apply Hnp. unfold private_frames. apply elem_of_app. left. rewrite E.
    apply list_elem_of_fmap. by exists t.
Qed.

(** What one iteration does to the page information. *)
Lemma exit_step V st :
  256 ≤ V < 768 → exit_inv V st →
  runs (exit_page (pt_pages sh) (V * 4096)) st (λ _ st', exit_inv (V + 1) st').
Proof.
  intros HV Hi. destruct (exit_lookup V st HV Hi) as (Ept & Epid & Elk).
  pose proof (leaf_range (kmem s) sh V) as Her.
  destruct (shape_tables _ _ (safe_shape s Hs p Hl)) as ((Hpos&_)&_).
  unfold exit_page. apply runs_iff. erewrite bind_ok by reflexivity. rewrite Ept.
  assert (istrue (L1 sh) = true) as ->.
  { unfold istrue. by destruct (Z.eqb_spec (L1 sh) 0); [lia|]. }
  erewrite bind_ok by exact Elk. erewrite bind_ok by reflexivity. rewrite Epid.
  unfold vamapping_of. fold (present (entry V)). destruct (present (entry V)) eqn:HP; cbn [pn perm].
  - destruct (exit_reads V st HV Hi HP) as (Hf & Hnp & Hr & Hw).
    rewrite pagenumber_frame by (done || lia). rewrite has_flags by done.
    assert (has (entry V) PTE_W = writable (entry V)) as ->.
    { unfold writable, present in *. by rewrite HP. }
    destruct (Z.ltb_spec 0 (frame (entry V))) as [_|]; [|lia].
    assert (istrue (refcount (pinfo st (frame (entry V)))) = true) as ->.
    { unfold istrue. by destruct (Z.eqb_spec (refcount (pinfo st (frame (entry V)))) 0); [lia|]. }
    destruct (writable (entry V)) eqn:Hwr; cbn [negb andb].
    + destruct (Hw eq_refl) as [-> ->%Is_true_true_1]. rewrite Z.eqb_refl. cbn [andb].
      destruct (updates_seq _ _ _ _ _ (put_owner_updates (frame (entry V)) 0)
        (put_refcount_updates (frame (entry V)) 0) st) as (pi & -> & Hpi).
      eexists _, _. split; [reflexivity|]. eapply exit_next; [done|done|done|done| |by rewrite Hwr].
      exact Hpi.
    + destruct (Z.eqb_spec (refcount (pinfo st (frame (entry V)))) 0) as [?|_]; [lia|].
      erewrite bind_ok by reflexivity.
      destruct (put_refcount_updates (frame (entry V)) (refcount (pinfo st (frame (entry V))) - 1) st)
        as (pi & -> & Hpi).
      eexists _, _. split; [reflexivity|].
      eapply exit_next; [done|done|done|done| |by rewrite Hwr]. intros k. rewrite Hpi.
      case_decide as E; [|done]. rewrite <- E, s8_small by lia. done.
  - eexists _, _. split; [reflexivity|]. by apply exit_next_absent.
Qed.

(** *** The whole call *)

Lemma exit_root_read a q : link (kmem s) a q → 0 ≤ a → a + 8 ≤ 0x200000 →
  on_machine (read 8 a) s = Ok (load 8 (kmem s) a) s ∧ PTE_ADDR (load 8 (kmem s) a) = q.
Proof. intros [E _] ??. split; [|done]. apply on_machine_pure. by apply read_ok. Qed.

Lemma page_number t : table_page t → PAGENUMBER t = t / 4096.
Proof. intros (?&?&?). apply PAGENUMBER_div. zlia. Qed.

(** The handler up to the loop. *)
Lemma exit_prepare :
  ∃ st, sys_exit s = for_loop user_pages PROC_START_ADDR PAGESIZE (exit_page (pt_pages sh)) st ∧
    exit_inv 256 st.
Proof.
  pose proof (safe_shape s Hs p Hl) as Hsh.
  destruct (shape_tables _ _ Hsh) as ((?&_&?)&(?&_&?)&(?&_&?)&_). consts.
  destruct (exit_root_read _ _ (shape_1 _ _ Hsh)) as [R1 A1]; [lia..|].
  destruct (exit_root_read _ _ (shape_2 _ _ Hsh)) as [R2 A2]; [lia..|].
  destruct (exit_root_read _ _ (shape_31 _ _ Hsh)) as [R3 A3]; [lia..|].
  destruct (exit_root_read _ _ (shape_32 _ _ Hsh)) as [R4 A4]; [lia..|].
  destruct (for_each_updates (pt_pages sh) PAGENUMBER (λ t, put_owner (PAGENUMBER t) 0)
    (λ i, MkInfo (s8 0) (refcount i)) s) as (pi1 & E1 & P1);
    [intros; apply put_owner_updates|done|].
  destruct (for_each_updates (pt_pages sh) PAGENUMBER (λ t, put_refcount (PAGENUMBER t) 0)
    (λ i, MkInfo (owner i) (s8 0)) (set_pageinfo pi1 s)) as (pi2 & E2 & P2);
    [intros; apply put_refcount_updates|done|].
  exists (exit_state (set_pageinfo pi2 s)). split.
  - unfold sys_exit. erewrite bind_ok by reflexivity. unfold current_proc. rewrite exit_tables.
    erewrite bind_ok by exact R1. rewrite A1. erewrite bind_ok by exact R2. rewrite A2.
    erewrite bind_ok by exact R3. rewrite A3. erewrite bind_ok by exact R4. rewrite A4.
    fold (pt_pages sh). erewrite bind_ok by exact E1. erewrite bind_ok by exact E2.
    erewrite bind_ok by reflexivity. by erewrite bind_ok by apply put_process_eq.
  - split; [reflexivity|]. intros f Hf. change (256 - 256) with 0.
    change (pinfo (exit_state (set_pageinfo pi2 s)) f)
      with (pinfo (set_pageinfo pi2 (set_pageinfo pi1 s)) f). rewrite P2, P1.
    assert (PAGENUMBER <$> pt_pages sh = table_frames sh) as ->.
    { unfold table_frames. apply list_fmap_ext. intros i t Ht. apply page_number.
      eapply shape_page; [exact Hsh|]. by eapply list_elem_of_lookup_2. }
    assert (∀ sel, frames_where sel (kmem s) sh 256 0 = []) as Hnil by (intros sel; apply frames_where_nil).
    unfold private_frames. rewrite !Hnil, app_nil_r. cbn [occ].
    case_decide; [done|]. rewrite Z.sub_0_r. by destruct (pinfo s f).
Qed.

Lemma exit_loop_ok st0 :
  exit_inv 256 st0 →
  ∃ st, for_loop user_pages PROC_START_ADDR PAGESIZE (exit_page (pt_pages sh)) st0 = Ok () st ∧ exit_inv 768 st.
Proof.
  intros H0.
  assert (runs (for_loop user_pages PROC_START_ADDR PAGESIZE (exit_page (pt_pages sh))) st0
    (λ _ s', exit_inv ((PROC_START_ADDR + Z.of_nat user_pages * PAGESIZE) / 4096) s')) as Hr.
  { apply (runs_for (λ v st, exit_inv (v / 4096) st)); [exact H0|].
    intros k st Hk Hi. change user_pages with (Z.to_nat 512) in Hk.
    assert (PROC_START_ADDR + Z.of_nat k * PAGESIZE = (256 + Z.of_nat k) * 4096) as E.
    { change PROC_START_ADDR with (256 * 4096). change PAGESIZE with 4096. lia. }
    rewrite E in *. rewrite Z.div_mul in Hi by lia.
    replace ((256 + Z.of_nat k) * 4096 + PAGESIZE) with ((256 + Z.of_nat k + 1) * 4096)
      by (change PAGESIZE with 4096; lia).
    rewrite Z.div_mul by lia. apply exit_step; [lia|done]. }
  apply runs_iff in Hr as ([] & st & E & Hi). by exists st.
Qed.

Lemma exit_contract st : exit_inv 768 st → exited s st.
Proof.
  intros Hi. split.
  - by rewrite (xi_state _ _ Hi).
  - by rewrite (xi_state _ _ Hi).
  - intros q. rewrite (xi_state _ _ Hi). change (process (set_pageinfo (pageinfo st) (exit_state s)) q) with (process (exit_state s) q).
    unfold exit_state. rewrite process_upd. destruct (decide (p = q)) as [->|].
    + by rewrite decide_True.
    + by rewrite decide_False by congruence.
  - apply (xi_pinfo _ _ Hi).
Qed.

Section after.
Context (s' : kstate) (Hx : exited s s').

Lemma exit_kmem : kmem s' = kmem s.
Proof. unfold kmem. by rewrite (ex_memory _ _ Hx). Qed.

Lemma exit_live q : live s' q ↔ live s q ∧ q ≠ p.
Proof.
  unfold live. rewrite (ex_process _ _ Hx). case_decide as E; cbn [with_state p_state]; naive_solver.
Qed.

Lemma exit_table q : table_of s' q = table_of s q.
Proof.
  rewrite !table_of_eq, exit_kmem, (ex_process _ _ Hx). by case_decide.
Qed.

Lemma exit_frames q : live s q → q ≠ p → frames_of s' q = frames_of s q.
Proof.
  intros Hq Hne. rewrite !frames_of_live; [by rewrite exit_kmem, exit_table|done|by apply exit_live].
Qed.

Lemma private_frames_of f : f ∈ private_frames s p 512 → f ∈ frames_of s p ∧ refcount (pinfo s f) = 1.
Proof.
  intros Hin. unfold private_frames in Hin. rewrite frames_of_live, !elem_of_app in * by done.
  destruct Hin as [Hin|Hin].
  - split; [by left|]. by rewrite (safe_tables s Hs p f Hl Hin).
  - apply elem_frames_where in Hin as (w & Hw & Hwr & <-). split.
    + right. apply elem_frames_where. exists w. split; [lia|]. split; [|done].
      rewrite present_shared_writable. by rewrite Hwr.
    + by rewrite (safe_writable s Hs p w Hl ltac:(lia) Hwr).
Qed.

(** Frames of the other processes keep their owner. *)
Lemma exit_others q f :
  live s q → q ≠ p → 0 ≤ f < 512 → f ∈ frames_of s q → f ∉ private_frames s p 512.
Proof.
  intros Hq Hne Hf Hin Hpr. apply private_frames_of in Hpr as [Hin' Hr].
  eapply (frame_exclusive s q p f); try done. lia.
Qed.

Lemma exit_private q f :
  live s q → q ≠ p → 0 ≤ f < 512 → f ∈ frames_of s q → pinfo s f = MkInfo q 1 → pinfo s' f = pinfo s f.
Proof.
  intros Hq Hne Hf Hin Hpi. rewrite (ex_pinfo _ _ Hx) by done.
  rewrite decide_False by (by eapply exit_others).
  rewrite occ_zero; [rewrite Z.sub_0_r; by destruct (pinfo s f)|].
  intros Hsh. apply (frame_exclusive s q p f); try done; [by rewrite Hpi|].
  rewrite frames_of_live by done. apply elem_of_app. right.
  apply elem_frames_where in Hsh as (w & Hw & Hsw & <-). apply elem_frames_where.
  exists w. split; [lia|]. split; [|done]. rewrite present_shared_writable, Hsw. apply orb_true_r.
Qed.

Lemma exit_refs f : refs s' f = refs s f - occ f (frames_of s p).
Proof.
  unfold refs. pose proof (proj1 Hl) as Hp.
  rewrite (zsum_split (λ q, occ f (frames_of s' q)) p) by (apply elem_pids || apply pids_nodup; done).
  rewrite (zsum_split (λ q, occ f (frames_of s q)) p) by (apply elem_pids || apply pids_nodup; done).
  assert (frames_of s' p = []) as ->.
  { unfold frames_of. rewrite decide_False; [done|]. intros Hq. by apply exit_live in Hq as [_ ?]. }
  rewrite (zsum_ext _ (λ q, if decide (q = p) then 0 else occ f (frames_of s q))); [cbn [occ]; lia|].
  intros q _. case_decide as E; [done|]. f_equal.
  destruct (decide (live s q)) as [Hq|Hq]; [by apply exit_frames|].
  unfold frames_of. rewrite !decide_False; [done|done|]. intros Hq'. by apply Hq, exit_live.
Qed.

Lemma exit_counts f : 0 ≤ f < 512 → refs s' f ≤ refcount (pinfo s' f) ≤ 127.
Proof.
  intros Hf. pose proof (safe_refs s Hs f Hf). pose proof (safe_counts s Hs f Hf).
  rewrite exit_refs, (ex_pinfo _ _ Hx) by done. pose proof (exit_references f Hf) as He.
  pose proof (occ_frames_of s p f Hl) as Ho. case_decide as Hin; cbn [refcount].
  - apply private_frames_of in Hin as [Hin Hr]. apply occ_pos in Hin. lia.
  - change 768 with (512 + 256) in He, Ho. rewrite !frames_where_app, !occ_app in He, Ho by lia.
    pose proof (occ_nonneg f (table_frames sh)).
    pose proof (occ_nonneg f (frames_where writable (kmem s) sh 256 512)).
    pose proof (occ_nonneg f (frames_where writable (kmem s) sh (256 + 512) 256)).
    pose proof (occ_nonneg f (frames_where shared (kmem s) sh 256 512)).
    pose proof (occ_nonneg f (frames_where shared (kmem s) sh (256 + 512) 256)). lia.
Qed.

Lemma exit_safe : safe s'.
Proof.
  split.
  - intros q Hq. apply exit_live in Hq as [Hq Hne]. rewrite (ex_process _ _ Hx), decide_False by done.
    by apply (safe_pid s Hs).
  - intros q Hq. apply exit_live in Hq as [Hq Hne]. rewrite exit_table, exit_kmem. by apply (safe_shape s Hs).
  - intros q f Hq Hin. apply exit_live in Hq as [Hq Hne]. rewrite exit_table in Hin.
    pose proof (safe_tables s Hs q f Hq Hin) as Hpi.
    pose proof (table_frame_range s Hs q f Hq Hin).
    rewrite (exit_private q); try done; [lia|]. rewrite frames_of_live by done. apply elem_of_app. by left.
  - intros q w Hq Hw. apply exit_live in Hq as [Hq Hne]. rewrite exit_table, exit_kmem.
    by apply (safe_kernel s Hs).
  - intros q f Hq Hin. apply exit_live in Hq as [Hq Hne]. rewrite exit_table, exit_kmem in Hin.
    destruct (safe_frames s Hs q f Hq Hin) as [Hf Ho]. split; [done|].
    rewrite (ex_pinfo _ _ Hx) by lia. rewrite decide_False; [done|].
    eapply exit_others; [exact Hq|done|lia|]. rewrite frames_of_live by done. apply elem_of_app. by right.
  - intros q w Hq Hw Hwr. apply exit_live in Hq as [Hq Hne]. rewrite exit_table, exit_kmem in Hwr |- *.
    pose proof (safe_writable s Hs q w Hq Hw Hwr) as Hpi.
    assert (present (leaf (kmem s) (table_of s q) w) = true) as HP by (by apply andb_prop in Hwr as [? _]).
    destruct (user_frame_counted s q w Hs Hq Hw HP) as (?&_&_).
    rewrite (exit_private q); try done; [lia|]. rewrite frames_of_live by done. apply elem_of_app. right.
    apply elem_frames_where. exists w. split_and!; try done; lia.
  - intros f Hf. by apply exit_counts.
  - intros f Hf. pose proof (exit_counts f Hf) as [? ?]. split; [|done].
    etransitivity; [|done]. unfold refs. apply zsum_nonneg. intros. apply occ_nonneg.
  - destruct (safe_console s Hs) as [Ho Hu].
    assert (0 ≤ CONSOLE_ADDR / 4096 < 512) as Hr by (change (CONSOLE_ADDR / 4096) with 184; lia).
    rewrite (ex_pinfo _ _ Hx) by done. pose proof (proj1 Hl) as Hp.
    assert (∀ sel, (∀ e, sel e = true → present e = true) →
      CONSOLE_ADDR / 4096 ∉ frames_where sel (kmem s) sh 256 512) as Hno.
    { intros sel Hsel Hin. apply elem_frames_where in Hin as (w & Hw & Hs2 & E).
      destruct (user_frame_counted s p w Hs Hl ltac:(lia) (Hsel _ Hs2)) as (_&Hpo&_). rewrite E in Hpo. lia. }
    rewrite decide_False; cbn [owner refcount].
    + split; [done|]. rewrite occ_zero; [lia|]. apply Hno. intros e He.
      rewrite present_shared_writable, He. apply orb_true_r.
    + unfold private_frames. rewrite elem_of_app. intros [Hin|Hin].
      * rewrite (safe_tables s Hs p _ Hl Hin) in Ho. cbn in Ho. lia.
      * revert Hin. apply Hno. intros e He. by rewrite present_shared_writable, He.
Qed.
End after.

Lemma exit_ok : ∃ s', sys_exit s = Ok () s' ∧ exited s s' ∧ safe s'.
Proof.
  destruct exit_prepare as (st0 & -> & H0). destruct (exit_loop_ok st0 H0) as (s' & -> & Hi).
  exists s'. split; [done|]. pose proof (exit_contract s' Hi) as Hx. split; [done|by apply exit_safe].
Qed.
End exit.
