(* ===== verification/PageAlloc.v ===== *)
(** The page allocation system call of [src/kernel.c], branch by branch, and
    that it keeps the safety invariant. *)
From S2P Require Import Prelude X86 Machine CLib Printf Hardware PageTable Frames Syscalls Isolation Duplicate Fork ForkSafe Exit.
Open Scope Z_scope.

#[local] Opaque frames_where.

(** ** The allocator's part *)

Lemma alloc_search s n :
  first_free s 1 n → n < 512 → find_free (Z.to_nat (NPAGES - 1)) 1 s = n.
Proof.
  intros (H1 & Hr & Hk) Hn.
  destruct (find_free_pages s) as [(m & -> & Hm & (_ & Hmr & Hmk))|[_ Hno]]; [|exfalso; by apply (Hno n)].
  destruct (Z.lt_trichotomy m n) as [?|[?|?]]; [exfalso|done|exfalso].
  - apply (Hk m); [lia|done].
  - apply (Hmk n); [lia|done].
Qed.

(** The page is taken before the address is looked at. *)
Lemma page_alloc_free `{Devices} pt pid addr s n :
  first_free s 1 n → n < 512 → - 128 ≤ pid < 128 →
  sys_page_alloc_find_free pt pid addr s =
  (if addr <? PROC_START_ADDR then Ok (-1) (take_page n pid s)
   else (on_machine (virtual_memory_map pt addr (n * 4096) PAGESIZE PTE_PWU);; mret 0) (take_page n pid s)).
Proof.
  intros Hff Hn Hpid. pose proof Hff as (?&Hr&_). unfold sys_page_alloc_find_free.
  erewrite bind_ok by reflexivity. rewrite (alloc_search s n Hff Hn).
  destruct (Z.eqb_spec n NPAGES) as [E|_]; [zlia|].
  destruct (page_facts n ltac:(lia)) as (E1&_&_). rewrite E1.
  erewrite bind_ok by (apply assign_ok; [lia|done]).
  rewrite !s8_small by (rewrite ?s8_small; lia).
  destruct (addr <? PROC_START_ADDR); [reflexivity|].
  change (0 <=? 0) with true. cbv iota. unfold mbind, M_bind.
  by destruct (on_machine _ _).
Qed.

Lemma page_alloc_none `{Devices} pt pid addr s :
  no_free s → sys_page_alloc_find_free pt pid addr s = Ok (-1) s.
Proof.
  intros Hno. unfold sys_page_alloc_find_free. erewrite bind_ok by reflexivity.
  destruct (find_free_pages s) as [(m & -> & ? & (?&Hm&_))|[-> _]]; [exfalso; by apply (Hno m)|done].
Qed.

(** ** Addresses the tables do not reach *)

Section unreachable.
Context `{Devices}.

Lemma l4_loop_absent n i pt va perm s :
  0 ≤ i ≤ 3 → table_page pt → has (pte (mem s) pt va i) PTE_P = false →
  runs (l4_loop (Datatypes.S n) i pt va perm) s (λ l4 s', l4 = NULL ∧ io_only s s').
Proof.
  intros Hi Ht Hp. cbn [l4_loop]. apply runs_bind. eapply runs_eq; [by apply entry_at_ok|].
  rewrite Hp. cbn [negb]. apply (runs_bind (log_printf _ _)).
  eapply runs_mono; [apply (log_printf_io [VInt 0; VInt 0; VInt 0]);
    [repeat constructor|by eexists; vm_compute; reflexivity]|].
  intros [] s1 H1. destruct (negb (has perm PTE_P)).
  - apply runs_ret. done.
  - apply runs_bind. eapply runs_mono; [apply (log_printf_io [VInt 0]);
      [repeat constructor|by eexists; vm_compute; reflexivity]|].
    intros [] s2 H2. apply runs_ret. split; [done|by transitivity s1].
Qed.

(** The root and the second level have one entry, the third two. *)
Lemma shape_absent s sh va :
  shape_ok (mem s) sh → 0x400000 ≤ va → 0 ≤ va →
  (0 < pageindex_bits va 0 ∧ pte (mem s) (L1 sh) va 0 = 0) ∨
  (pageindex_bits va 0 = 0 ∧ 0 < pageindex_bits va 1 ∧ pte (mem s) (L2 sh) va 1 = 0) ∨
  (pageindex_bits va 0 = 0 ∧ pageindex_bits va 1 = 0 ∧ 1 < pageindex_bits va 2 ∧ pte (mem s) (L3 sh) va 2 = 0) ∨
  2 ^ 48 ≤ va.
Proof.
  intros Hsh Hva H0. pose proof (shape_rest1 _ _ Hsh) as R1. pose proof (shape_rest2 _ _ Hsh) as R2.
  pose proof (shape_rest3 _ _ Hsh) as R3. rewrite Forall_forall in R1, R2, R3.
  pose proof (pageindex_range va 0 ltac:(lia)). pose proof (pageindex_range va 1 ltac:(lia)).
  pose proof (pageindex_range va 2 ltac:(lia)). unfold pte.
  destruct (decide (pageindex_bits va 0 = 0)) as [E0|E0].
  2:{ left. split; [lia|]. apply R1, elem_of_seqZ. lia. }
  destruct (decide (pageindex_bits va 1 = 0)) as [E1|E1].
  2:{ right; left. split_and!; [done|lia|]. apply R2, elem_of_seqZ. lia. }
  destruct (decide (1 < pageindex_bits va 2)) as [E2|E2].
  { right; right; left. split_and!; [done|done|lia|]. apply R3, elem_of_seqZ. lia. }
  right; right; right. rewrite pageindex_mod in E0, E1, E2 by lia.
  change (2 ^ (12 + (3 - 0) * 9)) with (2 ^ 39) in E0. change (2 ^ (12 + (3 - 1) * 9)) with (2 ^ 30) in E1.
  change (2 ^ (12 + (3 - 2) * 9)) with (2 ^ 21) in E2.
  destruct (decide (2 ^ 48 ≤ va)) as [|Hlt]; [done|exfalso].
  assert (va / 2 ^ 39 < 512) by (apply Z.div_lt_upper_bound; lia).
  rewrite (Z.mod_small (va / 2 ^ 39)) in E0 by (split; [apply Z.div_pos|]; lia).
  assert (va < 2 ^ 39) by (pose proof (Z.div_mod va (2 ^ 39)); pose proof (Z.mod_pos_bound va (2 ^ 39)); lia).
  assert (va / 2 ^ 30 < 512) by (apply Z.div_lt_upper_bound; lia).
  rewrite (Z.mod_small (va / 2 ^ 30)) in E1 by (split; [apply Z.div_pos|]; lia).
  assert (va < 2 ^ 30) by (pose proof (Z.div_mod va (2 ^ 30)); pose proof (Z.mod_pos_bound va (2 ^ 30)); lia).
  assert (va / 2 ^ 21 < 512) by (apply Z.div_lt_upper_bound; lia).
  rewrite (Z.mod_small (va / 2 ^ 21)) in E2 by (split; [apply Z.div_pos|]; lia).
  assert (2 ≤ va / 2 ^ 21) by (apply Z.div_le_lower_bound; lia). lia.
Qed.

Lemma lookup_l4_absent s sh va perm :
  shape_ok (mem s) sh → 0x400000 ≤ va < 2 ^ 48 →
  runs (lookup_l4pagetable (L1 sh) va perm) s (λ l4 s', l4 = NULL ∧ io_only s s').
Proof.
  intros Hsh Hva. destruct (shape_tables _ _ Hsh) as (T1&T2&T3&_).
  assert (∀ e, e = 0 → has e PTE_P = false) as Hz by (by intros ? ->).
  unfold lookup_l4pagetable.
  destruct (shape_absent s sh va Hsh ltac:(lia) ltac:(lia)) as [[_ E]|[(E0&_&E)|[(E0&E1&_&E)|?]]]; [| | |lia].
  - apply l4_loop_absent; [lia|done|by apply Hz].
  - unfold runs. rewrite (l4_loop_step _ 0 _ (L2 sh)); try done; [|rewrite E0, Z.mul_0_r, Z.add_0_r; apply Hsh].
    apply (l4_loop_absent 1 1); [lia|done|by apply Hz].
  - unfold runs. rewrite (l4_loop_step _ 0 _ (L2 sh)); try done; [|rewrite E0, Z.mul_0_r, Z.add_0_r; apply Hsh].
    rewrite (l4_loop_step _ (0 + 1) _ (L3 sh)); try done;
      [|change (0 + 1) with 1; rewrite E1, Z.mul_0_r, Z.add_0_r; apply Hsh].
    apply (l4_loop_absent 0 2); [lia|done|by apply Hz].
Qed.

(** Mapping there fails with -1 and changes no memory. *)
Lemma map_absent s sh va pa perm :
  shape_ok (mem s) sh → map_args va pa 4096 perm → has perm PTE_P = true → 0x400000 ≤ va < 2 ^ 48 →
  runs (virtual_memory_map (L1 sh) va pa 4096 perm) s (λ r s', r = -1 ∧ io_only s s').
Proof.
  intros Hsh Hargs HP Hva. destruct (shape_tables _ _ Hsh) as ((?&Hal&?)&_).
  unfold runs. rewrite virtual_memory_map_asserts by (exact Hargs || exact Hal || lia).
  change (Z.to_nat (4096 / 4096)) with 1%nat. cbn [map_loop].
  assert ((s32 (Z.shiftr va (PAGEOFFBITS + PAGEINDEXBITS)) =? -1) = false) as Hne.
  { rewrite Z.shiftr_div_pow2 by done. change (2 ^ (PAGEOFFBITS + PAGEINDEXBITS)) with (2 ^ 21).
    unfold s32. destruct (Z.eqb_spec ((va / 2 ^ 21 + 2 ^ 31) mod 2 ^ 32 - 2 ^ 31) (-1)) as [E|]; [exfalso|done].
    assert (0 ≤ va / 2 ^ 21 < 2 ^ 27) by (split; [apply Z.div_pos|apply Z.div_lt_upper_bound]; lia).
    rewrite Z.mod_small in E by lia. lia. }
  rewrite Hne. rewrite HP. apply runs_bind. eapply runs_mono; [by apply lookup_l4_absent|].
  intros l4 s1 [-> K1]. change (istrue NULL) with false. cbn [andb].
  apply runs_bind. eapply runs_mono; [apply (log_printf_io [VInt 0]);
    [repeat constructor|by eexists; vm_compute; reflexivity]|].
  intros [] s2 K2. apply runs_ret. split; [done|by transitivity s1].
Qed.
End unreachable.

(** ** The safety invariant *)

(** A free page taken and not mapped. *)
Lemma safe_take s n own :
  safe s → 1 ≤ n < 512 → refcount (pinfo s n) = 0 → safe (take_page n own s).
Proof.
  intros Hs Hn Hr.
  assert (∀ f, refcount (pinfo s f) ≠ 0 → pinfo (take_page n own s) f = pinfo s f) as Hpi.
  { intros f Hf. rewrite pinfo_take, decide_False by congruence. done. }
  destruct (safe_console s Hs) as [Hc0 Hc1].
  split.
  - apply (safe_pid s Hs).
  - apply (safe_shape s Hs).
  - intros q f Hq Hin. pose proof (safe_tables s Hs q f Hq Hin) as E. rewrite Hpi; rewrite E; done.
  - apply (safe_kernel s Hs).
  - intros q f Hq Hin.
    change (user_frames (kmem (take_page n own s)) (table_of (take_page n own s) q))
      with (user_frames (kmem s) (table_of s q)) in Hin.
    destruct (safe_frames s Hs q f Hq Hin) as [Hf Ho]. split; [done|].
    rewrite Hpi; [done|]. apply elem_frames_where in Hin as (w & Hw & HP & <-).
    destruct (user_frame_counted s q w Hs Hq ltac:(lia) HP) as (_&_&?). lia.
  - intros q w Hq Hw Hwr. pose proof (safe_writable s Hs q w Hq Hw Hwr) as E.
    change (leaf (kmem (take_page n own s)) (table_of (take_page n own s) q) w)
      with (leaf (kmem s) (table_of s q) w). rewrite Hpi; rewrite E; done.
  - intros f Hf. change (refs (take_page n own s) f) with (refs s f). rewrite pinfo_take.
    pose proof (safe_refs s Hs f Hf). case_decide as E; [subst; cbn; lia|done].
  - intros f Hf. rewrite pinfo_take. case_decide; [done|by apply (safe_counts s Hs)].
  - by rewrite Hpi.
Qed.

(** Mapping in the page table of [p]: the tables stay where they are, and what
    the other processes see does not change. *)
Section remap.
Context (s : kstate) (p V k pa perm : Z) (m' : gmap Z Z) (Hs : safe s) (Hl : live s p).
Context (Hm : mapped (table_of s p) (kmem s) m' V k pa perm).

Abbreviation s' := (set_kmem m' s).

Lemma remap_table : table_of s' p = table_of s p.
Proof. rewrite table_of_eq. apply (shape_at_ok m' (table_of s p)), Hm. Qed.

Lemma remap_others q :
  live s q → q ≠ p → table_of s' q = table_of s q ∧ shape_ok m' (table_of s q) ∧
  ∀ w, 0 ≤ w < 1024 → leaf m' (table_of s q) w = leaf (kmem s) (table_of s q) w.
Proof.
  intros Hq Hne. apply (live_kept s s'); [done|done|done|]. intros a Ha. apply (mapped_agree _ _ _ _ _ _ _ Hm).
  intros Hin. apply Hne.
  pose proof (in_table_frames _ _ (shape_pages _ _ (safe_shape s Hs q Hq)) Ha) as Hf1.
  assert (in_table (table_of s p) a) as Hb.
  { destruct (in_pages (table_of s p)) as (_&_&_&?&?). destruct Hin; eexists; (split; [|done]); done. }
  pose proof (in_table_frames _ _ (shape_pages _ _ (safe_shape s Hs p Hl)) Hb) as Hf2.
  pose proof (safe_tables s Hs q _ Hq Hf1) as E1. pose proof (safe_tables s Hs p _ Hl Hf2) as E2. congruence.
Qed.

Lemma remap_shape q : live s q → shape_ok (kmem s') (table_of s' q).
Proof.
  intros Hq. destruct (decide (q = p)) as [->|Hne].
  - rewrite remap_table. apply Hm.
  - destruct (remap_others q Hq Hne) as (->&?&_). done.
Qed.

Lemma remap_table_eq q : live s q → table_of s' q = table_of s q.
Proof.
  intros Hq. destruct (decide (q = p)) as [->|Hne]; [apply remap_table|]. by apply remap_others.
Qed.

(** Nothing changes for the invariant but the entries of [p]. *)
Lemma remap_refs f :
  refs s' f = refs s f - occ f (frames_of s p) + occ f (frames_of s' p).
Proof.
  unfold refs. pose proof (proj1 Hl) as Hp.
  rewrite (zsum_split (λ q, occ f (frames_of s' q)) p) by (apply elem_pids || apply pids_nodup; done).
  rewrite (zsum_split (λ q, occ f (frames_of s q)) p) by (apply elem_pids || apply pids_nodup; done).
  rewrite (zsum_ext (λ q, if decide (q = p) then 0 else occ f (frames_of s' q))
    (λ q, if decide (q = p) then 0 else occ f (frames_of s q))); [lia|].
  intros q _. case_decide as E; [done|]. f_equal.
  destruct (decide (live s q)) as [Hq|Hq].
  - rewrite (frames_of_live s' q Hq), (frames_of_live s q Hq). destruct (remap_others q Hq E) as (->&_&El).
    f_equal. apply frames_where_ext. intros w Hw. apply El. lia.
  - unfold frames_of. by rewrite !decide_False by done.
Qed.
End remap.

(** A page of the process that nothing refers to, mapped at a user address. *)
Section map_own.
Context (s : kstate) (p n V : Z) (m' : gmap Z Z) (Hs : safe s) (Hl : live s p).
Context (Hn : 1 ≤ n < 512) (Hpi : pinfo s n = MkInfo p 1) (Href : refs s n = 0).
Context (HV : 256 ≤ V < 1024) (Hm : mapped (table_of s p) (kmem s) m' V 1 (n * 4096) PTE_PWU).

Abbreviation sh := (table_of s p).
Abbreviation s' := (set_kmem m' s).

Lemma own_entry : new_entry (n * 4096) PTE_PWU = n * 4096 + 7 ∧ frame (n * 4096 + 7) = n ∧
  writable (n * 4096 + 7) = true ∧ present (n * 4096 + 7) = true.
Proof.
  assert (n * 4096 mod 4096 = 0) as Hal by (by apply Z.mod_mul). split; [done|]. split.
  - unfold frame. rewrite PTE_ADDR_entry by (done || lia). by apply Z.div_mul.
  - unfold writable, present. rewrite <- !(has_flags (n * 4096 + 7)) by done.
    by rewrite PTE_FLAGS_entry by (done || lia).
Qed.

Lemma own_leaf w : 0 ≤ w < 1024 → leaf m' sh w = if decide (w = V) then n * 4096 + 7 else leaf (kmem s) sh w.
Proof.
  intros Hw. rewrite (mapped_leaf _ _ _ _ _ _ _ Hm) by done. destruct (decide (w = V)) as [->|].
  - rewrite decide_True by lia. rewrite Z.sub_diag, Z.mul_0_l, Z.add_0_r. apply own_entry.
  - by rewrite decide_False by lia.
Qed.

Lemma own_table_eq q : live s q → table_of s' q = table_of s q.
Proof. by apply (remap_table_eq s p V 1 (n * 4096) PTE_PWU). Qed.

Lemma own_others q :
  live s q → q ≠ p → table_of s' q = table_of s q ∧ shape_ok m' (table_of s q) ∧
  ∀ w, 0 ≤ w < 1024 → leaf m' (table_of s q) w = leaf (kmem s) (table_of s q) w.
Proof. by apply (remap_others s p V 1 (n * 4096) PTE_PWU). Qed.

(** An entry is as before, or it is the new one. *)
Lemma own_leaf_any q w :
  live s q → 0 ≤ w < 1024 →
  leaf (kmem s') (table_of s' q) w = leaf (kmem s) (table_of s q) w ∨
  (q = p ∧ w = V ∧ leaf (kmem s') (table_of s' q) w = n * 4096 + 7).
Proof.
  intros Hq Hw. rewrite own_table_eq by done. destruct (decide (q = p)) as [->|Hne].
  - change (kmem s') with m'. rewrite own_leaf by done. case_decide; [by right|by left].
  - left. by apply own_others.
Qed.

Lemma own_occ f : occ f (frames_of s' p) ≤ occ f (frames_of s p) + (if decide (n = f) then 1 else 0).
Proof.
  destruct own_entry as (_&Ef&_&EP).
  rewrite (frames_of_live s' p Hl), (frames_of_live s p Hl), own_table_eq, !occ_app by done. unfold user_frames.
  change (kmem s') with m'. replace 768 with ((V - 256) + 1 + (1023 - V)) by lia.
  rewrite !(frames_where_app _ _ _ _ (V - 256 + 1) (1023 - V)), !frames_where_snoc, !occ_app, !occ_hit by lia.
  replace (256 + (V - 256)) with V by lia. rewrite (own_leaf V), decide_True, Ef, EP by (done || lia).
  rewrite (frames_where_ext present m' (kmem s) sh sh 256 (V - 256)).
  2:{ intros w Hw. rewrite own_leaf by lia. by rewrite decide_False by lia. }
  rewrite (frames_where_ext present m' (kmem s) sh sh (256 + (V - 256 + 1)) (1023 - V)).
  2:{ intros w Hw. rewrite own_leaf by lia. by rewrite decide_False by lia. }
  unfold hit at 1. pose proof (hit_range (present (leaf (kmem s) sh V)) (frame (leaf (kmem s) sh V)) f). lia.
Qed.

Lemma own_refs f : refs s' f ≤ refs s f + (if decide (n = f) then 1 else 0).
Proof.
  rewrite (remap_refs s p V 1 (n * 4096) PTE_PWU) by done. pose proof (own_occ f). lia.
Qed.

Lemma own_safe : safe s'.
Proof.
  destruct own_entry as (_&Ef&EW&EP). pose proof (proj1 Hl) as Hp. split.
  - apply (safe_pid s Hs).
  - by apply (remap_shape s p V 1 (n * 4096) PTE_PWU).
  - intros q f Hq Hin. rewrite own_table_eq in Hin by done. by apply (safe_tables s Hs q f).
  - intros q w Hq Hw. destruct (own_leaf_any q w Hq ltac:(lia)) as [->|(_&->&_)]; [|lia].
    by apply (safe_kernel s Hs).
  - intros q f Hq Hin. apply elem_frames_where in Hin as (w & Hw & HP & <-).
    destruct (own_leaf_any q w Hq ltac:(lia)) as [E|(->&->&E)]; rewrite E in HP |- *.
    + destruct (user_frame_counted s q w Hs Hq ltac:(lia) HP) as (?&?&_). done.
    + rewrite Ef. change (pinfo s' n) with (pinfo s n). rewrite Hpi. cbn. lia.
  - intros q w Hq Hw Hwr. destruct (own_leaf_any q w Hq ltac:(lia)) as [E|(->&->&E)]; rewrite E in Hwr |- *.
    + by apply (safe_writable s Hs).
    + by rewrite Ef.
  - intros f Hf. pose proof (own_refs f) as H1. change (pinfo s' f) with (pinfo s f).
    pose proof (safe_refs s Hs f Hf). case_decide as E; [subst f; rewrite Hpi; cbn; lia|lia].
  - apply (safe_counts s Hs).
  - apply (safe_console s Hs).
Qed.
End map_own.

(** ** The system call *)

(** Setting registers. *)
Definition set_regs (pid : Z) (g : x86_64_registers → x86_64_registers) (s : kstate) : kstate :=
  upd_proc pid (λ p, with_registers (g (p_registers p)) p) s.

Lemma put_current_rax_eq v s : put_current_rax v s = Ok () (set_regs (current s) (set_rax v) s).
Proof. reflexivity. Qed.

Lemma set_regs_core pid g s : core s (set_regs pid g s).
Proof.
  assert (∀ q, process (set_regs pid g s) q = if decide (pid = q)
    then with_registers (g (p_registers (process s pid))) (process s pid) else process s q) as Hp.
  { intros q. unfold set_regs. by rewrite process_upd. }
  split; try (intros q; rewrite Hp; case_decide; [by subst|done]); done.
Qed.

Section sys_page_alloc.
Context `{Devices} (s : kstate) (Hs : safe s) (Hl : live s (current s)).

Abbreviation p := (current s).
Abbreviation addr := (reg_rdi (p_registers (process s p))).

Lemma sys_page_alloc_run r s1 :
  sys_page_alloc_find_free (L1 (table_of s p)) p addr s = Ok r s1 → current s1 = p →
  sys_page_alloc s = Ok () (set_regs p (set_rax r) s1).
Proof.
  intros E Hc. unfold sys_page_alloc. erewrite bind_ok by reflexivity. unfold current_proc.
  rewrite (safe_pid s Hs p Hl), <- table_of_root. erewrite bind_ok by exact E.
  by rewrite put_current_rax_eq, Hc.
Qed.

Lemma live_pid : - 128 ≤ p < 128.
Proof. destruct Hl. lia. Qed.

(** The page is mapped. *)
Lemma page_alloc_maps n :
  first_free s 1 n → n < 512 → addr mod 4096 = 0 → PROC_START_ADDR ≤ addr < 0x400000 →
  ∃ m', sys_page_alloc s = Ok () (set_regs p (set_rax 0) (set_kmem m' (take_page n p s))) ∧
    mapped (table_of s p) (kmem s) m' (addr / 4096) 1 (n * 4096) PTE_PWU ∧
    safe (set_regs p (set_rax 0) (set_kmem m' (take_page n p s))).
Proof.
  intros Hff Hn Hal Ha. pose proof Hff as (Hn1&Hr&_). change PROC_START_ADDR with 0x100000 in Ha.
  destruct (map_ok (mach (take_page n p s)) (table_of s p) addr (n * 4096) 4096 PTE_PWU)
    as (m' & Em & Hm).
  { apply (safe_shape s Hs p Hl). }
  { unfold map_args. rewrite Hal, Z.mod_mul by lia. change (4096 mod 4096) with 0. change PTE_PWU with 7. lia. }
  { pose proof (Z.div_mod addr 4096). lia. }
  change (4096 / 4096) with 1 in Hm. exists m'. split; [|split; [exact Hm|]].
  - apply sys_page_alloc_run; [|reflexivity].
    rewrite (page_alloc_free _ _ _ _ n) by (done || apply live_pid).
    destruct (Z.ltb_spec addr PROC_START_ADDR) as [Hlt|_]; [change PROC_START_ADDR with 0x100000 in Hlt; lia|].
    rewrite (bind_ok _ _ _ _ _ (on_machine_ok _ _ _ _ Em)). reflexivity.
  - eapply core_safe; [|apply set_regs_core].
    apply (own_safe (take_page n p s) p n (addr / 4096)).
    + apply safe_take; [done|lia|done].
    + exact Hl.
    + lia.
    + by rewrite pinfo_take, decide_True.
    + change (refs (take_page n p s) n) with (refs s n). pose proof (safe_refs s Hs n ltac:(lia)).
      assert (0 ≤ refs s n) by (apply zsum_nonneg; intros; apply occ_nonneg). lia.
    + split; [apply Z.div_le_lower_bound; lia|apply Z.div_lt_upper_bound; lia].
    + exact Hm.
Qed.

(** Below the user address space the call fails, and keeps the page. *)
Lemma page_alloc_low n :
  first_free s 1 n → n < 512 → addr < PROC_START_ADDR →
  sys_page_alloc s = Ok () (set_regs p (set_rax (-1)) (take_page n p s)) ∧
  safe (set_regs p (set_rax (-1)) (take_page n p s)).
Proof.
  intros Hff Hn Ha. pose proof Hff as (Hn1&Hr&_). split.
  - apply sys_page_alloc_run; [|reflexivity].
    rewrite (page_alloc_free _ _ _ _ n) by (done || apply live_pid).
    by rewrite (proj2 (Z.ltb_lt _ _) Ha).
  - eapply core_safe; [|apply set_regs_core]. apply safe_take; [done|lia|done].
Qed.

Lemma page_alloc_full :
  no_free s →
  sys_page_alloc s = Ok () (set_regs p (set_rax (-1)) s) ∧ safe (set_regs p (set_rax (-1)) s).
Proof.
  intros Hno. split.
  - apply sys_page_alloc_run; [by apply page_alloc_none|reflexivity].
  - eapply core_safe; [exact Hs|apply set_regs_core].
Qed.

(** Beyond the tables the call reports success, and maps nothing. *)
Lemma page_alloc_high n :
  first_free s 1 n → n < 512 → addr mod 4096 = 0 → 0x400000 ≤ addr < 2 ^ 48 →
  ∃ mc, sys_page_alloc s = Ok () (set_regs p (set_rax 0) (set_mach mc (take_page n p s))) ∧
    io_only (mach s) mc.
Proof.
  intros Hff Hn Hal Ha. pose proof Hff as (Hn1&Hr&_).
  assert (runs (virtual_memory_map (L1 (table_of s p)) addr (n * 4096) 4096 PTE_PWU)
    (mach (take_page n p s)) (λ r s', r = -1 ∧ io_only (mach (take_page n p s)) s')) as Hrun.
  { apply map_absent; [apply (safe_shape s Hs p Hl)| |done|done].
    unfold map_args. rewrite Hal, Z.mod_mul by lia. change (4096 mod 4096) with 0. change PTE_PWU with 7. lia. }
  apply runs_iff in Hrun as (r & mc & Em & -> & Hio).
  exists mc. split; [|exact Hio].
  apply sys_page_alloc_run; [|reflexivity].
  rewrite (page_alloc_free _ _ _ _ n) by (done || apply live_pid).
  destruct (Z.ltb_spec addr PROC_START_ADDR) as [Hlt|_]; [change PROC_START_ADDR with 0x100000 in Hlt; lia|].
  unfold on_machine, zoom, mbind, M_bind. change PAGESIZE with 4096. by rewrite Em.
Qed.

(** An address that is not page-aligned fails the first assertion of
    [virtual_memory_map]: the kernel panics. *)
Lemma page_alloc_unaligned n :
  first_free s 1 n → n < 512 → addr mod 4096 ≠ 0 → PROC_START_ADDR ≤ addr →
  ∃ msg s', sys_page_alloc s = Halt (Panicked msg) s'.
Proof.
  intros Hff Hn Hal Ha.
  destruct (assert_fail_panics (A := ()) "vm.c" 102 "va % PAGESIZE == 0" (mach (take_page n p s))) as (msg & mc & Em).
  exists msg, (set_mach mc (take_page n p s)). unfold sys_page_alloc.
  erewrite bind_ok by reflexivity. unfold current_proc. rewrite (safe_pid s Hs p Hl).
  apply bind_halt. rewrite (page_alloc_free _ _ _ _ n) by (done || apply live_pid).
  rewrite (proj2 (Z.ltb_ge _ _) Ha). apply bind_halt. unfold on_machine, zoom, virtual_memory_map.
  change PAGESIZE with 4096. rewrite (proj2 (Z.eqb_neq _ _) Hal).
  assert (assert_ false "vm.c" 102 "va % PAGESIZE == 0" (mach (take_page n p s)) = Halt (Panicked msg) mc) as E by exact Em.
  by rewrite (bind_halt _ _ _ _ _ E).
Qed.
End sys_page_alloc.
