(* ===== verification/Canonical.v ===== *)
(** Virtual addresses beyond the page tables, and addresses above 2^48, of
    which [pageindex] sees the low 48 bits only. *)
From S2P Require Import Prelude X86 Machine CLib Printf Hardware PageTable Frames Syscalls Isolation Duplicate Fork ForkSafe Exit PageAlloc.
Open Scope Z_scope.

(** The address that [pageindex] and [PAGEOFFSET] see. *)
Definition low48 (va : Z) : Z := va mod 2 ^ 48.

Lemma low48_range va : 0 ≤ low48 va < 2 ^ 48.
Proof. apply Z.mod_pos_bound. lia. Qed.

Lemma low48_small va : 0 ≤ va < 2 ^ 48 → low48 va = va.
Proof. apply Z.mod_small. Qed.

Lemma low48_bit va i : 0 ≤ i < 48 → Z.testbit (low48 va) i = Z.testbit va i.
Proof. intros Hi. unfold low48. by rewrite Z.mod_pow2_bits_low by lia. Qed.

Lemma pageindex_low48 va level :
  0 ≤ level ≤ 3 → pageindex_bits (low48 va) level = pageindex_bits va level.
Proof.
  intros Hl. rewrite !pageindex_mod by done. change 512 with (2 ^ 9).
  apply Z.bits_inj'. intros i Hi. destruct (decide (i < 9)).
  - rewrite !Z.mod_pow2_bits_low, !Z.div_pow2_bits by lia. apply low48_bit. lia.
  - by rewrite !Z.mod_pow2_bits_high by lia.
Qed.

Lemma pageoffset_low48 va : PAGEOFFSET (low48 va) = PAGEOFFSET va.
Proof.
  unfold PAGEOFFSET. change PAGEOFFMASK with (Z.ones 12). rewrite !Z.land_ones by lia.
  unfold low48. apply Z.mod_mod_divide. by exists (2 ^ 36).
Qed.

Section low48.
Context `{Devices}.

Lemma entry_at_low48 pt va level s :
  0 ≤ level ≤ 3 → entry_at pt (low48 va) level s = entry_at pt va level s.
Proof.
  intros Hl. unfold entry_at. erewrite !bind_ok by (by apply pageindex_ok).
  by rewrite pageindex_low48.
Qed.

Lemma bind_ext {A B} (m m' : M machine A) (f g : A → M machine B) s :
  m s = m' s → (∀ a s', f a s' = g a s') → (m ≫= f) s = (m' ≫= g) s.
Proof. unfold mbind, M_bind. intros -> E. by destruct (m' s). Qed.

Lemma lookup_loop_low48 n i pt pe va s :
  0 ≤ i → lookup_loop n i pt pe (low48 va) s = lookup_loop n i pt pe va s.
Proof.
  revert i pt pe s. induction n as [|n IH]; intros i pt pe s Hi; cbn [lookup_loop]; [done|].
  destruct (Z.leb_spec i 3); cbn [andb]; [|done]. destruct (has pe PTE_P); [|done].
  apply bind_ext; [apply entry_at_low48; lia|]. intros e s'. apply IH. lia.
Qed.

Lemma lookup_low48 pt va s :
  virtual_memory_lookup pt (low48 va) s = virtual_memory_lookup pt va s.
Proof.
  unfold virtual_memory_lookup. apply bind_ext; [by apply lookup_loop_low48|].
  intros pe s'. by rewrite pageoffset_low48.
Qed.

Lemma l4_loop_low48 n i pt va perm s :
  0 ≤ i → i + Z.of_nat n ≤ 4 → l4_loop n i pt (low48 va) perm s = l4_loop n i pt va perm s.
Proof.
  revert i pt s. induction n as [|n IH]; intros i pt s Hi Hn; cbn [l4_loop]; [done|].
  apply bind_ext; [apply entry_at_low48; lia|]. intros e s'. destruct (negb (has e PTE_P)); [done|].
  do 3 (apply bind_ext; [done|]; intros). apply IH; lia.
Qed.

(** Nothing is mapped beyond the four megabytes of the tables. *)
Lemma lookup_beyond s sh va :
  shape_ok (mem s) sh → 0x400000 ≤ va < 2 ^ 48 → virtual_memory_lookup (L1 sh) va s = Ok unmapped s.
Proof.
  intros Hsh Hva. destruct (shape_tables _ _ Hsh) as (T1&T2&T3&_).
  destruct (shape_1 _ _ Hsh) as [A1 _], (shape_2 _ _ Hsh) as [A2 _].
  assert (pageindex_bits va 0 = 0 → PTE_ADDR (pte (mem s) (L1 sh) va 0) = L2 sh) as I0.
  { intros E. unfold pte. by rewrite E, Z.mul_0_r, Z.add_0_r. }
  assert (pageindex_bits va 1 = 0 → PTE_ADDR (pte (mem s) (L2 sh) va 1) = L3 sh) as I1.
  { intros E. unfold pte. by rewrite E, Z.mul_0_r, Z.add_0_r. }
  assert (has 0 PTE_P = false) as Hz by done.
  destruct (shape_absent s sh va Hsh ltac:(lia) ltac:(lia)) as [[_ E]|[(E0&_&E)|[(E0&E1&_&E)|?]]]; [| | |lia].
  - eapply lookup_absent; [reflexivity..|exact T1| | |]; rewrite E, Hz; done.
  - eapply lookup_absent; [reflexivity..|exact T1| | |]; rewrite I0 by done.
    + done.
    + by rewrite E, Hz.
    + by rewrite E, Hz, andb_false_r.
  - eapply lookup_absent; [reflexivity..|exact T1| | |]; rewrite !I0 by done.
    + done.
    + by rewrite I1.
    + by rewrite I1, E, Hz, andb_false_r.
Qed.

(** A lookup in a page table of this kernel, at any address. *)
Lemma lookup_any s sh va :
  shape_ok (mem s) sh →
  virtual_memory_lookup (L1 sh) va s
  = Ok (if decide (low48 va < 0x400000) then vamapping_of (leaf (mem s) sh (low48 va / 4096)) va else unmapped) s.
Proof.
  intros Hsh. rewrite <- lookup_low48. pose proof (low48_range va) as Hr. case_decide as Hlt.
  - rewrite lookup_leaf by (done || lia). unfold vamapping_of. by rewrite pageoffset_low48.
  - apply lookup_beyond; [done|lia].
Qed.

(** The loop of [virtual_memory_map] looks the table up for its first page. *)
Lemma cur_index_low48 va :
  0 ≤ va → low48 va < 0x400000 → s32 (Z.shiftr va (PAGEOFFBITS + PAGEINDEXBITS)) ≠ -1.
Proof.
  intros Hva Hlt. rewrite Z.shiftr_div_pow2 by done. change (2 ^ (PAGEOFFBITS + PAGEINDEXBITS)) with (2 ^ 21).
  assert (va / 2 ^ 21 mod 2 ^ 27 ≤ 1) as Hq.
  { assert (va / 2 ^ 21 mod 2 ^ 27 = low48 va / 2 ^ 21) as ->.
    { unfold low48. apply Z.bits_inj'. intros i Hi. destruct (decide (i < 27)).
      - rewrite Z.mod_pow2_bits_low, !Z.div_pow2_bits, Z.mod_pow2_bits_low by lia. done.
      - rewrite Z.mod_pow2_bits_high, Z.div_pow2_bits, Z.mod_pow2_bits_high by lia. done. }
    pose proof (Z.div_lt_upper_bound (low48 va) (2 ^ 21) 2). lia. }
  unfold s32. set (q := va / 2 ^ 21) in *. intros E.
  pose proof (Z.div_mod (q + 2 ^ 31) (2 ^ 32)). pose proof (Z.div_mod q (2 ^ 27)).
  pose proof (Z.mod_pos_bound q (2 ^ 27)). lia.
Qed.

(** Mapping one page, at any address that lands in the tables. *)
Lemma map_low48 s sh va pa perm :
  shape_ok (mem s) sh → map_args va pa 4096 perm → va + 4096 ≤ 2 ^ 63 → low48 va < 0x400000 →
  virtual_memory_map (L1 sh) va pa 4096 perm s = virtual_memory_map (L1 sh) (low48 va) pa 4096 perm s.
Proof.
  intros Hsh Hargs Hend Hlt. pose proof Hargs as (Hva0&Hal&?&?&Hperm&Hpa). pose proof (low48_range va) as Hr.
  destruct (shape_tables _ _ Hsh) as ((_&Hpt&_)&_).
  assert (low48 va mod 4096 = 0) as Hal'.
  { unfold low48. rewrite Z.mod_mod_divide by (by exists (2 ^ 36)). exact Hal. }
  assert (map_args (low48 va) pa 4096 perm) as Hargs' by (unfold map_args; tauto).
  rewrite !virtual_memory_map_asserts by (assumption || lia).
  change (Z.to_nat (4096 / 4096)) with 1%nat. cbn [map_loop].
  rewrite (proj2 (Z.eqb_neq _ _) (cur_index_low48 va Hva0 Hlt)).
  assert (low48 (low48 va) = low48 va) as Eid by (by apply low48_small).
  rewrite (proj2 (Z.eqb_neq _ _) (cur_index_low48 (low48 va) (proj1 Hr) ltac:(by rewrite Eid))).
  apply bind_ext; [symmetry; apply l4_loop_low48; lia|]. intros l4 s'.
  assert (∀ (v : Z) s'', (i ← pageindex va 3; write 8 (l4 + 8 * i) v;; mret 0) s'' =
    (i ← pageindex (low48 va) 3; write 8 (l4 + 8 * i) v;; mret 0) s'') as E.
  { intros v s''. rewrite (bind_ok _ _ _ _ _ (pageindex_ok va 3 s'' ltac:(lia))).
    rewrite (bind_ok _ _ _ _ _ (pageindex_ok (low48 va) 3 s'' ltac:(lia))). by rewrite pageindex_low48. }
  destruct (has perm PTE_P && istrue l4); [apply E|]. destruct (istrue l4); [apply E|]. done.
Qed.

(** The contract of [virtual_memory_map] for one page, wherever it lands. *)
Lemma map_page s sh va pa perm :
  shape_ok (mem s) sh → map_args va pa 4096 perm → va + 4096 ≤ 2 ^ 63 → low48 va < 0x400000 →
  ∃ m', virtual_memory_map (L1 sh) va pa 4096 perm s = Ok 0 (set_mem m' s) ∧
        mapped sh (mem s) m' (low48 va / 4096) 1 pa perm.
Proof.
  intros Hsh Hargs Hend Hlt. rewrite map_low48 by done. pose proof Hargs as (_&Hal&Hrest).
  pose proof (low48_range va).
  assert (low48 va mod 4096 = 0) as Hal'.
  { unfold low48. rewrite Z.mod_mod_divide by (by exists (2 ^ 36)). exact Hal. }
  apply (map_ok s sh (low48 va) pa 4096 perm Hsh); [unfold map_args; tauto|].
  pose proof (Z.div_mod (low48 va) 4096). lia.
Qed.
End low48.
