(* ===== verification/Mmu.v ===== *)
(** The processor's translation of virtual addresses, memory as it is reached
    through it, and its agreement with [virtual_memory_lookup] on the page
    tables of the kernel. *)
From S2P Require Import Prelude X86 Machine CLib Printf Hardware PageTable Frames Syscalls Isolation Demo Duplicate Fork ForkSafe Exit PageAlloc Canonical.
Open Scope Z_scope.

(** ** The page walk

    Every level of the active table has to grant what the access needs:
    [PTE_P], with [PTE_W] for a store ([CR0_WP] is set) and [PTE_U] in user
    mode.  Large pages are not used by these tables. *)

Fixpoint page_walk (n : nat) (level : Z) (pt va need : Z) (m : gmap Z Z) : option Z :=
  match n with
  | O => Some (pt + PAGEOFFSET va)
  | S n =>
      let a := pt + 8 * pageindex_bits va level in
      if negb (in_memory a 8) then None else
      let e := load 8 m a in
      if Z.land e need =? need then page_walk n (level + 1) (PTE_ADDR e) va need m else None
  end.

(** Bits 63 to 47 of an address are equal, or the access faults. *)
Definition canonical (va : Z) : bool := (va <? 2 ^ 47) || (2 ^ 64 - 2 ^ 47 <=? va).

Definition translate (va need : Z) (s : machine) : option Z :=
  if canonical va then page_walk 4 0 (cr3 s) va need (mem s) else None.

(** ** Memory through the active page table

    Where the kernel runs while the page table of a process is the active one,
    its loads and stores go through the processor's translation.  An access of
    [n] bytes here is of one byte or of an aligned page-table entry, and never
    crosses a page. *)

Definition vread (n : nat) (va : Z) : M machine Z := λ s,
  match translate va PTE_P s with
  | Some a => match read n a s with Halt _ s => Halt (KernelFault va) s | r => r end
  | None => Halt (KernelFault va) s
  end.

Definition vwrite (n : nat) (va v : Z) : M machine () := λ s,
  match translate va PTE_PW s with
  | Some a => match write n a v s with Halt _ s => Halt (KernelFault va) s | r => r end
  | None => Halt (KernelFault va) s
  end.

(** Page tables reached through the active page table. *)
Definition through_cr3 : Access := MkAccess (vread 8) (vwrite 8).

(** ** The page walk of the kernel's tables *)

Definition access (need : Z) : Prop := need ∈ [PTE_P; PTE_PW; PTE_PU; PTE_PWU].

Lemma access_bits need : access need → Z.land PTE_PWU need = need ∧ Z.testbit need 0 = true ∧ 0 ≤ need < 8.
Proof.
  unfold access. rewrite !elem_of_cons, elem_of_nil.
  change PTE_P with 1. change PTE_PW with 3. change PTE_PU with 5. change PTE_PWU with 7.
  intros [->|[->|[->|[->|[]]]]]; repeat split; lia.
Qed.

Lemma need_present e need : access need → Z.land e need = need → has e PTE_P = true.
Proof.
  intros Hn E. destruct (access_bits need Hn) as (_ & Hb & _).
  rewrite has_P. rewrite <- E, Z.land_spec in Hb. by apply andb_prop in Hb as [? _].
Qed.

Lemma need_flags e need : access need → Z.land (PTE_FLAGS e) need = Z.land e need.
Proof.
  intros Hn. destruct (access_bits need Hn) as (H7 & _ & _).
  assert (Z.land 0xFFF need = need) as E.
  { rewrite <- H7 at 1. rewrite Z.land_assoc. exact H7. }
  unfold PTE_FLAGS. rewrite <- Z.land_assoc. by rewrite E.
Qed.

Lemma link_need m a p need : access need → link m a p → Z.land (load 8 m a) need = need.
Proof.
  intros Hn [_ E]. destruct (access_bits need Hn) as (H7 & _ & _).
  rewrite <- H7 at 1. by rewrite Z.land_assoc, E.
Qed.

Lemma page_walk_step n i pt va need m :
  table_page pt → 0 ≤ i ≤ 3 →
  page_walk (S n) i pt va need m
  = if Z.land (pte m pt va i) need =? need then page_walk n (i + 1) (PTE_ADDR (pte m pt va i)) va need m else None.
Proof.
  intros (?&?&?) Hi. cbn [page_walk]. unfold pte. pose proof (pageindex_range va i Hi).
  rewrite in_memory_true by zlia. done.
Qed.

Section walk.
Context (m : gmap Z Z) (sh : pt_shape) (va need : Z) (Hsh : shape_ok m sh) (Hn : access need).

Lemma walk_refused e : has e PTE_P = false → (Z.land e need =? need) = false.
Proof.
  intros HP. apply Z.eqb_neq. intros E. by rewrite (need_present _ _ Hn E) in HP.
Qed.

Lemma walk_leaf :
  0 ≤ va < 0x400000 →
  page_walk 4 0 (L1 sh) va need m
  = if Z.land (leaf m sh (va / 4096)) need =? need
    then Some (PTE_ADDR (leaf m sh (va / 4096)) + PAGEOFFSET va) else None.
Proof.
  intros Hva. set (s := machine_with m). assert (shape_ok (mem s) sh) as Hs by exact Hsh.
  destruct (shape_levels s sh va Hs Hva) as (E0&E1&H3). change (mem s) with m in *.
  destruct (shape_tables _ _ Hsh) as (T1&T2&T3&_&_).
  pose proof (shape_1 _ _ Hsh) as K1. pose proof (shape_2 _ _ Hsh) as K2.
  rewrite page_walk_step, E0, (link_need _ _ _ _ Hn K1), Z.eqb_refl by (done || lia).
  rewrite (proj1 K1), page_walk_step by (done || lia). change (0 + 1) with 1.
  rewrite E1, (link_need _ _ _ _ Hn K2), Z.eqb_refl by (done || lia).
  rewrite (proj1 K2), page_walk_step by (done || lia). change (1 + 1) with 2. unfold pte at 1 2.
  rewrite (link_need _ _ _ _ Hn H3), Z.eqb_refl, (proj1 H3).
  rewrite page_walk_step by (lia || by apply (l4_table m sh Hsh)). change (2 + 1) with 3.
  pose proof (pte_leaf s sh va Hva) as El. change (mem s) with m in El. by rewrite El.
Qed.

Lemma walk_beyond : 0x400000 ≤ va < 2 ^ 48 → page_walk 4 0 (L1 sh) va need m = None.
Proof.
  intros Hva. set (s := machine_with m). assert (shape_ok (mem s) sh) as Hs by exact Hsh.
  destruct (shape_tables _ _ Hsh) as (T1&T2&T3&_).
  destruct (shape_1 _ _ Hsh) as [A1 _], (shape_2 _ _ Hsh) as [A2 _].
  assert (pageindex_bits va 0 = 0 → PTE_ADDR (pte m (L1 sh) va 0) = L2 sh) as I0.
  { intros E. unfold pte. by rewrite E, Z.mul_0_r, Z.add_0_r. }
  assert (pageindex_bits va 1 = 0 → PTE_ADDR (pte m (L2 sh) va 1) = L3 sh) as I1.
  { intros E. unfold pte. by rewrite E, Z.mul_0_r, Z.add_0_r. }
  assert (∀ e, e = 0 → (Z.land e need =? need) = false) as Hz by (intros e ->; by apply walk_refused).
  rewrite page_walk_step by (done || lia).
  destruct (shape_absent s sh va Hs ltac:(lia) ltac:(lia)) as [[_ E]|[(E0&_&E)|[(E0&E1&_&E)|?]]];
    [| | |lia]; change (mem s) with m in E.
  - by rewrite Hz.
  - rewrite I0 by done. destruct (_ =? need); [|done]. rewrite page_walk_step by (done || lia).
    change (0 + 1) with 1. by rewrite Hz.
  - rewrite I0 by done. destruct (_ =? need); [|done]. rewrite page_walk_step by (done || lia).
    change (0 + 1) with 1. rewrite I1 by done. destruct (_ =? need); [|done].
    rewrite page_walk_step by (done || lia). change (1 + 1) with 2. by rewrite Hz.
Qed.
End walk.

Lemma page_walk_low48 n i pt va need m :
  0 ≤ i → i + Z.of_nat n ≤ 4 → page_walk n i pt (low48 va) need m = page_walk n i pt va need m.
Proof.
  revert i pt. induction n as [|n IH]; intros i pt Hi Hn; cbn [page_walk].
  - by rewrite pageoffset_low48.
  - rewrite pageindex_low48 by lia. destruct (negb _); [done|]. destruct (_ =? need); [|done]. apply IH; lia.
Qed.

(** The translation of any address. *)
Lemma translate_any s sh va need :
  shape_ok (mem s) sh → access need → cr3 s = L1 sh →
  translate va need s
  = if canonical va && bool_decide (low48 va < 0x400000)
       && (Z.land (leaf (mem s) sh (low48 va / 4096)) need =? need)
    then Some (PTE_ADDR (leaf (mem s) sh (low48 va / 4096)) + PAGEOFFSET va) else None.
Proof.
  intros Hsh Hn E. unfold translate. rewrite E. destruct (canonical va); [|done]. cbn [andb].
  rewrite <- page_walk_low48 by (simpl; lia). pose proof (low48_range va).
  destruct (decide (low48 va < 0x400000)).
  - rewrite bool_decide_eq_true_2 by done. cbn [andb]. rewrite walk_leaf by (done || lia).
    by rewrite pageoffset_low48.
  - rewrite bool_decide_eq_false_2 by done. apply walk_beyond; (done || lia).
Qed.

(** C24: [virtual_memory_lookup] reports what the processor does.  In an address
    space of this kernel, an access that needs [need] (reading or writing, from
    the kernel or from user mode) at a canonical address is translated to the
    reported physical address when the reported permissions include [need],
    and faults otherwise. *)
Theorem lookup_is_translation `{Devices} s sh va need :
  shape_ok (mem s) sh → cr3 s = L1 sh → 0 ≤ va < 2 ^ 64 → canonical va = true → access need →
  ∃ vam, virtual_memory_lookup (L1 sh) va s = Ok vam s ∧
    translate va need s = if Z.land (perm vam) need =? need then Some (pa vam) else None.
Proof.
  intros Hsh Hcr Hva Hcan Hn. eexists. split; [by apply lookup_any|].
  rewrite (translate_any s sh) by done. rewrite Hcan. cbn [andb].
  destruct (access_bits need Hn) as (_ & Hb & Hr).
  assert ((Z.land 0 need =? need) = false) as H0 by (by apply walk_refused).
  case_decide as Hlt; [rewrite bool_decide_eq_true_2 by done|].
  2:{ rewrite bool_decide_eq_false_2 by done. cbn [andb perm unmapped]. by rewrite H0. }
  cbn [andb]. set (e := leaf _ _ _). unfold vamapping_of. destruct (has e PTE_P) eqn:HP; cbn [perm pa].
  - rewrite need_flags by done. destruct (Z.land e need =? need); [|done]. f_equal.
    pose proof (leaf_range (mem s) sh (low48 va / 4096)) as He. fold e in He.
    pose proof (PTE_ADDR_range e He). pose proof (PTE_ADDR_sub e He). rewrite PAGEOFFSET_mod.
    pose proof (Z.mod_pos_bound va 4096). pose proof (Z.mod_pos_bound e 4096).
    pose proof (Z.div_mod e 4096). rewrite u64_small; [done|]. change (2 ^ 64) with (4096 * 2 ^ 52) in *. nia.
  - cbn [unmapped perm]. rewrite (walk_refused need Hn e HP). by rewrite H0.
Qed.

Lemma shape_set_cr3 s sh x : shape_ok (kmem s) sh → shape_ok (mem (set_cr3 x (mach s))) sh.
Proof. done. Qed.

Lemma lookup_is_translation_witness :
  ∃ vam, @virtual_memory_lookup (λ _ _, 0) physical (L1 (table_of demo 1)) 0x100123 (set_cr3 (L1 (table_of demo 1)) (mach demo))
      = Ok vam (set_cr3 (L1 (table_of demo 1)) (mach demo)) ∧
    translate 0x100123 PTE_PWU (set_cr3 (L1 (table_of demo 1)) (mach demo))
      = if Z.land (perm vam) PTE_PWU =? PTE_PWU then Some (pa vam) else None.
Proof.
  apply (@lookup_is_translation (λ _ _, 0)).
  - exact (shape_set_cr3 demo _ _ (safe_shape demo demo_safe 1 (proj2 (demo_live 1) eq_refl))).
  - reflexivity.
  - lia.
  - reflexivity.
  - unfold access. rewrite !elem_of_cons. right. right. right. left. reflexivity.
Defined.
