(* ===== verification/Contracts.v ===== *)
(** What the system calls of [src/kernel.c] promise a process: isolation, fork,
    exit and page allocation, on states that satisfy the safety invariant. *)
From S2P Require Import Prelude X86 Machine CLib Printf Hardware PageTable Frames Syscalls Isolation Demo Duplicate Fork ForkSafe Exit PageAlloc Canonical.
Open Scope Z_scope.

#[local] Opaque frames_where.

(** ** Isolation *)

(** A page that a process can write is in no page table and in no other
    process. *)
Lemma writable_private s p w :
  safe s → live s p → 256 ≤ w < 1024 → writable (leaf (kmem s) (table_of s p) w) = true →
  let f := frame (leaf (kmem s) (table_of s p) w) in
  1 ≤ f < 512 ∧ pinfo s f = MkInfo p 1 ∧
  (∀ q, live s q → f ∉ table_frames (table_of s q)) ∧
  (∀ q, live s q → q ≠ p → f ∉ frames_of s q).
Proof.
  intros Hs Hp Hw Hwr f.
  assert (present (leaf (kmem s) (table_of s p) w) = true) as HP by (by apply andb_prop in Hwr as [? _]).
  destruct (user_frame_counted s p w Hs Hp Hw HP) as (Hf & _ & _). fold f in Hf.
  pose proof (safe_writable s Hs p w Hp Hw Hwr) as Hpi. fold f in Hpi.
  assert (f ∈ frames_where writable (kmem s) (table_of s p) 256 768) as Hin.
  { apply elem_frames_where. exists w. split_and!; try done; lia. }
  assert (∀ q, live s q → q ≠ p → f ∉ frames_of s q) as Hother.
  { intros q Hq Hne. apply (frame_exclusive s p q f); try done; [lia|by rewrite Hpi|].
    rewrite frames_of_live by done. apply elem_of_app. right. apply elem_frames_where.
    exists w. split_and!; try done; lia. }
  split; [done|]. split; [done|]. split; [|done].
  intros q Hq Ht. destruct (decide (q = p)) as [->|Hne].
  - pose proof (safe_refs s Hs f ltac:(lia)) as Hr. rewrite Hpi in Hr. cbn [refcount] in Hr.
    pose proof (refs_ge s p f (proj1 Hp)). pose proof (occ_frames_of s p f Hp) as Ho.
    apply occ_pos in Ht, Hin.
    pose proof (occ_nonneg f (frames_where shared (kmem s) (table_of s p) 256 768)). lia.
  - apply (Hother q Hq Hne). rewrite frames_of_live by done. apply elem_of_app. by left.
Qed.

(** The entry of any page below four megabytes that user code of [q] reaches. *)
Definition user_accessible (e : Z) : bool := has e PTE_P && has e PTE_U.

Lemma kernel_accessible s q w :
  safe s → live s q → 0 ≤ w < 256 → user_accessible (leaf (kmem s) (table_of s q) w) = true →
  frame (leaf (kmem s) (table_of s q) w) = CONSOLE_ADDR / 4096.
Proof.
  intros Hs Hq Hw Hu. destruct (safe_kernel s Hs q w Hq Hw) as (Ha & HP & _ & HU).
  unfold user_accessible in Hu. rewrite HP, HU in Hu. apply bool_decide_eq_true in Hu. subst w.
  unfold frame. by rewrite Ha, Z.div_mul by lia.
Qed.

(** A physical page that a process can write through its user address space is
    one reference, that process's own; it is not part of any page table, and no
    other process reaches it at any virtual address. *)
Lemma isolated s p q v w :
  safe s → live s p → live s q → p ≠ q → 256 ≤ v < 1024 → 0 ≤ w < 1024 →
  writable (leaf (kmem s) (table_of s p) v) = true →
  pinfo s (frame (leaf (kmem s) (table_of s p) v)) = MkInfo p 1 ∧
  (∀ r, live s r → frame (leaf (kmem s) (table_of s p) v) ∉ table_frames (table_of s r)) ∧
  (user_accessible (leaf (kmem s) (table_of s q) w) = true →
   frame (leaf (kmem s) (table_of s q) w) ≠ frame (leaf (kmem s) (table_of s p) v)).
Proof.
  intros Hs Hp Hq Hne Hv Hw Hwr. destruct (writable_private s p v Hs Hp Hv Hwr) as (Hf & Hpi & Ht & Ho).
  split; [done|]. split; [done|]. intros Hu E. destruct (decide (w < 256)) as [Hlt|Hge].
  - pose proof (kernel_accessible s q w Hs Hq ltac:(lia) Hu) as Ec. rewrite <- E, Ec in Hpi.
    destruct (safe_console s Hs) as [Hc _]. rewrite Hpi in Hc. cbn in Hc. destruct Hp. lia.
  - apply (Ho q Hq ltac:(congruence)). rewrite frames_of_live, <- E by done. apply elem_of_app. right.
    apply elem_frames_where. exists w. split; [lia|]. split; [|done].
    by apply andb_prop in Hu as [? _].
Qed.

(** ** fork *)

Lemma forked_kept s s' c q :
  safe s → fork_pre s c → forked s s' c → live s q →
  table_of s' q = table_of s q ∧ shape_ok (kmem s') (table_of s q) ∧
  ∀ w, 0 ≤ w < 1024 → leaf (kmem s') (table_of s q) w = leaf (kmem s) (table_of s q) w.
Proof.
  intros Hs Hpre Hk Hq.
  assert (q ≠ c) as Hqc by (intros ->; by apply (proj2 Hq), (fp_slot s c Hpre)).
  apply live_kept; [done|done| |].
  - destruct (decide (q = current s)) as [->|]; [by rewrite (fk_parent _ _ _ Hk)|].
    by rewrite (fk_others _ _ _ Hk).
  - intros a Ha. apply (fk_memory _ _ _ Hk).
    pose proof (in_table_frames _ _ (shape_pages _ _ (safe_shape s Hs q Hq)) Ha) as Hin.
    pose proof (table_frame_range s Hs q _ Hq Hin). rewrite (safe_tables s Hs q _ Hq Hin). cbn. lia.
Qed.

Lemma forked_live s s' c q : fork_pre s c → forked s s' c → live s q ∨ q = c → live s' q.
Proof.
  intros Hpre Hk Hq. pose proof (fp_live s c Hpre) as Hl. destruct (fp_slot s c Hpre) as [Hc Hfree].
  unfold live. destruct Hq as [[Hr Hst]| ->].
  - split; [done|]. destruct (decide (q = c)) as [->|]; [done|].
    destruct (decide (q = current s)) as [->|]; [by rewrite (fk_parent _ _ _ Hk)|].
    by rewrite (fk_others _ _ _ Hk).
  - split; [done|]. by rewrite (fk_child _ _ _ Hk).
Qed.

(** C10: fork copies the process.  With a free slot [c], the first one, and
    enough free pages, the call returns: the parent's %rax is [c] and the
    child's 0, the child is runnable, and its address space is a copy of the
    parent's ([forked]: every writable page below [MEMSIZE_VIRTUAL] copied into
    a fresh page of the child's with the same permissions and contents, every
    other page shared and counted, nothing else in memory in use or in the
    process table changed); the safety invariant still holds. *)
Theorem fork_copies `{Devices} s c :
  safe s → fork_pre s c →
  ∃ s', sys_fork s = Ok () s' ∧ forked s s' c ∧ safe s' ∧ live s' c ∧ live s' (current s).
Proof.
  intros Hs Hpre. destruct (fork_ok s c Hs Hpre) as (s' & E & Hk & Hs'). exists s'.
  split; [done|]. split; [done|]. split; [done|].
  split; apply (forked_live s s' c); try done; [by right|left; apply Hpre].
Qed.

Lemma demo_writable : frames_where writable (kmem demo) (table_of demo 1) 256 512 = [15; 302].
Proof. vm_compute. reflexivity. Qed.

Lemma demo_shared : frames_where shared (kmem demo) (table_of demo 1) 256 512 = [301].
Proof. vm_compute. reflexivity. Qed.

Lemma demo_nfree : nfree demo = 382.
Proof. vm_compute. reflexivity. Qed.

Lemma demo_room : forall_range 0 512 (λ f, refcount (pinfo demo f) + occ f [301] <=? 127) = true.
Proof. vm_compute. reflexivity. Qed.

Lemma demo_fork_pre : fork_pre demo 2.
Proof.
  split; change (current demo) with 1.
  - by apply demo_live.
  - split; [lia|]. vm_compute. reflexivity.
  - intros k Hk. assert (k = 1) as -> by lia. by apply (proj2 (demo_live 1)).
  - rewrite demo_writable, demo_nfree. cbn. lia.
  - intros f Hf. rewrite demo_shared. apply Z.leb_le.
    apply (forall_range_spec 0 512 (λ f, refcount (pinfo demo f) + occ f [301] <=? 127) f demo_room). lia.
Qed.

Lemma fork_copies_witness :
  ∃ s', @sys_fork (λ _ _, 0) demo = Ok () s' ∧ safe s' ∧ p_state (process s' 2) = P_RUNNABLE.
Proof.
  destruct (@fork_copies (λ _ _, 0) demo 2 demo_safe demo_fork_pre) as (s' & E & Hk & Hs & _).
  exists s'. split; [exact E|]. split; [exact Hs|]. rewrite (fk_child _ _ _ Hk). reflexivity.
Defined.

Lemma rax_set v r : reg_rax (set_rax v r) = u64 v.
Proof. by destruct r. Qed.

Lemma fork_no_slot `{Devices} s :
  (∀ k, 1 ≤ k < NPROC → p_state (process s k) ≠ P_FREE) →
  sys_fork s = Ok () (set_regs (current s) (set_rax (-1)) s).
Proof.
  intros Hno. change NPROC with 16 in Hno.
  assert (∀ n k, 1 ≤ k → k + Z.of_nat n = 16 → (0 < n)%nat →
    fork_loop n k s = Ok () (set_regs (current s) (set_rax (-1)) s)) as Hl.
  { intros n. induction n as [|n IH]; intros k Hk Hn H0; [lia|]. cbn [fork_loop].
    erewrite bind_ok by reflexivity. rewrite decide_False by (apply Hno; lia).
    destruct (Z.eqb_spec (k + 1) NPROC) as [E|E]; change NPROC with 16 in E.
    - assert (n = 0%nat) as -> by lia. erewrite bind_ok by apply put_current_rax_eq. reflexivity.
    - erewrite bind_ok by reflexivity. apply IH; lia. }
  apply Hl; [lia|reflexivity|apply Nat.ltb_lt; reflexivity].
Qed.

(** With all fifteen process slots taken, fork fails: the caller's %rax is
    -1 and nothing else changes. *)
Theorem fork_without_slot `{Devices} s :
  (∀ k, 1 ≤ k < NPROC → p_state (process s k) ≠ P_FREE) →
  ∃ s', sys_fork s = Ok () s' ∧ reg_rax (p_registers (process s' (current s))) = u64 (-1) ∧
    s' = set_regs (current s) (set_rax (-1)) s.
Proof.
  intros Hno. eexists. split; [by apply fork_no_slot|]. split; [|done].
  unfold set_regs. rewrite process_upd, decide_True by done. apply rax_set.
Qed.

Definition full_slots : kstate :=
  set_processes (list_to_map ((λ k, (k, with_state P_RUNNABLE zero_proc)) <$> seqZ 1 15)) demo.

Lemma fork_without_slot_witness :
  ∃ s', @sys_fork (λ _ _, 0) full_slots = Ok () s' ∧ reg_rax (p_registers (process s' 1)) = 2 ^ 64 - 1.
Proof.
  destruct (@fork_without_slot (λ _ _, 0) full_slots) as (s' & E & Hr & _).
  - intros k Hk.
    assert (forall_range 1 15 (λ k, negb (bool_decide (p_state (process full_slots k) = P_FREE))) = true) as Hb
      by (vm_compute; reflexivity).
    pose proof (forall_range_spec _ _ _ k Hb) as Hx. change NPROC with 16 in Hk.
    specialize (Hx ltac:(lia)). apply negb_true_iff, bool_decide_eq_false in Hx. exact Hx.
  - exists s'. split; [exact E|]. exact Hr.
Defined.

(** ** exit *)

(** C11: exit frees the process.  It never fails; the process's slot and its page
    table are free; of the pages it had mapped between [PROC_START_ADDR] and
    [MEMSIZE_VIRTUAL], those it could write are free, and one it shared has one
    reference less for each place it was mapped; pages mapped from there on, as
    page_alloc allows, are not freed.  No other page, process or byte of memory
    changes ([exited]); the invariant holds. *)
Theorem exit_frees `{Devices} s :
  safe s → live s (current s) →
  ∃ s', sys_exit s = Ok () s' ∧ exited s s' ∧ safe s' ∧ ¬ live s' (current s).
Proof.
  intros Hs Hl. destruct (exit_ok s Hs Hl) as (s' & E & Hx & Hs'). exists s'.
  split; [done|]. split; [done|]. split; [done|].
  intros Hq. apply (exit_live s s' Hx) in Hq as [_ Hne]. by apply Hne.
Qed.

Lemma exit_frees_witness :
  ∃ s', @sys_exit (λ _ _, 0) demo = Ok () s' ∧ safe s' ∧ pinfo s' 15 = MkInfo 0 0.
Proof.
  destruct (@exit_frees (λ _ _, 0) demo demo_safe (proj2 (demo_live 1) eq_refl)) as (s' & E & Hx & Hs & _).
  exists s'. split; [exact E|]. split; [exact Hs|]. rewrite (ex_pinfo _ _ Hx) by lia.
  change (current demo) with 1. rewrite decide_True; [reflexivity|].
  unfold private_frames. rewrite demo_writable. apply elem_of_app. right. apply elem_of_cons. left. reflexivity.
Defined.

Lemma set_current_core p s : core s (set_current p s).
Proof. by split. Qed.

(** C21: fork and exit do not leak.  When the child of a fork exits, every
    physical page has the reference count it had before the fork, and as many
    pages are free. *)
Theorem fork_exit_conserves `{Devices} s c s1 s3 :
  safe s → fork_pre s c → sys_fork s = Ok () s1 → sys_exit (set_current c s1) = Ok () s3 →
  (∀ f, 0 ≤ f < 512 → refcount (pinfo s3 f) = refcount (pinfo s f)) ∧ nfree s3 = nfree s ∧
  p_state (process s3 c) = P_FREE ∧ safe s3.
Proof.
  intros Hs Hpre E1 E3. destruct (fork_ok s c Hs Hpre) as (s1' & E1' & Hk & Hs1).
  rewrite E1 in E1'. injection E1' as <-.
  pose proof (core_safe _ _ Hs1 (set_current_core c s1)) as Hs2. set (s2 := set_current c s1) in *.
  assert (live s2 c) as Hl by (apply (forked_live s s1 c c Hpre Hk); by right).
  destruct (exit_ok s2 Hs2 Hl) as (s3' & E3' & Hx & Hs3). rewrite E3 in E3'. injection E3' as <-.
  assert (∀ f, 0 ≤ f < 512 → refcount (pinfo s3 f) = refcount (pinfo s f)) as Hc.
  { intros f Hf. rewrite (ex_pinfo _ _ Hx) by done.
    pose proof (fk_counts _ _ _ Hk f Hf) as Hn. rewrite occ_present in Hn.
    change (pinfo s2 f) with (pinfo s1 f). change (kmem s2) with (kmem s1).
    change (table_of s2 (current s2)) with (table_of s1 c).
    pose proof (occ_nonneg f (table_frames (table_of s1 c))) as H1.
    pose proof (occ_nonneg f (frames_where writable (kmem s1) (table_of s1 c) 256 512)) as H2.
    pose proof (occ_nonneg f (frames_where shared (kmem s1) (table_of s1 c) 256 512)) as H3.
    pose proof (safe_counts s Hs f Hf).
    case_decide as Hin; cbn [refcount].
    - destruct (private_frames_of s2 Hs2 Hl f Hin) as [_ Hr]. change (pinfo s2 f) with (pinfo s1 f) in Hr.
      change (current s2) with c in Hin. unfold private_frames in Hin.
      rewrite elem_of_app, <- !occ_pos in Hin. change (kmem s2) with (kmem s1) in Hin.
      change (table_of s2 c) with (table_of s1 c) in Hin. lia.
    - change (current s2) with c in Hin. unfold private_frames in Hin.
      rewrite elem_of_app, <- !occ_pos in Hin. change (kmem s2) with (kmem s1) in Hin.
      change (table_of s2 c) with (table_of s1 c) in Hin. lia. }
  split; [exact Hc|]. split; [|split; [|exact Hs3]].
  - apply nfree_ext. intros k Hk'. rewrite Hc by lia. done.
  - rewrite (ex_process _ _ Hx). by rewrite decide_True.
Qed.

Lemma fork_exit_conserves_witness :
  ∃ s1 s3, @sys_fork (λ _ _, 0) demo = Ok () s1 ∧ @sys_exit (λ _ _, 0) (set_current 2 s1) = Ok () s3 ∧
    nfree s3 = nfree demo.
Proof.
  destruct (@fork_ok (λ _ _, 0) demo 2 demo_safe demo_fork_pre) as (s1 & E1 & Hk & Hs1).
  pose proof (core_safe _ _ Hs1 (set_current_core 2 s1)) as Hs2.
  assert (live (set_current 2 s1) 2) as Hl by (apply (forked_live demo s1 2 2 demo_fork_pre Hk); right; reflexivity).
  destruct (@exit_ok (λ _ _, 0) (set_current 2 s1) Hs2 Hl) as (s3 & E3 & _ & _).
  exists s1, s3. split; [exact E1|]. split; [exact E3|].
  apply (@fork_exit_conserves (λ _ _, 0) demo 2 s1 s3 demo_safe demo_fork_pre E1 E3).
Defined.

(** ** page_alloc *)


(** The first free page of the demo state. *)
Lemma demo_first_free : first_free demo 1 1.
Proof. split; [lia|]. split; [vm_compute; reflexivity|]. intros k Hk. lia. Qed.


(** A free page is in no process. *)
Lemma unused_refs s n : safe s → 0 ≤ n < 512 → refcount (pinfo s n) = 0 → refs s n = 0.
Proof.
  intros Hs Hn Hr. pose proof (safe_refs s Hs n Hn).
  assert (0 ≤ refs s n) by (apply zsum_nonneg; intros; apply occ_nonneg). lia.
Qed.

(** An address below [PROC_START_ADDR] is refused with -1, but only after a
    physical page was taken: the page stays the caller's, mapped nowhere. *)
Theorem page_alloc_refusal_leaks `{Devices} s n :
  let p := current s in
  safe s → live s p → first_free s 1 n → n < 512 →
  reg_rdi (p_registers (process s p)) < PROC_START_ADDR →
  ∃ s', sys_page_alloc s = Ok () s' ∧ reg_rax (p_registers (process s' p)) = u64 (-1) ∧
    pinfo s' n = MkInfo p 1 ∧ refs s' n = 0 ∧ nfree s' = nfree s - 1 ∧ kmem s' = kmem s ∧ safe s'.
Proof.
  intros p Hs Hl Hff Hn Ha. destruct (page_alloc_low s Hs Hl n Hff Hn Ha) as (E & Hs').
  destruct Hff as (Hn1 & Hr & _).
  eexists. split; [exact E|]. split; [|split; [|split; [|split; [|split; [done|exact Hs']]]]].
  - unfold set_regs. rewrite process_upd, decide_True by done. apply rax_set.
  - change (pinfo (take_page n p s) n = MkInfo p 1). by rewrite pinfo_take, decide_True.
  - pose proof (safe_take s n p Hs ltac:(lia) Hr) as Ht.
    rewrite (un_refs _ _ Ht (core_undisturbed _ _ Ht (set_regs_core p (set_rax (-1)) _))).
    apply (unused_refs s n Hs); [lia|done].
  - change (nfree (take_page n p s) = nfree s - 1). apply nfree_take; [lia|done].
Qed.

Definition demo_low_call : kstate := set_regs 1 (λ _, zero_regs) demo.

Lemma demo_low_safe : safe demo_low_call.
Proof. exact (core_safe _ _ demo_safe (set_regs_core 1 _ demo)). Qed.

Lemma page_alloc_refusal_leaks_witness :
  ∃ s', @sys_page_alloc (λ _ _, 0) demo_low_call = Ok () s' ∧ refs s' 1 = 0 ∧ nfree s' = nfree demo - 1.
Proof.
  destruct (@page_alloc_refusal_leaks (λ _ _, 0) demo_low_call 1 demo_low_safe)
    as (s' & E & _ & _ & Hr & Hn & _).
  - split; [change (1 ≤ 1 < 16); lia|]. vm_compute. discriminate.
  - exact demo_first_free.
  - lia.
  - reflexivity.
  - exists s'. split; [exact E|]. split; [exact Hr|exact Hn].
Defined.

(** Between the end of the page tables, 0x400000, and 2^48 the call takes a
    page and reports success, but nothing is mapped: the -1 that
    [virtual_memory_map] returns is ignored. *)
Theorem page_alloc_beyond_tables `{Devices} s n :
  let p := current s in let addr := reg_rdi (p_registers (process s p)) in
  safe s → live s p → first_free s 1 n → n < 512 →
  addr mod PAGESIZE = 0 → 0x400000 ≤ addr < 2 ^ 48 →
  ∃ s', sys_page_alloc s = Ok () s' ∧ reg_rax (p_registers (process s' p)) = 0 ∧
    pinfo s' n = MkInfo p 1 ∧ kmem s' = kmem s ∧
    virtual_memory_lookup (p_pagetable (process s' p)) addr (mach s') = Ok unmapped (mach s').
Proof.
  intros p addr Hs Hl Hff Hn Hal Ha. destruct (page_alloc_high s Hs Hl n Hff Hn Hal Ha) as (mc & E & Hio).
  pose proof (io_only_mem _ _ Hio) as Em.
  eexists. split; [exact E|]. split; [|split; [|split; [exact Em|]]].
  - unfold set_regs. rewrite process_upd, decide_True by done. apply rax_set.
  - change (pinfo (take_page n p s) n = MkInfo p 1). by rewrite pinfo_take, decide_True.
  - unfold set_regs. rewrite process_upd, decide_True by done.
    change (virtual_memory_lookup (p_pagetable (process s p)) addr mc = Ok unmapped mc).
    rewrite <- table_of_root. apply lookup_beyond; [|exact Ha]. rewrite Em. apply (safe_shape s Hs p Hl).
Qed.

(** C34: the address is not checked against 2^48, beyond which [pageindex] sees
    its low 48 bits only.  A process that asks for 2^48 + a, with [a] a kernel
    page, is told 0 and gets a page of its own mapped over that kernel page of
    its page table, user-accessible and writable: the invariant is broken. *)
Theorem page_alloc_wraps `{Devices} s n :
  let p := current s in let addr := reg_rdi (p_registers (process s p)) in
  safe s → live s p → first_free s 1 n → n < 512 →
  addr mod PAGESIZE = 0 → 2 ^ 48 ≤ addr < 2 ^ 63 → addr mod 2 ^ 48 < PROC_START_ADDR →
  ∃ s', sys_page_alloc s = Ok () s' ∧ reg_rax (p_registers (process s' p)) = 0 ∧
    leaf (kmem s') (table_of s' p) (addr mod 2 ^ 48 / PAGESIZE) = n * PAGESIZE + PTE_PWU ∧ ¬ safe s'.
Proof.
  intros p addr Hs Hl Hff Hn Hal Ha Hlow. pose proof Hff as (Hn1&Hr&_).
  change PROC_START_ADDR with 0x100000 in Hlow. change PAGESIZE with 4096 in *.
  change (addr mod 2 ^ 48) with (low48 addr) in *. pose proof (low48_range addr) as H48.
  assert (addr + 4096 ≤ 2 ^ 63) as Hend.
  { pose proof (Z.div_mod addr 4096). pose proof (Z.div_mod (2 ^ 63) 4096). lia. }
  destruct (map_page (mach (take_page n p s)) (table_of s p) addr (n * 4096) PTE_PWU)
    as (m' & Em & [Hm1 Hm2 Hm3]).
  { apply (safe_shape s Hs p Hl). }
  { unfold map_args. rewrite Hal, Z.mod_mul by lia. change (4096 mod 4096) with 0. change PTE_PWU with 7. lia. }
  { exact Hend. }
  { lia. }
  set (w := low48 addr / 4096) in *.
  assert (0 ≤ w < 256) as Hw by (split; [apply Z.div_pos|apply Z.div_lt_upper_bound]; lia).
  pose (s1 := set_regs p (set_rax 0) (set_kmem m' (take_page n p s))).
  assert (table_of s1 p = table_of s p) as Et.
  { rewrite table_of_eq. unfold s1, set_regs. rewrite process_upd, decide_True by done.
    exact (shape_at_ok m' (table_of s p) Hm1). }
  assert (leaf (kmem s1) (table_of s1 p) w = n * 4096 + 7) as El.
  { rewrite Et. change (kmem s1) with m'. rewrite Hm2 by lia. rewrite decide_True by lia.
    unfold new_entry. change (has PTE_PWU PTE_P) with true. cbv iota. change PTE_PWU with 7. lia. }
  exists s1. split; [|split; [|split; [exact El|]]].
  - apply (sys_page_alloc_run s Hs Hl); [|reflexivity].
    rewrite (page_alloc_free _ _ _ _ n) by (done || apply (live_pid s Hl)).
    assert (PROC_START_ADDR ≤ reg_rdi (p_registers (process s (current s)))) as Hge.
    { change PROC_START_ADDR with 0x100000. fold p addr. lia. }
    rewrite (proj2 (Z.ltb_ge _ _) Hge).
    change PAGESIZE with 4096. rewrite (bind_ok _ _ _ _ _ (on_machine_ok _ _ _ _ Em)). reflexivity.
  - unfold s1, set_regs. rewrite process_upd, decide_True by done. apply rax_set.
  - intros Hs1. assert (live s1 p) as Hl1.
    { split; [apply Hl|]. unfold s1, set_regs. rewrite process_upd, decide_True by done. apply Hl. }
    destruct (safe_kernel s1 Hs1 p w Hl1 Hw) as (HA & _ & _ & HU). rewrite El in HA, HU.
    rewrite PTE_ADDR_entry in HA by (rewrite ?Z.mod_mul; lia).
    assert (n = w) as -> by lia.
    assert (has (w * 4096 + 7) PTE_U = true) as HUt.
    { rewrite <- has_flags by done. rewrite PTE_FLAGS_entry by (rewrite ?Z.mod_mul; lia). reflexivity. }
    rewrite HUt in HU. symmetry in HU. apply bool_decide_eq_true in HU.
    destruct (safe_console s Hs) as [_ Hc]. by rewrite <- HU in Hc.
Qed.

(** The demo process asking for [a]. *)
Definition demo_asks (a : Z) : kstate :=
  set_regs 1 (λ _, MkRegs 0 0 0 0 0 0 a 0 0 0 0 0 0 0 0 0 0 0 0 0 0 0 0 0) demo.

Lemma demo_asks_safe a : safe (demo_asks a).
Proof. exact (core_safe _ _ demo_safe (set_regs_core 1 _ demo)). Qed.

Lemma demo_asks_live a : live (demo_asks a) (current (demo_asks a)).
Proof. split; [change (1 ≤ 1 < 16); lia|]. vm_compute. discriminate. Qed.

Lemma demo_asks_rdi a : reg_rdi (p_registers (process (demo_asks a) (current (demo_asks a)))) = a.
Proof. reflexivity. Qed.

Lemma page_alloc_beyond_tables_witness :
  ∃ s', @sys_page_alloc (λ _ _, 0) (demo_asks 0x400000) = Ok () s' ∧ reg_rax (p_registers (process s' 1)) = 0 ∧
    pinfo s' 1 = MkInfo 1 1.
Proof.
  destruct (@page_alloc_beyond_tables (λ _ _, 0) (demo_asks 0x400000) 1 (demo_asks_safe _) (demo_asks_live _)
    demo_first_free) as (s' & E & Hx & Hi & _); [lia|rewrite demo_asks_rdi; reflexivity|rewrite demo_asks_rdi; lia|].
  exists s'. split; [exact E|]. split; [exact Hx|exact Hi].
Defined.

Lemma page_alloc_wraps_witness :
  ∃ s', @sys_page_alloc (λ _ _, 0) (demo_asks (2 ^ 48 + 0x40000)) = Ok () s' ∧
    leaf (kmem s') (table_of s' 1) 0x40 = 4096 + 7 ∧ ¬ safe s'.
Proof.
  destruct (@page_alloc_wraps (λ _ _, 0) (demo_asks (2 ^ 48 + 0x40000)) 1 (demo_asks_safe _) (demo_asks_live _)
    demo_first_free) as (s' & E & _ & Hl & Hn);
    [lia|rewrite demo_asks_rdi; reflexivity|rewrite demo_asks_rdi; lia|rewrite demo_asks_rdi; reflexivity|].
  exists s'. split; [exact E|]. split; [exact Hl|exact Hn].
Defined.
