(* ===== verification/Mapping.v ===== *)
(** The mapping system call of [src/kernel.c]: what it reports, where it writes,
    and the page beyond which it writes when the buffer ends a page. *)
From S2P Require Import Prelude X86 Machine CLib Printf Hardware PageTable Frames Syscalls Isolation Demo Duplicate Fork ForkSafe Exit PageAlloc Canonical Contracts.
Open Scope Z_scope.

#[local] Opaque frames_where.

(** The entry of [p]'s page table for an address; zero beyond the table. *)
Definition entry_of (s : kstate) (p va : Z) : Z :=
  if decide (low48 va < 0x400000) then leaf (kmem s) (table_of s p) (low48 va / 4096) else 0.

Definition user_writable (e : Z) : bool := has e PTE_P && has e PTE_W && has e PTE_U.

Lemma entry_range s p va : 0 ≤ entry_of s p va < 2 ^ 64.
Proof. unfold entry_of. case_decide; [apply leaf_range|lia]. Qed.

Lemma on_lookup `{Devices} s p va :
  safe s → live s p →
  on_machine (virtual_memory_lookup (p_pagetable (process s p)) va) s
  = Ok (vamapping_of (entry_of s p va) va) s.
Proof.
  intros Hs Hp. apply on_machine_pure. rewrite <- table_of_root.
  rewrite (lookup_any (mach s) (table_of s p) va (safe_shape s Hs p Hp)). unfold entry_of.
  case_decide; done.
Qed.

(** The permission test of the kernel, on what a lookup reports. *)
Lemma perm_test e va f :
  0 ≤ f < 4096 → 0 < f → (Z.land (perm (vamapping_of e va)) f =? f) = has e PTE_P && (Z.land e f =? f).
Proof.
  intros Hf H0. unfold vamapping_of. destruct (has e PTE_P); cbn [perm andb unmapped].
  - unfold PTE_FLAGS. rewrite <- Z.land_assoc. change 0xFFF with (Z.ones 12).
    rewrite (Z.land_comm (Z.ones 12) f), Z.land_ones by lia. by rewrite (Z.mod_small f) by lia.
  - rewrite Z.land_0_l. apply Z.eqb_neq. lia.
Qed.

Lemma wu_test e : (Z.land e PTE_WU =? PTE_WU) = has e PTE_W && has e PTE_U.
Proof.
  apply eq_true_iff_eq. rewrite andb_true_iff, Z.eqb_eq, has_W, has_U. split.
  - intros E. split; [assert (Z.testbit PTE_WU 1 = true) as Hb by done|assert (Z.testbit PTE_WU 2 = true) as Hb by done];
      rewrite <- E, Z.land_spec in Hb; by apply andb_prop in Hb as [??].
  - intros [E1 E2]. apply Z.bits_inj'. intros i Hi. rewrite Z.land_spec. change PTE_WU with 6.
    destruct (decide (i = 1)) as [->|]; [by rewrite E1|]. destruct (decide (i = 2)) as [->|]; [by rewrite E2|].
    assert (Z.testbit 6 i = false) as ->; [|by rewrite andb_false_r].
    destruct (decide (i = 0)) as [->|]; [done|]. apply Z.bits_above_log2; [lia|]. change (Z.log2 6) with 2. lia.
Qed.

(** Where a user-writable address leads. *)
Lemma user_writable_target s p va :
  safe s → live s p → user_writable (entry_of s p va) = true →
  1 ≤ frame (entry_of s p va) < 512 ∧
  (∀ q, live s q → frame (entry_of s p va) ∉ table_frames (table_of s q)) ∧
  (∀ q, live s q → q ≠ p → frame (entry_of s p va) ∉ frames_of s q) ∧
  (frame (entry_of s p va) = CONSOLE_ADDR / 4096 ∨ pinfo s (frame (entry_of s p va)) = MkInfo p 1).
Proof.
  intros Hs Hp. unfold entry_of. case_decide as Hlt; [|done]. pose proof (low48_range va).
  set (w := low48 va / 4096). assert (0 ≤ w < 1024) as Hw by (apply vpn_range; lia).
  unfold user_writable. rewrite !andb_true_iff. intros [[HP HW] HU].
  destruct (decide (w < 256)) as [Hlo|Hhi].
  - pose proof (kernel_accessible s p w Hs Hp ltac:(lia)) as Hk. unfold user_accessible in Hk.
    rewrite HP, HU in Hk. rewrite (Hk eq_refl). change (CONSOLE_ADDR / 4096) with 184.
    assert (∀ q, live s q → 184 ∉ frames_of s q) as Hno by (intros q Hq; by apply (frames_off_console s q)).
    split; [lia|]. split; [|split; [|by left]]; intros q Hq; [|by intros _; apply Hno].
    intros Hin. apply (Hno q Hq). rewrite frames_of_live by done. apply elem_of_app. by left.
  - assert (writable (leaf (kmem s) (table_of s p) w) = true) as Hwr by (unfold writable; by rewrite HP, HW).
    destruct (writable_private s p w Hs Hp ltac:(lia) Hwr) as (Hf & Hpi & Ht & Ho).
    split; [done|]. split; [done|]. split; [done|]. by right.
Qed.

(** Whatever is written to such a page, nobody else sees it. *)
Lemma target_written s p va m :
  safe s → live s p → user_writable (entry_of s p va) = true →
  agree (λ a, a / 4096 ≠ frame (entry_of s p va)) (kmem s) m →
  undisturbed s (set_kmem m s) ∧ spares p s (set_kmem m s).
Proof.
  intros Hs Hp Hu Ha. destruct (user_writable_target s p va Hs Hp Hu) as (_ & Ht & Ho & _). split.
  - split; try done. intros q Hq a Hin. apply Ha. intros E. apply (Ht q Hq). rewrite <- E.
    apply in_table_frames; [|done]. apply (safe_shape s Hs q Hq).
  - split; [done|]. intros q Hq Hne a Hin. apply Ha. intros E. apply (Ho q Hq Hne). by rewrite <- E.
Qed.

(** ** The bytes of a [vamapping] *)

Section copy.
Context `{Padding} (a : Z) (t : vamapping).

Definition with_vamapping (m : gmap Z Z) : gmap Z Z :=
  store 4 (store 4 (store 8 (store 4 (store 4 m a (pn t)) (a + 4) (padding 0)) (a + 8) (pa t)) (a + 16) (perm t))
    (a + 20) (padding 1).

Lemma copy_vamapping_ok s :
  0 ≤ a → a + 24 ≤ 0x200000 → copy_vamapping a t s = Ok () (set_mem (with_vamapping (mem s)) s).
Proof.
  intros H0 H1. unfold copy_vamapping. do 4 (erewrite bind_ok by (apply write_ok; cbn; lia)).
  rewrite write_ok by (cbn; lia). reflexivity.
Qed.

Lemma with_vamapping_fields m :
  load 4 (with_vamapping m) a = u32 (pn t) ∧ load 8 (with_vamapping m) (a + 8) = u64 (pa t) ∧
  load 4 (with_vamapping m) (a + 16) = u32 (perm t) ∧
  load 4 (with_vamapping m) (a + 20) = u32 (padding 1).
Proof.
  unfold with_vamapping. split_and!.
  - rewrite !load_store_out by lia. apply (load_store_eq 4).
  - rewrite !load_store_out by lia. apply (load_store_eq 8).
  - rewrite !load_store_out by lia. apply (load_store_eq 4).
  - apply (load_store_eq 4).
Qed.

Lemma with_vamapping_agree m : agree (λ b, ¬ (a ≤ b < a + sizeof_vamapping)) m (with_vamapping m).
Proof.
  intros b Hb. change sizeof_vamapping with 24 in Hb. unfold with_vamapping.
  rewrite !load8_store_out by lia. done.
Qed.
End copy.

(** ** The system call *)

Section mapping.
Context `{Devices} `{Padding} (s : kstate) (Hs : safe s) (Hl : live s (current s)).

Abbreviation p := (current s).
Abbreviation rdi := (reg_rdi (p_registers (process s p))).
Abbreviation rsi := (reg_rsi (p_registers (process s p))).
Abbreviation target := (frame (entry_of s p rdi) * 4096 + PAGEOFFSET rdi).

(** The test on the last byte, whose physical address is taken for a virtual one. *)
Definition end_writable : bool :=
  let e := entry_of s p (target + sizeof_vamapping - 1) in
  has e PTE_P && (Z.land e PTE_PW =? PTE_PW).

Lemma target_range : user_writable (entry_of s p rdi) = true → 0 ≤ target < 0x200000.
Proof.
  intros Hu. destruct (user_writable_target s p rdi Hs Hl Hu) as (Hf & _).
  rewrite PAGEOFFSET_mod. pose proof (Z.mod_pos_bound rdi 4096). lia.
Qed.

Lemma target_pa : user_writable (entry_of s p rdi) = true → pa (vamapping_of (entry_of s p rdi) rdi) = target.
Proof.
  intros Hu. pose proof (target_range Hu) as Ht. unfold user_writable in Hu.
  apply andb_prop in Hu as [Hu _]. apply andb_prop in Hu as [HP _].
  unfold vamapping_of. rewrite HP. cbn [pa]. rewrite addr_page by apply entry_range.
  apply u64_small. lia.
Qed.

Lemma mapping_run :
  target + sizeof_vamapping ≤ MEMSIZE_PHYSICAL →
  syscall_mapping s = Ok () (if user_writable (entry_of s p rdi) && end_writable
    then set_kmem (with_vamapping target (vamapping_of (entry_of s p rsi) rsi) (kmem s)) s else s).
Proof.
  intros Hend. unfold syscall_mapping. erewrite bind_ok by reflexivity. unfold current_proc.
  erewrite bind_ok by (apply on_lookup; done).
  rewrite (perm_test _ _ PTE_WU) by done. rewrite wu_test.
  replace (has (entry_of s p rdi) PTE_P && (has (entry_of s p rdi) PTE_W && has (entry_of s p rdi) PTE_U))
    with (user_writable (entry_of s p rdi)) by (unfold user_writable; by rewrite andb_assoc).
  destruct (user_writable (entry_of s p rdi)) eqn:Hu; cbn [negb andb]; [|done].
  pose proof (target_range Hu) as Ht. rewrite (target_pa Hu).
  change sizeof_vamapping with 24 in *. change MEMSIZE_PHYSICAL with 0x200000 in Hend.
  rewrite u64_small by lia.
  erewrite bind_ok by (apply on_lookup; done). rewrite (perm_test _ _ PTE_PW) by done.
  fold end_writable. unfold end_writable at 1. change sizeof_vamapping with 24.
  destruct (has _ PTE_P && _) eqn:He; cbn [negb]; [|by destruct (_ && _)].
  erewrite bind_ok by (apply on_lookup; done).
  apply on_machine_ok. apply copy_vamapping_ok; lia.
Qed.
End mapping.

Lemma pw_test e : has e PTE_P = true → has e PTE_W = true → has e PTE_P && (Z.land e PTE_PW =? PTE_PW) = true.
Proof.
  intros HP HW. rewrite HP. apply Z.eqb_eq. rewrite has_P in HP. rewrite has_W in HW.
  apply Z.bits_inj'. intros i Hi. rewrite Z.land_spec. change PTE_PW with (Z.ones 2).
  destruct (decide (i < 2)); [|by rewrite Z.ones_spec_high, andb_false_r by lia].
  rewrite Z.ones_spec_low by lia. rewrite andb_true_r.
  destruct (decide (i = 0)) as [->|]; [done|]. by replace i with 1 by lia.
Qed.

Lemma set_kmem_id s : set_kmem (kmem s) s = s.
Proof. by destruct s as [[]]. Qed.

(** A buffer that is not user-writable is refused. *)
Lemma mapping_refused `{Devices} `{Padding} s :
  safe s → live s (current s) →
  user_writable (entry_of s (current s) (reg_rdi (p_registers (process s (current s))))) = false →
  syscall_mapping s = Ok () s.
Proof.
  intros Hs Hl Hu. unfold syscall_mapping. erewrite bind_ok by reflexivity. unfold current_proc.
  erewrite bind_ok by (apply on_lookup; done). rewrite (perm_test _ _ PTE_WU) by done. rewrite wu_test, andb_assoc.
  change (has _ PTE_P && has _ PTE_W && has _ PTE_U) with (user_writable
    (entry_of s (current s) (reg_rdi (p_registers (process s (current s)))))). by rewrite Hu.
Qed.

(** A buffer inside one page: nothing is written outside that page. *)
Lemma mapping_within `{Devices} `{Padding} s :
  let e := entry_of s (current s) (reg_rdi (p_registers (process s (current s)))) in
  safe s → live s (current s) → reg_rdi (p_registers (process s (current s))) mod 4096 ≤ 4072 →
  ∃ m, syscall_mapping s = Ok () (set_kmem m s) ∧ agree (λ a, a / 4096 ≠ frame e) (kmem s) m ∧
    (m = kmem s ∨ user_writable e = true).
Proof.
  intros e Hs Hl Hoff. set (p := current s) in *. set (rdi := reg_rdi _) in *.
  assert (syscall_mapping s = Ok () s → ∃ m, syscall_mapping s = Ok () (set_kmem m s) ∧
    agree (λ a, a / 4096 ≠ frame e) (kmem s) m ∧ (m = kmem s ∨ user_writable e = true)) as Hsame.
  { intros E. exists (kmem s). rewrite set_kmem_id. split; [done|]. split; [done|by left]. }
  destruct (user_writable e) eqn:Hu; [|by apply Hsame, mapping_refused].
  destruct (user_writable_target s p rdi Hs Hl Hu) as (Hfr & _). fold e in Hfr. pose proof (Z.mod_pos_bound rdi 4096).
  pose proof (mapping_run s Hs Hl) as E. fold p rdi e in E. rewrite Hu in E.
  rewrite PAGEOFFSET_mod in E. change sizeof_vamapping with 24 in E. change MEMSIZE_PHYSICAL with 0x200000 in E.
  specialize (E ltac:(lia)). cbn [andb] in E. destruct (end_writable s); [|by apply Hsame].
  eexists. split; [exact E|]. split; [|by right]. intros a Ha.
  apply with_vamapping_agree. change sizeof_vamapping with 24. intros Hin.
  apply Ha. symmetry. apply Z.div_unique with (a - frame e * 4096); lia.
Qed.

(** Within one page, the call keeps the invariant. *)
Lemma mapping_safe `{Devices} `{Padding} s s' :
  safe s → live s (current s) → reg_rdi (p_registers (process s (current s))) mod 4096 ≤ 4072 →
  syscall_mapping s = Ok () s' → ∃ m, s' = set_kmem m s ∧ undisturbed s s' ∧ spares (current s) s s'.
Proof.
  intros Hs Hl Hoff E. destruct (mapping_within s Hs Hl Hoff) as (m & E' & Ha & Hm).
  rewrite E in E'. injection E' as ->. exists m. split; [done|]. destruct Hm as [->|Hu].
  - rewrite set_kmem_id. split; [by split|apply spares_refl].
  - by eapply target_written.
Qed.

(** C27: the mapping system call reports the lookup of the address in %rsi.
    When %rdi is a user-writable address, and the page that holds the buffer's
    last byte passes the second test, it stores the physical page, address and
    permissions of [virtual_memory_lookup] there, and changes nothing else;
    otherwise it changes nothing. *)
Theorem mapping_reports `{Devices} `{Padding} s :
  let p := current s in
  let dst := reg_rdi (p_registers (process s p)) in
  let ptr := reg_rsi (p_registers (process s p)) in
  let a := frame (entry_of s p dst) * PAGESIZE + PAGEOFFSET dst in
  let t := vamapping_of (entry_of s p ptr) ptr in
  safe s → live s p → a + sizeof_vamapping ≤ MEMSIZE_PHYSICAL →
  ∃ m, syscall_mapping s = Ok () (set_kmem m s) ∧
    virtual_memory_lookup (p_pagetable (process s p)) ptr (mach s) = Ok t (mach s) ∧
    if user_writable (entry_of s p dst) && end_writable s
    then load 4 m a = u32 (pn t) ∧ load 8 m (a + 8) = u64 (pa t) ∧ load 4 m (a + 16) = u32 (perm t) ∧
         agree (λ b, ¬ (a ≤ b < a + sizeof_vamapping)) (kmem s) m
    else m = kmem s.
Proof.
  intros p dst ptr a t Hs Hl Hend.
  assert (virtual_memory_lookup (p_pagetable (process s p)) ptr (mach s) = Ok t (mach s)) as El.
  { rewrite <- table_of_root. rewrite (lookup_any (mach s) (table_of s p) ptr (safe_shape s Hs p Hl)).
    unfold t, entry_of. case_decide; done. }
  pose proof (mapping_run s Hs Hl Hend) as E. fold p dst ptr in E.
  destruct (user_writable (entry_of s p dst) && end_writable s).
  - eexists. split; [exact E|]. split; [exact El|].
    destruct (with_vamapping_fields a t (kmem s)) as (E1 & E2 & E3 & _).
    split; [exact E1|]. split; [exact E2|]. split; [exact E3|]. apply with_vamapping_agree.
  - exists (kmem s). split; [|split; [exact El|done]]. rewrite E. f_equal. unfold set_kmem, kmem.
    rewrite set_mem_id. by destruct s.
Qed.

(** The demo process asking for the mapping of [ptr] at [dst]. *)
Definition demo_maps (dst ptr : Z) (s : kstate) : kstate :=
  set_regs 1 (λ _, MkRegs 0 0 0 0 0 ptr dst 0 0 0 0 0 0 0 0 0 0 0 0 0 0 0 0 0) s.

Lemma mapping_reports_witness :
  ∃ m, @syscall_mapping (λ _ _, 0) (λ _, 0) (demo_maps 0xB8010 0x2FF008 demo)
       = Ok () (set_kmem m (demo_maps 0xB8010 0x2FF008 demo)) ∧
  load 8 m 0xB8018 = 302 * 4096 + 8.
Proof.
  destruct (@mapping_reports (λ _ _, 0) (λ _, 0) (demo_maps 0xB8010 0x2FF008 demo)) as (m & E & _ & Hm).
  - exact (core_safe _ _ demo_safe (set_regs_core 1 _ demo)).
  - split; [change (1 ≤ 1 < 16); lia|]. vm_compute. discriminate.
  - vm_compute. discriminate.
  - exists m. split; [exact E|].
    match type of Hm with (if ?b then _ else _) => assert (b = true) as Hb by (vm_compute; reflexivity) end.
    rewrite Hb in Hm. destruct Hm as (_ & H8 & _). 
    match type of H8 with load 8 m ?x = ?y =>
      assert (x = 0xB8018) as Hx by (vm_compute; reflexivity);
      assert (y = 302 * 4096 + 8) as Hy by (vm_compute; reflexivity) end.
    rewrite Hx, Hy in H8. exact H8.
Defined.

(** A page table whose first entry holds flags only. *)
Lemma broken_root m sh x y :
  0 ≤ x < 4096 → load 4 m (L1 sh) = x → load 4 m (L1 sh + 4) = u32 y → ¬ shape_ok m (shape_at m (L1 sh)).
Proof.
  intros Hx E1 E2 Hsh. pose proof (shape_page _ _ Hsh (L2 (shape_at m (L1 sh)))) as Hp.
  destruct Hp as (H0 & Hal & H1); [apply in_pages|]. change MEMSIZE_PHYSICAL with 0x200000 in H1.
  assert (PTE_ADDR (load 8 m (L1 sh)) = u32 y * 2 ^ 32) as E.
  { change 8%nat with (4 + 4)%nat. rewrite load_app, E1. change (Z.of_nat 4) with 4. rewrite E2.
    change (256 ^ 4) with (2 ^ 32). replace (x + 2 ^ 32 * u32 y) with (u32 y * 2 ^ 20 * 4096 + x) by lia.
    pose proof (u32_range y). rewrite PTE_ADDR_sub by lia.
    rewrite Z.add_comm, Z.mod_add, Z.mod_small by lia. lia. }
  change (L2 (shape_at m (L1 sh))) with (PTE_ADDR (load 8 m (L1 sh))) in *. rewrite E in *.
  pose proof (u32_range y). lia.
Qed.

(** C33: the buffer may cross the end of its page, and the second test is made
    on the wrong address.  When the page after the buffer's physical page lies
    below 1 MB, where every process has the kernel's memory mapped, the call
    writes the last eight bytes of the [vamapping] at the start of that page,
    whoever owns it: when it is the root of a process's page table, that table
    is destroyed. *)
Theorem mapping_overruns `{Devices} `{Padding} s :
  let p := current s in
  let dst := reg_rdi (p_registers (process s p)) in
  let ptr := reg_rsi (p_registers (process s p)) in
  let f := frame (entry_of s p dst) in
  safe s → live s p → user_writable (entry_of s p dst) = true → PAGEOFFSET dst = 4080 →
  f + 1 < PROC_START_ADDR / PAGESIZE →
  ∃ s', syscall_mapping s = Ok () s' ∧
    load 4 (kmem s') ((f + 1) * PAGESIZE) = u32 (perm (vamapping_of (entry_of s p ptr) ptr)) ∧
    load 4 (kmem s') ((f + 1) * PAGESIZE + 4) = u32 (padding 1) ∧
    (∀ q, live s q → p_pagetable (process s q) = (f + 1) * PAGESIZE → ¬ safe s').
Proof.
  intros p dst ptr f Hs Hl Hu Hoff Hf. change (PROC_START_ADDR / PAGESIZE) with 256 in Hf.
  destruct (user_writable_target s p dst Hs Hl Hu) as (Hf1 & _). fold f in Hf1.
  assert (end_writable s = true) as He.
  { unfold end_writable. fold p dst f. rewrite Hoff. change sizeof_vamapping with 24.
    unfold entry_of. rewrite low48_small by lia. rewrite decide_True by lia.
    replace ((f * 4096 + 4080 + 24 - 1) / 4096) with (f + 1) by (apply Z.div_unique with 7; lia).
    destruct (safe_kernel s Hs p (f + 1) Hl ltac:(lia)) as (_ & HP & HW & _). by apply pw_test. }
  eexists. split; [apply mapping_run; [done|done|]|].
  - fold p dst f. rewrite Hoff. change sizeof_vamapping with 24. change MEMSIZE_PHYSICAL with 0x200000. lia.
  - fold p dst ptr f. rewrite Hu, He. cbn [andb]. rewrite kmem_set, Hoff. change PAGESIZE with 4096.
    destruct (with_vamapping_fields (f * 4096 + 4080) (vamapping_of (entry_of s p ptr) ptr) (kmem s))
      as (_ & _ & E3 & E4).
    replace (f * 4096 + 4080 + 16) with ((f + 1) * 4096) in E3 by lia.
    replace (f * 4096 + 4080 + 20) with ((f + 1) * 4096 + 4) in E4 by lia.
    split; [exact E3|]. split; [exact E4|]. intros q Hq Eq Hs'.
    pose proof (safe_shape _ Hs' q Hq) as Hsh. rewrite kmem_set, table_of_eq, kmem_set in Hsh.
    change (p_pagetable (process (set_kmem _ s) q)) with (p_pagetable (process s q)) in Hsh.
    rewrite <- table_of_root in Hsh, Eq. revert Hsh. apply (broken_root _ _ (u32 (perm (vamapping_of (entry_of s p ptr) ptr))) (padding 1)).
    + unfold vamapping_of. destruct (has _ PTE_P); cbn [perm unmapped]; [|done].
      pose proof (PTE_FLAGS_range (entry_of s p ptr)). unfold u32. rewrite Z.mod_small by lia. lia.
    + by rewrite Eq.
    + by rewrite Eq.
Qed.

Lemma mapping_overruns_witness :
  ∃ s', @syscall_mapping (λ _ _, 0) (λ _, 0) (demo_maps 0x100FF0 0x2FF000 demo) = Ok () s' ∧ ¬ safe s'.
Proof.
  destruct (@mapping_overruns (λ _ _, 0) (λ _, 0) (demo_maps 0x100FF0 0x2FF000 demo)) as (s' & E & _ & _ & Hn).
  - exact (core_safe _ _ demo_safe (set_regs_core 1 _ demo)).
  - split; [change (1 ≤ 1 < 16); lia|]. vm_compute. discriminate.
  - vm_compute. reflexivity.
  - vm_compute. reflexivity.
  - vm_compute. reflexivity.
  - exists s'. split; [exact E|]. apply (Hn 1).
    + split; [lia|]. vm_compute. discriminate.
    + vm_compute. reflexivity.
Defined.
