(* ===== verification/AddressSpace.v ===== *)
(** What the page tables of [src/vm.c] promise their users: mapping and lookup,
    switching tables, and the kernel's own table. *)
From S2P Require Import Prelude X86 Machine CLib Printf Hardware PageTable Frames Syscalls Isolation Demo Duplicate.
Open Scope Z_scope.

(** ** Indices *)

(** The four level indices and the page offset recompose every 48-bit
    address, and each index is below 512: no two addresses of an address space
    share a page table slot and an offset. *)
Theorem pageindex_recompose va :
  0 ≤ va < 2 ^ 48 →
  va = pageindex_bits va 0 * 2 ^ 39 + pageindex_bits va 1 * 2 ^ 30 + pageindex_bits va 2 * 2 ^ 21
       + pageindex_bits va 3 * 2 ^ 12 + PAGEOFFSET va ∧
  (∀ level, 0 ≤ level ≤ 3 → 0 ≤ pageindex_bits va level < NPAGETABLEENTRIES).
Proof.
  intros Hva. split; [|intros; by apply pageindex_range].
  rewrite !pageindex_mod, PAGEOFFSET_mod by lia.
  change (2 ^ (12 + (3 - 0) * 9)) with (2 ^ 39). change (2 ^ (12 + (3 - 1) * 9)) with (2 ^ 30).
  change (2 ^ (12 + (3 - 2) * 9)) with (2 ^ 21). change (2 ^ (12 + (3 - 3) * 9)) with (2 ^ 12).
  assert (va / 2 ^ 21 = va / 2 ^ 12 / 512) as -> by (by rewrite Z.div_div).
  assert (va / 2 ^ 30 = va / 2 ^ 12 / 512 / 512) as -> by (by rewrite !Z.div_div).
  assert (va / 2 ^ 39 = va / 2 ^ 12 / 512 / 512 / 512) as -> by (by rewrite !Z.div_div).
  change (2 ^ 12) with 4096. pose proof (Z.div_mod va 4096). pose proof (Z.div_mod (va / 4096) 512).
  pose proof (Z.div_mod (va / 4096 / 512) 512). pose proof (Z.div_mod (va / 4096 / 512 / 512) 512).
  assert (va / 4096 / 512 / 512 / 512 < 512) by (rewrite !Z.div_div by lia; apply Z.div_lt_upper_bound; lia).
  assert (0 ≤ va / 4096 / 512 / 512 / 512) by (rewrite !Z.div_div by lia; apply Z.div_pos; lia).
  rewrite (Z.mod_small (va / 4096 / 512 / 512 / 512)) by lia. lia.
Qed.

Lemma pageindex_recompose_witness :
  0x7F1234567ABC = pageindex_bits 0x7F1234567ABC 0 * 2 ^ 39 + pageindex_bits 0x7F1234567ABC 1 * 2 ^ 30
    + pageindex_bits 0x7F1234567ABC 2 * 2 ^ 21 + pageindex_bits 0x7F1234567ABC 3 * 2 ^ 12 + PAGEOFFSET 0x7F1234567ABC.
Proof. apply (pageindex_recompose 0x7F1234567ABC). lia. Defined.

(** ** Mapping and lookup *)

Lemma lookup_new_entry s sh a pa perm :
  shape_ok (mem s) sh → 0 ≤ a < 0x400000 → 0 ≤ perm < 4096 → has perm PTE_P = true →
  0 ≤ pa → pa mod 4096 = 0 → pa < 0x200000 →
  leaf (mem s) sh (a / 4096) = new_entry pa perm →
  ∀ `{Devices}, virtual_memory_lookup (L1 sh) a s = Ok (MkMap (pa / 4096) (pa + a mod 4096) perm) s.
Proof.
  intros Hsh Ha Hperm HP H0 Hal Hpa El Dev. rewrite lookup_leaf, El by done. do 2 f_equal.
  unfold new_entry, vamapping_of. rewrite HP.
  assert (has (pa + perm) PTE_P = true) as ->.
  { rewrite <- has_flags, PTE_FLAGS_entry by done. done. }
  rewrite PTE_ADDR_entry, PTE_FLAGS_entry, PAGEOFFSET_mod by (done || lia).
  pose proof (Z.mod_pos_bound a 4096). rewrite u64_small by lia. f_equal.
  rewrite PAGENUMBER_div by lia. symmetry. apply Z.div_unique with perm; [lia|].
  pose proof (Z.div_mod pa 4096). lia.
Qed.

Section map_lookup.
Context `{Devices}.

(** Mapping then looking up returns what was mapped.  After
    [virtual_memory_map] of a present range inside the first 4 MB, every
    address [va + X] of the range translates to [pa + X] with exactly the
    permissions given. *)
Theorem map_then_lookup s sh va pa sz perm :
  shape_ok (mem s) sh → map_args va pa sz perm → va + sz ≤ 0x400000 → has perm PTE_P = true →
  ∃ s', virtual_memory_map (L1 sh) va pa sz perm s = Ok 0 s' ∧ shape_ok (mem s') sh ∧
  ∀ a, va ≤ a < va + sz →
    virtual_memory_lookup (L1 sh) a s' = Ok (MkMap ((pa + (a - va)) / 4096) (pa + (a - va)) perm) s'.
Proof.
  intros Hsh Hargs Hend HP. destruct (map_ok s sh va pa sz perm Hsh Hargs Hend) as (m' & E & [S L A]).
  exists (set_mem m' s). split; [exact E|]. split; [exact S|]. intros a Ha.
  destruct Hargs as (?&Hal&?&Hsz&?&Hpa). destruct (Hpa HP) as (?&Hpal&?).
  pose proof (Z.div_mod va 4096). pose proof (Z.div_mod a 4096). pose proof (Z.div_mod sz 4096).
  pose proof (Z.mod_pos_bound a 4096).
  assert (pa + (a - va) = (pa + (a / 4096 - va / 4096) * 4096) + a mod 4096) as -> by lia.
  assert ((pa + (a / 4096 - va / 4096) * 4096) mod 4096 = 0) as Hal2.
  { by rewrite Z.mod_add by lia. }
  rewrite (lookup_new_entry _ sh a (pa + (a / 4096 - va / 4096) * 4096) perm); try done; try lia.
  - do 2 f_equal. apply Z.div_unique with (a mod 4096); [lia|].
    pose proof (Z.div_mod (pa + (a / 4096 - va / 4096) * 4096) 4096). lia.
  - cbn [mem set_mem]. rewrite L by lia. by rewrite decide_True by lia.
Qed.

(** Mapping a range leaves every other address of the first 4 MB
    translated as before, and changes no byte of memory outside the two
    last-level tables. *)
Theorem map_elsewhere s sh va pa sz perm :
  shape_ok (mem s) sh → map_args va pa sz perm → va + sz ≤ 0x400000 →
  ∃ s', virtual_memory_map (L1 sh) va pa sz perm s = Ok 0 s' ∧
  agree (λ a, ¬ in_page (L4_1 sh) a ∧ ¬ in_page (L4_2 sh) a) (mem s) (mem s') ∧
  ∀ a, 0 ≤ a < 0x400000 → ¬ (va ≤ a < va + sz) → ∃ vam,
    virtual_memory_lookup (L1 sh) a s = Ok vam s ∧ virtual_memory_lookup (L1 sh) a s' = Ok vam s'.
Proof.
  intros Hsh Hargs Hend. destruct (map_ok s sh va pa sz perm Hsh Hargs Hend) as (m' & E & [S L A]).
  exists (set_mem m' s). split; [exact E|]. split.
  { eapply agree_weaken; [|exact A]. intros a [H1 H2] [?|?]; done. }
  intros a Ha Hout. destruct Hargs as (?&Hal&?&Hsz&_).
  exists (vamapping_of (leaf (mem s) sh (a / 4096)) a). split; [by apply lookup_leaf|].
  rewrite lookup_leaf by done. cbn [mem set_mem]. do 2 f_equal. rewrite L by (by apply vpn_range).
  rewrite decide_False; [done|]. intros Hin. apply Hout.
  pose proof (Z.div_mod va 4096). pose proof (Z.div_mod a 4096). pose proof (Z.div_mod sz 4096).
  pose proof (Z.mod_pos_bound a 4096). lia.
Qed.

(** Mapping with permissions that lack [PTE_P] unmaps: every address of
    the range then looks up as unmapped, whatever [pa] was. *)
Theorem map_not_present_unmaps s sh va pa sz perm :
  shape_ok (mem s) sh → map_args va pa sz perm → va + sz ≤ 0x400000 → has perm PTE_P = false →
  ∃ s', virtual_memory_map (L1 sh) va pa sz perm s = Ok 0 s' ∧
  ∀ a, va ≤ a < va + sz → virtual_memory_lookup (L1 sh) a s' = Ok unmapped s'.
Proof.
  intros Hsh Hargs Hend HP. destruct (map_ok s sh va pa sz perm Hsh Hargs Hend) as (m' & E & [S L A]).
  exists (set_mem m' s). split; [exact E|]. intros a Ha. destruct Hargs as (?&Hal&?&Hsz&_).
  rewrite lookup_leaf by (done || lia). cbn [mem set_mem]. rewrite L by (apply vpn_range; lia).
  pose proof (Z.div_mod va 4096). pose proof (Z.div_mod a 4096). pose proof (Z.div_mod sz 4096).
  pose proof (Z.mod_pos_bound a 4096).
  rewrite decide_True by lia. unfold new_entry, vamapping_of. by rewrite HP, HP.
Qed.

(** C32: what a lookup reports as writable or user-accessible.  The loop masks
    with alternating levels, so through four present levels a bit is reported
    when the last entry has it and the third lacks it or the second has it:
    the first level is never consulted, and a third level that forbids
    writing does not make the page read-only. *)
Theorem lookup_permissions pt va s e1 e2 e3 e4 :
  e1 = pte (mem s) pt va 0 → e2 = pte (mem s) (PTE_ADDR e1) va 1 →
  e3 = pte (mem s) (PTE_ADDR e2) va 2 → e4 = pte (mem s) (PTE_ADDR e3) va 3 →
  table_page pt → table_page (PTE_ADDR e1) → table_page (PTE_ADDR e2) → table_page (PTE_ADDR e3) →
  has e1 PTE_P = true → has e2 PTE_P = true → has e3 PTE_P = true → has e4 PTE_P = true →
  ∃ vam, virtual_memory_lookup pt va s = Ok vam s ∧ pa vam = u64 (PTE_ADDR e4 + PAGEOFFSET va) ∧
    has (perm vam) PTE_P = true ∧
    has (perm vam) PTE_W = has e4 PTE_W && (negb (has e3 PTE_W) || has e2 PTE_W) ∧
    has (perm vam) PTE_U = has e4 PTE_U && (negb (has e3 PTE_U) || has e2 PTE_U).
Proof.
  intros E1 E2 E3 E4 T0 T1 T2 T3 P1 P2 P3 P4.
  rewrite (lookup_walk pt va s e1 e2 e3 e4) by assumption.
  eexists. split; [reflexivity|]. unfold vamapping_of. rewrite masked_P, P4. cbn [pa perm].
  rewrite PTE_ADDR_ldiff by apply wu_range. split; [done|].
  rewrite !has_flags by done. rewrite masked_P. split; [done|].
  rewrite !has_W, !has_U, !Z.ldiff_spec, !Z.land_spec, !Z.ldiff_spec, !Z.land_spec.
  change (Z.testbit PTE_WU 1) with true. change (Z.testbit PTE_WU 2) with true. rewrite !andb_true_r.
  split; by destruct (Z.testbit e4 _), (Z.testbit e3 _), (Z.testbit e2 _).
Qed.
End map_lookup.

Lemma map_then_lookup_witness :
  ∃ s', @virtual_memory_map (λ _ _, 0) physical (L1 demo_shape) 0x200000 0x1F0000 0x2000 5 demo_machine = Ok 0 s' ∧
        @virtual_memory_lookup (λ _ _, 0) physical (L1 demo_shape) 0x201234 s' = Ok (MkMap 0x1F1 0x1F1234 5) s'.
Proof.
  destruct (@map_then_lookup (λ _ _, 0) demo_machine demo_shape 0x200000 0x1F0000 0x2000 5)
    as (s' & E & _ & Hl); [exact demo_machine_shape|unfold map_args; repeat split; vm_compute; congruence|lia|reflexivity|].
  exists s'. split; [exact E|]. apply Hl. lia.
Defined.

Lemma map_elsewhere_witness :
  ∃ s', @virtual_memory_map (λ _ _, 0) physical (L1 demo_shape) 0x200000 0x1F0000 0x2000 5 demo_machine = Ok 0 s' ∧
        load8 (mem s') 0xF000 = load8 (mem demo_machine) 0xF000.
Proof.
  destruct (@map_elsewhere (λ _ _, 0) demo_machine demo_shape 0x200000 0x1F0000 0x2000 5)
    as (s' & E & Ha & _); [exact demo_machine_shape|unfold map_args; repeat split; vm_compute; congruence|lia|].
  exists s'. split; [exact E|]. symmetry. apply Ha. unfold in_page. cbn. lia.
Defined.

Lemma map_not_present_unmaps_witness :
  ∃ s', @virtual_memory_map (λ _ _, 0) physical (L1 demo_shape) 0x100000 0 0x1000 0 demo_machine = Ok 0 s' ∧
        @virtual_memory_lookup (λ _ _, 0) physical (L1 demo_shape) 0x100010 s' = Ok unmapped s'.
Proof.
  destruct (@map_not_present_unmaps (λ _ _, 0) demo_machine demo_shape 0x100000 0 0x1000 0)
    as (s' & E & Hl); [exact demo_machine_shape|unfold map_args; repeat split; vm_compute; congruence|lia|reflexivity|].
  exists s'. split; [exact E|]. apply Hl. lia.
Defined.

(** The first and third level forbid writing; the lookup says writable. *)
Definition narrow_machine : machine :=
  machine_with (store 8 (store 8 (store 8 (store 8 ∅ 0x1000 (0x2000 + 5)) 0x2000 (0x3000 + 7)) 0x3000 (0x4000 + 5))
    0x4000 (0x5000 + 7)).

Lemma lookup_permissions_witness :
  ∃ vam, @virtual_memory_lookup (λ _ _, 0) physical 0x1000 0 narrow_machine = Ok vam narrow_machine ∧ has (perm vam) PTE_W = true.
Proof.
  destruct (@lookup_permissions (λ _ _, 0) 0x1000 0 narrow_machine 0x2005 0x3007 0x4005 0x5007)
    as (vam & E & _ & _ & Hw & _); try (vm_compute; reflexivity);
    try (unfold table_page; repeat split; vm_compute; congruence).
  exists vam. split; [exact E|]. rewrite Hw. reflexivity.
Defined.

(** ** Switching page tables *)

(** Pages below [n] are mapped at their own address. *)
Definition identity (m : gmap Z Z) (sh : pt_shape) (n : Z) : Prop :=
  ∀ w, 0 ≤ w < n → present (leaf m sh w) = true ∧ PTE_ADDR (leaf m sh w) = w * 4096.

Lemma lookup_identity `{Devices} s sh n a :
  shape_ok (mem s) sh → identity (mem s) sh n → n ≤ 1024 → 0 ≤ a < n * 4096 →
  ∃ vam, virtual_memory_lookup (L1 sh) a s = Ok vam s ∧ pa vam = a ∧ perm vam = PTE_FLAGS (leaf (mem s) sh (a / 4096)).
Proof.
  intros Hsh Hid Hn Ha. pose proof (Z.div_mod a 4096). pose proof (Z.mod_pos_bound a 4096).
  eexists. split; [apply lookup_leaf; [done|lia]|].
  destruct (Hid (a / 4096)) as [HP HA].
  { split; [apply Z.div_pos; lia|apply Z.div_lt_upper_bound; lia]. }
  unfold vamapping_of. unfold present in HP. rewrite HP. cbn [pa perm]. split; [|done].
  rewrite HA, PAGEOFFSET_mod, u64_small by lia. lia.
Qed.

(** What [set_pagetable] asserts. *)
Lemma set_pagetable_passes `{Devices} {acc : Access} (L : Layout) pt s m1 m2 m3 m4 :
  pt mod 4096 = 0 →
  virtual_memory_lookup pt default_int_handler s = Ok m1 s → pa m1 = default_int_handler →
  virtual_memory_lookup (kernel_pagetable s) pt s = Ok m2 s → pa m2 = pt →
  virtual_memory_lookup pt (kernel_pagetable s) s = Ok m3 s → pa m3 = kernel_pagetable s →
  virtual_memory_lookup pt virtual_memory_map_addr s = Ok m4 s → pa m4 = virtual_memory_map_addr →
  set_pagetable pt s = Ok () (set_cr3 pt s).
Proof.
  intros Hal E1 P1 E2 P2 E3 P3 E4 P4.
  unfold set_pagetable. rewrite PAGEOFFSET_mod, Hal. erewrite bind_ok by reflexivity.
  erewrite bind_ok by exact E1. rewrite P1, Z.eqb_refl. erewrite bind_ok by reflexivity.
  erewrite bind_ok by reflexivity.
  erewrite bind_ok by exact E2. rewrite P2, Z.eqb_refl. erewrite bind_ok by reflexivity.
  erewrite bind_ok by exact E3. rewrite P3, Z.eqb_refl. erewrite bind_ok by reflexivity.
  erewrite bind_ok by exact E4. rewrite P4, Z.eqb_refl. by erewrite bind_ok by reflexivity.
Qed.

(** The addresses that [set_pagetable] looks up are all in the kernel. *)
Lemma looked_up_low (L : Layout) :
  LayoutOk L → 0 ≤ default_int_handler < 0x80000 ∧ 0 ≤ virtual_memory_map_addr < 0x80000 ∧
  0 ≤ kernel_pagetables < 0x80000.
Proof.
  intros HL. pose proof (kernel_pagetables_data (L := L)). pose proof (start_data_text (L := L)).
  pose proof (default_int_handler_text (L := L)). pose proof (virtual_memory_map_text (L := L)).
  pose proof (end_stack (L := L)).
  change KERNEL_START_ADDR with 0x40000 in *. change (KERNEL_STACK_TOP - PAGESIZE) with 0x7F000 in *. lia.
Qed.

Lemma set_pagetable_run `{Devices} (L : Layout) s sh ksh :
  LayoutOk L → shape_ok (mem s) sh → identity (mem s) sh 256 →
  shape_ok (mem s) ksh → identity (mem s) ksh 512 →
  L1 ksh = kernel_pagetables → kernel_pagetable s = L1 ksh →
  set_pagetable (L1 sh) s = Ok () (set_cr3 (L1 sh) s).
Proof.
  intros HL Hsh Hid Hksh Hkid Ek Ekp. destruct (looked_up_low L HL) as (? & ? & ?).
  destruct (shape_tables _ _ Hsh) as ((?&Hal&?)&_). change MEMSIZE_PHYSICAL with 0x200000 in *.
  destruct (lookup_identity s sh 256 default_int_handler) as (m1 & E1 & P1 & _); try done; [lia|].
  destruct (lookup_identity s ksh 512 (L1 sh)) as (m2 & E2 & P2 & _); try done; [lia|].
  destruct (lookup_identity s sh 256 (L1 ksh)) as (m3 & E3 & P3 & _); try done; [lia|].
  destruct (lookup_identity s sh 256 virtual_memory_map_addr) as (m4 & E4 & P4 & _); try done; [lia|].
  by apply (set_pagetable_passes L _ s m1 m2 m3 m4); rewrite ?Ekp.
Qed.

(** [set_pagetable] installs a table that maps the kernel's memory at its
    own addresses, and nothing but the control register changes; a table that
    is not page-aligned is never installed. *)
Theorem set_pagetable_installs `{Devices} (L : Layout) s sh ksh :
  LayoutOk L → shape_ok (mem s) sh → identity (mem s) sh 256 →
  shape_ok (mem s) ksh → identity (mem s) ksh 512 →
  L1 ksh = kernel_pagetables → kernel_pagetable s = L1 ksh →
  set_pagetable (L1 sh) s = Ok () (set_cr3 (L1 sh) s) ∧
  ∀ pt, PAGEOFFSET pt ≠ 0 → ∃ e s', set_pagetable pt s = Halt e s' ∧ cr3 s' = cr3 s.
Proof.
  intros HL Hsh Hid Hksh Hkid Ek Ekp. split; [by apply (set_pagetable_run L s sh ksh)|].
  intros pt Hpt. unfold set_pagetable. destruct (Z.eqb_spec (PAGEOFFSET pt) 0) as [?|_]; [done|].
  assert (∀ A (m : M machine A), ∃ e s', @mbind (M machine) _ () A (λ _, m) (assert_ false "vm.c" 61 "PAGEOFFSET(pagetable) == 0") s = Halt e s' ∧ cr3 s' = cr3 s) as Hp.
  2: { apply Hp. }
  intros A m. destruct (assert_fail_halts (A := ()) "vm.c" 61 "PAGEOFFSET(pagetable) == 0" s) as (e & s' & E & Hq).
  exists e, s'. split; [by apply bind_halt|]. by apply quiet_fields.
Qed.

Definition identity_b (m : gmap Z Z) (sh : pt_shape) (n : Z) : bool :=
  forall_range 0 n (λ w, let e := leaf m sh w in present e && (PTE_ADDR e =? w * 4096)).

Lemma identity_b_spec m sh n : identity_b m sh n = true → identity m sh n.
Proof.
  intros Hb w Hw. pose proof (forall_range_spec _ _ _ w Hb ltac:(lia)) as E. cbv beta zeta in E.
  by rewrite andb_true_iff, Z.eqb_eq in E.
Qed.

Lemma demo_identity : identity (mem demo_machine) demo_shape 256.
Proof. apply identity_b_spec. vm_compute. reflexivity. Qed.

Lemma demo_kernel_identity : identity (mem demo_machine) demo_kernel 512.
Proof. apply identity_b_spec. vm_compute. reflexivity. Qed.

Lemma demo_kernel_shape : shape_ok (mem demo_machine) demo_kernel.
Proof. apply (bool_decide_unpack _). vm_compute. exact I. Qed.

Lemma set_pagetable_installs_witness :
  @set_pagetable (λ _ _, 0) physical kernel_sym (L1 demo_shape) demo_machine = Ok () (set_cr3 (L1 demo_shape) demo_machine).
Proof.
  apply (@set_pagetable_installs (λ _ _, 0) kernel_sym demo_machine demo_shape demo_kernel kernel_sym_ok
    demo_machine_shape demo_identity demo_kernel_shape demo_kernel_identity); reflexivity.
Defined.

(** ** virtual_memory_init *)

Lemma present_entry a : a mod 4096 = 0 → present (a + 7) = true.
Proof.
  intros Ha. unfold present. rewrite <- has_flags by done. by rewrite PTE_FLAGS_entry by (done || lia).
Qed.

Definition kernel_shape `{Layout} : pt_shape :=
  let kpt i := kernel_pagetables + i * PAGESIZE in MkShape (kpt 0) (kpt 1) (kpt 2) (kpt 3) (kpt 4).

Section init.
Context `{Devices} (L : Layout) (HL : LayoutOk L).

Lemma kernel_pages : Forall table_page (pt_pages kernel_shape) ∧ NoDup (pt_pages kernel_shape) ∧
  ∀ a, in_table kernel_shape a ↔ kernel_pagetables ≤ a < kernel_pagetables + 5 * 4096.
Proof.
  pose proof (kernel_pagetables_data (L := L)). pose proof (start_data_text (L := L)).
  pose proof (kernel_pagetables_aligned (L := L)) as Hal. pose proof (end_stack (L := L)).
  change KERNEL_START_ADDR with 0x40000 in *. change (KERNEL_STACK_TOP - PAGESIZE) with 0x7F000 in *.
  unfold kernel_shape, pt_pages. cbn [L1 L2 L3 L4_1 L4_2]. change PAGESIZE with 4096. split_and!.
  - repeat (apply Forall_cons; split; [unfold table_page; change MEMSIZE_PHYSICAL with 0x200000;
      rewrite Z.mod_add by lia; lia|]). by apply Forall_nil.
  - repeat (apply NoDup_cons; split; [rewrite ?not_elem_of_cons; split_and?; (lia || apply not_elem_of_nil)|]).
    apply NoDup_nil_2.
  - intros a. unfold in_table, pt_pages, in_page. cbn [L1 L2 L3 L4_1 L4_2]. change PAGESIZE with 4096. split.
    + intros (p & Hp & Ha). rewrite !elem_of_cons in Hp.
      destruct Hp as [->|[->|[->|[->|[->|Hp]]]]]; [lia..|by apply elem_of_nil in Hp].
    + intros Ha. exists (kernel_pagetables + (a - kernel_pagetables) / 4096 * 4096).
      pose proof (Z.div_mod (a - kernel_pagetables) 4096). pose proof (Z.mod_pos_bound (a - kernel_pagetables) 4096).
      split; [|lia]. assert (0 ≤ (a - kernel_pagetables) / 4096 < 5) as Hi
        by (split; [apply Z.div_pos|apply Z.div_lt_upper_bound]; lia).
      rewrite !elem_of_cons. assert (∀ k, (a - kernel_pagetables) / 4096 = k →
        kernel_pagetables + (a - kernel_pagetables) / 4096 * 4096 = kernel_pagetables + k * 4096) as Hk by (by intros ? ->).
      destruct (decide ((a - kernel_pagetables) / 4096 = 0)); [left; by apply Hk|].
      destruct (decide ((a - kernel_pagetables) / 4096 = 1)); [right; left; by apply Hk|].
      destruct (decide ((a - kernel_pagetables) / 4096 = 2)); [do 2 right; left; by apply Hk|].
      destruct (decide ((a - kernel_pagetables) / 4096 = 3)); [do 3 right; left; by apply Hk|].
      do 4 right. left. apply Hk. lia.
Qed.

(** The checking loop of [virtual_memory_init] passes and changes nothing. *)
Lemma init_checks s ksh :
  shape_ok (mem s) ksh → identity (mem s) ksh 512 → kernel_pagetable s = L1 ksh →
  (∀ w, 0 ≤ w < 512 → Z.land (PTE_FLAGS (leaf (mem s) ksh w)) PTE_PW = PTE_PW) →
  for_loop (Z.to_nat NPAGES) 0 PAGESIZE (λ addr,
    kpt ← gets kernel_pagetable;
    vmap ← virtual_memory_lookup kpt addr;
    assert_ (pa vmap =? addr) "vm.c" 45 "vmap.pa == addr";;
    assert_ (Z.land (perm vmap) PTE_PW =? PTE_PW) "vm.c" 46 "(vmap.perm & (PTE_P|PTE_W)) == (PTE_P|PTE_W)") s
  = Ok () s.
Proof.
  intros Hsh Hid Hk Hperm.
  pose proof (runs_for (λ _ st, st = s) (λ addr,
    kpt ← gets kernel_pagetable;
    vmap ← virtual_memory_lookup kpt addr;
    assert_ (pa vmap =? addr) "vm.c" 45 "vmap.pa == addr";;
    assert_ (Z.land (perm vmap) PTE_PW =? PTE_PW) "vm.c" 46 "(vmap.perm & (PTE_P|PTE_W)) == (PTE_P|PTE_W)")
    PAGESIZE (Z.to_nat NPAGES) 0 s eq_refl) as Hr.
  apply runs_iff in Hr as ([] & st & E & ->); [exact E|].
  intros k st Hlt ->. change PAGESIZE with 4096. change (Z.to_nat NPAGES) with (Z.to_nat 512) in Hlt.
  destruct (lookup_identity s ksh 512 (0 + Z.of_nat k * 4096) Hsh Hid) as (vam & El & Ep & Ef); [lia..|].
  unfold runs. erewrite bind_ok by reflexivity. rewrite Hk. erewrite bind_ok by exact El.
  rewrite Ep, Z.eqb_refl. erewrite bind_ok by reflexivity.
  rewrite Ef, Hperm by (rewrite Z.add_0_l, Z.div_mul by lia; lia).
  rewrite Z.eqb_refl. done.
Qed.

(** What [virtual_memory_init] does. *)
Lemma virtual_memory_init_run s :
  ∃ m, virtual_memory_init s = Ok () (set_cr3 kernel_pagetables (set_kernel_pagetable kernel_pagetables (set_mem m s))) ∧
  shape_ok m kernel_shape ∧
  (∀ w, 0 ≤ w < 1024 → leaf m kernel_shape w = if decide (w < 512) then w * 4096 + PTE_PWU else 0) ∧
  agree (λ a, ¬ (kernel_pagetables ≤ a < kernel_pagetables + 5 * PAGESIZE)) (mem s) m.
Proof.
  destruct kernel_pages as (Hpg & Hnd & Hin). change PAGESIZE with 4096.
  assert (0 < kernel_pagetables ∧ kernel_pagetables + 5 * 4096 ≤ 0x200000) as [Hk0 Hk1].
  { pose proof (kernel_pagetables_data (L := L)). pose proof (start_data_text (L := L)).
    pose proof (end_stack (L := L)).
    change KERNEL_START_ADDR with 0x40000 in *. change (KERNEL_STACK_TOP - PAGESIZE) with 0x7F000 in *. lia. }
  pose (s0 := set_kernel_pagetable kernel_pagetables s).
  set (n5 := Z.to_nat (5 * PAGESIZE)).
  assert (∃ m0, m0 = fill n5 (mem s) kernel_pagetables 0 ∧ (∀ a, in_table kernel_shape a → load8 m0 a = 0) ∧
    agree (λ a, ¬ in_table kernel_shape a) (mem s) m0) as (m0 & Em0 & Hz & Hag).
  { eexists. split; [reflexivity|]. unfold n5. split; intros a Ha; rewrite load8_fill, Z2Nat.id by done;
      change (5 * PAGESIZE) with (5 * 4096).
    - by rewrite decide_True by (by apply Hin).
    - rewrite decide_False; [done|]. by rewrite <- Hin. }
  pose proof (linked_shape m0 kernel_shape Hpg Hnd Hz) as Hsh1.
  pose proof (linked_leaf m0 kernel_shape Hpg Hnd Hz) as Hl1.
  pose proof (linked_agree m0 kernel_shape) as Ha1.
  destruct (map_ok (set_mem (linked m0 kernel_shape) s0) kernel_shape 0 0 0x200000 PTE_PWU)
    as (m' & Em & [S Lf A]); [exact Hsh1| |lia|].
  { unfold map_args. change PTE_PWU with 7. change (0 mod 4096) with 0. change (0x200000 mod 4096) with 0. lia. }
  change (0 / 4096) with 0 in Lf. change (0x200000 / 4096) with 512 in Lf. cbn [mem set_mem] in Lf, A.
  assert (∀ w, 0 ≤ w < 1024 → leaf m' kernel_shape w = if decide (w < 512) then w * 4096 + PTE_PWU else 0) as Hleaf.
  { intros w Hw. rewrite Lf by done. destruct (decide (w < 512)).
    - rewrite decide_True by lia. unfold new_entry. change (has PTE_PWU PTE_P) with true. cbv iota. lia.
    - rewrite decide_False by lia. by apply Hl1. }
  assert (∀ w, 0 ≤ w < 512 → leaf m' kernel_shape w = w * 4096 + 7) as Hleaf'.
  { intros w Hw. rewrite Hleaf by lia. by rewrite decide_True by lia. }
  assert (∀ w, 0 ≤ w → (w * 4096) mod 4096 = 0) as Hal by (intros; apply Z.mod_mul; lia).
  assert (identity m' kernel_shape 512) as Hid.
  { intros w Hw. rewrite Hleaf' by done. split.
    - apply present_entry. apply Hal. lia.
    - apply PTE_ADDR_entry; [lia|apply Hal; lia|lia]. }
  assert (∀ w, 0 ≤ w < 512 → Z.land (PTE_FLAGS (leaf m' kernel_shape w)) PTE_PW = PTE_PW) as Hperm.
  { intros w Hw. rewrite Hleaf' by exact Hw. rewrite PTE_FLAGS_entry; [reflexivity|apply Hal; lia|lia]. }
  pose (s1 := set_mem m' s0).
  exists m'. split; [|split; [exact S|split; [exact Hleaf|]]].
  - unfold virtual_memory_init. replace (kernel_pagetables + 0 * PAGESIZE) with kernel_pagetables by lia.
    erewrite bind_ok by reflexivity. fold s0.
    erewrite bind_ok by (apply memset_ok; [lia|done|change (5 * PAGESIZE) with (5 * 4096); lia]).
    fold n5. change (mem s0) with (mem s). rewrite <- Em0.
    do 4 (erewrite bind_ok by (apply write_ok; change PAGESIZE with 4096; lia)).
    cbn [mem set_mem]. rewrite !set_mem_twice.
    assert (linked m0 kernel_shape = store 8 (store 8 (store 8 (store 8 m0 kernel_pagetables
      (Z.lor (kernel_pagetables + 1 * PAGESIZE) PTE_PWU)) (kernel_pagetables + 1 * PAGESIZE)
      (Z.lor (kernel_pagetables + 2 * PAGESIZE) PTE_PWU)) (kernel_pagetables + 2 * PAGESIZE)
      (Z.lor (kernel_pagetables + 3 * PAGESIZE) PTE_PWU)) (kernel_pagetables + 2 * PAGESIZE + 8)
      (Z.lor (kernel_pagetables + 4 * PAGESIZE) PTE_PWU)) as <-.
    { unfold linked, kernel_shape. cbn [L1 L2 L3 L4_1 L4_2].
      by replace (kernel_pagetables + 0 * PAGESIZE) with kernel_pagetables by lia. }
    assert (L1 kernel_shape = kernel_pagetables) as EL by (unfold kernel_shape; cbn [L1]; lia).
    rewrite EL in Em. change MEMSIZE_PHYSICAL with 0x200000. erewrite bind_ok by exact Em.
    rewrite set_mem_twice. fold s1.
    rewrite (bind_ok _ _ _ _ _ (init_checks s1 kernel_shape S Hid (eq_sym EL) Hperm)).
    erewrite bind_ok by reflexivity. change (kernel_pagetable s1) with kernel_pagetables.
    assert (identity m' kernel_shape 256) as Hid2 by (intros w Hw; apply Hid; lia).
    pose proof (set_pagetable_run L s1 kernel_shape kernel_shape HL S Hid2 S Hid EL (eq_sym EL)) as Eset.
    rewrite EL in Eset. exact Eset.
  - transitivity m0; [intros a Ha; apply Hag; by rewrite Hin|].
    transitivity (linked m0 kernel_shape).
    + intros a Ha. apply Ha1. by rewrite Hin.
    + intros a Ha. apply A. intros Hl4. apply Ha, Hin. destruct (in_pages kernel_shape) as (_&_&_&?&?).
      destruct Hl4; eexists; (split; [|done]); done.
Qed.

(** [virtual_memory_init] builds the kernel's page table and installs
    it: five pages linked as one address space that maps each page of
    physical memory at its own address, present, writable and
    user-accessible, and nothing above; its own assertions hold, and no byte
    outside the five pages changes. *)
Theorem virtual_memory_init_builds s :
  ∃ m, virtual_memory_init s = Ok () (set_cr3 kernel_pagetables (set_kernel_pagetable kernel_pagetables (set_mem m s))) ∧
  shape_ok m kernel_shape ∧
  (∀ w, 0 ≤ w < 1024 → leaf m kernel_shape w = if decide (w < 512) then w * 4096 + PTE_PWU else 0) ∧
  agree (λ a, ¬ (kernel_pagetables ≤ a < kernel_pagetables + 5 * PAGESIZE)) (mem s) m.
Proof. apply virtual_memory_init_run. Qed.
End init.

Lemma virtual_memory_init_builds_witness :
  ∃ m, @virtual_memory_init (λ _ _, 0) kernel_sym (machine_with ∅)
       = Ok () (set_cr3 0x52000 (set_kernel_pagetable 0x52000 (set_mem m (machine_with ∅)))) ∧
  leaf m (@kernel_shape kernel_sym) 0x45 = 0x45007.
Proof.
  destruct (@virtual_memory_init_builds (λ _ _, 0) kernel_sym kernel_sym_ok (machine_with ∅)) as (m & E & _ & Hl & _).
  exists m. split; [exact E|]. rewrite Hl by lia. reflexivity.
Defined.

(** ** Address spaces as functions

    The abstract address space: what each virtual address below 4 MB maps to. *)

Definition aspace : Type := Z → vamapping.

Definition represents `{Devices} (s : machine) (sh : pt_shape) (f : aspace) : Prop :=
  shape_ok (mem s) sh ∧ ∀ a, 0 ≤ a < 0x400000 → virtual_memory_lookup (L1 sh) a s = Ok (f a) s.

(** Mapping a range, on the abstract address space. *)
Definition remap (va pa sz perm : Z) (f : aspace) : aspace := λ a,
  if decide (va ≤ a < va + sz) then
    if has perm PTE_P then MkMap ((pa + (a - va)) / PAGESIZE) (pa + (a - va)) perm else unmapped
  else f a.

(** The address of the range, page by page. *)
Lemma range_pages va a sz :
  va mod 4096 = 0 → sz mod 4096 = 0 →
  (va / 4096 ≤ a / 4096 < va / 4096 + sz / 4096 ↔ va ≤ a < va + sz) ∧
  ∀ pa, pa + (a - va) = pa + (a / 4096 - va / 4096) * 4096 + a mod 4096.
Proof.
  intros Hva Hsz. pose proof (Z.div_mod va 4096). pose proof (Z.div_mod a 4096).
  pose proof (Z.div_mod sz 4096). pose proof (Z.mod_pos_bound a 4096). split; [lia|]. intros pa. lia.
Qed.

(** C14: [virtual_memory_map] refines the update of a function.  On a page table
    that represents an address space, mapping a range inside the first 4 MB
    returns 0, and the table then represents the address space in which the
    range maps to the given physical range with the given permissions, or to
    nothing when they lack [PTE_P], and every other address is as before. *)
Theorem virtual_memory_map_refines `{Devices} s sh f va pa sz perm :
  represents s sh f → map_args va pa sz perm → va + sz ≤ 0x400000 →
  ∃ s', virtual_memory_map (L1 sh) va pa sz perm s = Ok 0 s' ∧ represents s' sh (remap va pa sz perm f).
Proof.
  intros [Hsh Hf] Hargs Hend.
  destruct (map_ok s sh va pa sz perm Hsh Hargs Hend) as (m' & E & [S L A]).
  destruct Hargs as (?&Hal&?&Hsz&Hpr&Hpa).
  exists (set_mem m' s). split; [exact E|]. split; [exact S|]. intros a Ha. unfold remap.
  destruct (range_pages va a sz Hal Hsz) as [Hin Heq].
  assert (leaf (mem (set_mem m' s)) sh (a / 4096) = if decide (va ≤ a < va + sz)
    then new_entry (pa + (a / 4096 - va / 4096) * 4096) perm else leaf (mem s) sh (a / 4096)) as El.
  { cbn [mem set_mem]. rewrite L by (by apply vpn_range). repeat case_decide; tauto. }
  destruct (decide (va ≤ a < va + sz)) as [Hr|Hr].
  - change PAGESIZE with 4096. destruct (has perm PTE_P) eqn:HP.
    + destruct (Hpa eq_refl) as (Hp0&Hp1&Hp2). apply Hin in Hr as Hr'.
      rewrite (Heq pa). set (pa' := pa + (a / 4096 - va / 4096) * 4096) in *.
      assert (pa' mod 4096 = 0) as Hal' by (unfold pa'; rewrite Z.mod_add; [done|lia]).
      pose proof (Z.mod_pos_bound a 4096). pose proof (Heq pa). pose proof (Z.div_mod pa' 4096).
      replace ((pa' + a mod 4096) / 4096) with (pa' / 4096)
        by (apply Z.div_unique with (a mod 4096); lia).
      apply lookup_new_entry; try done; lia.
    + rewrite lookup_leaf, El by done. unfold new_entry, vamapping_of. by rewrite HP, HP.
  - rewrite lookup_leaf, El by done. specialize (Hf a Ha). rewrite lookup_leaf in Hf by done.
    injection Hf as Hf. by rewrite Hf.
Qed.

Lemma represents_leaf `{Devices} s sh :
  shape_ok (mem s) sh → represents s sh (λ a, vamapping_of (leaf (mem s) sh (a / 4096)) a).
Proof. intros Hsh. split; [done|]. intros a Ha. by apply lookup_leaf. Qed.

Lemma virtual_memory_map_refines_witness :
  ∃ f s', @represents (λ _ _, 0) demo_machine demo_shape f ∧
    @represents (λ _ _, 0) s' demo_shape (remap 0x103000 0x1F0000 0x2000 PTE_PWU f).
Proof.
  set (f := λ a, vamapping_of (leaf (mem demo_machine) demo_shape (a / 4096)) a).
  pose proof (@represents_leaf (λ _ _, 0) demo_machine demo_shape demo_machine_shape) as Hr.
  destruct (@virtual_memory_map_refines (λ _ _, 0) demo_machine demo_shape f 0x103000 0x1F0000 0x2000 PTE_PWU Hr)
    as (s' & _ & Hr'); [unfold map_args; repeat split; vm_compute; congruence|lia|].
  exists f, s'. split; [exact Hr|exact Hr'].
Defined.
