(* ===== verification/Display.v ===== *)
(** The run-time checks and the memory display of [src/kernel.c]. *)
From S2P Require Import Prelude X86 Machine CLib Printf Hardware PageTable Frames Syscalls.
Open Scope Z_scope.

(** ** check_virtual_memory *)

(** The iterations of [for (va = KERNEL_START_ADDR; va < end; va += PAGESIZE)]. *)
Definition kernel_image_pages `{Layout} : nat :=
  Z.to_nat ((end_addr - KERNEL_START_ADDR + PAGESIZE - 1) / PAGESIZE).

Definition check_kernel_page `{Devices} `{Layout} (pt va : Z) : M machine () :=
  vam ← virtual_memory_lookup pt va;
  (if pa vam =? va then mret ()
   else console_printf (CPOS 22 0) 0xC000 (str "%p vs %p" ++ [10]) [VInt va; VInt (pa vam)];; mret ());;
  assert_ (pa vam =? va) "kernel.c" 525 "vam.pa == va";;
  if start_data <=? va then assert_ (has (perm vam) PTE_W) "kernel.c" 527 "vam.perm & PTE_W"
  else mret ().

Definition check_page_table_mappings `{Devices} `{Layout} (pt : Z) : M machine () :=
  assert_ (PTE_ADDR pt =? pt) "kernel.c" 516 "PTE_ADDR(pt) == (uintptr_t) pt";;
  for_loop kernel_image_pages KERNEL_START_ADDR PAGESIZE (check_kernel_page pt);;
  let kstack := KERNEL_STACK_TOP - PAGESIZE in
  vam ← virtual_memory_lookup pt kstack;
  assert_ (pa vam =? kstack) "kernel.c" 534 "vam.pa == kstack";;
  assert_ (has (perm vam) PTE_W) "kernel.c" 535 "vam.perm & PTE_W".

(** [pageinfo[n]] for an index that must be inside the array. *)
Definition pageinfo_at (n : Z) : M kstate physical_pageinfo :=
  if (0 <=? n) && (n <? NPAGES) then gets (λ s, pinfo s n) else halt Undefined.

Definition check_table_page `{Devices} (pt own count : Z) : M kstate () :=
  on_machine (assert_ (PAGENUMBER pt <? NPAGES) "kernel.c" 564 "PAGENUMBER(pt) < NPAGES");;
  info ← pageinfo_at (PAGENUMBER pt);
  on_machine (assert_ (owner info =? own) "kernel.c" 565 "pageinfo[PAGENUMBER(pt)].owner == owner");;
  on_machine (assert_ (refcount info =? count) "kernel.c" 566 "pageinfo[PAGENUMBER(pt)].refcount == refcount").

(** [n] is [3 - level]. *)
Fixpoint check_page_table_ownership_level `{Devices} (n : nat) (pt own count : Z) : M kstate () :=
  check_table_page pt own count;;
  match n with
  | O => mret ()
  | S n =>
      for_loop (Z.to_nat NPAGETABLEENTRIES) 0 1 (λ index,
        e ← on_machine (read 8 (pt + 8 * index));
        if istrue e then check_page_table_ownership_level n (PTE_ADDR e) own 1 else mret ())
  end.

(** The processes that run on the kernel's own page table. *)
Definition kernel_table_users (s : kstate) : Z :=
  zsum (λ pid, if decide (p_state (process s pid) ≠ P_FREE ∧
                          p_pagetable (process s pid) = kernel_pagetable (mach s)) then 1 else 0)
    (seqZ 0 NPROC).

Definition check_page_table_ownership `{Devices} (pt pid : Z) : M kstate () :=
  kpt ← gets (λ s, kernel_pagetable (mach s));
  if pt =? kpt then
    users ← gets kernel_table_users;
    check_page_table_ownership_level 3 pt PO_KERNEL (1 + users)
  else check_page_table_ownership_level 3 pt pid 1.

Definition check_process `{Devices} `{Layout} (pid : Z) : M kstate () :=
  p ← gets (λ s, process s pid);
  kpt ← gets (λ s, kernel_pagetable (mach s));
  if decide (p_state p = P_FREE) then mret ()
  else if p_pagetable p =? kpt then mret ()
  else
    on_machine (check_page_table_mappings (p_pagetable p));;
    check_page_table_ownership (p_pagetable p) pid.

(** An owner that is not an index of [processes] is undefined behaviour. *)
Definition check_owner_alive `{Devices} (pn : Z) : M kstate () :=
  info ← gets (λ s, pinfo s pn);
  if (0 <? refcount info) && (0 <=? owner info) then
    if owner info <? NPROC then
      p ← gets (λ s, process s (owner info));
      on_machine (assert_ (negb (bool_decide (p_state p = P_FREE))) "kernel.c" 608
        "processes[pageinfo[pn].owner].p_state != P_FREE")
    else halt Undefined
  else mret ().

Definition check_virtual_memory `{Devices} `{Layout} : M kstate () :=
  p0 ← gets (λ s, process s 0);
  on_machine (assert_ (bool_decide (p_state p0 = P_FREE)) "kernel.c" 585 "processes[0].p_state == P_FREE");;
  kpt ← gets (λ s, kernel_pagetable (mach s));
  on_machine (check_page_table_mappings kpt);;
  check_page_table_ownership kpt (-1);;
  for_loop (Z.to_nat NPROC) 0 1 check_process;;
  for_loop (Z.to_nat NPAGES) 0 1 check_owner_alive.

(** ** The memory display *)

Definition memstate_colors : list Z :=
  zip_with Z.lor (str "KR.123456789ABCDEFS")
    [0x0D00; 0x0700; 0x0700; 0x0C00; 0x0A00; 0x0900; 0x0E00; 0x0F00; 0x0C00; 0x0A00; 0x0900;
     0x0E00; 0x0F00; 0x0C00; 0x0A00; 0x0900; 0x0E00; 0x0F00; 0].

Definition SHARED_COLOR : Z := nth 18 memstate_colors 0.

(** [memstate_colors[owner - PO_KERNEL]], with a free page shown as such. *)
Definition owner_color (info : physical_pageinfo) : option Z :=
  let own := if refcount info =? 0 then PO_FREE else owner info in
  if own <? PO_KERNEL then None else nth_error memstate_colors (Z.to_nat (own - PO_KERNEL)).

Definition known_color (c : option Z) : M kstate Z :=
  match c with Some c => mret c | None => halt Undefined end.

Definition put_cell (cpos color : Z) : M kstate () := on_machine (write 2 (console_cell cpos) (u16 color)).

Definition show_physical_page (pn : Z) : M kstate () :=
  (if Z.rem pn 64 =? 0
   then on_machine (console_printf (CPOS (1 + Z.quot pn 64) 3) 0x0F00 (str "0x%06X ") [VInt (Z.shiftl pn 12)]);; mret ()
   else mret ());;
  info ← gets (λ s, pinfo s pn);
  color ← known_color (owner_color info);
  let color := if (1 <? refcount info) && negb (pn =? PAGENUMBER CONSOLE_ADDR)
               then Z.lor SHARED_COLOR 0x0F00 else color in
  put_cell (CPOS (1 + Z.quot pn 64) (12 + Z.rem pn 64)) color.

Definition memshow_physical : M kstate () :=
  on_machine (console_printf (CPOS 0 32) 0x0F00 (str "PHYSICAL MEMORY") []);;
  for_loop (Z.to_nat NPAGES) 0 1 show_physical_page.

(** The colour of a mapped virtual page. *)
Definition virtual_color (info : physical_pageinfo) (perm va color : Z) : Z :=
  let color := if has perm PTE_U
    then Z.lor (Z.lor (Z.shiftl (Z.land color 0x0F00) 4) (Z.shiftr (Z.land color 0xF000) 4)) (Z.land color 0x00FF)
    else color in
  if (1 <? refcount info) && negb (va =? CONSOLE_ADDR) then
    let color := Z.lor SHARED_COLOR (Z.land color 0xF000) in
    if has perm PTE_U then color else Z.lor color 0x0F00
  else color.

Definition show_virtual_page `{Devices} (pagetable va : Z) : M kstate () :=
  vam ← on_machine (virtual_memory_lookup pagetable va);
  color ← (if pn vam <? 0 then mret 32
           else
             on_machine (assert_ (pa vam <? MEMSIZE_PHYSICAL) "kernel.c" 666 "vam.pa < MEMSIZE_PHYSICAL");;
             info ← gets (λ s, pinfo s (pn vam));
             color ← known_color (owner_color info);
             mret (virtual_color info (perm vam) va color));
  let pn := PAGENUMBER va in
  (if Z.rem pn 64 =? 0
   then on_machine (console_printf (CPOS (11 + Z.quot pn 64) 3) 0x0F00 (str "0x%06X ") [VInt va]);; mret ()
   else mret ());;
  put_cell (CPOS (11 + Z.quot pn 64) (12 + Z.rem pn 64)) color.

Definition memshow_virtual `{Devices} (pagetable : Z) (name : list Z) : M kstate () :=
  on_machine (assert_ (pagetable =? PTE_ADDR pagetable) "kernel.c" 657 "(uintptr_t) pagetable == PTE_ADDR(pagetable)");;
  on_machine (console_printf (CPOS 10 26) 0x0F00 (str "VIRTUAL ADDRESS SPACE FOR %s") [VStr name]);;
  for_loop (Z.to_nat (MEMSIZE_VIRTUAL / PAGESIZE)) 0 PAGESIZE (show_virtual_page pagetable).

Definition HZ : Z := 100.

(** [while (showing <= 2 * NPROC && ...) ++showing]: [n] is
    [2 * NPROC + 1 - showing]. *)
Fixpoint skip_free (n : nat) (shown : Z) (s : kstate) : Z :=
  match n with
  | O => shown
  | S n =>
      if (shown <=? 2 * NPROC) && bool_decide (p_state (process s (Z.rem shown NPROC)) = P_FREE)
      then skip_free n (shown + 1) s else shown
  end.

Definition memshow_virtual_animate `{Devices} : M kstate () :=
  modify (λ s, if (last_ticks s =? 0) || (HZ / 2 <=? u32 (ticks s - last_ticks s))
               then set_showing (ticks s) (showing s + 1) s else s);;
  modify (λ s, set_showing (last_ticks s)
                 (skip_free (Z.to_nat (2 * NPROC + 1 - showing s)) (showing s) s) s);;
  modify (λ s, set_showing (last_ticks s) (Z.rem (showing s) NPROC) s);;
  shown ← gets showing;
  p ← gets (λ s, process s shown);
  if decide (p_state p = P_FREE) then mret ()
  else
    match printed 4 (str "%d ") [VInt shown] with
    | Some name => memshow_virtual (p_pagetable p) name
    | None => halt Undefined
    end.

Lemma skip_free_ge n shown s : shown ≤ skip_free n shown s.
Proof.
  revert shown. induction n as [|n IH]; intros shown; cbn [skip_free]; [done|].
  destruct (_ && _); [|done]. specialize (IH (shown + 1)). lia.
Qed.
