(* ===== verification/ElfFormat.v ===== *)
(** The ELF structures of [src/elf.h], as the loaders find them in memory. *)
From S2P Require Import Prelude X86 Machine.
Open Scope Z_scope.

Definition ELF_MAGIC : Z := 0x464C457F.
Definition ELF_PTYPE_LOAD : Z := 1.
Definition ELF_PFLAG_WRITE : Z := 2.

(** The fields of a program header that the loaders use. *)
Record elf_program : Type := MkPh {
  p_type : Z; p_flags : Z; p_offset : Z; p_va : Z; p_filesz : Z; p_memsz : Z }.

Definition sizeof_elf_program : Z := 56.

(** The program header at [a], and the fields of the executable header at
    [eh]: its entry point, and where and how many program headers there are. *)
Definition phdr (m : gmap Z Z) (a : Z) : elf_program :=
  MkPh (load 4 m a) (load 4 m (a + 4)) (load 8 m (a + 8)) (load 8 m (a + 0x10))
       (load 8 m (a + 0x20)) (load 8 m (a + 0x28)).

Definition entry (m : gmap Z Z) (eh : Z) : Z := load 8 m (eh + 0x18).
Definition phoff (m : gmap Z Z) (eh : Z) : Z := load 8 m (eh + 0x20).
Definition phnum (m : gmap Z Z) (eh : Z) : Z := load 2 m (eh + 0x38).

(** Program header [i] of the image at [eh]. *)
Definition segment (m : gmap Z Z) (eh i : Z) : elf_program := phdr m (eh + phoff m eh + 56 * i).

Lemma phnum_range m eh : 0 ≤ phnum m eh < 65536.
Proof. apply (load_range 2). Qed.

(** Memory with the same bytes, at another place. *)
Definition same_bytes (m : gmap Z Z) (a : Z) (m' : gmap Z Z) (a' n : Z) : Prop :=
  ∀ k, 0 ≤ k < n → load8 m' (a' + k) = load8 m (a + k).

Lemma same_bytes_load m a m' a' n k w :
  same_bytes m a m' a' n → 0 ≤ k → k + Z.of_nat w ≤ n → load w m' (a' + k) = load w m (a + k).
Proof.
  revert k. induction w as [|w IH]; intros k Hs Hk Hn; [done|].
  change (load (S w) m' (a' + k)) with (load8 m' (a' + k) + 256 * load w m' (a' + k + 1)).
  change (load (S w) m (a + k)) with (load8 m (a + k) + 256 * load w m (a + k + 1)).
  rewrite (Hs k) by lia. do 2 f_equal. rewrite <- !Z.add_assoc. apply IH; [done|lia|lia].
Qed.

Lemma same_bytes_phdr m a m' a' n k :
  same_bytes m a m' a' n → 0 ≤ k → k + 48 ≤ n → phdr m' (a' + k) = phdr m (a + k).
Proof.
  intros Hs Hk Hn. unfold phdr. rewrite <- !Z.add_assoc.
  by rewrite !(same_bytes_load m a m' a' n) by (done || lia).
Qed.

(** Images written field by field, at concrete addresses. *)
Definition store_fields (l : list (nat * Z * Z)) (a : Z) (m : gmap Z Z) : gmap Z Z :=
  foldr (λ f m, store f.1.1 m (a + f.1.2) f.2) m l.

Definition store_phdr (a : Z) (ph : elf_program) (m : gmap Z Z) : gmap Z Z :=
  store_fields [(4%nat, 0, p_type ph); (4%nat, 4, p_flags ph); (8%nat, 8, p_offset ph); (8%nat, 0x10, p_va ph);
                (8%nat, 0x20, p_filesz ph); (8%nat, 0x28, p_memsz ph)] a m.
