(* ===== verification/BootLoader.v ===== *)
(** The boot loader of [src/boot.c], which reads the kernel from the first IDE
    disk, and what it relies on of the disk's controller. *)
From S2P Require Import Prelude X86 Machine ElfFormat.
Open Scope Z_scope.

(** ** The machine of the boot loader

    [src/bootstart.S] has mapped the first gigabyte at its own addresses; an
    access beyond faults.  The disk controller is behind the ports: its state
    is a parameter, and so is what a port access does to it. *)

Class Controller : Type := {
  ctl : Type;
  ctl_in : Z → ctl → Z * ctl;
  ctl_out : Z → Z → ctl → ctl }.

Record bootstate `{Controller} : Type := MkBoot { bmem : gmap Z Z; disk : ctl }.
Arguments MkBoot {_} _ _.

(** The number of times a loop that waits for the disk is followed. *)
Class Polls : Type := poll_limit : nat.

Section boot.
Context `{Controller} `{Polls}.

Definition mapped_end : Z := 0x40000000.
Definition boot_mapped (a n : Z) : bool := (0 <=? a) && (a + n <=? mapped_end).

Definition bread (n : nat) (a : Z) : M bootstate Z := λ s,
  if boot_mapped a (Z.of_nat n) then Ok (load n (bmem s) a) s else Halt (KernelFault a) s.

Definition bwrite (n : nat) (a v : Z) : M bootstate () := λ s,
  if boot_mapped a (Z.of_nat n) then Ok () (MkBoot (store n (bmem s) a v) (disk s)) else Halt (KernelFault a) s.

Definition binb (port : Z) : M bootstate Z := λ s,
  let r := ctl_in port (disk s) in Ok (u8 r.1) (MkBoot (bmem s) r.2).

Definition binl (port : Z) : M bootstate Z := λ s,
  let r := ctl_in port (disk s) in Ok (u32 r.1) (MkBoot (bmem s) r.2).

Definition boutb (port data : Z) : M bootstate () := λ s,
  Ok () (MkBoot (bmem s) (ctl_out port (u8 data) (disk s))).

(** [cld; repne insl]: [cnt] words from the port to [addr]. *)
Fixpoint insl (cnt : nat) (port addr : Z) : M bootstate () :=
  match cnt with
  | O => mret ()
  | S cnt => w ← binl port; bwrite 4 addr w;; insl cnt port (u64 (addr + 4))
  end.

(** ** boot.c *)

Definition SECTORSIZE : Z := 512.
Definition ELFHDR : Z := 0x10000.

(** [while ((inb(0x1F7) & 0xC0) != 0x40)] *)
Fixpoint waitdisk_loop (n : nat) : M bootstate () :=
  match n with
  | O => halt Spinning
  | S n => st ← binb 0x1F7; if Z.land st 0xC0 =? 0x40 then mret () else waitdisk_loop n
  end.

Definition boot_waitdisk : M bootstate () := waitdisk_loop poll_limit.

Definition boot_readsect (dst src_sect : Z) : M bootstate () :=
  boot_waitdisk;;
  boutb 0x1F2 1;;
  boutb 0x1F3 (u8 src_sect);;
  boutb 0x1F4 (u8 (Z.shiftr src_sect 8));;
  boutb 0x1F5 (u8 (Z.shiftr src_sect 16));;
  boutb 0x1F6 (u8 (Z.lor (Z.shiftr src_sect 24) 0xE0));;
  boutb 0x1F7 0x20;;
  boot_waitdisk;;
  insl (Z.to_nat (SECTORSIZE / 4)) 0x1F0 dst.

(** [for (; ptr < end_ptr; ptr += SECTORSIZE, ++src_sect)] *)
Fixpoint read_sectors (n : nat) (ptr end_ptr src_sect : Z) : M bootstate () :=
  match n with
  | O => halt Spinning
  | S n =>
      if ptr <? end_ptr then
        boot_readsect ptr src_sect;; read_sectors n (u64 (ptr + SECTORSIZE)) end_ptr (u32 (src_sect + 1))
      else mret ()
  end.

(** [for (; end_ptr < memsz; ++end_ptr)] *)
Fixpoint clear_bss (n : nat) (end_ptr memsz : Z) : M bootstate () :=
  match n with
  | O => halt Spinning
  | S n => if end_ptr <? memsz then bwrite 1 end_ptr 0;; clear_bss n (u64 (end_ptr + 1)) memsz else mret ()
  end.

Definition boot_readseg (ptr src_sect filesz memsz : Z) : M bootstate () :=
  let end_ptr := u64 (ptr + filesz) in
  let memsz := u64 (memsz + ptr) in
  let ptr := Z.land ptr (u64 (Z.lnot (SECTORSIZE - 1))) in
  read_sectors (S (Z.to_nat ((end_ptr - ptr + (SECTORSIZE - 1)) / SECTORSIZE))) ptr end_ptr src_sect;;
  clear_bss (S (Z.to_nat (memsz - end_ptr))) end_ptr memsz.

(** The loop over the program headers, which it reads from the page in memory. *)
Fixpoint boot_segments (n : nat) (ph eph : Z) : M bootstate () :=
  match n with
  | O => halt Spinning
  | S n =>
      if ph <? eph then
        va ← bread 8 (ph + 0x10);
        offset ← bread 8 (ph + 8);
        filesz ← bread 8 (ph + 0x20);
        memsz ← bread 8 (ph + 0x28);
        boot_readseg va (u32 (offset / SECTORSIZE + 1)) filesz memsz;;
        boot_segments n (u64 (ph + sizeof_elf_program)) eph
      else mret ()
  end.

Definition boot {A} : M bootstate A :=
  boot_readseg ELFHDR 1 PAGESIZE PAGESIZE;;
  magic ← bread 4 ELFHDR;
  if negb (magic =? ELF_MAGIC) then halt Spinning else
  phoff ← bread 8 (ELFHDR + 0x20);
  phnum ← bread 2 (ELFHDR + 0x38);
  let ph := u64 (ELFHDR + phoff) in
  boot_segments (S (Z.to_nat phnum)) ph (u64 (ph + sizeof_elf_program * phnum));;
  entry ← bread 8 (ELFHDR + 0x18);
  halt (Jumped entry).
End boot.
