(* ===== verification/BootLoads.v ===== *)
(** The boot loader reads the kernel: what it relies on of the disk, and what
    is in memory when it calls the kernel. *)
From S2P Require Import Prelude X86 Machine ElfFormat BootLoader.
Open Scope Z_scope.

(** ** The ATA disk

    The protocol of a programmed read, as the ATA standard has it.  Reading the
    status port [latency] times finds the controller ready; a ready controller
    that is given a count of one, a 28-bit sector number and the command to
    read gets ready again, and then the data port yields the 128 words of that
    sector. *)

Section protocol.
Context `{Controller}.

Fixpoint ready_within (n : nat) (c : ctl) (P : ctl → Prop) : Prop :=
  match n with
  | O => False
  | S n =>
      let r := ctl_in 0x1F7 c in
      if Z.land (u8 r.1) 0xC0 =? 0x40 then P r.2 else ready_within n r.2 P
  end.

Fixpoint transfers (data : gmap Z Z) (n : nat) (a : Z) (c : ctl) (P : ctl → Prop) : Prop :=
  match n with
  | O => P c
  | S n => let r := ctl_in 0x1F0 c in u32 r.1 = load 4 data a ∧ transfers data n (a + 4) r.2 P
  end.

Definition command_registers (l : Z) : list (Z * Z) :=
  [(0x1F2, 1); (0x1F3, u8 l); (0x1F4, u8 (Z.shiftr l 8)); (0x1F5, u8 (Z.shiftr l 16));
   (0x1F6, u8 (Z.lor (Z.shiftr l 24) 0xE0)); (0x1F7, 0x20)].

Definition read_command (l : Z) (c : ctl) : ctl :=
  foldl (λ c r, ctl_out r.1 r.2 c) c (command_registers l).
End protocol.

Class AtaDisk `{Controller} (data : gmap Z Z) (latency : nat) : Type := {
  idle : ctl → Prop;
  accepting : ctl → Prop;
  ata_ready : ∀ c, idle c → ready_within latency c accepting;
  ata_read : ∀ c l, accepting c → 0 ≤ l < 2 ^ 28 →
    ready_within latency (read_command l c) (λ c', transfers data 128 (512 * l) c' idle) }.

(** ** Reading *)

Lemma u8_u8 x : u8 (u8 x) = u8 x.
Proof. apply Z.mod_mod. lia. Qed.

Lemma load8_store_load n m a data x b :
  load8 (store n m a (load n data x)) b
  = if decide (a ≤ b < a + Z.of_nat n) then load8 data (x + (b - a)) else load8 m b.
Proof.
  revert m a x. induction n as [|n IH]; intros m a x.
  { rewrite decide_False by lia. done. }
  change (store (S n) m a (load (S n) data x)) with
    (store n (<[a := load (S n) data x mod 256]> m) (a + 1) (load (S n) data x / 256)).
  change (load (S n) data x) with (load8 data x + 256 * load n data (x + 1)).
  pose proof (load8_range data x) as Hr. pose proof (Z.mul_comm 256 (load n data (x + 1))) as Ec.
  rewrite Ec, Z.mod_add, Z.div_add, (Z.mod_small (load8 data x)), (Z.div_small (load8 data x)), Z.add_0_l by lia.
  rewrite IH, load8_insert, (Z.mod_small (load8 data x)) by lia.
  destruct (decide (a = b)) as [->|Hne].
  - rewrite decide_False, decide_True by lia. f_equal. lia.
  - destruct (decide (a + 1 ≤ b < a + 1 + Z.of_nat n)).
    + rewrite (decide_True (P := a ≤ b < _)) by lia. f_equal. lia.
    + by rewrite (decide_False (P := a ≤ b < _)) by lia.
Qed.

(** *** Sectors *)

(** The number of sectors from [lo] that cover the addresses below [hi]. *)
Definition sectors (lo hi : Z) : Z := Z.max 0 ((hi - lo + 511) / 512).

Lemma sectors_next lo hi : lo < hi → 0 < sectors lo hi ∧ sectors (lo + 512) hi = sectors lo hi - 1.
Proof.
  intros Hlt. unfold sectors. replace (hi - (lo + 512) + 511) with (hi - lo + 511 + (-1) * 512) by lia.
  rewrite Z.div_add by lia. assert (1 ≤ (hi - lo + 511) / 512) by (apply Z.div_le_lower_bound; lia). lia.
Qed.

Lemma sectors_end lo hi : hi ≤ lo → sectors lo hi = 0.
Proof. intros Hle. unfold sectors. assert ((hi - lo + 511) / 512 < 1) by (apply Z.div_lt_upper_bound; lia). lia. Qed.

Lemma sectors_cover lo hi : hi ≤ lo + 512 * sectors lo hi.
Proof. unfold sectors. pose proof (Z.div_mod (hi - lo + 511) 512). pose proof (Z.mod_pos_bound (hi - lo + 511) 512). lia. Qed.

(** Where a segment starts to be written, and where it ends. *)
Definition seg_lo (va : Z) : Z := va - va mod 512.
Definition seg_hi (va filesz memsz : Z) : Z :=
  Z.max (seg_lo va + 512 * sectors (seg_lo va) (va + filesz)) (va + memsz).

Lemma sector_mask va : 0 ≤ va < 2 ^ 64 → Z.land va (u64 (Z.lnot (SECTORSIZE - 1))) = seg_lo va.
Proof.
  intros Hva. change (u64 (Z.lnot (SECTORSIZE - 1))) with (Z.shiftl (Z.ones 55) 9).
  unfold seg_lo. transitivity (Z.shiftl (Z.shiftr va 9) 9).
  - apply Z.bits_inj'. intros i Hi. rewrite Z.land_spec, !Z.shiftl_spec by lia.
    destruct (decide (i < 9)).
    + rewrite !(Z.testbit_neg_r _ (i - 9)) by lia. by rewrite andb_false_r.
    + rewrite Z.shiftr_spec by lia. replace (i - 9 + 9) with i by lia.
      destruct (decide (i < 64)).
      * rewrite Z.ones_spec_low by lia. by rewrite andb_true_r.
      * rewrite Z.ones_spec_high by lia. rewrite andb_false_r. symmetry.
        rewrite <- (Z.mod_small va (2 ^ 64)) by done. apply Z.mod_pow2_bits_high. lia.
  - rewrite Z.shiftr_div_pow2, Z.shiftl_mul_pow2 by lia. change (2 ^ 9) with 512.
    pose proof (Z.div_mod va 512). lia.
Qed.

Section reads.
Context `{Controller} `{Polls} (data : gmap Z Z) (latency : nat) (Hata : AtaDisk data latency).
Context (Hpoll : (latency ≤ poll_limit)%nat).

Lemma waitdisk_loop_ok n k s (P : ctl → Prop) :
  ready_within n (disk s) P → (n ≤ k)%nat → ∃ c, waitdisk_loop k s = Ok () (MkBoot (bmem s) c) ∧ P c.
Proof.
  revert k s. induction n as [|n IH]; intros k s Hr Hk; [done|]. destruct k as [|k]; [lia|].
  cbn [ready_within] in Hr. cbn [waitdisk_loop]. erewrite bind_ok by reflexivity.
  destruct (Z.eqb_spec (Z.land (u8 (ctl_in 0x1F7 (disk s)).1) 0xC0) 0x40) as [E|E].
  - by eexists.
  - apply (IH k (MkBoot (bmem s) (ctl_in 0x1F7 (disk s)).2)); [exact Hr|lia].
Qed.

Lemma waitdisk_ok s (P : ctl → Prop) :
  ready_within latency (disk s) P → ∃ c, boot_waitdisk s = Ok () (MkBoot (bmem s) c) ∧ P c.
Proof. intros Hr. by apply (waitdisk_loop_ok latency). Qed.

(** Memory with [n] bytes of the disk, from [x] on, at [a]. *)
Definition holds (m m' : gmap Z Z) (a n x : Z) : Prop :=
  ∀ b, load8 m' b = if decide (a ≤ b < a + n) then load8 data (x + (b - a)) else load8 m b.

Lemma holds_none m a x : holds m m a 0 x.
Proof. intros b. rewrite decide_False by lia. done. Qed.

Lemma holds_trans m1 m2 m3 a n k x :
  0 ≤ n → 0 ≤ k → holds m1 m2 a n x → holds m2 m3 (a + n) k (x + n) → holds m1 m3 a (n + k) x.
Proof.
  intros Hn Hk H1 H2 b. rewrite H2, H1. repeat case_decide; try lia; try done. f_equal. lia.
Qed.

Lemma insl_ok n a x s :
  transfers data n x (disk s) idle → 0 ≤ a → a + 4 * Z.of_nat n ≤ mapped_end →
  ∃ s', insl n 0x1F0 a s = Ok () s' ∧ idle (disk s') ∧ holds (bmem s) (bmem s') a (4 * Z.of_nat n) x.
Proof.
  revert a x s. induction n as [|n IH]; intros a x s Ht Ha He.
  { exists s. split; [done|]. split; [done|]. apply holds_none. }
  destruct Ht as [E Ht]. cbn [insl]. erewrite bind_ok by reflexivity. rewrite E.
  assert (boot_mapped a (Z.of_nat 4) = true) as Hm.
  { unfold boot_mapped. apply andb_true_intro. split; apply Z.leb_le; lia. }
  change mapped_end with 0x40000000 in *.
  erewrite bind_ok by (unfold bwrite; by rewrite Hm). cbn [bmem disk]. rewrite u64_small by lia.
  destruct (IH (a + 4) (x + 4) (MkBoot (store 4 (bmem s) a (load 4 data x)) (ctl_in 0x1F0 (disk s)).2) Ht)
    as (s' & E' & Hi & Hh); [lia|lia|].
  exists s'. split; [exact E'|]. split; [exact Hi|].
  replace (4 * Z.of_nat (S n)) with (4 + 4 * Z.of_nat n) by lia.
  apply (holds_trans _ (store 4 (bmem s) a (load 4 data x))); [lia|lia| |exact Hh].
  intros b. apply (load8_store_load 4).
Qed.

Lemma readsect_ok dst l s :
  idle (disk s) → 0 ≤ l < 2 ^ 28 → 0 ≤ dst → dst + 512 ≤ mapped_end →
  ∃ s', boot_readsect dst l s = Ok () s' ∧ idle (disk s') ∧ holds (bmem s) (bmem s') dst 512 (512 * l).
Proof.
  intros Hi Hl Hd He. unfold boot_readsect.
  destruct (waitdisk_ok s accepting (ata_ready _ Hi)) as (c & E & Hc). erewrite bind_ok by exact E.
  do 6 erewrite bind_ok by reflexivity. rewrite !u8_u8.
  destruct (waitdisk_ok (MkBoot (bmem s) (read_command l c)) _ (ata_read c l Hc Hl)) as (c' & E' & Ht).
  erewrite bind_ok by exact E'.
  change 512 with (4 * Z.of_nat 128) at 2. change (Z.to_nat (SECTORSIZE / 4)) with 128%nat.
  apply (insl_ok 128 dst (512 * l) (MkBoot (bmem s) c')); [exact Ht|done|done].
Qed.

Lemma read_sectors_ok n lo hi l s :
  idle (disk s) → 0 ≤ lo → lo + 512 * sectors lo hi ≤ mapped_end → 0 ≤ l → l + sectors lo hi < 2 ^ 28 →
  sectors lo hi < Z.of_nat n →
  ∃ s', read_sectors n lo hi l s = Ok () s' ∧ idle (disk s') ∧
    holds (bmem s) (bmem s') lo (512 * sectors lo hi) (512 * l).
Proof.
  revert lo l s. induction n as [|n IH]; intros lo l s Hi Hlo He Hl Hl2 Hn; [unfold sectors in Hn; lia|].
  cbn [read_sectors]. destruct (Z.ltb_spec lo hi) as [Hlt|Hge].
  - destruct (sectors_next lo hi Hlt) as [Hpos Hnext]. change mapped_end with 0x40000000 in *.
    destruct (readsect_ok lo l s Hi) as (s1 & E1 & Hi1 & H1); [lia|lia|change mapped_end with 0x40000000; lia|].
    erewrite bind_ok by exact E1. change SECTORSIZE with 512. unfold u32. rewrite u64_small, Z.mod_small by lia.
    destruct (IH (lo + 512) (l + 1) s1 Hi1) as (s2 & E2 & Hi2 & H2); rewrite ?Hnext; try lia.
    exists s2. split; [exact E2|]. split; [exact Hi2|]. rewrite Hnext in H2.
    replace (512 * sectors lo hi) with (512 + 512 * (sectors lo hi - 1)) by lia.
    apply (holds_trans _ (bmem s1)); [lia|lia|exact H1|]. by replace (512 * l + 512) with (512 * (l + 1)) by lia.
  - rewrite sectors_end by done. exists s. split; [done|]. split; [done|]. apply holds_none.
Qed.

Lemma clear_bss_ok n a e s :
  0 ≤ a → e ≤ mapped_end → Z.max 0 (e - a) < Z.of_nat n →
  ∃ s', clear_bss n a e s = Ok () s' ∧ disk s' = disk s ∧
    ∀ b, load8 (bmem s') b = if decide (a ≤ b < e) then 0 else load8 (bmem s) b.
Proof.
  intros Ha He. change mapped_end with 0x40000000 in He. revert a s Ha.
  induction n as [|n IH]; intros a s Ha Hn; cbn [clear_bss].
  { lia. }
  destruct (Z.ltb_spec a e) as [Hlt|Hge].
  - assert (boot_mapped a (Z.of_nat 1) = true) as Hm.
    { unfold boot_mapped. change mapped_end with 0x40000000. apply andb_true_intro. split; apply Z.leb_le; lia. }
    erewrite bind_ok by (unfold bwrite; by rewrite Hm). rewrite u64_small by lia.
    destruct (IH (a + 1) (MkBoot (store 1 (bmem s) a 0) (disk s))) as (s' & E & Ed & Hb); [lia|lia|].
    exists s'. split; [exact E|]. split; [exact Ed|]. intros b. rewrite Hb. cbn [bmem]. rewrite load8_store_1.
    repeat case_decide; try lia; done.
  - exists s. split; [done|]. split; [done|]. intros b. by rewrite decide_False by lia.
Qed.

Lemma readseg_ok va l filesz memsz s :
  idle (disk s) → 0 ≤ va → 0 ≤ filesz → 0 ≤ memsz → seg_hi va filesz memsz ≤ mapped_end →
  0 ≤ l → l + sectors (seg_lo va) (va + filesz) < 2 ^ 28 →
  ∃ s', boot_readseg va l filesz memsz s = Ok () s' ∧ idle (disk s') ∧
    ∀ b, load8 (bmem s') b =
      if decide (va + filesz ≤ b < va + memsz) then 0
      else if decide (seg_lo va ≤ b < seg_lo va + 512 * sectors (seg_lo va) (va + filesz))
        then load8 data (512 * l + (b - seg_lo va)) else load8 (bmem s) b.
Proof.
  intros Hi Hva Hf Hm He Hl Hl2. unfold seg_hi in He. change mapped_end with 0x40000000 in He.
  pose proof (sectors_cover (seg_lo va) (va + filesz)) as Hc.
  unfold boot_readseg. cbv zeta. rewrite !(Z.add_comm memsz va), !u64_small, sector_mask by lia.
  assert (0 ≤ seg_lo va ≤ va) as Hlo.
  { unfold seg_lo. pose proof (Z.mod_pos_bound va 512). pose proof (Z.mod_le va 512). lia. }
  destruct (read_sectors_ok (S (Z.to_nat ((va + filesz - seg_lo va + (SECTORSIZE - 1)) / SECTORSIZE))) (seg_lo va) (va + filesz) l s Hi)
    as (s1 & E1 & Hi1 & H1); [lia|change mapped_end with 0x40000000; lia|lia|lia| |].
  { unfold sectors. change (SECTORSIZE - 1) with 511. change SECTORSIZE with 512. lia. }
  erewrite bind_ok by exact E1.
  destruct (clear_bss_ok (S (Z.to_nat (va + memsz - (va + filesz)))) (va + filesz) (va + memsz) s1) as (s2 & E2 & Ed & H2);
    [lia|change mapped_end with 0x40000000; lia|lia|].
  exists s2. split; [exact E2|]. split; [by rewrite Ed|]. intros b. rewrite H2. case_decide; [done|]. apply H1.
Qed.

End reads.

(** ** The kernel's image

    The image is at [eh] of some memory: the kernel's file, or the disk, where
    it starts at sector 1. *)

Section image.
Context (m : gmap Z Z) (eh : Z).

(** The bytes that loading segment [i] writes. *)
Definition written (i b : Z) : Prop :=
  let ph := segment m eh i in seg_lo (p_va ph) ≤ b < seg_hi (p_va ph) (p_filesz ph) (p_memsz ph).

(** Segment [i] is in memory. *)
Definition segment_in (bm : gmap Z Z) (i : Z) : Prop :=
  let ph := segment m eh i in
  ∀ k, 0 ≤ k < p_memsz ph →
    load8 bm (p_va ph + k) = if decide (k < p_filesz ph) then load8 m (eh + p_offset ph + k) else 0.

(** An image the boot loader can load: its headers are in the first page, each
    segment has the same place in its sectors as in those of the file and lies
    above the page of the headers, and no segment writes over an earlier one. *)
Record bootable : Prop := {
  bk_magic : load 4 m eh = ELF_MAGIC;
  bk_headers : phoff m eh + 56 * phnum m eh ≤ PAGESIZE;
  bk_sizes : ∀ i, 0 ≤ i < phnum m eh → p_filesz (segment m eh i) ≤ p_memsz (segment m eh i);
  bk_aligned : ∀ i, 0 ≤ i < phnum m eh →
    p_offset (segment m eh i) mod 512 = p_va (segment m eh i) mod 512;
  bk_above : ∀ i b, 0 ≤ i < phnum m eh → written i b → ELFHDR + PAGESIZE ≤ b;
  bk_mapped : ∀ i, 0 ≤ i < phnum m eh → let ph := segment m eh i in
    seg_hi (p_va ph) (p_filesz ph) (p_memsz ph) ≤ mapped_end;
  bk_disk : ∀ i, 0 ≤ i < phnum m eh → let ph := segment m eh i in
    p_offset ph / 512 + 1 + sectors (seg_lo (p_va ph)) (p_va ph + p_filesz ph) < 2 ^ 28;
  bk_order : ∀ i j k, 0 ≤ i < j → j < phnum m eh →
    0 ≤ k < p_memsz (segment m eh i) → ¬ written j (p_va (segment m eh i) + k) }.
End image.

(** The same image at another place: only the headers matter. *)
Section moved.
Context (m : gmap Z Z) (a : Z) (m' : gmap Z Z) (a' : Z).
Context (Hs : same_bytes m a m' a' PAGESIZE) (Hb : bootable m a).

Lemma moved_fields : phnum m' a' = phnum m a ∧ phoff m' a' = phoff m a ∧ entry m' a' = entry m a.
Proof. unfold phnum, phoff, entry. by rewrite !(same_bytes_load m a m' a' PAGESIZE). Qed.

Lemma moved_segment i : 0 ≤ i < phnum m a → segment m' a' i = segment m a i.
Proof.
  intros Hi. unfold segment. destruct moved_fields as (_ & -> & _). pose proof (bk_headers _ _ Hb).
  pose proof (load_range 8 m (a + 0x20)) as Hp. fold (phoff m a) in Hp.
  rewrite <- !Z.add_assoc. apply (same_bytes_phdr m a m' a' PAGESIZE); [done|lia|lia].
Qed.

Lemma moved_bootable : bootable m' a'.
Proof.
  destruct moved_fields as (En & Ep & _). pose proof Hb as [A1 A2 A3 A4 A5 A6 A7 A8]. split; rewrite ?En, ?Ep.
  - pose proof (same_bytes_load m a m' a' PAGESIZE 0 4 Hs ltac:(done) ltac:(done)) as E. by rewrite !Z.add_0_r in E; rewrite E.
  - done.
  - intros i Hi. rewrite moved_segment by done. by apply A3.
  - intros i Hi. rewrite moved_segment by done. by apply A4.
  - intros i b Hi. unfold written. rewrite moved_segment by done. by apply A5.
  - intros i Hi. rewrite moved_segment by done. by apply A6.
  - intros i Hi. rewrite moved_segment by done. by apply A7.
  - intros i j k Hij Hj. unfold written. rewrite !moved_segment by lia. by apply A8.
Qed.

Lemma moved_segment_in bm i :
  0 ≤ i < phnum m a →
  (∀ k, 0 ≤ k < p_filesz (segment m a i) → load8 m' (a' + p_offset (segment m a i) + k) = load8 m (a + p_offset (segment m a i) + k)) →
  segment_in m' a' bm i → segment_in m a bm i.
Proof.
  intros Hi Hbytes Hin k Hk. pose proof (Hin k) as E. rewrite moved_segment in E by done.
  rewrite E by done. case_decide; [|done]. apply Hbytes. lia.
Qed.
End moved.

Section loading.
Context `{Controller} `{Polls} (data : gmap Z Z) (latency : nat) (Hata : AtaDisk data latency).
Context (Hpoll : (latency ≤ poll_limit)%nat).
Abbreviation kernel_file := 512.
Abbreviation kernel_segment i := (segment data kernel_file i).

(** Before segment [i]. *)
Record loaded_before (s : bootstate) (i : Z) (s' : bootstate) : Prop := {
  lb_idle : idle (disk s');
  lb_header : same_bytes data kernel_file (bmem s') ELFHDR PAGESIZE;
  lb_segments : ∀ j, 0 ≤ j < i → segment_in data kernel_file (bmem s') j;
  lb_rest : ∀ b, ¬ (ELFHDR ≤ b < ELFHDR + PAGESIZE) → (∀ j, 0 ≤ j < i → ¬ written data kernel_file j b) →
    load8 (bmem s') b = load8 (bmem s) b }.

Lemma phdr_fields ph i : ph = kernel_segment i →
  0 ≤ p_va ph < 2 ^ 64 ∧ 0 ≤ p_offset ph < 2 ^ 64 ∧ 0 ≤ p_filesz ph ∧ 0 ≤ p_memsz ph.
Proof.
  intros ->. unfold segment, phdr. cbn [p_va p_offset p_filesz p_memsz].
  repeat match goal with |- context [load 8 ?m ?a] => pose proof (load_range 8 m a); generalize dependent (load 8 m a); intros end.
  change (256 ^ Z.of_nat 8) with (2 ^ 64) in *. lia.
Qed.

Lemma loads_segment s i si s' :
  bootable data kernel_file → loaded_before s i si → 0 ≤ i < phnum data kernel_file → let ph := kernel_segment i in
  idle (disk s') →
  (∀ b, load8 (bmem s') b =
    if decide (p_va ph + p_filesz ph ≤ b < p_va ph + p_memsz ph) then 0
    else if decide (seg_lo (p_va ph) ≤ b < seg_lo (p_va ph) + 512 * sectors (seg_lo (p_va ph)) (p_va ph + p_filesz ph))
      then load8 data (512 * (p_offset ph / 512 + 1) + (b - seg_lo (p_va ph))) else load8 (bmem si) b) →
  loaded_before s (i + 1) s'.
Proof.
  intros Hb [Hidle Hh Hs Hr] Hi ph Hi' Hm. destruct (phdr_fields ph i eq_refl) as (Hva & Hoff & Hf & Hms).
  assert (∀ b, ¬ written data kernel_file i b → load8 (bmem s') b = load8 (bmem si) b) as Hout.
  { intros b Hw. rewrite Hm. unfold written, seg_hi in Hw. fold ph in Hw.
    pose proof (sectors_cover (seg_lo (p_va ph)) (p_va ph + p_filesz ph)).
    pose proof (Z.mod_pos_bound (p_va ph) 512). pose proof (bk_sizes _ _ Hb i Hi) as Hsz. fold ph in Hsz.
    rewrite !decide_False; [done| |]; intros Hc; apply Hw; unfold seg_lo in *; lia. }
  split; [done| | |].
  - intros k Hk. rewrite Hout; [by apply Hh|]. intros Hw. pose proof (bk_above _ _ Hb i _ Hi Hw). lia.
  - intros j Hj. destruct (decide (j = i)) as [->|Hne].
    + intros k Hk. fold ph in Hk |- *. rewrite Hm. destruct (decide (k < p_filesz ph)).
      * rewrite decide_False by lia. pose proof (sectors_cover (seg_lo (p_va ph)) (p_va ph + p_filesz ph)).
        pose proof (Z.mod_pos_bound (p_va ph) 512). rewrite decide_True by (unfold seg_lo in *; lia).
        f_equal. pose proof (bk_aligned _ _ Hb i Hi) as Ha. fold ph in Ha. pose proof (Z.div_mod (p_offset ph) 512).
        unfold seg_lo. lia.
      * by rewrite decide_True by lia.
    + intros k Hk. rewrite Hout; [apply Hs; [lia|done]|]. by apply (bk_order _ _ Hb j i k); [lia|apply Hi|].
  - intros b Hpg Hall. rewrite Hout; [apply Hr; [done|]|apply Hall; lia]. intros j Hj. apply Hall. lia.
Qed.

Lemma bread_header n k s :
  same_bytes data kernel_file (bmem s) ELFHDR PAGESIZE → 0 ≤ k → k + Z.of_nat n ≤ PAGESIZE →
  bread n (ELFHDR + k) s = Ok (load n data (kernel_file + k)) s.
Proof.
  intros Hs Hk Hn. change PAGESIZE with 4096 in *. change ELFHDR with 0x10000 in *. unfold bread.
  assert (boot_mapped (0x10000 + k) (Z.of_nat n) = true) as ->.
  { unfold boot_mapped. change mapped_end with 0x40000000. apply andb_true_intro. split; apply Z.leb_le; lia. }
  by rewrite (same_bytes_load data kernel_file (bmem s) 0x10000 4096 k n Hs Hk Hn).
Qed.

(** Field [o] of program header [i]. *)
Lemma bread_field i o s :
  bootable data kernel_file → same_bytes data kernel_file (bmem s) ELFHDR PAGESIZE → 0 ≤ i < phnum data kernel_file → 0 ≤ o ≤ 48 →
  bread 8 (ELFHDR + phoff data kernel_file + 56 * i + o) s
  = Ok (load 8 data (kernel_file + phoff data kernel_file + 56 * i + o)) s.
Proof.
  intros Hb Hs Hi Ho. pose proof (bk_headers _ _ Hb) as Hh. pose proof (load_range 8 data (kernel_file + 0x20)) as Hp.
  fold (phoff data kernel_file) in Hp. change PAGESIZE with 4096 in *. rewrite <- !Z.add_assoc.
  apply bread_header; [done|lia|change PAGESIZE with 4096; lia].
Qed.

Lemma boot_segments_ok s n i si :
  bootable data kernel_file → loaded_before s i si → 0 ≤ i ≤ phnum data kernel_file → phnum data kernel_file - i < Z.of_nat n →
  let ph := ELFHDR + phoff data kernel_file in
  ∃ s', boot_segments n (ph + 56 * i) (ph + 56 * phnum data kernel_file) si = Ok () s' ∧
    loaded_before s (phnum data kernel_file) s'.
Proof.
  intros Hb. pose proof (bk_headers _ _ Hb) as Hh. pose proof (load_range 8 data (kernel_file + 0x20)) as Hp.
  fold (phoff data kernel_file) in Hp. change PAGESIZE with 4096 in *. change ELFHDR with 0x10000 in *.
  revert i si. induction n as [|n IH]; intros i si Hl Hi Hn ph; [lia|]. cbn [boot_segments]. subst ph.
  destruct (Z.ltb_spec (0x10000 + phoff data kernel_file + 56 * i) (0x10000 + phoff data kernel_file + 56 * phnum data kernel_file))
    as [Hlt|Hge].
  2: { assert (i = phnum data kernel_file) as -> by lia. by exists si. }
  assert (0 ≤ i < phnum data kernel_file) as Hi' by lia. pose proof (lb_header _ _ _ Hl) as Hs.
  do 4 erewrite bind_ok by (apply (bread_field i _ si Hb Hs Hi'); lia).
  change (load 8 data (kernel_file + phoff data kernel_file + 56 * i + 0x10)) with (p_va (kernel_segment i)).
  change (load 8 data (kernel_file + phoff data kernel_file + 56 * i + 8)) with (p_offset (kernel_segment i)).
  change (load 8 data (kernel_file + phoff data kernel_file + 56 * i + 0x20)) with (p_filesz (kernel_segment i)).
  change (load 8 data (kernel_file + phoff data kernel_file + 56 * i + 0x28)) with (p_memsz (kernel_segment i)).
  destruct (phdr_fields _ i eq_refl) as (Hva & Hoff & Hf & Hms).
  pose proof (bk_disk _ _ Hb i Hi') as Hd. pose proof (bk_mapped _ _ Hb i Hi') as Hm. cbv zeta in Hd, Hm.
  assert (0 ≤ p_offset (kernel_segment i) / 512) by (apply Z.div_pos; lia).
  assert (0 ≤ sectors (seg_lo (p_va (kernel_segment i))) (p_va (kernel_segment i) + p_filesz (kernel_segment i))) by (unfold sectors; lia).
  change SECTORSIZE with 512. unfold u32. rewrite Z.mod_small by lia.
  destruct (readseg_ok data latency Hata Hpoll (p_va (kernel_segment i)) (p_offset (kernel_segment i) / 512 + 1) (p_filesz (kernel_segment i)) (p_memsz (kernel_segment i)) si (lb_idle _ _ _ Hl)) as (s1 & E1 & Hi1 & Hw1); try lia.
  erewrite bind_ok by exact E1. change sizeof_elf_program with 56. rewrite u64_small by lia.
  replace (0x10000 + phoff data kernel_file + 56 * i + 56) with (0x10000 + phoff data kernel_file + 56 * (i + 1)) by lia.
  apply IH; [|lia|lia]. by apply (loads_segment s i si).
Qed.

(** The boot loader loads the kernel. *)
Lemma boot_loads_run {A} s :
  idle (disk s) → bootable data kernel_file →
  ∃ s', boot (A := A) s = Halt (Jumped (entry data kernel_file)) s' ∧
    (∀ i, 0 ≤ i < phnum data kernel_file → segment_in data kernel_file (bmem s') i) ∧
    ∀ b, ¬ (ELFHDR ≤ b < ELFHDR + PAGESIZE) → (∀ i, 0 ≤ i < phnum data kernel_file → ¬ written data kernel_file i b) →
      load8 (bmem s') b = load8 (bmem s) b.
Proof.
  intros Hi Hb. pose proof (bk_headers _ _ Hb) as Hh. pose proof (load_range 8 data (kernel_file + 0x20)) as Hp.
  fold (phoff data kernel_file) in Hp. pose proof (phnum_range data kernel_file) as Hn. unfold boot.
  destruct (readseg_ok data latency Hata Hpoll ELFHDR 1 PAGESIZE PAGESIZE s Hi) as (s1 & E1 & Hi1 & Hw1);
    [discriminate|discriminate|discriminate|vm_compute; discriminate|discriminate|vm_compute; reflexivity|].
  change (seg_lo ELFHDR) with ELFHDR in Hw1. change (512 * sectors ELFHDR (ELFHDR + PAGESIZE)) with PAGESIZE in Hw1.
  assert (loaded_before s 0 s1) as Hl.
  { split; [done| |lia|].
    - intros k Hk. rewrite Hw1, decide_False, decide_True by lia. f_equal. lia.
    - intros b Hout _. by rewrite Hw1, !decide_False by lia. }
  pose proof (lb_header _ _ _ Hl) as Hs. erewrite bind_ok by exact E1.
  erewrite bind_ok by exact (bread_header 4 0 s1 Hs (Z.le_refl 0) ltac:(discriminate)).
  rewrite Z.add_0_r, (bk_magic _ _ Hb). cbn [negb Z.eqb]. rewrite Z.eqb_refl. cbn [negb].
  erewrite bind_ok by exact (bread_header 8 0x20 s1 Hs ltac:(discriminate) ltac:(discriminate)).
  erewrite bind_ok by exact (bread_header 2 0x38 s1 Hs ltac:(discriminate) ltac:(discriminate)).
  fold (phoff data kernel_file) (phnum data kernel_file). cbv zeta.
  change PAGESIZE with 4096 in *. change ELFHDR with 0x10000 in *. change sizeof_elf_program with 56. rewrite !u64_small by lia.
  destruct (boot_segments_ok s (S (Z.to_nat (phnum data kernel_file))) 0 s1 Hb Hl) as (s2 & E2 & Hl2); [lia|lia|].
  rewrite Z.mul_0_r, Z.add_0_r in E2. erewrite bind_ok by exact E2.
  erewrite bind_ok by exact (bread_header 8 0x18 s2 (lb_header _ _ _ Hl2) ltac:(discriminate) ltac:(discriminate)).
  exists s2. split; [done|]. split; [apply (lb_segments _ _ _ Hl2)|apply (lb_rest _ _ _ Hl2)].
Qed.

(** The boot loader loads the kernel.  From a disk that keeps the ATA
    protocol and holds a bootable image from sector 1 on, [boot] reads every
    segment into memory at its address, clears the rest of it, and calls the
    kernel at its entry point; apart from the segments' sectors and the page
    for the headers, memory is as before. *)
Theorem boot_loads_kernel {A} s :
  idle (disk s) → bootable data kernel_file →
  ∃ s', boot (A := A) s = Halt (Jumped (entry data kernel_file)) s' ∧
    (∀ i, 0 ≤ i < phnum data kernel_file → segment_in data kernel_file (bmem s') i) ∧
    ∀ b, ¬ (ELFHDR ≤ b < ELFHDR + PAGESIZE) → (∀ i, 0 ≤ i < phnum data kernel_file → ¬ written data kernel_file i b) →
      load8 (bmem s') b = load8 (bmem s) b.
Proof. apply boot_loads_run. Qed.
End loading.

(** ** A concrete disk

    A controller that is busy for one read of its status after each command,
    and the disk that [src/build/mkbootdisk.c] makes of [src/obj/kernel]: of
    the file, its headers only; the segment's bytes are zero. *)

Record simple_ata : Type := MkAta { lba : Z * Z * Z * Z; busy : bool; position : Z }.

Definition simple_controller (data : gmap Z Z) : Controller := {|
  ctl := simple_ata;
  ctl_in port c :=
    if port =? 0x1F7 then if busy c then (0x80, MkAta (lba c) false (position c)) else (0x40, c)
    else if port =? 0x1F0 then (load 4 data (position c), MkAta (lba c) (busy c) (position c + 4))
    else (0, c);
  ctl_out port v c :=
    let '(b0, b1, b2, b3) := lba c in
    if port =? 0x1F3 then MkAta (v, b1, b2, b3) (busy c) (position c)
    else if port =? 0x1F4 then MkAta (b0, v, b2, b3) (busy c) (position c)
    else if port =? 0x1F5 then MkAta (b0, b1, v, b3) (busy c) (position c)
    else if port =? 0x1F6 then MkAta (b0, b1, b2, v mod 16) (busy c) (position c)
    else if port =? 0x1F7 then MkAta (lba c) true (512 * (b0 + 256 * (b1 + 256 * (b2 + 256 * b3))))
    else c |}.

Lemma sector_bytes l : 0 ≤ l < 2 ^ 28 →
  u8 l + 256 * (u8 (Z.shiftr l 8) + 256 * (u8 (Z.shiftr l 16) + 256 * (u8 (Z.lor (Z.shiftr l 24) 0xE0) mod 16))) = l.
Proof.
  intros Hl. assert (u8 (Z.lor (Z.shiftr l 24) 0xE0) mod 16 = Z.shiftr l 24) as ->.
  { assert (0 ≤ Z.shiftr l 24 < 16) as Hr.
    { rewrite Z.shiftr_div_pow2 by lia. split; [apply Z.div_pos; lia|apply Z.div_lt_upper_bound; lia]. }
    assert (Z.shiftr l 24 ∈ seqZ 0 16) as Hin by (apply elem_of_seqZ; lia).
    assert (Forall (λ x, u8 (Z.lor x 0xE0) mod 16 = x) (seqZ 0 16)) as HF by (repeat constructor).
    rewrite Forall_forall in HF. by apply HF. }
  unfold u8. rewrite !Z.shiftr_div_pow2 by lia.
  change (2 ^ 16) with (2 ^ 8 * 2 ^ 8). change (2 ^ 24) with (2 ^ 8 * (2 ^ 8 * 2 ^ 8)). rewrite <- !Z.div_div by lia.
  change (2 ^ 8) with 256. pose proof (Z.div_mod l 256). pose proof (Z.div_mod (l / 256) 256). pose proof (Z.div_mod (l / 256 / 256) 256). lia.
Qed.

Definition settled (c : simple_ata) : Prop := busy c = false.

Lemma simple_transfers data n a c :
  busy c = false → position c = a → @transfers (simple_controller data) data n a c settled.
Proof.
  revert a c. induction n as [|n IH]; intros a c Hb Hp; [done|]. cbn. rewrite Hp. split; [|by apply IH].
  unfold u32. apply Z.mod_small, (load_range 4).
Qed.

Definition simple_disk data : @AtaDisk (simple_controller data) data 2.
Proof.
  refine (@Build_AtaDisk (simple_controller data) data 2 settled settled _ _).
  - intros c Hc. unfold settled in Hc. cbn. by rewrite Hc.
  - intros c l Hc Hl. destruct c as [[[[b0 b1] b2] b3] b p]. cbn -[transfers Z.mul].
    apply simple_transfers; [done|]. cbn -[Z.mul]. f_equal. apply (sector_bytes l Hl).
Defined.

Definition obj_segment : elf_program := MkPh ELF_PTYPE_LOAD 7 0x1000 0x40000 0xDB60 0x17008.
Definition obj_stack : elf_program := MkPh 0x6474E551 7 0 0 0 0.

Definition obj_disk : gmap Z Z :=
  store_phdr (512 + 64 + 56) obj_stack (store_phdr (512 + 64) obj_segment
    (store_fields [(4%nat, 0, ELF_MAGIC); (8%nat, 0x18, 0x40000); (8%nat, 0x20, 64); (2%nat, 0x38, 2)] 512 ∅)).

Lemma obj_segments i : 0 ≤ i < phnum obj_disk 512 → segment obj_disk 512 i = obj_segment ∨ segment obj_disk 512 i = obj_stack.
Proof.
  assert (phnum obj_disk 512 = 2) as -> by (vm_compute; reflexivity). intros Hi.
  assert (i = 0 ∨ i = 1) as [-> | ->] by lia; [left|right]; vm_compute; reflexivity.
Qed.

Lemma obj_bootable : bootable obj_disk 512.
Proof.
  split.
  - vm_compute. reflexivity.
  - vm_compute. discriminate.
  - intros i [-> | ->]%obj_segments; vm_compute; discriminate.
  - intros i [-> | ->]%obj_segments; vm_compute; reflexivity.
  - intros i b Hi. unfold written. cbv zeta. destruct (obj_segments i Hi) as [-> | ->].
    + change (seg_lo (p_va obj_segment)) with 0x40000. change (ELFHDR + PAGESIZE) with 0x11000. lia.
    + change (seg_lo (p_va obj_stack)) with 0. change (seg_hi _ _ _) with 0. lia.
  - intros i [-> | ->]%obj_segments; vm_compute; discriminate.
  - intros i [-> | ->]%obj_segments; vm_compute; reflexivity.
  - intros i j k Hij Hj _. assert (phnum obj_disk 512 = 2) as E by (vm_compute; reflexivity).
    assert (j = 1) as -> by lia. unfold written. assert (segment obj_disk 512 1 = obj_stack) as -> by (vm_compute; reflexivity).
    change (seg_lo (p_va obj_stack)) with 0. change (seg_hi _ _ _) with 0. lia.
Qed.

Definition obj_start : @bootstate (simple_controller obj_disk) :=
  @MkBoot (simple_controller obj_disk) ∅ (MkAta (0, 0, 0, 0) false 0).

Lemma boot_loads_kernel_witness :
  ∃ s', @boot (simple_controller obj_disk) 2%nat () obj_start = Halt (Jumped 0x40000) s' ∧
    load8 (@bmem (simple_controller obj_disk) s') 0x57000 = 0.
Proof.
  destruct (@boot_loads_kernel (simple_controller obj_disk) 2%nat obj_disk 2%nat (simple_disk obj_disk) (le_n 2) ()
    obj_start eq_refl obj_bootable) as (s' & E & Hs & _).
  exists s'. split.
  - assert (entry obj_disk 512 = 0x40000) as Ee by (vm_compute; reflexivity). rewrite Ee in E. exact E.
  - assert (phnum obj_disk 512 = 2) as En by (vm_compute; reflexivity).
    specialize (Hs 0 (ltac:(rewrite En; lia) : 0 ≤ 0 < phnum obj_disk 512) 0x17000). cbv zeta in Hs.
    assert (segment obj_disk 512 0 = obj_segment) as Eseg by (vm_compute; reflexivity). rewrite Eseg in Hs.
    apply (Hs (ltac:(cbn; lia) : 0 ≤ 0x17000 < p_memsz obj_segment)).
Defined.
