(* ===== verification/QemuNograb.v ===== *)
(** [src/build/qemu-nograb.c]: the library that is preloaded into the emulator
    and wraps its [malloc] and [calloc], to mark the emulated mouse as one that
    does not grab the pointer. *)
From S2P Require Import Prelude X86 Machine CLib Printf.
Open Scope Z_scope.

(** ** State

    The wrapper's variables, and the memory of the emulator's process. *)
Record nograb : Type := MkNograb {
  next_found : bool; (* next_malloc and next_calloc are set *)
  test_mode : Z;
  test_event : Z;
  test_name : Z;
  heap : gmap Z Z }.

Definition set_found (x : bool) (s : nograb) : nograb := MkNograb x (test_mode s) (test_event s) (test_name s) (heap s).
Definition set_mode (x : Z) (s : nograb) : nograb := MkNograb (next_found s) x (test_event s) (test_name s) (heap s).
Definition set_event (x : Z) (s : nograb) : nograb := MkNograb (next_found s) (test_mode s) x (test_name s) (heap s).
Definition set_name (x : Z) (s : nograb) : nograb := MkNograb (next_found s) (test_mode s) (test_event s) x (heap s).
Definition set_heap (x : gmap Z Z) (s : nograb) : nograb := MkNograb (next_found s) (test_mode s) (test_event s) (test_name s) x.

(** The allocators behind the wrapper, and what the dynamic linker's search
    for them does to memory. *)
Class Allocators : Type := {
  next_malloc : Z → gmap Z Z → Z * gmap Z Z;
  next_calloc : Z → Z → gmap Z Z → Z * gmap Z Z;
  libc_calloc : Z → Z → gmap Z Z → Z * gmap Z Z;
  dlsym : gmap Z Z → gmap Z Z }.

(** [struct fake_qemu_put_mouse_event]: two pointers, an int, the name, an int,
    two pointers. *)
Definition sizeof_event : Z := 56.
Definition event_absolute : Z := 16.
Definition event_name : Z := 24.

Definition mouse_string : list Z := str "QEMU PS/2 Mouse" ++ [0].
Definition sizeof_mouse_string : Z := Z.of_nat (length mouse_string).

Definition bytes_at (n : nat) (a : Z) (m : gmap Z Z) : list Z := (λ i, load 1 m (a + Z.of_nat i)) <$> seq 0 n.

(** The memory of the process is what [heap] has bytes for.  A null pointer is
    not to be dereferenced, and what lies elsewhere not to be read. *)
Definition readable (n : nat) (a : Z) (m : gmap Z Z) : bool :=
  (0 <? a) && forallb (λ i, bool_decide (is_Some (m !! (a + Z.of_nat i)))) (seq 0 n).

Definition fetch (n : nat) (a : Z) : M nograb Z := λ s,
  if readable n a (heap s) then Ok (load n (heap s) a) s else Halt Undefined s.

Definition put (n : nat) (a v : Z) : M nograb () := λ s,
  if readable n a (heap s) then Ok () (set_heap (store n (heap s) a v) s) else Halt Undefined s.

(** [memcmp(a, l, length l) == 0] *)
Definition same_bytes (a : Z) (l : list Z) : M nograb bool := λ s,
  if readable (length l) a (heap s) then Ok (bool_decide (bytes_at (length l) a (heap s) = l)) s else Halt Undefined s.

(** ** The operations *)

(** The test in [check], which looks at memory only as far as it has to. *)
Definition is_mouse : M nograb bool :=
  mode ← gets test_mode; event ← gets test_event; name ← gets test_name;
  if negb (mode =? 2) then mret false else
  if event =? 0 then mret false else
  event_named ← fetch 8 (event + event_name);
  if negb (event_named =? name) then mret false else
  named ← same_bytes name mouse_string;
  if negb (named : bool) then mret false else
  absolute ← fetch 4 (event + event_absolute);
  mret (absolute =? 0).

Definition check : M nograb () :=
  mouse ← is_mouse;
  if mouse : bool then
    event ← gets test_event;
    put 4 (event + event_absolute) 1;;
    modify (set_mode (-1))
  else mret ().

Definition track (nmemb sz ptr : Z) : M nograb () := modify (λ s,
  if (test_mode s =? 1) && (sz =? sizeof_mouse_string) && (nmemb =? 1) then set_mode 2 (set_name ptr s)
  else if (sz =? sizeof_event) && (nmemb =? 1) then set_mode 1 (set_event ptr s)
  else set_mode 0 s).

Definition library (f : gmap Z Z → Z * gmap Z Z) : M nograb Z := λ s, let '(p, m) := f (heap s) in Ok p (set_heap m s).

Section operations.
Context `{Allocators}.

Definition malloc (sz : Z) : M nograb Z :=
  found ← gets next_found;
  (if negb found then modify (λ s, set_found true (set_heap (dlsym (heap s)) s)) else mret ());;
  mode ← gets test_mode;
  (if mode =? 2 then check else mret ());;
  ptr ← library (next_malloc sz);
  mode ← gets test_mode;
  (if 0 <=? mode then track 1 sz ptr else mret ());;
  mret ptr.

Definition calloc (nmemb sz : Z) : M nograb Z :=
  found ← gets next_found;
  if negb found then library (libc_calloc nmemb sz)
  else
    mode ← gets test_mode;
    (if mode =? 2 then check else mret ());;
    ptr ← library (next_calloc nmemb sz);
    mode ← gets test_mode;
    (if 0 <=? mode then track 1 sz ptr else mret ());;
    mret ptr.

(** ** The emulator

    It allocates through the wrapper and does what it likes with its memory.
    [log] are the sizes and results of the allocations that the wrapper has
    followed, the latest first. *)
Inductive emulator : list (Z * Z) → nograb → Prop :=
  | em_start m : emulator [] (MkNograb false 0 0 0 m)
  | em_write log s m : emulator log s → emulator log (set_heap m s)
  | em_malloc log s sz p s' : emulator log s → malloc sz s = Ok p s' → emulator ((sz, p) :: log) s'
  | em_calloc log s nmemb sz p s' : emulator log s → calloc nmemb sz s = Ok p s' →
      emulator (if next_found s then (sz, p) :: log else log) s'.

(** What the wrapper knows: in mode 1 the last allocation is the event, in
    mode 2 the last one is the name and the one before it the event. *)
Definition followed (log : list (Z * Z)) (s : nograb) : Prop :=
  test_mode s ∈ [-1; 0; 1; 2] ∧
  (test_mode s = 1 → ∃ l, log = (sizeof_event, test_event s) :: l) ∧
  (test_mode s = 2 → ∃ l, log = (sizeof_mouse_string, test_name s) :: (sizeof_event, test_event s) :: l).

(** What the test finds when it finds the mouse. *)
Record mouse (s : nograb) : Prop := {
  mo_mode : test_mode s = 2;
  mo_event : test_event s ≠ 0;
  mo_name : load 8 (heap s) (test_event s + event_name) = test_name s;
  mo_string : bytes_at 16 (test_name s) (heap s) = mouse_string;
  mo_absolute : load 4 (heap s) (test_event s + event_absolute) = 0;
  mo_readable : readable 4 (test_event s + event_absolute) (heap s) = true }.

(** The blocks that the wrapper follows are there to be looked at. *)
Definition traceable (s : nograb) : Prop :=
  test_mode s = 2 → test_event s ≠ 0 →
  readable 8 (test_event s + event_name) (heap s) = true ∧
  readable 4 (test_event s + event_absolute) (heap s) = true ∧
  (load 8 (heap s) (test_event s + event_name) = test_name s → readable 16 (test_name s) (heap s) = true).

(** The test changes nothing; it says whether the mouse is there, or it crashes. *)
Lemma is_mouse_cases s :
  (is_mouse s = Ok true s ∧ mouse s) ∨ is_mouse s = Ok false s ∨
  (is_mouse s = Halt Undefined s ∧ test_mode s = 2 ∧ ¬ traceable s).
Proof.
  unfold is_mouse, traceable. do 3 (erewrite bind_ok by reflexivity).
  destruct (Z.eqb_spec (test_mode s) 2) as [E2|]; cbn [negb]; [|by right; left].
  destruct (Z.eqb_spec (test_event s) 0) as [|E0]; [by right; left|].
  destruct (readable 8 (test_event s + event_name) (heap s)) eqn:R1.
  2:{ right. right. split; [apply bind_halt; unfold fetch; by rewrite R1|]. split; [done|]. intros Ht. by destruct (Ht E2 E0). }
  erewrite bind_ok by (unfold fetch; by rewrite R1).
  destruct (Z.eqb_spec (load 8 (heap s) (test_event s + event_name)) (test_name s)) as [E3|]; cbn [negb]; [|by right; left].
  destruct (readable 16 (test_name s) (heap s)) eqn:R2.
  2:{ right. right. split; [apply bind_halt; unfold same_bytes; change (length mouse_string) with 16%nat; by rewrite R2|].
      split; [done|]. intros Ht. destruct (Ht E2 E0) as (_ & _ & Ht3). by specialize (Ht3 E3). }
  erewrite bind_ok by (unfold same_bytes; change (length mouse_string) with 16%nat; by rewrite R2).
  case_bool_decide as E4; cbn [negb]; [|by right; left].
  destruct (readable 4 (test_event s + event_absolute) (heap s)) eqn:R3.
  2:{ right. right. split; [apply bind_halt; unfold fetch; by rewrite R3|]. split; [done|]. intros Ht. by destruct (Ht E2 E0) as (_ & ? & _). }
  erewrite bind_ok by (unfold fetch; by rewrite R3).
  destruct (Z.eqb_spec (load 4 (heap s) (test_event s + event_absolute)) 0) as [E5|]; [left|by right; left].
  split; [done|]. by split.
Qed.

Lemma not_searching s : test_mode s ≠ 2 → is_mouse s = Ok false s.
Proof.
  intros Hm. destruct (is_mouse_cases s) as [[_ []]|[?|(_ & ? & _)]]; done.
Qed.

(** The memory that the wrapper hands to the allocator. *)
Definition marked (b : bool) (s : nograb) : gmap Z Z :=
  if b then store 4 (heap s) (test_event s + event_absolute) 1 else heap s.

(** The part of [malloc] and [calloc] after the search. *)
Definition wrapper (sz : Z) (f : gmap Z Z → Z * gmap Z Z) : M nograb Z :=
  mode ← gets test_mode;
  (if mode =? 2 then check else mret ());;
  ptr ← library f;
  mode ← gets test_mode;
  (if 0 <=? mode then track 1 sz ptr else mret ());;
  mret ptr.

Definition wrapped (b : bool) (s : nograb) (sz : Z) (f : gmap Z Z → Z * gmap Z Z) (p : Z) (s' : nograb) : Prop :=
  (p, heap s') = f (marked b s) ∧ next_found s' = next_found s ∧
  (test_mode s' = -1 ↔ test_mode s = -1 ∨ b = true) ∧
  ∀ log, followed log s → followed ((sz, p) :: log) s'.

(** [check] marks the mouse and ends the search. *)
Lemma check_runs b s :
  is_mouse s = Ok b s →
  (if test_mode s =? 2 then check else mret ()) s = Ok () (if b then set_mode (-1) (set_heap (marked b s) s) else s).
Proof.
  intros E. destruct (Z.eqb_spec (test_mode s) 2) as [E2|E2].
  2:{ rewrite (not_searching s E2) in E. by injection E as <-. }
  unfold check. erewrite bind_ok by exact E. destruct b; [|done].
  destruct (is_mouse_cases s) as [[_ Hm]|[E'|(E' & _)]]; [|congruence|congruence].
  erewrite bind_ok by reflexivity. erewrite bind_ok by (unfold put; by rewrite (mo_readable s Hm)). done.
Qed.

Lemma wrapper_runs b s sz f :
  test_mode s ∈ [-1; 0; 1; 2] → is_mouse s = Ok b s → ∃ p s', wrapper sz f s = Ok p s' ∧ wrapped b s sz f p s'.
Proof.
  intros Hm Hb. destruct (f (marked b s)) as [p m] eqn:Ef. pose proof (check_runs b s Hb) as Ec.
  set (s1 := if b then set_mode (-1) (set_heap (marked b s) s) else s) in *.
  assert (heap s1 = marked b s) as E1 by (unfold s1, marked; by destruct b).
  assert (test_mode s1 = if b then -1 else test_mode s) as Em by (unfold s1; by destruct b).
  assert (next_found s1 = next_found s) as En by (unfold s1; by destruct b).
  assert (library f s1 = Ok p (set_heap m s1)) as El by (unfold library; by rewrite E1, Ef).
  unfold wrapper. erewrite bind_ok by reflexivity. rewrite (bind_ok _ _ _ _ _ Ec), (bind_ok _ _ _ _ _ El). erewrite bind_ok by reflexivity.
  cbn [test_mode set_heap]. rewrite Em. assert (b = false → s1 = s) as Es by (intros E; unfold s1; by rewrite E).
  clearbody s1. destruct b.
  { cbn. eexists _, _. split; [reflexivity|]. split; [by rewrite Ef|]. split; [done|]. split; [cbn; rewrite Em; tauto|].
    intros log _. split; [cbn; rewrite Em; left|]. cbn. by rewrite Em. }
  rewrite (Es eq_refl) in *. rewrite !elem_of_cons, elem_of_nil in Hm.
  destruct (Z.leb_spec 0 (test_mode s)) as [H0|H0].
  2:{ eexists _, _. split; [reflexivity|]. split; [by rewrite Ef|]. split; [done|]. split; [cbn; intuition congruence|].
      intros log _. split; cbn; [rewrite !elem_of_cons; lia|lia..]. }
  unfold track, modify. eexists _, _. split; [reflexivity|]. set (s2 := set_heap m s).
  split; [by repeat case_match|]. split; [by repeat case_match|]. split.
  { split; [|intros [|]; [lia|done]]. repeat case_match; cbn; lia. }
  intros log (_ & H1 & H2). change (test_mode s2) with (test_mode s). change (1 =? 1) with true. rewrite !andb_true_r.
  destruct ((test_mode s =? 1) && (sz =? sizeof_mouse_string)) eqn:E2; [|destruct (Z.eqb_spec sz sizeof_event) as [->|]].
  - apply andb_prop in E2 as [Et ->%Z.eqb_eq]. apply Z.eqb_eq in Et. destruct (H1 Et) as [l ->].
    split; [rewrite !elem_of_cons; cbn; tauto|]. split; [done|]. intros _. by exists l.
  - split; [rewrite !elem_of_cons; cbn; tauto|]. split; [|done]. intros _. by exists log.
  - split; [rewrite !elem_of_cons; cbn; tauto|done].
Qed.

Lemma wrapper_crashes s sz f : test_mode s = 2 → is_mouse s = Halt Undefined s → wrapper sz f s = Halt Undefined s.
Proof.
  intros Em E. unfold wrapper. erewrite bind_ok by reflexivity. apply bind_halt. rewrite Em. by apply bind_halt.
Qed.

(** The wrapped functions, when the search is done. *)
Definition searched (s : nograb) : nograb :=
  if next_found s then s else set_found true (set_heap (dlsym (heap s)) s).

Lemma malloc_wrapper s sz : malloc sz s = wrapper sz (next_malloc sz) (searched s).
Proof.
  unfold malloc, wrapper, searched. erewrite bind_ok by reflexivity. destruct (next_found s); by erewrite bind_ok by reflexivity.
Qed.

Lemma calloc_wrapper s nmemb sz :
  calloc nmemb sz s = if next_found s then wrapper sz (next_calloc nmemb sz) s else library (libc_calloc nmemb sz) s.
Proof. unfold calloc. erewrite bind_ok by reflexivity. by destruct (next_found s). Qed.

Lemma library_ok f s p s' : library f s = Ok p s' → (p, heap s') = f (heap s) ∧ s' = set_heap (heap s') s.
Proof. unfold library. destruct (f (heap s)) as [q m]. by intros [= <- <-]. Qed.

Lemma followed_mode log s : followed log s → test_mode s ∈ [-1; 0; 1; 2].
Proof. by intros []. Qed.

(** What a successful call leaves the wrapper with. *)
Lemma wrapper_followed log s sz f p s' :
  followed log s → wrapper sz f s = Ok p s' → followed ((sz, p) :: log) s' ∧ next_found s' = next_found s.
Proof.
  intros Hf E. pose proof (followed_mode _ _ Hf) as Hm.
  assert (∀ b, is_mouse s = Ok b s → followed ((sz, p) :: log) s' ∧ next_found s' = next_found s) as Hok.
  { intros b Eb. destruct (wrapper_runs b s sz f Hm Eb) as (p2 & s2 & E2 & _ & Hn & _ & Hl). rewrite E in E2.
    injection E2 as <- <-. split; [by apply Hl|done]. }
  destruct (is_mouse_cases s) as [[Eb _]|[Eb|(Eb & Em & _)]]; [by apply Hok in Eb..|].
  rewrite (wrapper_crashes s sz f Em Eb) in E. done.
Qed.

Lemma emulator_followed log s : emulator log s → followed log s ∧ (next_found s = false → log = [] ∧ test_mode s = 0).
Proof.
  induction 1 as [m|log s m _ IH|log s sz p s' _ [IH IH'] E|log s nmemb sz p s' _ [IH IH'] E].
  - split; [|done]. split; [cbn; rewrite !elem_of_cons; tauto|done].
  - exact IH.
  - rewrite malloc_wrapper in E. destruct (wrapper_followed log (searched s) _ _ _ _ ltac:(unfold searched; by destruct (next_found s)) E) as [Hf Hn].
    split; [exact Hf|]. rewrite Hn. unfold searched. destruct (next_found s) eqn:En; [by rewrite En|done].
  - rewrite calloc_wrapper in E. destruct (next_found s) eqn:En.
    + destruct (wrapper_followed log s _ _ _ _ IH E) as [Hf Hn]. split; [exact Hf|]. by rewrite Hn, En.
    + apply library_ok in E as [_ ->]. split; [exact IH|]. intros _. exact (IH' eq_refl).
Qed.

(** C40: the wrapper leaves the emulator alone.  While the two blocks it follows
    are there to be read, its [malloc] and [calloc] return what the allocators
    behind them return, and the only memory they change themselves is one int
    of the emulator, once: the flag of a block of 56 bytes, found to be 0, that
    was allocated just before a block of 16 bytes which it now points to and
    which holds the mouse's name.  Once that is done, they change nothing any
    more.  If one of the blocks is not there (the second allocation failed, say,
    and the event's name is null as well), they may crash, before they allocate
    anything. *)
Theorem nograb_marks_once log s :
  emulator log s →
  (is_mouse s = Ok true s → mouse s ∧ ∃ l, log = (sizeof_mouse_string, test_name s) :: (sizeof_event, test_event s) :: l) ∧
  (test_mode s = -1 → is_mouse s = Ok false s) ∧
  (traceable s → ∃ b, is_mouse s = Ok b s) ∧
  (∀ b, is_mouse s = Ok b s →
    (∀ sz, ∃ p s', malloc sz s = Ok p s' ∧
      (p, heap s') = next_malloc sz (if next_found s then marked b s else dlsym (heap s)) ∧
      (test_mode s' = -1 ↔ test_mode s = -1 ∨ b = true)) ∧
    ∀ nmemb sz, ∃ p s', calloc nmemb sz s = Ok p s' ∧
      (p, heap s') = (if next_found s then next_calloc nmemb sz (marked b s) else libc_calloc nmemb sz (heap s)) ∧
      (test_mode s' = -1 ↔ test_mode s = -1 ∨ b = true)) ∧
  ∀ e s', is_mouse s = Halt e s' → e = Undefined ∧ ¬ traceable s ∧
    (∀ sz, malloc sz s = Halt Undefined s) ∧ ∀ nmemb sz, calloc nmemb sz s = Halt Undefined s.
Proof.
  intros He. destruct (emulator_followed log s He) as [Hf Hn]. pose proof (followed_mode _ _ Hf) as Hm.
  assert (test_mode s = 2 → next_found s = true) as Hfound.
  { intros E2. destruct (next_found s) eqn:E; [done|]. destruct (Hn eq_refl) as [_ E0]. by rewrite E0 in E2. }
  split; [|split; [|split; [|split]]].
  - intros Hi. destruct (is_mouse_cases s) as [[_ Hmo]|[E|(E & _)]]; [|congruence..]. split; [done|].
    by apply Hf, mo_mode.
  - intros E. apply not_searching. lia.
  - intros Ht. destruct (is_mouse_cases s) as [[E _]|[E|(_ & _ & Hno)]]; [by exists true|by exists false|done].
  - intros b Eb. split.
    + intros sz. rewrite malloc_wrapper. unfold searched. destruct (next_found s) eqn:En.
      { destruct (wrapper_runs b s sz (next_malloc sz) Hm Eb) as (p & s' & E & Hp & _ & Hi & _). by exists p, s'. }
      destruct (Hn eq_refl) as [_ E0]. rewrite not_searching in Eb by lia. injection Eb as <-.
      set (s1 := set_found true _). assert (is_mouse s1 = Ok false s1) as E1 by (apply not_searching; cbn; lia).
      destruct (wrapper_runs false s1 sz (next_malloc sz) Hm E1) as (p & s' & E & Hp & _ & Hi & _). by exists p, s'.
    + intros nmemb sz. rewrite calloc_wrapper. destruct (next_found s) eqn:En.
      { destruct (wrapper_runs b s sz (next_calloc nmemb sz) Hm Eb) as (p & s' & E & Hp & _ & Hi & _). by exists p, s'. }
      destruct (Hn eq_refl) as [_ E0]. rewrite not_searching in Eb by lia. injection Eb as <-.
      unfold library. destruct (libc_calloc nmemb sz (heap s)) as [p m]. exists p, (set_heap m s). split; [done|].
      split; [done|]. cbn. split; [by left|]. by intros [|].
  - intros e s' E. destruct (is_mouse_cases s) as [[E' _]|[E'|(E' & E2 & Hno)]]; [congruence..|].
    rewrite E in E'. injection E' as -> ->. split; [done|]. split; [done|]. pose proof (Hfound E2) as En. split.
    + intros sz. rewrite malloc_wrapper. unfold searched. rewrite En. by apply wrapper_crashes.
    + intros nmemb sz. rewrite calloc_wrapper, En. by apply wrapper_crashes.
Qed.

(** A crash: the allocation of the name failed, and the event has no name yet. *)
Lemma null_name_crashes s sz :
  test_mode s = 2 → next_found s = true → test_name s = 0 → test_event s ≠ 0 →
  readable 8 (test_event s + event_name) (heap s) = true → load 8 (heap s) (test_event s + event_name) = 0 →
  malloc sz s = Halt Undefined s.
Proof.
  intros E2 En E0 Ee R E. rewrite malloc_wrapper. unfold searched. rewrite En. apply wrapper_crashes; [done|].
  unfold is_mouse. do 3 (erewrite bind_ok by reflexivity). rewrite E2, E0. cbn [Z.eqb Pos.eqb negb].
  rewrite (proj2 (Z.eqb_neq _ _) Ee). erewrite bind_ok by (unfold fetch; by rewrite R). rewrite E. by apply bind_halt.
Qed.
End operations.

(** ** An emulator that allocates its mouse *)

Definition fixed_allocators : Allocators := {|
  next_malloc sz m := (if sz =? sizeof_event then 0x1000 else 0x2000, m);
  next_calloc nmemb sz m := (0x3000, m);
  libc_calloc nmemb sz m := (0x3000, m);
  dlsym m := m |}.

(** The event points to the name, and the name is in place. *)
Definition mouse_memory : gmap Z Z :=
  store 8 (store 4 (foldl (λ m p, store 1 m (0x2000 + Z.of_nat p.1) p.2) ∅ (imap pair mouse_string))
    (0x1000 + event_absolute) 0) (0x1000 + event_name) 0x2000.

Definition with_mouse : nograb := MkNograb true 2 0x1000 0x2000 mouse_memory.

Lemma mouse_allocated : @emulator fixed_allocators [(16, 0x2000); (56, 0x1000)] with_mouse.
Proof.
  change with_mouse with (set_heap mouse_memory (MkNograb true 2 0x1000 0x2000 ∅)). apply em_write.
  apply (@em_malloc fixed_allocators [(56, 0x1000)] (MkNograb true 1 0x1000 0 ∅)); [|reflexivity].
  apply (@em_malloc fixed_allocators [] (MkNograb false 0 0 0 ∅)); [|reflexivity]. apply em_start.
Qed.

(** The next allocation finds the mouse. *)
Lemma nograb_marks_once_witness :
  is_mouse with_mouse = Ok true with_mouse ∧ load 4 (heap with_mouse) 0x1010 = 0 ∧
  ∃ p s', @malloc fixed_allocators 8 with_mouse = Ok p s' ∧ test_mode s' = -1 ∧ load 4 (heap s') 0x1010 = 1.
Proof.
  destruct (@nograb_marks_once fixed_allocators _ _ mouse_allocated) as (Hi & _ & _ & Hm & _).
  assert (is_mouse with_mouse = Ok true with_mouse) as E by (vm_compute; reflexivity).
  destruct (Hi E) as [Hmo _]. split; [exact E|]. split; [exact (mo_absolute _ Hmo)|].
  destruct (proj1 (Hm true E) 8) as (p & s' & Em & Hp & Ht). exists p, s'. split; [exact Em|]. split; [apply Ht; by right|].
  assert (heap s' = marked true with_mouse) as -> by exact (f_equal snd Hp). vm_compute. reflexivity.
Defined.
