(* ===== verification/MkBootDisk.v ===== *)
(** The host program of [src/build/mkbootdisk.c], which makes the disk image
    that the boot loader reads. *)
From S2P Require Import Prelude X86 Machine CLib Printf ElfFormat.
Open Scope Z_scope.

(** ** The host system

    Files by name, the file [diskfd] refers to with its offset, the messages
    written to stderr, and the number of system calls so far.  A write may be
    interrupted, may fail and may write only a part of the data; what the [n]th
    call does is up to the system. *)

Inductive fd : Type := Stdout | File (name : list Z).

Inductive message : Type :=
  | Usage
  | FileError (name : list Z)
  | MoreThanPartition
  | WriteError
  | WriteEndOfFile
  | ReadError
  | SeekError
  | NoPartition (name : list Z)
  | BootBlockTooLarge (name : list Z) (size : Z)
  | CannotSkip (to at_sector : Z)
  | UsingPartition (number start length : Z)
  | NotElf (name : list Z)
  | HeaderTooLarge (name : list Z).

Inductive io_result : Type := Done (n : nat) | Interrupted | Failed.

Class Host : Type := {
  write_call : nat → nat → io_result;   (* the number of the call, and how many bytes *)
  read_call : nat → io_result;
  seek_call : nat → bool;               (* whether it succeeds *)
  retries : nat;                        (* how often a loop over interruptions is followed *)
  chunks : nat;                         (* and over the pieces of a file *)
  partitions : nat }.                   (* and into nested partition tables *)

Record host : Type := MkHost {
  files : gmap (list Z) (list Z);
  stdout : list Z;
  diskfd : fd;
  offset : nat;
  calls : nat;
  stderr : list message;
  maxoff : Z;
  curoff : Z }.

Definition fd_data (h : host) : list Z :=
  match diskfd h with Stdout => stdout h | File name => default [] (files h !! name) end.

Definition set_fd_data (d : list Z) (h : host) : host :=
  match diskfd h with
  | Stdout => MkHost (files h) d (diskfd h) (offset h) (calls h) (stderr h) (maxoff h) (curoff h)
  | File name => MkHost (<[name := d]> (files h)) (stdout h) (diskfd h) (offset h) (calls h) (stderr h) (maxoff h) (curoff h)
  end.
Definition set_fd (x : fd) (o : nat) (h : host) : host :=
  MkHost (files h) (stdout h) x o (calls h) (stderr h) (maxoff h) (curoff h).
Definition set_offset (o : nat) (h : host) : host := set_fd (diskfd h) o h.
Definition set_calls (n : nat) (h : host) : host :=
  MkHost (files h) (stdout h) (diskfd h) (offset h) n (stderr h) (maxoff h) (curoff h).
Definition set_maxoff (x : Z) (h : host) : host :=
  MkHost (files h) (stdout h) (diskfd h) (offset h) (calls h) (stderr h) x (curoff h).
Definition set_curoff (x : Z) (h : host) : host :=
  MkHost (files h) (stdout h) (diskfd h) (offset h) (calls h) (stderr h) (maxoff h) x.
Definition say (m : message) : M host () := modify (λ h,
  MkHost (files h) (stdout h) (diskfd h) (offset h) (calls h) (m :: stderr h) (maxoff h) (curoff h)).

(** A write at the offset of a file, which grows as needed. *)
Definition splice (o : nat) (d l : list Z) : list Z :=
  take o l ++ replicate (o - length l) 0 ++ d ++ drop (o + length d) l.

Definition usage {A} : M host A := say Usage;; halt (Exited 1).

Definition SECTORSIZE : nat := 512.

Section mkbootdisk.
Context `{Host}.

(** [fopen] for reading, and [open] for reading and writing: of the file they
    name; a file that is missing is the error. *)
Definition fopencheck (name : list Z) : M host () :=
  f ← gets (λ h, files h !! name);
  match f with
  | Some _ => mret ()
  | None => say (FileError name);; usage
  end.

Definition opencheck (name : list Z) : M host () :=
  fopencheck name;; modify (set_fd (File name) 0).

(** [fread(buf, 1, 4096, f)] at position [pos] of the file. *)
Definition fread (name : list Z) (pos : nat) : M host (list Z) :=
  gets (λ h, take 4096 (drop pos (default [] (files h !! name)))).

(** ** diskwrite *)

Definition count_call : M host nat := λ h, Ok (calls h) (set_calls (S (calls h)) h).

Definition write_bytes (d : list Z) : M host () :=
  modify (λ h, set_offset (offset h + length d) (set_fd_data (splice (offset h) d (fd_data h)) h));;
  modify (λ h, set_curoff (curoff h + Z.of_nat (length d)) h).

Fixpoint diskwrite_loop (n : nat) (data : list Z) : M host () :=
  match data with
  | [] => mret ()
  | _ :: _ =>
      match n with
      | O => halt Spinning
      | S n =>
          k ← count_call;
          match write_call k (length data) with
          | Failed => say WriteError;; usage
          | Interrupted => diskwrite_loop n data
          | Done O => say WriteEndOfFile;; usage
          | Done w => write_bytes (take w data);; diskwrite_loop n (drop w data)
          end
      end
  end.

Definition diskwrite (data : list Z) : M host () :=
  limit ← gets maxoff;
  off ← gets curoff;
  (if istrue limit && (limit <? u64 (off + Z.of_nat (length data))) then say MoreThanPartition;; usage else mret ());;
  diskwrite_loop (length data * retries) data.

(** ** Reading the disk *)

Definition read_bytes (w : nat) : M host (list Z) := λ h,
  let buf := take w (drop (offset h) (fd_data h)) in Ok buf (set_offset (offset h + length buf) h).

Fixpoint read_loop (n : nat) : M host (list Z) :=
  match n with
  | O => halt Spinning
  | S n =>
      k ← count_call;
      match read_call k with
      | Interrupted => read_loop n
      | Failed => mret []
      | Done w => read_bytes (min w SECTORSIZE)
      end
  end.

(** [lseek(diskfd, o, SEEK_SET)]; [false] is a result other than [o]. *)
Definition lseek (o : nat) : M host bool :=
  k ← count_call;
  if seek_call k then modify (set_offset o);; mret true else mret false.

Definition readsect (sectno : Z) : M host (list Z) :=
  ok ← lseek (Z.to_nat (u32 sectno) * SECTORSIZE);
  if negb ok then say SeekError;; usage else
  buf ← read_loop retries;
  if bool_decide (length buf = SECTORSIZE) then mret buf else say ReadError;; usage.

(** ** Partitions *)

Definition PTABLE_OFFSET : nat := 446.
Definition PTABLE_MAGIC_OFFSET : nat := 510.
Definition PTABLE_MAGIC1 : Z := 0x55.
Definition PTABLE_MAGIC2 : Z := 0xAA.
Definition PTYPE_JOS_KERN : Z := 0x27.
Definition PTYPE_DOS_EXTENDED : Z := 0x05.
Definition PTYPE_W95_EXTENDED : Z := 0x0F.
Definition PTYPE_LINUX_EXTENDED : Z := 0x85.

Definition byte_at (buf : list Z) (i : nat) : Z := nth i buf 0 mod 256.

(** A little-endian integer of [n] bytes. *)
Fixpoint field (n : nat) (buf : list Z) (i : nat) : Z :=
  match n with
  | O => 0
  | S n => byte_at buf i + 256 * field n buf (S i)
  end.

Record Partitiondesc : Type := MkPart { type : Z; lba_start : Z; lba_length : Z }.

Definition ptable (buf : list Z) (i : nat) : Partitiondesc :=
  let d := (PTABLE_OFFSET + 16 * i)%nat in
  MkPart (byte_at buf (d + 4)) (field 4 buf (d + 8)) (field 4 buf (d + 12)).

Definition is_extended (t : Z) : bool :=
  (t =? PTYPE_DOS_EXTENDED) || (t =? PTYPE_W95_EXTENDED) || (t =? PTYPE_LINUX_EXTENDED).

Definition use_partition (number start length : Z) : M host Z :=
  say (UsingPartition number start length);;
  ok ← lseek (Z.to_nat start * SECTORSIZE);
  if negb ok then say SeekError;; usage else
  modify (set_maxoff (length * Z.of_nat SECTORSIZE));;
  mret 1.

Fixpoint find_partition (n : nat) (partition_sect extended_sect partoff : Z) : M host Z :=
  match n with
  | O => halt Spinning
  | S n =>
      buf ← readsect partition_sect;
      if negb (byte_at buf PTABLE_MAGIC_OFFSET =? PTABLE_MAGIC1)
         || negb (byte_at buf (PTABLE_MAGIC_OFFSET + 1) =? PTABLE_MAGIC2) then mret 0
      else
        (fix search (l : list nat) : M host Z :=
           match l with
           | [] => mret 0
           | i :: l =>
               let p := ptable buf i in
               if lba_length p =? 0 then search l
               else if type p =? PTYPE_JOS_KERN then
                 use_partition (partoff + Z.of_nat i + 1) (partition_sect + lba_start p) (lba_length p)
               else if is_extended (type p) then
                 let inner_sect := if extended_sect =? 0 then lba_start p else extended_sect in
                 r ← find_partition n (lba_start p + extended_sect) inner_sect (if istrue partoff then partoff + 1 else 4);
                 if 0 <? r then mret r else search l
               else search l
           end) (seq 0 4)
  end.

(** ** Multiboot *)

Definition le4 (x : Z) : list Z := [x mod 256; x / 256 mod 256; x / 65536 mod 256; x / 16777216 mod 256].
Definition multiboot_header : list Z := le4 0x1BADB002 ++ le4 0 ++ le4 (u32 (- 0x1BADB002)).

Definition do_multiboot {A} (filename : list Z) : M host A :=
  opencheck filename;;
  buf ← readsect 0;
  (if negb (field 4 buf 0 =? ELF_MAGIC) then say (NotElf filename);; usage else mret ());;
  let o := u64 (field 8 buf 0x20 + sizeof_elf_program * field 2 buf 0x38) in
  (if 4096 - 12 <=? o then say (HeaderTooLarge filename);; usage else mret ());;
  ok ← lseek (Z.to_nat o);
  if negb ok then say SeekError;; usage else
  diskwrite multiboot_header;;
  halt (Exited 0).

(** ** main *)

Definition zerobuf : list Z := replicate SECTORSIZE 0.

(** [while (nsectors < to) { diskwrite(zerobuf, 512); nsectors++; }] *)
Fixpoint zero_sectors (n : nat) : M host () :=
  match n with
  | O => mret ()
  | S n => diskwrite zerobuf;; zero_sectors n
  end.

(** The part of a number that [strtoul] reads in [base], after [v]. *)
Definition digit_of (base c : Z) : option Z :=
  let d := if (48 <=? c) && (c <=? 57) then c - 48
           else if (97 <=? c) && (c <=? 122) then c - 87
           else if (65 <=? c) && (c <=? 90) then c - 55 else 99 in
  if d <? base then Some d else None.

Fixpoint read_digits (base v : Z) (l : list Z) : Z * list Z :=
  match l with
  | [] => (v, [])
  | c :: l' => match digit_of base c with Some d => read_digits base (base * v + d) l' | None => (v, l) end
  end.

(** [strtoul(s, &rest, 0)] of a string that starts with a digit. *)
Definition strtoul (s : list Z) : Z * list Z :=
  let r :=
    match s with
    | 48 :: x :: d :: _ =>
        if ((x =? 120) || (x =? 88)) && bool_decide (is_Some (digit_of 16 d))
        then read_digits 16 0 (drop 2 s) else read_digits 8 0 s
    | 48 :: _ => read_digits 8 0 s
    | _ => read_digits 10 0 s
    end in
  (Z.min r.1 (2 ^ 64 - 1), r.2).

(** An argument like "@X": the sector to skip to. *)
Definition skipto (arg : list Z) : option Z :=
  match arg with
  | 64 :: (c :: _) as s =>
      if (48 <=? c) && (c <=? 57) then
        let r := strtoul (tail s) in
        match r.2 with [] => Some r.1 | _ => None end
      else None
  | _ => None
  end.

(** The loop that copies a file; the result is how many bytes it copied. *)
Fixpoint copy_chunks (n : nat) (name : list Z) (pos : nat) : M host nat :=
  match n with
  | O => halt Spinning
  | S n =>
      buf ← fread name pos;
      match buf with
      | [] => mret pos
      | _ => diskwrite buf;; copy_chunks n name (pos + length buf)
      end
  end.

Definition copy_file (name : list Z) : M host nat :=
  fopencheck name;;
  pos ← copy_chunks chunks name 0;
  if bool_decide (pos mod SECTORSIZE = 0)%nat then mret (pos / SECTORSIZE)%nat
  else
    let rest := (SECTORSIZE - pos mod SECTORSIZE)%nat in
    diskwrite (take rest zerobuf);; mret ((pos + rest) / SECTORSIZE)%nat.

Fixpoint write_files (args : list (list Z)) (nsectors : Z) : M host Z :=
  match args with
  | [] => mret nsectors
  | arg :: args =>
      match skipto arg with
      | Some sector =>
          if sector <? nsectors then say (CannotSkip sector nsectors);; usage
          else zero_sectors (Z.to_nat (sector - nsectors));; write_files args sector
      | None => n ← copy_file arg; write_files args (nsectors + Z.of_nat n)
      end
  end.

Definition boot_sector (name : list Z) : M host () :=
  fopencheck name;;
  buf ← fread name 0;
  (if (510 <? length buf)%nat then say (BootBlockTooLarge name (Z.of_nat (length buf)));; usage else mret ());;
  diskwrite (buf ++ replicate (510 - length buf) 0 ++ [0x55; 0xAA]).

(** [-p DISK], which comes first: the arguments after it, and whether there is
    a boot sector. *)
Definition disk_option (args : list (list Z)) : M host (list (list Z) * bool) :=
  match args with
  | arg :: rest =>
      if bool_decide (arg = str "-p") then
        match rest with
        | [] => usage
        | name :: rest =>
            opencheck name;;
            r ← find_partition partitions 0 0 0;
            if r <=? 0 then say (NoPartition name);; usage else mret (rest, false)
        end
      else mret (args, true)
  | [] => mret (args, true)
  end.

Definition multiboot_option (args : list (list Z)) : M host () :=
  match args with
  | arg :: rest =>
      if bool_decide (arg = str "-m") then
        match rest with [] => usage | name :: _ => do_multiboot name end
      else mret ()
  | [] => mret ()
  end.

(** [args] are the arguments after the program's name. *)
Definition main (args : list (list Z)) : M host Z :=
  opt ← disk_option args;
  let '(args, bootsector_special) := opt in
  multiboot_option args;;
  match args with
  | [] => usage
  | arg :: rest =>
      nsectors ← (if bootsector_special : bool then boot_sector arg;; write_files rest 1 else write_files args 0);
      zero_sectors (Z.to_nat (1024 - nsectors));;
      mret 0
  end.
End mkbootdisk.
