(* ===== verification/DiskImage.v ===== *)
(** The disk image that [main] of [src/build/mkbootdisk.c] writes, and what
    the boot loader finds on it. *)
From S2P Require Import Prelude X86 Machine CLib Printf ElfFormat BootLoader BootLoads MkBootDisk.
Open Scope Z_scope.

(** ** A host whose calls make progress

    Fewer than [retries] calls in a row are interrupted; then some bytes are
    written, and a read gets what it asks for.  A seek in a file succeeds. *)

Class HostOk `{Host} : Prop := {
  write_progress : ∀ k amt, (0 < amt)%nat → ∃ j, (j < retries)%nat ∧
    (∀ i, (i < j)%nat → write_call (k + i) amt = Interrupted) ∧
    ∃ w, write_call (k + j) amt = Done w ∧ (0 < w ≤ amt)%nat;
  read_progress : ∀ k, ∃ j, (j < retries)%nat ∧
    (∀ i, (i < j)%nat → read_call (k + i) = Interrupted) ∧
    ∃ w, read_call (k + j) = Done w ∧ (SECTORSIZE ≤ w)%nat;
  seek_progress : ∀ k, seek_call k = true }.

Section image.
Context `{HostOk}.

(** Writing to stdout, which only grows. *)
Record ready (h : host) : Prop := {
  rd_fd : diskfd h = Stdout;
  rd_offset : offset h = length (stdout h);
  rd_maxoff : maxoff h = 0 }.

(** [h'] is [h] with [d] written. *)
Record emitted (d : list Z) (h h' : host) : Prop := {
  em_ready : ready h';
  em_files : files h' = files h;
  em_stdout : stdout h' = stdout h ++ d;
  em_stderr : stderr h' = stderr h }.

Lemma emitted_none h : ready h → emitted [] h h.
Proof. intros Hr. split; try done. by rewrite app_nil_r. Qed.

Lemma emitted_trans d1 d2 h1 h2 h3 : emitted d1 h1 h2 → emitted d2 h2 h3 → emitted (d1 ++ d2) h1 h3.
Proof. intros [A1 A2 A3 A4] [B1 B2 B3 B4]. split; [done|congruence| |congruence]. by rewrite B3, A3, app_assoc. Qed.

Lemma splice_end o d l : o = length l → splice o d l = l ++ d.
Proof.
  intros ->. unfold splice. rewrite take_ge, Nat.sub_diag, drop_ge, app_nil_r by lia. done.
Qed.

Lemma write_bytes_ok d h : ready h → ∃ h', write_bytes d h = Ok () h' ∧ emitted d h h'.
Proof.
  intros [Hf Ho Hm]. eexists. split; [reflexivity|].
  unfold set_fd_data, fd_data. rewrite Hf. split; try done.
  - split; [done| |done]. cbn. by rewrite Ho, splice_end, length_app by done.
  - cbn. by apply splice_end.
Qed.

Lemma calls_ready k h : ready h → ready (set_calls k h).
Proof. by intros [? ? ?]. Qed.

(** The interrupted calls before a write, and the write. *)
Lemma diskwrite_step j n data h :
  data ≠ [] → (∀ i, (i < j)%nat → write_call (calls h + i) (length data) = Interrupted) →
  diskwrite_loop (j + n) data h = diskwrite_loop n data (set_calls (calls h + j) h).
Proof.
  intros Hd. revert h. induction j as [|j IH]; intros h Hi.
  - rewrite Nat.add_0_r. by destruct h.
  - destruct data as [|x data]; [done|]. cbn [Nat.add diskwrite_loop]. erewrite bind_ok by reflexivity.
    pose proof (Hi 0%nat ltac:(lia)) as E. rewrite Nat.add_0_r in E. rewrite E.
    rewrite IH.
    + f_equal. cbn. unfold set_calls. cbn. f_equal. lia.
    + intros i Hij. cbn. rewrite <- (Hi (S i)) by lia. f_equal. lia.
Qed.

Lemma diskwrite_once n w d h :
  d ≠ [] → write_call (calls h) (length d) = Done (S w) →
  diskwrite_loop (S n) d h = (write_bytes (take (S w) d);; diskwrite_loop n (drop (S w) d)) (set_calls (S (calls h)) h).
Proof. intros Hd E. destruct d as [|x d]; [done|]. cbn [diskwrite_loop]. erewrite bind_ok by reflexivity. by rewrite E. Qed.

Lemma diskwrite_loop_ok n data h :
  ready h → (length data * retries ≤ n)%nat → ∃ h', diskwrite_loop n data h = Ok () h' ∧ emitted data h h'.
Proof.
  revert n h. induction data as [data IH] using (induction_ltof1 _ (@length Z)). unfold ltof in IH. intros n h Hr Hn.
  destruct (decide (data = [])) as [->|Hne].
  { exists h. split; [by destruct n|by apply emitted_none]. }
  assert (0 < length data)%nat as Hl by (destruct data; [done|cbn; lia]).
  destruct (write_progress (calls h) (length data) Hl) as (j & Hj & Hi & w & Hw & Hww).
  assert (retries ≤ n)%nat as Hrn by nia. replace n with (j + S (n - S j))%nat by lia.
  destruct w as [|w]; [lia|]. rewrite diskwrite_step, (diskwrite_once _ w) by done.
  destruct (write_bytes_ok (take (S w) data) (set_calls (S (calls h + j)) (set_calls (calls h + j) h))) as (h1 & E1 & H1);
    [by do 2 apply calls_ready|].
  erewrite bind_ok by exact E1.
  destruct (IH (drop (S w) data)) with (n := (n - S j)%nat) (h := h1) as (h2 & E2 & H2).
  - rewrite length_drop. lia.
  - apply H1.
  - rewrite length_drop. nia.
  - exists h2. split; [exact E2|]. rewrite <- (take_drop (S w) data). apply (emitted_trans _ _ _ h1); [|exact H2].
    destruct H1 as [A1 A2 A3 A4]. by split.
Qed.

Lemma diskwrite_ok data h : ready h → ∃ h', diskwrite data h = Ok () h' ∧ emitted data h h'.
Proof.
  intros Hr. unfold diskwrite. do 2 erewrite bind_ok by reflexivity. rewrite (rd_maxoff h Hr).
  change (istrue 0 && _) with false. cbv iota. erewrite bind_ok by reflexivity. by apply diskwrite_loop_ok.
Qed.

(** ** Files *)

(** A file, filled up to a sector. *)
Definition padding (n : nat) : nat := ((SECTORSIZE - n mod SECTORSIZE) mod SECTORSIZE)%nat.
Definition pad (f : list Z) : list Z := f ++ replicate (padding (length f)) 0.

Lemma pad_length f : (length (pad f) mod SECTORSIZE = 0)%nat.
Proof.
  unfold pad, padding. rewrite length_app, length_replicate. change SECTORSIZE with 512%nat.
  pose proof (Nat.div_mod_eq (length f) 512) as Hdm. pose proof (Nat.mod_upper_bound (length f) 512 ltac:(lia)) as Hm.
  set (r := (length f mod 512)%nat) in *. destruct (decide (r = 0%nat)) as [->|Hr].
  - change ((512 - 0) mod 512)%nat with 0%nat. rewrite Hdm. replace (512 * (length f / 512) + 0 + 0)%nat with (length f / 512 * 512)%nat by lia.
    apply Nat.Div0.mod_mul.
  - rewrite (Nat.mod_small (512 - r)) by lia.
    replace (length f + (512 - r))%nat with ((length f / 512 + 1) * 512)%nat by lia. apply Nat.Div0.mod_mul.
Qed.

Lemma fopencheck_ok name f h : files h !! name = Some f → fopencheck name h = Ok () h.
Proof. intros E. unfold fopencheck. erewrite bind_ok by reflexivity. by rewrite E. Qed.

Lemma fread_ok name f pos h : files h !! name = Some f → fread name pos h = Ok (take 4096 (drop pos f)) h.
Proof. intros E. unfold fread, gets. by rewrite E. Qed.

Lemma copy_chunks_ok n name f pos h :
  files h !! name = Some f → ready h → (pos ≤ length f)%nat → (length f - pos < n)%nat →
  ∃ h', copy_chunks n name pos h = Ok (length f) h' ∧ emitted (drop pos f) h h'.
Proof.
  revert pos h. induction n as [|n IH]; intros pos h Hf Hr Hp Hn; [lia|].
  cbn [copy_chunks]. erewrite bind_ok by (by apply fread_ok).
  assert (length (take 4096 (drop pos f)) = (4096 `min` (length f - pos)))%nat as Hl
    by (rewrite length_take, length_drop; done).
  destruct (take 4096 (drop pos f)) as [|x l] eqn:E.
  - change (length (@nil Z)) with 0%nat in Hl. assert (length f - pos = 0)%nat as Hz by lia. rewrite drop_ge by lia.
    exists h. replace pos with (length f) by lia. split; [done|by apply emitted_none].
  - destruct (diskwrite_ok (x :: l) h Hr) as (h1 & E1 & H1'). erewrite bind_ok by exact E1.
    destruct (IH (pos + length (x :: l))%nat h1) as (h2 & E2 & H2'); [by rewrite (em_files _ _ _ H1')|apply H1'|lia|change (length (x :: l)) with (S (length l)) in *; lia|].
    exists h2. split; [exact E2|].
    assert (drop pos f = (x :: l) ++ drop (pos + length (x :: l)) f) as ->.
    { rewrite <- (take_drop 4096 (drop pos f)) at 1. rewrite E. f_equal. rewrite drop_drop, Hl.
      destruct (Nat.le_ge_cases 4096 (length f - pos)); [by rewrite Nat.min_l|].
      rewrite Nat.min_r by done. rewrite !drop_ge by lia. done. }
    by apply (emitted_trans _ _ _ h1).
Qed.

Lemma copy_file_ok name f h :
  files h !! name = Some f → ready h → (length f < chunks)%nat →
  ∃ h', copy_file name h = Ok (length (pad f) / SECTORSIZE)%nat h' ∧ emitted (pad f) h h'.
Proof.
  intros Hf Hr Hn. unfold copy_file. erewrite bind_ok by (by apply (fopencheck_ok _ f)).
  destruct (copy_chunks_ok chunks name f 0 h Hf Hr) as (h1 & E1 & H1'); [lia|lia|]. rewrite drop_0 in H1'.
  erewrite bind_ok by exact E1. unfold pad, padding. pose proof (Nat.mod_upper_bound (length f) SECTORSIZE ltac:(discriminate)).
  case_bool_decide as Hm.
  - rewrite Hm. change ((SECTORSIZE - 0) mod SECTORSIZE)%nat with 0%nat. cbn [replicate]. rewrite app_nil_r. by exists h1.
  - rewrite (Nat.mod_small (SECTORSIZE - _)) by lia. unfold zerobuf. rewrite take_replicate, Nat.min_l by lia.
    destruct (diskwrite_ok (replicate (SECTORSIZE - length f mod SECTORSIZE) 0) h1 (em_ready _ _ _ H1')) as (h2 & E2 & H2').
    erewrite bind_ok by exact E2. rewrite length_app, length_replicate. exists h2. split; [done|by apply (emitted_trans _ _ _ h1)].
Qed.

Lemma zero_sectors_ok n h : ready h → ∃ h', zero_sectors n h = Ok () h' ∧ emitted (replicate (n * SECTORSIZE) 0) h h'.
Proof.
  revert h. induction n as [|n IH]; intros h Hr; cbn [zero_sectors].
  { exists h. split; [done|by apply emitted_none]. }
  destruct (diskwrite_ok zerobuf h Hr) as (h1 & E1 & H1'). erewrite bind_ok by exact E1.
  destruct (IH h1 (em_ready _ _ _ H1')) as (h2 & E2 & H2'). exists h2. split; [exact E2|].
  cbn [Nat.mul]. rewrite replicate_add. by apply (emitted_trans _ _ _ h1).
Qed.

(** Arguments that name files, and the files. *)
Definition named (h : host) : list (list Z) → list (list Z) → Prop :=
  Forall2 (λ arg f, skipto arg = None ∧ files h !! arg = Some f ∧ (length f < chunks)%nat).

Definition padded (fs : list (list Z)) : list Z := concat (pad <$> fs).

Lemma write_files_ok args fs n h :
  named h args fs → ready h →
  ∃ h', write_files args n h = Ok (n + Z.of_nat (length (padded fs) / SECTORSIZE)) h' ∧ emitted (padded fs) h h'.
Proof.
  revert fs n h. induction args as [|arg args IH]; intros fs n h Hn Hr; inversion Hn as [|? f ? fs' (Hs & Hf & Hl) Hn']; subst.
  { exists h. split; [by rewrite Z.add_0_r|by apply emitted_none]. }
  cbn [write_files]. rewrite Hs. destruct (copy_file_ok arg f h Hf Hr Hl) as (h1 & E1 & H1').
  erewrite bind_ok by exact E1.
  destruct (IH fs' (n + Z.of_nat (length (pad f) / SECTORSIZE)) h1) as (h2 & E2 & H2'); [|apply H1'|].
  { eapply Forall2_impl; [exact Hn'|]. intros a b. by rewrite (em_files _ _ _ H1'). }
  exists h2. split; [|by apply (emitted_trans _ _ _ h1)]. rewrite E2. f_equal.
  change (padded (f :: fs')) with (pad f ++ padded fs'). rewrite length_app.
  pose proof (pad_length f) as Hp. apply Nat.Div0.mod_divides in Hp as [k Hk]. rewrite Hk.
  rewrite (Nat.mul_comm SECTORSIZE k), Nat.div_add_l, Nat.div_mul by discriminate. lia.
Qed.

(** ** The image *)

Definition sector0 (b : list Z) : list Z := b ++ replicate (510 - length b) 0 ++ [0x55; 0xAA].

Definition disk_image (b : list Z) (fs : list (list Z)) : list Z :=
  let used := sector0 b ++ padded fs in
  used ++ replicate ((1024 - length used / SECTORSIZE) * SECTORSIZE) 0.

Lemma sector0_length b : (length b ≤ 510)%nat → length (sector0 b) = SECTORSIZE.
Proof. intros Hb. unfold sector0. rewrite !length_app, length_replicate. change SECTORSIZE with (510 + 2)%nat. cbn [length]. lia. Qed.

Lemma boot_sector_ok name b h :
  files h !! name = Some b → (length b ≤ 510)%nat → ready h →
  ∃ h', boot_sector name h = Ok () h' ∧ emitted (sector0 b) h h'.
Proof.
  intros Hf Hl Hr. unfold boot_sector. erewrite bind_ok by (by apply (fopencheck_ok _ b)).
  erewrite bind_ok by (by apply (fread_ok _ b)). rewrite drop_0, take_ge by lia.
  destruct (Nat.ltb_spec 510 (length b)); [lia|]. erewrite bind_ok by reflexivity. by apply diskwrite_ok.
Qed.

(** C19: the boot disk.  Given a boot sector of at most 510 bytes and any
    number of files, the program writes the boot sector with its signature,
    then every file from the next sector on, and zeros up to 1024 sectors,
    however the system splits or interrupts the writes; it reports nothing and
    touches no file. *)
Theorem mkbootdisk_image name b args fs h :
  name ≠ str "-p" → name ≠ str "-m" → files h !! name = Some b → (length b ≤ 510)%nat → named h args fs → ready h →
  ∃ h', main (name :: args) h = Ok 0 h' ∧ emitted (disk_image b fs) h h'.
Proof.
  intros Hp Hm Hf Hl Hn Hr. unfold main, disk_option. rewrite bool_decide_false by done.
  erewrite bind_ok by reflexivity. unfold multiboot_option. rewrite bool_decide_false by done.
  erewrite bind_ok by reflexivity.
  destruct (boot_sector_ok name b h Hf Hl Hr) as (h1 & E1 & Hb).
  destruct (write_files_ok args fs 1 h1) as (h2 & E2 & Hw); [|apply Hb|].
  { eapply Forall2_impl; [exact Hn|]. intros x y. by rewrite (em_files _ _ _ Hb). }
  destruct (zero_sectors_ok (Z.to_nat (1024 - (1 + Z.of_nat (length (padded fs) / SECTORSIZE)))) h2 (em_ready _ _ _ Hw))
    as (h3 & E3 & Hz).
  exists h3. split.
  - erewrite bind_ok by (erewrite bind_ok by exact E1; exact E2). by erewrite bind_ok by exact E3.
  - unfold disk_image. rewrite length_app, sector0_length by done.
    assert ((SECTORSIZE + length (padded fs)) / SECTORSIZE = 1 + length (padded fs) / SECTORSIZE)%nat as ->.
    { rewrite <- (Nat.mul_1_l SECTORSIZE) at 1. by rewrite Nat.div_add_l. }
    replace (1024 - (1 + length (padded fs) / SECTORSIZE))%nat with
      (Z.to_nat (1024 - (1 + Z.of_nat (length (padded fs) / SECTORSIZE)))) by lia.
    apply (emitted_trans _ _ _ h2); [|exact Hz]. by apply (emitted_trans _ _ _ h1).
Qed.
End image.

(** ** The kernel on the disk *)

Fixpoint bytes (a : Z) (l : list Z) : gmap Z Z :=
  match l with
  | [] => ∅
  | x :: l => <[a := x]> (bytes (a + 1) l)
  end.

Lemma load8_bytes a l b : load8 (bytes a l) b = if decide (a ≤ b) then nth (Z.to_nat (b - a)) l 0 mod 256 else 0.
Proof.
  revert a. induction l as [|x l IH]; intros a; cbn [bytes].
  { case_decide; [|done]. by destruct (Z.to_nat (b - a)). }
  rewrite load8_insert, IH. destruct (decide (a = b)) as [->|Hne].
  - rewrite decide_True, Z.sub_diag by lia. done.
  - destruct (decide (a + 1 ≤ b)).
    + rewrite decide_True by lia. by replace (Z.to_nat (b - a)) with (S (Z.to_nat (b - (a + 1)))) by lia.
    + by rewrite decide_False by lia.
Qed.

Lemma kernel_bytes b k fs j :
  (length b ≤ 510)%nat → 0 ≤ j < Z.of_nat (length k) →
  load8 (bytes 0 (disk_image b (k :: fs))) (512 + j) = load8 (bytes 0 k) (0 + j).
Proof.
  intros Hb Hj. rewrite !load8_bytes, !decide_True by lia. f_equal. unfold disk_image.
  change (padded (k :: fs)) with (pad k ++ padded fs). unfold pad. rewrite <- !app_assoc.
  pose proof (sector0_length b Hb) as Hs. change SECTORSIZE with 512%nat in Hs.
  rewrite app_nth2 by lia. rewrite Hs. rewrite app_nth1 by lia. f_equal. lia.
Qed.

(** C16: what [mkbootdisk] writes, [boot] reads.  On the image of a boot sector,
    a bootable kernel file and any other files, the boot loader brings every
    segment of the kernel's file into memory and calls its entry point. *)
Theorem disk_boots {A} `{Controller} `{Polls} b k fs (latency : nat) s :
  let file := bytes 0 k in
  ∀ Hata : AtaDisk (bytes 0 (disk_image b (k :: fs))) latency, (latency ≤ poll_limit)%nat → idle (disk s) →
  (length b ≤ 510)%nat → PAGESIZE ≤ Z.of_nat (length k) → bootable file 0 →
  (∀ i, 0 ≤ i < phnum file 0 → p_offset (segment file 0 i) + p_filesz (segment file 0 i) ≤ Z.of_nat (length k)) →
  ∃ s', boot (A := A) s = Halt (Jumped (entry file 0)) s' ∧ ∀ i, 0 ≤ i < phnum file 0 → segment_in file 0 (bmem s') i.
Proof.
  intros file Hata Hpoll Hi Hb Hk Hboot Hin.
  assert (same_bytes file 0 (bytes 0 (disk_image b (k :: fs))) 512 PAGESIZE) as Hs.
  { intros j Hj. apply kernel_bytes; [done|lia]. }
  destruct (boot_loads_run (A := A) _ latency Hata Hpoll s Hi (moved_bootable file 0 _ 512 Hs Hboot)) as (s' & E & Hseg & _).
  destruct (moved_fields file 0 _ 512 Hs) as (En & _ & Ee). rewrite Ee in E. exists s'. split; [exact E|].
  intros i Hi'. apply (moved_segment_in file 0 _ 512 Hs Hboot); [done| |apply Hseg; by rewrite En].
  intros j Hj. pose proof (load_range 8 file (0 + phoff file 0 + 56 * i + 8)) as Ho.
  change (load 8 file (0 + phoff file 0 + 56 * i + 8)) with (p_offset (segment file 0 i)) in Ho.
  rewrite <- !Z.add_assoc. apply kernel_bytes; [done|]. pose proof (Hin i Hi'). lia.
Qed.

(** ** A small kernel

    Four bytes to load at 0x40000, and four to clear after them. *)

Definition le8 (x : Z) : list Z := le4 (x mod 2 ^ 32) ++ le4 (x / 2 ^ 32).

Definition small_kernel : list Z :=
  le4 ELF_MAGIC ++ replicate 20 0 ++ le8 0x40000 ++ le8 64 ++ replicate 16 0 ++ [1; 0] ++ replicate 6 0 ++
  le4 ELF_PTYPE_LOAD ++ le4 7 ++ le8 0x1000 ++ le8 0x40000 ++ le8 0x40000 ++ le8 4 ++ le8 8 ++ le8 0x1000 ++
  replicate (4096 - 120) 0 ++ [1; 2; 3; 4].

Lemma load_bytes n l a : 0 ≤ a → load n (bytes 0 l) a = field n l (Z.to_nat a).
Proof.
  revert a. induction n as [|n IH]; intros a Ha; [done|].
  change (load (S n) (bytes 0 l) a) with (load8 (bytes 0 l) a + 256 * load n (bytes 0 l) (a + 1)).
  rewrite load8_bytes, decide_True, Z.sub_0_r, IH by lia. replace (Z.to_nat (a + 1)) with (S (Z.to_nat a)) by lia. done.
Qed.

Definition small_segment : elf_program := MkPh ELF_PTYPE_LOAD 7 0x1000 0x40000 4 8.

Lemma small_fields :
  load 4 (bytes 0 small_kernel) 0 = ELF_MAGIC ∧ entry (bytes 0 small_kernel) 0 = 0x40000 ∧
  phoff (bytes 0 small_kernel) 0 = 64 ∧ phnum (bytes 0 small_kernel) 0 = 1 ∧
  segment (bytes 0 small_kernel) 0 0 = small_segment.
Proof.
  assert (phoff (bytes 0 small_kernel) 0 = 64) as Ep.
  { unfold phoff. rewrite load_bytes by done. vm_compute. reflexivity. }
  unfold segment. rewrite Ep. unfold entry, phnum, phdr. rewrite !load_bytes by done.
  repeat split; vm_compute; reflexivity.
Qed.

Lemma small_only i : 0 ≤ i < phnum (bytes 0 small_kernel) 0 → i = 0.
Proof. destruct small_fields as (_ & _ & _ & -> & _). lia. Qed.

Lemma small_bootable : bootable (bytes 0 small_kernel) 0.
Proof.
  destruct small_fields as (Em & Ee & Ep & En & Es). split.
  - exact Em.
  - rewrite Ep, En. discriminate.
  - intros i ->%small_only. rewrite Es. discriminate.
  - intros i ->%small_only. rewrite Es. reflexivity.
  - intros i b ->%small_only. unfold written. cbv zeta. rewrite Es. change (seg_lo (p_va small_segment)) with 0x40000.
    change (ELFHDR + PAGESIZE) with 0x11000. lia.
  - intros i ->%small_only. rewrite Es. vm_compute. discriminate.
  - intros i ->%small_only. rewrite Es. vm_compute. reflexivity.
  - intros i j k Hij Hj. rewrite En in Hj. lia.
Qed.

Definition small_disk : gmap Z Z := bytes 0 (disk_image [1; 2; 3] [small_kernel]).
Definition small_start : @bootstate (simple_controller small_disk) :=
  @MkBoot (simple_controller small_disk) ∅ (MkAta (0, 0, 0, 0) false 0).

#[local] Opaque bytes disk_image.

Lemma disk_boots_witness :
  ∃ s', @boot (simple_controller small_disk) 2%nat () small_start = Halt (Jumped 0x40000) s' ∧
    load8 (@bmem (simple_controller small_disk) s') 0x40001 = 2 ∧ load8 (@bmem (simple_controller small_disk) s') 0x40005 = 0.
Proof.
  destruct small_fields as (_ & Ee & _ & En & Es).
  destruct (@disk_boots () (simple_controller small_disk) 2%nat [1; 2; 3] small_kernel [] 2 small_start
    (simple_disk small_disk) (le_n 2) eq_refl) as (s' & E & Hs).
  - cbn. lia.
  - apply Z.leb_le. vm_compute. reflexivity.
  - exact small_bootable.
  - intros i ->%small_only. rewrite Es. apply Z.leb_le. vm_compute. reflexivity.
  - rewrite Ee in E. exists s'. split; [exact E|].
    specialize (Hs 0 (ltac:(rewrite En; lia) : 0 ≤ 0 < phnum (bytes 0 small_kernel) 0)). unfold segment_in in Hs. rewrite Es in Hs.
    split.
    + transitivity (load8 (bytes 0 small_kernel) 0x1001); [exact (Hs 1 (ltac:(cbn; lia) : 0 ≤ 1 < p_memsz small_segment))|].
      rewrite load8_bytes. vm_compute. reflexivity.
    + exact (Hs 5 (ltac:(cbn; lia) : 0 ≤ 5 < p_memsz small_segment)).
Defined.

(** A host where every other call is interrupted and at most 100 bytes are
    written at a time. *)
Definition slow_host : Host := {|
  write_call k amt := if Nat.even k then Interrupted else Done (min amt 100);
  read_call k := if Nat.even k then Interrupted else Done 512;
  seek_call _ := true;
  retries := 2; chunks := 9; partitions := 4 |}.

Lemma slow_host_ok : @HostOk slow_host.
Proof.
  assert (∀ k, ∃ j, (j < 2)%nat ∧ (∀ i, (i < j)%nat → Nat.even (k + i) = true) ∧ Nat.even (k + j) = false) as Hk.
  { intros k. destruct (Nat.even k) eqn:E; [exists 1%nat|exists 0%nat].
    - split; [lia|]. split; [intros i Hi; assert (i = 0%nat) as -> by lia; by rewrite Nat.add_0_r|].
      rewrite Nat.add_1_r, Nat.even_succ, <- Nat.negb_even, E. done.
    - split; [lia|]. split; [lia|]. by rewrite Nat.add_0_r. }
  split.
  - intros k amt Ha. destruct (Hk k) as (j & Hj & Hi & Ej). exists j. split; [exact Hj|]. split.
    + intros i Hij. cbn. by rewrite Hi.
    + exists (min amt 100). cbn. rewrite Ej. split; [done|lia].
  - intros k. destruct (Hk k) as (j & Hj & Hi & Ej). exists j. split; [exact Hj|]. split.
    + intros i Hij. cbn. by rewrite Hi.
    + exists 512%nat. cbn. rewrite Ej. split; [done|]. change SECTORSIZE with 512%nat. lia.
  - done.
Qed.

Definition build_host : host :=
  MkHost {[str "bootsector" := [1; 2; 3]; str "kernel" := [7; 8]]} [] Stdout 0 0 [] 0 0.

Lemma mkbootdisk_image_witness :
  ∃ h', @main slow_host [str "bootsector"; str "kernel"] build_host = Ok 0 h' ∧
    stdout h' = disk_image [1; 2; 3] [[7; 8]] ∧ stderr h' = [].
Proof.
  destruct (@mkbootdisk_image slow_host slow_host_ok (str "bootsector") [1; 2; 3] [str "kernel"] [[7; 8]] build_host)
    as (h' & E & He).
  - discriminate.
  - discriminate.
  - vm_compute. reflexivity.
  - cbn. lia.
  - constructor; [|constructor]. split; [reflexivity|]. split; [vm_compute; reflexivity|]. change chunks with 9%nat. cbn. lia.
  - by split.
  - exists h'. split; [exact E|]. split; [apply (em_stdout _ _ _ He)|apply (em_stderr _ _ _ He)].
Defined.
