(* ===== verification/Partition.v ===== *)
(** [mkbootdisk -p] of [src/build/mkbootdisk.c]: a kernel in a partition of a
    disk that holds other data. *)
From S2P Require Import Prelude X86 Machine CLib Printf ElfFormat BootLoader BootLoads MkBootDisk DiskImage.
Open Scope Z_scope.

(** ** Bytes of a file *)

Definition byte (l : list Z) (j : nat) : Z := default 0 (l !! j).

Lemma byte_splice o d l j : (j < o ∨ o + length d ≤ j)%nat → byte (splice o d l) j = byte l j.
Proof.
  intros Hj. unfold byte, splice. destruct (decide (j < o)%nat) as [Hlt|Hge].
  - destruct (decide (j < length l)%nat) as [Hl|Hl].
    + rewrite lookup_app_l by (rewrite length_take; lia). by rewrite lookup_take_lt.
    + rewrite (lookup_ge_None_2 l) by lia. rewrite lookup_app_r by (rewrite length_take; lia).
      rewrite length_take, lookup_app_l by (rewrite length_replicate; lia).
      by rewrite lookup_replicate_2 by lia.
  - rewrite lookup_app_r by (rewrite length_take; lia). rewrite length_take.
    rewrite lookup_app_r by (rewrite length_replicate; lia). rewrite length_replicate.
    rewrite lookup_app_r by lia. rewrite lookup_drop. do 2 f_equal. lia.
Qed.

Section partition.
Context `{Host} (name : list Z) (fs0 : gmap (list Z) (list Z)).

Definition contents (fs : gmap (list Z) (list Z)) (n : list Z) : list Z := default [] (fs !! n).

(** Only the partition of [len] sectors from [start] on has changed. *)
Definition outside (start len : Z) (fs : gmap (list Z) (list Z)) : Prop :=
  (∀ n, n ≠ name → fs !! n = fs0 !! n) ∧
  ∀ j, (Z.of_nat j < start * 512 ∨ (start + len) * 512 ≤ Z.of_nat j) →
    byte (contents fs name) j = byte (contents fs0 name) j.

(** While the partition is sought, and when one is in use. *)
Record seeking (h : host) : Prop := {
  sk_files : files h = fs0;
  sk_fd : diskfd h = File name;
  sk_curoff : curoff h = 0;
  sk_maxoff : maxoff h = 0 }.

Record selected (start len : Z) (h : host) : Prop := {
  us_said : ∃ number, UsingPartition number start len ∈ stderr h;
  us_fd : diskfd h = File name;
  us_start : 0 ≤ start;
  us_len : 0 < len < 2 ^ 32;
  us_maxoff : maxoff h = len * 512;
  us_curoff : 0 ≤ curoff h ≤ maxoff h;
  us_offset : Z.of_nat (offset h) = start * 512 + curoff h;
  us_outside : outside start len (files h) }.

Definition in_use (h : host) : Prop := ∃ start len, selected start len h.

(** What holds however the program ends. *)
Definition harmless (h : host) : Prop :=
  files h = fs0 ∨
  ∃ number start len, UsingPartition number start len ∈ stderr h ∧ 0 < len ∧ outside start len (files h).

Lemma seeking_harmless h : seeking h → harmless h.
Proof. intros Hs. left. apply Hs. Qed.

Lemma in_use_harmless h : in_use h → harmless h.
Proof. intros (start & len & Hu). destruct (us_said _ _ _ Hu) as [k Hk]. right. exists k, start, len. split; [done|]. split; [apply Hu|apply Hu]. Qed.

Abbreviation stays P m Q := (triple P m Q harmless).

(** Messages change nothing else. *)
Lemma say_harmless m h : harmless h → ∀ h', say m h = Ok () h' → harmless h'.
Proof.
  intros Hh h' [= <-]. destruct Hh as [?|(k & start & len & Hk & Hl & Ho)]; [by left|].
  right. exists k, start, len. split; [by right|]. by split.
Qed.

Lemma usage_triple {A} P (Q : A → host → Prop) m : (∀ h, P h → harmless h) → stays P (say m;; usage) Q.
Proof.
  intros HP. apply (triple_bind _ _ _ (λ _, harmless)).
  - intros h Hh. by apply (say_harmless m h (HP h Hh)).
  - intros _. apply (triple_bind _ _ _ (λ _, harmless)).
    + intros h Hh. by apply (say_harmless Usage h Hh).
    + intros _. by apply triple_halt.
Qed.

Lemma usage_only {A} P (Q : A → host → Prop) : (∀ h, P h → harmless h) → stays P usage Q.
Proof.
  intros HP. apply (triple_bind _ _ _ (λ _, harmless)).
  - intros h Hh. by apply (say_harmless Usage h (HP h Hh)).
  - intros _. by apply triple_halt.
Qed.

(** ** Writing within the partition *)

Definition room (start len : Z) (k : nat) (h : host) : Prop := selected start len h ∧ curoff h + Z.of_nat k ≤ maxoff h.

Lemma room_harmless start len k h : room start len k h → harmless h.
Proof. intros [Hs _]. apply in_use_harmless. by exists start, len. Qed.

Lemma count_call_triple start len k :
  stays (room start len k) count_call (λ _, room start len k).
Proof. intros h [[] ?]. by split. Qed.

Lemma write_bytes_file d h : diskfd h = File name →
  write_bytes d h = Ok () (MkHost (<[name := splice (offset h) d (contents (files h) name)]> (files h)) (stdout h)
    (File name) (offset h + length d) (calls h) (stderr h) (maxoff h) (curoff h + Z.of_nat (length d))).
Proof. destruct h. cbn. by intros ->. Qed.

Lemma write_bytes_triple start len d k :
  stays (room start len (length d + k)) (write_bytes d) (λ _, room start len k).
Proof.
  intros h [[Hk Hfd Hst Hl Hm Hc Ho [Hf Hb]] Hr]. rewrite write_bytes_file by done.
  split; [|cbn; lia]. split; cbn; try done; try lia. split.
  - intros n Hn. rewrite lookup_insert_ne by congruence. by apply Hf.
  - intros j Hj. unfold contents at 1. rewrite lookup_insert_eq. cbn. rewrite byte_splice by lia. by apply Hb.
Qed.

Lemma diskwrite_loop_triple start len n data :
  stays (room start len (length data)) (diskwrite_loop n data) (λ _, room start len 0).
Proof.
  revert data. induction n as [|n IH]; intros data; (destruct data as [|x data]; [by apply triple_ret|]); cbn [diskwrite_loop].
  { apply triple_halt, room_harmless. }
  apply (triple_bind _ _ _ (λ _, room start len (length (x :: data)))); [apply count_call_triple|]. intros k.
  destruct (write_call k (length (x :: data))) as [[|w]| |].
  - apply usage_triple, room_harmless.
  - apply (triple_bind _ _ _ (λ _, room start len (length (drop (S w) (x :: data))))); [|intros _; apply IH].
    eapply triple_pre; [apply write_bytes_triple|]. intros h Hr.
    by rewrite <- length_app, take_drop.
  - apply IH.
  - apply usage_triple, room_harmless.
Qed.

Lemma diskwrite_triple data : Z.of_nat (length data) < 2 ^ 32 → stays in_use (diskwrite data) (λ _, in_use).
Proof.
  intros Hd h (start & len & Hs). unfold diskwrite. erewrite bind_ok by reflexivity. erewrite bind_ok by reflexivity.
  pose proof (us_maxoff _ _ _ Hs) as Em. pose proof (us_curoff _ _ _ Hs) as Hc. pose proof (us_len _ _ _ Hs) as Hl.
  assert (istrue (maxoff h) = true) as -> by (unfold istrue; rewrite Em; destruct (Z.eqb_spec (len * 512) 0); [lia|done]).
  rewrite u64_small by lia. cbn [andb]. destruct (Z.ltb_spec (maxoff h) (curoff h + Z.of_nat (length data))) as [Hlt|Hge].
  - apply (triple_bind (say MoreThanPartition;; usage) _ in_use (λ _ _, False)); [apply usage_triple, in_use_harmless|by intros ? ? []|].
    by exists start, len.
  - erewrite bind_ok by reflexivity.
    pose proof (diskwrite_loop_triple start len (length data * retries) data h (conj Hs Hge)) as Ht.
    destruct (diskwrite_loop _ data h) as [[] h'|e h']; [|done]. exists start, len. apply Ht.
Qed.

(** Steps that leave the data, the offset and the limits alone. *)
Lemma fopencheck_triple n P : (∀ h, P h → harmless h) → stays P (fopencheck n) (λ _, P).
Proof.
  intros HP. apply (triple_bind _ _ _ (λ _, P)); [by apply triple_gets|]. intros [f|]; [by apply triple_ret|].
  by apply usage_triple.
Qed.

Lemma fread_triple n pos P : stays P (fread n pos) (λ buf h, P h ∧ (length buf ≤ 4096)%nat).
Proof. apply triple_gets. intros h Hh. split; [done|]. rewrite length_take. apply Nat.le_min_l. Qed.

Lemma zero_sectors_triple n : stays in_use (zero_sectors n) (λ _, in_use).
Proof.
  induction n as [|n IH]; [by apply triple_ret|]. cbn [zero_sectors].
  apply (triple_bind _ _ _ (λ _, in_use)); [by apply diskwrite_triple|]. by intros _.
Qed.

Lemma small_write (buf : list Z) : (length buf ≤ 4096)%nat → Z.of_nat (length buf) < 2 ^ 32.
Proof. intros Hb. apply inj_le in Hb. change (Z.of_nat 4096) with 4096 in Hb. lia. Qed.

Lemma copy_chunks_triple n f pos : stays in_use (copy_chunks n f pos) (λ _, in_use).
Proof.
  revert pos. induction n as [|n IH]; intros pos; cbn [copy_chunks]; [apply triple_halt, in_use_harmless|].
  apply (triple_bind _ _ _ (λ buf h, in_use h ∧ (length buf ≤ 4096)%nat)); [apply fread_triple|].
  intros [|x buf]; [by apply triple_ret; intros h [? _]|].
  intros h [Hh Hb]. apply (triple_bind (diskwrite (x :: buf)) _ in_use (λ _, in_use)); [by apply diskwrite_triple, small_write|by intros _|done].
Qed.

Lemma copy_file_triple f : stays in_use (copy_file f) (λ _, in_use).
Proof.
  apply (triple_bind _ _ _ (λ _, in_use)); [apply fopencheck_triple, in_use_harmless|]. intros _.
  apply (triple_bind _ _ _ (λ _, in_use)); [apply copy_chunks_triple|]. intros pos.
  apply triple_if; intros _; [by apply triple_ret|].
  apply (triple_bind _ _ _ (λ _, in_use)); [|intros _; by apply triple_ret].
  apply diskwrite_triple, small_write. unfold zerobuf. rewrite length_take, length_replicate.
  transitivity SECTORSIZE; [apply Nat.le_min_r|]. apply Nat.leb_le. reflexivity.
Qed.

Lemma write_files_triple args n : stays in_use (write_files args n) (λ _, in_use).
Proof.
  revert n. induction args as [|arg args IH]; intros n; cbn [write_files]; [by apply triple_ret|].
  destruct (skipto arg) as [sector|].
  - apply triple_if; intros _; [apply usage_triple, in_use_harmless|].
    apply (triple_bind _ _ _ (λ _, in_use)); [apply zero_sectors_triple|]. intros _. apply IH.
  - apply (triple_bind _ _ _ (λ _, in_use)); [apply copy_file_triple|]. intros k. apply IH.
Qed.

(** ** Seeking the partition *)

Lemma read_loop_triple n : stays seeking (read_loop n) (λ _, seeking).
Proof.
  induction n as [|n IH]; cbn [read_loop]; [apply triple_halt, seeking_harmless|].
  apply (triple_bind _ _ _ (λ _, seeking)); [intros h []; by split|]. intros k.
  destruct (read_call k) as [w| |]; [|exact IH|by apply triple_ret]. intros h []. by split.
Qed.

Lemma lseek_triple o : stays seeking (lseek o) (λ _, seeking).
Proof.
  apply (triple_bind _ _ _ (λ _, seeking)); [intros h []; by split|]. intros k. destruct (seek_call k); [|by apply triple_ret].
  intros h []. by split.
Qed.

Lemma readsect_triple s : stays seeking (readsect s) (λ _, seeking).
Proof.
  apply (triple_bind _ _ _ (λ _, seeking)); [apply lseek_triple|]. intros ok.
  apply triple_if; intros _; [apply usage_triple, seeking_harmless|].
  apply (triple_bind _ _ _ (λ _, seeking)); [apply read_loop_triple|]. intros buf.
  apply triple_if; intros _; [by apply triple_ret|apply usage_triple, seeking_harmless].
Qed.

(** A result above 0 is a partition in use. *)
Definition found (r : Z) (h : host) : Prop := if 0 <? r then in_use h else seeking h.

Lemma use_partition_triple k start len :
  0 ≤ start → 0 < len < 2 ^ 32 → stays seeking (use_partition k start len) found.
Proof.
  intros Hst Hl. apply (triple_bind _ _ _ (λ _ h, seeking h ∧ UsingPartition k start len ∈ stderr h)).
  { intros h []. split; [by split|]. left. }
  intros _ h [[Hf Hfd Hc Hm] Hin]. unfold lseek, count_call, mbind, M_bind. destruct (seek_call (calls h)); cbn.
  - exists start, len. split; cbn; try done; try lia.
    + by exists k.
    + rewrite Nat2Z.inj_mul, Z2Nat.id by lia. change (Z.of_nat SECTORSIZE) with 512. lia.
    + rewrite Hf. done.
  - apply seeking_harmless. by split.
Qed.

Lemma field_range n buf i : 0 ≤ field n buf i < 256 ^ Z.of_nat n.
Proof.
  revert i. induction n as [|n IH]; intros i; cbn [field]; [simpl; lia|].
  rewrite Nat2Z.inj_succ, Z.pow_succ_r by lia. pose proof (IH (S i)).
  assert (0 ≤ byte_at buf i < 256) by (apply Z.mod_pos_bound; lia). lia.
Qed.

Lemma find_partition_triple n ps ext po :
  0 ≤ ps → 0 ≤ ext → stays seeking (find_partition n ps ext po) found.
Proof.
  revert ps ext po. induction n as [|n IH]; intros ps ext po Hps Hext; cbn [find_partition]; [apply triple_halt, seeking_harmless|].
  apply (triple_bind _ _ _ (λ _, seeking)); [apply readsect_triple|]. intros buf.
  apply triple_if; intros _; [by apply triple_ret|]. generalize (seq 0 4). intros l.
  induction l as [|i l IHl]; [by apply triple_ret|].
  pose proof (field_range 4 buf (PTABLE_OFFSET + 16 * i + 8)). pose proof (field_range 4 buf (PTABLE_OFFSET + 16 * i + 12)).
  change (256 ^ Z.of_nat 4) with (2 ^ 32) in *.
  apply triple_if; intros Hz; [exact IHl|]. apply triple_if; intros _.
  { apply Z.eqb_neq in Hz. cbn [ptable lba_start lba_length] in *. apply use_partition_triple; lia. }
  apply triple_if; intros _; [|exact IHl].
  apply (triple_bind _ _ _ found).
  - apply IH; cbn [ptable lba_start]; [lia|]. destruct (ext =? 0); lia.
  - intros r. unfold found at 1. destruct (0 <? r) eqn:Er; [|exact IHl]. apply triple_ret. intros h Hh. unfold found. by rewrite Er.
Qed.

(** The option [-p]: the partition is in use, or the program has ended. *)
Lemma disk_option_triple args :
  triple (λ h, files h = fs0 ∧ curoff h = 0 ∧ maxoff h = 0) (disk_option (str "-p" :: name :: args))
    (λ r h, r = (args, false) ∧ in_use h) harmless.
Proof.
  unfold disk_option. rewrite bool_decide_true by done.
  apply (triple_bind _ _ _ (λ _, seeking)).
  - apply (triple_bind _ _ _ (λ _ h, files h = fs0 ∧ curoff h = 0 ∧ maxoff h = 0)).
    + apply fopencheck_triple. intros h (Hf & _). by left.
    + intros _. apply triple_modify. intros h (? & ? & ?). by split.
  - intros _. apply (triple_bind _ _ _ found); [by apply find_partition_triple|]. intros r. unfold found.
    destruct (Z.ltb_spec 0 r), (Z.leb_spec r 0); try lia.
    + by apply triple_ret.
    + apply usage_triple, seeking_harmless.
Qed.
End partition.

(** C20: with [-p DISK], unless [-m] comes next, the program never damages the
    rest of the disk.  ([-p DISK -m FILE] goes on to add the multiboot header to
    FILE, which has nothing to do with DISK.)  However
    it ends, it has changed no file, or only bytes of DISK in the one partition
    it announced, whatever the files are and however the system splits,
    interrupts or refuses its reads and writes. *)
Theorem partition_confined `{Host} name args h :
  head args ≠ Some (str "-m") → curoff h = 0 → maxoff h = 0 →
  harmless name (files h) (final (main (str "-p" :: name :: args) h)).
Proof.
  intros Hm Hc Hl. apply (triple_final (λ h', files h' = files h ∧ curoff h' = 0 ∧ maxoff h' = 0)); [|done].
  unfold main. apply (triple_bind _ _ _ (λ r h', r = (args, false) ∧ in_use name (files h) h')); [apply disk_option_triple|].
  intros r h1 [-> Hu].
  assert (triple (in_use name (files h)) (multiboot_option args) (λ _, in_use name (files h)) (harmless name (files h))) as Hopt.
  { destruct args as [|a args]; [by apply triple_ret|]. unfold multiboot_option. rewrite bool_decide_false by (intros ->; done).
    by apply triple_ret. }
  revert h1 Hu. apply (triple_bind _ _ _ _ _ _ Hopt). intros _.
  destruct args as [|a args]; [apply usage_only, in_use_harmless|].
  apply (triple_bind _ _ _ (λ _, in_use name (files h))); [apply write_files_triple|]. intros n.
  apply (triple_bind _ _ _ (λ _, in_use name (files h))); [apply zero_sectors_triple|]. intros _.
  apply triple_ret, in_use_harmless.
Qed.

(** ** Nested partition tables *)

Section nested.
Context `{HostOk}.

Lemma read_step j n h :
  (∀ i, (i < j)%nat → read_call (calls h + i) = Interrupted) →
  read_loop (j + n) h = read_loop n (set_calls (calls h + j) h).
Proof.
  revert h. induction j as [|j IH]; intros h Hi.
  - rewrite Nat.add_0_r. by destruct h.
  - cbn [Nat.add read_loop]. erewrite bind_ok by reflexivity.
    pose proof (Hi 0%nat ltac:(lia)) as E. rewrite Nat.add_0_r in E. rewrite E, IH.
    + f_equal. unfold set_calls. cbn. f_equal. lia.
    + intros i Hij. cbn. rewrite <- (Hi (S i)) by lia. f_equal. lia.
Qed.

(** A sector of the disk; only the offset and the number of calls change. *)
Lemma sector_read s h :
  0 ≤ s < 2 ^ 32 → (Z.to_nat s * SECTORSIZE + SECTORSIZE ≤ length (fd_data h))%nat →
  ∃ h', readsect s h = Ok (take SECTORSIZE (drop (Z.to_nat s * SECTORSIZE) (fd_data h))) h' ∧ fd_data h' = fd_data h.
Proof.
  intros Hs Hl. unfold readsect. erewrite bind_ok by (unfold lseek; erewrite bind_ok by reflexivity;
    rewrite seek_progress; by erewrite bind_ok by reflexivity). cbn [negb]. unfold u32. rewrite Z.mod_small by lia.
  set (h1 := set_offset _ _). destruct (read_progress (calls h1)) as (j & Hj & Hi & w & Hw & Hww).
  replace retries with (j + S (retries - S j))%nat by lia.
  unfold mbind, M_bind. rewrite read_step by done. cbn [read_loop]. erewrite bind_ok by reflexivity.
  change (calls (set_calls (calls h1 + j) h1)) with (calls h1 + j)%nat. rewrite Hw, Nat.min_r by done.
  unfold read_bytes. cbn zeta. set (h2 := set_calls _ _).
  assert (fd_data h2 = fd_data h) as -> by done. change (offset h2) with (Z.to_nat s * SECTORSIZE)%nat.
  rewrite bool_decide_true by (rewrite length_take, length_drop; lia). eexists. split; [reflexivity|done].
Qed.

(** C35: a partition table whose first entry is an extended partition that
    starts at sector 0 sends [find_partition] back to the same table: the
    recursion never ends, however deep it is followed. *)
Theorem find_partition_loops n partoff h :
  let buf := take SECTORSIZE (fd_data h) in
  length buf = SECTORSIZE → byte_at buf 510 = PTABLE_MAGIC1 → byte_at buf 511 = PTABLE_MAGIC2 →
  is_extended (type (ptable buf 0)) = true → lba_start (ptable buf 0) = 0 → lba_length (ptable buf 0) ≠ 0 →
  ∃ h', find_partition n 0 0 partoff h = Halt Spinning h'.
Proof.
  intros buf. revert partoff h buf. induction n as [|n IH]; intros po h buf Hl H1 H2 Ht Hs Hne; [by exists h|].
  cbn [find_partition].
  destruct (sector_read 0 h) as (h1 & E & Hd); [lia|subst buf; rewrite length_take in Hl; change (Z.to_nat 0) with 0%nat; lia|].
  change (Z.to_nat 0 * SECTORSIZE)%nat with 0%nat in E. rewrite drop_0 in E. fold buf in E.
  erewrite bind_ok by exact E. change PTABLE_MAGIC_OFFSET with 510%nat. change (510 + 1)%nat with 511%nat.
  rewrite H1, H2, !Z.eqb_refl. cbn [negb orb seq].
  destruct (Z.eqb_spec (lba_length (ptable buf 0)) 0); [done|].
  destruct (Z.eqb_spec (type (ptable buf 0)) PTYPE_JOS_KERN) as [Ej|_]; [by rewrite Ej in Ht|]. rewrite Ht, Hs.
  change (0 + 0) with 0. change (if 0 =? 0 then 0 else 0) with 0.
  destruct (IH (if istrue po then po + 1 else 4) h1) as (h2 & E2); [by rewrite Hd..|].
  exists h2. by apply bind_halt.
Qed.
End nested.

(** ** Two disks

    A master boot record with one entry: the kernel's partition, one sector at
    sector 1; or an extended partition at sector 0. *)

Definition mbr (kind start len : Z) : list Z :=
  replicate PTABLE_OFFSET 7 ++ [0; 0; 0; 0; kind; 0; 0; 0] ++ le4 start ++ le4 len ++ replicate 48 0 ++ [0x55; 0xAA].

Definition disk_host (d : list Z) : host := MkHost {[str "disk" := d; str "kernel" := [1; 2; 3]]} [] Stdout 0 0 [] 0 0.

(** The kernel is written; the zeros that fill an image up to 1024 sectors do
    not fit, and the program stops there. *)
Lemma partition_confined_witness :
  let h := disk_host (mbr PTYPE_JOS_KERN 1 1 ++ replicate 1024 9) in
  let h' := final (@main slow_host [str "-p"; str "disk"; str "kernel"] h) in
  harmless (str "disk") (files h) h' ∧ stderr h' = [Usage; MoreThanPartition; UsingPartition 1 1 1] ∧
  (λ j, byte (contents (files h') (str "disk")) j) <$> [511; 512; 513; 514; 515; 1023; 1024]%nat = [0xAA; 1; 2; 3; 0; 0; 9].
Proof.
  split; [|split; vm_compute; reflexivity].
  apply (@partition_confined slow_host (str "disk") [str "kernel"]); [discriminate|reflexivity|reflexivity].
Defined.

Lemma find_partition_loops_witness :
  ∃ h', @find_partition slow_host 1000 0 0 0 (set_fd (File (str "disk")) 0 (disk_host (mbr PTYPE_DOS_EXTENDED 0 4))) = Halt Spinning h'.
Proof.
  apply (@find_partition_loops slow_host slow_host_ok); vm_compute; (reflexivity || discriminate).
Defined.
