(* ===== verification/User.v ===== *)
(** User code: the system call stubs of [src/process.h], the process library
    of [src/process.c], and what user code does to the world, as interaction
    trees. *)
From S2P Require Import Prelude X86 Machine CLib Printf.
From ITree Require Import ITree.
Open Scope Z_scope.

(** ** What user code does

    [int n] with the values that the stub puts into %rdi and %rsi, which gives
    the %rax it finds afterwards; loads and stores of the process's memory
    outside its own variables; text printed on the console from a cursor
    position, which gives the next position; and behaviour that C leaves
    undefined.  A program's own variables are the state of its loops. *)

Variant userE : Type → Type :=
  | Int (n : Z) (rdi rsi : option Z) : userE Z
  | Load (n : nat) (a : Z) : userE Z
  | Store (n : nat) (a v : Z) : userE ()
  | Print (cpos : Z) (cells : list (Z * Z)) : userE Z
  | Stray : userE void.

Abbreviation user := (itree userE).

#[global] Instance user_ret : MRet user := λ A a, Ret a.
#[global] Instance user_bind : MBind user := λ A B f t, ITree.bind t f.

(** ** System calls *)

Definition int_rax (n : Z) (rdi rsi : option Z) : user Z := ITree.trigger (Int n rdi rsi).
Definition int_ (n : Z) (rdi rsi : option Z) : user () := int_rax n rdi rsi;; mret ().

(** [int] and [pid_t] results are the low half of %rax. *)
Definition sys_getpid : user Z := result ← int_rax INT_SYS_GETPID None None; mret (s32 result).
Definition sys_yield : user () := int_ INT_SYS_YIELD None None.
Definition sys_page_alloc (addr : Z) : user Z :=
  result ← int_rax INT_SYS_PAGE_ALLOC (Some addr) None; mret (s32 result).
Definition sys_fork : user Z := result ← int_rax INT_SYS_FORK None None; mret (s32 result).
Definition sys_exit {A} : user A := int_ INT_SYS_EXIT None None;; ITree.spin.
Definition sys_panic {A} (msg : Z) : user A := int_ INT_SYS_PANIC (Some msg) None;; ITree.spin.
Definition sys_mapping (addr map : Z) : user () := int_ INT_SYS_MAPPING (Some map) (Some addr).
Definition sys_mem_tog (p : Z) : user () := int_ INT_SYS_MEM_TOG (Some (u32 p)) None.

Definition INT_SYS_BRK : Z := INT_SYS + 9.
Definition INT_SYS_SBRK : Z := INT_SYS + 10.
Definition sys_brk (addr : Z) : user Z := result ← int_rax INT_SYS_BRK (Some addr) None; mret (s32 result).
Definition sys_sbrk (increment : Z) : user Z := int_rax INT_SYS_SBRK (Some (u64 increment)) None.

(** ** Printing *)

Definition stray {A} : user A := v ← ITree.trigger Stray; match v : void with end.

Definition console_vprintf (cpos color : Z) (fmt : list Z) (args : list va) : user Z :=
  match printer_vprintf color fmt args with
  | None => stray
  | Some cells => ITree.trigger (Print cpos cells)
  end.

Definition app_colors : list Z := [0x0E; 0x0F; 0x0C; 0x0A; 0x09].

Definition app_color (colorid : Z) : Z :=
  if colorid <? 0 then 0x0700 else Z.shiftl (nth (Z.to_nat (colorid mod 5)) app_colors 0) 8.

Definition app_printf (colorid : Z) (fmt : list Z) (args : list va) : user () :=
  cpos ← ITree.trigger (Load 4 cursorpos);
  cpos ← console_vprintf (s32 cpos) (app_color colorid) fmt args;
  ITree.trigger (Store 4 cursorpos cpos);;
  cpos ← ITree.trigger (Load 4 cursorpos);
  if 23 <=? CROW (s32 cpos) then ITree.trigger (Store 4 cursorpos (CPOS 0 0)) else mret ().

(** ** panic and assert_fail *)

Definition sizeof_buf : Z := 160.

(** [buf], up to its NUL, after the message and the final newline are in it:
    [text] is what [vsnprintf] left of the message, at most 152 characters. *)
Definition panic_buffer (text : list Z) : list Z :=
  let buf := str "PANIC: " ++ text in
  let len := Z.of_nat (length buf) in
  if (0 <? len) && negb (nth (Z.to_nat (len - 1)) buf 0 =? 10)
  then take (Z.to_nat (len - (if len =? sizeof_buf - 1 then 1 else 0))) buf ++ [10]
  else buf.

(** A string ends at its first NUL. *)
Fixpoint c_string (l : list Z) : list Z :=
  match l with
  | [] => []
  | c :: l => if c =? 0 then [] else c :: c_string l
  end.

Definition panic {A} (fmt : list Z) (args : list va) : user A :=
  match printed (sizeof_buf - 7) fmt args with
  | None => stray
  | Some text =>
      console_vprintf (CPOS 23 0) 0xC000 (str "%s") [VStr (c_string (panic_buffer text))];; sys_panic 0
  end.

Definition assert_fail {A} (file : string) (line : Z) (msg : string) : user A :=
  console_vprintf (CPOS 23 0) 0xC000 (str "PANIC: %s:%d: assertion '%s' failed" ++ [10]) [VStr (str file); VInt line; VStr (str msg)];;
  sys_panic 0.

Definition assert_ (x : bool) (file : string) (line : Z) (msg : string) : user () :=
  if x then mret () else assert_fail file line msg.

(** The message in [buf] ends with a newline and fits, with its NUL. *)
Lemma panic_buffer_fits text :
  (length text ≤ 152)%nat →
  (length (panic_buffer text) ≤ 159)%nat ∧ last (panic_buffer text) = Some 10.
Proof.
  intros Hl. unfold panic_buffer. set (buf := str "PANIC: " ++ text).
  assert (length buf = 7 + length text)%nat as Hb by apply length_app.
  assert ((0 <? Z.of_nat (length buf)) = true) as -> by (apply Z.ltb_lt; lia). cbn [andb].
  destruct (Z.eqb_spec (nth (Z.to_nat (Z.of_nat (length buf) - 1)) buf 0) 10) as [E|E]; cbn [negb].
  - split; [lia|]. rewrite last_lookup. rewrite <- E. replace (Nat.pred (length buf)) with (Z.to_nat (Z.of_nat (length buf) - 1)) by lia.
    destruct (lookup_lt_is_Some_2 buf (Z.to_nat (Z.of_nat (length buf) - 1))) as [x Hx]; [lia|].
    by rewrite (nth_lookup_Some _ _ _ _ Hx), Hx.
  - split; [|by rewrite last_snoc]. rewrite length_app, length_take. cbn [length].
    change (sizeof_buf - 1) with 159. destruct (Z.eqb_spec (Z.of_nat (length buf)) 159); lia.
Qed.
