(* ===== verification/Programs.v ===== *)
(** The programs [src/p-allocator.c], [src/p-fork.c], [src/p-forkexit.c] and
    [src/p-test.c], and what they ask of the kernel. *)
From S2P Require Import Prelude X86 Machine CLib Printf User.
From ITree Require Import ITree Eq.Shallow.
From Paco Require Import paco.
Open Scope Z_scope.

(** The linker's symbol [end], and the stack pointer in [process_main]. *)
Class Program : Type := { end_symbol : Z; read_rsp : Z }.

(** ** Rounding, of [src/lib.h] *)

Definition ROUNDDOWN (a n : Z) : Z := u64 a - u64 a mod n.
Definition ROUNDUP (a n : Z) : Z := ROUNDDOWN (u64 (u64 (u64 a + u64 n) - 1)) (u64 n).

(** An iteration of a loop goes on or leaves it. *)
Abbreviation again := Datatypes.inl.
Abbreviation leave := Datatypes.inr.

(** [rand] and [srand] on the program's own generator. *)
Definition next_rand (s : rand_state) : Z * rand_state :=
  match rand s with Ok r s' => (r, s') | Halt _ s' => (0, s') end.
Definition seeded (p : Z) : rand_state := MkRand 1 (u32 p).
Definition unseeded : rand_state := MkRand 0 0.

Definition ALLOC_SLOWDOWN : Z := 100.

Definition yield_forever {A} : user A := ITree.iter (λ _ : (), sys_yield;; mret (again ())) ().

(** ** Growing the heap *)

Section programs.
Context `{Program}.

Definition heap_start : Z := ROUNDUP end_symbol PAGESIZE.
Definition stack_bottom : Z := ROUNDDOWN (u64 (read_rsp - 1)) PAGESIZE.

(** One more heap page: the new [heap_top], or [None] to leave the loop. *)
Definition grow_heap (p heap_top : Z) : user (option Z) :=
  if heap_top =? stack_bottom then mret None
  else
    r ← sys_page_alloc heap_top;
    if r <? 0 then mret None
    else ITree.trigger (Store 1 heap_top (u8 p));; mret (Some (u64 (heap_top + PAGESIZE))).

Definition allocate_step (p : Z) (st : Z * rand_state) : user (Z * rand_state + ()) :=
  let '(heap_top, rs) := st in
  let '(r, rs) := next_rand rs in
  next ← (if Z.rem r ALLOC_SLOWDOWN <? p then grow_heap p heap_top else mret (Some heap_top));
  match next with
  | None => mret (leave ())
  | Some heap_top => sys_yield;; mret (again (heap_top, rs))
  end.

Definition allocate (p : Z) : user () := ITree.iter (allocate_step p) (heap_start, seeded p).

Definition allocator_main {A} : user A :=
  p ← sys_getpid;
  allocate p;;
  yield_forever.

Definition test_main {A} : user A :=
  p ← sys_getpid;
  allocate p;;
  yield_forever.

Definition fork_main {A} : user A :=
  p1 ← sys_fork;
  assert_ (0 <=? p1) "p-fork.c" 13 "p1 >= 0";;
  p2 ← sys_fork;
  assert_ (0 <=? p2) "p-fork.c" 15 "p2 >= 0";;
  me ← sys_getpid;
  (if me =? 1 then
     assert_ (negb (p1 =? 0) && negb (p2 =? 0) && negb (p1 =? p2)) "p-fork.c" 19 "p1 != 0 && p2 != 0 && p1 != p2"
   else assert_ ((p1 =? 0) || (p2 =? 0)) "p-fork.c" 21 "p1 == 0 || p2 == 0");;
  p ← sys_getpid;
  allocate p;;
  yield_forever.

(** ** p-forkexit *)

Definition fork_until_child (rs : rand_state) : user (rand_state + ()) :=
  let '(r, rs) := next_rand rs in
  if Z.rem r ALLOC_SLOWDOWN =? 0 then
    f ← sys_fork; if f =? 0 then mret (leave ()) else mret (again rs)
  else sys_yield;; mret (again rs).

Definition message_cell : Z := console + 2 * CPOS 24 0.

Definition clear_message : user () :=
  c ← ITree.trigger (Load 2 message_cell);
  if istrue c then console_vprintf (CPOS 24 0) 0 [10] [];; mret () else mret ().

Definition forkexit_step (st : Z * Z * rand_state) : user (Z * Z * rand_state + rand_state) :=
  let '(p, heap_top, rs) := st in
  let '(r, rs) := next_rand rs in
  let x := Z.rem r (8 * ALLOC_SLOWDOWN) in
  if x <? s32 (8 * p) then
    next ← grow_heap p heap_top;
    match next with
    | None => mret (leave rs)
    | Some heap_top => clear_message;; mret (again (p, heap_top, rs))
    end
  else if x =? s32 (8 * p) then
    f ← sys_fork;
    if f =? 0 then p ← sys_getpid; mret (again (p, heap_top, rs)) else mret (again (p, heap_top, rs))
  else if x =? s32 (8 * p + 1) then sys_exit
  else sys_yield;; mret (again (p, heap_top, rs)).

Definition exit_step {A} (rs : rand_state) : user (rand_state + A) :=
  let '(r, rs) := next_rand rs in
  if Z.rem r (2 * ALLOC_SLOWDOWN) =? 0 then sys_exit else sys_yield;; mret (again rs).

Definition forkexit_main {A} : user A :=
  ITree.iter fork_until_child unseeded;;
  p ← sys_getpid;
  rs ← ITree.iter forkexit_step (p, heap_start, seeded p);
  ITree.iter exit_step rs.
End programs.

(** ** What a program may do

    [granted] are the heap pages the kernel has given the process.  A program
    may make the system calls [calls]; it may ask for a page of its heap, which
    the kernel then has granted unless the result is negative; it may read and
    write a byte of a granted page, and use the console. *)

Section safe.
Context `{Program} (calls : list Z).

Definition pages : Type := Z → Prop.

Definition heap_page (a : Z) : Prop := a mod PAGESIZE = 0 ∧ heap_start ≤ a < stack_bottom.

Definition request (n : Z) (rdi rsi : option Z) : Prop :=
  n ∈ calls ∧ rsi = None ∧
  if n =? INT_SYS_PAGE_ALLOC then ∃ a, rdi = Some a ∧ heap_page a
  else if n =? INT_SYS_PANIC then rdi = Some 0
  else rdi = None.

(** [n] bytes at [a] that a program may access. *)
Definition accessible (granted : pages) (n : nat) (a : Z) : Prop :=
  n = 1%nat ∧ granted (a - a mod PAGESIZE) ∨ CONSOLE_ADDR ≤ a ∧ a + Z.of_nat n ≤ CONSOLE_ADDR + PAGESIZE.

Definition grant (n : Z) (rdi : option Z) (rax : Z) (granted : pages) : pages :=
  if n =? INT_SYS_PAGE_ALLOC then λ a, granted a ∨ (0 ≤ s32 rax ∧ rdi = Some a) else granted.

(** One step of a program, whose further behaviour is [sim]; what it returns
    satisfies [Q]. *)
Definition safeF {R} (Q : pages → R → Prop) (sim : pages → user R → Prop) (granted : pages) (t : user R) : Prop :=
  match observe t with
  | RetF v => Q granted v
  | TauF t => sim granted t
  | VisF e k =>
      match e in userE X return (X → user R) → Prop with
      | Int n rdi rsi => λ k, request n rdi rsi ∧ ∀ rax, sim (grant n rdi rax granted) (k rax)
      | Load n a => λ k, accessible granted n a ∧ ∀ v, sim granted (k v)
      | Store n a v => λ k, accessible granted n a ∧ sim granted (k ())
      | Print cpos cells => λ k, ∀ cpos, sim granted (k cpos)
      | Stray => λ k, False
      end k
  end.

Lemma safeF_mono {R} (Q : pages → R → Prop) : monotone2 (safeF Q).
Proof.
  intros g t r r' Hs Hle. unfold safeF in *. destruct (observe t) as [v|t'|X e k]; [done|by apply Hle|].
  destruct e; naive_solver.
Qed.
End safe.
#[export] Hint Resolve safeF_mono : paco.

Definition safe_program `{Program} (calls : list Z) {R} (Q : pages → R → Prop) (granted : pages) (t : user R) : Prop :=
  paco2 (safeF calls Q) bot2 granted t.

(** A program that makes only some of the calls. *)
Lemma safe_weaken `{Program} calls calls' {R} (Q : pages → R → Prop) g (t : user R) :
  calls ⊆ calls' → safe_program calls Q g t → safe_program calls' Q g t.
Proof.
  intros Hs. revert g t. pcofix CIH. intros g t Ht. punfold Ht. pfold. unfold safeF in *.
  destruct (observe t) as [v|t'|X e k]; [done|right; apply CIH; by destruct Ht as [|[]]|].
  assert (∀ g (t : user R), upaco2 (safeF calls Q) bot2 g t → upaco2 (safeF calls' Q) r g t) as Hup
    by (intros g' t' [|[]]; right; by apply CIH).
  destruct e; [|naive_solver..]. destruct Ht as [(Hn & Hq) Hk]. split; [split; [by apply Hs|done]|]. intros rax. by apply Hup.
Qed.

(** ** The rules *)

Section rules.
Context `{Program} (calls : list Z).
Abbreviation safe_program := (safe_program calls).
Abbreviation safeF := (safeF calls).

Lemma safe_ret {R} (Q : pages → R → Prop) g v : Q g v → safe_program Q g (mret v).
Proof. intros HQ. pfold. exact HQ. Qed.

(** One step of the rest [k] of a program, once its first part has taken a step. *)
Lemma bind_step {R S} (Q : pages → R → Prop) (Q' : pages → S → Prop) sim sim' g t (k : R → user S) :
  safeF Q sim g t → (∀ g t, sim g t → sim' g (ITree.bind t k)) → (∀ g v, Q g v → safeF Q' sim' g (k v)) →
  safeF Q' sim' g (ITree.bind t k).
Proof.
  intros Ht Hs Hk. unfold safeF in *. rewrite observe_bind.
  destruct (observe t) as [v|t'|X e ke]; cbn; [by apply Hk|by apply Hs|]. destruct e; naive_solver.
Qed.

Lemma safe_bind {R S} (Q : pages → R → Prop) (Q' : pages → S → Prop) g t k :
  safe_program Q g t → (∀ g v, Q g v → safe_program Q' g (k v)) → safe_program Q' g (t ≫= k).
Proof.
  intros Ht Hk. revert g t Ht. pcofix CIH. intros g t Ht. punfold Ht. pfold.
  apply (bind_step Q Q' _ _ _ _ _ Ht).
  - intros g' t' [Ht'|[]]. right. by apply CIH.
  - intros g' v Hv. specialize (Hk g' v Hv). punfold Hk. eapply safeF_mono; [exact Hk|].
    intros g2 t2 [Ht2|[]]. left. eapply paco2_mon; [exact Ht2|done].
Qed.

(** Loops: [I] holds before every iteration. *)
Lemma safe_iter {I R} (J : pages → I → Prop) (Q : pages → R → Prop) (body : I → user (I + R)) g i :
  (∀ g i, J g i → safe_program (λ g r, match r with again i => J g i | leave v => Q g v end) g (body i)) →
  J g i → safe_program Q g (ITree.iter body i).
Proof.
  intros Hb Hi.
  set (rest := λ r : I + R, match r with again i => Tau (ITree.iter body i) | leave v => Ret v end).
  set (Qb := λ g (r : I + R), match r with again i => J g i | leave v => Q g v end).
  assert (∀ g t, (∃ i, t = ITree.iter body i ∧ J g i) ∨ (∃ t', t = ITree.bind t' rest ∧ safe_program Qb g t') → safe_program Q g t) as Hall;
    [|apply Hall; left; by exists i].
  pcofix CIH. intros g' t Ht. pfold.
  assert (∀ t', safe_program Qb g' t' → safeF Q (upaco2 (safeF Q) r) g' (ITree.bind t' rest)) as Hstep.
  { intros t' Ht'. punfold Ht'. apply (bind_step Qb Q _ _ _ _ _ Ht').
    - intros g2 t2 [Ht2|[]]. right. apply CIH. right. by exists t2.
    - intros g2 [j|v] Hv; [|exact Hv]. right. apply CIH. left. by exists j. }
  destruct Ht as [(j & -> & Hj)|(t' & -> & Ht')]; [|by apply Hstep].
  unfold safeF. change (observe (ITree.iter body j)) with (observe (ITree.bind (body j) rest)). apply Hstep. by apply Hb.
Qed.

Lemma safe_spin {R} (Q : pages → R → Prop) g : safe_program Q g ITree.spin.
Proof. pcofix CIH. pfold. right. exact CIH. Qed.

Lemma safe_int {R} (Q : pages → R → Prop) n rdi rsi g k :
  request calls n rdi rsi → (∀ rax, safe_program Q (grant n rdi rax g) (k rax)) → safe_program Q g (int_rax n rdi rsi ≫= k).
Proof.
  intros Hr Hk. apply (safe_bind (λ g' rax, g' = grant n rdi rax g)).
  - pfold. split; [done|]. intros rax. left. by apply safe_ret.
  - by intros g' rax ->.
Qed.

Lemma safe_call {R} (Q : pages → R → Prop) n rdi rsi g k :
  request calls n rdi rsi → n ≠ INT_SYS_PAGE_ALLOC → safe_program Q g (k ()) → safe_program Q g (int_ n rdi rsi ≫= k).
Proof.
  intros Hr Hn Hk. apply (safe_bind (λ g' _, g' = g)); [|by intros g' [] ->].
  apply safe_int; [done|]. intros rax. apply safe_ret. unfold grant. by destruct (Z.eqb_spec n INT_SYS_PAGE_ALLOC).
Qed.

Lemma safe_yield {R} (Q : pages → R → Prop) g k : INT_SYS_YIELD ∈ calls → safe_program Q g (k ()) → safe_program Q g (sys_yield ≫= k).
Proof. intros Hc. by apply safe_call. Qed.

Lemma safe_getpid {R} (Q : pages → R → Prop) g k : INT_SYS_GETPID ∈ calls → (∀ p, safe_program Q g (k p)) → safe_program Q g (sys_getpid ≫= k).
Proof.
  intros Hc Hk. apply (safe_bind (λ g' _, g' = g)); [|by intros g' p ->].
  apply safe_int; [done|]. intros rax. by apply safe_ret.
Qed.

Lemma safe_fork {R} (Q : pages → R → Prop) g k : INT_SYS_FORK ∈ calls → (∀ p, safe_program Q g (k p)) → safe_program Q g (sys_fork ≫= k).
Proof.
  intros Hc Hk. apply (safe_bind (λ g' _, g' = g)); [|by intros g' p ->].
  apply safe_int; [done|]. intros rax. by apply safe_ret.
Qed.

Lemma safe_exit {R} (Q : pages → R → Prop) g : INT_SYS_EXIT ∈ calls → safe_program Q g sys_exit.
Proof. intros Hc. apply safe_call; [done|done|apply safe_spin]. Qed.

Lemma safe_panic {R} (Q : pages → R → Prop) g : INT_SYS_PANIC ∈ calls → safe_program Q g (sys_panic 0).
Proof. intros Hc. apply safe_call; [done|done|apply safe_spin]. Qed.

Lemma safe_printf {R} (Q : pages → R → Prop) cpos color fmt args g k :
  is_Some (printer_vprintf color fmt args) → (∀ c, safe_program Q g (k c)) →
  safe_program Q g (console_vprintf cpos color fmt args ≫= k).
Proof.
  intros [cells E] Hk. unfold console_vprintf. rewrite E. apply (safe_bind (λ g' _, g' = g)); [|by intros g' c ->].
  pfold. intros c. left. by apply safe_ret.
Qed.

Lemma safe_load {R} (Q : pages → R → Prop) n a g k :
  accessible g n a → (∀ v, safe_program Q g (k v)) → safe_program Q g (ITree.trigger (Load n a) ≫= k).
Proof.
  intros Ha Hk. apply (safe_bind (λ g' _, g' = g)); [|by intros g' v ->].
  pfold. split; [done|]. intros v. left. by apply safe_ret.
Qed.

Lemma safe_store {R} (Q : pages → R → Prop) n a v (g : pages) k :
  accessible g n a → safe_program Q g (k ()) → safe_program Q g (ITree.trigger (Store n a v) ≫= k).
Proof.
  intros Ha Hk. apply (safe_bind (λ g' _, g' = g)); [|by intros g' [] ->].
  pfold. split; [done|]. left. by apply safe_ret.
Qed.

Lemma safe_assert {R} (Q : pages → R → Prop) x file line msg g k :
  INT_SYS_PANIC ∈ calls →
  is_Some (printer_vprintf 0xC000 (str "PANIC: %s:%d: assertion '%s' failed" ++ [10]) [VStr (str file); VInt line; VStr (str msg)]) →
  safe_program Q g (k ()) → safe_program Q g (assert_ x file line msg ≫= k).
Proof.
  intros Hc Hd Hk. apply (safe_bind (λ g' _, g' = g)); [|by intros g' [] ->]. unfold assert_. destruct x; [by apply safe_ret|].
  apply safe_printf; [done|]. intros c. by apply safe_panic.
Qed.

Lemma safe_page_alloc {R} (Q : pages → R → Prop) a g k :
  INT_SYS_PAGE_ALLOC ∈ calls → heap_page a → (∀ r (g' : pages), (0 ≤ r → g' a) → safe_program Q g' (k r)) → safe_program Q g (sys_page_alloc a ≫= k).
Proof.
  intros Hc Ha Hk. apply (safe_bind (λ g' r, 0 ≤ r → g' a)); [|by intros g' r Hr; apply Hk].
  apply safe_int; [by split; [|split; [|exists a]]|]. intros rax. apply safe_ret. intros Hr. by right.
Qed.
End rules.

(** ** The programs *)

(** A program linked and started as the kernel does it: it ends below its
    stack page, and the stack is in the address space. *)
Class ProgramOk `{Program} : Prop := {
  program_start : PROC_START_ADDR ≤ end_symbol ≤ MEMSIZE_VIRTUAL;
  program_stack : 0 < read_rsp ≤ MEMSIZE_VIRTUAL;
  program_room : heap_start ≤ stack_bottom }.

(** The calls of every program, and of each. *)
Definition quiet_calls : list Z := [INT_SYS_GETPID; INT_SYS_YIELD; INT_SYS_PAGE_ALLOC].
Definition fork_calls : list Z := quiet_calls ++ [INT_SYS_FORK; INT_SYS_PANIC].
Definition forkexit_calls : list Z := quiet_calls ++ [INT_SYS_FORK; INT_SYS_EXIT].

Section programs_safe.
Context `{ProgramOk}.

Lemma heap_bounds :
  heap_start mod 4096 = 0 ∧ stack_bottom mod 4096 = 0 ∧ PROC_START_ADDR ≤ heap_start ∧ stack_bottom < MEMSIZE_VIRTUAL.
Proof.
  pose proof program_start as He. pose proof program_stack as Hs.
  change MEMSIZE_VIRTUAL with 0x300000 in *. change PROC_START_ADDR with 0x100000 in *.
  unfold heap_start, stack_bottom, ROUNDUP, ROUNDDOWN. change PAGESIZE with 4096. change (u64 4096) with 4096.
  rewrite (u64_small end_symbol), !(u64_small (read_rsp - 1)), !(u64_small (end_symbol + 4096)), !(u64_small (end_symbol + 4096 - 1)),
    ?(u64_small (end_symbol + 4096 - 1)) by lia.
  assert (∀ x, (x - x mod 4096) mod 4096 = 0) as Hal.
  { intros x. pose proof (Z.div_mod x 4096). replace (x - x mod 4096) with (x / 4096 * 4096) by lia. by apply Z.mod_mul. }
  split; [apply Hal|]. split; [apply Hal|].
  pose proof (Z.mod_pos_bound (end_symbol + 4096 - 1) 4096). pose proof (Z.mod_pos_bound (read_rsp - 1) 4096). lia.
Qed.

Definition heap_ok (h : Z) : Prop := h mod 4096 = 0 ∧ heap_start ≤ h ≤ stack_bottom.

Section heap.
Context (calls : list Z) (Hcalls : quiet_calls ⊆ calls).
Abbreviation safe_program := (safe_program calls).

#[local] Hint Extern 2 (_ ∈ calls) => apply Hcalls, (bool_decide_unpack _); vm_compute; exact I : core.

Lemma safe_grow_heap p h g :
  heap_ok h → safe_program (λ _ next, ∀ h', next = Some h' → heap_ok h') g (grow_heap p h).
Proof.
  intros [Hal Hh]. destruct heap_bounds as (_ & Hb & Hs & He). change MEMSIZE_VIRTUAL with 0x300000 in He. change PROC_START_ADDR with 0x100000 in Hs.
  unfold grow_heap. destruct (Z.eqb_spec h stack_bottom) as [|Hne]; [by apply safe_ret|].
  apply safe_page_alloc; [auto|split; [done|lia]|]. intros r g' Hg.
  destruct (Z.ltb_spec r 0); [by apply safe_ret|].
  apply safe_store; [left; split; [done|]; change PAGESIZE with 4096; rewrite Hal, Z.sub_0_r; by apply Hg|].
  apply safe_ret. intros h' [= <-]. change PAGESIZE with 4096. rewrite u64_small by lia.
  pose proof (Z.div_mod h 4096). pose proof (Z.div_mod stack_bottom 4096). split; [|lia].
  replace (h + 4096) with ((h / 4096 + 1) * 4096) by lia. by apply Z.mod_mul.
Qed.

Lemma safe_allocate p g : safe_program (λ _ _, True) g (allocate p).
Proof.
  apply (safe_iter _ (λ _ st, heap_ok st.1)).
  - intros g' [h rs] Hh. unfold allocate_step. destruct (next_rand rs) as [r rs'].
    apply (safe_bind _ (λ _ next, ∀ h', next = Some h' → heap_ok h')).
    + destruct (Z.rem r ALLOC_SLOWDOWN <? p); [by apply safe_grow_heap|]. apply safe_ret. by intros h' [= <-].
    + intros g2 [h'|] Hn; [|by apply safe_ret]. apply safe_yield; [auto|]. apply safe_ret. by apply Hn.
  - destruct heap_bounds as (? & _). split; [done|]. pose proof program_room. cbn. lia.
Qed.

Lemma safe_yield_forever {R} (Q : pages → R → Prop) g : safe_program Q g yield_forever.
Proof. apply (safe_iter _ (λ _ _, True)); [|done]. intros g' [] _. apply safe_yield; [auto|]. by apply safe_ret. Qed.

Lemma safe_rest {R} (Q : pages → R → Prop) g : safe_program Q g (p ← sys_getpid; allocate p;; yield_forever).
Proof.
  apply safe_getpid; [auto|]. intros p. apply (safe_bind _ (λ _ _, True)); [apply safe_allocate|]. intros g' [] _. apply safe_yield_forever.
Qed.
End heap.

Ltac printable := eexists; vm_compute; reflexivity.
Ltac listed := apply (bool_decide_unpack _); vm_compute; exact I.

Lemma quiet_fork : quiet_calls ⊆ fork_calls.
Proof. by apply list_subseteq_app_l. Qed.

Lemma quiet_forkexit : quiet_calls ⊆ forkexit_calls.
Proof. by apply list_subseteq_app_l. Qed.

Lemma safe_fork_main {R} (Q : pages → R → Prop) g : safe_program fork_calls Q g fork_main.
Proof.
  apply safe_fork; [listed|]. intros p1. apply safe_assert; [listed|printable|].
  apply safe_fork; [listed|]. intros p2. apply safe_assert; [listed|printable|].
  apply safe_getpid; [listed|]. intros me.
  destruct (me =? 1); (apply safe_assert; [listed|printable|]); apply safe_rest, quiet_fork.
Qed.

Lemma message_accessible g : accessible g 2 message_cell.
Proof. right. split; vm_compute; discriminate. Qed.

Lemma safe_forkexit_step g st :
  heap_ok st.1.2 → safe_program forkexit_calls (λ _ r, match r with again st => heap_ok st.1.2 | leave _ => True end) g (forkexit_step st).
Proof.
  destruct st as [[p h] rs]. intros Hh. unfold forkexit_step. destruct (next_rand rs) as [r rs']. cbv zeta.
  destruct (_ <? _).
  - apply (safe_bind _ (λ _ next, ∀ h', next = Some h' → heap_ok h')); [by apply safe_grow_heap, Hh; apply quiet_forkexit|].
    intros g2 [h'|] Hn; [|by apply safe_ret].
    apply (safe_bind _ (λ _ _, True)); [|intros; by apply safe_ret, Hn].
    apply safe_load; [apply message_accessible|]. intros c. destruct (istrue c); [|by apply safe_ret].
    apply safe_printf; [printable|]. intros; by apply safe_ret.
  - destruct (_ =? _).
    + apply safe_fork; [listed|]. intros f. destruct (f =? 0); [apply safe_getpid; [listed|]; intros|]; by apply safe_ret.
    + destruct (_ =? _); [apply safe_exit; listed|]. apply safe_yield; [listed|]. by apply safe_ret.
Qed.

Lemma safe_forkexit_main {R} (Q : pages → R → Prop) g : safe_program forkexit_calls Q g forkexit_main.
Proof.
  apply (safe_bind _ (λ _ _, True)).
  - apply (safe_iter _ (λ _ _, True)); [|done]. intros g' rs _. unfold fork_until_child. destruct (next_rand rs) as [r rs'].
    destruct (_ =? 0); [|apply safe_yield; [listed|]; by apply safe_ret].
    apply safe_fork; [listed|]. intros f. destruct (f =? 0); by apply safe_ret.
  - intros g' [] _. apply safe_getpid; [listed|]. intros p. apply (safe_bind _ (λ _ _, True)).
    + apply (safe_iter _ (λ _ st, heap_ok st.1.2)); [intros; by apply safe_forkexit_step|].
      destruct heap_bounds as (? & _). split; [done|]. pose proof program_room. cbn. lia.
    + intros g2 rs _. apply (safe_iter _ (λ _ _, True)); [|done]. intros g3 rs' _. unfold exit_step.
      destruct (next_rand rs') as [r rs2]. destruct (_ =? 0); [apply safe_exit; listed|].
      apply safe_yield; [listed|]. by apply safe_ret.
Qed.

(** The programs, and the calls each may make. *)
Definition programs_calls {R} : list (user R * list Z) :=
  [(allocator_main, quiet_calls); (test_main, quiet_calls); (fork_main, fork_calls); (forkexit_main, forkexit_calls)].

Lemma programs_safe_run {R} main calls :
  (main, calls) ∈ programs_calls → safe_program calls (R := R) (λ _ _, False) (λ _, False) main.
Proof.
  unfold programs_calls. rewrite !elem_of_cons, elem_of_nil. intros [[= -> ->]|[[= -> ->]|[[= -> ->]|[[= -> ->]|[]]]]];
    [by apply safe_rest|by apply safe_rest|apply safe_fork_main|apply safe_forkexit_main].
Qed.

(** C18: whatever the kernel answers, the four programs of the repository never
    return and never run into undefined behaviour in their output; p-allocator
    and p-test ask for their number, yield and allocate, p-fork also forks and
    reports failed assertions, p-forkexit also forks and exits, and they make
    no other call; they ask only for page-aligned addresses between the end of
    their data and their stack, and read and write only heap pages they have
    been granted and the console. *)
Theorem programs_safe {R} main calls :
  (main, calls) ∈ programs_calls → safe_program calls (R := R) (λ _ _, False) (λ _, False) main.
Proof. apply programs_safe_run. Qed.
End programs_safe.

(** ** What a program comes to *)

(** [t] comes to [u], with some answers to its events. *)
Inductive reaches {R} (t : user R) : user R → Prop :=
  | reaches_here : reaches t t
  | reaches_tau t' u : observe t = TauF t' → reaches t' u → reaches t u
  | reaches_event {X} (e : userE X) k x u : observe t = VisF e k → reaches (k x) u → reaches t u.

Lemma safe_reaches `{Program} calls {R} (Q : pages → R → Prop) g (t u : user R) :
  safe_program calls Q g t → reaches t u → ∃ g', safe_program calls Q g' u.
Proof.
  intros Hs Hr. revert g Hs. induction Hr as [t|t t' u E Hr IH|t X e k x u E Hr IH]; intros g Hs; [by exists g| |];
    punfold Hs; unfold safeF in Hs; rewrite E in Hs.
  - destruct Hs as [Hs|[]]. by apply (IH g).
  - destruct e.
    + destruct Hs as [_ Hs]. destruct (Hs x) as [Hs'|[]]. by eapply IH.
    + destruct Hs as [_ Hs]. destruct (Hs x) as [Hs'|[]]. by eapply IH.
    + destruct Hs as (_ & [Hs'|[]]). destruct x. by eapply IH.
    + destruct (Hs x) as [Hs'|[]]. by eapply IH.
    + done.
Qed.

(** The next system call of a safe program is a request. *)
Lemma safe_request `{Program} calls {R} (Q : pages → R → Prop) g (t : user R) n rdi rsi k :
  safe_program calls Q g t → observe t = VisF (Int n rdi rsi) k → request calls n rdi rsi.
Proof. intros Hs E. punfold Hs. unfold safeF in Hs. rewrite E in Hs. apply Hs. Qed.

(** ** p-allocator, as [src/obj] has it *)

Definition allocator_program : Program := {| end_symbol := 0x101018; read_rsp := 0x2FFFF0 |}.

Lemma allocator_program_ok : @ProgramOk allocator_program.
Proof. split; [split; vm_compute; discriminate|split; [reflexivity|vm_compute; discriminate]|vm_compute; discriminate]. Qed.

Lemma programs_safe_witness : @safe_program allocator_program quiet_calls void (λ _ _, False) (λ _, False) (@allocator_main allocator_program void).
Proof. apply (@programs_safe allocator_program allocator_program_ok void). by left. Defined.
