(* ===== verification/Loader.v ===== *)
(** The program loader of [src/k-loader.c], on the ELF images linked into the
    kernel ([src/elf.h]). *)
From S2P Require Import Prelude X86 Machine CLib Printf Hardware PageTable Frames Syscalls Mmu ElfFormat.
Open Scope Z_scope.

(** ** Copies through the active page table

    The loader copies a segment, and then protects its pages, while the
    process's page table is the active one. *)

Fixpoint vmemcpy_loop (n : nat) (d s : Z) : M machine () :=
  match n with
  | O => mret ()
  | S n => c ← vread 1 s; vwrite 1 d c;; vmemcpy_loop n (d + 1) (s + 1)
  end.

Fixpoint vmemset_loop (n : nat) (p c : Z) : M machine () :=
  match n with
  | O => mret ()
  | S n => vwrite 1 p c;; vmemset_loop n (p + 1) c
  end.

(** ** ELF images *)

(** The fields the loader uses, at their offsets in [elf_program]. *)
Definition read_elf_program (ph : Z) : M machine elf_program :=
  ptype ← read 4 ph; flags ← read 4 (ph + 4); offset ← read 8 (ph + 8); va ← read 8 (ph + 0x10);
  filesz ← read 8 (ph + 0x20); memsz ← read 8 (ph + 0x28);
  mret (MkPh ptype flags offset va filesz memsz).

(** [ramimages]: where the linker put the programs. *)
Class Images : Type := ramimages : list Z.

(** ** program_load_segment *)

(** One page of the segment; [false] is the failure return. *)
Definition load_page `{Devices} (pid pagetable addr : Z) : M kstate bool :=
  p_addr ← alloc_page_process pid;
  r ← (if p_addr =? NULL then mret (-1)
       else on_machine (virtual_memory_map pagetable addr p_addr PAGESIZE PTE_PWU));
  if r <? 0 then
    on_machine (console_printf (CPOS 22 0) 0xC000
      (str "program_load_segment(pid %d): can't assign address %p" ++ [10]) [VInt pid; VInt addr]);;
    mret false
  else mret true.

(** [for (addr = va; addr < end_mem; addr += PAGESIZE)]: the pages run out
    after at most [NPAGES] iterations. *)
Fixpoint load_pages `{Devices} (n : nat) (pid pagetable addr end_mem : Z) : M kstate bool :=
  match n with
  | O => halt Spinning
  | S n =>
      if addr <? end_mem then
        ok ← load_page pid pagetable addr;
        if ok : bool then load_pages n pid pagetable (u64 (addr + PAGESIZE)) end_mem else mret false
      else mret true
  end.

(** One page of the loop that takes [PTE_W] away.  It runs before the kernel's
    page table is restored: the addresses of the page-table pages are those of
    physical memory, but the table of the process translates them. *)
Definition protect_page `{Devices} (flags pagetable addr : Z) : M machine () :=
  if has flags ELF_PFLAG_WRITE then mret ()
  else
    vam ← virtual_memory_lookup (acc := through_cr3) pagetable addr;
    virtual_memory_map (acc := through_cr3) pagetable addr (pa vam) PAGESIZE PTE_PU;; mret ().

Fixpoint protect_pages `{Devices} (n : nat) (flags pagetable addr end_mem : Z) : M machine () :=
  match n with
  | O => halt Spinning
  | S n =>
      if addr <? end_mem then
        protect_page flags pagetable addr;; protect_pages n flags pagetable (u64 (addr + PAGESIZE)) end_mem
      else mret ()
  end.

Definition page_fuel : nat := Z.to_nat (NPAGES + 1).

Definition program_load_segment `{Devices} `{Layout} (pid : Z) (ph : elf_program) (src : Z) : M kstate Z :=
  p ← gets (λ s, process s pid);
  let end_file := u64 (p_va ph + p_filesz ph) in
  let end_mem := u64 (p_va ph + p_memsz ph) in
  let va := Z.land (p_va ph) (u64 (Z.lnot (PAGESIZE - 1))) in
  ok ← load_pages page_fuel (p_pid p) (p_pagetable p) va end_mem;
  if negb ok then mret (-1) else
  on_machine (set_pagetable (p_pagetable p));;
  on_machine (vmemcpy_loop (Z.to_nat (u64 (end_file - va))) va src);;
  on_machine (vmemset_loop (Z.to_nat (u64 (end_mem - end_file))) end_file 0);;
  on_machine (protect_pages page_fuel (p_flags ph) (p_pagetable p) va end_mem);;
  kpt ← gets (λ s, kernel_pagetable (mach s));
  on_machine (set_pagetable (acc := through_cr3) kpt);;
  mret 0.

(** ** program_load *)

(** The loop over the program headers, which reads [e_phnum], a 16-bit field,
    before each iteration; [false] is the failure return. *)
Fixpoint load_segments `{Devices} `{Layout} (n : nat) (i pid eh ph : Z) : M kstate bool :=
  match n with
  | O => halt Spinning
  | S n =>
      phnum ← on_machine (read 2 (eh + 0x38));
      if negb (i <? phnum) then mret true else
      hdr ← on_machine (read_elf_program (ph + 56 * i));
      r ← (if p_type hdr =? ELF_PTYPE_LOAD then program_load_segment pid hdr (u64 (eh + p_offset hdr))
           else mret 0);
      if r <? 0 then mret false else load_segments n (i + 1) pid eh ph
  end.

Definition phnum_fuel : nat := Z.to_nat 65536.

Definition program_load `{Devices} `{Layout} `{Images} (pid programnumber : Z) : M kstate Z :=
  on_machine (assert_ ((0 <=? programnumber) && (programnumber <? Z.of_nat (length ramimages)))
    "k-loader.c" 55 "programnumber >= 0 && programnumber < nprograms");;
  let eh := nth (Z.to_nat programnumber) ramimages 0 in
  magic ← on_machine (read 4 eh);
  on_machine (assert_ (magic =? ELF_MAGIC) "k-loader.c" 57 "eh->e_magic == ELF_MAGIC");;
  phoff ← on_machine (read 8 (eh + 0x20));
  ok ← load_segments phnum_fuel 0 pid eh (u64 (eh + phoff));
  if negb ok then mret (-1) else
  entry ← on_machine (read 8 (eh + 0x18));
  put_process pid (λ p, with_registers (set_rip entry (p_registers p)) p);;
  mret 0.
