(* ===== verification/Through.v ===== *)
(** The page-table code of [src/vm.c] under the page table of a process, as the
    loader of [src/k-loader.c] and the entry of [exception] in [src/kernel.c] run it: as long as the tables it walks lie in
    the memory that the active table maps to itself, it does what it does under
    the kernel's table; elsewhere it faults. *)
From S2P Require Import Prelude X86 Machine CLib Printf Hardware PageTable Frames Syscalls Isolation Demo Duplicate Fork ForkSafe Exit PageAlloc Canonical Mmu Contracts Mapping AddressSpace Display ElfFormat Loader.
Open Scope Z_scope.

(** The pages of a table lie below the process's own memory. *)
Definition low_tables (sh : pt_shape) : Prop := Forall (λ q, q < 0x100000) (pt_pages sh).

#[global] Instance low_tables_dec sh : Decision (low_tables sh).
Proof. unfold low_tables. apply _. Defined.

(** The active page table is that of the space [sh], which maps the memory
    below [PROC_START_ADDR] to itself, writable for the kernel. *)
Record low_active (s : machine) (sh : pt_shape) : Prop := {
  la_cr3 : cr3 s = L1 sh;
  la_shape : shape_ok (mem s) sh;
  la_entries : ∀ w, 0 ≤ w < 256 → kernel_entry (leaf (mem s) sh w) w }.

Lemma kernel_entry_pw e w : kernel_entry e w → Z.land e PTE_P = PTE_P ∧ Z.land e PTE_PW = PTE_PW.
Proof.
  intros (_ & HP & HW & _). pose proof (pw_test e HP HW) as E. apply andb_prop in E as [_ E].
  apply Z.eqb_eq in E. split; [|done]. change PTE_P with (Z.land PTE_PW PTE_P). by rewrite Z.land_assoc, E.
Qed.

Section through.
Context `{Devices} (s : machine) (act : pt_shape) (Hact : low_active s act).
Context (sh : pt_shape) (Hsh : shape_ok (mem s) sh) (Hlow : low_tables sh).

(** ** Accesses below [PROC_START_ADDR] *)

Lemma translate_low a need :
  access need → (need = PTE_P ∨ need = PTE_PW) → 0 ≤ a < 0x100000 → translate a need s = Some a.
Proof.
  intros Hn Hneed Ha. assert (0 ≤ a / 4096 < 256) as Hv by (split; [apply Z.div_pos|apply Z.div_lt_upper_bound]; lia).
  pose proof (la_entries _ _ Hact _ Hv) as He. destruct (kernel_entry_pw _ _ He) as [E1 E2].
  rewrite (translate_any s act); [|apply Hact|done|apply Hact].
  unfold canonical. rewrite (proj2 (Z.ltb_lt a (2 ^ 47))), low48_small by lia.
  rewrite bool_decide_eq_true_2 by lia. cbn [orb andb].
  assert ((Z.land (leaf (mem s) act (a / 4096)) need =? need) = true) as -> by (apply Z.eqb_eq; destruct Hneed; by subst).
  rewrite (proj1 He), PAGEOFFSET_mod. pose proof (Z.div_mod a 4096). f_equal. lia.
Qed.

Lemma vread_low n a : (0 < n)%nat → 0 ≤ a → a + Z.of_nat n ≤ 0x100000 → vread n a s = Ok (load n (mem s) a) s.
Proof.
  intros Hn Ha Hb. unfold vread. rewrite translate_low; [by rewrite read_ok by lia| |by left|lia].
  unfold access. apply elem_of_cons. by left.
Qed.

Lemma vwrite_low n a v :
  (0 < n)%nat → 0 ≤ a → a + Z.of_nat n ≤ 0x100000 → vwrite n a v s = Ok () (set_mem (store n (mem s) a v) s).
Proof.
  intros Hn Ha Hb. unfold vwrite. rewrite translate_low; [by rewrite write_ok by lia| |by right|lia].
  unfold access. rewrite !elem_of_cons. by right; left.
Qed.

(** ** Walking low tables *)

(** The tables a walk of an address below four megabytes comes through. *)
Definition on_path (i pt : Z) : Prop :=
  (i = 0 ∧ pt = L1 sh) ∨ (i = 1 ∧ pt = L2 sh) ∨ (i = 2 ∧ pt = L3 sh) ∨ (i = 3 ∧ ∃ j, pt = l4_of sh j).

Lemma path_table i pt : on_path i pt → table_page pt ∧ pt < 0x100000.
Proof.
  intros Hp. assert (pt ∈ pt_pages sh) as Hin.
  { unfold pt_pages, on_path, l4_of in *. destruct Hp as [[_ ->]|[[_ ->]|[[_ ->]|[_ [j ->]]]]]; [| | |case_match]; rewrite !elem_of_cons; tauto. }
  split; [by apply (shape_page (mem s) sh)|]. by apply (proj1 (Forall_forall _ _) Hlow).
Qed.

Lemma path_next i pt va :
  0 ≤ va < 0x400000 → 0 ≤ i ≤ 2 → on_path i pt →
  ∃ q, on_path (i + 1) q ∧ link (mem s) (pt + 8 * pageindex_bits va i) q.
Proof.
  intros Hva Hi Hp. destruct (index_small va Hva) as (I0 & I1 & I2 & _). unfold on_path.
  destruct Hp as [[-> ->]|[[-> ->]|[[-> ->]|[-> _]]]]; [| | |lia].
  - exists (L2 sh). rewrite I0, Z.mul_0_r, Z.add_0_r. split; [by right; left|apply Hsh].
  - exists (L3 sh). rewrite I1, Z.mul_0_r, Z.add_0_r. split; [by right; right; left|apply Hsh].
  - exists (l4_of sh (va / 4096 / 512)). split; [right; right; right; split; [done|by eexists]|].
    apply (shape_levels s sh va Hsh Hva).
Qed.

Lemma entry_through pt va i :
  0 ≤ i ≤ 3 → on_path i pt → entry_at (acc := through_cr3) pt va i s = Ok (pte (mem s) pt va i) s.
Proof.
  intros Hi Hp. destruct (path_table i pt Hp) as [(? & Hal & ?) ?]. unfold entry_at.
  erewrite bind_ok by (by apply pageindex_ok). pose proof (pageindex_range va i Hi). cbn [read_entry through_cr3].
  apply vread_low; [lia|lia|]. change (Z.of_nat 8) with 8. change 0x100000 with (256 * 4096) in *.
  pose proof (Z.div_mod pt 4096). lia.
Qed.

Lemma lookup_loop_through n i pt pe va :
  0 ≤ va < 0x400000 → 0 ≤ i → (i ≤ 3 → has pe PTE_P = true → on_path i pt) →
  lookup_loop (acc := through_cr3) n i pt pe va s = lookup_loop n i pt pe va s.
Proof.
  intros Hva. revert i pt pe. induction n as [|n IH]; intros i pt pe Hi Hp; [done|]. cbn [lookup_loop].
  destruct (Z.leb_spec i 3) as [Hi3|]; [|done]. destruct (has pe PTE_P) eqn:HP; [|done]. specialize (Hp Hi3 eq_refl).
  destruct (path_table i pt Hp) as [Ht _]. cbn [andb].
  erewrite bind_ok by (apply entry_through; [lia|done]). erewrite bind_ok by (apply entry_at_ok; [lia|done]).
  apply IH; [lia|]. intros Hi' _. destruct (path_next i pt va Hva ltac:(lia) Hp) as (q & Hq & E & _).
  rewrite land_not by apply pte_range. rewrite PTE_ADDR_ldiff by apply wu_range. unfold pte. by rewrite E.
Qed.

Lemma lookup_through va :
  0 ≤ va < 0x400000 →
  virtual_memory_lookup (acc := through_cr3) (L1 sh) va s = virtual_memory_lookup (L1 sh) va s.
Proof.
  intros Hva. unfold virtual_memory_lookup, mbind, M_bind. rewrite lookup_loop_through; [done|done|lia|].
  intros _ _. by left.
Qed.

Lemma l4_loop_through n i pt va perm :
  0 ≤ va < 0x400000 → 0 ≤ i → i + Z.of_nat n ≤ 3 → on_path i pt →
  l4_loop (acc := through_cr3) n i pt va perm s = l4_loop n i pt va perm s.
Proof.
  intros Hva. revert i pt. induction n as [|n IH]; intros i pt Hi Hn Hp; [done|].
  destruct (path_next i pt va Hva ltac:(lia) Hp) as (q & Hq & Hl). destruct (path_table i pt Hp) as [Ht _].
  destruct (path_table _ _ Hq) as [Hqt _]. rewrite (l4_loop_step n i pt q) by (done || lia).
  rewrite <- (IH (i + 1) q) by (done || lia).
  destruct (link_flags _ _ _ Hl) as (P & W & U & _). destruct Hl as [A _], Hqt as (_ & _ & ?). cbn [l4_loop].
  erewrite bind_ok by (apply entry_through; [lia|done]). unfold pte. rewrite P, A. cbn [negb].
  rewrite (proj2 (Z.ltb_lt q MEMSIZE_PHYSICAL)) by lia. erewrite bind_ok by reflexivity. rewrite W, U.
  by destruct (has perm PTE_W), (has perm PTE_U).
Qed.

Lemma map_through va pa perm :
  0 ≤ va < 0x400000 → map_args va pa 4096 perm →
  virtual_memory_map (acc := through_cr3) (L1 sh) va pa 4096 perm s = virtual_memory_map (L1 sh) va pa 4096 perm s.
Proof.
  intros Hva Hargs. destruct (shape_tables _ _ Hsh) as ((_ & Hal & _) & _).
  rewrite !virtual_memory_map_asserts by (done || lia).
  change (Z.to_nat (4096 / 4096)) with 1%nat. pose proof Hargs as (_ & Hva4 & _ & _ & Hperm & Hpa).
  rewrite (map_loop_step 0 sh va pa perm (-1) NULL s); try done; [|intros HP; specialize (Hpa HP); lia|by left].
  cbn [map_loop]. rewrite cur_index_small by done.
  pose proof (vpn_l4 _ (vpn_range va Hva)) as Hr. destruct (Z.eqb_spec (va / 4096 / 512) (-1)) as [?|_]; [lia|].
  unfold lookup_l4pagetable. erewrite bind_ok by (rewrite l4_loop_through by (done || lia || by left); by apply lookup_l4_ok).
  rewrite (l4_nonnull (mem s)) by done. rewrite andb_true_r.
  assert (∀ v, write_entry (Access := through_cr3) (l4_of sh (va / 4096 / 512) + 8 * pageindex_bits va 3) v s
    = Ok () (set_mem (store 8 (mem s) (leaf_addr sh (va / 4096)) v) s)) as Hw.
  { intros v. destruct (index_small va Hva) as (_ & _ & _ & I3). rewrite I3.
    destruct (path_table 3 (l4_of sh (va / 4096 / 512))) as [(? & Hal4 & _) ?]; [right; right; right; split; [done|by eexists]|].
    pose proof (Z.mod_pos_bound (va / 4096) 512). cbn [write_entry through_cr3].
    rewrite vwrite_low; [done|lia|lia|]. change (Z.of_nat 8) with 8.
    pose proof (Z.div_mod (l4_of sh (va / 4096 / 512)) 4096). lia. }
  unfold new_entry. destruct (has perm PTE_P) eqn:HP;
    (erewrite bind_ok by (by apply pageindex_ok)); (erewrite bind_ok by apply Hw).
  - specialize (Hpa eq_refl). by rewrite (u64_small (pa + perm)) by lia.
  - by rewrite (u64_small perm) by lia.
Qed.
End through.

(** Installing the kernel's table from under the table [act]. *)
Lemma set_pagetable_through `{Devices} (L : Layout) s act ksh :
  LayoutOk L → low_active s act → shape_ok (mem s) ksh → low_tables ksh → identity (mem s) ksh 512 →
  L1 ksh = kernel_pagetables → kernel_pagetable s = L1 ksh →
  set_pagetable (acc := through_cr3) (L1 ksh) s = Ok () (set_cr3 (L1 ksh) s).
Proof.
  intros HL Hact Hsh Hlow Hid Ek Ekp. destruct (looked_up_low L HL) as (? & ? & ?).
  destruct (shape_tables _ _ Hsh) as ((_ & Hal & _) & _).
  assert (∀ va, 0 ≤ va < 0x80000 →
    ∃ m, virtual_memory_lookup (acc := through_cr3) (L1 ksh) va s = Ok m s ∧ pa m = va) as Hl.
  { intros va Hva. destruct (lookup_identity s ksh 512 va) as (m & E & P & _); try done; [lia|].
    exists m. split; [|done]. by rewrite (lookup_through s act Hact ksh Hsh Hlow) by lia. }
  destruct (Hl default_int_handler) as (m1 & E1 & P1); [lia|]. destruct (Hl (L1 ksh)) as (m2 & E2 & P2); [lia|].
  destruct (Hl virtual_memory_map_addr) as (m4 & E4 & P4); [lia|].
  by apply (set_pagetable_passes L _ s m1 m2 m2 m4); rewrite ?Ekp.
Qed.
