(* ===== verification/Load.v ===== *)
(** The program loader of [src/k-loader.c] on a process that is being set up:
    it allocates, maps, fills and protects the pages of a segment, and keeps
    the safety invariant and everything that belongs to the kernel. *)
From S2P Require Import Prelude X86 Machine CLib Printf Hardware PageTable Frames Syscalls Isolation Demo Duplicate Fork ForkSafe Exit PageAlloc Canonical Mmu Contracts Mapping AddressSpace Display ElfFormat Loader.
Open Scope Z_scope.

#[local] Opaque frames_where.

(** ** A process that is being set up

    The slot [p] is still free while its program is loaded; the invariant is
    that of the state in which it is started. *)

Definition started (p : Z) (s : kstate) : kstate := upd_proc p (with_state P_RUNNABLE) s.

Lemma started_process p s q :
  process (started p s) q = if decide (p = q) then with_state P_RUNNABLE (process s p) else process s q.
Proof. apply process_upd. Qed.

Lemma started_pagetable p s q : p_pagetable (process (started p s) q) = p_pagetable (process s q).
Proof. rewrite started_process. case_decide as E; [by subst|done]. Qed.

Lemma started_table p s q : table_of (started p s) q = table_of s q.
Proof. rewrite !table_of_eq. by rewrite started_pagetable. Qed.

Lemma started_live p s : 1 ≤ p < 16 → live (started p s) p.
Proof. intros Hp. split; [done|]. by rewrite started_process, decide_True. Qed.

(** ** The kernel's own pages *)

(** A byte of a page that the kernel uses or has reserved. *)
Definition kernel_byte (s : kstate) (a : Z) : Prop :=
  0 ≤ a / 4096 < 512 ∧ owner (pinfo s (a / 4096)) ≤ 0 ∧ refcount (pinfo s (a / 4096)) ≠ 0 ∧ ¬ on_screen a.

(** Below [PROC_START_ADDR], where every page table has the kernel's memory. *)
Definition kernel_memory (s : kstate) (a : Z) : Prop := 0 ≤ a < 0x100000 ∧ kernel_byte s a.

(** The pages of the kernel's image, and with its stack all pages it has for
    itself. *)
Definition image_frame `{Layout} (f : Z) : Prop := KERNEL_START_ADDR / 4096 ≤ f ∧ f * 4096 < end_addr.
Definition stack_frame : Z := KERNEL_STACK_TOP / 4096 - 1.
Definition kernel_frame `{Layout} (f : Z) : Prop := image_frame f ∨ f = stack_frame.

(** The kernel's page table, and the entries it hands to new processes; what
    the processor needs for traps; the kernel's pages. *)
Record kernel_ok `{Layout} (s : kstate) : Prop := {
  ko_root : kernel_pagetable (mach s) = kernel_pagetables;
  ko_shape : shape_ok (kmem s) kernel_shape;
  ko_identity : identity (kmem s) kernel_shape 512;
  ko_entries : ∀ w, 0 ≤ w < 256 → kernel_entry (leaf (kmem s) kernel_shape w) w;
  ko_traps : traps_ready (mach s);
  ko_frames : ∀ f, kernel_frame f → owner (pinfo s f) ≤ 0 ∧ refcount (pinfo s f) ≠ 0 }.

(** What the kernel relies on stays: its page table, the information of the
    pages in use and its own bytes. *)
Record kernel_kept (s s' : kstate) : Prop := {
  kk_tables : fixed_tables (mach s') = fixed_tables (mach s);
  kk_pinfo : ∀ f, 0 ≤ f < 512 → refcount (pinfo s f) ≠ 0 → pinfo s' f = pinfo s f;
  kk_bytes : agree (kernel_byte s) (kmem s) (kmem s') }.

Lemma kept_byte s s' a : kernel_kept s s' → kernel_byte s a → kernel_byte s' a.
Proof. intros Hl (Hr & Ho & Hc & Hs). split; [done|]. by rewrite (kk_pinfo _ _ Hl). Qed.

Lemma kept_memory s s' a : kernel_kept s s' → kernel_memory s a → kernel_memory s' a.
Proof. intros Hk [Ha Hb]. split; [done|by apply (kept_byte s)]. Qed.

Lemma kept_agree s s' : kernel_kept s s' → agree (kernel_memory s) (kmem s) (kmem s').
Proof. intros Hk. eapply agree_weaken; [|apply (kk_bytes _ _ Hk)]. by intros a [_ ?]. Qed.

#[global] Instance kernel_kept_preorder : PreOrder kernel_kept.
Proof.
  split; [by split|]. intros s1 s2 s3 [A1 A2 A3] [B1 B2 B3]. split; [congruence| |].
  - intros f Hf Hr. rewrite B2; [by apply A2|done|]. by rewrite A2.
  - intros a Ha. rewrite A3 by done. apply B3. apply (kept_byte s1); [by split|done].
Qed.

(** What setting up a process leaves alone. *)
Record loads (p : Z) (s s' : kstate) : Prop := {
  lo_processes : processes s' = processes s;
  lo_current : current s' = current s;
  lo_kept : kernel_kept s s';
  lo_safe : safe (started p s) → safe (started p s');
  lo_spares : safe (started p s) → spares p (started p s) (started p s') }.

Lemma loads_byte p s s' a : loads p s s' → kernel_byte s a → kernel_byte s' a.
Proof. intros Hl. apply kept_byte. by apply (lo_kept p). Qed.

Lemma lo_kernel p s s' : loads p s s' → agree (kernel_byte s) (kmem s) (kmem s').
Proof. intros Hl. apply (kk_bytes _ _ (lo_kept _ _ _ Hl)). Qed.

#[global] Instance loads_preorder p : PreOrder (loads p).
Proof.
  split; [by split|]. intros s1 s2 s3 [A1 A2 A3 A4 A5] [B1 B2 B3 B4 B5].
  split; [congruence..| | |].
  - by transitivity s2.
  - auto.
  - intros Hs. apply (spares_trans p _ (started p s2)); auto.
Qed.

Section kernel.
Context `{Devices} (L : Layout) (HL : LayoutOk L).

Lemma kernel_frame_range f : kernel_frame f → 0 ≤ f < 128.
Proof.
  pose proof (end_stack (L := L)) as He. change (KERNEL_STACK_TOP - PAGESIZE) with 0x7F000 in He.
  unfold kernel_frame, image_frame. change stack_frame with 127. change (KERNEL_START_ADDR / 4096) with 64. lia.
Qed.

Lemma image_byte_frame a : KERNEL_START_ADDR ≤ a < end_addr → image_frame (a / 4096).
Proof.
  change KERNEL_START_ADDR with 0x40000. intros Ha. pose proof (Z.div_mod a 4096). pose proof (Z.mod_pos_bound a 4096).
  split; [change (KERNEL_START_ADDR / 4096) with (0x40000 / 4096); apply Z.div_le_mono; lia|lia].
Qed.

Lemma table_image_frame f : f ∈ table_frames kernel_shape → image_frame f.
Proof.
  intros Hf. destruct (kernel_pages L HL) as (Hpg & _ & Hin). apply list_elem_of_fmap in Hf as (t & -> & Ht).
  assert (in_table kernel_shape t) as Hit by (exists t; split; [done|unfold in_page; lia]). apply Hin in Hit.
  pose proof (kernel_pagetables_data (L := L)). pose proof (start_data_text (L := L)). apply image_byte_frame. lia.
Qed.

Lemma kernel_frame_byte s a : kernel_ok s → kernel_frame (a / 4096) → kernel_byte s a.
Proof.
  intros Hk Hf. pose proof (kernel_frame_range _ Hf). destruct (ko_frames s Hk _ Hf) as [Ho Hr].
  split; [lia|]. split; [done|]. split; [done|]. intros Hs. apply screen_page in Hs. change (CONSOLE_ADDR / 4096) with 184 in Hs. lia.
Qed.

Lemma task_descriptor_image a : kernel_task_descriptor ≤ a < kernel_task_descriptor + 96 → image_frame (a / 4096).
Proof.
  intros Ha. pose proof (kernel_task_descriptor_data (L := L)). pose proof (start_data_text (L := L)). apply image_byte_frame. lia.
Qed.

Lemma traps_ready_kept m m' :
  traps_ready m → fixed_tables m' = fixed_tables m → agree (λ a, image_frame (a / 4096)) (mem m) (mem m') → traps_ready m'.
Proof.
  intros [Hi Ht] [= _ E] Ha. split; [congruence|]. rewrite <- Ht. symmetry. apply load_agree.
  intros b Hb. apply Ha, task_descriptor_image. lia.
Qed.

Lemma kernel_table_byte s a : kernel_ok s → in_table kernel_shape a → kernel_byte s a.
Proof.
  intros Hk Ha. apply kernel_frame_byte; [done|]. left. apply table_image_frame.
  destruct (kernel_pages L HL) as (Hpg & _ & _). by apply (in_table_frames _ _ Hpg).
Qed.

Lemma kernel_ok_kept s s' : kernel_ok s → kernel_kept s s' → kernel_ok s'.
Proof.
  intros Hk Hl. destruct (table_agree (kmem s) (kmem s') kernel_shape (ko_shape s Hk)) as [Hsh Hlf].
  { intros a Ha. apply (kk_bytes _ _ Hl). by apply kernel_table_byte. }
  pose proof (kk_tables _ _ Hl) as Et. split.
  - injection Et as -> _. apply Hk.
  - exact Hsh.
  - intros w Hw. rewrite Hlf by lia. by apply (ko_identity s Hk).
  - intros w Hw. rewrite Hlf by lia. by apply (ko_entries s Hk).
  - apply (traps_ready_kept (mach s)); [apply Hk|done|].
    intros a Ha. apply (kk_bytes _ _ Hl). apply kernel_frame_byte; [done|by left].
  - intros f Hf. destruct (ko_frames s Hk f Hf) as [Ho Hr]. pose proof (kernel_frame_range f Hf).
    rewrite (kk_pinfo _ _ Hl); [done|lia|done].
Qed.

Lemma kernel_ok_loads p s s' : kernel_ok s → loads p s s' → kernel_ok s'.
Proof. intros Hk Hl. apply (kernel_ok_kept s); [done|]. by apply (lo_kept p). Qed.
End kernel.

(** ** What a process sees

    The entry of [p]'s page table for [va], where it leads in physical memory,
    and the byte there. *)

Definition uleaf (p : Z) (s : kstate) (va : Z) : Z := leaf (kmem s) (table_of s p) (va / 4096).
Definition uaddr (p : Z) (s : kstate) (va : Z) : Z := frame (uleaf p s va) * 4096 + va mod 4096.
Definition ubyte (p : Z) (s : kstate) (va : Z) : Z := load8 (kmem s) (uaddr p s va).

(** The addresses of the user address space that are mapped. *)
Definition user_page (p : Z) (s : kstate) (va : Z) : Prop :=
  0x100000 ≤ va < 0x400000 ∧ present (uleaf p s va) = true.

Lemma user_page_vpn p s va : user_page p s va → 256 ≤ va / 4096 < 1024.
Proof. intros [Hva _]. split; [apply Z.div_le_lower_bound; lia|apply Z.div_lt_upper_bound; lia]. Qed.

Lemma uaddr_page p s va : uaddr p s va / 4096 = frame (uleaf p s va).
Proof.
  unfold uaddr. pose proof (Z.mod_pos_bound va 4096). symmetry. apply Z.div_unique with (va mod 4096); lia.
Qed.

(** A page that is counted once occurs once. *)
Lemma present_twice m sh v w :
  256 ≤ v < w → w < 1024 → present (leaf m sh v) = true → present (leaf m sh w) = true →
  frame (leaf m sh v) = frame (leaf m sh w) → 2 ≤ occ (frame (leaf m sh w)) (user_frames m sh).
Proof.
  intros Hv Hw HPv HPw E. unfold user_frames. set (f := frame (leaf m sh w)) in *.
  assert (f ∈ frames_where present m sh 256 (w - 256)) as Hin.
  { apply elem_frames_where. exists v. split; [lia|]. by split. }
  apply occ_pos in Hin.
  replace 768 with (w - 256 + 1 + (1023 - w)) by lia.
  rewrite (frames_where_app present _ _ _ (w - 256 + 1)), (frames_where_snoc present), !occ_app by lia.
  replace (256 + (w - 256)) with w by lia. rewrite HPw. fold f. cbn [occ].
  rewrite decide_True by done.
  pose proof (occ_nonneg f (frames_where present m sh (256 + (w - 256 + 1)) (1023 - w))). lia.
Qed.

Lemma counted_once s q f :
  safe s → live s q → 0 ≤ f < 512 → refcount (pinfo s f) = 1 →
  occ f (table_frames (table_of s q)) + occ f (user_frames (kmem s) (table_of s q)) ≤ 1.
Proof.
  intros Hs Hq Hf Hr. pose proof (safe_refs s Hs f Hf) as Hle. rewrite Hr in Hle.
  pose proof (refs_ge s q f (proj1 Hq)) as Hge. rewrite frames_of_live, occ_app in Hge by done. lia.
Qed.

(** A writable page is mapped once. *)
Lemma writable_once s q v w :
  safe s → live s q → 256 ≤ v < 1024 → 256 ≤ w < 1024 →
  writable (leaf (kmem s) (table_of s q) v) = true → present (leaf (kmem s) (table_of s q) w) = true →
  frame (leaf (kmem s) (table_of s q) v) = frame (leaf (kmem s) (table_of s q) w) → v = w.
Proof.
  intros Hs Hq Hv Hw Hwr HPw E.
  assert (present (leaf (kmem s) (table_of s q) v) = true) as HPv by (by apply andb_prop in Hwr as [? _]).
  destruct (user_frame_counted s q v Hs Hq Hv HPv) as (Hf & _ & _).
  pose proof (safe_writable s Hs q v Hq Hv Hwr) as Hi.
  pose proof (counted_once s q _ Hs Hq (ltac:(lia) : 0 ≤ frame (leaf (kmem s) (table_of s q) v) < 512)) as Ho.
  rewrite Hi in Ho. specialize (Ho eq_refl).
  pose proof (occ_nonneg (frame (leaf (kmem s) (table_of s q) v)) (table_frames (table_of s q))).
  destruct (Z.lt_trichotomy v w) as [Hlt|[?|Hlt]]; [|done|].
  - pose proof (present_twice _ _ v w ltac:(lia) ltac:(lia) HPv HPw E) as H2. rewrite E in *. lia.
  - pose proof (present_twice _ _ w v ltac:(lia) ltac:(lia) HPw HPv (eq_sym E)). lia.
Qed.

(** The pages of the tables are not mapped. *)
Lemma user_not_table s q w :
  safe s → live s q → 256 ≤ w < 1024 → present (leaf (kmem s) (table_of s q) w) = true →
  frame (leaf (kmem s) (table_of s q) w) ∉ table_frames (table_of s q).
Proof.
  intros Hs Hq Hw HP Hin. pose proof (safe_tables s Hs q _ Hq Hin) as Hi.
  destruct (user_frame_counted s q w Hs Hq Hw HP) as (Hf & _ & _).
  pose proof (counted_once s q _ Hs Hq (ltac:(lia) : 0 ≤ frame (leaf (kmem s) (table_of s q) w) < 512)) as Ho.
  rewrite Hi in Ho. specialize (Ho eq_refl). apply occ_pos in Hin.
  assert (frame (leaf (kmem s) (table_of s q) w) ∈ user_frames (kmem s) (table_of s q)) as Hu
    by (apply elem_frames_where; exists w; split; [lia|done]).
  apply occ_pos in Hu. lia.
Qed.

(** ** Pages of the process *)

Section own.
Context (p : Z) (Hp : 1 ≤ p < 16).

Lemma own_not_kernel s a : safe (started p s) → a / 4096 ∈ frames_of (started p s) p → ¬ kernel_byte s a.
Proof.
  intros Hs Hin (_ & Ho & _). pose proof (started_live p s Hp) as Hl.
  rewrite frames_of_live, elem_of_app in Hin by done. destruct Hin as [Hin|Hin].
  - pose proof (safe_tables _ Hs p _ Hl Hin) as E. change (pinfo (started p s) (a / 4096)) with (pinfo s (a / 4096)) in E.
    rewrite E in Ho. cbn in Ho. lia.
  - destruct (safe_frames _ Hs p _ Hl Hin) as [_ Ho']. change (pinfo (started p s) (a / 4096)) with (pinfo s (a / 4096)) in Ho'.
    lia.
Qed.

(** Writing the process's own pages. *)
Lemma own_write s m :
  safe (started p s) → agree (λ a, a / 4096 ∉ frames_of (started p s) p) (kmem s) m →
  safe (started p (set_kmem m s)) → spares p (started p s) (started p (set_kmem m s)) → loads p s (set_kmem m s).
Proof.
  intros Hs Ha Hs' Hsp. split; try done. split; try done. intros a Hk. apply Ha. intros Hin. by apply (own_not_kernel s a).
Qed.

Lemma table_own s a : safe (started p s) → in_table (table_of s p) a → a / 4096 ∈ frames_of (started p s) p.
Proof.
  intros Hs Ha. pose proof (started_live p s Hp) as Hl. rewrite frames_of_live by done.
  apply elem_of_app. left. rewrite <- started_table with (p := p) in Ha.
  apply in_table_frames; [|done]. apply (safe_shape _ Hs p Hl).
Qed.

Lemma l4_in_table sh a : in_l4 sh a → in_table sh a.
Proof.
  destruct (in_pages sh) as (_&_&_&?&?). intros [Ha|Ha]; eexists; (split; [|exact Ha]); done.
Qed.

Lemma own_shape_ok s : safe (started p s) → shape_ok (kmem s) (table_of s p).
Proof.
  intros Hs. rewrite <- (started_table p). apply (safe_shape _ Hs p). by apply started_live.
Qed.

(** Mapping in the process's own table. *)
Lemma table_not_other s q f :
  safe s → live s p → live s q → q ≠ p → f ∈ table_frames (table_of s p) → f ∉ frames_of s q.
Proof.
  intros Hs Hl Hq Hne Hf Hin. pose proof (table_frame_range s Hs p f Hl Hf) as Hr.
  pose proof (refs_ge2 s p q f (proj1 Hl) (proj1 Hq) ltac:(congruence)) as H2.
  pose proof (safe_refs s Hs f ltac:(lia)) as Hle. rewrite (safe_tables s Hs p f Hl Hf) in Hle. cbn in Hle.
  apply occ_pos in Hin. apply occ_pos in Hf. rewrite (frames_of_live s p Hl), occ_app in H2.
  pose proof (occ_nonneg f (user_frames (kmem s) (table_of s p))). lia.
Qed.

Lemma mapped_loads s m V k pa perm :
  safe (started p s) → mapped (table_of s p) (kmem s) m V k pa perm → safe (started p (set_kmem m s)) →
  loads p s (set_kmem m s).
Proof.
  intros Hs Hm Hs'. pose proof (mapped_agree _ _ _ _ _ _ _ Hm) as Ha. apply own_write; [done| |done|].
  - intros a Hno. apply Ha. intros Hin. by apply Hno, table_own, l4_in_table.
  - split; [done|]. intros q Hq Hne a Hin. apply Ha. intros Hl4.
    apply (table_not_other (started p s) q (a / 4096)); try done; [by apply started_live|].
    rewrite started_table. apply in_table_frames; [apply (own_shape_ok s Hs)|by apply l4_in_table].
Qed.

Lemma mapped_table s m V k pa perm :
  mapped (table_of s p) (kmem s) m V k pa perm → table_of (set_kmem m s) p = table_of s p.
Proof. intros Hm. rewrite table_of_eq. apply (shape_at_ok m (table_of s p)), Hm. Qed.

Lemma take_loads s n : 1 ≤ n < 512 → refcount (pinfo s n) = 0 → loads p s (take_page n p s).
Proof.
  intros Hn Hr. split; try done.
  - split; try done. intros f _ Hf. rewrite pinfo_take, decide_False; [done|]. congruence.
  - intros Hs. exact (safe_take (started p s) n p Hs Hn Hr).
Qed.

(** What one page of a segment, or the whole of it, adds to the process: the
    pages [v], ..., [v + k - 1] are mapped, writable; the rest is as before. *)
Record grows (s s' : kstate) (v k : Z) : Prop := {
  gr_loads : loads p s s';
  gr_safe : safe (started p s');
  gr_machine : mach s' = set_mem (kmem s') (mach s);
  gr_table : table_of s' p = table_of s p;
  gr_free : nfree s' = nfree s - k;
  gr_new : ∀ w, v ≤ w < v + k → user_writable (leaf (kmem s') (table_of s p) w) = true;
  gr_old : ∀ w, 0 ≤ w < 1024 → ¬ (v ≤ w < v + k) →
    leaf (kmem s') (table_of s p) w = leaf (kmem s) (table_of s p) w;
  gr_bytes : ∀ va, user_page p s va → ¬ (v ≤ va / 4096 < v + k) → ubyte p s' va = ubyte p s va }.

(** Changes to the table itself do not change the bytes of the pages. *)
Lemma table_change_byte s m va :
  safe (started p s) → user_page p s va → table_of (set_kmem m s) p = table_of s p →
  frame (leaf m (table_of s p) (va / 4096)) = frame (uleaf p s va) →
  agree (λ a, ¬ in_l4 (table_of s p) a) (kmem s) m → ubyte p (set_kmem m s) va = ubyte p s va.
Proof.
  intros Hs Hu Et El Ha. pose proof (user_page_vpn _ _ _ Hu) as Hv. pose proof (started_live p s Hp) as Hl.
  assert (uaddr p (set_kmem m s) va = uaddr p s va) as Ea.
  { unfold uaddr. rewrite <- El. unfold uleaf. by rewrite Et. }
  unfold ubyte. rewrite Ea. symmetry. apply Ha. intros Hin. apply l4_in_table in Hin.
  apply in_table_frames in Hin; [|apply (own_shape_ok s Hs)]. rewrite uaddr_page in Hin.
  apply (user_not_table (started p s) p (va / 4096)); try done; rewrite started_table; [apply Hu|done].
Qed.

(** One page: a free frame taken for the process and mapped, writable. *)
Lemma grow_page `{Devices} s n addr :
  safe (started p s) → 1 ≤ n < 512 → refcount (pinfo s n) = 0 → addr mod 4096 = 0 → 0x100000 ≤ addr < 0x400000 →
  ∃ m', on_machine (virtual_memory_map (p_pagetable (process s p)) addr (n * 4096) PAGESIZE PTE_PWU) (take_page n p s)
      = Ok 0 (set_kmem m' (take_page n p s)) ∧
    grows s (set_kmem m' (take_page n p s)) (addr / 4096) 1.
Proof.
  intros Hs Hn Hr Hal Ha.
  pose proof (own_shape_ok s Hs) as Hsh. pose proof (started_live p s Hp) as Hl.
  destruct (map_ok (mach (take_page n p s)) (table_of s p) addr (n * 4096) 4096 PTE_PWU) as (m' & Em & Hm).
  { exact Hsh. }
  { unfold map_args. rewrite Hal, Z.mod_mul by lia. change (4096 mod 4096) with 0. change PTE_PWU with 7. lia. }
  { pose proof (Z.div_mod addr 4096). lia. }
  change (4096 / 4096) with 1 in Hm. pose proof (vpn_range addr ltac:(lia)) as HV.
  assert (256 ≤ addr / 4096) as HV2 by (apply Z.div_le_lower_bound; lia).
  pose proof (safe_take (started p s) n p Hs Hn Hr : safe (started p (take_page n p s))) as Hst.
  set (s' := set_kmem m' (take_page n p s)).
  assert (safe (started p s')) as Hs'.
  { apply (own_safe (take_page n p (started p s)) p n (addr / 4096)); try done; try lia.
    - by rewrite pinfo_take, decide_True.
    - change (refs (take_page n p (started p s)) n) with (refs (started p s) n).
      pose proof (safe_refs _ Hs n ltac:(lia)) as Href.
      change (pinfo (started p s) n) with (pinfo s n) in Href. rewrite Hr in Href.
      assert (0 ≤ refs (started p s) n) by (apply zsum_nonneg; intros; apply occ_nonneg). lia.
    - rewrite <- (started_table p s p) in Hm. exact Hm. }
  exists m'. split; [apply on_machine_ok; rewrite <- table_of_root; exact Em|].
  fold s'. split; try done.
  - transitivity (take_page n p s); [by apply take_loads|].
    by apply (mapped_loads (take_page n p s) m' _ _ _ _ Hst Hm Hs').
  - by apply (mapped_table (take_page n p s) m' _ _ _ _ Hm).
  - by apply nfree_take.
  - intros w Hw. assert (w = addr / 4096) as -> by lia. change (kmem s') with m'.
    rewrite (mapped_leaf _ _ _ _ _ _ _ Hm), decide_True by lia. rewrite Z.sub_diag, Z.mul_0_l, Z.add_0_r.
    rewrite (proj1 (own_entry n Hn)). unfold user_writable.
    rewrite <- !(has_flags (n * 4096 + 7)) by done. by rewrite PTE_FLAGS_entry by (done || (by apply Z.mod_mul) || lia).
  - intros w Hw Hne. change (kmem s') with m'.
    by rewrite (mapped_leaf _ _ _ _ _ _ _ Hm), decide_False by lia.
  - intros va Hu Hout. change (ubyte p s' va = ubyte p (take_page n p s) va).
    pose proof (user_page_vpn _ _ _ Hu) as Hvv. apply table_change_byte; try done.
    + by apply (mapped_table (take_page n p s) m' _ _ _ _ Hm).
    + change (uleaf p (take_page n p s) va) with (leaf (kmem s) (table_of s p) (va / 4096)).
      by rewrite (mapped_leaf _ _ _ _ _ _ _ Hm), decide_False by lia.
    + apply (mapped_agree _ _ _ _ _ _ _ Hm).
Qed.

Lemma load_page_ok `{Devices} s addr :
  safe (started p s) → 0 < nfree s → addr mod 4096 = 0 → 0x100000 ≤ addr < 0x400000 →
  ∃ s', load_page p (p_pagetable (process s p)) addr s = Ok true s' ∧ grows s s' (addr / 4096) 1.
Proof.
  intros Hs Hf Hal Ha. destruct (alloc_step p s Hf ltac:(lia)) as (n & E & Hn & Hr & _).
  destruct (grow_page s n addr Hs Hn Hr Hal Ha) as (m' & Em & Hg). eexists. split; [|exact Hg].
  unfold load_page. erewrite bind_ok by exact E.
  destruct (Z.eqb_spec (n * 4096) NULL) as [E0|_]; [change NULL with 0 in E0; lia|]. by erewrite bind_ok by exact Em.
Qed.

(** The stack page. *)
Lemma page_alloc_grows `{Devices} s addr :
  safe (started p s) → 0 < nfree s → addr mod 4096 = 0 → 0x100000 ≤ addr < 0x400000 →
  ∃ s', sys_page_alloc_find_free (p_pagetable (process s p)) p addr s = Ok 0 s' ∧ grows s s' (addr / 4096) 1.
Proof.
  intros Hs Hf Hal Ha. destruct (nfree_first s Hf) as (n & Hn & Hff).
  destruct (grow_page s n addr Hs (conj (proj1 Hff) Hn) (proj1 (proj2 Hff)) Hal Ha) as (m' & Em & Hg). eexists. split; [|exact Hg].
  rewrite (page_alloc_free _ p addr s n Hff) by lia. change PROC_START_ADDR with 0x100000.
  destruct (Z.ltb_spec addr 0x100000); [lia|]. by erewrite bind_ok by exact Em.
Qed.

Lemma grows_trans s1 s2 s3 v k k' :
  0 ≤ k → 0 ≤ k' → 0 ≤ v → v + k + k' ≤ 1024 →
  grows s1 s2 v k → grows s2 s3 (v + k) k' → grows s1 s3 v (k + k').
Proof.
  intros Hk Hk' Hv Hend [A1 A2 A3 A4 A5 A6 A7 A8] [B1 B2 B3 B4 B5 B6 B7 B8]. rewrite A4 in B6, B7. split.
  - by transitivity s2.
  - done.
  - rewrite B3, A3. done.
  - congruence.
  - lia.
  - intros w Hw. destruct (decide (w < v + k)); [rewrite B7 by lia; apply A6; lia|apply B6; lia].
  - intros w Hw Hout. rewrite B7 by lia. apply A7; lia.
  - intros va Hu Hout. pose proof (user_page_vpn _ _ _ Hu). rewrite B8; [apply A8; [done|lia]| |lia].
    split; [apply Hu|]. unfold uleaf. rewrite A4, A7 by lia. apply Hu.
Qed.

Lemma grows_refl s v : safe (started p s) → grows s s v 0.
Proof. intros Hs. split; try done; try lia. by destruct s as [[]]. Qed.

Lemma grows_pagetable s s' v k : grows s s' v k → p_pagetable (process s' p) = p_pagetable (process s p).
Proof. intros Hg. unfold process. by rewrite (lo_processes _ _ _ (gr_loads _ _ _ _ Hg)). Qed.

(** The number of iterations for the pages from [addr] up to [end_mem]. *)
Definition pages_to (addr end_mem : Z) : Z := Z.max 0 ((end_mem - addr + 4095) / 4096).

Lemma pages_to_next addr end_mem :
  addr < end_mem → 0 < pages_to addr end_mem ∧ pages_to (addr + 4096) end_mem = pages_to addr end_mem - 1.
Proof.
  intros Hlt. unfold pages_to. pose proof (Z.div_mod (end_mem - addr + 4095) 4096).
  pose proof (Z.div_mod (end_mem - (addr + 4096) + 4095) 4096).
  pose proof (Z.mod_pos_bound (end_mem - addr + 4095) 4096).
  pose proof (Z.mod_pos_bound (end_mem - (addr + 4096) + 4095) 4096). lia.
Qed.

Lemma pages_to_end addr end_mem : end_mem ≤ addr → pages_to addr end_mem = 0.
Proof.
  intros Hle. unfold pages_to. assert ((end_mem - addr + 4095) / 4096 < 1) by (apply Z.div_lt_upper_bound; lia). lia.
Qed.

Lemma pages_to_bound addr end_mem :
  addr mod 4096 = 0 → 0 ≤ addr ≤ 0x400000 → end_mem ≤ 0x400000 → addr / 4096 + pages_to addr end_mem ≤ 1024.
Proof.
  intros Hal Ha He. unfold pages_to. pose proof (Z.div_mod addr 4096). pose proof (Z.div_mod (end_mem - addr + 4095) 4096).
  pose proof (Z.mod_pos_bound (end_mem - addr + 4095) 4096). lia.
Qed.

(** The pages that hold the addresses up to [end_mem]. *)
Lemma pages_to_cover addr end_mem a :
  addr mod 4096 = 0 → addr ≤ a < end_mem → addr / 4096 ≤ a / 4096 < addr / 4096 + pages_to addr end_mem.
Proof.
  intros Hal Ha. unfold pages_to. pose proof (Z.div_mod addr 4096). pose proof (Z.div_mod (end_mem - addr + 4095) 4096).
  pose proof (Z.mod_pos_bound (end_mem - addr + 4095) 4096). pose proof (Z.div_mod a 4096).
  pose proof (Z.mod_pos_bound a 4096). lia.
Qed.

Lemma load_pages_ok `{Devices} n s addr end_mem :
  safe (started p s) → addr mod 4096 = 0 → 0x100000 ≤ addr → end_mem ≤ 0x400000 → addr ≤ 0x400000 →
  pages_to addr end_mem < Z.of_nat n → pages_to addr end_mem ≤ nfree s →
  ∃ s', load_pages n p (p_pagetable (process s p)) addr end_mem s = Ok true s' ∧
    grows s s' (addr / 4096) (pages_to addr end_mem).
Proof.
  revert s addr. induction n as [|n IH]; intros s addr Hs Hal Ha He Ha4 Hn Hf.
  { unfold pages_to in Hn. lia. }
  cbn [load_pages]. destruct (Z.ltb_spec addr end_mem) as [Hlt|Hge].
  - destruct (pages_to_next addr end_mem Hlt) as [Hpos Hnext].
    destruct (load_page_ok s addr Hs ltac:(lia) Hal ltac:(lia)) as (s1 & E & G1). erewrite bind_ok by exact E.
    assert (addr + 4096 ≤ 0x400000) as Ha' by (pose proof (Z.div_mod addr 4096); lia).
    change PAGESIZE with 4096. rewrite u64_small by lia.
    destruct (IH s1 (addr + 4096)) as (s2 & E2 & G2); try lia.
    + apply (gr_safe _ _ _ _ G1).
    + rewrite <- Z.add_mod_idemp_r by lia. change (4096 mod 4096) with 0. by rewrite Z.add_0_r.
    + rewrite (gr_free _ _ _ _ G1). lia.
    + rewrite (grows_pagetable s s1 _ _ G1) in E2. exists s2. split; [exact E2|].
      assert ((addr + 4096) / 4096 = addr / 4096 + 1) as Ed by (rewrite <- (Z.div_add addr 1 4096); [done|lia]).
      rewrite Hnext, Ed in G2. replace (pages_to addr end_mem) with (1 + (pages_to addr end_mem - 1)) by lia.
      pose proof (pages_to_bound addr end_mem Hal ltac:(lia) He).
      apply (grows_trans s s1 s2); try done; try lia. apply Z.div_pos; lia.
  - rewrite pages_to_end by done. exists s. split; [done|by apply grows_refl].
Qed.
End own.
