(* ===== verification/Segment.v ===== *)
(** [program_load_segment] of [src/k-loader.c]: the copy through the page table
    of the process, and what a loaded segment looks like to the process. *)
From S2P Require Import Prelude X86 Machine CLib Printf Hardware PageTable Frames Syscalls Isolation Demo Duplicate Fork ForkSafe Exit PageAlloc Canonical Mmu Contracts Mapping AddressSpace Display ElfFormat Loader Through Load.
Open Scope Z_scope.

Lemma on_machine_bind {A B} (m : M machine A) (f : A → M machine B) s :
  on_machine (m ≫= f) s = (on_machine m ≫= λ a, on_machine (f a)) s.
Proof.
  unfold on_machine, zoom, mbind, M_bind. destruct (m (mach s)) as [a t|e t]; [|done].
  cbn [mach set_mach]. by destruct (f a t).
Qed.

Lemma on_machine_run {A} (c : M machine A) s a t :
  c (mach s) = Ok a t → on_machine c s = Ok a (set_mach t s).
Proof. intros E. unfold on_machine, zoom. by rewrite E. Qed.

Lemma frames_where_same sel m m' sh sh' lo n :
  (∀ w, lo ≤ w < lo + n → sel (leaf m sh w) = sel (leaf m' sh' w) ∧ frame (leaf m sh w) = frame (leaf m' sh' w)) →
  frames_where sel m sh lo n = frames_where sel m' sh' lo n.
Proof.
  intros E. unfold frames_where. apply list_omap_ext, Forall_Forall2_diag, Forall_forall. intros w Hw.
  apply elem_of_seqZ in Hw. destruct (E w Hw) as [Es Ef]. cbv zeta. by rewrite Es, Ef.
Qed.

#[local] Opaque frames_where.

Lemma canonical_low va : va < 2 ^ 47 → canonical va = true.
Proof. intros Hv. unfold canonical. by rewrite (proj2 (Z.ltb_lt _ _) Hv). Qed.

Lemma user_writable_bits e :
  user_writable e = true → writable e = true ∧ present e = true ∧ (Z.land e PTE_PW =? PTE_PW) = true.
Proof.
  unfold user_writable, writable, present. rewrite !andb_true_iff. intros [[HP HW] _].
  pose proof (pw_test e HP HW) as E. apply andb_prop in E as [_ E]. done.
Qed.

Section through.
Context (p : Z) (Hp : 1 ≤ p < 16).

(** ** Accesses through the process's page table *)

Lemma uleaf_range s va : 0 ≤ uleaf p s va < 2 ^ 64.
Proof. apply leaf_range. Qed.

Lemma uleaf_started s va :
  uleaf p s va = leaf (kmem (started p s)) (table_of (started p s) p) (va / 4096).
Proof. by rewrite started_table. Qed.

Lemma translate_user s va need :
  safe (started p s) → cr3 (mach s) = p_pagetable (process s p) → access need → 0 ≤ va < 0x400000 →
  translate va need (mach s) = if Z.land (uleaf p s va) need =? need then Some (uaddr p s va) else None.
Proof.
  intros Hs Hc Hn Hva. rewrite <- table_of_root in Hc.
  rewrite (translate_any (mach s) (table_of s p)); [|by apply own_shape_ok|done|done].
  rewrite canonical_low, low48_small by lia. rewrite bool_decide_eq_true_2 by lia. cbn [andb].
  change (leaf (mem (mach s)) (table_of s p) (va / 4096)) with (uleaf p s va).
  unfold uaddr. by rewrite <- addr_page, PAGEOFFSET_mod by apply uleaf_range.
Qed.

(** The addresses of the process's writable pages. *)
Definition own_page (s : kstate) (va : Z) : Prop :=
  0x100000 ≤ va < 0x400000 ∧ user_writable (uleaf p s va) = true.

Lemma own_user s va : own_page s va → user_page p s va.
Proof. intros [Hva Hw]. split; [done|]. by apply user_writable_bits. Qed.

Lemma own_entry_of s va : own_page s va → entry_of (started p s) p va = uleaf p s va.
Proof.
  intros [Hva _]. unfold entry_of. rewrite low48_small by lia. rewrite decide_True by lia. by rewrite started_table.
Qed.

Lemma uaddr_injective s va a :
  safe (started p s) → own_page s va → user_page p s a → uaddr p s va = uaddr p s a → va = a.
Proof.
  intros Hs Hva Ha E. pose proof (user_page_vpn _ _ _ (own_user s va Hva)). pose proof (user_page_vpn _ _ _ Ha).
  destruct (user_writable_bits _ (proj2 Hva)) as (Hw & _ & _).
  assert (frame (uleaf p s va) = frame (uleaf p s a)) as Ef by (by rewrite <- !uaddr_page, E).
  assert (va / 4096 = a / 4096) as Ev.
  { apply (writable_once (started p s) p); rewrite ?started_table; try done; [by apply started_live|apply Ha]. }
  unfold uaddr in E. rewrite Ef in E. pose proof (Z.div_mod va 4096). pose proof (Z.div_mod a 4096). lia.
Qed.

(** States that differ in the process's own pages only. *)
Record fills (s s' : kstate) : Prop := {
  fl_loads : loads p s s';
  fl_safe : safe (started p s');
  fl_mem : s' = set_kmem (kmem s') s;
  fl_table : table_of s' p = table_of s p;
  fl_leaf : ∀ w, 0 ≤ w < 1024 → leaf (kmem s') (table_of s p) w = leaf (kmem s) (table_of s p) w }.

Lemma fills_refl s : safe (started p s) → fills s s.
Proof. intros Hs. split; try done. by destruct s as [[]]. Qed.

Lemma fills_trans s1 s2 s3 : fills s1 s2 → fills s2 s3 → fills s1 s3.
Proof.
  intros [A1 A2 A3 A4 A5] [B1 B2 B3 B4 B5]. rewrite A4 in B5. split.
  - by transitivity s2.
  - done.
  - rewrite B3, A3. done.
  - congruence.
  - intros w Hw. by rewrite B5, A5.
Qed.

Lemma fills_uleaf s s' va : fills s s' → 0 ≤ va < 0x400000 → uleaf p s' va = uleaf p s va.
Proof. intros Hf Hva. unfold uleaf. rewrite (fl_table _ _ Hf). by apply (fl_leaf _ _ Hf), vpn_range. Qed.

Lemma fills_uaddr s s' va : fills s s' → 0 ≤ va < 0x400000 → uaddr p s' va = uaddr p s va.
Proof. intros Hf Hva. unfold uaddr. by rewrite (fills_uleaf s s'). Qed.

Lemma fills_own s s' va : fills s s' → own_page s va → own_page s' va.
Proof. intros Hf [Hva Hw]. split; [done|]. rewrite (fills_uleaf s s'); [done..|lia]. Qed.

Lemma fills_user s s' va : fills s s' → user_page p s va → user_page p s' va.
Proof. intros Hf [Hva Hw]. split; [done|]. rewrite (fills_uleaf s s'); [done..|lia]. Qed.

Lemma fills_fields s s' : fills s s' → cr3 (mach s') = cr3 (mach s) ∧ processes s' = processes s.
Proof. intros Hf. by rewrite (fl_mem _ _ Hf). Qed.

Lemma fills_pagetable s s' : fills s s' → p_pagetable (process s' p) = p_pagetable (process s p).
Proof. intros Hf. unfold process. by rewrite (proj2 (fills_fields _ _ Hf)). Qed.

(** One store. *)
Definition stored (s : kstate) (va v : Z) : kstate := set_kmem (store 1 (kmem s) (uaddr p s va) v) s.

Lemma stored_fills s va v : safe (started p s) → own_page s va → fills s (stored s va v).
Proof.
  intros Hs Hva. pose proof (started_live p s Hp) as Hl.
  assert (agree (λ a, a / 4096 ≠ frame (uleaf p s va)) (kmem s) (kmem (stored s va v))) as Ha.
  { intros a Hne. unfold stored. rewrite kmem_set, load8_store_1. rewrite decide_False; [done|].
    intros <-. by rewrite uaddr_page in Hne. }
  destruct (target_written (started p s) p va (kmem (stored s va v)) Hs Hl) as [Hu Hsp].
  { rewrite own_entry_of by done. apply Hva. }
  { by rewrite own_entry_of by done. }
  destruct (un_kept _ _ Hs Hu p Hl) as (Et & _ & El). rewrite (started_table p s) in Et, El.
  change (table_of (started p (stored s va v)) p = table_of s p) in Et. rewrite started_table in Et.
  split; [|exact (un_safe _ _ Hs Hu)|done|exact Et|exact El].
  - apply (own_write p); [done..| |exact (un_safe _ _ Hs Hu)|exact Hsp]. intros a Hin. apply Ha. intros E. apply Hin. rewrite E.
    rewrite frames_of_live by done. apply elem_of_app. right. apply elem_frames_where. exists (va / 4096).
    pose proof (user_page_vpn _ _ _ (own_user s va Hva)). split; [lia|]. rewrite <- uleaf_started.
    split; [apply (own_user s va Hva)|done].
Qed.

Lemma stored_byte s va v a :
  safe (started p s) → own_page s va → user_page p s a →
  ubyte p (stored s va v) a = if decide (a = va) then v mod 256 else ubyte p s a.
Proof.
  intros Hs Hva Ha. pose proof (stored_fills s va v Hs Hva) as Hf. unfold ubyte.
  rewrite (fills_uaddr s) by (done || destruct Ha; lia). unfold stored. rewrite kmem_set, load8_store_1.
  destruct (decide (a = va)) as [->|Hne].
  - by rewrite decide_True.
  - rewrite decide_False; [done|]. intros E. apply Hne. symmetry. by apply (uaddr_injective s va a).
Qed.

(** The accesses themselves, while the process's table is active. *)
Abbreviation active s := (cr3 (mach s) = p_pagetable (process s p)).

Lemma active_fills s s' : fills s s' → active s → active s'.
Proof.
  intros Hf Hc. destruct (fills_fields s s' Hf) as [Ec Ep]. rewrite Ec, Hc. unfold process. by rewrite Ep.
Qed.

Lemma vwrite_ok s va v :
  safe (started p s) → active s → own_page s va → on_machine (vwrite 1 va v) s = Ok () (stored s va v).
Proof.
  intros Hs Hc Hva. pose proof (own_user s va Hva) as Hu. pose proof (user_page_vpn _ _ _ Hu).
  apply on_machine_ok. unfold vwrite. rewrite (translate_user s va PTE_PW Hs Hc).
  2: { unfold access. rewrite !elem_of_cons. right. by left. }
  2: { destruct Hva. lia. }
  rewrite (proj2 (proj2 (user_writable_bits _ (proj2 Hva)))).
  assert (1 ≤ frame (uleaf p s va) < 512) as Hf.
  { pose proof (user_frame_counted (started p s) p (va / 4096) Hs (started_live p s Hp)) as Hx.
    rewrite started_table in Hx. by apply Hx; [|apply Hu]. }
  pose proof (Z.mod_pos_bound va 4096). by rewrite write_ok by (unfold uaddr; lia).
Qed.

(** The process's own table is fit for the loader. *)
Lemma active_low s : safe (started p s) → active s → low_active (mach s) (table_of s p).
Proof.
  intros Hs Hc. split; [by rewrite table_of_root|by apply own_shape_ok|]. intros w Hw.
  pose proof (safe_kernel _ Hs p w (started_live p s Hp) Hw) as He. by rewrite started_table in He.
Qed.

Lemma vread_ok s va :
  safe (started p s) → active s → 0 ≤ va < 0x100000 → on_machine (vread 1 va) s = Ok (load8 (kmem s) va) s.
Proof.
  intros Hs Hc Hva. apply on_machine_pure.
  rewrite (vread_low (mach s) (table_of s p) (active_low s Hs Hc)) by lia. by rewrite load_1.
Qed.

(** [memcpy] and [memset] to pages of the process. *)
Lemma vmemcpy_ok n d src s :
  safe (started p s) → active s →
  (∀ i, 0 ≤ i < Z.of_nat n → own_page s (d + i)) →
  (∀ i, 0 ≤ i < Z.of_nat n → kernel_memory s (src + i)) →
  ∃ s', on_machine (vmemcpy_loop n d src) s = Ok () s' ∧ fills s s' ∧
    ∀ a, user_page p s a → ubyte p s' a =
      if decide (d ≤ a < d + Z.of_nat n) then load8 (kmem s) (src + (a - d)) else ubyte p s a.
Proof.
  revert d src s. induction n as [|n IH]; intros d src s Hs Hc Hd Hsrc.
  { exists s. split; [by apply on_machine_pure|]. split; [by apply fills_refl|]. intros a _. by rewrite decide_False by lia. }
  pose proof (Hd 0 ltac:(lia)) as Hd0. rewrite Z.add_0_r in Hd0.
  destruct (Hsrc 0 ltac:(lia)) as [Hr0 Hk0]. rewrite Z.add_0_r in Hr0, Hk0.
  set (c := load8 (kmem s) src). pose proof (stored_fills s d c Hs Hd0) as Hf1.
  destruct (IH (d + 1) (src + 1) (stored s d c)) as (s' & E & Hf & Hb).
  - apply (fl_safe _ _ Hf1).
  - by apply (active_fills s).
  - intros i Hi. apply (fills_own s); [done|]. rewrite <- Z.add_assoc. apply Hd. lia.
  - intros i Hi. rewrite <- Z.add_assoc. destruct (Hsrc (1 + i) ltac:(lia)) as [Hr Hk]. split; [exact Hr|].
    by apply (loads_byte p s); [apply Hf1|].
  - exists s'. split; [|split; [by apply (fills_trans s (stored s d c))|]].
    + cbn [vmemcpy_loop]. rewrite on_machine_bind. erewrite bind_ok by (by apply vread_ok).
      rewrite on_machine_bind. erewrite bind_ok by (by apply vwrite_ok). exact E.
    + intros a Ha. rewrite Hb by (by apply (fills_user s)). rewrite stored_byte by done.
      repeat case_decide; subst; try lia; try done.
      * rewrite <- (lo_kernel _ _ _ (fl_loads _ _ Hf1)).
        { f_equal. lia. }
        { destruct (Hsrc (a - d) ltac:(lia)) as [_ Hk]. by replace (src + 1 + (a - (d + 1))) with (src + (a - d)) by lia. }
      * unfold c. rewrite Z.sub_diag, Z.add_0_r. apply Z.mod_small, load8_range.
Qed.

Lemma vmemset_ok n d c s :
  safe (started p s) → active s → (∀ i, 0 ≤ i < Z.of_nat n → own_page s (d + i)) →
  ∃ s', on_machine (vmemset_loop n d c) s = Ok () s' ∧ fills s s' ∧
    ∀ a, user_page p s a → ubyte p s' a =
      if decide (d ≤ a < d + Z.of_nat n) then c mod 256 else ubyte p s a.
Proof.
  revert d s. induction n as [|n IH]; intros d s Hs Hc Hd.
  { exists s. split; [by apply on_machine_pure|]. split; [by apply fills_refl|]. intros a _. by rewrite decide_False by lia. }
  pose proof (Hd 0 ltac:(lia)) as Hd0. rewrite Z.add_0_r in Hd0.
  pose proof (stored_fills s d c Hs Hd0) as Hf1.
  destruct (IH (d + 1) (stored s d c)) as (s' & E & Hf & Hb).
  - apply (fl_safe _ _ Hf1).
  - by apply (active_fills s).
  - intros i Hi. apply (fills_own s); [done|]. rewrite <- Z.add_assoc. apply Hd. lia.
  - exists s'. split; [|split; [by apply (fills_trans s (stored s d c))|]].
    + cbn [vmemset_loop]. rewrite on_machine_bind. erewrite bind_ok by (by apply vwrite_ok). exact E.
    + intros a Ha. rewrite Hb by (by apply (fills_user s)). rewrite stored_byte by done.
      repeat case_decide; subst; try lia; done.
Qed.

(** ** Protecting a page

    A page that is mapped again where it was, without [PTE_W]. *)

Section protect.
Context (s : kstate) (V : Z) (m' : gmap Z Z).
Context (Hs : safe s) (Hl : live s p) (HV : 256 ≤ V < 1024).
Abbreviation e := (leaf (kmem s) (table_of s p) V).
Context (He : present e = true) (Hm : mapped (table_of s p) (kmem s) m' V 1 (frame e * 4096) PTE_PU).
Abbreviation s' := (set_kmem m' s).

Lemma protected_entry x :
  0 ≤ x < 512 → new_entry (x * 4096) PTE_PU = x * 4096 + PTE_PU ∧ frame (x * 4096 + PTE_PU) = x ∧
  present (x * 4096 + PTE_PU) = true ∧ writable (x * 4096 + PTE_PU) = false.
Proof.
  intros Hx. change PTE_PU with 5. assert (x * 4096 mod 4096 = 0) as Hal by (by apply Z.mod_mul). split; [done|]. split.
  - unfold frame. rewrite PTE_ADDR_entry by (done || lia). by apply Z.div_mul.
  - unfold writable, present. rewrite <- !(has_flags (x * 4096 + 5)) by done.
    by rewrite PTE_FLAGS_entry by (done || lia).
Qed.

Lemma protect_frame : 1 ≤ frame e < 512 ∧ 0 < owner (pinfo s (frame e)).
Proof. destruct (user_frame_counted s p V Hs Hl HV He) as (? & ? & _). done. Qed.

(** An entry is as before, or it is the protected one. *)
Lemma protect_leaf q w :
  live s q → 0 ≤ w < 1024 →
  leaf (kmem s') (table_of s' q) w = leaf (kmem s) (table_of s q) w ∨
  (q = p ∧ w = V ∧ leaf (kmem s') (table_of s' q) w = frame e * 4096 + PTE_PU).
Proof.
  intros Hq Hw. rewrite (remap_table_eq s p V 1 _ _ m' Hs Hl Hm q Hq). destruct protect_frame as [Hf _].
  destruct (decide (q = p)) as [->|Hne].
  - change (kmem s') with m'. rewrite (mapped_leaf _ _ _ _ _ _ _ Hm) by done.
    destruct (decide (V ≤ w < V + 1)); [|by left]. assert (w = V) as -> by lia. right.
    rewrite Z.sub_diag, Z.mul_0_l, Z.add_0_r. split; [done|]. split; [done|]. apply protected_entry. lia.
  - left. by apply (remap_others s p V 1 _ _ m' Hs Hl Hm).
Qed.

Lemma protect_same q w :
  live s q → 0 ≤ w < 1024 →
  present (leaf (kmem s') (table_of s' q) w) = present (leaf (kmem s) (table_of s q) w) ∧
  frame (leaf (kmem s') (table_of s' q) w) = frame (leaf (kmem s) (table_of s q) w).
Proof.
  intros Hq Hw. destruct (protect_leaf q w Hq Hw) as [->|(->&->&->)]; [done|].
  destruct protect_frame as [Hf _]. destruct (protected_entry (frame e)) as (_ & Ef & EP & _); [lia|]. by rewrite Ef, EP.
Qed.

Lemma protect_user_frames q : live s q → user_frames (kmem s') (table_of s' q) = user_frames (kmem s) (table_of s q).
Proof.
  intros Hq. apply frames_where_same. intros w Hw. apply protect_same; [done|lia].
Qed.

Lemma protect_safe : safe s'.
Proof.
  pose proof (remap_table_eq s p V 1 _ _ m' Hs Hl Hm) as Et. split.
  - apply (safe_pid s Hs).
  - by apply (remap_shape s p V 1 (frame e * 4096) PTE_PU).
  - intros q f Hq Hin. rewrite Et in Hin by done. by apply (safe_tables s Hs q f).
  - intros q w Hq Hw. destruct (protect_leaf q w Hq ltac:(lia)) as [->|(_&->&_)]; [|lia].
    by apply (safe_kernel s Hs).
  - intros q f Hq Hin. rewrite protect_user_frames in Hin by done. by apply (safe_frames s Hs q f).
  - intros q w Hq Hw Hwr. destruct (protect_leaf q w Hq ltac:(lia)) as [E|(->&->&E)]; rewrite E in Hwr |- *.
    + by apply (safe_writable s Hs).
    + destruct protect_frame as [Hf _]. destruct (protected_entry (frame e)) as (_ & _ & _ & EW); [lia|]. by rewrite EW in Hwr.
  - intros f Hf. change (pinfo s' f) with (pinfo s f).
    rewrite (remap_refs s p V 1 (frame e * 4096) PTE_PU) by done.
    rewrite (frames_of_live s' p Hl), (frames_of_live s p Hl), protect_user_frames, Et by done.
    pose proof (safe_refs s Hs f Hf). lia.
  - apply (safe_counts s Hs).
  - apply (safe_console s Hs).
Qed.
End protect.

(** What protecting the pages [v], ..., [v + k - 1] of a segment does: a segment
    without [ELF_PFLAG_WRITE] becomes read-only. *)
Definition guarded (flags e : Z) : Z := if has flags ELF_PFLAG_WRITE then e else frame e * 4096 + PTE_PU.

Record guards (flags : Z) (s s' : kstate) (v k : Z) : Prop := {
  gd_loads : loads p s s';
  gd_safe : safe (started p s');
  gd_mem : s' = set_kmem (kmem s') s;
  gd_table : table_of s' p = table_of s p;
  gd_leaf : ∀ w, 0 ≤ w < 1024 → leaf (kmem s') (table_of s p) w =
    if decide (v ≤ w < v + k) then guarded flags (leaf (kmem s) (table_of s p) w) else leaf (kmem s) (table_of s p) w;
  gd_bytes : ∀ va, user_page p s va → user_page p s' va ∧ ubyte p s' va = ubyte p s va }.

Lemma guards_refl flags s v : safe (started p s) → guards flags s s v 0.
Proof.
  intros Hs. split; try done; [by destruct s as [[]]|]. intros w Hw. by rewrite decide_False by lia.
Qed.

Lemma guards_trans flags s1 s2 s3 v k :
  0 ≤ k → guards flags s1 s2 v 1 → guards flags s2 s3 (v + 1) k → guards flags s1 s3 v (1 + k).
Proof.
  intros Hk [A1 A2 A3 A4 A5 A6] [B1 B2 B3 B4 B5 B6]. rewrite A4 in B5. split.
  - by transitivity s2.
  - done.
  - rewrite B3, A3. done.
  - congruence.
  - intros w Hw. rewrite B5, A5 by done. repeat case_decide; try done; lia.
  - intros va Hu. destruct (A6 va Hu) as [Hu2 <-]. by apply B6.
Qed.

Lemma guards_active flags s s' v k : guards flags s s' v k → active s → active s'.
Proof. intros G Hc. rewrite (gd_mem _ _ _ _ _ G). exact Hc. Qed.

Lemma protect_page_ok `{Devices} flags s addr :
  safe (started p s) → active s → low_tables (table_of s p) → own_page s addr → addr mod 4096 = 0 →
  ∃ s', on_machine (protect_page flags (p_pagetable (process s p)) addr) s = Ok () s' ∧
    guards flags s s' (addr / 4096) 1.
Proof.
  intros Hs Hc Hlow Hva Hal. unfold protect_page. destruct (has flags ELF_PFLAG_WRITE) eqn:EW.
  { exists s. split; [by apply on_machine_pure|]. split; try done; [by destruct s as [[]]|].
    intros w Hw. unfold guarded. rewrite EW. by case_decide. }
  pose proof (own_user s addr Hva) as Hu. pose proof (user_page_vpn _ _ _ Hu) as Hv.
  pose proof (started_live p s Hp) as Hl. destruct Hva as [Hr _].
  pose proof (protect_frame (started p s) (addr / 4096) Hs Hl Hv) as Hf. rewrite started_table in Hf.
  change (kmem (started p s)) with (kmem s) in Hf. specialize (Hf (proj2 Hu)) as [Hf _].
  set (e := leaf (kmem s) (table_of s p) (addr / 4096)) in *.
  pose proof (active_low s Hs Hc) as Hact. pose proof (own_shape_ok p Hp s Hs) as Hsh.
  assert (map_args addr (frame e * 4096) 4096 PTE_PU) as Hargs.
  { unfold map_args. rewrite Hal, Z.mod_mul by lia. change (4096 mod 4096) with 0. change PTE_PU with 5. lia. }
  destruct (map_ok (mach s) (table_of s p) addr (frame e * 4096) 4096 PTE_PU Hsh Hargs) as (m' & Em & Hm).
  { pose proof (Z.div_mod addr 4096). lia. }
  rewrite <- (map_through (mach s) _ Hact _ Hsh Hlow) in Em by (done || lia).
  change (4096 / 4096) with 1 in Hm. exists (set_kmem m' s). split.
  - apply on_machine_ok. rewrite <- table_of_root.
    erewrite bind_ok by (rewrite (lookup_through (mach s) _ Hact _ Hsh Hlow) by lia; apply lookup_leaf; [done|lia]).
    assert (pa (vamapping_of (leaf (mem (mach s)) (table_of s p) (addr / 4096)) addr) = frame e * 4096) as ->.
    { change (leaf (mem (mach s)) (table_of s p) (addr / 4096)) with e. unfold vamapping_of.
      pose proof (proj2 Hu) as HP. change (has e PTE_P = true) in HP. rewrite HP. cbn [pa].
      rewrite PAGEOFFSET_mod, Hal, Z.add_0_r, addr_page by apply leaf_range. apply u64_small. lia. }
    change PAGESIZE with 4096. by erewrite bind_ok by exact Em.
  - assert (safe (started p (set_kmem m' s))) as Hs'.
    { apply (protect_safe (started p s) (addr / 4096) m'); rewrite ?started_table; try done. apply Hu. }
    assert (∀ w, 0 ≤ w < 1024 → leaf m' (table_of s p) w =
      if decide (addr / 4096 ≤ w < addr / 4096 + 1) then frame e * 4096 + PTE_PU else leaf (kmem s) (table_of s p) w) as El.
    { intros w Hw. rewrite (mapped_leaf _ _ _ _ _ _ _ Hm) by done. case_decide; [|done].
      replace (w - addr / 4096) with 0 by lia. rewrite Z.mul_0_l, Z.add_0_r. apply protected_entry. lia. }
    split; try done.
    + by apply (mapped_loads p Hp s m' _ _ _ _ Hs Hm Hs').
    + by apply (mapped_table p s m' _ _ _ _ Hm).
    + intros w Hw. change (kmem (set_kmem m' s)) with m'. rewrite El by done. unfold guarded. rewrite EW.
      case_decide; [|done]. assert (w = addr / 4096) as -> by lia. done.
    + intros va Hva. pose proof (user_page_vpn _ _ _ Hva) as Hvv.
      pose proof (mapped_table p s m' _ _ _ _ Hm) as Et.
      assert (uleaf p (set_kmem m' s) va = leaf m' (table_of s p) (va / 4096)) as Ev by (unfold uleaf; by rewrite Et).
      destruct (protected_entry (frame e)) as (_ & Ef & EP & _); [lia|].
      assert (frame (leaf m' (table_of s p) (va / 4096)) = frame (uleaf p s va) ∧
        present (leaf m' (table_of s p) (va / 4096)) = true) as [E1 E2].
      { rewrite El by lia. case_decide; [|split; [done|apply Hva]].
        assert (va / 4096 = addr / 4096) as E by lia. unfold uleaf. rewrite E. by split. }
      split; [split; [apply Hva|by rewrite Ev]|].
      apply table_change_byte; try done. apply (mapped_agree _ _ _ _ _ _ _ Hm).
Qed.

Lemma protect_pages_ok `{Devices} n flags s addr end_mem :
  safe (started p s) → active s → low_tables (table_of s p) →
  addr mod 4096 = 0 → 0x100000 ≤ addr ≤ 0x400000 → end_mem ≤ 0x400000 →
  (∀ w, addr / 4096 ≤ w < addr / 4096 + pages_to addr end_mem → user_writable (leaf (kmem s) (table_of s p) w) = true) →
  pages_to addr end_mem < Z.of_nat n →
  ∃ s', on_machine (protect_pages n flags (p_pagetable (process s p)) addr end_mem) s = Ok () s' ∧
    guards flags s s' (addr / 4096) (pages_to addr end_mem).
Proof.
  revert s addr. induction n as [|n IH]; intros s addr Hs Hc Hlow Hal Ha He Hw Hn; [unfold pages_to in Hn; lia|].
  cbn [protect_pages]. destruct (Z.ltb_spec addr end_mem) as [Hlt|Hge].
  2: { rewrite pages_to_end by done. exists s. split; [by apply on_machine_pure|by apply guards_refl]. }
  destruct (pages_to_next addr end_mem Hlt) as [Hpos Hnext].
  pose proof (pages_to_bound addr end_mem Hal ltac:(lia) He).
  assert (0 ≤ addr / 4096) by (apply Z.div_pos; lia).
  assert (own_page s addr) as Hown by (split; [lia|apply Hw; lia]).
  destruct (protect_page_ok flags s addr Hs Hc Hlow Hown Hal) as (s1 & E & G1).
  assert (addr + 4096 ≤ 0x400000) as Ha' by (pose proof (Z.div_mod addr 4096); lia).
  assert ((addr + 4096) / 4096 = addr / 4096 + 1) as Ed by (rewrite <- (Z.div_add addr 1 4096); [done|lia]).
  assert (processes s1 = processes s) as Eps by (by rewrite (gd_mem _ _ _ _ _ G1)).
  rewrite on_machine_bind. erewrite bind_ok by exact E. change PAGESIZE with 4096. rewrite u64_small by lia.
  destruct (IH s1 (addr + 4096)) as (s2 & E2 & G2); try lia.
  - apply (gd_safe _ _ _ _ _ G1).
  - by apply (guards_active flags s s1 _ _ G1).
  - by rewrite (gd_table _ _ _ _ _ G1).
  - rewrite <- Z.add_mod_idemp_r by lia. change (4096 mod 4096) with 0. by rewrite Z.add_0_r.
  - intros w Hw'. rewrite Ed, Hnext in Hw'. rewrite (gd_table _ _ _ _ _ G1), (gd_leaf _ _ _ _ _ G1) by lia.
    rewrite decide_False by lia. apply Hw. lia.
  - unfold process in E2 |- *. rewrite Eps in E2. exists s2. split; [exact E2|].
    rewrite Ed, Hnext in G2. replace (pages_to addr end_mem) with (1 + (pages_to addr end_mem - 1)) by lia.
    apply (guards_trans flags s s1 s2); [lia|done|done].
Qed.

(** The loader cannot work on page tables out of its own reach: when the table of
    the process lies above [PROC_START_ADDR], at an address that the process has
    not mapped, protecting the first read-only page is a page fault of the
    kernel. *)
Theorem high_tables_fault `{Devices} flags s addr :
  let root := L1 (table_of s p) in
  safe (started p s) → active s → has flags ELF_PFLAG_WRITE = false → 0 ≤ addr < 0x400000 →
  0x100000 ≤ root → present (uleaf p s root) = false →
  on_machine (protect_page flags (p_pagetable (process s p)) addr) s = Halt (KernelFault root) s.
Proof.
  intros root Hs Hc HW Ha Hroot Habs. pose proof (own_shape_ok p Hp s Hs) as Hsh.
  destruct (shape_tables _ _ Hsh) as ((_ & _ & Hr) & _). fold root in Hr. change MEMSIZE_PHYSICAL with 0x200000 in Hr.
  assert (translate root PTE_P (mach s) = None) as Et.
  { rewrite (translate_user s root PTE_P Hs Hc) by (lia || (unfold access; apply elem_of_cons; by left)).
    destruct (Z.eqb_spec (Z.land (uleaf p s root) PTE_P) PTE_P) as [E|]; [|done].
    unfold present in Habs. rewrite (need_present (uleaf p s root) PTE_P) in Habs; [done| |done].
    unfold access. apply elem_of_cons. by left. }
  assert (virtual_memory_lookup (acc := through_cr3) root addr (mach s) = Halt (KernelFault root) (mach s)) as El.
  { unfold virtual_memory_lookup. apply bind_halt. cbn [lookup_loop].
    change (has (Z.lor (Z.lor PTE_W PTE_U) PTE_P) PTE_P) with true. cbn [andb Z.leb].
    apply bind_halt. unfold entry_at. erewrite bind_ok by (by apply pageindex_ok).
    destruct (index_small addr Ha) as (-> & _). rewrite Z.mul_0_r, Z.add_0_r. cbn [read_entry through_cr3].
    unfold vread. by rewrite Et. }
  rewrite <- table_of_root. unfold protect_page. rewrite HW. fold root.
  unfold on_machine, zoom. erewrite bind_halt by exact El. by destruct s as [[]].
Qed.

(** ** Installing page tables *)

Definition switched (c : Z) (s : kstate) : kstate := set_mach (set_cr3 c (mach s)) s.

Lemma switched_safe c s : safe (started p s) → safe (started p (switched c s)).
Proof. intros Hs. apply (core_safe (started p s)); [done|]. by split. Qed.

Lemma switched_loads c s : loads p s (switched c s).
Proof. split; try done. apply switched_safe. Qed.

Lemma install_ok `{Devices} (L : Layout) s :
  LayoutOk L → kernel_ok s → safe (started p s) →
  on_machine (set_pagetable (p_pagetable (process s p))) s = Ok () (switched (p_pagetable (process s p)) s).
Proof.
  intros HL Hk Hs. apply on_machine_run. rewrite <- table_of_root.
  apply (set_pagetable_run L (mach s) (table_of s p) kernel_shape HL).
  - by apply own_shape_ok.
  - intros w Hw. destruct (safe_kernel _ Hs p w (started_live p s Hp) Hw) as (EA & EP & _).
    rewrite started_table in EA, EP. by split.
  - apply (ko_shape s Hk).
  - apply (ko_identity s Hk).
  - unfold kernel_shape. cbn [L1]. lia.
  - rewrite (ko_root s Hk). unfold kernel_shape. cbn [L1]. lia.
Qed.

Lemma kernel_low_tables (L : Layout) : LayoutOk L → low_tables kernel_shape.
Proof.
  intros HL. pose proof (kernel_pagetables_data (L := L)). pose proof (end_stack (L := L)).
  change (KERNEL_STACK_TOP - PAGESIZE) with 0x7F000 in *.
  unfold low_tables, pt_pages, kernel_shape. cbn [L1 L2 L3 L4_1 L4_2]. change PAGESIZE with 4096 in *.
  repeat (apply List.Forall_cons; [lia|]). by apply List.Forall_nil.
Qed.

(** Back to the kernel's page table; its lookups run under the process's. *)
Lemma restore_ok `{Devices} (L : Layout) s :
  LayoutOk L → kernel_ok s → safe (started p s) → active s →
  on_machine (set_pagetable (acc := through_cr3) (kernel_pagetable (mach s))) s = Ok () (switched (kernel_pagetable (mach s)) s).
Proof.
  intros HL Hk Hs Hc. apply on_machine_run. assert (L1 kernel_shape = kernel_pagetables) as EL
    by (unfold kernel_shape; cbn [L1]; lia).
  rewrite (ko_root s Hk), <- EL.
  apply (set_pagetable_through L (mach s) _ kernel_shape HL (active_low s Hs Hc)); try apply Hk; try done.
  - by apply (kernel_low_tables L).
  - by rewrite EL, (ko_root s Hk).
Qed.

(** ** A segment

    [seg_va] is the address the loader starts at: the segment's, rounded down. *)

Definition seg_va (ph : elf_program) : Z := p_va ph - p_va ph mod 4096.
Definition end_file (ph : elf_program) : Z := p_va ph + p_filesz ph.
Definition end_mem (ph : elf_program) : Z := p_va ph + p_memsz ph.
Definition seg_pages (ph : elf_program) : Z := pages_to (seg_va ph) (end_mem ph).

(** A segment of the user address space whose bytes are in the memory [ok]. *)
Record segment_fits (ok : Z → Prop) (ph : elf_program) (src : Z) : Prop := {
  sf_start : 0x100000 ≤ p_va ph;
  sf_sizes : 0 ≤ p_filesz ph ≤ p_memsz ph;
  sf_end : end_mem ph ≤ 0x400000;
  sf_src : ∀ i, 0 ≤ i < end_file ph - seg_va ph → ok (src + i) }.

(** The loader's result, as the process sees it. *)
Record segment_loaded (ph : elf_program) (src : Z) (s s' : kstate) : Prop := {
  sl_loads : loads p s s';
  sl_safe : safe (started p s');
  sl_mach : mach s' = set_cr3 (kernel_pagetable (mach s)) (set_mem (kmem s') (mach s));
  sl_table : table_of s' p = table_of s p;
  sl_free : nfree s' = nfree s - seg_pages ph;
  sl_entry : ∀ w, seg_va ph / 4096 ≤ w < seg_va ph / 4096 + seg_pages ph →
    present (leaf (kmem s') (table_of s p) w) = true ∧ has (leaf (kmem s') (table_of s p) w) PTE_U = true ∧
    has (leaf (kmem s') (table_of s p) w) PTE_W = has (p_flags ph) ELF_PFLAG_WRITE;
  sl_old : ∀ w, 0 ≤ w < 1024 → ¬ (seg_va ph / 4096 ≤ w < seg_va ph / 4096 + seg_pages ph) →
    leaf (kmem s') (table_of s p) w = leaf (kmem s) (table_of s p) w;
  sl_bytes : ∀ a, seg_va ph ≤ a < end_mem ph →
    ubyte p s' a = if decide (a < end_file ph) then load8 (kmem s) (src + (a - seg_va ph)) else 0;
  sl_others : ∀ a, user_page p s a → ¬ (seg_va ph / 4096 ≤ a / 4096 < seg_va ph / 4096 + seg_pages ph) →
    ubyte p s' a = ubyte p s a }.

Lemma guarded_flags flags e :
  0 ≤ frame e < 512 → user_writable e = true →
  present (guarded flags e) = true ∧ has (guarded flags e) PTE_U = true ∧
  has (guarded flags e) PTE_W = has flags ELF_PFLAG_WRITE.
Proof.
  intros Hf Hu. unfold guarded. unfold user_writable in Hu. rewrite !andb_true_iff in Hu. destruct Hu as [[HP HW] HU].
  destruct (has flags ELF_PFLAG_WRITE); [done|].
  assert (frame e * 4096 mod 4096 = 0) as Hal by (by apply Z.mod_mul). change PTE_PU with 5.
  unfold present. rewrite <- !(has_flags (frame e * 4096 + 5)) by done.
  by rewrite PTE_FLAGS_entry by (done || lia).
Qed.

(** Copying the segment into pages the process can write. *)
Lemma copy_segment_ok s va ef em src :
  safe (started p s) → active s → va ≤ ef ≤ em →
  (∀ a, va ≤ a < em → own_page s a) →
  (∀ i, 0 ≤ i < ef - va → kernel_memory s (src + i)) →
  ∃ s1 s2, on_machine (vmemcpy_loop (Z.to_nat (ef - va)) va src) s = Ok () s1 ∧
    on_machine (vmemset_loop (Z.to_nat (em - ef)) ef 0) s1 = Ok () s2 ∧ fills s s2 ∧
    ∀ a, user_page p s a → ubyte p s2 a =
      if decide (va ≤ a < em) then (if decide (a < ef) then load8 (kmem s) (src + (a - va)) else 0) else ubyte p s a.
Proof.
  intros Hs Hc Hord Hown Hsrc.
  destruct (vmemcpy_ok (Z.to_nat (ef - va)) va src s Hs Hc) as (s1 & E1 & F1 & B1).
  { intros i Hi. apply Hown. lia. }
  { intros i Hi. apply Hsrc. lia. }
  destruct (vmemset_ok (Z.to_nat (em - ef)) ef 0 s1 (fl_safe _ _ F1) (active_fills _ _ F1 Hc)) as (s2 & E2 & F2 & B2).
  { intros i Hi. apply (fills_own s s1 _ F1), Hown. lia. }
  exists s1, s2. split; [exact E1|]. split; [exact E2|]. split; [by apply (fills_trans s s1)|].
  intros a Ha. rewrite B2 by (by apply (fills_user s)). rewrite B1 by done.
  repeat case_decide; try lia; done.
Qed.

(** The addresses the loader computes. *)
Lemma seg_facts ok ph src :
  segment_fits ok ph src →
  seg_va ph mod 4096 = 0 ∧ 0x100000 ≤ seg_va ph ≤ 0x400000 ∧ seg_va ph ≤ end_file ph ≤ end_mem ph ∧
  Z.land (p_va ph) (u64 (Z.lnot (PAGESIZE - 1))) = seg_va ph ∧
  u64 (p_va ph + p_filesz ph) = end_file ph ∧ u64 (p_va ph + p_memsz ph) = end_mem ph ∧
  u64 (end_file ph - seg_va ph) = end_file ph - seg_va ph ∧ u64 (end_mem ph - end_file ph) = end_mem ph - end_file ph.
Proof.
  intros [Hva Hsz Hend _]. unfold end_file, end_mem, seg_va in *.
  pose proof (Z.mod_pos_bound (p_va ph) 4096) as Hmod. pose proof (Z.div_mod (p_va ph) 4096) as Hdm.
  assert (p_va ph - p_va ph mod 4096 = p_va ph / 4096 * 4096) as E by lia.
  assert (256 ≤ p_va ph / 4096) by (apply Z.div_le_lower_bound; lia).
  split; [rewrite E; by apply Z.mod_mul|]. split; [lia|]. split; [lia|].
  split; [exact (PTE_ADDR_sub (p_va ph) ltac:(lia))|]. rewrite !u64_small by lia. done.
Qed.

(** The steps of the loader, put together. *)
Lemma segment_result ph src s s1 s4 s5 :
  let pt := p_pagetable (process s p) in let s2 := switched pt s1 in
  let k := seg_pages ph in let v := seg_va ph / 4096 in
  segment_fits (kernel_memory s) ph src → grows p s s1 v k → fills s2 s4 → guards (p_flags ph) s4 s5 v k →
  (∀ a, user_page p s2 a → ubyte p s4 a =
    if decide (seg_va ph ≤ a < end_mem ph)
    then (if decide (a < end_file ph) then load8 (kmem s2) (src + (a - seg_va ph)) else 0) else ubyte p s2 a) →
  segment_loaded ph src s (switched (kernel_pagetable (mach s5)) s5).
Proof.
  intros pt s2 k v Hfit G1 F G B. destruct (seg_facts _ ph src Hfit) as (Hal & Hva & Hord & _).
  pose proof (pages_to_bound (seg_va ph) (end_mem ph) Hal ltac:(lia) (sf_end _ _ _ Hfit)) as Hpb.
  assert (loads p s s2) as Hl2 by (transitivity s1; [apply G1|apply switched_loads]).
  assert (loads p s s5) as Hl5 by (transitivity s2; [done|transitivity s4; [apply F|apply G]]).
  assert (table_of s2 p = table_of s p) as Et2 by apply (gr_table _ _ _ _ _ G1).
  assert (table_of s4 p = table_of s p) as Et4 by (by rewrite (fl_table _ _ F)).
  assert (∀ w, 0 ≤ w < 1024 → leaf (kmem s5) (table_of s p) w = if decide (v ≤ w < v + k)
    then guarded (p_flags ph) (leaf (kmem s1) (table_of s p) w) else leaf (kmem s1) (table_of s p) w) as El.
  { intros w Hw. pose proof (gd_leaf _ _ _ _ _ G w Hw) as E. rewrite Et4 in E. rewrite E.
    pose proof (fl_leaf _ _ F w Hw) as E'. rewrite Et2 in E'. by rewrite E'. }
  assert (0 ≤ v) as Hv0 by (apply Z.div_pos; lia).
  assert (v + k ≤ 1024) as Hvk by exact Hpb.
  split.
  - transitivity s5; [done|apply switched_loads].
  - apply switched_safe. apply (gd_safe _ _ _ _ _ G).
  - cbn. rewrite (gd_mem _ _ _ _ _ G), (fl_mem _ _ F). cbn. by rewrite (gr_machine _ _ _ _ _ G1).
  - change (table_of s5 p = table_of s p). by rewrite (gd_table _ _ _ _ _ G).
  - change (nfree s5 = nfree s - k). rewrite <- (gr_free _ _ _ _ _ G1). by rewrite (gd_mem _ _ _ _ _ G), (fl_mem _ _ F).
  - intros w Hw. change (kmem (switched _ s5)) with (kmem s5). rewrite El by lia. rewrite decide_True by done.
    pose proof (gr_new _ _ _ _ _ G1 w Hw) as Hu. apply guarded_flags; [|done].
    pose proof (user_frame_counted (started p s1) p w (gr_safe _ _ _ _ _ G1) (started_live p s1 Hp)) as Hf.
    rewrite started_table, (gr_table _ _ _ _ _ G1) in Hf.
    assert (256 ≤ v) by (apply Z.div_le_lower_bound; lia).
    change (kmem (started p s1)) with (kmem s1) in Hf.
    destruct Hf as (? & _); [lia|by apply user_writable_bits|]. lia.
  - intros w Hw Hout. change (kmem (switched _ s5)) with (kmem s5). rewrite El by done.
    rewrite decide_False by done. by apply (gr_old _ _ _ _ _ G1).
  - intros a Ha. pose proof (pages_to_cover _ _ a Hal Ha) as Hc.
    assert (user_page p s2 a) as Hu.
    { pose proof (sf_end _ _ _ Hfit). split; [lia|]. apply user_writable_bits. unfold uleaf. rewrite Et2.
      by apply (gr_new _ _ _ _ _ G1). }
    change (ubyte p s5 a = if decide (a < end_file ph) then load8 (kmem s) (src + (a - seg_va ph)) else 0).
    rewrite (proj2 (gd_bytes _ _ _ _ _ G a (fills_user _ _ _ F Hu))), B, decide_True by done.
    case_decide; [|done]. symmetry. apply (lo_kernel _ _ _ Hl2). apply (sf_src _ _ _ Hfit). lia.
  - intros a Hu Hout. change (ubyte p s5 a = ubyte p s a). pose proof (user_page_vpn _ _ _ Hu).
    assert (user_page p s2 a) as Hu2.
    { split; [apply Hu|]. unfold uleaf. rewrite Et2. change (kmem s2) with (kmem s1).
      rewrite (gr_old _ _ _ _ _ G1) by (done || lia). apply Hu. }
    rewrite (proj2 (gd_bytes _ _ _ _ _ G a (fills_user _ _ _ F Hu2))), B by done. rewrite decide_False.
    + by apply (gr_bytes _ _ _ _ _ G1).
    + intros Ha. by apply Hout, pages_to_cover.
Qed.

(** [program_load_segment] succeeds and the segment is loaded. *)
Lemma program_load_segment_ok `{Devices} (L : Layout) s ph src :
  LayoutOk L → kernel_ok s → safe (started p s) → low_tables (table_of s p) →
  segment_fits (kernel_memory s) ph src → seg_pages ph ≤ nfree s →
  ∃ s', program_load_segment p ph src s = Ok 0 s' ∧ segment_loaded ph src s s'.
Proof.
  intros HL Hk Hs Hlow Hfit Hfree. destruct (seg_facts _ ph src Hfit) as (Hal & Hva & Hord & Eva & Eef & Eem & E1 & E2).
  pose proof (sf_end _ _ _ Hfit) as Hend. pose proof (sf_src _ _ _ Hfit) as Hsrc.
  unfold program_load_segment, seg_pages in *.
  set (va := seg_va ph) in *. set (ef := end_file ph) in *. set (em := end_mem ph) in *. set (k := pages_to va em) in *.
  pose proof (pages_to_bound va em Hal ltac:(lia) Hend) as Hpb. fold k in Hpb.
  assert (k < Z.of_nat page_fuel) as Hfuel by (unfold page_fuel; change (NPAGES + 1) with 513; pose proof (nfree_range s); lia).
  assert (p_pid (process s p) = p) as Epid.
  { pose proof (safe_pid _ Hs p (started_live p s Hp)) as E. by rewrite started_process, decide_True in E. }
  destruct (load_pages_ok p Hp page_fuel s va em Hs Hal ltac:(lia) Hend ltac:(lia) Hfuel Hfree) as (s1 & Ld & G1).
  fold k in G1. set (pt := p_pagetable (process s p)) in *.
  pose proof (kernel_ok_loads L HL p s s1 Hk (gr_loads _ _ _ _ _ G1)) as Hk1.
  pose proof (install_ok L s1 HL Hk1 (gr_safe _ _ _ _ _ G1)) as In.
  rewrite (grows_pagetable p s s1 _ _ G1) in In. fold pt in In. set (s2 := switched pt s1) in *.
  pose proof (switched_safe pt s1 (gr_safe _ _ _ _ _ G1)) as Hs2. fold s2 in Hs2.
  assert (loads p s s2) as Hl2 by (transitivity s1; [apply G1|apply switched_loads]).
  assert (p_pagetable (process s2 p) = pt) as Ep2 by (unfold process; by rewrite (lo_processes _ _ _ Hl2)).
  assert (table_of s2 p = table_of s p) as Et2 by apply (gr_table _ _ _ _ _ G1).
  assert (∀ a, va ≤ a < em → own_page s2 a) as Hown.
  { intros a Ha. split; [lia|]. unfold uleaf. rewrite Et2. apply (gr_new _ _ _ _ _ G1). by apply pages_to_cover. }
  destruct (copy_segment_ok s2 va ef em src Hs2) as (s3 & s4 & Cp & St & F & B); try done.
  { intros i Hi. apply (kept_memory s); [by apply (lo_kept p)|by apply Hsrc]. }
  assert (active s2) as Hc2 by (by rewrite Ep2).
  destruct (protect_pages_ok page_fuel (p_flags ph) s4 va em (fl_safe _ _ F)) as (s5 & Pr & G); [| |done|lia|done| |done|].
  { by apply (active_fills s2). }
  { by rewrite (fl_table _ _ F), Et2. }
  { intros w Hw. rewrite (fl_table _ _ F), (fl_leaf _ _ F) by (pose proof (Z.div_pos va 4096); lia).
    rewrite Et2. by apply (gr_new _ _ _ _ _ G1). }
  fold k in G. rewrite (fills_pagetable s2 s4 F), Ep2 in Pr.
  assert (loads p s s5) as Hl5 by (transitivity s2; [done|transitivity s4; [apply F|apply G]]).
  pose proof (restore_ok L s5 HL (kernel_ok_loads L HL p s s5 Hk Hl5) (gd_safe _ _ _ _ _ G)
    (guards_active _ _ _ _ _ G (active_fills _ _ F Hc2))) as Rs.
  exists (switched (kernel_pagetable (mach s5)) s5). split.
  - erewrite bind_ok by reflexivity. rewrite Eva, Eef, Eem. cbv zeta. rewrite E1, E2, Epid. fold pt.
    erewrite bind_ok by exact Ld. cbn [negb]. erewrite bind_ok by exact In. erewrite bind_ok by exact Cp.
    erewrite bind_ok by exact St. erewrite bind_ok by exact Pr. erewrite bind_ok by reflexivity.
    by erewrite bind_ok by exact Rs.
  - exact (segment_result ph src s s1 s4 s5 Hfit G1 F G B).
Qed.
End through.
