(* ===== verification/Elf.v ===== *)
(** The ELF images of [src/elf.h] that the loader reads: their headers, their
    segments, and when an image is well formed. *)
From S2P Require Import Prelude X86 Machine CLib Printf Hardware PageTable Frames ElfFormat Loader Through Load Segment.
Open Scope Z_scope.

(** ** Images in memory *)

Definition loadable (m : gmap Z Z) (eh i : Z) : Prop :=
  0 ≤ i < phnum m eh ∧ p_type (segment m eh i) = ELF_PTYPE_LOAD.

#[global] Instance loadable_dec m eh i : Decision (loadable m eh i).
Proof. unfold loadable. apply _. Defined.

Definition in_pages_of (ph : elf_program) (w : Z) : Prop :=
  seg_va ph / 4096 ≤ w < seg_va ph / 4096 + seg_pages ph.

(** The pages of segment [i]. *)
Definition in_segment (m : gmap Z Z) (eh i w : Z) : Prop := in_pages_of (segment m eh i) w.

(** The pages that the segments before [n] take. *)
Definition pages_before (m : gmap Z Z) (eh n : Z) : Z :=
  zsum (λ i, if decide (loadable m eh i) then seg_pages (segment m eh i) else 0) (seqZ 0 n).

Definition range (ok : Z → Prop) (a n : Z) : Prop := ∀ b, a ≤ b < a + n → ok b.

(** A well-formed image: its headers and segments are in the memory [ok],
    its segments are for the user address space and share no page. *)
Record image_in (ok : Z → Prop) (m : gmap Z Z) (eh : Z) : Prop := {
  im_magic : load 4 m eh = ELF_MAGIC;
  im_header : range ok eh 64;
  im_phdrs : range ok (eh + phoff m eh) (56 * phnum m eh);
  im_phoff : 0 ≤ eh + phoff m eh < 2 ^ 64;
  im_fits : ∀ i, loadable m eh i →
    segment_fits ok (segment m eh i) (eh + p_offset (segment m eh i)) ∧
    0 ≤ eh + p_offset (segment m eh i) < 2 ^ 64;
  im_disjoint : ∀ i j w, loadable m eh i → loadable m eh j → i ≠ j →
    in_segment m eh i w → ¬ in_segment m eh j w }.

Lemma pages_before_next m eh i :
  0 ≤ i → pages_before m eh (i + 1) = pages_before m eh i + (if decide (loadable m eh i) then seg_pages (segment m eh i) else 0).
Proof.
  intros Hi. unfold pages_before. rewrite seqZ_app, zsum_app by lia. f_equal.
  change (seqZ (0 + i) 1) with [0 + (0 + i)]. cbn [zsum]. rewrite !Z.add_0_l. lia.
Qed.

Lemma seg_pages_nonneg ph : 0 ≤ seg_pages ph.
Proof. unfold seg_pages, pages_to. lia. Qed.

Lemma pages_before_mono m eh i k : 0 ≤ i → 0 ≤ k → pages_before m eh i ≤ pages_before m eh (i + k).
Proof.
  intros Hi Hk. unfold pages_before. rewrite seqZ_app, zsum_app by lia.
  assert (0 ≤ zsum (λ j, if decide (loadable m eh j) then seg_pages (segment m eh j) else 0) (seqZ (0 + i) k)); [|lia].
  apply zsum_nonneg. intros x _. case_decide; [apply seg_pages_nonneg|done].
Qed.

(** The image is the same while its memory is. *)
Section same.
Context (ok ok' : Z → Prop) (m m' : gmap Z Z) (eh : Z).
Context (Him : image_in ok m eh) (Hok : ∀ b, ok b → ok' b) (Ha : agree ok m m').

Lemma same_range a n : range ok a n → range ok' a n.
Proof. intros Hr b Hb. by apply Hok, Hr. Qed.

Lemma same_load a n k b : range ok a n → a ≤ b → b + Z.of_nat k ≤ a + n → load k m' b = load k m b.
Proof. intros Hr ? ?. apply load_agree. intros c Hc. symmetry. apply Ha, Hr. lia. Qed.

Lemma same_phnum : phnum m' eh = phnum m eh.
Proof. apply (same_load eh 64); (lia || apply Him). Qed.

Lemma same_phoff : phoff m' eh = phoff m eh.
Proof. apply (same_load eh 64); (lia || apply Him). Qed.

Lemma same_segment i : 0 ≤ i < phnum m eh → segment m' eh i = segment m eh i.
Proof.
  intros Hi. unfold segment, phdr. rewrite same_phoff. by rewrite !(same_load _ _ _ _ (im_phdrs _ _ _ Him)) by lia.
Qed.

Lemma same_loadable i : loadable m' eh i ↔ loadable m eh i.
Proof. unfold loadable. rewrite same_phnum. split; intros [Hi E]; (split; [done|]); by rewrite same_segment in *. Qed.

Lemma same_pages n : pages_before m' eh n = pages_before m eh n.
Proof.
  apply zsum_ext. intros i _. destruct (decide (loadable m eh i)) as [Hl|Hl].
  - rewrite decide_True by (by apply same_loadable). by rewrite same_segment by apply Hl.
  - by rewrite decide_False by (by rewrite same_loadable).
Qed.

Lemma same_fits ph src : segment_fits ok ph src → segment_fits ok' ph src.
Proof. intros [A1 A2 A3 A4]. split; try done. intros i Hi. by apply Hok, A4. Qed.

Lemma same_image : image_in ok' m' eh.
Proof.
  destruct Him as [A1 A2 A3 A4 A5 A6]. split.
  - by rewrite (same_load eh 64) by (done || lia).
  - by apply same_range.
  - rewrite same_phoff, same_phnum. by apply same_range.
  - by rewrite same_phoff.
  - intros i Hi%same_loadable. rewrite same_segment by apply Hi. destruct (A5 i Hi). split; [by apply same_fits|done].
  - intros i j w Hi%same_loadable Hj%same_loadable Hij. unfold in_segment.
    rewrite !same_segment by (apply Hi || apply Hj). by apply A6.
Qed.
End same.
