(* ===== verification/Image.v ===== *)
(** [program_load] of [src/k-loader.c]: the address space of a process holds the
    segments of the ELF image ([src/elf.h]) it is started from. *)
From S2P Require Import Prelude X86 Machine CLib Printf Hardware PageTable Frames Syscalls Isolation Demo Duplicate Fork ForkSafe Exit PageAlloc Canonical Mmu Contracts Mapping AddressSpace Display ElfFormat Loader Through Load Segment Elf.
Open Scope Z_scope.

#[local] Opaque frames_where.

(** An image in the memory of the kernel. *)
Definition image_ok (s : kstate) (eh : Z) : Prop := image_in (kernel_memory s) (kmem s) eh.

Lemma kept_image s s' eh : kernel_kept s s' → image_ok s eh → image_ok s' eh.
Proof.
  intros Hk Him. apply (same_image (kernel_memory s) _ (kmem s)); [done| |by apply kept_agree].
  intros b. by apply kept_memory.
Qed.

Lemma kernel_read s a n k b :
  range (kernel_memory s) a n → a ≤ b → 0 < Z.of_nat k → b + Z.of_nat k ≤ a + n → on_machine (read k b) s = Ok (load k (kmem s) b) s.
Proof.
  intros Hr Ha Hk Hb. apply on_machine_pure.
  destruct (Hr b ltac:(lia)) as [? _]. destruct (Hr (b + Z.of_nat k - 1) ltac:(lia)) as [? _].
  by rewrite read_ok by lia.
Qed.

Lemma read_phdr s a n b :
  range (kernel_memory s) a n → a ≤ b → b + 56 ≤ a + n → on_machine (read_elf_program b) s = Ok (phdr (kmem s) b) s.
Proof.
  intros Hr Ha Hb. unfold read_elf_program.
  do 6 (rewrite on_machine_bind; erewrite bind_ok by (apply (kernel_read _ a n); [done|lia..])).
  by apply on_machine_pure.
Qed.

(** What a process sees of a segment whose bytes are at [src] in [m]. *)
Record visible (p : Z) (ph : elf_program) (src : Z) (m : gmap Z Z) (s : kstate) : Prop := {
  vi_entry : ∀ w, in_pages_of ph w →
    present (leaf (kmem s) (table_of s p) w) = true ∧ has (leaf (kmem s) (table_of s p) w) PTE_U = true ∧
    has (leaf (kmem s) (table_of s p) w) PTE_W = has (p_flags ph) ELF_PFLAG_WRITE;
  vi_bytes : ∀ a, seg_va ph ≤ a < end_mem ph →
    ubyte p s a = if decide (a < end_file ph) then load8 m (src + (a - seg_va ph)) else 0 }.

(** A change elsewhere does not matter. *)
Lemma visible_kept p ph src m s s' ok :
  segment_fits ok ph src → visible p ph src m s → table_of s' p = table_of s p →
  (∀ w, 0 ≤ w < 1024 → in_pages_of ph w → leaf (kmem s') (table_of s p) w = leaf (kmem s) (table_of s p) w) →
  (∀ a, user_page p s a → in_pages_of ph (a / 4096) → ubyte p s' a = ubyte p s a) → visible p ph src m s'.
Proof.
  intros Hfit [Ve Vb] Et El Eb. destruct (seg_facts ok ph src Hfit) as (Hal & Hva & _).
  pose proof (pages_to_bound _ _ Hal ltac:(lia) (sf_end _ _ _ Hfit)) as Hb. pose proof (sf_end _ _ _ Hfit).
  assert (0 ≤ seg_va ph / 4096) by (apply Z.div_pos; lia). split.
  - intros w Hw. pose proof Hw as Hw'. unfold in_pages_of, seg_pages in Hw'. rewrite Et, El by (done || lia). by apply Ve.
  - intros a Ha. pose proof (pages_to_cover _ _ a Hal Ha) as Hc. rewrite Eb; [by apply Vb| |exact Hc].
    split; [lia|]. by apply (Ve (a / 4096)).
Qed.

Lemma visible_image p ph src ok m m' s :
  segment_fits ok ph src → agree ok m m' → visible p ph src m' s → visible p ph src m s.
Proof.
  intros Hfit Ha [Ve Vb]. split; [done|]. intros a Hin. rewrite Vb by done. case_decide; [|done].
  symmetry. apply Ha, (sf_src _ _ _ Hfit). lia.
Qed.

(** The segments before [n] are loaded. *)
Record image_loaded (p eh n : Z) (s s' : kstate) : Prop := {
  il_loads : loads p s s';
  il_safe : safe (started p s');
  il_mach : mach s' = set_mem (kmem s') (mach s);
  il_table : table_of s' p = table_of s p;
  il_free : nfree s' = nfree s - pages_before (kmem s) eh n;
  il_visible : ∀ i, i < n → loadable (kmem s) eh i →
    visible p (segment (kmem s) eh i) (eh + p_offset (segment (kmem s) eh i)) (kmem s) s';
  il_old : ∀ w, 0 ≤ w < 1024 → (∀ i, i < n → loadable (kmem s) eh i → ¬ in_segment (kmem s) eh i w) →
    leaf (kmem s') (table_of s p) w = leaf (kmem s) (table_of s p) w }.

Section image.
Context `{Devices} (L : Layout) (HL : LayoutOk L) (p : Z) (Hp : 1 ≤ p < 16).

Lemma image_start eh s : safe (started p s) → image_loaded p eh 0 s s.
Proof.
  intros Hs. split; try done.
  - by destruct s as [[]].
  - change (pages_before (kmem s) eh 0) with 0. lia.
  - intros i Hi [Hi' _]. lia.
Qed.

(** A header that is not loadable changes nothing. *)
Lemma image_skip eh i s si :
  0 ≤ i → image_loaded p eh i s si → ¬ loadable (kmem s) eh i → image_loaded p eh (i + 1) s si.
Proof.
  intros Hi [A1 A2 A3 A4 A5 A6 A7] Hno. split; try done.
  - rewrite pages_before_next, decide_False by done. lia.
  - intros j Hj Hl. destruct (decide (j = i)) as [->|]; [done|]. apply A6; [lia|done].
  - intros w Hw Hall. apply A7; [done|]. intros j Hj. apply Hall. lia.
Qed.

(** One more segment: those loaded before stay, as they share no page with it. *)
Lemma image_next eh i s si s' :
  let ph := segment (kmem s) eh i in
  image_ok s eh → image_loaded p eh i s si → loadable (kmem s) eh i →
  cr3 (mach s) = kernel_pagetable (mach s) →
  segment_loaded p ph (eh + p_offset ph) si s' → image_loaded p eh (i + 1) s s'.
Proof.
  intros ph Him Hi Hl Hc Hsl. pose proof (il_loads _ _ _ _ _ Hi) as Hlo. destruct (im_fits _ _ _ Him i Hl) as [Hfit _].
  fold ph in Hfit. pose proof (seg_facts _ ph _ Hfit) as (Hal & Hva & Hord & _).
  split.
  - transitivity si; [done|apply Hsl].
  - apply (sl_safe _ _ _ _ _ Hsl).
  - rewrite (sl_mach _ _ _ _ _ Hsl), (il_mach _ _ _ _ _ Hi). cbn. rewrite <- Hc. by destruct (mach s).
  - by rewrite (sl_table _ _ _ _ _ Hsl), (il_table _ _ _ _ _ Hi).
  - rewrite (sl_free _ _ _ _ _ Hsl), (il_free _ _ _ _ _ Hi), pages_before_next, decide_True by (done || apply Hl).
    fold ph. lia.
  - intros j Hj Hlj. destruct (decide (j = i)) as [->|Hne].
    + apply (visible_image p _ _ _ _ (kmem si) s' Hfit (kept_agree _ _ (lo_kept _ _ _ Hlo))). split; [|apply Hsl].
      rewrite (sl_table _ _ _ _ _ Hsl). apply Hsl.
    + destruct (im_fits _ _ _ Him j Hlj) as [Hfj _].
      assert (∀ w, in_segment (kmem s) eh j w → ¬ in_pages_of ph w) as Hdis
        by (intros w; by apply (im_disjoint _ _ _ Him j i w Hlj Hl Hne)).
      apply (visible_kept p _ _ _ si s' _ Hfj (il_visible _ _ _ _ _ Hi j ltac:(lia) Hlj)).
      * apply Hsl.
      * intros w Hw Hin. apply (sl_old _ _ _ _ _ Hsl w Hw). by apply Hdis.
      * intros a Ha Hin. apply (sl_others _ _ _ _ _ Hsl a Ha). by apply Hdis.
  - intros w Hw Hall. rewrite <- (il_table _ _ _ _ _ Hi). rewrite (sl_old _ _ _ _ _ Hsl w Hw).
    + rewrite (il_table _ _ _ _ _ Hi). apply (il_old _ _ _ _ _ Hi); [done|]. intros j Hj. apply Hall. lia.
    + apply (Hall i); [lia|done].
Qed.

(** The loop over the program headers. *)
Lemma load_segments_ok n eh i s si :
  image_ok s eh → kernel_ok s → cr3 (mach s) = kernel_pagetable (mach s) →
  low_tables (table_of s p) → image_loaded p eh i s si → 0 ≤ i ≤ phnum (kmem s) eh → phnum (kmem s) eh - i < Z.of_nat n →
  pages_before (kmem s) eh (phnum (kmem s) eh) ≤ nfree s →
  ∃ s', load_segments n i p eh (u64 (eh + phoff (kmem s) eh)) si = Ok true s' ∧
    image_loaded p eh (phnum (kmem s) eh) s s'.
Proof.
  intros Him Hk Hc Hlow. revert i si. induction n as [|n IH]; intros i si Hi Hr Hn Hfree; [lia|].
  pose proof (lo_kept _ _ _ (il_loads _ _ _ _ _ Hi)) as Hl. cbn [load_segments].
  pose proof (same_range _ _ (λ b, kept_memory s si b Hl) _ _ (im_header _ _ _ Him)) as Hh.
  pose proof (same_range _ _ (λ b, kept_memory s si b Hl) _ _ (im_phdrs _ _ _ Him)) as Hp'.
  erewrite bind_ok by (apply (kernel_read _ eh 64); [exact Hh|lia..]).
  rewrite (same_load _ _ (kmem si) (kept_agree s si Hl) eh 64) by (apply Him || lia). fold (phnum (kmem s) eh).
  destruct (Z.ltb_spec i (phnum (kmem s) eh)) as [Hlt|Hge]; cbn [negb].
  2: { assert (i = phnum (kmem s) eh) as -> by lia. by exists si. }
  rewrite u64_small by apply Him.
  erewrite bind_ok by (apply (read_phdr _ _ _ _ Hp'); lia).
  assert (phdr (kmem si) (eh + phoff (kmem s) eh + 56 * i) = segment (kmem s) eh i) as ->.
  { unfold segment, phdr. rewrite !(same_load _ _ (kmem si) (kept_agree s si Hl) _ _ _ _ (im_phdrs _ _ _ Him)) by lia. done. }
  set (ph := segment (kmem s) eh i) in *.
  assert (∀ m (si' : kstate), m si = Ok 0 si' → image_loaded p eh (i + 1) s si' → ∃ s',
    (r ← m; if r <? 0 then mret false else load_segments n (i + 1) p eh (u64 (eh + phoff (kmem s) eh))) si = Ok true s' ∧
    image_loaded p eh (phnum (kmem s) eh) s s') as Hgo.
  { intros m si' E Hi'. destruct (IH (i + 1) si' Hi' ltac:(lia) ltac:(lia) Hfree) as (s' & E' & H').
    exists s'. split; [|done]. by erewrite bind_ok by exact E. }
  rewrite u64_small in Hgo by apply Him. destruct (Z.eqb_spec (p_type ph) ELF_PTYPE_LOAD) as [Et|Et].
  - assert (loadable (kmem s) eh i) as Hload by (split; [lia|exact Et]). destruct (im_fits _ _ _ Him i Hload) as [Hfit Hsrc]. fold ph in Hfit, Hsrc.
    destruct (program_load_segment_ok p Hp L si ph (eh + p_offset ph) HL) as (si' & E & Hsl).
    + by apply (kernel_ok_kept L HL s).
    + apply (il_safe _ _ _ _ _ Hi).
    + by rewrite (il_table _ _ _ _ _ Hi).
    + apply (same_fits (kernel_memory s)); [|done]. intros b. by apply kept_memory.
    + rewrite (il_free _ _ _ _ _ Hi). pose proof (pages_before_mono (kmem s) eh (i + 1) (phnum (kmem s) eh - (i + 1))) as Hm.
      rewrite pages_before_next, decide_True in Hm by (done || lia). fold ph in Hm.
      replace (i + 1 + (phnum (kmem s) eh - (i + 1))) with (phnum (kmem s) eh) in Hm by lia. lia.
    + apply (Hgo _ si'); [rewrite u64_small by exact Hsrc; exact E|]. by apply (image_next eh i s si si').
  - apply (Hgo _ si); [done|]. apply image_skip; [lia|done|]. intros [_ E]. done.
Qed.

(** [program_load] succeeds; the program's segments are loaded and its entry
    point is in %rip. *)
Lemma program_load_ok `{Images} s n eh :
  ramimages !! n = Some eh → image_ok s eh → kernel_ok s → safe (started p s) →
  cr3 (mach s) = kernel_pagetable (mach s) → low_tables (table_of s p) →
  pages_before (kmem s) eh (phnum (kmem s) eh) ≤ nfree s →
  ∃ s', program_load p (Z.of_nat n) s
    = Ok 0 (upd_proc p (λ q, with_registers (set_rip (load 8 (kmem s) (eh + 0x18)) (p_registers q)) q) s') ∧
    image_loaded p eh (phnum (kmem s) eh) s s'.
Proof.
  intros Hn Him Hk Hs Hc Hlow Hfree. pose proof (lookup_lt_Some _ _ _ Hn) as Hlt. pose proof (phnum_range (kmem s) eh).
  destruct (load_segments_ok phnum_fuel eh 0 s s Him Hk Hc Hlow (image_start eh s Hs)) as (s' & E & Hi); try lia.
  { unfold phnum_fuel. rewrite Z2Nat.id by lia. lia. }
  exists s'. split; [|done]. pose proof (im_header _ _ _ Him) as Hh. unfold program_load.
  assert ((0 <=? Z.of_nat n) && (Z.of_nat n <? Z.of_nat (length ramimages)) = true) as -> by (apply andb_true_intro; lia).
  erewrite bind_ok by (by apply on_machine_pure). rewrite Nat2Z.id, (nth_lookup_Some _ _ _ _ Hn). cbv zeta.
  erewrite bind_ok by (apply (kernel_read _ eh 64); [done|lia..]). rewrite (im_magic _ _ _ Him), Z.eqb_refl.
  erewrite bind_ok by (by apply on_machine_pure).
  erewrite bind_ok by (apply (kernel_read _ eh 64); [done|lia..]). fold (phoff (kmem s) eh).
  erewrite bind_ok by exact E. cbn [negb].
  pose proof (same_range _ _ (λ b, kept_memory s s' b (lo_kept _ _ _ (il_loads _ _ _ _ _ Hi))) _ _ Hh) as Hh'.
  erewrite bind_ok by (apply (kernel_read _ eh 64); [exact Hh'|lia..]).
  rewrite (same_load _ _ (kmem s') (kept_agree s s' (lo_kept _ _ _ (il_loads _ _ _ _ _ Hi))) eh 64) by (done || lia). done.
Qed.
End image.
