(* ===== verification/Kernel.v ===== *)
(** [src/kernel.c]: the exception handler, the scheduler and the boot sequence. *)
From S2P Require Import Prelude X86 Machine CLib Printf Hardware PageTable Frames Syscalls Mmu Display ElfFormat Loader.
Open Scope Z_scope.

(** ** run and schedule *)

(** [exception_return] leaves the kernel. *)
Definition run {A} `{Devices} `{Layout} (pid : Z) : M kstate A :=
  p ← gets (λ s, process s pid);
  on_machine (assert_ (bool_decide (p_state p = P_RUNNABLE)) "kernel.c" 474 "p->p_state == P_RUNNABLE");;
  modify (set_current pid);;
  on_machine (set_pagetable (p_pagetable p));;
  halt UserMode.

(** The loop of [schedule] never returns.  [patience] bounds the iterations that
    are followed; what is left then is the endless search. *)
Class Patience : Type := patience : nat.

Fixpoint schedule_loop {A} `{Devices} `{Layout} (n : nat) (pid : Z) : M kstate A :=
  match n with
  | O => halt Spinning
  | S n =>
      let pid := Z.rem (pid + 1) NPROC in
      p ← gets (λ s, process s pid);
      if decide (p_state p = P_RUNNABLE) then run pid
      else on_machine check_keyboard;; schedule_loop n pid
  end.

Definition schedule {A} `{Devices} `{Layout} `{Patience} : M kstate A :=
  cur ← gets current_proc; schedule_loop patience (p_pid cur).

(** ** The exception handler *)

Fixpoint read_bytes (n : nat) (a : Z) : M machine (list Z) :=
  match n with
  | O => mret []
  | S n => c ← read 1 a; l ← read_bytes n (a + 1); mret (c :: l)
  end.

(** The string in a buffer; [None] when it has no NUL. *)
Fixpoint until_nul (l : list Z) : option (list Z) :=
  match l with
  | [] => None
  | c :: l => if c =? 0 then Some [] else l ← until_nul l; Some (c :: l)
  end.

Definition sys_panic {A} `{Devices} : M kstate A :=
  cur ← gets current_proc;
  let addr := reg_rdi (p_registers cur) in
  if addr =? NULL then on_machine (panic None []) else
  map ← on_machine (virtual_memory_lookup (p_pagetable cur) addr);
  msg ← on_machine (read_bytes 160 (pa map));
  match until_nul msg with
  | Some fmt => on_machine (panic (Some fmt) [])
  | None => halt Undefined
  end.

Definition page_fault `{Devices} (reg : x86_64_registers) : M kstate () :=
  addr ← on_machine rcr2;
  let operation := if has (reg_err reg) PFERR_WRITE then str "write" else str "read" in
  let problem := if has (reg_err reg) PFERR_PRESENT then str "protection problem" else str "missing page" in
  if negb (has (reg_err reg) PFERR_USER) then
    on_machine (panic (Some (str "Kernel page fault for %p (%s %s, rip=%p)!" ++ [10]))
      [VInt addr; VStr operation; VStr problem; VInt (reg_rip reg)])
  else
    cur ← gets current_proc;
    on_machine (console_printf (CPOS 24 0) 0x0C00
      (str "Process %d page fault for %p (%s %s, rip=%p)!" ++ [10])
      [VInt (p_pid cur); VInt addr; VStr operation; VStr problem; VInt (reg_rip reg)]);;
    pid ← gets current;
    put_process pid (with_state P_BROKEN).

(** The [switch]; the branches that end in [break] return. *)
Definition handle `{Devices} `{Layout} `{Patience} `{Padding} (reg : x86_64_registers) : M kstate () :=
  let intno := reg_intno reg in
  if intno =? INT_SYS_PANIC then sys_panic
  else if intno =? INT_SYS_GETPID then
    cur ← gets current_proc; put_current_rax (p_pid cur)
  else if intno =? INT_SYS_YIELD then schedule
  else if intno =? INT_SYS_PAGE_ALLOC then sys_page_alloc
  else if intno =? INT_SYS_MAPPING then syscall_mapping
  else if intno =? INT_SYS_MEM_TOG then syscall_mem_tog
  else if intno =? INT_TIMER then
    modify (λ s, set_ticks (u32 (ticks s + 1)) s);; schedule
  else if intno =? INT_PAGEFAULT then page_fault reg
  else if intno =? INT_SYS_FORK then sys_fork
  else if intno =? INT_SYS_EXIT then sys_exit
  else cur ← gets current_proc; on_machine (default_exception cur).

(** What comes before the [switch].  Until the kernel's page table is installed,
    that of the interrupted process is active. *)
Definition exception_entry `{Devices} `{Layout} (reg : x86_64_registers) : M kstate () :=
  pid ← gets current;
  put_process pid (with_registers reg);;
  kpt ← gets (λ s, kernel_pagetable (mach s));
  on_machine (set_pagetable (acc := through_cr3) kpt);;
  cpos ← on_machine (read 4 cursorpos);
  on_machine (console_show_cursor (s32 cpos));;
  (if negb (reg_intno reg =? INT_PAGEFAULT) && negb (reg_intno reg =? INT_GPF)
      || has (reg_err reg) PFERR_USER
   then
     check_virtual_memory;;
     disp ← gets disp_global;
     (if istrue disp then memshow_physical;; memshow_virtual_animate else mret ())
   else mret ());;
  on_machine check_keyboard;; mret ().

(** What comes after it: never a return. *)
Definition resume {A} `{Devices} `{Layout} `{Patience} : M kstate A :=
  cur ← gets current_proc;
  if decide (p_state cur = P_RUNNABLE) then pid ← gets current; run pid else schedule.

Definition exception {A} `{Devices} `{Layout} `{Patience} `{Padding} (reg : x86_64_registers) : M kstate A :=
  exception_entry reg;; handle reg;; resume.

(** ** Boot *)

Definition hardware_init `{Devices} `{Layout} : M machine () :=
  segments_init;; interrupt_init;; virtual_memory_init.

Definition process_setup `{Devices} `{Layout} `{Images} (pid program_number : Z) : M kstate () :=
  put_process pid (λ p, process_init p 0);;
  kpt ← gets (λ s, kernel_pagetable (mach s));
  pagetable_copy ← duplicate_pagetable kpt pid;
  put_process pid (with_pagetable pagetable_copy);;
  r ← program_load pid program_number;
  on_machine (assert_ (0 <=? r) "kernel.c" 134 "r >= 0");;
  put_process pid (λ p, with_registers (set_rsp MEMSIZE_VIRTUAL (p_registers p)) p);;
  p ← gets (λ s, process s pid);
  sys_page_alloc_find_free (p_pagetable p) pid (u64 (reg_rsp (p_registers p) - PAGESIZE));;
  put_process pid (with_state P_RUNNABLE).

(** [strcmp(command, s) == 0]; a null [command] is [None]. *)
Definition command_is (command : option (list Z)) (s : string) : bool :=
  match command with
  | Some c => str_compare c (str s) =? 0
  | None => false
  end.

Definition setup_processes `{Devices} `{Layout} `{Images} (command : option (list Z)) : M kstate () :=
  if command_is command "fork" then process_setup 1 4
  else if command_is command "forkexit" then process_setup 1 5
  else if command_is command "test" then process_setup 1 6
  else if command_is command "test2" then for_loop 2 1 1 (λ i, process_setup i 6)
  else for_loop 4 1 1 (λ i, process_setup i (i - 1)).

Definition kernel {A} `{Devices} `{Layout} `{Images} (command : option (list Z)) : M kstate A :=
  on_machine hardware_init;;
  pageinfo_init;;
  on_machine console_clear;;
  on_machine (timer_init HZ);;
  kpt ← gets (λ s, kernel_pagetable (mach s));
  on_machine (virtual_memory_map kpt 0 0 PROC_START_ADDR PTE_PW);;
  kpt ← gets (λ s, kernel_pagetable (mach s));
  on_machine (virtual_memory_map kpt 0xB8000 0xB8000 PAGESIZE PTE_PWU);;
  modify (set_processes ∅);;
  for_loop (Z.to_nat NPROC) 0 1 (λ i, put_process i (with_pid i);; put_process i (with_state P_FREE));;
  setup_processes command;;
  run 1.
