(* ===== verification/Setup.v ===== *)
(** [process_setup] of [src/kernel.c]: a process in a free slot, with a copy of
    the kernel's page table, the program's segments and a stack page. *)
From S2P Require Import Prelude X86 Machine CLib Printf Hardware PageTable Frames Syscalls Isolation Demo Duplicate Fork ForkSafe Exit PageAlloc Canonical Mmu Contracts Mapping AddressSpace Display ElfFormat Loader Through Load Segment Elf Image Kernel.
Open Scope Z_scope.

#[local] Opaque frames_where.

(** ** The new address space *)

Section create.
Context `{Devices} (L : Layout) (HL : LayoutOk L) (p : Z) (Hp : 1 ≤ p < 16).
Context (s : kstate) (Hs : safe s) (Hk : kernel_ok s) (Hnl : ¬ live s p) (Hpid : p_pid (process s p) = p).

(** A table in low frames is a low table. *)
Lemma low_frames m sh : shape_ok m sh → Forall (λ n, n < 256) (table_frames sh) → low_tables sh.
Proof.
  intros Hsh. unfold low_tables, table_frames. rewrite Forall_fmap, !Forall_forall. intros Hn q Hq. specialize (Hn q Hq).
  destruct (shape_page m sh Hsh q Hq) as (_ & Hal & _). unfold compose in Hn. pose proof (Z.div_mod q 4096). lia.
Qed.

(** [sc] is [s] with the new table [d] in slot [p]. *)
Record created (d : pt_shape) (m' : gmap Z Z) (sc : kstate) : Prop := {
  cd_proc : ∀ q, process sc q = if decide (p = q)
    then MkProc p (process_init_regs 0) (p_state (process s p)) (L1 d) (display_status (process s p)) else process s q;
  cd_mach : mach sc = set_mem m' (mach s);
  cd_current : current sc = current s;
  cd_dup : duplicated (kmem s) m' kernel_shape d;
  cd_nodup : NoDup (table_frames d);
  cd_fresh : Forall (λ n, 1 ≤ n < 512 ∧ refcount (pinfo s n) = 0) (table_frames d);
  cd_pinfo : ∀ f, pinfo sc f = if decide (f ∈ table_frames d) then MkInfo p 1 else pinfo s f;
  cd_free : nfree sc = nfree s - 5;
  cd_low : 5 ≤ nlow s → low_tables d }.

Lemma create_ok :
  5 ≤ nfree s →
  ∃ d m' sa sb sc, put_process p (λ q, process_init q 0) s = Ok () sa ∧
    duplicate_pagetable (kernel_pagetable (mach sa)) p sa = Ok (L1 d) sb ∧
    put_process p (with_pagetable (L1 d)) sb = Ok () sc ∧ created d m' sc.
Proof.
  intros Hn. set (sa := upd_proc p (λ q, process_init q 0) s).
  assert (L1 kernel_shape = kernel_pagetables) as EL by (unfold kernel_shape; cbn [L1]; lia).
  destruct (duplicate_ok kernel_shape p sa) as (d & m' & Ed & Hd & Hnd & HF & Hf & Hlow).
  - apply (ko_shape s Hk).
  - intros w Hw _. destruct (ko_entries s Hk w Hw) as [E _]. change (kmem sa) with (kmem s).
    unfold frame. rewrite E, Z.div_mul by lia. lia.
  - intros f Hf. apply (ko_frames s Hk). left. by apply (table_image_frame L HL).
  - unfold sa. rewrite nfree_upd. lia.
  - lia.
  - exists d, m', sa. do 2 eexists. split; [apply put_process_eq|]. split; [|split; [apply put_process_eq|]].
    + change (kernel_pagetable (mach sa)) with (kernel_pagetable (mach s)). rewrite (ko_root s Hk), <- EL. exact Ed.
    + destruct (takes_processes (table_frames d) p sa) as [Et Ec]. split; [|done|done|exact Hd|exact Hnd|exact HF|exact (pinfo_takes (table_frames d) p sa)|exact Hf|].
      2: { intros Hn5. apply (low_frames m'); [apply Hd|]. apply Hlow. rewrite (nlow_ext sa s); [done|]. intros k _. done. }
      intros q. assert (∀ q, process (set_kmem m' (takes (table_frames d) p sa)) q = process sa q) as Eq
        by (intros r; unfold process; cbn [processes set_kmem set_mach]; by rewrite Et).
      rewrite process_upd, !Eq. unfold sa. rewrite !process_upd, (decide_True (P := p = p)) by done.
      case_decide; [|done]. unfold process_init, with_pagetable. cbn. by rewrite Hpid.
Qed.

Section created.
Context (d : pt_shape) (m' : gmap Z Z) (sc : kstate) (Hc : created d m' sc).

Abbreviation s' := (started p sc).

Lemma created_fresh f : f ∈ table_frames d → 1 ≤ f < 512 ∧ refcount (pinfo s f) = 0.
Proof. intros Hf. pose proof (cd_fresh _ _ _ Hc) as HF. rewrite Forall_forall in HF. by apply HF. Qed.

Lemma created_kmem : kmem sc = m'.
Proof. change (kmem sc) with (mem (mach sc)). by rewrite (cd_mach _ _ _ Hc). Qed.

(** Memory in use stays. *)
Lemma created_memory : agree (λ a, 0 ≤ a / 4096 < 512 ∧ refcount (pinfo s (a / 4096)) ≠ 0) (kmem s) m'.
Proof.
  intros a [Hr Ha]. apply (dup_agree _ _ _ _ (cd_dup _ _ _ Hc)). intros Hin.
  apply in_table_frames in Hin; [|apply (dup_shape _ _ _ _ (cd_dup _ _ _ Hc))]. by apply created_fresh in Hin as [_ ?].
Qed.

Lemma created_used f : refcount (pinfo s f) ≠ 0 → pinfo sc f = pinfo s f.
Proof. intros Hf. rewrite (cd_pinfo _ _ _ Hc), decide_False; [done|]. by intros [_ ?]%created_fresh. Qed.

Lemma created_process q : q ≠ p → process s' q = process s q.
Proof. intros Hq. by rewrite started_process, decide_False, (cd_proc _ _ _ Hc), decide_False by congruence. Qed.

Lemma created_live q : live s' q ↔ live s q ∨ q = p.
Proof.
  destruct (decide (q = p)) as [->|Hne]; unfold live.
  - rewrite started_process, decide_True by done. split; [by right|]. intros _. by split.
  - rewrite created_process by done. tauto.
Qed.

Lemma created_live_ne q : live s q → q ≠ p.
Proof. by intros ? ->. Qed.

Lemma created_frame q f : live s q → f ∈ frames_of s q → 0 ≤ f < 512 ∧ refcount (pinfo s f) ≠ 0.
Proof.
  intros Hq Hf. pose proof (frame_range s q f Hs Hq Hf). split; [lia|].
  pose proof (frame_counted s q f Hs Hq ltac:(lia) Hf). lia.
Qed.

Lemma created_spares : spares p s s'.
Proof.
  split.
  - intros q _ Hne. by apply created_process.
  - intros q Hq Hne a Hin. change (kmem s') with (kmem sc). rewrite created_kmem.
    apply created_memory. by apply (created_frame q).
Qed.

Lemma created_kept q :
  live s q → table_of s' q = table_of s q ∧ shape_ok m' (table_of s q) ∧
  ∀ w, 0 ≤ w < 1024 → leaf m' (table_of s q) w = leaf (kmem s) (table_of s q) w.
Proof.
  intros Hq. pose proof (created_live_ne q Hq) as Hne. rewrite <- created_kmem.
  apply (live_kept s s'); [done|done|by rewrite created_process|].
  intros a Ha. apply (sp_memory _ _ _ created_spares q Hq Hne). rewrite frames_of_live by done.
  apply elem_of_app. left. apply in_table_frames; [|done]. apply (safe_shape s Hs q Hq).
Qed.

Lemma created_table : table_of s' p = d.
Proof.
  rewrite table_of_eq, started_process, decide_True by done. rewrite (cd_proc _ _ _ Hc), decide_True by done.
  change (kmem s') with (kmem sc). rewrite created_kmem. apply (shape_at_ok m' d), (cd_dup _ _ _ Hc).
Qed.

(** The kernel's entries below [PROC_START_ADDR], and nothing above. *)
Lemma created_leaf w :
  0 ≤ w < 1024 → leaf m' d w = if decide (w < 256) then leaf (kmem s) kernel_shape w else 0.
Proof.
  intros Hw. rewrite (dup_leaf _ _ _ _ (cd_dup _ _ _ Hc)) by done. case_decide; [|done].
  destruct (ko_entries s Hk w ltac:(lia)) as (_ & HP & _). unfold present. by rewrite HP.
Qed.

Lemma created_no_pages : user_frames m' d = [].
Proof.
  destruct (user_frames m' d) as [|f l] eqn:E; [done|]. exfalso.
  assert (f ∈ user_frames m' d) as Hin by (rewrite E; left).
  apply elem_frames_where in Hin as (w & Hw & HP & _). by rewrite created_leaf, decide_False in HP by lia.
Qed.

Lemma created_frames_of q : live s q → frames_of s' q = frames_of s q.
Proof. intros Hq. apply (spares_kept p s s' q Hs created_spares Hq). by apply created_live_ne. Qed.

Lemma created_frames_p : frames_of s' p = table_frames d.
Proof.
  rewrite frames_of_live by (apply created_live; by right). rewrite created_table.
  change (kmem s') with (kmem sc). by rewrite created_kmem, created_no_pages, app_nil_r.
Qed.

Lemma created_refs f : refs s' f = refs s f + occ f (table_frames d).
Proof.
  unfold refs. rewrite (zsum_split (λ q, occ f (frames_of s' q)) p) by (apply elem_pids || apply pids_nodup; done).
  rewrite (zsum_split (λ q, occ f (frames_of s q)) p) by (apply elem_pids || apply pids_nodup; done).
  rewrite created_frames_p. unfold frames_of at 2. rewrite decide_False by done. cbn [occ].
  rewrite (zsum_ext _ (λ q, if decide (q = p) then 0 else occ f (frames_of s q))); [lia|].
  intros q _. case_decide as E; [done|]. f_equal. destruct (decide (live s q)) as [Hq|Hq].
  - by apply created_frames_of.
  - unfold frames_of. rewrite !decide_False; [done|done|]. rewrite created_live. naive_solver.
Qed.

Lemma created_safe : safe s'.
Proof.
  pose proof (created_live p) as Hl. split.
  - intros q Hq. destruct (decide (q = p)) as [->|Hne].
    + rewrite started_process, decide_True by done. by rewrite (cd_proc _ _ _ Hc), decide_True.
    + rewrite created_process by done. apply created_live in Hq as [Hq|?]; [by apply (safe_pid s Hs)|done].
  - intros q [Hq| ->]%created_live.
    + destruct (created_kept q Hq) as (->&?&_). change (kmem s') with (kmem sc). by rewrite created_kmem.
    + rewrite created_table. change (kmem s') with (kmem sc). rewrite created_kmem. apply (cd_dup _ _ _ Hc).
  - intros q f [Hq| ->]%created_live.
    + rewrite (proj1 (created_kept q Hq)). intros Hf. change (pinfo s' f) with (pinfo sc f).
      pose proof (safe_tables s Hs q f Hq Hf) as E. rewrite created_used; rewrite E; done.
    + rewrite created_table. intros Hf. change (pinfo s' f) with (pinfo sc f). by rewrite (cd_pinfo _ _ _ Hc), decide_True.
  - change (kmem s') with (kmem sc). rewrite created_kmem. intros q w [Hq| ->]%created_live Hw.
    + destruct (created_kept q Hq) as (->&_&->); [|lia]. by apply (safe_kernel s Hs).
    + rewrite created_table, created_leaf, decide_True by lia. by apply (ko_entries s Hk).
  - change (kmem s') with (kmem sc). rewrite created_kmem. intros q f [Hq| ->]%created_live Hf.
    + destruct (created_kept q Hq) as (Et&_&El). rewrite Et in Hf.
      assert (f ∈ user_frames (kmem s) (table_of s q)) as Hf'.
      { unfold user_frames in *. rewrite (frames_where_ext present m' (kmem s) (table_of s q) (table_of s q)) in Hf; [done|].
        intros w Hw. apply El. lia. }
      assert (f ∈ frames_of s q) as Hin by (rewrite frames_of_live, elem_of_app by done; by right).
      destruct (created_frame q f Hq Hin). change (pinfo s' f) with (pinfo sc f). rewrite created_used by done.
      by apply (safe_frames s Hs q).
    + by rewrite created_table, created_no_pages in Hf; apply elem_of_nil in Hf.
  - change (kmem s') with (kmem sc). rewrite created_kmem. intros q w [Hq| ->]%created_live Hw.
    + destruct (created_kept q Hq) as (->&_&->); [|lia]. intros Hwr. pose proof (safe_writable s Hs q w Hq Hw Hwr) as E.
      change (pinfo s' ?f) with (pinfo sc f). rewrite created_used; rewrite E; done.
    + by rewrite created_table, created_leaf, decide_False by lia.
  - intros f Hf. rewrite created_refs. change (pinfo s' f) with (pinfo sc f). rewrite (cd_pinfo _ _ _ Hc).
    pose proof (safe_refs s Hs f Hf). case_decide as E.
    + destruct (created_fresh f E) as [_ Hr]. pose proof (occ_nodup f _ (cd_nodup _ _ _ Hc) E). cbn [refcount]. lia.
    + rewrite (occ_zero f (table_frames d)) by done. lia.
  - intros f Hf. change (pinfo s' f) with (pinfo sc f). rewrite (cd_pinfo _ _ _ Hc). pose proof (safe_counts s Hs f Hf).
    case_decide; [cbn; lia|done].
  - change (pinfo s' ?f) with (pinfo sc f). rewrite created_used; apply (safe_console s Hs).
Qed.

Lemma created_kernel : kernel_kept s sc.
Proof.
  split.
  - by rewrite (cd_mach _ _ _ Hc).
  - intros f _ Hf. by apply created_used.
  - intros a (Hr & _ & Ha & _). rewrite created_kmem. by apply created_memory.
Qed.
End created.
End create.

(** ** Setting up a process *)

Definition set_up_regs (m : gmap Z Z) (eh : Z) : x86_64_registers :=
  set_rsp MEMSIZE_VIRTUAL (set_rip (load 8 m (eh + 0x18)) (process_init_regs 0)).

(** The stack is the last page of the virtual memory. *)
Definition stack_page : Z := (MEMSIZE_VIRTUAL - PAGESIZE) / PAGESIZE.

(** What [process_setup] promises: process [p] is ready to run the program at
    [eh], and nothing else of the system changes. *)
Record set_up (p eh : Z) (s s' : kstate) : Prop := {
  su_process : process s' p = MkProc p (set_up_regs (kmem s) eh) P_RUNNABLE (L1 (table_of s' p)) (display_status (process s p));
  su_others : ∀ q, q ≠ p → process s' q = process s q;
  su_mach : mach s' = set_mem (kmem s') (mach s);
  su_kernel : kernel_kept s s';
  su_spares : spares p s s';
  su_free : nfree s' = nfree s - 6 - pages_before (kmem s) eh (phnum (kmem s) eh);
  su_visible : ∀ i, loadable (kmem s) eh i →
    visible p (segment (kmem s) eh i) (eh + p_offset (segment (kmem s) eh i)) (kmem s) s';
  su_stack : user_writable (leaf (kmem s') (table_of s' p) stack_page) = true;
  su_rest : ∀ w, 256 ≤ w < 1024 → w ≠ stack_page → (∀ i, loadable (kmem s) eh i → ¬ in_segment (kmem s) eh i w) →
    leaf (kmem s') (table_of s' p) w = 0 }.

Lemma started_core p s s' : core s s' → core (started p s) (started p s').
Proof.
  intros [A1 A2 A3 A4 A5]. split; [..|done|done]; intros q; rewrite !started_process; case_decide; cbn; auto.
Qed.

(** The same memory through the same table. *)
Lemma same_view p s s' va :
  kmem s' = kmem s → table_of s' p = table_of s p →
  ubyte p s' va = ubyte p s va ∧ (user_page p s va → user_page p s' va).
Proof. intros Em Et. unfold ubyte, user_page, uaddr, uleaf. by rewrite Em, Et. Qed.

Lemma set_regs_others pid g s q : q ≠ pid → process (set_regs pid g s) q = process s q.
Proof. intros Hq. unfold set_regs. by rewrite process_upd, decide_False by congruence. Qed.

Lemma upd_proc_upd p f g s : upd_proc p f (upd_proc p g s) = upd_proc p (λ q, f (g q)) s.
Proof.
  unfold upd_proc at 1. rewrite process_upd, decide_True by done. unfold upd_proc. cbn. by rewrite insert_insert_eq.
Qed.

Section process_setup.
Context `{Devices} `{Images} (L : Layout) (HL : LayoutOk L) (p : Z) (Hp : 1 ≤ p < 16).

(** The steps after the page table: the program, the registers and the stack. *)
Lemma setup_rest n eh sc :
  ramimages !! n = Some eh → image_ok sc eh → kernel_ok sc → safe (started p sc) →
  cr3 (mach sc) = kernel_pagetable (mach sc) → low_tables (table_of sc p) →
  pages_before (kmem sc) eh (phnum (kmem sc) eh) + 1 ≤ nfree sc →
  ∃ sd sg, let sf := set_regs p (λ r, set_rsp MEMSIZE_VIRTUAL (set_rip (load 8 (kmem sc) (eh + 0x18)) r)) sd in
    (r ← program_load p (Z.of_nat n);
     on_machine (assert_ (0 <=? r) "kernel.c" 134 "r >= 0");;
     put_process p (λ p, with_registers (set_rsp MEMSIZE_VIRTUAL (p_registers p)) p);;
     p' ← gets (λ s, process s p);
     sys_page_alloc_find_free (p_pagetable p') p (u64 (reg_rsp (p_registers p') - PAGESIZE));;
     put_process p (with_state P_RUNNABLE)) sc = Ok () (started p sg) ∧
    image_loaded p eh (phnum (kmem sc) eh) sc sd ∧ grows p sf sg stack_page 1.
Proof.
  intros Hn Him Hk Hs Hc Hlow Hfree.
  destruct (program_load_ok L HL p Hp sc n eh Hn Him Hk Hs Hc Hlow ltac:(lia)) as (sd & E & Hi). exists sd.
  set (sf := set_regs p _ sd).
  assert (core sd sf) as Hcore by apply set_regs_core.
  assert (safe (started p sf)) as Hsf by (apply (core_safe (started p sd)); [apply (il_safe _ _ _ _ _ Hi)|by apply started_core]).
  destruct (page_alloc_grows p Hp sf 0x2FF000 Hsf) as (sg & Ea & Hg); [|reflexivity|lia|].
  { change (nfree sf) with (nfree sd). rewrite (il_free _ _ _ _ _ Hi). lia. }
  exists sg. split; [|by split].
  erewrite bind_ok by exact E. erewrite bind_ok by (by apply on_machine_pure).
  erewrite bind_ok by apply put_process_eq. erewrite bind_ok by reflexivity.
  set (se := upd_proc p _ (upd_proc p _ sd)).
  assert (se = sf) as -> by exact (upd_proc_upd p _ _ sd).
  assert (reg_rsp (p_registers (process sf p)) = MEMSIZE_VIRTUAL) as ->.
  { unfold sf, set_regs. rewrite process_upd, decide_True by done. cbn. by destruct (p_registers (process sd p)). }
  change (u64 (MEMSIZE_VIRTUAL - PAGESIZE)) with 0x2FF000. by erewrite bind_ok by exact Ea.
Qed.

(** The steps, put together. *)
Lemma setup_result s eh d m' sc sd sg :
  let sf := set_regs p (λ r, set_rsp MEMSIZE_VIRTUAL (set_rip (load 8 (kmem sc) (eh + 0x18)) r)) sd in
  safe s → kernel_ok s → image_ok s eh → ¬ live s p →
  (∀ i, loadable (kmem s) eh i → ¬ in_segment (kmem s) eh i stack_page) → created L p s d m' sc →
  image_loaded p eh (phnum (kmem sc) eh) sc sd → grows p sf sg stack_page 1 → set_up p eh s (started p sg).
Proof.
  intros sf Hs Hk Him Hnl Hst Hcd Hi Hg. pose proof (created_kernel L p s d m' sc Hcd) as Hkk.
  pose proof (created_table L p s d m' sc Hcd) as Etc. rewrite started_table in Etc.
  assert (table_of sf p = d) as Etf.
  { unfold sf, set_regs. rewrite table_of_eq, process_upd, decide_True by done.
    change (table_of sd p = d). by rewrite (il_table _ _ _ _ _ Hi). }
  assert (table_of sg p = d) as Etg by (by rewrite (gr_table _ _ _ _ _ Hg)).
  assert (∀ q, process sd q = process sc q) as Epd by (intros q; unfold process; by rewrite (lo_processes _ _ _ (il_loads _ _ _ _ _ Hi))).
  assert (∀ q, process sg q = process sf q) as Epg by (intros q; unfold process; by rewrite (lo_processes _ _ _ (gr_loads _ _ _ _ _ Hg))).
  assert (kernel_kept s sg) as Hkg.
  { transitivity sc; [done|]. transitivity sd; [apply (lo_kept p), Hi|]. transitivity sf; [by split|apply (lo_kept p), Hg]. }
  assert (load 8 (kmem sc) (eh + 0x18) = load 8 (kmem s) (eh + 0x18)) as Eentry.
  { apply (same_load (kernel_memory s) _ _ (kept_agree s sc Hkk) eh 64); [apply Him|lia|lia]. }
  assert (safe (started p sc)) as Hsc by (by apply (created_safe L p Hp s Hs Hk Hnl d m' sc Hcd)).
  split.
  - rewrite started_process, decide_True, Epg by done. unfold sf, set_regs. rewrite !process_upd, !decide_True by done.
    rewrite Epd, (cd_proc _ _ _ _ _ _ Hcd), decide_True by done. rewrite started_table, Etg. unfold set_up_regs. by rewrite <- Eentry.
  - intros q Hq. rewrite started_process, decide_False, Epg by congruence. unfold sf. rewrite set_regs_others, Epd by done.
    by rewrite (cd_proc _ _ _ _ _ _ Hcd), decide_False by congruence.
  - change (mach (started p sg)) with (mach sg). rewrite (gr_machine _ _ _ _ _ Hg).
    change (mach sf) with (mach sd). by rewrite (il_mach _ _ _ _ _ Hi), (cd_mach _ _ _ _ _ _ Hcd).
  - transitivity sg; [done|by split].
  - apply (spares_trans p s (started p sc)); [done|by apply (created_spares L p s Hs d m')|].
    apply (spares_trans p _ (started p sd)); [done|by apply (lo_spares _ _ _ (il_loads _ _ _ _ _ Hi))|].
    assert (safe (started p sd)) as Hsd by apply (il_safe _ _ _ _ _ Hi).
    assert (safe (started p sf)) as Hsf by (apply (core_safe (started p sd)); [done|apply started_core, set_regs_core]).
    apply (spares_trans p _ (started p sf)); [done| |by apply (lo_spares _ _ _ (gr_loads _ _ _ _ _ Hg))].
    apply off_screen_spares; [done| |done]. intros q _ Hq. rewrite !started_process, !decide_False by congruence.
    by apply set_regs_others.
  - change (nfree (started p sg)) with (nfree sg). rewrite (gr_free _ _ _ _ _ Hg). change (nfree sf) with (nfree sd).
    rewrite (il_free _ _ _ _ _ Hi), (cd_free _ _ _ _ _ _ Hcd), (same_phnum (kernel_memory s) (kmem s) (kmem sc) eh Him (kept_agree s sc Hkk)), (same_pages (kernel_memory s) (kmem s) (kmem sc) eh Him (kept_agree s sc Hkk)). lia.
  - intros i Hl. destruct (im_fits _ _ _ Him i Hl) as [Hfit _].
    assert (loadable (kmem sc) eh i) as Hl' by (by apply (same_loadable (kernel_memory s) (kmem s) (kmem sc) eh Him (kept_agree s sc Hkk))).
    pose proof (il_visible _ _ _ _ _ Hi i (proj2 (proj1 Hl')) Hl') as Hv.
    rewrite (same_segment (kernel_memory s) (kmem s) (kmem sc) eh Him (kept_agree s sc Hkk)) in Hv by apply Hl.
    apply (visible_image p _ _ _ _ (kmem sc) (started p sg) Hfit (kept_agree s sc Hkk)).
    apply (visible_kept p _ _ _ sd (started p sg) _ Hfit Hv); rewrite ?started_table.
    + by rewrite Etg, <- Etc, (il_table _ _ _ _ _ Hi).
    + intros w Hw Hin. rewrite (il_table _ _ _ _ _ Hi), Etc, <- Etf. change (kmem (started p sg)) with (kmem sg).
      change (kmem sd) with (kmem sf). apply (gr_old _ _ _ _ _ Hg w Hw).
      intros Hw'. apply (Hst i Hl). assert (stack_page = w) as -> by lia. exact Hin.
    + assert (table_of sf p = table_of sd p) as Esd by (by rewrite Etf, <- Etc, (il_table _ _ _ _ _ Hi)).
      intros a Ha Hin. rewrite (proj1 (same_view p sg (started p sg) a eq_refl (started_table p sg p))).
      destruct (same_view p sd sf a eq_refl Esd) as [<- Hu]. apply (gr_bytes _ _ _ _ _ Hg); [by apply Hu|].
      intros Hw. apply (Hst i Hl). assert (stack_page = a / 4096) as -> by lia. exact Hin.
  - change (kmem (started p sg)) with (kmem sg). rewrite started_table, Etg, <- Etf. apply (gr_new _ _ _ _ _ Hg). lia.
  - intros w Hw Hne Hno. change (kmem (started p sg)) with (kmem sg). rewrite started_table, Etg, <- Etf.
    rewrite (gr_old _ _ _ _ _ Hg) by lia. rewrite Etf, <- Etc. change (kmem sf) with (kmem sd).
    rewrite (il_old _ _ _ _ _ Hi) by (lia || (intros i _ Hl; rewrite (same_loadable (kernel_memory s) (kmem s) (kmem sc) eh Him (kept_agree s sc Hkk)) in Hl;
      unfold in_segment; rewrite (same_segment (kernel_memory s) (kmem s) (kmem sc) eh Him (kept_agree s sc Hkk)) by apply Hl; by apply Hno)).
    rewrite Etc, (created_kmem L p s d m' sc Hcd), (created_leaf L p s Hk d m' sc Hcd), decide_False by lia. done.
Qed.

(** [process_setup] keeps its promise. *)
Lemma process_setup_ok s n eh :
  safe s → kernel_ok s → ¬ live s p → p_pid (process s p) = p → cr3 (mach s) = kernel_pagetable (mach s) →
  ramimages !! n = Some eh → image_ok s eh → (∀ i, loadable (kmem s) eh i → ¬ in_segment (kmem s) eh i stack_page) →
  6 + pages_before (kmem s) eh (phnum (kmem s) eh) ≤ nfree s → 5 ≤ nlow s →
  ∃ s', process_setup p (Z.of_nat n) s = Ok () s' ∧ set_up p eh s s' ∧ safe s'.
Proof.
  intros Hs Hk Hnl Hpid Hc Hn Him Hst Hfree Hlow. pose proof (load_range 2 (kmem s) (eh + 0x38)) as Hph.
  pose proof (pages_before_mono (kmem s) eh 0 (phnum (kmem s) eh) ltac:(lia) (proj1 Hph)) as Hpos.
  change (pages_before (kmem s) eh 0) with 0 in Hpos. rewrite Z.add_0_l in Hpos.
  destruct (create_ok L HL p Hp s Hk Hpid ltac:(lia)) as (d & m' & sa & sb & sc & Ea & Eb & Ec & Hcd).
  pose proof (created_kernel L p s d m' sc Hcd) as Hkk.
  pose proof (created_safe L p Hp s Hs Hk Hnl d m' sc Hcd) as Hsc.
  pose proof (kept_image s sc eh Hkk Him) as Him'. pose proof (kernel_ok_kept L HL s sc Hk Hkk) as Hk'.
  destruct (setup_rest n eh sc Hn Him' Hk' Hsc) as (sd & sg & E & Hi & Hg).
  { rewrite (cd_mach _ _ _ _ _ _ Hcd). exact Hc. }
  { pose proof (created_table L p s d m' sc Hcd) as Et. rewrite started_table in Et. rewrite Et.
    by apply (cd_low _ _ _ _ _ _ Hcd). }
  { rewrite (same_phnum (kernel_memory s) (kmem s) (kmem sc) eh Him (kept_agree s sc Hkk)), (same_pages (kernel_memory s) (kmem s) (kmem sc) eh Him (kept_agree s sc Hkk)), (cd_free _ _ _ _ _ _ Hcd). lia. }
  exists (started p sg). split; [|split; [|apply (gr_safe _ _ _ _ _ Hg)]].
  { unfold process_setup. erewrite bind_ok by exact Ea. erewrite bind_ok by reflexivity.
    erewrite bind_ok by exact Eb. erewrite bind_ok by exact Ec. exact E. }
  exact (setup_result s eh d m' sc sd sg Hs Hk Him Hnl Hst Hcd Hi Hg).
Qed.
End process_setup.
