(* ===== verification/Loading.v ===== *)
(** What [program_load_segment] promises, on both its returns: the contents of
    a segment it loaded, and what is left when memory runs out. *)
From S2P Require Import Prelude X86 Machine CLib Printf Hardware PageTable Frames Syscalls Isolation Demo Duplicate Fork ForkSafe Exit PageAlloc Canonical Mmu Contracts Mapping AddressSpace Display ElfFormat Loader Through Load Segment.
Open Scope Z_scope.

#[local] Opaque frames_where.

Section loading.
Context `{Devices} (L : Layout) (HL : LayoutOk L) (p : Z) (Hp : 1 ≤ p < 16).

(** The pages of a segment hold its addresses. *)
Lemma segment_page ok ph src i :
  segment_fits ok ph src → 0 ≤ i < p_memsz ph →
  seg_va ph / 4096 ≤ (p_va ph + i) / 4096 < seg_va ph / 4096 + seg_pages ph.
Proof.
  intros Hf Hi. destruct (seg_facts ok ph src Hf) as (Hal & _). apply pages_to_cover; [done|].
  unfold seg_va, end_mem. pose proof (Z.mod_pos_bound (p_va ph) 4096). lia.
Qed.

(** C15: a segment that fits is loaded into a process whose page-table pages lie
    below [PROC_START_ADDR] (the loader works on them while the process's own
    table is installed): its first [p_filesz] bytes come from the image, the rest up to [p_memsz] are zero, its pages are open to user code,
    writable only if the header says so, and the invariant and all other
    processes are as before.  The bytes come from [src] plus the offset of the
    segment in its page: for a segment that does not start a page the contents
    are shifted against the image. *)
Theorem segment_contents ph src s :
  kernel_ok s → safe (started p s) → low_tables (table_of s p) →
  segment_fits (kernel_memory s) ph src → seg_pages ph ≤ nfree s →
  ∃ s', program_load_segment p ph src s = Ok 0 s' ∧
    (∀ i, 0 ≤ i < p_filesz ph → ubyte p s' (p_va ph + i) = load8 (kmem s) (src + i + p_va ph mod 4096)) ∧
    (∀ i, p_filesz ph ≤ i < p_memsz ph → ubyte p s' (p_va ph + i) = 0) ∧
    (∀ i, 0 ≤ i < p_memsz ph → let e := uleaf p s' (p_va ph + i) in
       present e = true ∧ has e PTE_U = true ∧ has e PTE_W = has (p_flags ph) ELF_PFLAG_WRITE) ∧
    safe (started p s') ∧ spares p (started p s) (started p s') ∧ nfree s' = nfree s - seg_pages ph.
Proof.
  intros Hk Hs Hlow Hfit Hf. destruct (program_load_segment_ok p Hp L s ph src HL Hk Hs Hlow Hfit Hf) as (s' & E & Hsl).
  pose proof (Z.mod_pos_bound (p_va ph) 4096 ltac:(lia)) as Hm.
  exists s'. split; [exact E|]. split; [|split; [|split; [|split; [|split]]]].
  - intros i Hi. pose proof (sf_sizes _ _ _ Hfit). rewrite (sl_bytes _ _ _ _ _ Hsl) by (unfold seg_va, end_mem; lia).
    rewrite decide_True by (unfold end_file; lia). f_equal. unfold seg_va. lia.
  - intros i Hi. pose proof (sf_sizes _ _ _ Hfit). rewrite (sl_bytes _ _ _ _ _ Hsl) by (unfold seg_va, end_mem; lia).
    by rewrite decide_False by (unfold end_file; lia).
  - intros i Hi e. unfold e, uleaf. rewrite (sl_table _ _ _ _ _ Hsl).
    apply (sl_entry _ _ _ _ _ Hsl). by apply (segment_page _ ph src i Hfit).
  - apply (sl_safe _ _ _ _ _ Hsl).
  - by apply (lo_spares _ _ _ (sl_loads _ _ _ _ _ Hsl)).
  - apply (sl_free _ _ _ _ _ Hsl).
Qed.

(** ** Out of memory *)

Lemma no_free_left s : nfree s = 0 → no_free s.
Proof.
  intros E n Hn Hr. pose proof (nfree_take n 1 s Hn Hr). pose proof (nfree_range (take_page n 1 s)). lia.
Qed.

(** The message of the failure return. *)
Lemma message_loads m s :
  safe (started p s) → screen_update (mach s) m → loads p s (set_mach m s) ∧ safe (started p (set_mach m s)).
Proof.
  intros Hs [Em Ha]. assert (fixed_tables m = fixed_tables (mach s)) as Ek by (by rewrite Em).
  assert (safe (started p (set_mach m s))) as Hs' by (by apply (core_safe (started p s))).
  split; [|done]. split; try done.
  - split; [exact Ek|done|]. eapply agree_weaken; [|exact Ha]. by intros a (_ & _ & _ & ?).
  - intros _. by apply off_screen_spares.
Qed.

Lemma load_page_full s pt addr :
  safe (started p s) → no_free s →
  ∃ m, load_page p pt addr s = Ok false (set_mach m s) ∧ screen_update (mach s) m.
Proof.
  intros Hs Hno. unfold load_page. erewrite bind_ok by (by apply alloc_null). cbn [Z.eqb].
  rewrite Z.eqb_refl. erewrite bind_ok by reflexivity.
  pose proof (console_printf_screen [VInt 0; VInt 0] (CPOS 22 0) 0xC000
    (str "program_load_segment(pid %d): can't assign address %p" ++ [10]) [VInt p; VInt addr] (mach s)) as Hr.
  assert (is_Some (printer_vprintf 0 (str "program_load_segment(pid %d): can't assign address %p" ++ [10]) [VInt 0; VInt 0])) as Hd
    by (eexists; vm_compute; reflexivity).
  specialize (Hr ltac:(repeat constructor) Hd). destruct (proj1 (runs_iff _ _ _) Hr) as (c & m & E & _ & Hm).
  exists m. split; [|done]. change (-1 <? 0) with true. cbv iota.
  by erewrite bind_ok by (unfold on_machine, zoom; by rewrite E).
Qed.

Lemma load_pages_full n s addr end_mem :
  safe (started p s) → addr mod 4096 = 0 → 0x100000 ≤ addr → end_mem ≤ 0x400000 → addr ≤ 0x400000 →
  nfree s < pages_to addr end_mem → nfree s < Z.of_nat n →
  ∃ s', load_pages n p (p_pagetable (process s p)) addr end_mem s = Ok false s' ∧
    loads p s s' ∧ safe (started p s') ∧ nfree s' = 0 ∧ cr3 (mach s') = cr3 (mach s).
Proof.
  revert s addr. induction n as [|n IH]; intros s addr Hs Hal Ha He Ha4 Hpg Hn; [pose proof (nfree_range s); lia|].
  cbn [load_pages]. destruct (Z.ltb_spec addr end_mem) as [Hlt|Hge].
  2: { rewrite pages_to_end in Hpg by done. pose proof (nfree_range s). lia. }
  destruct (decide (nfree s = 0)) as [E0|Hne].
  - destruct (load_page_full s (p_pagetable (process s p)) addr Hs (no_free_left s E0)) as (m & E & Hm).
    destruct (message_loads m s Hs Hm) as [Hl Hs']. erewrite bind_ok by exact E.
    exists (set_mach m s). split; [done|]. split; [exact Hl|]. split; [exact Hs'|]. split; [exact E0|].
    change (mach (set_mach m s)) with m. by rewrite (proj1 Hm).
  - destruct (pages_to_next addr end_mem Hlt) as [_ Hnext]. pose proof (nfree_range s).
    destruct (load_page_ok p Hp s addr Hs ltac:(lia) Hal ltac:(lia)) as (s1 & E & G1). erewrite bind_ok by exact E.
    assert (addr + 4096 ≤ 0x400000) as Ha' by (pose proof (Z.div_mod addr 4096); lia).
    change PAGESIZE with 4096. rewrite u64_small by lia. rewrite <- (grows_pagetable p s s1 _ _ G1).
    destruct (IH s1 (addr + 4096)) as (s2 & E2 & Hl2 & Hs2 & Hf2 & Hc2);
      [apply (gr_safe _ _ _ _ _ G1)| |lia|lia|lia|rewrite (gr_free _ _ _ _ _ G1); lia|rewrite (gr_free _ _ _ _ _ G1); lia|].
    { apply Z.mod_divide; [done|]. apply Z.divide_add_r; [by apply Z.mod_divide|by exists 1]. }
    exists s2. split; [exact E2|]. split; [transitivity s1; [apply (gr_loads _ _ _ _ _ G1)|exact Hl2]|]. split; [exact Hs2|]. split; [exact Hf2|].
    rewrite Hc2, (gr_machine _ _ _ _ _ G1). done.
Qed.

(** C31: when the pages do not suffice for a segment, [program_load_segment]
    prints a message and returns -1.  Every free page now belongs to the
    process, none is given back; the segment is not copied, the kernel's page
    table stays installed, and the invariant and all other processes are as
    before. *)
Theorem segment_without_memory ph src s :
  safe (started p s) → segment_fits (kernel_memory s) ph src → nfree s < seg_pages ph →
  ∃ s', program_load_segment p ph src s = Ok (-1) s' ∧ nfree s' = 0 ∧ cr3 (mach s') = cr3 (mach s) ∧
    safe (started p s') ∧ spares p (started p s) (started p s') ∧ kernel_kept s s'.
Proof.
  intros Hs Hfit Hf. destruct (seg_facts _ ph src Hfit) as (Hal & Hva & Hord & Eva & Eef & Eem & _).
  pose proof (sf_end _ _ _ Hfit) as Hend. pose proof (nfree_range s).
  assert (p_pid (process s p) = p) as Epid.
  { pose proof (safe_pid _ Hs p (started_live p s Hp)) as E. by rewrite started_process, decide_True in E. }
  destruct (load_pages_full page_fuel s (seg_va ph) (end_mem ph) Hs Hal ltac:(lia) Hend ltac:(lia) Hf)
    as (s' & E & Hl & Hs' & Hf' & Hc); [unfold page_fuel; change (NPAGES + 1) with 513; lia|].
  exists s'. split; [|split; [exact Hf'|split; [exact Hc|split; [exact Hs'|split; [by apply Hl|apply Hl]]]]].
  unfold program_load_segment. erewrite bind_ok by reflexivity. cbv zeta. rewrite Eva, Eem, Epid.
  by erewrite bind_ok by exact E.
Qed.
End loading.

(** ** On the concrete state

    Process 1 of [demo] takes another segment, of twelve bytes at 0x200010,
    read-only, of which four are in the image; the image is at 0x55008. *)

Definition demo_segment : elf_program := MkPh ELF_PTYPE_LOAD 5 0 0x200010 4 12.

Lemma demo_started : started 1 demo = demo.
Proof. reflexivity. Qed.

Lemma demo_kernel_frame f : @kernel_frame kernel_sym f → pinfo demo f = MkInfo PO_KERNEL 1.
Proof.
  intros Hf. assert (64 ≤ f < 88 ∨ f = 127) as Hr.
  { destruct Hf as [[H1 H2]|Hf]; [|by right]. left. change (KERNEL_START_ADDR / 4096) with 64 in H1.
    change (@end_addr kernel_sym) with 0x57008 in H2. lia. }
  assert (forall_range 64 24 (λ f, bool_decide (pinfo demo f = MkInfo PO_KERNEL 1)) = true) as Hb by (vm_compute; reflexivity).
  destruct Hr as [Hr| ->]; [|vm_compute; reflexivity].
  apply (bool_decide_unpack _). rewrite (forall_range_spec _ _ _ f Hb); [exact I|lia].
Qed.

Lemma demo_kernel_ok : @kernel_ok kernel_sym demo.
Proof.
  split.
  - reflexivity.
  - exact demo_kernel_shape.
  - exact demo_kernel_identity.
  - intros w Hw. apply kernel_entry_spec.
    apply (forall_range_spec 0 256 (λ w, kernel_entry_b (leaf demo_mem demo_kernel w) w)); [vm_compute; reflexivity|lia].
  - split; [reflexivity|vm_compute; reflexivity].
  - intros f Hf. rewrite demo_kernel_frame by exact Hf. by split.
Qed.

Lemma demo_image_memory a : 0x55000 ≤ a < 0x56000 → kernel_memory demo a.
Proof.
  intros Ha. assert (a / 4096 = 85) as E by (symmetry; apply Z.div_unique with (a - 0x55000); lia).
  split; [lia|]. unfold kernel_byte. rewrite E. split; [lia|].
  assert (pinfo demo 85 = MkInfo (-2) 1) as -> by (vm_compute; reflexivity).
  split; [discriminate|]. split; [discriminate|]. unfold on_screen. change console with 0xB8000. lia.
Qed.

Lemma demo_segment_fits : segment_fits (kernel_memory demo) demo_segment 0x55008.
Proof.
  split; try (cbn; lia); [unfold end_mem; cbn; lia|].
  intros i Hi. change (end_file demo_segment - seg_va demo_segment) with 20 in Hi. apply demo_image_memory. lia.
Qed.

(** The second byte of the segment is not the second of the image, 0x10. *)
Lemma segment_contents_witness :
  load8 (kmem demo) (0x55008 + 1) = 0x10 ∧
  ∃ s', @program_load_segment (λ _ _, 0) kernel_sym 1 demo_segment 0x55008 demo = Ok 0 s' ∧
    ubyte 1 s' 0x200011 = 0x30 ∧ ubyte 1 s' 0x200016 = 0 ∧ nfree s' = nfree demo - 1.
Proof.
  split; [vm_compute; reflexivity|].
  destruct (@segment_contents (λ _ _, 0) kernel_sym kernel_sym_ok 1 (conj (Z.le_refl 1) eq_refl) demo_segment 0x55008 demo
    demo_kernel_ok) as (s' & E & Hb & Hz & _ & _ & _ & Hn).
  - rewrite demo_started. exact demo_safe.
  - apply (bool_decide_unpack _). vm_compute. exact I.
  - exact demo_segment_fits.
  - rewrite demo_nfree. vm_compute. discriminate.
  - exists s'. split; [exact E|]. split; [|split; [|exact Hn]].
    + transitivity (load8 (kmem demo) (0x55008 + 1 + 0x200010 mod 4096)); [exact (Hb 1 (conj Z.le_0_1 eq_refl))|].
      vm_compute. reflexivity.
    + apply (Hz 6). vm_compute. split; [discriminate|reflexivity].
Defined.

(** 400 pages, where 382 are free. *)
Lemma segment_without_memory_witness :
  ∃ s', @program_load_segment (λ _ _, 0) kernel_sym 1 (MkPh ELF_PTYPE_LOAD 6 0 0x100000 0 0x190000) 0x55000 demo = Ok (-1) s' ∧
    nfree s' = 0.
Proof.
  destruct (@segment_without_memory (λ _ _, 0) kernel_sym 1 (conj (Z.le_refl 1) eq_refl)
    (MkPh ELF_PTYPE_LOAD 6 0 0x100000 0 0x190000) 0x55000 demo) as (s' & E & Hn & _).
  - rewrite demo_started. exact demo_safe.
  - split; try (cbn; lia); [unfold end_mem; cbn; lia|]. change (∀ i, 0 ≤ i < 0 → kernel_memory demo (0x55000 + i)). lia.
  - rewrite demo_nfree. vm_compute. reflexivity.
  - exists s'. split; [exact E|exact Hn].
Defined.
