(* ===== verification/Calm.v ===== *)
(** Which parts of the kernel leave the memory, the processes and the page
    information alone: output, the keyboard, the checks and the display. *)
From S2P Require Import Prelude X86 Machine CLib Printf Hardware PageTable Frames Syscalls Isolation Mmu Display ElfFormat Loader Kernel.
Open Scope Z_scope.

(** ** The machine *)

(** Memory outside the screen is the same. *)
Definition calm (s s' : machine) : Prop :=
  fixed_tables s' = fixed_tables s ∧ agree (λ a, ¬ on_screen a) (mem s) (mem s').

#[global] Instance calm_preorder : PreOrder calm.
Proof.
  split; [by split|]. intros s1 s2 s3 [E1 A1] [E2 A2]. split; [by rewrite E2|by transitivity (mem s2)].
Qed.

Lemma quiet_calm s s' : quiet s s' → calm s s'.
Proof. intros Hq. by destruct (quiet_fields s s' Hq) as (_ & ? & ?). Qed.

Section machine.
Context `{Devices}.

Lemma calm_read n a : keeps calm (read n a).
Proof. intros s. unfold read. by destruct (in_memory _ _). Qed.

Lemma calm_outb port v : keeps calm (outb port v).
Proof. intros s. by split. Qed.

Lemma calm_outw port v : keeps calm (outw port v).
Proof. intros s. by split. Qed.

Lemma calm_outl port v : keeps calm (outl port v).
Proof. intros s. by split. Qed.

Lemma calm_inb port : keeps calm (inb port).
Proof. intros s. by split. Qed.

Lemma calm_inl port : keeps calm (inl port).
Proof. intros s. by split. Qed.

Lemma calm_lcr3 v : keeps calm (lcr3 v).
Proof. intros s. by split. Qed.

Lemma calm_quiet {A} (m : M machine A) : (∀ s, runs m s (λ _ s', quiet s s')) → keeps calm m.
Proof.
  intros Hm. apply keeps_runs. intros s. eapply runs_mono; [apply Hm|]. intros a s'. apply quiet_calm.
Qed.

Lemma calm_cell i v : 0 ≤ i < 2000 → keeps calm (write 2 (console_cell i) v).
Proof.
  intros Hi. apply calm_quiet. intros s. eapply runs_mono; [by apply write_cell_ok|].
  intros [] s'. apply screen_quiet.
Qed.

Lemma calm_log_vprintf fmt args : keeps calm (log_vprintf fmt args).
Proof.
  unfold log_vprintf. destruct (printer_vprintf 0 fmt args) as [out|]; [|by apply keeps_halt].
  apply calm_quiet. intros s. eapply runs_mono; [apply log_puts_io|]. intros [] s'. apply io_only_quiet.
Qed.

Lemma calm_console_vprintf cpos color fmt args : keeps calm (console_vprintf cpos color fmt args).
Proof.
  unfold console_vprintf. destruct (printer_vprintf color fmt args) as [out|]; [|by apply keeps_halt].
  apply calm_quiet. intros s. eapply runs_mono; [apply console_puts_ok|].
  - change (CONSOLE_ROWS * CONSOLE_COLUMNS) with 2000. destruct (Z.ltb_spec cpos 0), (Z.leb_spec 2000 cpos); cbn; lia.
  - intros p s' [_ ?]. by apply screen_quiet.
Qed.

Lemma calm_console_printf cpos color fmt args : keeps calm (console_printf cpos color fmt args).
Proof. apply calm_console_vprintf. Qed.

Lemma calm_modify f : (∀ s, mem (f s) = mem s) → (∀ s, fixed_tables (f s) = fixed_tables s) →
  keeps calm (modify f).
Proof. intros Hm Hk. apply keeps_modify. intros s. split; [apply Hk|]. by rewrite Hm. Qed.
End machine.

#[export] Hint Resolve calm_read calm_outb calm_outw calm_outl calm_inb calm_inl calm_lcr3
  calm_log_vprintf calm_console_vprintf calm_console_printf : keeps.
#[export] Hint Extern 3 (keeps calm (modify _)) => apply calm_modify; intros s; reflexivity : keeps.

Section composed.
Context `{Devices} `{Layout}.

Lemma calm_log_printf fmt args : keeps calm (log_printf fmt args).
Proof. apply calm_log_vprintf. Qed.
#[local] Hint Resolve calm_log_printf : keeps.

Lemma calm_panic {A} fmt args : keeps calm (panic (A := A) fmt args).
Proof. unfold panic, error_printf, error_vprintf. keeps. Qed.
#[local] Hint Resolve calm_panic : keeps.

Lemma calm_assert x file line msg : keeps calm (assert_ x file line msg).
Proof. unfold assert_, assert_fail. keeps. Qed.
#[local] Hint Resolve calm_assert : keeps.

(** Page tables are read alike, however they are reached. *)
Section lookup.
Context {acc : Access} (Hread : ∀ a, keeps calm (read_entry a)).

Lemma calm_entry_via pt va level : keeps calm (entry_at pt va level).
Proof. unfold entry_at, pageindex. keeps. Qed.
#[local] Hint Resolve calm_entry_via : keeps.

Lemma calm_lookup_via pt va : keeps calm (virtual_memory_lookup pt va).
Proof.
  unfold virtual_memory_lookup. apply keeps_bind; [apply _| |intros; keeps].
  generalize 0, (Z.lor (Z.lor PTE_W PTE_U) PTE_P), pt. generalize 4%nat.
  induction n as [|n IH]; intros i pe t; cbn [lookup_loop]; keeps.
Qed.
#[local] Hint Resolve calm_lookup_via : keeps.

Lemma calm_set_pagetable_via pt : keeps calm (set_pagetable pt).
Proof. unfold set_pagetable. keeps. Qed.
End lookup.

Lemma calm_lookup pt va : keeps calm (virtual_memory_lookup pt va).
Proof. apply calm_lookup_via. intros a. apply calm_read. Qed.
#[local] Hint Resolve calm_lookup : keeps.

Lemma calm_set_pagetable pt : keeps calm (set_pagetable pt).
Proof. apply calm_set_pagetable_via. intros a. apply calm_read. Qed.

Lemma calm_vread n va : keeps calm (vread n va).
Proof. intros s. unfold vread, read. destruct (translate _ _ _); [|done]. by destruct (in_memory _ _). Qed.

Lemma calm_set_through pt : keeps calm (set_pagetable (acc := through_cr3) pt).
Proof. apply calm_set_pagetable_via. intros a. apply calm_vread. Qed.

Lemma calm_show_cursor cpos : keeps calm (console_show_cursor cpos).
Proof. unfold console_show_cursor. keeps. Qed.

Lemma calm_keyboard_readc : keeps calm keyboard_readc.
Proof. unfold keyboard_readc. keeps. Qed.
#[local] Hint Resolve calm_keyboard_readc : keeps.

Lemma calm_pci_config_readl a o : keeps calm (pci_config_readl a o).
Proof. unfold pci_config_readl. keeps. Qed.
#[local] Hint Resolve calm_pci_config_readl : keeps.

Lemma calm_pci_funcs n bus slot func v d : keeps calm (pci_funcs n bus slot func v d).
Proof. revert func. induction n as [|n IH]; intros func; cbn [pci_funcs]; keeps. Qed.
#[local] Hint Resolve calm_pci_funcs : keeps.

Lemma calm_pci_slots n bus slot v d : keeps calm (pci_slots n bus slot v d).
Proof. revert slot. induction n as [|n IH]; intros slot; cbn [pci_slots]; keeps. Qed.
#[local] Hint Resolve calm_pci_slots : keeps.

Lemma calm_pci_buses n bus v d : keeps calm (pci_buses n bus v d).
Proof. revert bus. induction n as [|n IH]; intros bus; cbn [pci_buses]; keeps. Qed.
#[local] Hint Resolve calm_pci_buses : keeps.

Lemma calm_poweroff {A} : keeps calm (poweroff (A := A)).
Proof. unfold poweroff, pci_find_device. keeps. Qed.
#[local] Hint Resolve calm_poweroff : keeps.

(** The soft reboot leaves the kernel. *)
Lemma calm_soft_reboot c : keeps calm (soft_reboot c).
Proof.
  apply stops_keeps. unfold soft_reboot. apply (stops_bind (λ _ _, True)).
  { apply keeps_runs. intros s. eapply runs_eq; [|exact I].
    apply memset_ok; [lia|discriminate|discriminate]. }
  intros _. do 3 (apply (stops_bind (λ _ _, True));
    [intros s; unfold write; by destruct (in_memory _ _)|intros _]).
  apply (stops_bind (λ _ _, True)); [done|]. intros _. by apply stops_halt.
Qed.
#[local] Hint Resolve calm_soft_reboot : keeps.

Lemma calm_check_keyboard : keeps calm check_keyboard.
Proof. unfold check_keyboard. keeps. Qed.

Lemma calm_check_page_table_mappings pt : keeps calm (check_page_table_mappings pt).
Proof.
  unfold check_page_table_mappings. keeps. unfold check_kernel_page. keeps.
Qed.
End composed.

#[export] Hint Resolve calm_log_printf calm_panic calm_assert calm_lookup calm_set_pagetable calm_set_through
  calm_show_cursor calm_check_keyboard calm_check_page_table_mappings : keeps.

(** ** The kernel state *)

(** Nothing changed but the machine, calmly, and the display's own variables. *)
Record calmk (s s' : kstate) : Prop := {
  ck_machine : calm (mach s) (mach s');
  ck_pageinfo : pageinfo s' = pageinfo s;
  ck_processes : processes s' = processes s;
  ck_current : current s' = current s }.

#[global] Instance calmk_preorder : PreOrder calmk.
Proof.
  split; [by split|]. intros s1 s2 s3 [A1 A2 A3 A4] [B1 B2 B3 B4]. split; [by etransitivity|congruence..].
Qed.

Lemma calmk_core s s' : calmk s s' → core s s'.
Proof.
  intros [[_ A] P Q R].
  assert (∀ q, process s' q = process s q) as E by (intros q; unfold process; by rewrite Q).
  split; intros; rewrite ?E; try done. unfold pinfo. by rewrite P.
Qed.

Lemma calmk_machine {A} (m : M machine A) : keeps calm m → keeps calmk (on_machine m).
Proof. intros Hm. eapply keeps_zoom; [|exact Hm]. intros s t Ht. by split. Qed.
#[export] Hint Resolve calmk_machine : keeps.

Section display.
Context `{Devices} `{Layout}.

Lemma calmk_pageinfo_at n : keeps calmk (pageinfo_at n).
Proof. unfold pageinfo_at. keeps. Qed.
#[local] Hint Resolve calmk_pageinfo_at : keeps.

Lemma calmk_check_table_page pt own count : keeps calmk (check_table_page pt own count).
Proof. unfold check_table_page. keeps. Qed.
#[local] Hint Resolve calmk_check_table_page : keeps.

Lemma calmk_check_level n pt own count : keeps calmk (check_page_table_ownership_level n pt own count).
Proof.
  revert pt count. induction n as [|n IH]; intros pt count; cbn [check_page_table_ownership_level]; keeps.
Qed.
#[local] Hint Resolve calmk_check_level : keeps.

Lemma calmk_check_process pid : keeps calmk (check_process pid).
Proof. unfold check_process, check_page_table_ownership. keeps. Qed.
#[local] Hint Resolve calmk_check_process : keeps.

Lemma calmk_check_owner_alive n : keeps calmk (check_owner_alive n).
Proof. unfold check_owner_alive. keeps. Qed.
#[local] Hint Resolve calmk_check_owner_alive : keeps.

Lemma calmk_check_virtual_memory : keeps calmk check_virtual_memory.
Proof.
  unfold check_virtual_memory, check_page_table_ownership. keeps.
Qed.
#[local] Hint Resolve calmk_check_virtual_memory : keeps.

Lemma calmk_cell cpos color : 0 ≤ cpos < 2000 → keeps calmk (put_cell cpos color).
Proof. intros Hc. apply calmk_machine, calm_cell. exact Hc. Qed.

Lemma calmk_known_color c : keeps calmk (known_color c).
Proof. unfold known_color. keeps. Qed.
#[local] Hint Resolve calmk_known_color : keeps.

(** The cell of page [n] in a display of 64 columns that starts at row [r]. *)
Lemma page_cell r n : 0 ≤ r → 0 ≤ n < 64 * (24 - r) → 0 ≤ CPOS (r + Z.quot n 64) (12 + Z.rem n 64) < 2000.
Proof.
  intros Hr Hn. unfold CPOS. rewrite Z.quot_div_nonneg, Z.rem_mod_nonneg by lia.
  pose proof (Z.div_mod n 64). pose proof (Z.mod_pos_bound n 64).
  assert (n / 64 < 24 - r) by (apply Z.div_lt_upper_bound; lia). assert (0 ≤ n / 64) by (apply Z.div_pos; lia). lia.
Qed.

Lemma calmk_show_physical_page n : 0 ≤ n < 512 → keeps calmk (show_physical_page n).
Proof. intros Hn. unfold show_physical_page. keeps; apply calmk_cell, page_cell; lia. Qed.

Lemma calmk_memshow_physical : keeps calmk memshow_physical.
Proof.
  unfold memshow_physical. keeps. apply calmk_show_physical_page.
  change (Z.to_nat NPAGES) with 512%nat in *. lia.
Qed.

Lemma calmk_show_virtual_page pt k :
  0 ≤ k < 768 → keeps calmk (show_virtual_page pt (k * 4096)).
Proof.
  intros Hk. unfold show_virtual_page. rewrite PAGENUMBER_div, Z.div_mul by lia.
  keeps; apply calmk_cell, page_cell; lia.
Qed.

Lemma calmk_memshow_virtual pt name : keeps calmk (memshow_virtual pt name).
Proof.
  unfold memshow_virtual. keeps. rewrite Z.add_0_l. apply calmk_show_virtual_page.
  change (Z.to_nat (MEMSIZE_VIRTUAL / PAGESIZE)) with 768%nat in *. lia.
Qed.
#[local] Hint Resolve calmk_memshow_physical calmk_memshow_virtual : keeps.

Lemma calmk_showing f : (∀ s, ∃ t x, f s = set_showing t x s) → keeps calmk (modify f).
Proof. intros Hf. apply keeps_modify. intros s. destruct (Hf s) as (t & x & ->). by split. Qed.

Lemma calmk_animate : keeps calmk memshow_virtual_animate.
Proof.
  unfold memshow_virtual_animate. keeps; apply calmk_showing; intros s.
  - destruct (_ || _); [by eexists _, _|]. exists (last_ticks s), (showing s). by destruct s.
  - by eexists _, _.
  - by eexists _, _.
Qed.
End display.

#[export] Hint Resolve calmk_check_virtual_memory calmk_memshow_physical calmk_animate : keeps.
