(* ===== verification/System.v ===== *)
(** The system as a whole: what [exception], [schedule] and [run] of
    [src/kernel.c] keep true between two visits to user mode, and the states
    that a run of the system can reach. *)
From S2P Require Import Prelude X86 Machine CLib Printf Hardware PageTable Frames Syscalls Isolation Demo Duplicate Fork ForkSafe Exit PageAlloc Canonical Mmu Contracts Mapping Display ElfFormat Loader Kernel Calm.
Open Scope Z_scope.

#[local] Opaque frames_where.

(** ** run and schedule *)

Lemma bind_inv {S A B} (m : M S A) (f : A → M S B) s b s' :
  (m ≫= f) s = Ok b s' → ∃ a s1, m s = Ok a s1 ∧ f a s1 = Ok b s'.
Proof. unfold mbind, M_bind. destruct (m s) as [a s1|]; [|done]. intros E. by exists a, s1. Qed.

Lemma on_assert `{Devices} x file line msg (s s' : kstate) a :
  on_machine (assert_ x file line msg) s = Ok a s' → x = true ∧ s' = s.
Proof.
  unfold on_machine, zoom, assert_. destruct x.
  - intros [= _ <-]. split; [done|]. by destruct s.
  - destruct (assert_fail_halts (A := ()) file line msg (mach s)) as (e & m & -> & _). done.
Qed.

Lemma set_pagetable_cr3 `{Devices} {acc : Access} `{Layout} pt (s s' : machine) a :
  set_pagetable pt s = Ok a s' → cr3 s' = pt.
Proof.
  unfold set_pagetable. intros E. do 10 (apply bind_inv in E as (? & ? & _ & E)). by injection E as _ <-.
Qed.

(** User mode entered with process [pid]. *)
Record entered (s s' : kstate) (pid : Z) : Prop := {
  en_calm : calmk (set_current pid s) s';
  en_runnable : p_state (process s pid) = P_RUNNABLE;
  en_cr3 : cr3 (mach s') = p_pagetable (process s pid) }.

Section scheduler.
Context `{Devices} `{Layout} `{Patience}.

Lemma run_enters {A} pid s s' : run (A := A) pid s = Halt UserMode s' → entered s s' pid.
Proof.
  unfold run. intros E.
  apply (keeps_enters calmk) in E as (p & s1 & Ep & _ & E); [|keeps]. injection Ep as <- <-.
  apply (keeps_enters calmk) in E as (? & s1 & Ea & _ & E); [|keeps]. apply on_assert in Ea as [Hr ->].
  apply bool_decide_eq_true in Hr.
  assert (modify (set_current pid) s = Ok () (set_current pid s)) as Em by done.
  rewrite (bind_ok _ _ _ _ _ Em) in E.
  apply (keeps_enters calmk) in E as (? & s2 & Es & Hc & E); [|keeps]. injection E as <-.
  split; [exact Hc|exact Hr|]. unfold on_machine, zoom in Es.
  destruct (set_pagetable _ _) as [u m|] eqn:Et; [|done]. injection Es as <- <-.
  cbn [mach set_mach]. exact (set_pagetable_cr3 _ _ _ _ Et).
Qed.

Lemma run_leaves {A} pid s : ∀ (a : A) s', run pid s ≠ Ok a s'.
Proof.
  intros a s' E. unfold run in E. do 4 (apply bind_inv in E as (? & ? & _ & E)). done.
Qed.

Lemma calmk_process s s' q : calmk s s' → process s' q = process s q.
Proof. intros Hc. unfold process. by rewrite (ck_processes _ _ Hc). Qed.

Lemma calmk_set_current s s' pid : calmk s s' → calmk (set_current pid s) (set_current pid s').
Proof. intros [A P Q _]. by split. Qed.

Lemma entered_calm s s1 s' pid : calmk s s1 → entered s1 s' pid → entered s s' pid.
Proof.
  intros Hc [Hc' Hr He]. split.
  - transitivity (set_current pid s1); [by apply calmk_set_current|done].
  - by rewrite <- (calmk_process s s1).
  - by rewrite <- (calmk_process s s1).
Qed.

Lemma schedule_loop_enters {A} n pid s s' :
  0 ≤ pid → schedule_loop (A := A) n pid s = Halt UserMode s' → ∃ q, 0 ≤ q < 16 ∧ entered s s' q.
Proof.
  revert pid s. induction n as [|n IH]; intros pid s Hp E; cbn [schedule_loop] in E; [done|].
  pose proof (Z.rem_bound_pos (pid + 1) NPROC ltac:(lia) ltac:(done)) as Hq.
  change NPROC with 16 in *. set (q := Z.rem (pid + 1) 16) in *.
  erewrite bind_ok in E by reflexivity. destruct (decide (p_state (process s q) = P_RUNNABLE)).
  - exists q. split; [lia|]. by eapply run_enters.
  - apply (keeps_enters calmk) in E as (c & s1 & _ & Hc & E); [|keeps].
    destruct (IH q s1 ltac:(lia) E) as (q' & ? & He). exists q'. split; [done|]. by eapply entered_calm.
Qed.

Lemma schedule_loop_leaves {A} n pid s : ∀ (a : A) s', schedule_loop n pid s ≠ Ok a s'.
Proof.
  revert pid s. induction n as [|n IH]; intros pid s a s' E; cbn [schedule_loop] in E; [done|].
  apply bind_inv in E as (p & s1 & _ & E). destruct (decide _); [by apply run_leaves in E|].
  apply bind_inv in E as (c & s2 & _ & E). by apply IH in E.
Qed.
End scheduler.

(** ** The invariant of the running system *)

(** In user mode: the current process is live and runnable, its page table is
    the active one, and process 0 is not used. *)
Record running (s : kstate) : Prop := {
  run_safe : safe s;
  run_zero : p_state (process s 0) = P_FREE;
  run_live : live s (current s);
  run_runnable : p_state (process s (current s)) = P_RUNNABLE;
  run_cr3 : cr3 (mach s) = p_pagetable (process s (current s)) }.

(** In the kernel, once a system call is handled: the current process may be gone. *)
Record served (s : kstate) : Prop := {
  sv_safe : safe s;
  sv_zero : p_state (process s 0) = P_FREE;
  sv_current : 1 ≤ current s < 16;
  sv_pid : p_pid (process s (current s)) = current s }.

Lemma served_core s s' : served s → core s s' → current s' = current s → served s'.
Proof.
  intros [Hs Hz Hc Hp] Hk E. split; rewrite ?E; try done.
  - by apply (core_safe s).
  - by apply (core_state _ _ Hk).
  - by rewrite (core_pid _ _ Hk).
Qed.

Lemma served_calm s s' : served s → calmk s s' → served s'.
Proof. intros Hs Hc. apply (served_core s); [done|by apply calmk_core|apply Hc]. Qed.

Lemma entered_running s s' q : served s → 0 ≤ q < 16 → entered s s' q → running s'.
Proof.
  intros Hs Hq [Hc Hr He].
  pose proof (calmk_core _ _ Hc) as Hk.
  assert (∀ k, process s' k = process s k) as Hp by (intros k; by rewrite (calmk_process _ _ k Hc)).
  assert (current s' = q) as Ec by apply Hc.
  split; rewrite ?Ec, ?Hp; try done.
  - eapply core_safe; [|exact Hk]. eapply core_safe; [apply Hs|]. apply set_current_core.
  - apply Hs.
  - split; [|rewrite Hp, Hr; done]. destruct (decide (q = 0)) as [->|]; [|lia].
    pose proof (sv_zero s Hs). congruence.
Qed.

Section resume.
Context `{Devices} `{Layout} `{Patience}.

Lemma schedule_running {A} s s' : served s → schedule (A := A) s = Halt UserMode s' → running s'.
Proof.
  intros Hs E. unfold schedule in E. erewrite bind_ok in E by reflexivity.
  unfold current_proc in E. rewrite (sv_pid s Hs) in E. pose proof (sv_current s Hs).
  apply schedule_loop_enters in E as (q & Hq & He); [|lia]. by eapply entered_running.
Qed.

Lemma resume_running {A} s s' : served s → resume (A := A) s = Halt UserMode s' → running s'.
Proof.
  intros Hs E. unfold resume in E. erewrite bind_ok in E by reflexivity.
  destruct (decide _) as [Hr|Hr]; [|by apply schedule_running in E].
  erewrite bind_ok in E by reflexivity. apply run_enters in E. pose proof (sv_current s Hs).
  apply (entered_running s s' (current s)); [done|lia|done].
Qed.
End resume.

(** ** System calls *)

(** What the caller of the handler [reg] provides: for fork, memory and
    reference counts that suffice if a slot is free; for page_alloc, an address
    the page tables can tell apart; for mapping, a buffer inside one page. *)
Record admissible (s : kstate) (reg : x86_64_registers) : Prop := {
  ad_fork : reg_intno reg = INT_SYS_FORK → ∀ c, 1 ≤ c < 16 → p_state (process s c) = P_FREE →
    (∀ k, 1 ≤ k < c → p_state (process s k) ≠ P_FREE) → fork_pre s c;
  ad_alloc : reg_intno reg = INT_SYS_PAGE_ALLOC → reg_rdi reg < 2 ^ 48;
  ad_mapping : reg_intno reg = INT_SYS_MAPPING → reg_rdi reg mod PAGESIZE + sizeof_vamapping ≤ PAGESIZE }.

Lemma fork_pre_core s s' c : safe s → core s s' → current s' = current s → fork_pre s c → fork_pre s' c.
Proof.
  intros Hs Hk Ec [Hl Hsl Hf Hr Hc]. pose proof (core_undisturbed s s' Hs Hk) as Hu.
  destruct (un_kept s s' Hs Hu _ Hl) as (Et & _ & El).
  assert (∀ sel, frames_where sel (kmem s') (table_of s' (current s)) 256 512
    = frames_where sel (kmem s) (table_of s (current s)) 256 512) as Ef.
  { intros sel. rewrite Et. apply frames_where_ext. intros w Hw. apply El. lia. }
  split; rewrite ?Ec, ?Ef.
  - by apply (un_live s s' Hu).
  - split; [apply Hsl|]. apply (core_state _ _ Hk), Hsl.
  - intros k Hkc Hfree. apply (core_state _ _ Hk) in Hfree. by apply (Hf k).
  - rewrite <- (nfree_ext s s'); [exact Hr|]. intros k Hk'. by rewrite (core_pinfo _ _ Hk) by lia.
  - intros f Hff. rewrite (core_pinfo _ _ Hk) by done. by apply Hc.
Qed.

(** The first free slot, or none. *)
Lemma first_slot s :
  (∃ c, 1 ≤ c < 16 ∧ p_state (process s c) = P_FREE ∧ ∀ k, 1 ≤ k < c → p_state (process s k) ≠ P_FREE) ∨
  (∀ k, 1 ≤ k < 16 → p_state (process s k) ≠ P_FREE).
Proof.
  assert (∀ n : nat, (∃ c, 1 ≤ c < 1 + Z.of_nat n ∧ p_state (process s c) = P_FREE ∧
      ∀ k, 1 ≤ k < c → p_state (process s k) ≠ P_FREE) ∨
    (∀ k, 1 ≤ k < 1 + Z.of_nat n → p_state (process s k) ≠ P_FREE)) as Hn.
  { induction n as [|n [(c & Hc & Hrest)|Hno]].
    - right. lia.
    - left. exists c. split; [lia|done].
    - destruct (decide (p_state (process s (1 + Z.of_nat n)) = P_FREE)) as [E|E].
      + left. exists (1 + Z.of_nat n). split; [lia|]. split; [done|]. intros k Hk. apply Hno. lia.
      + right. intros k Hk. destruct (decide (k = 1 + Z.of_nat n)) as [->|]; [done|]. apply Hno. lia. }
  exact (Hn 15%nat).
Qed.

(** What a system call of the current process may do: return with the
    invariant kept, resume a process, or stop; other processes are spared. *)
Definition handled (m : M kstate ()) (s : kstate) : Prop :=
  match m s with
  | Ok _ s' => served s' ∧ spares (current s) s s'
  | Halt UserMode s' => running s' ∧ spares (current s) s s'
  | _ => True
  end.

Lemma handled_ok m s s' : m s = Ok () s' → served s' → spares (current s) s s' → handled m s.
Proof. unfold handled. by intros ->. Qed.

Lemma calmk_spares p s s' : safe s → calmk s s' → spares p s s'.
Proof.
  intros Hs Hc. apply off_screen_spares; [done| |apply Hc]. intros q _ _. by apply calmk_process.
Qed.

Lemma handled_calm m s : served s → keeps calmk m → handled m s.
Proof.
  intros Hs Hm. specialize (Hm s). unfold handled. destruct (m s) as [[] s'|[] s']; try done.
  split; [by apply (served_calm s)|]. apply calmk_spares; [apply Hs|done].
Qed.

Lemma upd_spares p f s : spares p s (upd_proc p f s).
Proof. split; [|done]. intros q _ Hne. rewrite process_upd. by rewrite decide_False. Qed.

Lemma regs_spares p g s : spares p s (set_regs p g s).
Proof. apply upd_spares. Qed.

(** A new state that is not free. *)
Lemma broken_core s q : p_state (process s q) ≠ P_FREE → core s (upd_proc q (with_state P_BROKEN) s).
Proof.
  intros Hq. split; try done; intros k; rewrite process_upd; (case_decide as E; [subst k|done]); try done.
Qed.

Section calls.
Context `{Devices} `{Layout} `{Patience} `{Padding} (s : kstate) (Hs : served s) (Hl : live s (current s)).
Abbreviation p := (current s).

Lemma served_regs g : served (set_regs p g s).
Proof. apply (served_core s); [done|apply set_regs_core|done]. Qed.

Lemma handled_regs m g : m s = Ok () (set_regs p g s) → handled m s.
Proof. intros E. eapply handled_ok; [exact E|apply served_regs|apply regs_spares]. Qed.

Lemma handled_taken m n x mc :
  m s = Ok () (set_regs p (set_rax x) (set_mach mc (take_page n p s))) →
  1 ≤ n < 512 → refcount (pinfo s n) = 0 → io_only (mach s) mc → handled m s.
Proof.
  intros E Hn Hr Hio. pose proof (safe_take s n p (sv_safe s Hs) Hn Hr) as Ht.
  assert (served (take_page n p s)) as Hst by (destruct Hs; by split).
  assert (agree (λ a, ¬ on_screen a) (kmem s) (mem mc)) as Ha
    by (rewrite (io_only_mem _ _ Hio); reflexivity).
  eapply handled_ok; [exact E| |].
  - apply (served_core (set_mach mc (take_page n p s))); [|apply set_regs_core|done].
    by apply (served_core (take_page n p s)).
  - apply (spares_trans p s (set_mach mc (take_page n p s))); [apply Hs| |apply regs_spares].
    apply off_screen_spares; [apply Hs|done|exact Ha].
Qed.

(** The current process's tables are no one else's. *)
Lemma mapped_spares m V n a perm x k :
  mapped (table_of s p) (kmem s) m V n a perm →
  spares p s (set_regs p (set_rax x) (set_kmem m (take_page k p s))).
Proof.
  intros [_ _ Ha]. pose proof (sv_safe s Hs) as Hsafe.
  apply (spares_trans p s (set_kmem m (take_page k p s))); [done| |apply regs_spares].
  split; [done|]. intros q Hq Hne b Hb. apply Ha. intros Hin.
  assert (in_table (table_of s p) b) as Ht.
  { destruct (in_pages (table_of s p)) as (_&_&_&M4&M5). destruct Hin as [Hin|Hin]; eexists; (split; [|exact Hin]); done. }
  apply in_table_frames in Ht; [|apply (safe_shape s Hsafe p Hl)].
  pose proof (table_frame_range s Hsafe p _ Hl Ht).
  apply (frame_exclusive s p q (b / 4096)) in Hb; try done; [lia| |].
  - by rewrite (safe_tables s Hsafe p _ Hl Ht).
  - rewrite frames_of_live by done. apply elem_of_app. by left.
Qed.

Lemma page_alloc_handled :
  reg_rdi (p_registers (process s p)) < 2 ^ 48 → handled sys_page_alloc s.
Proof.
  intros Ha. pose proof (sv_safe s Hs) as Hsafe. set (addr := reg_rdi _) in *.
  destruct (find_free_pages s) as [(n & _ & Hn & Hff)|[_ Hno]].
  2:{ eapply handled_regs, (page_alloc_full s Hsafe Hl Hno). }
  pose proof Hff as (_ & Hr & _).
  destruct (decide (addr < PROC_START_ADDR)) as [Hlo|Hlo].
  { eapply (handled_taken _ n (-1) (mach s)); [|done..].
    apply (page_alloc_low s Hsafe Hl n Hff ltac:(lia) Hlo). }
  destruct (decide (addr mod 4096 = 0)) as [Hal|Hal].
  2:{ destruct (page_alloc_unaligned s Hsafe Hl n Hff ltac:(lia) Hal ltac:(lia)) as (msg & s' & E).
      unfold handled. by rewrite E. }
  destruct (decide (addr < 0x400000)) as [Hlt|Hge].
  - destruct (page_alloc_maps s Hsafe Hl n Hff ltac:(lia) Hal ltac:(lia)) as (m' & E & Hm & Hs').
    eapply handled_ok; [exact E| |by eapply mapped_spares]. destruct Hs as [_ Hz Hc Hp].
    assert (∀ q, let s' := set_regs p (set_rax 0) (set_kmem m' (take_page n p s)) in
      p_state (process s' q) = p_state (process s q) ∧ p_pid (process s' q) = p_pid (process s q)) as Hsame.
    { intros q s'. unfold s', set_regs. rewrite process_upd. case_decide as E1; [by subst|done]. }
    split; [done|by rewrite (proj1 (Hsame 0))|exact Hc|]. change (current (set_regs _ _ _)) with p.
    by rewrite (proj2 (Hsame p)).
  - destruct (page_alloc_high s Hsafe Hl n Hff ltac:(lia) Hal ltac:(lia)) as (mc & E & Hio).
    by eapply (handled_taken _ n 0 mc).
Qed.

Lemma syscall_mapping_kernel : keeps (λ _ _ : kstate, True) syscall_mapping.
Proof.
  assert (PreOrder (λ _ _ : kstate, True)) by by split.
  assert (∀ pt va, keeps (λ _ _ : kstate, True) (on_machine (virtual_memory_lookup pt va))) as Hv.
  { intros pt va. eapply keeps_zoom; [|apply calm_lookup]. done. }
  assert (∀ dst t, keeps (λ _ _ : kstate, True) (on_machine (copy_vamapping dst t))) as Hc.
  { intros dst t. apply (keeps_zoom _ (λ _ _, True)); [done|]. assert (PreOrder (λ _ _ : machine, True)) by by split.
    assert (∀ n a v, keeps (λ _ _ : machine, True) (write n a v)) as Hw
      by (intros n a v t0; unfold write; by destruct (in_memory _ _)).
    unfold copy_vamapping. keeps. }
  unfold syscall_mapping. keeps.
Qed.

Lemma mapping_handled :
  reg_rdi (p_registers (process s p)) mod 4096 ≤ 4072 → handled syscall_mapping s.
Proof.
  intros Ha. unfold handled. destruct (syscall_mapping s) as [[] s'|e s'] eqn:E.
  - destruct (mapping_safe s s' (sv_safe s Hs) Hl Ha E) as (m & -> & Hu & Hsp). split; [|done].
    destruct Hs as [Hsafe Hz Hc Hp]. by split; [apply (un_safe s)|..].
  - pose proof (syscall_mapping_kernel s) as Hk. rewrite E in Hk. by destruct e.
Qed.

Lemma fork_handled :
  (∀ c, 1 ≤ c < 16 → p_state (process s c) = P_FREE →
    (∀ k, 1 ≤ k < c → p_state (process s k) ≠ P_FREE) → fork_pre s c) → handled sys_fork s.
Proof.
  intros Hpre. pose proof (sv_safe s Hs) as Hsafe.
  destruct (first_slot s) as [(c & Hc & Hf & Hfirst)|Hno]; [|by eapply handled_regs, fork_no_slot].
  specialize (Hpre c Hc Hf Hfirst). destruct (fork_ok s c Hsafe Hpre) as (s' & E & Hk & Hs').
  assert (∀ q, live s q → q ≠ c) as Hlc by (intros q [_ Hq] ->; done).
  eapply handled_ok; [exact E| |].
  - destruct Hs as [_ Hz Hcur Hp]. split; [done| | |]; rewrite ?(fk_current _ _ _ Hk); [|done|].
    + rewrite (fk_others _ _ _ Hk); [done|lia..].
    + by rewrite (fk_parent _ _ _ Hk).
  - split.
    + intros q Hq Hne. apply (fk_others _ _ _ Hk); [by apply Hlc|done].
    + intros q Hq Hne a Ha. apply (fk_memory _ _ _ Hk).
      pose proof (frame_range s q _ Hsafe Hq Ha) as Hr.
      split; [lia|]. assert (0 ≤ a / 4096 < 512) as Hr2 by lia. pose proof (frame_counted s q _ Hsafe Hq Hr2 Ha). lia.
Qed.

Lemma exit_handled : handled sys_exit s.
Proof.
  destruct (exit_ok s (sv_safe s Hs) Hl) as (s' & E & Hx & Hs').
  eapply handled_ok; [exact E| |].
  - destruct Hs as [_ Hz Hcur Hp]. split; [done| | |]; rewrite ?(ex_current _ _ Hx); [|done|].
    + rewrite (ex_process _ _ Hx). by case_decide.
    + by rewrite (ex_process _ _ Hx), decide_True.
  - split.
    + intros q _ Hne. by rewrite (ex_process _ _ Hx), decide_False.
    + intros q _ _. unfold kmem. by rewrite (ex_memory _ _ Hx).
Qed.

Lemma entered_spares k s' q : entered s s' q → spares k s s'.
Proof.
  intros [Hc _ _]. apply (spares_trans k s (set_current q s)); [apply Hs|by split|].
  apply calmk_spares; [|done]. apply (core_safe s); [apply Hs|apply set_current_core].
Qed.

Lemma schedule_handled : handled schedule s.
Proof.
  unfold handled. destruct (schedule s) as [[] s'|e s'] eqn:E.
  - unfold schedule in E. apply bind_inv in E as (a & s1 & _ & E). by apply schedule_loop_leaves in E.
  - destruct e; try done. split; [by apply (schedule_running (A := ()) s)|].
    unfold schedule in E. erewrite bind_ok in E by reflexivity. unfold current_proc in E.
    rewrite (sv_pid s Hs) in E. pose proof (sv_current s Hs).
    apply schedule_loop_enters in E as (q & Hq & He); [|lia]. by eapply entered_spares.
Qed.

Lemma handled_upd m f :
  m s = Ok () (upd_proc p f s) →
  p_pid (f (process s p)) = p_pid (process s p) → p_pagetable (f (process s p)) = p_pagetable (process s p) →
  p_state (f (process s p)) ≠ P_FREE → handled m s.
Proof.
  intros E Hp Ht Hst. eapply handled_ok; [exact E| |apply upd_spares].
  apply (served_core s); [done| |done].
  split; try done; intros q; rewrite process_upd; (case_decide as Eq; [subst q|done]); try done.
  destruct Hl. tauto.
Qed.

Lemma mem_tog_handled : handled syscall_mem_tog s.
Proof.
  assert (handled (mret ()) s) as Hr by (apply (handled_ok _ _ s); [done..|apply spares_refl]).
  unfold syscall_mem_tog, handled. erewrite bind_ok by reflexivity. cbv zeta.
  destruct (_ =? 0).
  { split; [|by split]. by apply (served_core s). }
  destruct (_ || _); [exact Hr|]. eapply handled_upd; [by rewrite <- put_process_eq|..]; try done. apply Hl.
Qed.

Lemma getpid_handled : handled (cur ← gets current_proc; put_current_rax (p_pid cur)) s.
Proof. eapply handled_regs. erewrite bind_ok by reflexivity. apply put_current_rax_eq. Qed.

Lemma broken_handled : handled (pid ← gets current; put_process pid (with_state P_BROKEN)) s.
Proof. by eapply handled_upd; [by erewrite bind_ok by reflexivity; apply put_process_eq|..]. Qed.
End calls.

(** First what leaves memory, processes and page information alone. *)
Lemma handled_after {A} (m : M kstate A) f s :
  served s → keeps calmk m → (∀ a s1, m s = Ok a s1 → calmk s s1 → handled (f a) s1) → handled (m ≫= f) s.
Proof.
  intros Hs Hm Hf. specialize (Hm s). unfold handled, mbind, M_bind.
  destruct (m s) as [a s1|[] s1]; try done. specialize (Hf a s1 eq_refl Hm).
  pose proof (ck_current _ _ Hm) as Ec. pose proof (calmk_spares (current s) s s1 (sv_safe s Hs) Hm) as Hsp.
  unfold handled in Hf. rewrite Ec in Hf.
  destruct (f a s1) as [[] s2|[] s2]; try done; destruct Hf as [? Hf];
    (split; [done|]; by apply (spares_trans _ s s1); [apply Hs|..]).
Qed.

Lemma calmk_live s s' q : calmk s s' → live s q → live s' q.
Proof. intros Hc. unfold live. by rewrite (calmk_process s s'). Qed.

Section handle.
Context `{Devices} `{Layout} `{Patience} `{Padding} (s : kstate) (Hs : served s) (Hl : live s (current s)).

Lemma calmk_gets {A} (f : kstate → A) : keeps calmk (gets f).
Proof. apply keeps_gets, _. Qed.

Lemma page_fault_handled reg : handled (page_fault reg) s.
Proof.
  unfold page_fault. apply handled_after; [done|apply calmk_machine; unfold rcr2; keeps|].
  intros addr s1 _ Hc. cbv zeta. destruct (negb _).
  { apply handled_calm; [by apply (served_calm s)|]. keeps. }
  apply handled_after; [by apply (served_calm s)|apply calmk_gets|]. intros cur s2 _ Hc2.
  assert (calmk s s2) as Hc' by (by transitivity s1).
  apply handled_after; [by apply (served_calm s)|keeps|]. intros u s3 _ Hc3.
  assert (calmk s s3) as Hc4 by (by transitivity s2).
  apply broken_handled; [by apply (served_calm s)|].
  rewrite (ck_current _ _ Hc4). by apply (calmk_live s).
Qed.

Lemma timer_handled : handled (modify (λ s, set_ticks (u32 (ticks s + 1)) s);; schedule) s.
Proof.
  apply handled_after; [done|by apply keeps_modify|]. intros [] s1 _ Hc.
  apply schedule_handled. by apply (served_calm s).
Qed.

Lemma calm_read_bytes n a : keeps calm (read_bytes n a).
Proof. revert a. induction n as [|n IH]; intros a; cbn [read_bytes]; keeps. Qed.

Lemma calmk_sys_panic : keeps calmk (sys_panic (A := ())).
Proof.
  unfold sys_panic. keeps. apply calmk_machine, calm_read_bytes.
Qed.

Lemma handle_sound reg :
  p_registers (process s (current s)) = reg → admissible s reg → handled (handle reg) s.
Proof.
  intros Hreg [Hf Ha Hm]. unfold handle. cbv zeta.
  repeat match goal with |- handled (if ?x =? ?y then _ else _) _ => destruct (Z.eqb_spec x y) as [E|_] end.
  - by apply handled_calm, calmk_sys_panic.
  - by apply getpid_handled.
  - by apply schedule_handled.
  - apply page_alloc_handled; [done..|]. rewrite Hreg. by apply Ha.
  - apply mapping_handled; [done..|]. rewrite Hreg. specialize (Hm E).
    change sizeof_vamapping with 24 in Hm. change PAGESIZE with 4096 in Hm. lia.
  - by apply mem_tog_handled.
  - apply timer_handled.
  - apply page_fault_handled.
  - by apply fork_handled, Hf.
  - by apply exit_handled.
  - apply handled_after; [done|apply calmk_gets|]. intros cur s1 _ Hc.
    apply handled_calm; [by apply (served_calm s)|]. unfold default_exception. keeps.
Qed.
End handle.

(** ** The exception handler *)

Section exception.
Context `{Devices} `{Layout} `{Patience} `{Padding}.

(** The handler's first part saves the registers, and otherwise only
    displays, checks and polls the keyboard. *)
Lemma exception_entry_saves reg :
  ∃ rest, (∀ s, exception_entry reg s = rest (upd_proc (current s) (with_registers reg) s)) ∧ keeps calmk rest.
Proof.
  unfold exception_entry. eexists. split; [intros s; erewrite bind_ok by reflexivity; by erewrite bind_ok by apply put_process_eq|].
  keeps.
Qed.

Lemma saved_served s reg : running s → served (upd_proc (current s) (with_registers reg) s).
Proof.
  intros [Hs Hz Hl _ _]. apply (served_core s); [|apply (set_regs_core _ (λ _, reg))|done].
  split; [done..|apply Hl|by apply (safe_pid s Hs)].
Qed.

Lemma admissible_core s s' reg :
  safe s → core s s' → current s' = current s → admissible s reg → admissible s' reg.
Proof.
  intros Hs Hk Ec [Hf Ha Hm]. split; [|done..]. intros Hi c Hc Hfree Hfirst.
  apply (fork_pre_core s); try done. apply (Hf Hi c Hc); [by apply (core_state _ _ Hk)|].
  intros k Hkc Hkf. apply (Hfirst k Hkc). by apply (core_state _ _ Hk).
Qed.

Lemma resume_sound {A} k s s' :
  served s → resume (A := A) s = Halt UserMode s' → running s' ∧ spares k s s'.
Proof.
  intros Hs E. split; [by apply (resume_running (A := A) s)|].
  unfold resume in E. erewrite bind_ok in E by reflexivity. destruct (decide _) as [Hr|Hr].
  - erewrite bind_ok in E by reflexivity. apply run_enters in E. by eapply entered_spares.
  - unfold schedule in E. erewrite bind_ok in E by reflexivity. unfold current_proc in E.
    rewrite (sv_pid s Hs) in E. pose proof (sv_current s Hs).
    apply schedule_loop_enters in E as (q & Hq & He); [|lia]. by eapply entered_spares.
Qed.

Lemma exception_sound {A} reg s s' :
  running s → admissible s reg → exception (A := A) reg s = Halt UserMode s' →
  running s' ∧ spares (current s) s s'.
Proof.
  intros Hr Ha E. pose proof (run_safe s Hr) as Hsafe. unfold exception in E.
  destruct (exception_entry_saves reg) as (rest & Erest & Hrest).
  set (s0 := upd_proc (current s) (with_registers reg) s) in *.
  assert (served s0) as Hs0 by (by apply saved_served).
  assert (core s s0) as Hk0 by apply (set_regs_core _ (λ _, reg)).
  unfold mbind, M_bind in E. rewrite Erest in E. fold s0 in E. specialize (Hrest s0).
  destruct (rest s0) as [[] s1|e s1]; [|by injection E as ->].
  assert (current s1 = current s) as Ec by apply Hrest.
  assert (core s s1) as Hk1 by (transitivity s0; [done|by apply calmk_core]).
  assert (spares (current s) s s1) as Hsp1.
  { apply (spares_trans _ s s0); [done|apply upd_spares|]. apply calmk_spares; [apply Hs0|done]. }
  assert (served s1) as Hs1 by (by apply (served_calm s0)).
  assert (live s1 (current s1)) as Hl1.
  { rewrite Ec. pose proof (run_live s Hr) as [? Hst]. split; [done|]. by rewrite (core_state _ _ Hk1). }
  assert (handled (handle reg) s1) as Hh.
  { apply handle_sound; [done..| |].
    - rewrite (calmk_process _ _ _ Hrest), Ec. unfold s0. by rewrite process_upd, decide_True.
    - by apply (admissible_core s). }
  unfold handled in Hh. rewrite Ec in Hh. destruct (handle reg s1) as [[] s2|e s2].
  - destruct Hh as [Hs2 Hsp2]. apply (resume_sound (current s)) in E as [Hr' Hsp3]; [|done]. split; [done|].
    apply (spares_trans _ s s1); [done..|]. by apply (spares_trans _ s1 s2); [apply Hs1|..].
  - injection E as -> ->. destruct Hh as [? Hsp2]. split; [done|].
    by apply (spares_trans _ s s1).
Qed.
End exception.
