(* ===== verification/Reachable.v ===== *)
(** Runs of the system: user code that stores through its address space and
    traps into the kernel, and what holds of every state such a run reaches. *)
From S2P Require Import Prelude X86 Machine CLib Printf Hardware PageTable Frames Syscalls Isolation Demo Duplicate Fork ForkSafe Exit PageAlloc Canonical Mmu Contracts Mapping Display ElfFormat Loader Kernel Calm System.
Open Scope Z_scope.

#[local] Opaque frames_where.

(** ** User code *)

(** The machine as process [q] sees it when it runs. *)
Definition as_process (q : Z) (s : kstate) : machine := set_cr3 (p_pagetable (process s q)) (mach s).

(** What [q] reads at [va]; [None] is a page fault. *)
Definition user_read (q va : Z) (s : kstate) : option Z :=
  a ← translate va PTE_PU (as_process q s); Some (load8 (kmem s) a).

(** The running process stores a byte. *)
Definition user_store (va v : Z) (s : kstate) : option kstate :=
  a ← translate va PTE_PWU (mach s); Some (set_kmem (store 1 (kmem s) a v) s).

(** A fault or a trap latches an address in %cr2 before the handler runs. *)
Definition latch (x : Z) (s : kstate) : kstate :=
  let m := mach s in
  set_mach (MkMachine (mem m) (outs m) (reads m) (cr0 m) x (cr3 m) (segments m) (interrupt_descriptors m)
    (interrupts_enabled m) (modifiers m) (last_escape m) (initialized m) (kernel_pagetable m)) s.

Section steps.
Context `{Devices} `{Layout} `{Patience} `{Padding}.

Inductive step (s : kstate) : kstate → Prop :=
  | step_store va v s' : user_store va v s = Some s' → step s s'
  | step_trap reg x s' : admissible (latch x s) reg →
      exception (A := ()) reg (latch x s) = Halt UserMode s' → step s s'.

(** A step that another process than [q] takes. *)
Definition other_step (q : Z) (s s' : kstate) : Prop := step s s' ∧ current s ≠ q.
End steps.

(** ** Where user code can write *)

Lemma pwu_test e : (Z.land e PTE_PWU =? PTE_PWU) = user_writable e.
Proof.
  unfold user_writable. rewrite <- andb_assoc, <- wu_test. apply eq_true_iff_eq.
  rewrite andb_true_iff, !Z.eqb_eq, has_P. split.
  - intros E. split.
    + assert (Z.testbit PTE_PWU 0 = true) as Hb by done. rewrite <- E, Z.land_spec in Hb.
      by apply andb_prop in Hb as [? _].
    + change PTE_WU with (Z.land PTE_PWU PTE_WU) at 1. by rewrite Z.land_assoc, E.
  - intros [E0 E6]. change PTE_PWU with (Z.lor PTE_WU 1). rewrite Z.land_lor_distr_r, E6. f_equal.
    change 1 with (Z.ones 1). rewrite Z.land_ones by lia. change (2 ^ 1) with 2.
    rewrite <- Z.bit0_mod. by rewrite E0.
Qed.

Lemma process_translate s q va need :
  safe s → live s q → access need →
  translate va need (as_process q s)
  = if canonical va && (Z.land (entry_of s q va) need =? need)
    then Some (PTE_ADDR (entry_of s q va) + PAGEOFFSET va) else None.
Proof.
  intros Hs Hq Hn. rewrite (translate_any _ (table_of s q)) by (done || by apply (safe_shape s Hs)).
  change (mem (as_process q s)) with (kmem s). unfold entry_of. case_decide as Hlt.
  - by rewrite bool_decide_eq_true_2, andb_true_r.
  - rewrite bool_decide_eq_false_2, andb_false_r by done. rewrite (walk_refused need Hn 0 eq_refl).
    by rewrite andb_false_r.
Qed.

Lemma offset_frame e va : 0 ≤ e < 2 ^ 64 → (PTE_ADDR e + PAGEOFFSET va) / 4096 = frame e.
Proof.
  intros He. rewrite addr_page, PAGEOFFSET_mod by done. pose proof (Z.mod_pos_bound va 4096).
  symmetry. apply Z.div_unique with (va mod 4096); lia.
Qed.

Lemma running_machine s : running s → mach s = as_process (current s) s.
Proof. intros Hr. unfold as_process. rewrite <- (run_cr3 s Hr). by destruct s as [[]]. Qed.

Lemma user_store_target s va v s' :
  running s → user_store va v s = Some s' →
  user_writable (entry_of s (current s) va) = true ∧
  ∃ a, s' = set_kmem (store 1 (kmem s) a v) s ∧ a / 4096 = frame (entry_of s (current s) va).
Proof.
  intros Hr. unfold user_store. rewrite (running_machine s Hr).
  rewrite process_translate by (apply Hr || (unfold access; set_solver)). rewrite pwu_test.
  destruct (canonical va); [|done]. destruct (user_writable _); [|done]. cbn. intros [= <-].
  split; [done|]. eexists. split; [reflexivity|]. apply offset_frame, entry_range.
Qed.

Lemma user_store_undisturbed s va v s' :
  running s → user_store va v s = Some s' →
  (∃ m, s' = set_kmem m s) ∧ undisturbed s s' ∧ spares (current s) s s'.
Proof.
  intros Hr E. destruct (user_store_target s va v s' Hr E) as (Hu & a & -> & Ea).
  split; [by eexists|]. apply (target_written s (current s) va); [apply Hr|apply Hr|done|].
  intros b Hb. symmetry. apply load8_store_out.
  destruct (decide (a = b)) as [->|]; [by destruct Hb|]. cbn. lia.
Qed.

Lemma user_store_sound s va v s' :
  running s → user_store va v s = Some s' → running s' ∧ spares (current s) s s'.
Proof.
  intros Hr E. destruct (user_store_undisturbed s va v s' Hr E) as ((m & ->) & Hu & Hsp).
  split; [|done]. destruct Hr. split; try done. by apply (un_safe s).
Qed.

Lemma as_process_core q s : core s (set_mach (as_process q s) s).
Proof. by split. Qed.

Lemma latch_core x s : core s (latch x s).
Proof. by split. Qed.

Lemma latch_running x s : running s → running (latch x s).
Proof.
  intros [Hs Hz Hl Hr Hc]. split; try done. by apply (core_safe s), latch_core.
Qed.

Lemma step_sound `{Devices} `{Layout} `{Patience} `{Padding} s s' :
  running s → step s s' → running s' ∧ spares (current s) s s'.
Proof.
  intros Hr [va v s2 E|reg x s2 Ha E]; [by eapply user_store_sound|].
  apply exception_sound in E as [Hr' Hsp]; [|by apply latch_running|done]. split; [done|].
  apply (spares_trans _ s (latch x s)); [apply Hr|by split|done].
Qed.

(** ** What every reachable state satisfies *)

Section runs.
Context `{Devices} `{Layout} `{Patience} `{Padding}.

Lemma steps_running s s' : running s → rtc step s s' → running s'.
Proof.
  intros Hr Hst. induction Hst as [|s1 s2 s3 Hst _ IH]; [done|]. apply IH. by apply (step_sound s1).
Qed.

(** C1: the system's invariant.  From a state that satisfies it, every state
    that a run of user stores and admissible traps reaches has it too: the
    safety invariant of the page tables, owners and reference counts holds, and
    in user mode the current process is a runnable one, on its own page table.
    A trap is admissible unless it is a fork for which pages or reference counts
    do not suffice, a page_alloc of an address from 2^48 on, or a mapping call
    whose buffer crosses the end of a page: those three the kernel gets wrong. *)
Theorem reachable_running s s' : running s → rtc step s s' → running s'.
Proof. apply steps_running. Qed.

(** C8: process isolation.  In every state that a run of user stores and
    admissible traps reaches, a physical page that a process can write through its user address space is one reference, that
    process's own; it is not part of any page table, and no other process
    reaches it at any virtual address, for reading or for writing. *)
Theorem reachable_isolation s0 s p q v w :
  running s0 → rtc step s0 s →
  live s p → live s q → p ≠ q → 256 ≤ v < 1024 → 0 ≤ w < 1024 →
  writable (leaf (kmem s) (table_of s p) v) = true →
  pinfo s (frame (leaf (kmem s) (table_of s p) v)) = MkInfo p 1 ∧
  (∀ r, live s r → frame (leaf (kmem s) (table_of s p) v) ∉ table_frames (table_of s r)) ∧
  (user_accessible (leaf (kmem s) (table_of s q) w) = true →
   frame (leaf (kmem s) (table_of s q) w) ≠ frame (leaf (kmem s) (table_of s p) v)).
Proof. intros Hr Hst. apply isolated. by apply run_safe, (steps_running s0). Qed.

Lemma kept_entry p s s' q va :
  safe s → spares p s s' → live s q → q ≠ p → entry_of s' q va = entry_of s q va.
Proof.
  intros Hs [Hp Hm] Hq Hne. unfold entry_of. case_decide; [|done]. pose proof (low48_range va).
  destruct (live_kept s s' q Hs Hq) as (-> & _ & El); [by rewrite Hp| |apply El, vpn_range; lia].
  intros a Ha. apply (Hm q Hq Hne). rewrite frames_of_live by done. apply elem_of_app. left.
  apply in_table_frames; [|done]. apply (safe_shape s Hs q Hq).
Qed.

(** Apart from the console, user code reads pages of its own only. *)
Lemma readable_frame s q va :
  safe s → live s q → va / 4096 ≠ CONSOLE_ADDR / 4096 → canonical va = true → 0 ≤ va < 2 ^ 64 →
  Z.land (entry_of s q va) PTE_PU = PTE_PU → frame (entry_of s q va) ∈ frames_of s q.
Proof.
  intros Hs Hq Hva Hc Hr E. assert (access PTE_PU) as Hn by (unfold access; set_solver).
  pose proof (need_present _ _ Hn E) as HP.
  assert (has (entry_of s q va) PTE_U = true) as HU.
  { rewrite has_U. assert (Z.testbit PTE_PU 2 = true) as Hb by done. rewrite <- E, Z.land_spec in Hb.
    by apply andb_prop in Hb as [? _]. }
  unfold entry_of in *. case_decide as Hlt; [|done]. pose proof (low48_range va).
  assert (0 ≤ low48 va / 4096 < 1024) as Hw by (apply vpn_range; lia).
  rewrite frames_of_live by done. apply elem_of_app. right. apply elem_frames_where.
  exists (low48 va / 4096). split; [|done]. destruct (decide (low48 va / 4096 < 256)); [|lia].
  destruct (safe_kernel s Hs q (low48 va / 4096) Hq ltac:(lia)) as (_ & _ & _ & HUe).
  rewrite HU in HUe. symmetry in HUe. apply bool_decide_eq_true in HUe. exfalso. apply Hva. rewrite <- HUe.
  unfold canonical in Hc. apply orb_prop in Hc as [Hc|Hc].
  - apply Z.ltb_lt in Hc. by rewrite low48_small by lia.
  - apply Z.leb_le in Hc. unfold low48 in Hlt.
    assert (va mod 2 ^ 48 = va - (2 ^ 64 - 2 ^ 48)); [|lia].
    symmetry. apply Z.mod_unique with (2 ^ 16 - 1); lia.
Qed.

Lemma kept_read p s s' q va :
  safe s → safe s' → spares p s s' → live s q → q ≠ p → 0 ≤ va < 2 ^ 64 →
  va / 4096 ≠ CONSOLE_ADDR / 4096 → user_read q va s' = user_read q va s.
Proof.
  intros Hs Hs' Hsp Hq Hne Hva Hcon. assert (access PTE_PU) as Hn by (unfold access; set_solver).
  destruct (spares_kept p s s' q Hs Hsp Hq Hne) as [Hq' _]. unfold user_read.
  rewrite !process_translate by done. rewrite (kept_entry p s s') by done.
  destruct (canonical va) eqn:Hc; [|done]. destruct (Z.eqb_spec (Z.land (entry_of s q va) PTE_PU) PTE_PU) as [E|]; [|done].
  cbn. f_equal. symmetry. apply (sp_memory _ _ _ Hsp q Hq Hne). rewrite offset_frame by apply entry_range.
  by apply readable_frame.
Qed.

(** C7: non-interference.  While other processes run, whatever they store and
    whichever admissible traps they make (all but a fork for which pages or
    reference counts do not suffice, a page_alloc from 2^48 on and a mapping
    call whose buffer crosses the end of a page), a process keeps its record, its registers and its state, and reads the same byte, or takes the same fault,
    at every address outside the console. *)
Theorem others_do_not_interfere q s s' :
  running s → live s q → rtc (other_step q) s s' →
  process s' q = process s q ∧
  ∀ va, 0 ≤ va < 2 ^ 64 → va / PAGESIZE ≠ CONSOLE_ADDR / PAGESIZE → user_read q va s' = user_read q va s.
Proof.
  intros Hr Hq Hst. change PAGESIZE with 4096.
  induction Hst as [|s1 s2 s3 [Hst Hcur] _ IH]; [done|].
  destruct (step_sound s1 s2 Hr Hst) as [Hr2 Hsp].
  destruct (spares_kept _ s1 s2 q (run_safe _ Hr) Hsp Hq ltac:(congruence)) as [Hq2 _].
  destruct (IH Hr2 Hq2) as [Ep Eread]. split.
  - rewrite Ep. by apply (sp_process _ _ _ Hsp).
  - intros va Hva Hcon. rewrite Eread by done.
    apply (kept_read (current s1)); try done; by apply run_safe.
Qed.
End runs.

(** C23: user code cannot write the kernel's memory.  In every state that a run
    of user stores and admissible traps reaches (page_alloc calls stay below
    2^48, in particular), a store that the processor lets through changes one byte, of a page that the
    running process owns alone and that is in no page table, or of the
    console's page. *)
Theorem user_store_confined `{Devices} `{Layout} `{Patience} `{Padding} s0 s va v s' :
  running s0 → rtc step s0 s → user_store va v s = Some s' →
  ∃ a, (a / PAGESIZE = CONSOLE_ADDR / PAGESIZE ∨ pinfo s (a / PAGESIZE) = MkInfo (current s) 1) ∧
    (∀ q, live s q → a / PAGESIZE ∉ table_frames (table_of s q)) ∧
    mach s' = set_mem (mem (mach s')) (mach s) ∧ agree (λ b, b ≠ a) (kmem s) (kmem s') ∧
    pageinfo s' = pageinfo s ∧ processes s' = processes s.
Proof.
  intros Hr0 Hst E. assert (running s) as Hr by (by apply (steps_running s0)).
  destruct (user_store_target s va v s' Hr E) as (Hu & a & -> & Ea).
  destruct (user_writable_target s (current s) va (run_safe s Hr) (run_live s Hr) Hu) as (_ & Ht & _ & Ho).
  exists a. change PAGESIZE with 4096. rewrite Ea. split; [done|]. split; [done|]. split; [done|]. split; [|done].
  intros b Hb. symmetry. apply load8_store_out. cbn. lia.
Qed.

(** ** A run of the demo process *)

Definition demo_user : kstate := set_mach (as_process 1 demo) demo.

Lemma demo_running : running demo_user.
Proof.
  split.
  - exact (core_safe _ _ demo_safe (as_process_core 1 demo)).
  - reflexivity.
  - exact (proj2 (demo_live 1) eq_refl).
  - reflexivity.
  - reflexivity.
Qed.

(** A trap with vector [n], %rdi being [rdi]. *)
Definition trap_regs (n rdi : Z) : x86_64_registers :=
  MkRegs 0 0 0 0 0 0 rdi 0 0 0 0 0 0 0 0 0 0 n 0 0x100000 0x13 0x200 0x300000 0x23.

#[local] Existing Instance kernel_sym.
#[local] Instance demo_devices : Devices := λ _ _, 0.
#[local] Instance demo_patience : Patience := 16%nat.
#[local] Instance demo_padding : Padding := λ _, 0.

Definition trap (n rdi : Z) (s : kstate) : outcome kstate () := exception (trap_regs n rdi) (latch 0 s).

Definition resumed (o : outcome kstate ()) : bool := match o with Halt UserMode _ => true | _ => false end.

Lemma resumed_after o : resumed o = true → o = Halt UserMode (final o).
Proof. by destruct o as [|[]]. Qed.

Lemma trap_step n rdi s :
  admissible (latch 0 s) (trap_regs n rdi) → resumed (trap n rdi s) = true → step s (final (trap n rdi s)).
Proof. intros Ha Hr. by apply (step_trap s (trap_regs n rdi) 0), resumed_after. Qed.

Lemma demo_admissible n rdi s :
  n ≠ INT_SYS_FORK → n ≠ INT_SYS_PAGE_ALLOC → n ≠ INT_SYS_MAPPING → admissible s (trap_regs n rdi).
Proof. by split. Qed.

Definition demo_stored : kstate := set_kmem (store 1 (kmem demo_user) 0xF123 7) demo_user.

Lemma demo_store : user_store 0x100123 7 demo_user = Some demo_stored.
Proof.
  assert (translate 0x100123 PTE_PWU (mach demo_user) = Some 0xF123) as E by (vm_compute; reflexivity).
  unfold user_store. rewrite E. reflexivity.
Qed.

Lemma reachable_running_witness :
  rtc step demo_user (final (trap INT_SYS_GETPID 0 demo_stored)) ∧
  running (final (trap INT_SYS_GETPID 0 demo_stored)).
Proof.
  assert (rtc step demo_user (final (trap INT_SYS_GETPID 0 demo_stored))) as Hst.
  { eapply rtc_l; [exact (step_store demo_user 0x100123 7 demo_stored demo_store)|]. apply rtc_once, trap_step.
    - apply demo_admissible; discriminate.
    - vm_compute. reflexivity. }
  split; [exact Hst|]. exact (reachable_running demo_user _ demo_running Hst).
Defined.

Lemma user_store_confined_witness :
  ∃ a, (a / PAGESIZE = CONSOLE_ADDR / PAGESIZE ∨ pinfo demo_user (a / PAGESIZE) = MkInfo 1 1) ∧
    agree (λ b, b ≠ a) (kmem demo_user) (kmem demo_stored).
Proof.
  destruct (user_store_confined demo_user demo_user 0x100123 7 demo_stored demo_running (rtc_refl _ _) demo_store)
    as (a & Ho & _ & _ & Ha & _).
  exists a. split; [exact Ho|exact Ha].
Defined.

(** The process forks; then the parent makes a call while the child waits. *)
Definition demo_forked : kstate := final (trap INT_SYS_FORK 0 demo_user).

(** What evaluating the fork of [s0], and a call after it, shows. *)
Definition forked_checks (s0 s : kstate) : bool :=
  resumed (trap INT_SYS_FORK 0 s0) && resumed (trap INT_SYS_GETPID 0 s) &&
  bool_decide (current s = 1) && bool_decide (p_state (process s 2) = P_RUNNABLE) &&
  bool_decide (p_state (process s 1) = P_RUNNABLE) &&
  bool_decide (owner (pinfo s 301) = 1) && bool_decide (301 ∈ user_frames (kmem s) (table_of s 2)) &&
  writable (leaf (kmem s) (table_of s 1) 256) && user_accessible (leaf (kmem s) (table_of s 2) 256) &&
  bool_decide (kernel_pagetable (mach s) = kernel_pagetables) && bool_decide (shape_ok (kmem s) demo_kernel) &&
  forall_range 0 512 (λ w, let e := leaf (kmem s) demo_kernel w in present e && (PTE_ADDR e =? w * 4096)).

Record forked_facts (s0 s : kstate) : Prop := {
  ff_fork : resumed (trap INT_SYS_FORK 0 s0) = true;
  ff_getpid : resumed (trap INT_SYS_GETPID 0 s) = true;
  ff_current : current s = 1;
  ff_child : p_state (process s 2) = P_RUNNABLE;
  ff_parent : p_state (process s 1) = P_RUNNABLE;
  ff_owner : owner (pinfo s 301) = 1;
  ff_shared : 301 ∈ user_frames (kmem s) (table_of s 2);
  ff_writable : writable (leaf (kmem s) (table_of s 1) 256) = true;
  ff_accessible : user_accessible (leaf (kmem s) (table_of s 2) 256) = true;
  ff_kernel : kernel_pagetable (mach s) = kernel_pagetables;
  ff_shape : shape_ok (kmem s) demo_kernel;
  ff_identity : ∀ w, 0 ≤ w < 512 → present (leaf (kmem s) demo_kernel w) = true ∧
    PTE_ADDR (leaf (kmem s) demo_kernel w) = w * 4096 }.

Lemma forked_checks_spec s0 s : forked_checks s0 s = true → forked_facts s0 s.
Proof.
  unfold forked_checks. rewrite !andb_true_iff, !bool_decide_eq_true. intros Hc. destruct_and!.
  split; try assumption. intros w Hw.
  match goal with Hr : forall_range _ _ _ = true |- _ =>
    pose proof (forall_range_spec _ _ _ w Hr ltac:(lia)) as E end. cbv beta zeta in E.
  by rewrite andb_true_iff, Z.eqb_eq in E.
Qed.

Lemma demo_forked_facts : forked_facts demo_user demo_forked.
Proof. apply forked_checks_spec. vm_compute. reflexivity. Qed.

Lemma demo_fork_admissible : admissible (latch 0 demo_user) (trap_regs INT_SYS_FORK 0).
Proof.
  split; [|discriminate..]. intros _ c Hc Hf Hfirst.
  assert (c = 2) as ->.
  { destruct (decide (c = 1)) as [->|]; [discriminate Hf|]. destruct (decide (c = 2)); [done|].
    exfalso. apply (Hfirst 2); [lia|]. reflexivity. }
  apply (fork_pre_core demo); [exact demo_safe| |reflexivity|exact demo_fork_pre].
  transitivity demo_user; [exact (as_process_core 1 demo)|exact (latch_core 0 demo_user)].
Qed.

Lemma demo_fork_step : step demo_user demo_forked.
Proof. apply trap_step; [exact demo_fork_admissible|exact (ff_fork _ _ demo_forked_facts)]. Qed.

Lemma demo_forked_running : running demo_forked.
Proof. exact (proj1 (step_sound _ _ demo_running demo_fork_step)). Qed.

Lemma demo_child_live : live demo_forked 2.
Proof. split; [lia|]. rewrite (ff_child _ _ demo_forked_facts). discriminate. Qed.

Lemma demo_parent_live : live demo_forked 1.
Proof. split; [lia|]. rewrite (ff_parent _ _ demo_forked_facts). discriminate. Qed.

Lemma others_do_not_interfere_witness :
  user_read 2 0x2FF008 (final (trap INT_SYS_GETPID 0 demo_forked)) = user_read 2 0x2FF008 demo_forked.
Proof.
  destruct (others_do_not_interfere 2 demo_forked (final (trap INT_SYS_GETPID 0 demo_forked))
    demo_forked_running demo_child_live) as [_ Hr].
  - apply rtc_once. split; [|rewrite (ff_current _ _ demo_forked_facts); discriminate].
    apply trap_step; [apply demo_admissible; discriminate|exact (ff_getpid _ _ demo_forked_facts)].
  - apply Hr; [lia|discriminate].
Defined.

Lemma reachable_isolation_witness :
  pinfo demo_forked (frame (leaf (kmem demo_forked) (table_of demo_forked 1) 256)) = MkInfo 1 1 ∧
  frame (leaf (kmem demo_forked) (table_of demo_forked 2) 256)
    ≠ frame (leaf (kmem demo_forked) (table_of demo_forked 1) 256).
Proof.
  destruct (reachable_isolation demo_user demo_forked 1 2 256 256 demo_running (rtc_once _ _ demo_fork_step)
    demo_parent_live demo_child_live) as (Hi & _ & Hne);
    [discriminate|lia|lia|exact (ff_writable _ _ demo_forked_facts)|].
  split; [exact Hi|exact (Hne (ff_accessible _ _ demo_forked_facts))].
Defined.
