(* ===== verification/Scheduler.v ===== *)
(** The scheduler of [src/kernel.c]: round robin, with the keyboard polled
    between two processes. *)
From S2P Require Import Prelude X86 Machine CLib Printf Hardware PageTable Frames Syscalls Isolation Demo Duplicate Fork ForkSafe Exit PageAlloc Canonical Mmu Contracts Mapping AddressSpace Display ElfFormat Loader Kernel Calm System Reachable.
Open Scope Z_scope.

#[local] Opaque frames_where.

(** No key is ever pressed. *)
Definition no_key `{Devices} : Prop :=
  ∀ n, Z.land (u8 (port_in n KEYBOARD_STATUSREG)) KEYBOARD_STATUS_READY = 0.

(** The kernel's own page table is in place. *)
Definition kernel_table `{Layout} (s : kstate) : Prop :=
  kernel_pagetable (mach s) = kernel_pagetables ∧
  ∃ ksh, L1 ksh = kernel_pagetables ∧ shape_ok (kmem s) ksh ∧ identity (kmem s) ksh 512.

(** After [n] polls of the keyboard's status. *)
Definition polled (n : nat) (s : kstate) : kstate :=
  set_mach (set_io (outs (mach s)) (n + reads (mach s)) (mach s)) s.

Definition running_on (q : Z) (s : kstate) : kstate :=
  set_mach (set_cr3 (p_pagetable (process s q)) (mach s)) (set_current q s).

Lemma process_identity s q : safe s → live s q → identity (kmem s) (table_of s q) 256.
Proof.
  intros Hs Hq w Hw. by destruct (safe_kernel s Hs q w Hq Hw) as (-> & HP & _).
Qed.

Section scheduler.
Context `{Devices} (L : Layout) (HL : LayoutOk L) (Hkey : no_key).

Lemma idle_keyboard s : check_keyboard s = Ok (-1) (set_io (outs s) (S (reads s)) s).
Proof.
  unfold check_keyboard, keyboard_readc. pose proof (Hkey (reads s)) as E.
  unfold inb. unfold mbind, M_bind. rewrite E. reflexivity.
Qed.

Lemma run_ok {A} q s :
  safe s → kernel_table s → live s q → p_state (process s q) = P_RUNNABLE →
  run (A := A) q s = Halt UserMode (running_on q s).
Proof.
  intros Hs (Ek & ksh & E1 & Hksh & Hid) Hq Hr. unfold run. erewrite bind_ok by reflexivity.
  rewrite bool_decide_eq_true_2 by done.
  rewrite (bind_ok _ _ s () s) by (destruct s; reflexivity). erewrite bind_ok by reflexivity.
  rewrite <- table_of_root.
  assert (set_pagetable (L1 (table_of s q)) (mach s) = Ok () (set_cr3 (L1 (table_of s q)) (mach s))) as E.
  { apply (set_pagetable_run L _ _ ksh HL); try assumption.
    - by apply (safe_shape s Hs).
    - by apply process_identity.
    - by rewrite E1. }
  erewrite bind_ok; [reflexivity|]. unfold on_machine, zoom. cbn [mach set_current].
  by rewrite E.
Qed.

Lemma polled_0 s : polled 0 s = s.
Proof. by destruct s as [[]]. Qed.

Lemma polled_S n s : polled n (polled 1 s) = polled (S n) s.
Proof. unfold polled. cbn. by rewrite Nat.add_succ_r. Qed.

Lemma next_pid pid : 0 ≤ pid → Z.rem (pid + 1) NPROC = (pid + 1) mod 16.
Proof. intros Hp. change NPROC with 16. apply Z.rem_mod_nonneg; lia. Qed.

(** One unsuccessful iteration. *)
Lemma schedule_loop_next {A} n pid s :
  0 ≤ pid → p_state (process s ((pid + 1) mod 16)) ≠ P_RUNNABLE →
  schedule_loop (A := A) (S n) pid s = schedule_loop n ((pid + 1) mod 16) (polled 1 s).
Proof.
  intros Hp Hr. cbn [schedule_loop]. erewrite bind_ok by reflexivity. rewrite next_pid by done.
  rewrite decide_False by done. erewrite bind_ok; [reflexivity|].
  unfold on_machine, zoom. by rewrite idle_keyboard.
Qed.

Lemma schedule_loop_finds {A} (j n : nat) pid s :
  0 ≤ pid → (j < n)%nat →
  (∀ i : nat, (i < j)%nat → p_state (process s ((pid + 1 + Z.of_nat i) mod 16)) ≠ P_RUNNABLE) →
  p_state (process s ((pid + 1 + Z.of_nat j) mod 16)) = P_RUNNABLE →
  schedule_loop (A := A) n pid s = run ((pid + 1 + Z.of_nat j) mod 16) (polled j s).
Proof.
  revert n pid s. induction j as [|j IH]; intros n pid s Hp Hn Hbefore Hr;
    (destruct n as [|n]; [lia|]).
  - rewrite Z.add_0_r in *. cbn [schedule_loop]. erewrite bind_ok by reflexivity. rewrite next_pid by done.
    by rewrite decide_True, polled_0.
  - assert (∀ i : nat, ((pid + 1) mod 16 + 1 + Z.of_nat i) mod 16 = (pid + 1 + Z.of_nat (S i)) mod 16) as Em.
    { intros i. rewrite <- Z.add_assoc, Z.add_mod_idemp_l by lia. f_equal. lia. }
    rewrite schedule_loop_next; [|done|].
    + rewrite (IH n); [by rewrite Em, polled_S|by apply Z.mod_pos_bound|lia| |by rewrite Em].
      intros i Hi. rewrite Em. apply Hbefore. lia.
    + specialize (Hbefore 0%nat ltac:(lia)). by rewrite Z.add_0_r in Hbefore.
Qed.

Lemma schedule_loop_spins {A} n pid s :
  0 ≤ pid → (∀ q, 0 ≤ q < 16 → p_state (process s q) ≠ P_RUNNABLE) →
  schedule_loop (A := A) n pid s = Halt Spinning (polled n s).
Proof.
  revert pid s. induction n as [|n IH]; intros pid s Hp Hno.
  - by rewrite polled_0.
  - pose proof (Z.mod_pos_bound (pid + 1) 16). rewrite schedule_loop_next by (auto with lia).
    rewrite (IH _ (polled 1 s)); [by rewrite polled_S|lia|done].
Qed.
End scheduler.

(** C12: round robin.  With no key pressed, [schedule] looks at the processes in
    cyclic order from the one after the current, and enters user mode with the
    first runnable one, after at most [NPROC] iterations: the process it finds
    [j] places on runs with its own page table active, and memory, page
    information and process table are unchanged. *)
Theorem schedule_round_robin `{Devices} `{Patience} (L : Layout) s (j : nat) :
  LayoutOk L → no_key → served s → kernel_table s → (16 ≤ patience)%nat → (j < 16)%nat →
  let q := (current s + 1 + Z.of_nat j) mod NPROC in
  (∀ i : nat, (i < j)%nat → p_state (process s ((current s + 1 + Z.of_nat i) mod NPROC)) ≠ P_RUNNABLE) →
  p_state (process s q) = P_RUNNABLE →
  schedule (A := ()) s = Halt UserMode (running_on q (polled j s)) ∧ running (running_on q (polled j s)).
Proof.
  intros HL Hkey Hs Hk Hn Hj q Hbefore Hr. change NPROC with 16 in *.
  assert (0 ≤ q < 16) as Hq by (apply Z.mod_pos_bound; lia).
  assert (schedule (A := ()) s = Halt UserMode (running_on q (polled j s))) as E.
  { unfold schedule. erewrite bind_ok by reflexivity. unfold current_proc. rewrite (sv_pid s Hs).
    pose proof (sv_current s Hs).
    rewrite (schedule_loop_finds L Hkey j) by (done || lia). fold q.
    apply (run_ok L HL); [|exact Hk| |exact Hr].
    - apply (core_safe s); [apply Hs|by split].
    - split; [|change (p_state (process s q) ≠ P_FREE); by rewrite Hr]. destruct (decide (q = 0)) as [E|]; [|lia].
      exfalso. rewrite E, (sv_zero s Hs) in Hr. done. }
  split; [exact E|]. by apply (schedule_running (A := ()) s).
Qed.

(** With no process runnable, the scheduler searches for ever: however
    many iterations are followed, it is still polling the keyboard, and has
    changed nothing. *)
Theorem schedule_spins `{Devices} `{Patience} (L : Layout) s :
  no_key → served s → (∀ q, 0 ≤ q < NPROC → p_state (process s q) ≠ P_RUNNABLE) →
  schedule (A := ()) s = Halt Spinning (polled patience s).
Proof.
  intros Hkey Hs Hno. unfold schedule. erewrite bind_ok by reflexivity. unfold current_proc.
  rewrite (sv_pid s Hs). apply schedule_loop_spins; try done. pose proof (sv_current s Hs). lia.
Qed.

(** ** On the demo process *)

Lemma running_served s : running s → served s.
Proof. intros [Hs Hz Hl _ _]. split; [done..|apply Hl|by apply (safe_pid s Hs)]. Qed.

#[local] Instance demo_devices : Devices := λ _ _, 0.
#[local] Instance demo_patience : Patience := 16%nat.

Lemma schedule_round_robin_witness :
  @schedule () demo_devices kernel_sym demo_patience demo_forked = Halt UserMode (running_on 2 (polled 0 demo_forked)).
Proof.
  destruct demo_forked_facts as [_ _ Ec H2 _ _ _ _ _ Hk Hsh Hid].
  destruct (schedule_round_robin kernel_sym demo_forked 0 kernel_sym_ok) as [E _].
  - intros n. reflexivity.
  - exact (running_served _ demo_forked_running).
  - split; [exact Hk|]. exists demo_kernel. split; [reflexivity|]. split; [exact Hsh|exact Hid].
  - apply Nat.leb_le. reflexivity.
  - apply Nat.ltb_lt. reflexivity.
  - intros i Hi. lia.
  - rewrite Ec. exact H2.
  - rewrite Ec in E. exact E.
Defined.

Definition demo_broken : kstate := upd_proc 1 (with_state P_BROKEN) demo.

Lemma schedule_spins_witness :
  @schedule () demo_devices kernel_sym demo_patience demo_broken = Halt Spinning (polled 16 demo_broken).
Proof.
  apply (schedule_spins kernel_sym).
  - intros n. reflexivity.
  - apply (served_core demo); [|apply broken_core; discriminate|reflexivity].
    split; [exact demo_safe|reflexivity|change (1 ≤ 1 < 16); lia|reflexivity].
  - intros q Hq. unfold demo_broken. rewrite process_upd. case_decide as E; [discriminate|].
    unfold process. cbn [processes demo]. rewrite lookup_singleton_ne by exact E. discriminate.
Defined.
