(* ===== verification/Faults.v ===== *)
(** Faults of user code: page faults, unexpected exceptions, and the kernel's
    own checks after a process has gone. *)
From S2P Require Import Prelude X86 Machine CLib Printf Hardware PageTable Frames Syscalls Isolation Demo Duplicate Fork ForkSafe Exit PageAlloc Canonical Mmu Contracts Mapping Display ElfFormat Loader Kernel Calm System Reachable.
Open Scope Z_scope.

#[local] Opaque frames_where.

(** ** Page faults *)

(** C26: a page fault in user mode breaks the process and nothing else: it
    becomes [P_BROKEN], keeping its memory, and no other process, page or byte
    outside the screen changes.  A page fault in the kernel stops the system. *)
Theorem page_fault_breaks `{Devices} reg s :
  if has (reg_err reg) PFERR_USER then
    ∃ s', page_fault reg s = Ok () s' ∧
      process s' (current s) = with_state P_BROKEN (process s (current s)) ∧
      (∀ q, q ≠ current s → process s' q = process s q) ∧
      pageinfo s' = pageinfo s ∧ current s' = current s ∧ agree (λ a, ¬ on_screen a) (kmem s) (kmem s')
  else ∃ msg s', page_fault reg s = Halt (Panicked msg) s'.
Proof.
  unfold page_fault. rewrite (bind_ok _ _ s (cr2 (mach s)) s) by (by apply on_machine_pure). cbv zeta.
  set (op := if has (reg_err reg) PFERR_WRITE then _ else _).
  set (pr := if has (reg_err reg) PFERR_PRESENT then _ else _).
  destruct (has (reg_err reg) PFERR_USER); cbn [negb].
  - erewrite bind_ok by reflexivity.
    pose proof (console_printf_screen [VInt 0; VInt 0; VStr []; VStr []; VInt 0] (CPOS 24 0) 0x0C00
      (str "Process %d page fault for %p (%s %s, rip=%p)!" ++ [10])
      [VInt (p_pid (current_proc s)); VInt (cr2 (mach s)); VStr op; VStr pr; VInt (reg_rip reg)] (mach s)) as Hr.
    apply runs_iff in Hr as (c & m & E & _ & Hm); [|repeat constructor|by eexists; vm_compute; reflexivity].
    apply screen_quiet, quiet_calm in Hm.
    eexists. split; [|].
    + erewrite bind_ok by (unfold on_machine, zoom; by rewrite E).
      erewrite bind_ok by reflexivity. apply put_process_eq.
    + cbn [current set_mach]. rewrite process_upd, decide_True by done. split; [done|].
      split; [|split; [done|split; [done|exact (proj2 Hm)]]].
      intros q Hq. by rewrite process_upd, decide_False by congruence.
  - destruct (panic_halts (A := ()) [VInt 0; VStr []; VStr []; VInt 0]
      (str "Kernel page fault for %p (%s %s, rip=%p)!" ++ [10])
      [VInt (cr2 (mach s)); VStr op; VStr pr; VInt (reg_rip reg)] (mach s)) as (m & E & _);
      [repeat constructor|by eexists; vm_compute; reflexivity|].
    eexists _, _. unfold on_machine, zoom. by rewrite E.
Qed.

(** ** Unexpected exceptions *)

(** The vectors that the handler knows. *)
Definition known_vectors : list Z :=
  [INT_SYS_PANIC; INT_SYS_GETPID; INT_SYS_YIELD; INT_SYS_PAGE_ALLOC; INT_SYS_MAPPING; INT_SYS_MEM_TOG;
   INT_TIMER; INT_PAGEFAULT; INT_SYS_FORK; INT_SYS_EXIT].

(** C36: any other vector stops the whole system, also when user code raised it:
    a division by zero, a general protection fault, or one of the system calls
    sys_brk and sys_sbrk that [process.h] declares. *)
Theorem unexpected_exception_panics `{Devices} `{Layout} `{Patience} `{Padding} reg s :
  reg_intno reg ∉ known_vectors → ∃ msg s', handle reg s = Halt (Panicked msg) s'.
Proof.
  unfold known_vectors. rewrite !not_elem_of_cons. intros Hn. destruct_and!. unfold handle. cbv zeta.
  repeat match goal with Hx : reg_intno reg ≠ ?n |- context [reg_intno reg =? ?n] =>
    rewrite (proj2 (Z.eqb_neq _ n) Hx) end.
  erewrite bind_ok by reflexivity. unfold default_exception.
  destruct (panic_halts (A := ()) [VInt 0] (str "Unexpected exception %d!" ++ [10])
    [VInt (reg_intno (p_registers (current_proc s)))] (mach s)) as (m & E & _);
    [repeat constructor|by eexists; vm_compute; reflexivity|].
  eexists _, _. unfold on_machine, zoom. by rewrite E.
Qed.

Lemma unexpected_exception_panics_witness :
  ∃ msg s', @handle (λ _ _, 0) kernel_sym 16%nat (λ _, 0) (trap_regs INT_GPF 0) demo = Halt (Panicked msg) s'.
Proof.
  apply (@unexpected_exception_panics (λ _ _, 0) kernel_sym 16%nat (λ _, 0)).
  apply (bool_decide_unpack _). vm_compute. exact I.
Defined.

(** ** Pages whose owner is gone *)

(** A loop that ends has run every iteration. *)
Lemma for_loop_visits {S} (R : S → S → Prop) `{!PreOrder R} n lo step (body : Z → M S ()) s s' :
  (∀ k, keeps R (body k)) → for_loop n lo step body s = Ok () s' →
  ∀ k, (k < n)%nat → ∃ s1 s2, R s s1 ∧ body (lo + Z.of_nat k * step) s1 = Ok () s2.
Proof.
  intros Hb. revert lo s. induction n as [|n IH]; intros lo s E k Hk; [lia|].
  cbn [for_loop] in E. apply bind_inv in E as ([] & s1 & E1 & E). destruct k as [|k].
  - exists s, s1. split; [done|]. by replace (lo + Z.of_nat 0 * step) with lo by lia.
  - destruct (IH _ _ E k ltac:(lia)) as (s2 & s3 & HR & E3). exists s2, s3. split.
    + transitivity s1; [|done]. by eapply keeps_ok.
    + by replace (lo + Z.of_nat (Datatypes.S k) * step) with (lo + step + Z.of_nat k * step) by lia.
Qed.

(** The checks fail on a page in use whose owner's slot is free. *)
Lemma orphan_detected `{Devices} `{Layout} s f :
  0 ≤ f < 512 → 0 < refcount (pinfo s f) → 0 ≤ owner (pinfo s f) < 16 →
  p_state (process s (owner (pinfo s f))) = P_FREE → ∀ s', check_virtual_memory s ≠ Ok () s'.
Proof.
  intros Hf Hr Ho Hst s' E. unfold check_virtual_memory in E.
  assert (∀ A (m : M kstate A) (g : A → M kstate ()) t, keeps calmk m → (m ≫= g) t = Ok () s' →
    calmk s t → ∃ a t', calmk s t' ∧ g a t' = Ok () s') as Hnext.
  { intros A m g t Hm E1 Ht. apply bind_inv in E1 as (a & t' & Em & Eg). exists a, t'. split; [|done].
    transitivity t; [done|]. by eapply keeps_ok. }
  do 6 (apply Hnext in E as (? & ? & ? & E);
    [|first [done|apply calmk_gets|keeps; unfold check_page_table_ownership; keeps; auto using calmk_check_level, calmk_check_process]|done]).
  apply (for_loop_visits calmk) with (k := Z.to_nat f) in E as (s1 & s2 & Hc & E);
    [|apply calmk_check_owner_alive|change (Z.to_nat NPAGES) with 512%nat; lia].
  replace (0 + Z.of_nat (Z.to_nat f) * 1) with f in E by lia.
  assert (calmk s s1) as Hc1 by (by etransitivity).
  assert (pinfo s1 f = pinfo s f) as Ep by (unfold pinfo; by rewrite (ck_pageinfo _ _ Hc1)).
  unfold check_owner_alive in E. erewrite bind_ok in E by reflexivity. rewrite Ep in E.
  rewrite (proj2 (Z.ltb_lt _ _) Hr), (proj2 (Z.leb_le _ _) (proj1 Ho)) in E. cbn [andb] in E.
  change NPROC with 16 in E. rewrite (proj2 (Z.ltb_lt _ _) (proj2 Ho)) in E.
  erewrite bind_ok in E by reflexivity. apply on_assert in E as [E _].
  rewrite (calmk_process s s1), Hst in E by done. done.
Qed.

(** Exit can leave a page behind.  When the process that exits owns a page
    that another process still maps, as the parent does after fork, the page
    keeps its owner and at least one reference, and from then on, whatever
    happens to memory, the consistency check that starts every trap from user
    mode fails: the system stops. *)
Theorem exit_leaves_orphans `{Devices} `{Layout} s q f :
  safe s → live s (current s) → live s q → q ≠ current s →
  f ∈ frames_of s q → owner (pinfo s f) = current s →
  ∃ s', sys_exit s = Ok () s' ∧ safe s' ∧ owner (pinfo s' f) = current s ∧ 1 ≤ refcount (pinfo s' f) ∧
    ∀ t, processes t = processes s' → pageinfo t = pageinfo s' → ∀ t', check_virtual_memory t ≠ Ok () t'.
Proof.
  intros Hs Hl Hq Hne Hf Ho. destruct (exit_ok s Hs Hl) as (s' & E & Hx & Hs').
  pose proof (frame_range s q f Hs Hq Hf) as Hr. assert (0 ≤ f < 512) as Hr0 by lia.
  assert (f ∉ private_frames s (current s) 512) as Hp.
  { intros Hin. destruct (private_frames_of s Hs Hl f Hin) as [Hin' H1].
    exact (frame_exclusive s (current s) q f Hs Hl Hq ltac:(congruence) Hr0 ltac:(lia) Hin' Hf). }
  assert (occ f (frames_where shared (kmem s) (table_of s (current s)) 256 512) < refcount (pinfo s f)) as Hc.
  { pose proof (safe_refs s Hs f Hr0).
    pose proof (refs_ge2 s (current s) q f (proj1 Hl) (proj1 Hq) ltac:(congruence)) as H2.
    rewrite (occ_frames_of s (current s) f Hl) in H2. change 768 with (512 + 256) in H2.
    rewrite !frames_where_app, !occ_app in H2 by lia. apply occ_pos in Hf.
    pose proof (occ_nonneg f (table_frames (table_of s (current s)))).
    pose proof (occ_nonneg f (frames_where writable (kmem s) (table_of s (current s)) 256 512)).
    pose proof (occ_nonneg f (frames_where writable (kmem s) (table_of s (current s)) (256 + 512) 256)).
    pose proof (occ_nonneg f (frames_where shared (kmem s) (table_of s (current s)) (256 + 512) 256)). lia. }
  pose proof (ex_pinfo _ _ Hx f Hr0) as Ef. rewrite decide_False in Ef by done.
  exists s'. rewrite Ef. cbn [owner refcount]. split; [done|]. split; [done|]. split; [done|]. split; [lia|].
  intros t Ep Ei. assert (pinfo t f = pinfo s' f) as Et by (unfold pinfo; by rewrite Ei).
  apply (orphan_detected t f); rewrite ?Et, ?Ef; cbn [owner refcount]; [done|lia| |].
  - rewrite Ho. destruct Hl. lia.
  - rewrite Ho. unfold process. rewrite Ep. change (p_state (process s' (current s)) = P_FREE).
    rewrite (ex_process _ _ Hx), decide_True by done. done.
Qed.

(** After the fork of the demo process, the parent exits: its read-only page
    stays with the child. *)
Lemma exit_leaves_orphans_witness :
  ∃ s', @sys_exit (λ _ _, 0) demo_forked = Ok () s' ∧ owner (pinfo s' 301) = 1 ∧
    ∀ t, @check_virtual_memory (λ _ _, 0) kernel_sym s' ≠ Ok () t.
Proof.
  destruct demo_forked_facts as [_ _ Ec _ _ Ho Hf _ _ _ _ _].
  destruct (@exit_leaves_orphans (λ _ _, 0) kernel_sym demo_forked 2 301) as (s' & E & _ & Ho' & _ & Hno).
  - exact (run_safe _ demo_forked_running).
  - exact (run_live _ demo_forked_running).
  - exact demo_child_live.
  - rewrite Ec. discriminate.
  - rewrite frames_of_live by exact demo_child_live. apply elem_of_app. right. exact Hf.
  - rewrite Ec. exact Ho.
  - exists s'. split; [exact E|]. rewrite Ec in Ho'. split; [exact Ho'|]. exact (Hno s' eq_refl eq_refl).
Defined.

(** ** fork without memory *)

Lemma null_cleared s :
  on_machine (memset NULL 0 PAGESIZE) s = Ok NULL (set_kmem (fill (Z.to_nat 4096) (kmem s) 0 0) s).
Proof. by apply on_memset. Qed.

(** C30: fork with a free slot and no free page.  No page is allocated, yet the
    five null pointers are cleared before they are tested, so physical page 0 is
    zeroed; the slot is released, %rax is -1, and the handler returns to its
    caller, which [k-exception.S] does not expect. *)
Theorem fork_without_memory `{Devices} s c :
  1 ≤ c < 16 → c ≠ current s → p_state (process s c) = P_FREE →
  (∀ k, 1 ≤ k < c → p_state (process s k) ≠ P_FREE) → no_free s →
  ∃ s', sys_fork s = Halt Returned s' ∧ reg_rax (p_registers (process s' (current s))) = u64 (-1) ∧
    p_state (process s' c) = P_FREE ∧ pageinfo s' = pageinfo s ∧
    ∀ a, load8 (kmem s') a = if decide (0 ≤ a < PAGESIZE) then 0 else load8 (kmem s) a.
Proof.
  intros Hc Hne Hfree Hfirst Hno. rewrite (fork_finds s c) by done. unfold fork_into.
  erewrite bind_ok by apply put_process_eq. erewrite bind_ok by apply put_process_eq.
  erewrite bind_ok by reflexivity.
  set (s1 := upd_proc c (with_state P_RUNNABLE) (upd_proc c (with_pid c) s)).
  assert (no_free s1) as Hno1 by exact Hno.
  set (zap m := fill (Z.to_nat 4096) m 0 0).
  assert (duplicate_pagetable (p_pagetable (current_proc s1)) c s1
    = Ok NULL (set_kmem (zap (zap (zap (zap (zap (kmem s1)))))) s1)) as E.
  { unfold duplicate_pagetable. do 5 (erewrite bind_ok by (by apply alloc_null)).
    do 5 (erewrite bind_ok by apply null_cleared). reflexivity. }
  erewrite bind_ok by exact E. erewrite bind_ok by apply put_process_eq. cbn [istrue].
  change (istrue NULL) with false. cbv iota.
  erewrite bind_ok by apply put_process_eq. erewrite bind_ok by apply put_current_rax_eq.
  eexists. split; [reflexivity|]. cbn [current]. unfold set_regs. rewrite !process_upd.
  split; [|split; [|split; [done|]]].
  - change (current (upd_proc _ _ _)) with (current s). rewrite decide_True by done. apply rax_set.
  - change (current (upd_proc _ _ _)) with (current s).
    rewrite (decide_False (P := current s = c)) by congruence. by rewrite decide_True.
  - intros a. change (kmem (upd_proc _ _ _)) with (zap (zap (zap (zap (zap (kmem s)))))).
    change PAGESIZE with 4096. unfold zap. rewrite !load8_fill. change (Z.of_nat (Z.to_nat 4096)) with 4096.
    rewrite Z.add_0_l. change (0 mod 256) with 0. repeat case_decide; done.
Qed.

Definition crowded : kstate := set_pageinfo (pageinfo full_state) demo.

Lemma fork_without_memory_witness :
  ∃ s', @sys_fork (λ _ _, 0) crowded = Halt Returned s' ∧ load8 (kmem s') 0x10 = 0.
Proof.
  destruct (@fork_without_memory (λ _ _, 0) crowded 2) as (s' & E & _ & _ & _ & Hz).
  - lia.
  - discriminate.
  - reflexivity.
  - intros k Hk. assert (k = 1) as -> by lia. discriminate.
  - exact full_state_full.
  - exists s'. split; [exact E|]. rewrite Hz. reflexivity.
Defined.
