(* ===== verification/Typing.v ===== *)
(** Types as an invariant: every variable, register, process record and page
    information of the kernel holds a value of its C type, at every point where
    control can leave the kernel. *)
From S2P Require Import Prelude X86 Machine CLib Printf Hardware PageTable Frames Syscalls Isolation Demo Duplicate Fork ForkSafe Exit PageAlloc Canonical Mmu Contracts Mapping Display ElfFormat Loader Kernel Calm System Reachable.
Open Scope Z_scope.

(** ** The types *)

(** An unsigned integer of [w] bits. *)
Definition fits (w x : Z) : Prop := 0 ≤ x < 2 ^ w.

#[global] Instance fits_dec w x : Decision (fits w x).
Proof. unfold fits. apply _. Defined.

Definition regs_typed (r : x86_64_registers) : Prop :=
  Forall (fits 64)
    [reg_rax r; reg_rcx r; reg_rdx r; reg_rbx r; reg_rbp r; reg_rsi r; reg_rdi r; reg_r8 r; reg_r9 r;
     reg_r10 r; reg_r11 r; reg_r12 r; reg_r13 r; reg_r14 r; reg_r15 r; reg_fs r; reg_gs r;
     reg_intno r; reg_err r; reg_rip r; reg_rflags r; reg_rsp r] ∧
  fits 16 (reg_cs r) ∧ fits 16 (reg_ss r).

#[global] Instance regs_typed_dec r : Decision (regs_typed r).
Proof. unfold regs_typed. apply _. Defined.

(** A process ID is an index of [processes]. *)
Record proc_typed (p : proc) : Prop := {
  pt_pid : 0 ≤ p_pid p < NPROC;
  pt_registers : regs_typed (p_registers p);
  pt_pagetable : fits 64 (p_pagetable p);
  pt_display : fits 8 (display_status p) }.

(** The port writes, the control registers and the static variables of
    [k-hardware.c] and [vm.c]. *)
Record machine_typed (m : machine) : Prop := {
  mt_outs : Forall (λ o, fits 16 (o.1) ∧ fits 32 (o.2)) (outs m);
  mt_cr0 : fits 32 (cr0 m);
  mt_cr2 : fits 64 (cr2 m);
  mt_cr3 : fits 64 (cr3 m);
  mt_interrupts : fits 16 (interrupts_enabled m);
  mt_modifiers : fits 8 (modifiers m);
  mt_escape : fits 8 (last_escape m);
  mt_initialized : fits 31 (initialized m);
  mt_pagetable : fits 64 (kernel_pagetable m) }.

(** [owner] and [refcount] are [int8_t]; [current] points into [processes]. *)
Record typed (s : kstate) : Prop := {
  ty_machine : machine_typed (mach s);
  ty_owner : ∀ n, - 2 ^ 7 ≤ owner (pinfo s n) < 2 ^ 7;
  ty_refcount : ∀ n, - 2 ^ 7 ≤ refcount (pinfo s n) < 2 ^ 7;
  ty_processes : ∀ q, proc_typed (process s q);
  ty_current : 0 ≤ current s < NPROC;
  ty_ticks : fits 32 (ticks s);
  ty_disp : fits 31 (disp_global s);
  ty_last_ticks : fits 32 (last_ticks s);
  ty_showing : 0 ≤ showing s < NPROC }.

Lemma maintains_each {S} (P : S → Prop) l (f : Z → M S ()) : (∀ x, maintains P (f x)) → maintains P (for_each l f).
Proof.
  intros Hf. induction l as [|x l IH]; cbn [for_each]; [apply maintains_ret|]. by apply maintains_bind.
Qed.

(** ** The machine *)

Lemma fits_u64 x : fits 64 (u64 x).
Proof. apply u64_range. Qed.

Lemma fits_le v w x : fits v x → 0 ≤ v ≤ w → fits w x.
Proof. unfold fits. intros Hx Hw. pose proof (Z.pow_le_mono_r 2 v w ltac:(lia) ltac:(lia)). lia. Qed.

Section machine.
Context `{Devices}.
Abbreviation keeps_types := (maintains machine_typed).

Lemma types_set_mem x s : machine_typed s → machine_typed (set_mem x s).
Proof. by intros []. Qed.

Lemma types_read n a : keeps_types (read n a).
Proof. intros s Hs. unfold read. by destruct (in_memory _ _). Qed.

Lemma types_write n a v : keeps_types (write n a v).
Proof. intros s Hs. unfold write. by destruct (in_memory _ _); [apply types_set_mem|]. Qed.

Lemma types_out port v n s : fits 16 port → fits 32 v → machine_typed s → machine_typed (set_io ((port, v) :: outs s) n s).
Proof. intros Hp Hv []. split; try done. by apply Forall_cons. Qed.

Lemma types_outb port v : fits 16 port → keeps_types (outb port v).
Proof. intros Hp s Hs. apply types_out; [done| |done]. apply (fits_le 8); [apply u8_range|lia]. Qed.

Lemma types_outw port v : fits 16 port → keeps_types (outw port v).
Proof. intros Hp s Hs. apply types_out; [done| |done]. apply (fits_le 16); [apply u16_range|lia]. Qed.

Lemma types_outl port v : fits 16 port → keeps_types (outl port v).
Proof. intros Hp s Hs. apply types_out; [done|apply u32_range|done]. Qed.

Lemma types_inb port : keeps_types (inb port).
Proof. by intros s []. Qed.

Lemma types_inl port : keeps_types (inl port).
Proof. by intros s []. Qed.

Lemma types_lcr3 pt : fits 64 pt → keeps_types (lcr3 pt).
Proof. by intros Hp s []. Qed.

Lemma types_set_initialized : keeps_types (modify (set_initialized 1)).
Proof. by intros s []. Qed.
End machine.

#[export] Hint Resolve types_read types_write types_inb types_inl types_set_initialized : types.
#[export] Hint Extern 2 (maintains machine_typed (outb _ _)) => apply types_outb; split; [discriminate|reflexivity] : types.
#[export] Hint Extern 2 (maintains machine_typed (outl _ _)) => apply types_outl; split; [discriminate|reflexivity] : types.

(** Reaching page-table entries keeps the types. *)
Class TypedAccess (acc : Access) : Prop := {
  read_typed a : maintains machine_typed (read_entry a);
  write_typed a v : maintains machine_typed (write_entry a v) }.

Section routines.
Context `{Devices} `{Layout}.
Abbreviation keeps_types := (maintains machine_typed).

Lemma types_memset v c n : keeps_types (memset v c n).
Proof.
  unfold memset. maintains. generalize (Z.to_nat n), v. intros k. 
  induction k as [|k IH]; intros p; cbn [memset_loop]; maintains.
Qed.

Lemma types_memcpy d s n : keeps_types (memcpy d s n).
Proof.
  unfold memcpy. maintains. generalize (Z.to_nat n), d, s. intros k. 
  induction k as [|k IH]; intros p q; cbn [memcpy_loop]; maintains.
Qed.

Lemma types_console_pad n cursor color : keeps_types (console_pad n cursor color).
Proof. revert cursor. induction n as [|n IH]; intros cursor; cbn [console_pad]; maintains. Qed.
#[local] Hint Resolve types_console_pad : types.

Lemma types_console_puts l p : keeps_types (console_puts l p).
Proof.
  revert p. induction l as [|[c k] l IH]; intros p; cbn [console_puts]; [maintains|]. unfold console_putc. maintains.
Qed.
#[local] Hint Resolve types_console_puts : types.

Lemma types_console_vprintf cpos color fmt args : keeps_types (console_vprintf cpos color fmt args).
Proof. unfold console_vprintf. maintains. Qed.
#[local] Hint Resolve types_console_vprintf : types.

Lemma types_console_printf cpos color fmt args : keeps_types (console_printf cpos color fmt args).
Proof. apply types_console_vprintf. Qed.
#[local] Hint Resolve types_console_printf : types.

Lemma types_parallel_wait n : keeps_types (parallel_wait n).
Proof. induction n as [|n IH]; cbn [parallel_wait]; [maintains|]. unfold delay. maintains. Qed.
#[local] Hint Resolve types_parallel_wait : types.

Lemma types_log_vprintf fmt args : keeps_types (log_vprintf fmt args).
Proof.
  unfold log_vprintf. maintains. induction l as [|[c k] l IH]; cbn [log_puts]; [maintains|].
  unfold parallel_port_putc. maintains.
Qed.
#[local] Hint Resolve types_log_vprintf : types.

Lemma types_log_printf fmt args : keeps_types (log_printf fmt args).
Proof. apply types_log_vprintf. Qed.
#[local] Hint Resolve types_log_printf : types.

Lemma types_panic {A} fmt args : keeps_types (panic (A := A) fmt args).
Proof. unfold panic, error_printf, error_vprintf. maintains. Qed.
#[local] Hint Resolve types_panic : types.

Lemma types_assert x file line msg : keeps_types (assert_ x file line msg).
Proof. unfold assert_, assert_fail. maintains. Qed.
#[local] Hint Resolve types_assert : types.

(** The page-table code, over any access to the entries that keeps types. *)
Section access.
Context {acc : Access} `{!TypedAccess acc}.

Lemma types_entry_at pt va level : keeps_types (entry_at pt va level).
Proof. unfold entry_at, pageindex. maintains. apply read_typed. Qed.
#[local] Hint Resolve types_entry_at : types.

Lemma types_lookup pt va : keeps_types (virtual_memory_lookup pt va).
Proof.
  unfold virtual_memory_lookup. apply maintains_bind; [|intros; maintains].
  generalize 0, (Z.lor (Z.lor PTE_W PTE_U) PTE_P), pt. generalize 4%nat.
  induction n as [|n IH]; intros i pe t; cbn [lookup_loop]; maintains.
Qed.
#[local] Hint Resolve types_lookup : types.

Lemma types_lookup_l4 pt va perm : keeps_types (lookup_l4pagetable pt va perm).
Proof.
  unfold lookup_l4pagetable. generalize 0, pt. generalize 3%nat.
  induction n as [|n IH]; intros i t; cbn [l4_loop]; maintains.
Qed.
#[local] Hint Resolve types_lookup_l4 write_typed : types.

Lemma types_map_loop n pt va pa perm last l4 : keeps_types (map_loop n pt va pa perm last l4).
Proof.
  revert va pa last l4. induction n as [|n IH]; intros va pa last l4; cbn [map_loop]; unfold pageindex; maintains.
Qed.
#[local] Hint Resolve types_map_loop : types.

Lemma types_map pt va pa sz perm : keeps_types (virtual_memory_map pt va pa sz perm).
Proof. unfold virtual_memory_map. maintains. Qed.

Lemma types_set_pagetable pt : fits 64 pt → keeps_types (set_pagetable pt).
Proof. intros Hp. unfold set_pagetable. maintains. by apply types_lcr3. Qed.
End access.
#[local] Hint Resolve types_lookup : types.

#[global] Instance physical_typed : TypedAccess physical.
Proof. split; intros; [apply types_read|apply types_write]. Qed.
#[local] Hint Resolve physical_typed : types.

Lemma types_vread n va : keeps_types (vread n va).
Proof.
  intros s Hs. unfold vread. destruct (translate _ _ _); [|done]. unfold read. by destruct (in_memory _ _).
Qed.

Lemma types_vwrite n va v : keeps_types (vwrite n va v).
Proof.
  intros s Hs. unfold vwrite. destruct (translate _ _ _); [|done]. unfold write.
  by destruct (in_memory _ _); [apply types_set_mem|].
Qed.
#[local] Hint Resolve types_vread types_vwrite : types.

#[global] Instance through_cr3_typed : TypedAccess through_cr3.
Proof. split; intros; [apply types_vread|apply types_vwrite]. Qed.
#[local] Hint Resolve through_cr3_typed : types.

Lemma types_show_cursor cpos : keeps_types (console_show_cursor cpos).
Proof. unfold console_show_cursor. maintains. Qed.

Lemma types_check_mappings pt : keeps_types (check_page_table_mappings pt).
Proof. unfold check_page_table_mappings, check_kernel_page. maintains. Qed.
End routines.

#[export] Hint Resolve physical_typed through_cr3_typed types_vread types_vwrite types_memset types_memcpy types_console_printf types_panic types_assert types_lookup types_map
  types_show_cursor types_check_mappings : types.

(** The keyboard. *)

Lemma fits_mod w x : 0 ≤ w → fits w (x mod 2 ^ w).
Proof. intros Hw. apply Z.mod_pos_bound. by apply Z.pow_pos_nonneg. Qed.

Lemma key_press_typed ch mods : fits 8 mods → fits 8 (key_press ch mods).2.
Proof. intros Hm. unfold key_press. repeat case_match; try exact Hm; apply u8_range. Qed.

Lemma key_release_typed ch mods : fits 8 mods → fits 8 (key_release ch mods).
Proof. intros Hm. unfold key_release. case_match; [apply u8_range|exact Hm]. Qed.

Section devices.
Context `{Devices} `{Layout}.
Abbreviation keeps_types := (maintains machine_typed).

Lemma types_keyboard (f g : machine → Z) :
  (∀ s, machine_typed s → fits 8 (f s)) → (∀ s, machine_typed s → fits 8 (g s)) →
  keeps_types (modify (λ s, set_keyboard (f s) (g s) s)).
Proof. intros Hf Hg s Hs. specialize (Hf s Hs). specialize (Hg s Hs). by destruct Hs. Qed.

Lemma types_keyboard_readc : keeps_types keyboard_readc.
Proof.
  unfold keyboard_readc. apply maintains_bind; [maintains|intros st]. destruct (_ =? 0); [maintains|].
  apply maintains_bind; [maintains|intros data]. apply maintains_bind; [maintains|intros escape].
  apply maintains_bind; [apply types_keyboard; [apply mt_modifiers|done]|intros _].
  destruct (data =? 0xE0).
  { apply maintains_bind; [|intros ?; maintains]. apply types_keyboard; [apply mt_modifiers|done]. }
  destruct (istrue _).
  { apply maintains_bind; [|intros ?; maintains]. apply types_keyboard; [|apply mt_escape].
    intros s Hs. by apply key_release_typed, mt_modifiers. }
  apply (yields_bind _ (fits 8)); [apply yields_gets, mt_modifiers|intros mods Hm].
  pose proof (key_press_typed (keymap_at (Z.lor data escape)) mods Hm) as Hk.
  destruct (key_press _ mods) as [ch mods']. apply maintains_bind; [|intros ?; maintains].
  by apply types_keyboard; [|apply mt_escape].
Qed.
#[local] Hint Resolve types_keyboard_readc : types.

Lemma types_soft_reboot c : keeps_types (soft_reboot c).
Proof. unfold soft_reboot. maintains. apply types_lcr3. by split. Qed.
#[local] Hint Resolve types_soft_reboot : types.

Lemma types_pci_funcs n bus slot func v d : keeps_types (pci_funcs n bus slot func v d).
Proof. unfold pci_config_readl. revert func. induction n as [|n IH]; intros func; cbn [pci_funcs]; unfold pci_config_readl; maintains. Qed.
#[local] Hint Resolve types_pci_funcs : types.

Lemma types_pci_slots n bus slot v d : keeps_types (pci_slots n bus slot v d).
Proof. revert slot. induction n as [|n IH]; intros slot; cbn [pci_slots]; maintains. Qed.
#[local] Hint Resolve types_pci_slots : types.

Lemma types_pci_buses n bus v d : keeps_types (pci_buses n bus v d).
Proof. revert bus. induction n as [|n IH]; intros bus; cbn [pci_buses]; maintains. Qed.
#[local] Hint Resolve types_pci_buses : types.

(** The power management port is read from the device, and masked. *)
Lemma pm_port v : fits 16 (Z.land v 0xFFC0 + 4).
Proof.
  change 0xFFC0 with (Z.ldiff (Z.ones 16) (Z.ones 6)).
  assert (Z.land v (Z.ldiff (Z.ones 16) (Z.ones 6)) = Z.land (v / 2 ^ 6) (Z.ones 10) * 2 ^ 6) as ->.
  { rewrite <- Z.shiftr_div_pow2, <- Z.shiftl_mul_pow2 by lia. apply Z.bits_inj'. intros i Hi.
    rewrite Z.land_spec, Z.ldiff_spec, Z.shiftl_spec by lia. destruct (decide (i < 6)).
    - rewrite (Z.ones_spec_low 6) by lia. rewrite (Z.testbit_neg_r _ (i - 6)) by lia. by rewrite !andb_false_r.
    - rewrite (Z.ones_spec_high 6) by lia. rewrite Z.land_spec, Z.shiftr_spec by lia.
      replace (i - 6 + 6) with i by lia. rewrite andb_true_r. f_equal.
      destruct (decide (i < 16)); [by rewrite !Z.ones_spec_low by lia|by rewrite !Z.ones_spec_high by lia]. }
  rewrite Z.land_ones by lia. pose proof (Z.mod_pos_bound (v / 2 ^ 6) (2 ^ 10)). unfold fits. lia.
Qed.

Lemma types_poweroff {A} : keeps_types (poweroff (A := A)).
Proof. unfold poweroff, pci_find_device, pci_config_readl. maintains. apply types_outw, pm_port. Qed.
#[local] Hint Resolve types_poweroff : types.

Lemma types_check_keyboard : keeps_types check_keyboard.
Proof. unfold check_keyboard. maintains. Qed.
End devices.

#[export] Hint Resolve types_check_keyboard : types.

(** ** The kernel *)

Lemma zero_regs_typed : regs_typed zero_regs.
Proof. split; [|by split]. repeat (apply List.Forall_cons; [by split|]). by apply List.Forall_nil. Qed.

Lemma zero_proc_typed : proc_typed zero_proc.
Proof. split; [by split|exact zero_regs_typed|by split|by split]. Qed.

Lemma set_rax_typed v r : regs_typed r → regs_typed (set_rax v r).
Proof.
  intros (Hr & Hc & Hs). destruct r. cbn in *. apply Forall_cons in Hr as [_ Hr]. split; [|by split].
  apply Forall_cons. split; [apply fits_u64|exact Hr].
Qed.

Section kernel.
Context `{Devices} `{Layout}.
Abbreviation keeps_types := (maintains typed).

Lemma types_machine {A} (m : M machine A) : maintains machine_typed m → keeps_types (on_machine m).
Proof.
  intros Hm s Hs. specialize (Hm (mach s) (ty_machine s Hs)). unfold on_machine, zoom.
  destruct (m (mach s)); by destruct Hs.
Qed.

Lemma s8_typed x : - 2 ^ 7 ≤ s8 x < 2 ^ 7.
Proof. apply s8_range. Qed.

Lemma types_put_info (f : kstate → physical_pageinfo) n :
  (∀ s, typed s → - 2 ^ 7 ≤ owner (f s) < 2 ^ 7 ∧ - 2 ^ 7 ≤ refcount (f s) < 2 ^ 7) →
  keeps_types (modify (λ s, set_pageinfo (<[n := f s]> (pageinfo s)) s)).
Proof.
  intros Hf s Hs. specialize (Hf s Hs).
  assert (∀ k, pinfo (set_pageinfo (<[n := f s]> (pageinfo s)) s) k = if decide (n = k) then f s else pinfo s k) as E.
  { intros k. unfold pinfo. cbn. rewrite lookup_insert. by case_decide. }
  split; try apply Hs; intros k; rewrite E; case_decide; try apply Hf; by apply Hs.
Qed.

Lemma types_put_owner n o : keeps_types (put_owner n o).
Proof. apply types_put_info. intros s Hs. split; [apply s8_range|by apply Hs]. Qed.

Lemma types_put_refcount n r : keeps_types (put_refcount n r).
Proof. apply types_put_info. intros s Hs. split; [by apply Hs|apply s8_range]. Qed.

Lemma types_put_process q f : (∀ p, proc_typed p → proc_typed (f p)) → keeps_types (put_process q f).
Proof.
  intros Hf s Hs. split; try apply Hs. intros k. unfold process. cbn. rewrite lookup_insert.
  case_decide; [|apply Hs]. apply Hf, Hs.
Qed.

Lemma types_with_state q x : keeps_types (put_process q (with_state x)).
Proof. apply types_put_process. by intros p []. Qed.

Lemma types_with_registers q r : regs_typed r → keeps_types (put_process q (with_registers r)).
Proof. intros Hr. apply types_put_process. by intros p []. Qed.

Lemma types_put_rax q v : keeps_types (put_process q (λ p, with_registers (set_rax v (p_registers p)) p)).
Proof. apply types_put_process. intros p []. split; try done. by apply set_rax_typed. Qed.
End kernel.

#[export] Hint Resolve types_machine types_put_owner types_put_refcount types_with_state types_put_rax : types.

Section operations.
Context `{Devices} `{Layout}.
Abbreviation keeps_types := (maintains typed).

Lemma types_put_current_rax v : keeps_types (put_current_rax v).
Proof. unfold put_current_rax. maintains. Qed.
#[local] Hint Resolve types_put_current_rax : types.

(** The checks and the display. *)

Lemma types_check_level n pt own count : keeps_types (check_page_table_ownership_level n pt own count).
Proof.
  revert pt count. induction n as [|n IH]; intros pt count; cbn [check_page_table_ownership_level];
    unfold check_table_page, pageinfo_at; maintains.
Qed.
#[local] Hint Resolve types_check_level : types.

Lemma types_check_virtual_memory : keeps_types check_virtual_memory.
Proof. unfold check_virtual_memory, check_process, check_page_table_ownership, check_owner_alive. maintains. Qed.

Lemma types_memshow_physical : keeps_types memshow_physical.
Proof. unfold memshow_physical, show_physical_page, known_color, put_cell. maintains. Qed.

Lemma types_memshow_virtual pt name : keeps_types (memshow_virtual pt name).
Proof. unfold memshow_virtual, show_virtual_page, known_color, put_cell. maintains. Qed.
#[local] Hint Resolve types_memshow_virtual : types.

(** The display counts the processes past [NPROC] before it takes the
    remainder. *)
Lemma types_animate : keeps_types memshow_virtual_animate.
Proof.
  intros s Hs. unfold memshow_virtual_animate. erewrite bind_ok by reflexivity.
  set (s1 := if _ || _ then _ else s). erewrite bind_ok by reflexivity.
  set (s2 := set_showing _ _ s1). erewrite bind_ok by reflexivity.
  set (s3 := set_showing _ _ s2). assert (typed s3) as H3.
  { assert (0 ≤ showing s1 ∧ fits 32 (last_ticks s1)) as [Hsh Hl].
    { pose proof (ty_showing s Hs). unfold s1. destruct (_ || _); cbn; (split; [lia|apply Hs]). }
    assert (0 ≤ showing s3 < NPROC).
    { apply Z.rem_bound_pos; [|done]. pose proof (skip_free_ge (Z.to_nat (2 * NPROC + 1 - showing s1)) (showing s1) s1).
      cbn. lia. }
    assert (s3 = set_showing (last_ticks s1) (showing s3) s) as -> by (unfold s3, s2, s1; by destruct (_ || _)).
    destruct Hs. by split. }
  enough (keeps_types (shown ← gets showing; p ← gets (λ s, process s shown);
    if decide (p_state p = P_FREE) then mret ()
    else match printed 4 (str "%d ") [VInt shown] with
         | Some name => memshow_virtual (p_pagetable p) name
         | None => halt Undefined
         end)) as K by exact (K s3 H3).
  maintains.
Qed.

(** System calls. *)

Lemma types_assign addr own : keeps_types (assign_physical_page addr own).
Proof. unfold assign_physical_page. maintains. Qed.
#[local] Hint Resolve types_assign : types.

(** The allocator returns an address of physical memory, or null. *)
Lemma types_alloc pid : yields typed (fits 64) (alloc_page_process pid).
Proof.
  unfold alloc_page_process. intros s Hs. erewrite bind_ok by reflexivity.
  assert (fits 64 (PAGEADDRESS (find_free (Z.to_nat (NPAGES - 1)) 1 s))) as Hf.
  { destruct (find_free_pages s) as [(n & -> & Hn & _)|[-> _]]; rewrite PAGEADDRESS_mul by lia; unfold fits; lia. }
  revert s Hs Hf. generalize (find_free (Z.to_nat (NPAGES - 1)) 1).
  intros g s Hs Hf. revert Hf. generalize (g s). intros p Hf. revert s Hs.
  apply (yields_step typed _ _ (λ page, mret (if -1 <? page then PAGEADDRESS p else NULL))); [maintains|].
  intros page. apply yields_ret. destruct (_ <? _); [exact Hf|by split].
Qed.

Lemma types_duplicate_body fill pt va : keeps_types (duplicate_body fill pt va).
Proof. unfold duplicate_body. maintains. Qed.
#[local] Hint Resolve types_duplicate_body : types.

Lemma types_duplicate pt pid : yields typed (fits 64) (duplicate_pagetable pt pid).
Proof.
  unfold duplicate_pagetable.
  eapply yields_chain; [apply types_alloc|]. intros L1 HL.
  do 4 (apply yields_step; [eapply yields_maintains, types_alloc|intros ?]).
  do 5 (apply yields_step; [maintains|intros ?]).
  destruct (_ && _); [|by apply yields_ret].
  do 5 (apply yields_step; [maintains|intros ?]). by apply yields_ret.
Qed.
End operations.

#[export] Hint Resolve types_put_current_rax types_check_virtual_memory types_memshow_physical types_animate
  types_assign : types.

Section handler.
Context `{Devices} `{Layout} `{Patience} `{Padding}.
Abbreviation keeps_types := (maintains typed).

Lemma current_proc_typed : yields typed proc_typed (gets current_proc).
Proof. apply yields_gets. intros s Hs. apply Hs. Qed.

Lemma types_with_pid q : 0 ≤ q < NPROC → keeps_types (put_process q (with_pid q)).
Proof. intros Hq. apply types_put_process. by intros p []. Qed.

Lemma types_with_pagetable q pt : fits 64 pt → keeps_types (put_process q (with_pagetable pt)).
Proof. intros Hp. apply types_put_process. by intros p []. Qed.

Lemma types_fork_page c v : keeps_types (fork_page c v).
Proof. unfold fork_page. maintains. eapply yields_maintains, types_alloc. Qed.
#[local] Hint Resolve types_fork_page : types.

Lemma types_fork_into c : 0 ≤ c < NPROC → keeps_types (fork_into c).
Proof.
  intros Hc. unfold fork_into. apply maintains_bind; [by apply types_with_pid|intros _].
  apply maintains_bind; [maintains|intros _]. apply maintains_bind; [maintains|intros cur].
  eapply yields_bind; [apply types_duplicate|intros pt Hpt].
  apply maintains_bind; [by apply types_with_pagetable|intros _]. destruct (istrue pt); [|maintains].
  apply maintains_bind; [maintains|intros _].
  eapply yields_bind; [apply current_proc_typed|intros p Hp].
  apply maintains_bind; [by apply types_with_registers, Hp|intros _]. maintains.
Qed.

Lemma types_fork_loop n c : 0 ≤ c → c + Z.of_nat n ≤ NPROC → keeps_types (fork_loop n c).
Proof.
  revert c. induction n as [|n IH]; intros c Hc Hn; cbn [fork_loop]; [maintains|].
  apply maintains_bind; [maintains|intros p]. destruct (decide _); [apply types_fork_into; lia|].
  apply maintains_bind; [maintains|intros _]. apply IH; lia.
Qed.

Lemma types_fork : keeps_types sys_fork.
Proof. apply types_fork_loop; [lia|done]. Qed.

Lemma types_exit : keeps_types sys_exit.
Proof. unfold sys_exit, exit_page. maintains; apply maintains_each; intros ?; maintains. Qed.

Lemma types_page_alloc : keeps_types sys_page_alloc.
Proof. unfold sys_page_alloc, sys_page_alloc_find_free. maintains. Qed.

Lemma types_mapping : keeps_types syscall_mapping.
Proof. unfold syscall_mapping. maintains. apply types_machine. unfold copy_vamapping. maintains. Qed.

Lemma types_mem_tog : keeps_types syscall_mem_tog.
Proof.
  assert (∀ x, 0 ≤ logical_not x < 2) as Hn by (intros x; unfold logical_not; destruct (_ =? _); lia).
  unfold syscall_mem_tog. maintains.
  - intros s []. split; try done. specialize (Hn (disp_global s)). unfold fits. cbn. lia.
  - apply types_put_process. intros p []. split; try done. specialize (Hn (display_status p)). unfold fits. cbn. lia.
Qed.

Lemma types_run {A} q : 0 ≤ q < NPROC → keeps_types (run (A := A) q).
Proof.
  intros Hq. unfold run. apply (yields_bind _ proc_typed); [apply yields_gets; intros s Hs; apply Hs|intros p Hp].
  apply maintains_bind; [maintains|intros _]. apply maintains_bind; [by intros s []|intros _].
  apply maintains_bind; [|intros _; maintains]. by apply types_machine, types_set_pagetable, Hp.
Qed.

Lemma types_schedule_loop {A} n q : 0 ≤ q → keeps_types (schedule_loop (A := A) n q).
Proof.
  revert q. induction n as [|n IH]; intros q Hq; cbn [schedule_loop]; [maintains|].
  assert (0 ≤ Z.rem (q + 1) NPROC < NPROC) by (apply Z.rem_bound_pos; [lia|done]).
  apply maintains_bind; [maintains|intros p]. destruct (decide _); [by apply types_run|].
  apply maintains_bind; [maintains|intros _]. apply IH. lia.
Qed.

Lemma types_schedule {A} : keeps_types (schedule (A := A)).
Proof. eapply yields_bind; [apply current_proc_typed|]. intros p Hp. apply types_schedule_loop, Hp. Qed.

Lemma types_panic_call : keeps_types (sys_panic (A := ())).
Proof.
  assert (∀ n a, maintains machine_typed (read_bytes n a)) as Hb.
  { induction n as [|n IH]; intros a; cbn [read_bytes]; maintains. }
  unfold sys_panic. maintains.
Qed.

Lemma types_page_fault reg : keeps_types (page_fault reg).
Proof. unfold page_fault, rcr2. maintains. apply types_machine. maintains. Qed.

Lemma types_tick : keeps_types (modify (λ s, set_ticks (u32 (ticks s + 1)) s)).
Proof. intros s []. split; try done. apply u32_range. Qed.

Lemma types_handle reg : keeps_types (handle reg).
Proof.
  unfold handle, default_exception. cbv zeta. auto with types nocore.
  maintains; auto using types_panic_call, types_schedule, types_page_alloc, types_mapping, types_mem_tog, types_tick,
    types_page_fault, types_fork, types_exit.
Qed.

Lemma types_exception_entry reg : regs_typed reg → keeps_types (exception_entry reg).
Proof.
  intros Hr. unfold exception_entry. apply maintains_bind; [maintains|intros q].
  apply maintains_bind; [by apply types_with_registers|intros _].
  apply (yields_bind _ (fits 64)); [apply yields_gets; intros s Hs; apply Hs|intros kpt Hk].
  apply maintains_bind; [by apply types_machine, types_set_pagetable|intros _]. maintains.
Qed.

Lemma types_resume {A} : keeps_types (resume (A := A)).
Proof.
  unfold resume. apply maintains_bind; [maintains|intros p]. destruct (decide _); [|apply types_schedule].
  apply (yields_bind _ (λ q, 0 ≤ q < NPROC)); [apply yields_gets; intros s Hs; apply Hs|]. apply types_run.
Qed.

Lemma types_exception {A} reg : regs_typed reg → keeps_types (exception (A := A) reg).
Proof.
  intros Hr. unfold exception. apply maintains_bind; [by apply types_exception_entry|intros _].
  apply maintains_bind; [apply types_handle|intros _]. apply types_resume.
Qed.
End handler.

(** C37: types.  The handler for any trap, called in a state in which every
    variable has a value of its C type, ends, however it ends, in such a state:
    registers, reference counts, owners, process IDs, page table addresses,
    ticks, the display's position and everything written to a port stay in
    range, and [current] points into [processes]. *)
Theorem exception_typed `{Devices} `{Layout} `{Patience} `{Padding} {A} reg s :
  typed s → regs_typed reg → typed (final (exception (A := A) reg s)).
Proof.
  intros Hs Hr. apply (triple_final typed); [|exact Hs]. by apply types_exception.
Qed.

(** ** On the demo process *)

(** The types of a state, checked. *)
Definition info_checks (i : physical_pageinfo) : bool :=
  (- 2 ^ 7 <=? owner i) && (owner i <? 2 ^ 7) && (- 2 ^ 7 <=? refcount i) && (refcount i <? 2 ^ 7).

Lemma info_checks_spec i :
  info_checks i = true → - 2 ^ 7 ≤ owner i < 2 ^ 7 ∧ - 2 ^ 7 ≤ refcount i < 2 ^ 7.
Proof. unfold info_checks. rewrite !andb_true_iff, !Z.leb_le, !Z.ltb_lt. lia. Qed.

Lemma pinfo_checks s : bool_decide (map_Forall (λ _ i, info_checks i = true) (pageinfo s)) = true →
  ∀ n, - 2 ^ 7 ≤ owner (pinfo s n) < 2 ^ 7 ∧ - 2 ^ 7 ≤ refcount (pinfo s n) < 2 ^ 7.
Proof.
  intros Hc n. apply bool_decide_eq_true in Hc. apply info_checks_spec. unfold pinfo.
  destruct (pageinfo s !! n) as [i|] eqn:E; [exact (Hc n i E)|done].
Qed.

Lemma regs_typed_trap n rdi : fits 64 n → fits 64 rdi → regs_typed (trap_regs n rdi).
Proof. intros Hn Hr. split; [|by split]. repeat (apply List.Forall_cons; [by first [assumption|split]|]). by apply List.Forall_nil. Qed.

Lemma demo_proc_typed : proc_typed demo_proc.
Proof.
  assert (bool_decide (Forall (fits 64)
    [reg_rax demo_regs; reg_rcx demo_regs; reg_rdx demo_regs; reg_rbx demo_regs; reg_rbp demo_regs; reg_rsi demo_regs;
     reg_rdi demo_regs; reg_r8 demo_regs; reg_r9 demo_regs; reg_r10 demo_regs; reg_r11 demo_regs; reg_r12 demo_regs;
     reg_r13 demo_regs; reg_r14 demo_regs; reg_r15 demo_regs; reg_fs demo_regs; reg_gs demo_regs;
     reg_intno demo_regs; reg_err demo_regs; reg_rip demo_regs; reg_rflags demo_regs; reg_rsp demo_regs]) = true) as H
    by (vm_compute; reflexivity).
  apply bool_decide_eq_true in H. split; [by split| |by split|by split]. split; [exact H|]. by split.
Qed.

Lemma demo_user_typed : typed demo_user.
Proof.
  assert (bool_decide (map_Forall (λ _ i, info_checks i = true) (pageinfo demo_user)) = true) as Hi
    by (vm_compute; reflexivity).
  split.
  - split; try (by split). apply List.Forall_nil.
  - intros n. exact (proj1 (pinfo_checks _ Hi n)).
  - intros n. exact (proj2 (pinfo_checks _ Hi n)).
  - intros q. unfold process. cbn [processes demo_user demo set_mach]. destruct (decide (1 = q)) as [<-|Hne].
    + rewrite lookup_singleton_eq. exact demo_proc_typed.
    + rewrite lookup_singleton_ne by exact Hne. exact zero_proc_typed.
  - by split.
  - by split.
  - by split.
  - by split.
  - by split.
Qed.

Lemma exception_typed_witness :
  typed (final (@exception () (λ _ _, 0) kernel_sym 16%nat (λ _, 0) (trap_regs INT_SYS_FORK 0) demo_user)).
Proof.
  apply exception_typed; [exact demo_user_typed|]. apply regs_typed_trap; by split.
Defined.
