(* ===== verification/Checks.v ===== *)
(** The run-time checks of [src/kernel.c] never fire, and the memory display
    never fails, in a state that the kernel keeps consistent. *)
From S2P Require Import Prelude X86 Machine CLib Printf Hardware PageTable Frames Syscalls Isolation Demo Duplicate Fork ForkSafe Exit PageAlloc Canonical Mmu Contracts Mapping AddressSpace Display ElfFormat Loader Through Load Kernel Calm System.
Open Scope Z_scope.

#[local] Opaque frames_where.

(** ** Consistent states

    What the checks look at, beyond the safety invariant: slot 0 is not used,
    the kernel's page table is in place and its pages are the kernel's, and a
    page in use belongs to the kernel, is reserved, or has a live owner. *)

Record consistent `{Layout} (s : kstate) : Prop := {
  cs_safe : safe s;
  cs_zero : p_state (process s 0) = P_FREE;
  cs_kernel : kernel_ok s;
  cs_frames : ∀ f, kernel_frame f → pinfo s f = MkInfo PO_KERNEL 1;
  cs_owners : ∀ f, 0 ≤ f < 512 → refcount (pinfo s f) ≠ 0 →
    PO_KERNEL ≤ owner (pinfo s f) < 0 ∨ live s (owner (pinfo s f)) }.

(** ** One page table *)

Section table.
Context `{Devices} (L : Layout) (HL : LayoutOk L).

Lemma entry_perm e f : 0 ≤ f < 4096 → has (PTE_FLAGS e) f = has e f.
Proof. apply has_flags. Qed.

(** A table with the kernel's memory in place. *)
Definition maps_kernel (m : gmap Z Z) (sh : pt_shape) : Prop :=
  shape_ok m sh ∧ identity m sh 256 ∧ ∀ w, 0 ≤ w < 256 → has (leaf m sh w) PTE_W = true.

Lemma maps_lookup (m : machine) sh a :
  maps_kernel (mem m) sh → 0 ≤ a < 0x100000 →
  ∃ vam, virtual_memory_lookup (L1 sh) a m = Ok vam m ∧ pa vam = a ∧ has (perm vam) PTE_W = true.
Proof.
  intros (Hsh & Hid & Hw) Ha. destruct (lookup_identity m sh 256 a Hsh Hid) as (vam & E & Ep & Er); [lia..|].
  exists vam. split; [exact E|]. split; [exact Ep|]. rewrite Er, entry_perm by done. apply Hw.
  split; [apply Z.div_pos; lia|apply Z.div_lt_upper_bound; lia].
Qed.

Lemma check_mappings_ok (m : machine) sh :
  maps_kernel (mem m) sh → check_page_table_mappings (L1 sh) m = Ok () m.
Proof.
  intros Hm. destruct (shape_tables _ _ (proj1 Hm)) as ((Hp & Hal & Hend)&_). change MEMSIZE_PHYSICAL with 0x200000 in *.
  pose proof (kernel_pagetables_data (L := L)). pose proof (start_data_text (L := L)). pose proof (end_stack (L := L)).
  change KERNEL_START_ADDR with 0x40000 in *. change (KERNEL_STACK_TOP - PAGESIZE) with 0x7F000 in *.
  unfold check_page_table_mappings. rewrite PTE_ADDR_sub, Hal, Z.sub_0_r, Z.eqb_refl by lia.
  erewrite bind_ok by reflexivity.
  assert (runs (for_loop kernel_image_pages KERNEL_START_ADDR PAGESIZE (check_kernel_page (L1 sh))) m (λ _ m', m' = m)) as Hr.
  { apply (runs_for (λ _ m', m' = m)); [done|]. intros k m' Hk ->. unfold runs, check_kernel_page.
    unfold kernel_image_pages in Hk. change KERNEL_START_ADDR with 0x40000 in *. change PAGESIZE with 4096 in *.
    assert ((end_addr - 0x40000 + 4096 - 1) / 4096 * 4096 ≤ end_addr - 0x40000 + 4096 - 1)
      by (rewrite Z.mul_comm; apply Z.mul_div_le; lia).
    destruct (maps_lookup m sh (0x40000 + Z.of_nat k * 4096) Hm) as (vam & E & Ep & Ew); [lia|].
    rewrite (bind_ok _ _ _ _ _ E). rewrite Ep, Z.eqb_refl. cbn. rewrite Ew. by destruct (_ <=? _). }
  apply runs_iff in Hr as ([] & m' & Er & ->). rewrite (bind_ok _ _ _ _ _ Er). cbv zeta.
  change (KERNEL_STACK_TOP - PAGESIZE) with 0x7F000.
  destruct (maps_lookup m sh 0x7F000 Hm) as (vam & E & Ep & Ew); [lia|]. rewrite (bind_ok _ _ _ _ _ E).
  by rewrite Ep, Z.eqb_refl, Ew.
Qed.
End table.

Section ownership.
Context `{Devices} (s : kstate).

(** A table page with the owner and the count that are asked for. *)
Lemma check_table_page_ok pt own count :
  table_page pt → pinfo s (pt / 4096) = MkInfo own count → check_table_page pt own count s = Ok () s.
Proof.
  intros (Hp & Hal & Hend) Hi. change MEMSIZE_PHYSICAL with (512 * 4096) in Hend.
  assert (0 ≤ pt / 4096 < 512) as Hn by (split; [apply Z.div_pos|apply Z.div_lt_upper_bound]; lia).
  unfold check_table_page. rewrite PAGENUMBER_div by lia. change NPAGES with 512.
  rewrite (proj2 (Z.ltb_lt _ _) (proj2 Hn)). unfold pageinfo_at. change NPAGES with 512.
  rewrite (proj2 (Z.leb_le _ _) (proj1 Hn)), (proj2 (Z.ltb_lt _ _) (proj2 Hn)).
  assert (∀ file line msg, on_machine (assert_ true file line msg) s = Ok () s) as Ha by (intros; by destruct s).
  rewrite (bind_ok _ _ _ _ _ (Ha _ _ _)). erewrite bind_ok by reflexivity. rewrite Hi. cbn [owner refcount].
  rewrite !Z.eqb_refl. rewrite (bind_ok _ _ _ _ _ (Ha _ _ _)). apply Ha.
Qed.

(** The entries of a table page, each absent or a table that passes. *)
Lemma check_level_ok n pt own count :
  table_page pt → pinfo s (pt / 4096) = MkInfo own count →
  (∀ i, 0 ≤ i < 512 → load 8 (kmem s) (pt + 8 * i) = 0 ∨
    check_page_table_ownership_level n (PTE_ADDR (load 8 (kmem s) (pt + 8 * i))) own 1 s = Ok () s) →
  check_page_table_ownership_level (S n) pt own count s = Ok () s.
Proof.
  intros Hp Hi He. cbn [check_page_table_ownership_level].
  rewrite (bind_ok _ _ _ _ _ (check_table_page_ok pt own count Hp Hi)).
  enough (runs (for_loop (Z.to_nat NPAGETABLEENTRIES) 0 1 (λ index,
    e ← on_machine (read 8 (pt + 8 * index));
    if istrue e then check_page_table_ownership_level n (PTE_ADDR e) own 1 else mret ())) s (λ _ s', s' = s)) as Hr.
  { by apply runs_iff in Hr as ([] & s' & -> & ->). }
  apply (runs_for (λ _ s', s' = s)); [done|]. intros k s' Hk ->. change (Z.to_nat NPAGETABLEENTRIES) with 512%nat in Hk.
  rewrite Z.add_0_l, Z.mul_1_r. unfold runs. destruct Hp as (? & ? & ?). change MEMSIZE_PHYSICAL with 0x200000 in *.
  assert (on_machine (read 8 (pt + 8 * Z.of_nat k)) s = Ok (load 8 (kmem s) (pt + 8 * Z.of_nat k)) s) as Er.
  { apply on_machine_pure, read_ok; lia. }
  rewrite (bind_ok _ _ _ _ _ Er). destruct (He (Z.of_nat k)) as [->|E]; [lia|done|].
  destruct (istrue _); [by rewrite E|done].
Qed.

(** A whole page table. *)
Lemma check_ownership_ok sh own count :
  shape_ok (kmem s) sh → pinfo s (L1 sh / 4096) = MkInfo own count →
  (∀ p, p ∈ [L2 sh; L3 sh; L4_1 sh; L4_2 sh] → pinfo s (p / 4096) = MkInfo own 1) →
  check_page_table_ownership_level 3 (L1 sh) own count s = Ok () s.
Proof.
  intros Hsh H1 Hi. destruct (shape_tables _ _ Hsh) as (T1&T2&T3&T4&T5).
  pose proof (shape_rest1 _ _ Hsh) as R1. pose proof (shape_rest2 _ _ Hsh) as R2. pose proof (shape_rest3 _ _ Hsh) as R3.
  rewrite Forall_forall in R1, R2, R3.
  apply check_level_ok; [done|done|]. intros i Hr. destruct (decide (i = 0)) as [->|Hne]; [right|left; apply R1, elem_of_seqZ; lia].
  rewrite Z.mul_0_r, Z.add_0_r, (proj1 (shape_1 _ _ Hsh)). apply check_level_ok; [done|apply Hi; set_solver|].
  intros j Hj. destruct (decide (j = 0)) as [->|Hne]; [right|left; apply R2, elem_of_seqZ; lia].
  rewrite Z.mul_0_r, Z.add_0_r, (proj1 (shape_2 _ _ Hsh)). apply check_level_ok; [done|apply Hi; set_solver|].
  assert (∀ p, table_page p → pinfo s (p / 4096) = MkInfo own 1 →
    check_page_table_ownership_level 0 p own 1 s = Ok () s) as Hleaf.
  { intros p Hp Hpi. cbn [check_page_table_ownership_level].
    by rewrite (bind_ok _ _ _ _ _ (check_table_page_ok p own 1 Hp Hpi)). }
  intros k Hk. destruct (decide (k = 0)) as [->|Hk0]; [|destruct (decide (k = 1)) as [->|Hk1]].
  - right. rewrite Z.mul_0_r, Z.add_0_r, (proj1 (shape_31 _ _ Hsh)). apply Hleaf; [done|apply Hi; set_solver].
  - right. rewrite Z.mul_1_r, (proj1 (shape_32 _ _ Hsh)). apply Hleaf; [done|apply Hi; set_solver].
  - left. apply R3, elem_of_seqZ. lia.
Qed.
End ownership.

(** ** check_virtual_memory *)

Section checks.
Context `{Devices} (L : Layout) (HL : LayoutOk L) (s : kstate) (Hc : consistent s).

Abbreviation sh q := (table_of s q).

Lemma process_maps q : live s q → maps_kernel (kmem s) (sh q).
Proof.
  intros Hq. pose proof (cs_safe s Hc) as Hs. split; [by apply (safe_shape s Hs)|]. split.
  - intros w Hw. destruct (safe_kernel s Hs q w Hq Hw) as (? & ? & _). done.
  - intros w Hw. by destruct (safe_kernel s Hs q w Hq Hw) as (_ & _ & ? & _).
Qed.

Lemma kernel_maps : maps_kernel (kmem s) kernel_shape.
Proof.
  pose proof (cs_kernel s Hc) as Hk. split; [apply Hk|]. split.
  - intros w Hw. apply (ko_identity s Hk). lia.
  - intros w Hw. by destruct (ko_entries s Hk w Hw) as (_ & _ & ? & _).
Qed.

Lemma cs_tables f : f ∈ table_frames kernel_shape → pinfo s f = MkInfo PO_KERNEL 1.
Proof. intros Hf. apply (cs_frames s Hc). left. by apply (table_image_frame L HL). Qed.

Lemma frame_of_page p sh : p ∈ pt_pages sh → p / 4096 ∈ table_frames sh.
Proof. intros Hp. apply list_elem_of_fmap. by exists p. Qed.

(** No process runs on the kernel's own table. *)
Lemma own_table q : live s q → p_pagetable (process s q) ≠ kernel_pagetable (mach s).
Proof.
  intros Hq E. rewrite (ko_root s (cs_kernel s Hc)) in E.
  assert (pinfo s (p_pagetable (process s q) / 4096) = MkInfo q 1) as E1.
  { apply (safe_tables s (cs_safe s Hc) q); [done|]. rewrite <- table_of_root. apply frame_of_page, in_pages. }
  assert (pinfo s (p_pagetable (process s q) / 4096) = MkInfo PO_KERNEL 1) as E2.
  { apply cs_tables. rewrite E. replace kernel_pagetables with (L1 kernel_shape) by (cbn; lia).
    apply frame_of_page, in_pages. }
  rewrite E1 in E2. injection E2 as ->. destruct Hq. unfold PO_KERNEL in *. lia.
Qed.

Lemma no_table_users : kernel_table_users s = 0.
Proof.
  unfold kernel_table_users. rewrite (zsum_ext _ (λ _, 0)).
  - generalize (seqZ 0 NPROC). intros l. induction l; cbn [zsum]; lia.
  - intros q Hq. apply elem_of_seqZ in Hq. change NPROC with 16 in Hq. rewrite decide_False; [done|].
    intros [Hst Ht]. apply (own_table q); [|done]. split; [|done].
    destruct (decide (q = 0)) as [->|]; [by rewrite (cs_zero s Hc) in Hst|lia].
Qed.

Lemma kernel_ownership : check_page_table_ownership (kernel_pagetable (mach s)) (-1) s = Ok () s.
Proof.
  unfold check_page_table_ownership. erewrite bind_ok by reflexivity. rewrite Z.eqb_refl.
  erewrite bind_ok by reflexivity. rewrite no_table_users, (ko_root s (cs_kernel s Hc)).
  replace kernel_pagetables with (L1 kernel_shape) by (cbn; lia).
  apply check_ownership_ok; [apply (cs_kernel s Hc)|apply cs_tables, frame_of_page, in_pages|].
  intros p Hp. apply cs_tables, frame_of_page. unfold pt_pages. set_solver.
Qed.

Lemma process_ownership q : live s q → check_page_table_ownership (p_pagetable (process s q)) q s = Ok () s.
Proof.
  intros Hq. pose proof (cs_safe s Hc) as Hs. unfold check_page_table_ownership. erewrite bind_ok by reflexivity.
  rewrite (proj2 (Z.eqb_neq _ _) (own_table q Hq)). rewrite <- table_of_root.
  apply check_ownership_ok; [by apply (safe_shape s Hs)|apply (safe_tables s Hs q _ Hq), frame_of_page, in_pages|].
  intros p Hp. apply (safe_tables s Hs q _ Hq), frame_of_page. unfold pt_pages. set_solver.
Qed.

Lemma check_process_ok q : 0 ≤ q < 16 → check_process q s = Ok () s.
Proof.
  intros Hr. unfold check_process. erewrite bind_ok by reflexivity. erewrite bind_ok by reflexivity.
  destruct (decide _) as [Hf|Hf]; [done|].
  assert (live s q) as Hq.
  { split; [|done]. destruct (decide (q = 0)) as [->|]; [by rewrite (cs_zero s Hc) in Hf|lia]. }
  rewrite (proj2 (Z.eqb_neq _ _) (own_table q Hq)).
  assert (on_machine (check_page_table_mappings (p_pagetable (process s q))) s = Ok () s) as Em.
  { apply on_machine_pure. rewrite <- table_of_root. apply (check_mappings_ok L HL). by apply process_maps. }
  rewrite (bind_ok _ _ _ _ _ Em). by apply process_ownership.
Qed.

Lemma check_owner_ok n : 0 ≤ n < 512 → check_owner_alive n s = Ok () s.
Proof.
  intros Hn. unfold check_owner_alive. erewrite bind_ok by reflexivity.
  destruct (Z.ltb_spec 0 (refcount (pinfo s n))) as [Hr|]; [|done].
  destruct (Z.leb_spec 0 (owner (pinfo s n))) as [Ho|]; [|done]. cbn [andb].
  destruct (cs_owners s Hc n Hn ltac:(lia)) as [?|[Hrange Hl]]; [lia|].
  rewrite (proj2 (Z.ltb_lt _ _)) by (change NPROC with 16; lia). erewrite bind_ok by reflexivity.
  rewrite bool_decide_eq_false_2 by done. by destruct s.
Qed.

Lemma check_all n lo (f : Z → M kstate ()) :
  (∀ i, lo ≤ i < lo + Z.of_nat n → f i s = Ok () s) → for_loop n lo 1 f s = Ok () s.
Proof.
  revert lo. induction n as [|n IH]; intros lo Hf; cbn [for_loop]; [done|].
  rewrite (bind_ok _ _ _ _ _ (Hf lo ltac:(lia))). apply IH. intros i Hi. apply Hf. lia.
Qed.

(** The checks pass, and change nothing. *)
Lemma checks_pass : check_virtual_memory s = Ok () s.
Proof.
  pose proof (cs_kernel s Hc) as Hk. unfold check_virtual_memory. erewrite bind_ok by reflexivity.
  rewrite bool_decide_eq_true_2 by apply (cs_zero s Hc).
  assert (∀ A (m : M kstate A), (on_machine (assert_ true "kernel.c" 585 "processes[0].p_state == P_FREE");; m) s = m s) as ->.
  { intros A m. by destruct s. }
  erewrite bind_ok by reflexivity.
  assert (on_machine (check_page_table_mappings (kernel_pagetable (mach s))) s = Ok () s) as Em.
  { apply on_machine_pure. rewrite (ko_root s Hk).
    replace kernel_pagetables with (L1 kernel_shape) by (cbn; lia). apply (check_mappings_ok L HL), kernel_maps. }
  rewrite (bind_ok _ _ _ _ _ Em), (bind_ok _ _ _ _ _ kernel_ownership).
  rewrite (bind_ok _ _ s () s).
  - apply check_all. intros i Hi. change (Z.to_nat NPAGES) with 512%nat in Hi. apply check_owner_ok. lia.
  - apply check_all. intros i Hi. change (Z.to_nat NPROC) with 16%nat in Hi. apply check_process_ok. lia.
Qed.
End checks.

(** ** States that differ in memory the checks do not look at *)

(** The kernel's page table stays, byte for byte and frame for frame. *)
Record kernel_stays `{Layout} (s s' : kstate) : Prop := {
  ks_tables : fixed_tables (mach s') = fixed_tables (mach s);
  ks_pinfo : ∀ f, kernel_frame f → pinfo s' f = pinfo s f;
  ks_bytes : agree (λ a, image_frame (a / 4096)) (kmem s) (kmem s') }.

Section calm.
Context (L : Layout) (HL : LayoutOk L).

Lemma stays_ok s s' : kernel_ok s → kernel_stays s s' → kernel_ok s'.
Proof.
  intros Hk [Hr Hp Hb]. destruct (table_agree (kmem s) (kmem s') kernel_shape (ko_shape s Hk)) as [Hsh Hlf].
  { intros a Ha. apply Hb, (table_image_frame L HL), in_table_frames; [apply (kernel_pages L HL)|done]. }
  split.
  - injection Hr as -> _. apply Hk.
  - exact Hsh.
  - intros w Hw. rewrite Hlf by lia. by apply (ko_identity s Hk).
  - intros w Hw. rewrite Hlf by lia. by apply (ko_entries s Hk).
  - by apply (traps_ready_kept L HL (mach s)); [apply Hk|..].
  - intros f Hf. rewrite Hp by done. by apply (ko_frames s Hk).
Qed.

Lemma core_stays s s' :
  kernel_ok s → core s s' → fixed_tables (mach s') = fixed_tables (mach s) → kernel_stays s s'.
Proof.
  intros Hk Hc E. split; [done| |].
  - intros f Hf. pose proof (kernel_frame_range L HL f Hf). apply (core_pinfo _ _ Hc). lia.
  - intros a Ha. apply (core_memory _ _ Hc). apply (kernel_frame_byte L HL s a Hk). by left.
Qed.

Lemma core_live s s' q : core s s' → live s q → live s' q.
Proof. intros Hc [Hr Hq]. split; [done|]. by rewrite (core_state _ _ Hc). Qed.

Lemma consistent_stays s s' :
  consistent s → safe s' → p_state (process s' 0) = P_FREE → kernel_stays s s' →
  (∀ f, 0 ≤ f < 512 → refcount (pinfo s' f) ≠ 0 →
    PO_KERNEL ≤ owner (pinfo s' f) < 0 ∨ live s' (owner (pinfo s' f))) → consistent s'.
Proof.
  intros Hc Hs Hz Hk Ho. split; try done.
  - apply (stays_ok s); [apply Hc|done].
  - intros f Hf. rewrite (ks_pinfo _ _ Hk) by done. by apply (cs_frames s Hc).
Qed.

Lemma consistent_core s s' :
  consistent s → core s s' → fixed_tables (mach s') = fixed_tables (mach s) → consistent s'.
Proof.
  intros Hc Hk E. apply (consistent_stays s); [done| | | |].
  - by apply (core_safe s); [apply Hc|].
  - apply (core_state _ _ Hk), Hc.
  - apply core_stays; [apply Hc|done..].
  - intros f Hf. rewrite (core_pinfo _ _ Hk) by done. intros Hr.
    destruct (cs_owners s Hc f Hf Hr) as [?|Hl]; [by left|right; by apply (core_live s)].
Qed.

Lemma consistent_calm s s' : consistent s → calmk s s' → consistent s'.
Proof. intros Hc Hk. apply (consistent_core s); [done|by apply calmk_core|apply Hk]. Qed.
End calm.

(** ** The memory display *)

Section display.
Context `{Devices} (L : Layout) (HL : LayoutOk L).

(** A routine that is calm and returns, and what follows it. *)
Lemma runs_calm {A B} (m : M kstate A) (f : A → M kstate B) s Q :
  keeps calmk m → runs m s (λ _ _, True) → (∀ a s', calmk s s' → runs (f a) s' Q) → runs (m ≫= f) s Q.
Proof.
  intros Hk Hr Hf. apply runs_iff in Hr as (a & s' & E & _). apply runs_bind. eapply runs_eq; [exact E|].
  apply Hf. by apply (keeps_ok calmk m s a).
Qed.

(** A loop of such routines returns when each does in every state in between. *)
Lemma loop_returns n lo step (body : Z → M kstate ()) s :
  (∀ k, (k < n)%nat → keeps calmk (body (lo + Z.of_nat k * step))) →
  (∀ k s', (k < n)%nat → calmk s s' → runs (body (lo + Z.of_nat k * step)) s' (λ _ _, True)) →
  runs (for_loop n lo step body) s (λ _ _, True).
Proof.
  intros Hk Hr. eapply runs_mono; [apply (runs_for (λ _ s', calmk s s')); [done|]|done].
  intros k s' Hlt Hc. destruct (proj1 (runs_iff _ _ _) (Hr k s' Hlt Hc)) as ([] & s2 & E & _).
  eapply runs_eq; [exact E|]. transitivity s'; [done|]. by eapply keeps_ok, E; apply Hk.
Qed.

Lemma returns_machine {A} (m : M machine A) s Q :
  runs m (mach s) Q → runs (on_machine m) s (λ _ _, True).
Proof. intros Hr. apply runs_zoom. eapply runs_mono; [exact Hr|done]. Qed.

Lemma page_colored s n : consistent s → 0 ≤ n < 512 → is_Some (owner_color (pinfo s n)).
Proof.
  intros Hc Hn. unfold owner_color.
  assert (PO_KERNEL ≤ (if refcount (pinfo s n) =? 0 then PO_FREE else owner (pinfo s n)) < 16) as Ho.
  { destruct (Z.eqb_spec (refcount (pinfo s n)) 0) as [|Hr]; [done|].
    destruct (cs_owners s Hc n Hn Hr) as [?|[? _]]; unfold PO_KERNEL in *; lia. }
  cbv zeta. rewrite (proj2 (Z.ltb_ge _ _)) by lia. unfold PO_KERNEL in *.
  destruct (nth_error _ _) as [c|] eqn:E; [by exists c|].
  apply nth_error_None in E. change (length memstate_colors) with 19%nat in E. lia.
Qed.

Lemma label_returns cpos color v s :
  runs (on_machine (console_printf cpos color (str "0x%06X ") [VInt v])) s (λ _ _, True).
Proof.
  eapply returns_machine, (console_printf_screen [VInt 0]); [by repeat constructor|]. eexists. vm_compute. reflexivity.
Qed.

Lemma cell_returns cpos color s : 0 ≤ cpos < 2000 → runs (put_cell cpos color) s (λ _ _, True).
Proof. intros Hc. by eapply returns_machine, write_cell_ok. Qed.

Lemma label_calm b cpos color v :
  keeps calmk (if b : bool then on_machine (console_printf cpos color (str "0x%06X ") [VInt v]);; mret () else mret ()).
Proof. keeps. Qed.

(** The address in front of every 64th cell. *)
Lemma label_runs (b : bool) cpos color v s :
  runs (if b then on_machine (console_printf cpos color (str "0x%06X ") [VInt v]);; mret () else mret ()) s (λ _ _, True).
Proof.
  destruct b; [|by apply runs_ret]. apply runs_bind. eapply runs_mono; [apply label_returns|]. by intros.
Qed.

Lemma physical_page_returns s n : consistent s → 0 ≤ n < 512 → runs (show_physical_page n) s (λ _ _, True).
Proof.
  intros Hc Hn. unfold show_physical_page. apply runs_calm; [apply label_calm|apply label_runs|].
  intros [] s1 H1. pose proof (consistent_calm L HL s s1 Hc H1) as Hc1.
  destruct (page_colored s1 n Hc1 Hn) as [c Ec].
  apply runs_bind, runs_gets. rewrite Ec. apply runs_bind, runs_ret. apply cell_returns, page_cell; lia.
Qed.

Lemma memshow_physical_returns s : consistent s → runs memshow_physical s (λ _ _, True).
Proof.
  intros Hc. unfold memshow_physical. apply runs_calm; [keeps| |].
  { eapply returns_machine, (console_printf_screen []); [done|]. eexists. vm_compute. reflexivity. }
  intros _ s1 H1. pose proof (consistent_calm L HL s s1 Hc H1) as Hc1. change (Z.to_nat NPAGES) with 512%nat.
  apply loop_returns; intros k.
  - intros Hk. apply calmk_show_physical_page. lia.
  - intros s2 Hk H2. apply physical_page_returns; [by apply (consistent_calm L HL s1)|lia].
Qed.

(** What a live process maps below [MEMSIZE_VIRTUAL] is physical memory. *)
Lemma mapped_frame s q w :
  safe s → live s q → 0 ≤ w < 768 → present (leaf (kmem s) (table_of s q) w) = true →
  0 ≤ frame (leaf (kmem s) (table_of s q) w) < 512.
Proof.
  intros Hs Hq Hw HP. destruct (decide (w < 256)).
  - destruct (safe_kernel s Hs q w Hq ltac:(lia)) as (E & _). unfold frame. rewrite E, Z.div_mul by lia. lia.
  - destruct (user_frame_counted s q w Hs Hq ltac:(lia) HP) as (? & _). lia.
Qed.

Lemma virtual_page_returns s q k :
  consistent s → live s q → 0 ≤ k < 768 → runs (show_virtual_page (p_pagetable (process s q)) (k * 4096)) s (λ _ _, True).
Proof.
  intros Hc Hq Hk. pose proof (cs_safe s Hc) as Hs. unfold show_virtual_page.
  apply runs_bind. eapply runs_eq.
  { apply on_machine_pure. rewrite <- table_of_root. apply lookup_leaf; [by apply (safe_shape s Hs)|lia]. }
  rewrite Z.div_mul by lia. change (mem (mach s)) with (kmem s). set (e := leaf _ _ _). apply runs_bind.
  assert (runs (if pn (vamapping_of e (k * 4096)) <? 0 then mret 32
    else on_machine (assert_ (pa (vamapping_of e (k * 4096)) <? MEMSIZE_PHYSICAL) "kernel.c" 666 "vam.pa < MEMSIZE_PHYSICAL");;
         info ← gets (λ s, pinfo s (pn (vamapping_of e (k * 4096))));
         color ← known_color (owner_color info);
         mret (virtual_color info (perm (vamapping_of e (k * 4096))) (k * 4096) color)) s (λ _ s', s' = s)) as Hr.
  { unfold vamapping_of. destruct (has e PTE_P) eqn:HP; [|by apply runs_ret].
    pose proof (mapped_frame s q k Hs Hq Hk HP) as Hf. fold e in Hf.
    pose proof (leaf_range (kmem s) (table_of s q) k) as He. fold e in He.
    pose proof (addr_page e He) as Ea. pose proof (PTE_ADDR_sub e He) as Es. pose proof (Z.mod_pos_bound e 4096).
    pose proof (PAGEOFFSET_mod (k * 4096)) as Eo. rewrite Z.mod_mul in Eo by lia.
    cbn [pn pa perm]. rewrite PAGENUMBER_div by lia.
    assert (e / 4096 = frame e) as -> by (symmetry; apply Z.div_unique with (e mod 4096); lia).
    rewrite (proj2 (Z.ltb_ge _ _)) by lia. rewrite Eo, Z.add_0_r, u64_small by lia.
    rewrite (proj2 (Z.ltb_lt _ _)) by (change MEMSIZE_PHYSICAL with (512 * 4096); lia).
    apply runs_bind. eapply runs_eq; [apply on_machine_pure; reflexivity|]. apply runs_bind, runs_gets.
    destruct (page_colored s (frame e) Hc Hf) as [c ->]. apply runs_bind, runs_ret. by apply runs_ret. }
  eapply runs_mono; [exact Hr|]. intros color s1 ->. cbv beta. cbv zeta.
  rewrite PAGENUMBER_div, Z.div_mul by lia. apply runs_calm; [apply label_calm|apply label_runs|].
  intros _ s2 _. apply cell_returns, page_cell; lia.
Qed.

Lemma memshow_virtual_returns s q name :
  consistent s → live s q → runs (memshow_virtual (p_pagetable (process s q)) name) s (λ _ _, True).
Proof.
  intros Hc Hq. pose proof (cs_safe s Hc) as Hs. unfold memshow_virtual.
  destruct (shape_tables _ _ (safe_shape s Hs q Hq)) as ((Hlo&Hal&Hhi)&_). rewrite table_of_root in *.
  rewrite PTE_ADDR_sub, Hal, Z.sub_0_r, Z.eqb_refl by zlia.
  apply runs_calm; [keeps|by apply (returns_machine _ _ (λ _ _, True))|]. intros _ s1 H1.
  apply runs_calm; [keeps| |].
  { eapply returns_machine, (console_printf_screen [VStr []]); [by repeat constructor|]. eexists. vm_compute. reflexivity. }
  intros _ s2 H2. change (Z.to_nat (MEMSIZE_VIRTUAL / PAGESIZE)) with 768%nat. change PAGESIZE with 4096.
  apply loop_returns; intros k; rewrite Z.add_0_l.
  - intros Hk. apply calmk_show_virtual_page. lia.
  - intros s3 Hk H3. assert (calmk s s3) as H4 by (transitivity s1; [done|by transitivity s2]).
    rewrite <- (calmk_process s s3 q H4). apply virtual_page_returns; [by apply (consistent_calm L HL s)|by apply (calmk_live s)|lia].
Qed.

Lemma name_printed v : is_Some (printed 4 (str "%d ") [VInt v]).
Proof.
  assert (is_Some (printer_vprintf 0 (str "%d ") [VInt v])) as [out E].
  { apply (printf_defined 0 0 _ [VInt 0]); [by repeat constructor|]. eexists. vm_compute. reflexivity. }
  unfold printed. rewrite E. by eexists.
Qed.

(** The process that is shown next, if any, is a live one. *)
Lemma animate_returns s : consistent s → 0 ≤ showing s → runs memshow_virtual_animate s (λ _ _, True).
Proof.
  intros Hc Hsh. unfold memshow_virtual_animate.
  apply runs_bind, runs_modify. set (s1 := if _ || _ then _ else s). apply runs_bind, runs_modify.
  set (s2 := set_showing _ _ s1). apply runs_bind, runs_modify. set (s3 := set_showing _ _ s2).
  assert (calmk s s3 ∧ 0 ≤ showing s3 < 16) as [H3 Hr].
  { split; [unfold s3, s2, s1; by destruct (_ || _)|]. apply Z.rem_bound_pos; [|done].
    pose proof (skip_free_ge (Z.to_nat (2 * NPROC + 1 - showing s1)) (showing s1) s1).
    assert (0 ≤ showing s1) by (unfold s1; destruct (_ || _); cbn; lia). unfold s2. cbn. lia. }
  apply runs_bind, runs_gets. apply runs_bind, runs_gets. destruct (decide _) as [|Hst]; [by apply runs_ret|].
  destruct (name_printed (showing s3)) as [name ->].
  pose proof (consistent_calm L HL s s3 Hc H3) as Hc3. apply memshow_virtual_returns; [done|]. split; [|done].
  destruct (decide (showing s3 = 0)) as [E|]; [|lia]. by rewrite E, (cs_zero s3 Hc3) in Hst.
Qed.
End display.
