(* ===== verification/Progress.v ===== *)
(** The kernel makes progress: from a consistent state, each system call that
    keeps to the rules returns, or enters user mode, and leaves the state
    consistent; the scheduler finds a process, or there is none to find. *)
From S2P Require Import Prelude X86 Machine CLib Printf Hardware PageTable Frames Syscalls Isolation Demo Duplicate Fork ForkSafe Exit PageAlloc Canonical Mmu Contracts Mapping AddressSpace Display ElfFormat Loader Through Load Kernel Calm System Reachable Scheduler Loading Faults Typing Checks.
Open Scope Z_scope.

#[local] Opaque frames_where.

(** ** The kernel's page table stays the kernel's *)

(** The address of the kernel's page table is set once. *)
Definition same_root (s s' : machine) : Prop := fixed_tables s' = fixed_tables s.
Definition same_rootk (s s' : kstate) : Prop := same_root (mach s) (mach s').

#[global] Instance same_root_preorder : PreOrder same_root.
Proof. split; [by intros s|]. intros s1 s2 s3 H1 H2. unfold same_root in *. congruence. Qed.

#[global] Instance same_rootk_preorder : PreOrder same_rootk.
Proof. split; [by intros s|]. intros s1 s2 s3 H1 H2. unfold same_rootk in *. by transitivity (mach s2). Qed.

Lemma keeps_weaken {S A} (R R' : S → S → Prop) (m : M S A) : (∀ s s', R s s' → R' s s') → keeps R m → keeps R' m.
Proof. intros HR Hm s. specialize (Hm s). destruct (m s) as [|[]]; try done. by apply HR. Qed.

Section root.
Context `{Devices}.

Lemma root_calm {A} (m : M machine A) : keeps calm m → keeps same_root m.
Proof. apply keeps_weaken. by intros s s' [? _]. Qed.

Lemma root_write n a v : keeps same_root (write n a v).
Proof. intros s. unfold write. by destruct (in_memory _ _). Qed.
#[local] Hint Resolve root_calm root_write : keeps.

Lemma root_memset v c n : keeps same_root (memset v c n).
Proof.
  unfold memset. keeps. generalize (Z.to_nat n), v. intros k.
  induction k as [|k IH]; intros p; cbn [memset_loop]; keeps.
Qed.

Lemma root_memcpy d s n : keeps same_root (memcpy d s n).
Proof.
  unfold memcpy. keeps. generalize (Z.to_nat n), d, s. intros k.
  induction k as [|k IH]; intros p q; cbn [memcpy_loop]; keeps.
Qed.

Lemma root_lookup_l4 pt va perm : keeps same_root (lookup_l4pagetable pt va perm).
Proof.
  unfold lookup_l4pagetable. generalize 0, pt. generalize 3%nat.
  induction n as [|n IH]; intros i t; cbn [l4_loop]; unfold entry_at, pageindex; cbn [read_entry physical]; keeps.
Qed.
#[local] Hint Resolve root_lookup_l4 : keeps.

Lemma root_map_loop n pt va pa perm last l4 : keeps same_root (map_loop n pt va pa perm last l4).
Proof.
  revert va pa last l4. induction n as [|n IH]; intros va pa last l4; cbn [map_loop write_entry physical]; unfold pageindex; keeps.
Qed.
#[local] Hint Resolve root_map_loop : keeps.

Lemma root_map pt va pa sz perm : keeps same_root (virtual_memory_map pt va pa sz perm).
Proof. unfold virtual_memory_map. keeps. Qed.

Lemma rootk_machine {A} (m : M machine A) : keeps same_root m → keeps same_rootk (on_machine m).
Proof. apply keeps_zoom. by intros s t. Qed.

Lemma rootk_modify f : (∀ s, mach (f s) = mach s) → keeps same_rootk (modify f).
Proof. intros Hf. apply keeps_modify. intros s. unfold same_rootk. by rewrite Hf. Qed.
#[local] Hint Resolve root_memset root_memcpy root_map rootk_machine : keeps.
#[local] Hint Extern 3 (keeps same_rootk (modify _)) => apply rootk_modify; reflexivity : keeps.

Lemma rootk_put_process q f : keeps same_rootk (put_process q f).
Proof. unfold put_process. keeps. Qed.

Lemma rootk_alloc pid : keeps same_rootk (alloc_page_process pid).
Proof. unfold alloc_page_process, assign_physical_page, put_refcount, put_owner. keeps. Qed.
#[local] Hint Resolve rootk_put_process rootk_alloc : keeps.

Lemma rootk_duplicate pt pid : keeps same_rootk (duplicate_pagetable pt pid).
Proof. unfold duplicate_pagetable. keeps. unfold duplicate_body. keeps. Qed.
#[local] Hint Resolve rootk_duplicate : keeps.

Lemma rootk_fork_loop n c : keeps same_rootk (fork_loop n c).
Proof.
  revert c. induction n as [|n IH]; intros c; cbn [fork_loop]; unfold fork_into, put_current_rax; keeps.
  unfold fork_page, put_refcount. keeps.
Qed.
End root.

(** ** What a system call does to a consistent state *)

Section effects.
Context (L : Layout) (HL : LayoutOk L) (s : kstate) (Hc : consistent s).

Lemma kernel_frame_owner f : kernel_frame f →
  0 ≤ f < 512 ∧ owner (pinfo s f) = PO_KERNEL ∧ refcount (pinfo s f) = 1 ∧ f ≠ CONSOLE_ADDR / 4096.
Proof.
  intros Hf. pose proof (kernel_frame_range L HL f Hf). split; [lia|]. rewrite (cs_frames s Hc f Hf). split; [done|]. split; [done|].
  change (CONSOLE_ADDR / 4096) with 184. lia.
Qed.
(** Pages of the kernel are not free, not a process's and not the console. *)
Lemma stays_elsewhere s' (P : Z → Prop) :
  fixed_tables (mach s') = fixed_tables (mach s) →
  (∀ f, P f → refcount (pinfo s f) = 0 ∨ 0 < owner (pinfo s f) ∨ f = CONSOLE_ADDR / 4096) →
  (∀ f, 0 ≤ f < 512 → ¬ P f → pinfo s' f = pinfo s f) → agree (λ a, ¬ P (a / 4096)) (kmem s) (kmem s') →
  kernel_stays s s'.
Proof.
  intros Er HP Hpi Ha.
  assert (∀ f, kernel_frame f → ¬ P f) as Hno.
  { intros f Hf Hin. destruct (kernel_frame_owner f Hf) as (_ & Eo & Ec & Hne).
    destruct (HP f Hin) as [?|[?|?]]; [lia| |done]. unfold PO_KERNEL in *. lia. }
  split; [done| |].
  - intros f Hf. apply Hpi; [by apply kernel_frame_owner|by apply Hno].
  - intros a Hin. apply Ha, Hno. by left.
Qed.

(** Registers, the display flag, the process state. *)
Lemma consistent_upd q f :
  p_pid (f (process s q)) = p_pid (process s q) → p_pagetable (f (process s q)) = p_pagetable (process s q) →
  (p_state (f (process s q)) = P_FREE ↔ p_state (process s q) = P_FREE) → consistent (upd_proc q f s).
Proof.
  intros Hp Ht Hst. apply (consistent_core L HL s); [done| |done].
  split; try done; intros k; rewrite process_upd; (case_decide as Eq; [by subst k|done]).
Qed.

Lemma consistent_regs q g : consistent (set_regs q g s).
Proof. by apply consistent_upd. Qed.

(** A free page taken by a live process. *)
Lemma consistent_take n q :
  1 ≤ n < 512 → refcount (pinfo s n) = 0 → live s q → consistent (take_page n q s).
Proof.
  intros Hn Hr Hq. apply (consistent_stays L HL s); [done|by apply safe_take; [apply Hc|..]|apply Hc| |].
  - apply (stays_elsewhere _ (λ f, f = n)); [done| | |done].
    + intros f ->. by left.
    + intros f _ Hf. by rewrite pinfo_take, decide_False.
  - intros f Hf. rewrite pinfo_take. case_decide as E; [by right|]. by apply (cs_owners s Hc).
Qed.

(** Memory changes in pages of processes, and on the screen. *)
Lemma consistent_written m (P : Z → Prop) :
  safe (set_kmem m s) → (∀ f, P f → refcount (pinfo s f) = 0 ∨ 0 < owner (pinfo s f) ∨ f = CONSOLE_ADDR / 4096) →
  agree (λ a, ¬ P (a / 4096)) (kmem s) m → consistent (set_kmem m s).
Proof.
  intros Hs HP Ha. apply (consistent_stays L HL s); [done|done|apply Hc| |apply (cs_owners s Hc)].
  by apply (stays_elsewhere _ P).
Qed.
End effects.

(** ** Entering user mode *)

(** The kernel's own table, for the scheduler. *)
Lemma kernel_ok_table `{Layout} s : kernel_ok s → kernel_table s.
Proof.
  intros Hk. split; [apply (ko_root s Hk)|]. exists kernel_shape. split; [unfold kernel_shape; cbn [L1]; lia|].
  split; [apply (ko_shape s Hk)|apply (ko_identity s Hk)].
Qed.

(** The ways a handler may end: it returns or enters user mode, in a
    consistent state, or the scheduler has no process to run. *)
Definition proceeds `{Layout} {A} (o : outcome kstate A) : Prop :=
  match o with
  | Ok _ s => consistent s
  | Halt UserMode s => consistent s
  | Halt Spinning s => ∀ q, 0 ≤ q < NPROC → p_state (process s q) ≠ P_RUNNABLE
  | _ => False
  end.

(** The first place, from [c] on, at which [P] holds. *)
Lemma first_place (P : nat → Prop) `{!∀ j, Decision (P j)} (n : nat) :
  (∃ j, (j < n)%nat ∧ P j ∧ ∀ i, (i < j)%nat → ¬ P i) ∨ ∀ j, (j < n)%nat → ¬ P j.
Proof.
  induction n as [|n [(j & Hj & HP & Hb)|Hno]]; [right; lia|left; exists j; split; [lia|done]|].
  destruct (decide (P n)) as [HP|HP].
  - left. exists n. split; [lia|done].
  - right. intros j Hj. destruct (decide (j = n)) as [->|]; [done|]. apply Hno. lia.
Qed.

(** [q] is the first process that can run after the current one, in cyclic
    order. *)
Definition next_turn (s : kstate) (q : Z) : Prop :=
  ∃ j : nat, (j < 16)%nat ∧ q = (current s + 1 + Z.of_nat j) mod 16 ∧ p_state (process s q) = P_RUNNABLE ∧
    ∀ i : nat, (i < j)%nat → p_state (process s ((current s + 1 + Z.of_nat i) mod 16)) ≠ P_RUNNABLE.

Section scheduling.
Context `{Devices} `{Patience} (L : Layout) (HL : LayoutOk L) (Hkey : no_key) (Hpat : (16 ≤ patience)%nat).

Lemma running_on_consistent q s : consistent s → consistent (running_on q s).
Proof. intros Hc. by apply (consistent_core L HL s). Qed.

Lemma polled_consistent n s : consistent s → consistent (polled n s).
Proof. intros Hc. by apply (consistent_core L HL s). Qed.

Lemma run_proceeds {A} q s :
  consistent s → live s q → p_state (process s q) = P_RUNNABLE → proceeds (run (A := A) q s).
Proof.
  intros Hc Hq Hr. rewrite (run_ok L HL) by (done || apply Hc || apply kernel_ok_table, Hc).
  by apply running_on_consistent.
Qed.

Lemma run_enters_user {A} q s :
  consistent s → live s q → p_state (process s q) = P_RUNNABLE →
  ∃ s', run (A := A) q s = Halt UserMode s' ∧ consistent s' ∧ current s' = q.
Proof.
  intros Hc Hq Hr. pose proof (run_proceeds (A := A) q s Hc Hq Hr) as Hp.
  rewrite (run_ok L HL) in * by (done || apply Hc || apply kernel_ok_table, Hc). by eexists.
Qed.

Lemma schedule_enters {A} s q :
  consistent s → served s → 0 ≤ q < 16 → p_state (process s q) = P_RUNNABLE →
  ∃ s', schedule (A := A) s = Halt UserMode s' ∧ consistent s' ∧ next_turn s (current s').
Proof.
  intros Hc Hs Hq Hr. pose proof (sv_current s Hs) as Hcur. unfold schedule. erewrite bind_ok by reflexivity.
  unfold current_proc. rewrite (sv_pid s Hs).
  destruct (first_place (λ j, p_state (process s ((current s + 1 + Z.of_nat j) mod 16)) = P_RUNNABLE) 16)
    as [(j & Hj & Hrj & Hb)|Hno].
  - rewrite (schedule_loop_finds L Hkey j) by (done || lia). set (r := _ mod 16) in *.
    assert (0 ≤ r < 16) by (apply Z.mod_pos_bound; lia).
    assert (live (polled j s) r) as Hlr.
    { split; [|change (p_state (process s r) ≠ P_FREE); by rewrite Hrj].
      destruct (decide (r = 0)) as [E|]; [|lia]. rewrite E, (cs_zero s Hc) in Hrj. done. }
    destruct (run_enters_user (A := A) r (polled j s)) as (s' & E & Hc' & Er); [by apply polled_consistent|done|exact Hrj|].
    exists s'. split; [done|]. split; [done|]. rewrite Er. by exists j.
  - exfalso. apply (Hno (Z.to_nat ((q - current s - 1) mod 16))).
    { pose proof (Z.mod_pos_bound (q - current s - 1) 16 ltac:(lia)). lia. }
    pose proof (Z.mod_pos_bound (q - current s - 1) 16 ltac:(lia)) as Hm. rewrite Z2Nat.id by lia.
    rewrite Z.add_mod_idemp_r by lia. replace (current s + 1 + (q - current s - 1)) with q by lia. by rewrite (Z.mod_small q).
Qed.

Lemma schedule_proceeds {A} s : consistent s → served s → proceeds (schedule (A := A) s).
Proof.
  intros Hc Hs. pose proof (sv_current s Hs) as Hcur.
  destruct (decide (Exists (λ q, p_state (process s q) = P_RUNNABLE) (seqZ 0 16))) as [He|Hno].
  - apply Exists_exists in He as (q & Hq & Hr). apply elem_of_seqZ in Hq.
    destruct (schedule_enters (A := A) s q) as (s' & -> & Hc' & _); [done..|lia|done|exact Hc'].
  - assert (∀ q, 0 ≤ q < 16 → p_state (process s q) ≠ P_RUNNABLE) as Hnone.
    { intros q Hq Hr. apply Hno, Exists_exists. exists q. by rewrite elem_of_seqZ. }
    unfold schedule. erewrite bind_ok by reflexivity. unfold current_proc. rewrite (sv_pid s Hs).
    rewrite (schedule_loop_spins L Hkey) by (done || lia). exact Hnone.
Qed.

(** As long as some process can run, the handler ends in user mode. *)
Lemma resume_enters {A} s q :
  consistent s → served s → 0 ≤ q < 16 → p_state (process s q) = P_RUNNABLE →
  ∃ s', resume (A := A) s = Halt UserMode s' ∧ consistent s' ∧
    if decide (p_state (process s (current s)) = P_RUNNABLE) then current s' = current s else next_turn s (current s').
Proof.
  intros Hc Hs Hq Hr. unfold resume. erewrite bind_ok by reflexivity. unfold current_proc.
  case_decide as Hcr; [|by apply (schedule_enters s q)]. erewrite bind_ok by reflexivity.
  apply run_enters_user; [done| |done]. split; [|by rewrite Hcr]. pose proof (sv_current s Hs). lia.
Qed.

Lemma resume_proceeds {A} s : consistent s → served s → proceeds (resume (A := A) s).
Proof.
  intros Hc Hs. unfold resume. erewrite bind_ok by reflexivity. unfold current_proc.
  destruct (decide _) as [Hr|_]; [|by apply schedule_proceeds]. erewrite bind_ok by reflexivity.
  apply run_proceeds; [done| |done]. split; [|by rewrite Hr].
  pose proof (sv_current s Hs). lia.
Qed.
End scheduling.

(** ** The system calls *)

(** Every reference to a page that the current process owns is one that exit
    gives up: no other process shares the page, and it is mapped below
    [MEMSIZE_VIRTUAL]. *)
Definition clean_exit (s : kstate) : Prop :=
  let p := current s in ∀ f, 0 ≤ f < 512 → owner (pinfo s f) = p →
    refcount (pinfo s f) ≤ occ f (table_frames (table_of s p) ++ frames_where present (kmem s) (table_of s p) 256 512).

Section calls.
Context `{Devices} `{Padding} (L : Layout) (HL : LayoutOk L).
Context (s : kstate) (Hc : consistent s) (Hsv : served s) (Hl : live s (current s)).

Abbreviation p := (current s).

Let Hs : safe s := cs_safe s Hc.

Lemma regs_proceeds m g : m s = Ok () (set_regs p g s) → proceeds (m s).
Proof. intros ->. by apply consistent_regs. Qed.

Lemma taken_consistent n : 1 ≤ n < 512 → refcount (pinfo s n) = 0 → consistent (take_page n p s).
Proof. intros Hn Hr. by apply consistent_take. Qed.

(** Frames of a live process's page table. *)
Lemma table_frames_owned q f : live s q → f ∈ table_frames (table_of s q) → 0 < owner (pinfo s f).
Proof. intros Hq Hf. rewrite (safe_tables s Hs q f Hq Hf). destruct Hq. cbn. lia. Qed.

Lemma page_alloc_proceeds :
  let a := reg_rdi (p_registers (process s p)) in
  a < 2 ^ 48 → (PROC_START_ADDR ≤ a → a mod PAGESIZE = 0) → proceeds (sys_page_alloc s).
Proof.
  intros a Ha Hal. change PAGESIZE with 4096 in Hal.
  destruct (find_free_pages s) as [(n & _ & Hn & Hff)|[_ Hno]].
  2:{ rewrite (proj1 (page_alloc_full s Hs Hl Hno)). by apply consistent_regs. }
  pose proof Hff as (_ & Hr & _). pose proof (taken_consistent n Hn Hr) as Ht.
  destruct (decide (a < PROC_START_ADDR)) as [Hlo|Hlo].
  { rewrite (proj1 (page_alloc_low s Hs Hl n Hff ltac:(lia) Hlo)). by apply consistent_regs. }
  specialize (Hal ltac:(lia)). destruct (decide (a < 0x400000)) as [Hlt|Hge].
  - destruct (page_alloc_maps s Hs Hl n Hff ltac:(lia) Hal ltac:(unfold a in *; lia)) as (m' & -> & Hm & Hs').
    apply (consistent_regs L HL).
    apply (consistent_written L HL (take_page n p s) Ht m' (λ f, f ∈ table_frames (table_of s p))).
    + apply (core_safe (set_regs p (set_rax 0) (set_kmem m' (take_page n p s)))); [exact Hs'|].
      split; try done; intros q; unfold set_regs; rewrite process_upd; (case_decide as Eq; [by subst q|done]).
    + intros f Hf. right. left. rewrite pinfo_take. case_decide; [destruct Hl; cbn; lia|]. by apply (table_frames_owned p).
    + intros b Hb. apply (mapped_agree _ _ _ _ _ _ _ Hm). intros Hin. apply Hb.
      apply in_table_frames; [apply (safe_shape s Hs p Hl)|]. destruct (in_pages (table_of s p)) as (_&_&_&M4&M5).
      destruct Hin; eexists; (split; [|done]); done.
  - destruct (page_alloc_high s Hs Hl n Hff ltac:(lia) Hal ltac:(unfold a in *; lia)) as (mc & -> & Hio).
    apply (consistent_regs L HL). apply (consistent_core L HL (take_page n p s)); [exact Ht| |].
    + split; try done. unfold kmem. cbn [mach set_mach]. by rewrite (io_only_mem _ _ Hio).
    + destruct Hio as (o & k & i & E). cbn. by rewrite E.
Qed.

Lemma mapping_proceeds :
  reg_rdi (p_registers (process s p)) mod PAGESIZE + sizeof_vamapping ≤ PAGESIZE → proceeds (syscall_mapping s).
Proof.
  change PAGESIZE with 4096. change sizeof_vamapping with 24. intros Ha.
  destruct (mapping_within s Hs Hl ltac:(lia)) as (m & E & Hm & Hu). rewrite E.
  destruct (mapping_safe s _ Hs Hl ltac:(lia) E) as (m' & _ & Hun & _).
  set (e := entry_of _ _ _) in *. destruct Hu as [->|Hu]; [by rewrite set_kmem_id|].
  apply (consistent_written L HL s Hc m (λ f, f = frame e)).
  - by apply (un_safe s).
  - intros f ->. destruct (user_writable_target s p _ Hs Hl Hu) as (_ & _ & _ & [Ho|Ho]); fold e in Ho.
    + by right; right.
    + right; left. rewrite Ho. destruct Hl. cbn. lia.
  - exact Hm.
Qed.

Lemma upd_proceeds m f :
  m s = Ok () (upd_proc p f s) →
  p_pid (f (process s p)) = p_pid (process s p) → p_pagetable (f (process s p)) = p_pagetable (process s p) →
  p_state (f (process s p)) ≠ P_FREE → proceeds (m s).
Proof.
  intros -> Hp Ht Hst. apply (consistent_upd L HL); [done..|]. destruct Hl. tauto.
Qed.

Lemma mem_tog_proceeds : proceeds (syscall_mem_tog s).
Proof.
  unfold syscall_mem_tog. erewrite bind_ok by reflexivity. cbv zeta. destruct (_ =? 0).
  { by apply (consistent_core L HL s). }
  destruct (_ || _); [exact Hc|]. rewrite (bind_ok _ _ _ _ _ (eq_refl : gets current s = Ok p s)).
  by eapply upd_proceeds; [apply put_process_eq|..]; try done; apply Hl.
Qed.

Lemma broken_proceeds : proceeds ((pid ← gets current; put_process pid (with_state P_BROKEN)) s).
Proof. by eapply upd_proceeds; [by erewrite bind_ok by reflexivity; apply put_process_eq|..]. Qed.

(** fork: the pages of the child are the child's, those in use keep their owner. *)
Lemma fork_consistent c s' : fork_pre s c → sys_fork s = Ok () s' → forked s s' c → safe s' → consistent s'.
Proof.
  intros Hpre E Hk Hs'. pose proof (forked_live s s' c c Hpre Hk (or_intror eq_refl)) as Hlc.
  assert (∀ f, kernel_frame f → f ∉ frames_of s' c) as Hno.
  { intros f Hf Hin. destruct (kernel_frame_owner L HL s Hc f Hf) as (Hr & Eo & Ec & _).
    assert (owner (pinfo s' f) = PO_KERNEL) as Ho by (rewrite (fk_owners _ _ _ Hk); [done|done|lia]).
    rewrite frames_of_live in Hin by done. apply elem_of_app in Hin as [Hin|Hin].
    - rewrite (safe_tables s' Hs' c f Hlc Hin) in Ho. destruct Hlc. unfold PO_KERNEL in Ho. cbn in Ho. lia.
    - destruct (safe_frames s' Hs' c f Hlc Hin) as [_ ?]. unfold PO_KERNEL in Ho. lia. }
  assert (∀ f, f ∈ table_frames (table_of s' c) ++ frames_where present (kmem s') (table_of s' c) 256 512 → f ∈ frames_of s' c) as Hsub.
  { intros f Hf. rewrite frames_of_live by done. apply elem_of_app in Hf as [Hf|Hf]; apply elem_of_app; [by left|right].
    apply elem_frames_where in Hf as (w & Hw & HP & Ef). apply elem_frames_where. exists w. split; [lia|done]. }
  apply (consistent_stays L HL s); [done|done| | |].
  - rewrite (fk_others _ _ _ Hk); [apply Hc| |]; [destruct (fp_slot s c Hpre)|destruct Hl]; lia.
  - split.
    + exact (keeps_ok same_rootk _ _ _ _ (rootk_fork_loop _ _) E).
    + intros f Hf. destruct (kernel_frame_owner L HL s Hc f Hf) as (Hr & Eo & Ec & _).
      assert (owner (pinfo s' f) = owner (pinfo s f)) as Ho by (apply (fk_owners _ _ _ Hk); [done|lia]).
      assert (refcount (pinfo s' f) = refcount (pinfo s f)) as Hcount.
      { rewrite (fk_counts _ _ _ Hk) by done. rewrite <- Z.add_assoc, <- occ_app.
        destruct (decide (occ f (table_frames (table_of s' c) ++ frames_where present (kmem s') (table_of s' c) 256 512) = 0)) as [->|Hn]; [lia|].
        exfalso. apply (Hno f Hf), Hsub, occ_pos. pose proof (occ_nonneg f (table_frames (table_of s' c) ++ frames_where present (kmem s') (table_of s' c) 256 512)). lia. }
      destruct (pinfo s' f), (pinfo s f). cbn in *. congruence.
    + intros a Ha. apply (fk_memory _ _ _ Hk). destruct (kernel_frame_owner L HL s Hc _ (or_introl Ha)) as (? & _ & ? & _). lia.
  - intros f Hf Hr. destruct (decide (refcount (pinfo s f) = 0)) as [E0|Hne].
    + right. assert (owner (pinfo s' f) = c) as ->; [|done].
      pose proof (fk_counts _ _ _ Hk f Hf) as Hn. rewrite E0, Z.add_0_l, <- occ_app in Hn.
      assert (f ∈ table_frames (table_of s' c) ++ frames_where present (kmem s') (table_of s' c) 256 512) as Hin.
      { apply occ_pos. pose proof (occ_nonneg f (table_frames (table_of s' c) ++ frames_where present (kmem s') (table_of s' c) 256 512)). lia. }
      apply elem_of_app in Hin as [Hin|Hin]; [by rewrite (safe_tables s' Hs' c f Hlc Hin)|].
      apply elem_frames_where in Hin as (w & Hw & HP & Ef).
      destruct (writable (leaf (kmem s) (table_of s p) w)) eqn:Hwr.
      * destruct (fk_copied _ _ _ Hk w ltac:(lia) Hwr) as (_ & _ & Hi & _). rewrite Ef in Hi. by rewrite Hi.
      * rewrite (fk_shared _ _ _ Hk w ltac:(lia) Hwr) in HP, Ef.
        destruct (present (leaf (kmem s) (table_of s p) w)) eqn:HP'; [|done].
        destruct (user_frame_counted s p w Hs Hl ltac:(lia) HP') as (_ & _ & Hcnt). rewrite Ef in Hcnt. lia.
    + rewrite (fk_owners _ _ _ Hk) by done. destruct (cs_owners s Hc f Hf Hne) as [?|Ho]; [by left|right].
      apply (forked_live s s' c _ Hpre Hk). by left.
Qed.

Lemma fork_proceeds :
  (∀ c, 1 ≤ c < 16 → p_state (process s c) = P_FREE →
    (∀ k, 1 ≤ k < c → p_state (process s k) ≠ P_FREE) → fork_pre s c) → proceeds (sys_fork s).
Proof.
  intros Hpre. destruct (first_slot s) as [(c & Hr & Hf & Hfirst)|Hno].
  - specialize (Hpre c Hr Hf Hfirst). destruct (fork_ok s c Hs Hpre) as (s' & E & Hk & Hs').
    rewrite E. by apply (fork_consistent c).
  - by eapply regs_proceeds, fork_no_slot.
Qed.

(** exit: what the process owned is free. *)
Lemma exit_proceeds : clean_exit s → proceeds (sys_exit s).
Proof.
  intros Hclean. destruct (exit_ok s Hs Hl) as (s' & E & Hx & Hs'). rewrite E. cbn.
  assert (∀ f, f ∈ private_frames s p 512 ∨ 0 < occ f (frames_where shared (kmem s) (table_of s p) 256 512) → 0 < owner (pinfo s f)) as Hown.
  { intros f [Hf|Hf].
    - destruct (private_frames_of s Hs Hl f Hf) as [Hin _]. rewrite frames_of_live in Hin by done.
      apply elem_of_app in Hin as [Hin|Hin]; [by apply (table_frames_owned p)|by apply (safe_frames s Hs p)].
    - apply occ_pos, elem_frames_where in Hf as (w & Hw & HS & <-).
      apply (user_frame_counted s p w Hs Hl ltac:(lia)). rewrite present_shared_writable, HS. by rewrite orb_true_r. }
  assert (p_state (process s' 0) = P_FREE) as Hz.
  { rewrite (ex_process _ _ Hx). case_decide; [done|apply Hc]. }
  apply (consistent_stays L HL s); [done|done|done| |].
  - apply (stays_elsewhere L HL s Hc s' (λ f, 0 < owner (pinfo s f))).
    + by rewrite (ex_memory _ _ Hx).
    + intros f Hf. by right; left.
    + intros f Hf Hno. rewrite (ex_pinfo _ _ Hx) by done. rewrite decide_False by (intros Hin; by apply Hno, Hown; left).
      pose proof (occ_nonneg f (frames_where shared (kmem s) (table_of s p) 256 512)).
      destruct (decide (0 < occ f (frames_where shared (kmem s) (table_of s p) 256 512))); [exfalso; by apply Hno, Hown; right|].
      destruct (pinfo s f). cbn. f_equal. lia.
    + unfold kmem. by rewrite (ex_memory _ _ Hx).
  - intros f Hf. rewrite (ex_pinfo _ _ Hx) by done. case_decide as Hp; [done|]. cbn [owner refcount]. intros Hr.
    pose proof (occ_nonneg f (frames_where shared (kmem s) (table_of s p) 256 512)) as Hsh.
    assert (0 ≤ refcount (pinfo s f)) by (by apply (safe_counts s Hs)).
    assert (refcount (pinfo s f) ≠ 0) as Hne.
    { intros E0. pose proof (safe_counts s' Hs' f Hf) as Hcnt. rewrite (ex_pinfo _ _ Hx), decide_False in Hcnt by done. cbn in Hcnt. lia. }
    destruct (cs_owners s Hc f Hf Hne) as [?|Ho]; [by left|right].
    assert (owner (pinfo s f) ≠ p) as Hnp.
    { intros Eo. specialize (Hclean f Hf Eo). rewrite occ_app, occ_present in Hclean.
      assert (f ∉ table_frames (table_of s p)) as Ht by (intros ?; apply Hp, elem_of_app; by left).
      assert (f ∉ frames_where writable (kmem s) (table_of s p) 256 512) as Hw by (intros ?; apply Hp, elem_of_app; by right).
      pose proof (safe_counts s' Hs' f Hf) as Hcnt. rewrite (ex_pinfo _ _ Hx), decide_False in Hcnt by done. cbn in Hcnt.
      pose proof (occ_nonneg f (table_frames (table_of s p))). pose proof (occ_nonneg f (frames_where writable (kmem s) (table_of s p) 256 512)).
      assert (¬ 0 < occ f (table_frames (table_of s p))) by (by rewrite occ_pos).
      assert (¬ 0 < occ f (frames_where writable (kmem s) (table_of s p) 256 512)) by (by rewrite occ_pos). lia. }
    destruct Ho as [Hrange Hst]. split; [done|]. by rewrite (ex_process _ _ Hx), decide_False.
Qed.
End calls.
