(* ===== verification/Running.v ===== *)
(** The running system: the whole handler, and every run of user code that
    keeps to the system calls' rules. *)
From S2P Require Import Prelude X86 Machine CLib Printf Hardware PageTable Frames Syscalls Isolation Demo Duplicate Fork ForkSafe Exit PageAlloc Canonical Mmu Contracts Mapping AddressSpace Display ElfFormat Loader Through Load Segment Kernel Calm System Reachable Scheduler Loading Faults Typing Checks Progress.
Open Scope Z_scope.

#[local] Opaque frames_where.

(** ** The handler *)

(** A trap of user code that keeps to the rules: a system call other than
    panic, the timer, or a page fault of user mode; page_alloc with an address
    below the user address space, which is refused, or a page-aligned one;
    exit when no other process shares the pages of the one that leaves. *)
Definition known_trap (reg : x86_64_registers) : bool :=
  existsb (Z.eqb (reg_intno reg))
    [INT_SYS_GETPID; INT_SYS_YIELD; INT_SYS_PAGE_ALLOC; INT_SYS_MAPPING; INT_SYS_MEM_TOG; INT_TIMER;
     INT_SYS_FORK; INT_SYS_EXIT]
  || (reg_intno reg =? INT_PAGEFAULT) && has (reg_err reg) PFERR_USER.

Record orderly (s : kstate) (reg : x86_64_registers) : Prop := {
  or_admissible : admissible s reg;
  or_known : known_trap reg = true;
  or_alloc : reg_intno reg = INT_SYS_PAGE_ALLOC → PROC_START_ADDR ≤ reg_rdi reg → reg_rdi reg mod PAGESIZE = 0;
  or_exit : reg_intno reg = INT_SYS_EXIT → clean_exit s }.

Lemma clean_exit_core s s' :
  safe s → live s (current s) → core s s' → current s' = current s → clean_exit s → clean_exit s'.
Proof.
  intros Hs Hl Hk Ec He. unfold clean_exit in *. cbv zeta in *. rewrite Ec.
  destruct (un_kept s s' Hs (core_undisturbed s s' Hs Hk) _ Hl) as (-> & _ & El).
  rewrite (frames_where_ext present (kmem s') (kmem s) (table_of s (current s)) (table_of s (current s)) 256 512)
    by (intros w Hw; apply El; lia).
  intros f Hf. rewrite (core_pinfo _ _ Hk) by done. by apply He.
Qed.

Lemma orderly_core s s' reg :
  safe s → live s (current s) → core s s' → current s' = current s → orderly s reg → orderly s' reg.
Proof.
  intros Hs Hl Hk Ec [Ha Hn Hp He]. split; [by apply (admissible_core s)|done..|].
  intros Hi. by apply (clean_exit_core s); [..|apply He].
Qed.

Section handler.
Context `{Devices} `{Patience} `{Padding} (L : Layout) (HL : LayoutOk L) (Hkey : no_key) (Hpat : (16 ≤ patience)%nat).

Lemma proceeds_after {A B} (m : M kstate A) (f : A → M kstate B) s :
  keeps calmk m → runs m s (λ _ _, True) → (∀ a s1, calmk s s1 → proceeds (f a s1)) → proceeds ((m ≫= f) s).
Proof.
  intros Hk Hr Hf. destruct (proj1 (runs_iff _ _ _) Hr) as (a & s1 & E & _). rewrite (bind_ok _ _ _ _ _ E).
  apply Hf. by apply (keeps_ok calmk m s a).
Qed.

Lemma page_fault_proceeds s reg :
  consistent s → live s (current s) → has (reg_err reg) PFERR_USER = true → proceeds (page_fault reg s).
Proof.
  intros Hc Hl Hu. unfold page_fault. apply proceeds_after; [apply calmk_machine; unfold rcr2; keeps|done|].
  intros addr s1 C1. cbv zeta. rewrite Hu. cbn [negb]. apply proceeds_after; [keeps|by apply runs_gets|]. intros cur s2 C2.
  apply proceeds_after; [keeps| |].
  { eapply returns_machine, (console_printf_screen [VInt 0; VInt 0; VStr []; VStr []; VInt 0]);
      [by repeat constructor|eexists; vm_compute; reflexivity]. }
  intros _ s3 C3. assert (calmk s s3) as Hk by (transitivity s2; [by transitivity s1|done]).
  apply (broken_proceeds L HL); [by apply (consistent_calm L HL s)|].
  rewrite (ck_current _ _ Hk). by apply (calmk_live s).
Qed.

Lemma handle_proceeds s reg :
  consistent s → served s → live s (current s) → p_registers (process s (current s)) = reg → orderly s reg →
  proceeds (handle reg s).
Proof.
  intros Hc Hsv Hl Hreg [Ha Hn Hp He]. unfold known_trap in Hn. cbn [existsb] in Hn.
  unfold handle. cbv zeta.
  repeat match goal with |- proceeds ((if ?x =? ?y then _ else _) _) => destruct (Z.eqb_spec x y) as [E|?] end.
  - by rewrite E in Hn.
  - eapply (regs_proceeds L HL s Hc). erewrite bind_ok by reflexivity. apply put_current_rax_eq.
  - by apply (schedule_proceeds L HL).
  - apply (page_alloc_proceeds L HL); [done..| |]; rewrite Hreg; [by apply (ad_alloc s reg)|by apply Hp].
  - apply (mapping_proceeds L HL); [done..|]. rewrite Hreg. by apply (ad_mapping s reg).
  - by apply (mem_tog_proceeds L HL).
  - apply proceeds_after; [by apply keeps_modify|by apply runs_modify|]. intros [] s1 C1.
    apply (schedule_proceeds L HL); [done..|by apply (consistent_calm L HL s)|by apply (served_calm s)].
  - apply page_fault_proceeds; [done..|]. by rewrite E in Hn.
  - apply (fork_proceeds L HL); [done..|]. by apply (ad_fork s reg).
  - apply (exit_proceeds L HL); [done..|]. by apply He.
  - exfalso. repeat match goal with Hx : reg_intno reg ≠ _ |- _ => rewrite (proj2 (Z.eqb_neq _ _) Hx) in Hn end. done.
Qed.

(** A calm routine that keeps the types and returns, and what follows it. *)
Lemma runs_typed {A B} (m : M kstate A) (f : A → M kstate B) s Q :
  typed s → maintains typed m → keeps calmk m → runs m s (λ _ _, True) →
  (∀ a s', calmk s s' → typed s' → runs (f a) s' Q) → runs (m ≫= f) s Q.
Proof.
  intros Ht Hm Hk Hr Hf. destruct (proj1 (runs_iff _ _ _) Hr) as (a & s' & E & _). apply runs_bind. eapply runs_eq; [exact E|].
  specialize (Hm s Ht). rewrite E in Hm. apply Hf; [by apply (keeps_ok calmk m s a)|exact Hm].
Qed.

(** The kernel's page table is installed from under that of the process. *)
Lemma kernel_table_installed s :
  consistent s → live s (current s) → cr3 (mach s) = p_pagetable (process s (current s)) →
  runs (on_machine (set_pagetable (acc := through_cr3) (kernel_pagetable (mach s)))) s (λ _ _, True).
Proof.
  intros Hc Hl Hcr. pose proof (cs_kernel s Hc) as Hk. pose proof (cs_safe s Hc) as Hs.
  apply (returns_machine _ _ (λ _ _, True)). eapply runs_eq; [|done].
  rewrite (ko_root s Hk). replace kernel_pagetables with (L1 kernel_shape) by (cbn; lia).
  apply (set_pagetable_through L _ (table_of s (current s)) kernel_shape HL); try apply Hk; [|by apply (kernel_low_tables L)|cbn; lia|].
  - split; [by rewrite table_of_root|by apply (safe_shape s Hs)|]. intros w Hw. by apply (safe_kernel s Hs).
  - rewrite (ko_root s Hk). cbn. lia.
Qed.

(** What comes before the switch returns, in the state with the registers saved. *)
Lemma entry_returns s reg :
  consistent s → live s (current s) → cr3 (mach s) = p_pagetable (process s (current s)) → typed s → regs_typed reg →
  runs (exception_entry reg) s (λ _ s', calmk (upd_proc (current s) (with_registers reg) s) s').
Proof.
  intros Hc Hl Hcr Ht Hreg. unfold exception_entry. apply runs_bind, runs_gets. apply runs_bind. eapply runs_eq; [apply put_process_eq|].
  set (s0 := upd_proc _ _ s). assert (consistent s0) as Hc0 by (by apply (consistent_upd L HL)).
  assert (typed s0) as Ht0 by exact (types_with_registers (current s) reg Hreg s Ht).
  apply runs_bind, runs_gets.
  apply runs_typed; [done|by apply types_machine, types_set_pagetable, mt_pagetable, ty_machine|keeps| |].
  { apply kernel_table_installed; [done| |].
    - unfold live. unfold s0. rewrite process_upd, decide_True by done. exact Hl.
    - unfold s0. rewrite process_upd, decide_True by done. exact Hcr. }
  intros _ s1 C1 T1. apply runs_typed; [done|maintains|keeps|by apply (returns_machine _ _ (λ _ _, True))|].
  intros cpos s2 C2 T2. apply runs_typed; [done|maintains|keeps|by apply (returns_machine _ _ (λ _ _, True))|].
  intros _ s3 C3 T3. assert (calmk s0 s3) as C03 by (transitivity s2; [by transitivity s1|done]).
  pose proof (consistent_calm L HL s0 s3 Hc0 C03) as Hc3.
  apply runs_typed; [done|maintains|keeps| |].
  { destruct (_ || _); [|by apply runs_ret]. apply runs_bind. eapply runs_eq; [by apply (checks_pass L HL)|].
    apply runs_bind, runs_gets. destruct (istrue _); [|by apply runs_ret].
    apply runs_typed; [done|maintains|keeps|by apply (memshow_physical_returns L HL)|]. intros _ s4 C4 T4.
    apply (animate_returns L HL); [by apply (consistent_calm L HL s3)|apply T4]. }
  intros _ s4 C4 T4. apply runs_bind, runs_zoom. eapply runs_eq; [by apply idle_keyboard|]. apply runs_ret.
  transitivity s3; [done|]. transitivity s4; [done|]. by split.
Qed.
End handler.

(** ** The running system *)

(** What holds whenever user code runs. *)
Record steady `{Layout} (s : kstate) : Prop := {
  sd_running : running s;
  sd_consistent : consistent s;
  sd_typed : typed s }.

(** The state in which the switch of [exception] is entered. *)
Record in_handler `{Layout} (reg : x86_64_registers) (s s1 : kstate) : Prop := {
  ih_calm : calmk (upd_proc (current s) (with_registers reg) s) s1;
  ih_core : core s s1;
  ih_current : current s1 = current s;
  ih_consistent : consistent s1;
  ih_served : served s1;
  ih_live : live s1 (current s1);
  ih_orderly : orderly s1 reg;
  ih_registers : p_registers (process s1 (current s1)) = reg }.

(** Steps of user code that keep to the rules. *)
Inductive orderly_step `{Devices} `{Layout} `{Patience} `{Padding} (s : kstate) : kstate → Prop :=
  | orderly_store va v s' : user_store va v s = Some s' → orderly_step s s'
  | orderly_trap reg x s' : orderly (latch x s) reg → regs_typed reg → fits 64 x →
      exception (A := ()) reg (latch x s) = Halt UserMode s' → orderly_step s s'.

Section stores.
Context (L : Layout) (HL : LayoutOk L).

(** Stores of user code, and what the processor latches at a trap. *)
Lemma store_steady s va v s' : steady s → user_store va v s = Some s' → steady s'.
Proof.
  intros [Hr Hc Ht] E. destruct (user_store_sound s va v s' Hr E) as [Hr' _]. split; [done| |].
  - destruct (user_store_target s va v s' Hr E) as (Hu & a & -> & Ea).
    destruct (user_writable_target s (current s) va (cs_safe s Hc) (run_live s Hr) Hu) as (_ & _ & _ & Ho).
    apply (consistent_written L HL s Hc _ (λ f, f = a / 4096)); [by apply run_safe| |].
    + intros f ->. rewrite Ea. destruct Ho as [Ho|Ho]; [by right; right|]. right; left. rewrite Ho.
      destruct (run_live s Hr). cbn. lia.
    + intros b Hb. symmetry. apply load8_store_out. destruct (decide (a = b)) as [->|]; [by destruct Hb|]. cbn. lia.
  - destruct (user_store_target s va v s' Hr E) as (_ & a & -> & _). destruct Ht as [[] ? ? ? ? ? ? ? ?]. by split.
Qed.

Lemma latch_steady x s : fits 64 x → steady s → steady (latch x s).
Proof.
  intros Hx [Hr Hc Ht]. split; [by apply latch_running|by apply (consistent_core L HL s)|].
  destruct Ht as [[] ? ? ? ? ? ? ? ?]. by split.
Qed.

End stores.

Section system.
Context `{Devices} `{Patience} `{Padding} (L : Layout) (HL : LayoutOk L) (Hkey : no_key) (Hpat : (16 ≤ patience)%nat).

Lemma exception_enters {A} s reg :
  steady s → orderly s reg → regs_typed reg →
  ∃ s1, exception (A := A) reg s = (handle reg;; resume) s1 ∧ in_handler reg s s1.
Proof.
  intros [Hr Hc Ht] Ho Hreg. pose proof (run_safe s Hr) as Hs. pose proof (run_live s Hr) as Hl.
  unfold exception. destruct (proj1 (runs_iff _ _ _) (entry_returns L HL Hkey Hpat s reg Hc Hl (run_cr3 s Hr) Ht Hreg)) as ([] & s1 & E & C1).
  rewrite (bind_ok _ _ _ _ _ E). exists s1. split; [done|]. set (s0 := upd_proc _ _ s) in *.
  assert (core s s0) as Hk0 by apply (set_regs_core _ (λ _, reg)).
  assert (core s s1) as Hk1 by (transitivity s0; [done|by apply calmk_core]).
  assert (current s1 = current s) as Ec by apply C1. split; try done.
  - apply (consistent_calm L HL s0); [|done]. by apply (consistent_core L HL s).
  - apply (served_calm s0); [by apply saved_served|done].
  - rewrite Ec. by apply (core_live s).
  - by apply (orderly_core s).
  - rewrite (calmk_process _ _ _ C1), Ec. unfold s0. by rewrite process_upd, decide_True.
Qed.

Lemma exception_proceeds {A} s reg :
  steady s → orderly s reg → regs_typed reg → proceeds (exception (A := A) reg s).
Proof.
  intros Hst Ho Hreg. destruct (exception_enters (A := A) s reg Hst Ho Hreg) as (s1 & -> & [_ _ _ Hc1 Hs1 Hl1 Ho1 Hreg1]).
  pose proof (handle_proceeds L HL Hkey Hpat s1 reg Hc1 Hs1 Hl1 Hreg1 Ho1) as Hp.
  pose proof (handle_sound s1 Hs1 Hl1 reg Hreg1 (or_admissible _ _ Ho1)) as Hh.
  unfold mbind, M_bind. unfold handled in Hh. destruct (handle reg s1) as [[] s2|e s2]; [|exact Hp].
  apply (resume_proceeds L HL); [done..|exact Hp|apply Hh].
Qed.

(** A trap ends in user mode, or with no process to run. *)
Lemma exception_steady s reg :
  steady s → orderly s reg → regs_typed reg →
  (∃ s', exception (A := ()) reg s = Halt UserMode s' ∧ steady s') ∨
  (∃ s', exception (A := ()) reg s = Halt Spinning s' ∧ ∀ q, 0 ≤ q < NPROC → p_state (process s' q) ≠ P_RUNNABLE).
Proof.
  intros Hst Ho Hreg. pose proof (exception_proceeds (A := ()) s reg Hst Ho Hreg) as Hp.
  pose proof (types_exception (A := ()) reg Hreg s (sd_typed s Hst)) as Ht.
  destruct (exception reg s) as [[] s'|e s'] eqn:E.
  - exfalso. unfold exception in E. apply bind_inv in E as (? & ? & _ & E). apply bind_inv in E as (? & ? & _ & E).
    unfold resume in E. apply bind_inv in E as (? & ? & _ & E). destruct (decide _).
    + apply bind_inv in E as (? & ? & _ & E). by apply run_leaves in E.
    + unfold schedule in E. apply bind_inv in E as (? & ? & _ & E). by apply schedule_loop_leaves in E.
  - destruct e; try done; [left|right]; exists s'; (split; [done|]); [|exact Hp].
    destruct (exception_sound reg s s' (sd_running s Hst) (or_admissible _ _ Ho) E) as [Hr _]. by split.
Qed.

Lemma orderly_steps_steady s s' : steady s → rtc orderly_step s s' → steady s'.
Proof.
  intros Hs Hst. induction Hst as [|s1 s2 s3 [va v s4 E|reg x s4 Ho Hreg Hx E] _ IH]; [done| |]; apply IH.
  - by apply (store_steady L HL s1 va v).
  - destruct (exception_steady (latch x s1) reg) as [(s' & E' & ?)|(s' & E' & _)];
      [by apply (latch_steady L HL)|done|done| |]; rewrite E in E'; [by injection E' as <-|done].
Qed.
End system.

(** The system makes progress.  Once the system is steady, user code that
    keeps to the rules never stops it, whatever it stores and however many
    traps it makes: the kernel's assertions and consistency checks all pass,
    and every further trap ends in user mode, with a runnable process on its
    own page table and the system steady again, unless no process is left that
    can run. *)
Theorem system_progresses `{Devices} `{Patience} `{Padding} (L : Layout) s s' reg x :
  LayoutOk L → no_key → (16 ≤ patience)%nat →
  steady s → rtc orderly_step s s' → orderly (latch x s') reg → regs_typed reg → fits 64 x →
  (∃ s2, exception (A := ()) reg (latch x s') = Halt UserMode s2 ∧ steady s2) ∨
  (∃ s2, exception (A := ()) reg (latch x s') = Halt Spinning s2 ∧
    ∀ q, 0 ≤ q < NPROC → p_state (process s2 q) ≠ P_RUNNABLE).
Proof.
  intros HL Hkey Hpat Hs Hst Ho Hreg Hx. apply (exception_steady L HL Hkey Hpat); [|done|done].
  apply (latch_steady L HL); [done|]. by apply (orderly_steps_steady L HL Hkey Hpat s).
Qed.

(** C22: when exit stops the system.  In a consistent state, exit returns, and
    the consistency check that starts the next trap from user mode passes after
    it exactly when every reference to a page that the process owns was one of
    its own page table or of its pages below [MEMSIZE_VIRTUAL].  A page shared
    with another process, a page that a refused page_alloc left behind, and a
    page mapped at or above [MEMSIZE_VIRTUAL] each make the check fail. *)
Theorem exit_survives_iff `{Devices} (L : Layout) s :
  LayoutOk L → consistent s → live s (current s) →
  ∃ s', sys_exit s = Ok () s' ∧ safe s' ∧ (check_virtual_memory s' = Ok () s' ↔ clean_exit s).
Proof.
  intros HL Hc Hl. pose proof (cs_safe s Hc) as Hs. destruct (exit_ok s Hs Hl) as (s' & E & Hx & Hs').
  exists s'. split; [exact E|]. split; [exact Hs'|]. split.
  2:{ intros Hcl. apply (checks_pass L HL). pose proof (exit_proceeds L HL s Hc Hl Hcl) as Hp. by rewrite E in Hp. }
  intros Hpass f Hf Ho.
  destruct (decide (refcount (pinfo s f) ≤ occ f (table_frames (table_of s (current s))
    ++ frames_where present (kmem s) (table_of s (current s)) 256 512))) as [|Hmore]; [done|exfalso].
  rewrite occ_app, occ_present in Hmore. set (tbl := table_frames _) in *. set (sh := frames_where shared _ _ _ _) in *.
  set (wr := frames_where writable _ _ _ _) in *.
  pose proof (occ_nonneg f tbl). pose proof (occ_nonneg f wr). pose proof (occ_nonneg f sh).
  assert (f ∉ private_frames s (current s) 512) as Hp.
  { intros Hin. destruct (private_frames_of s Hs Hl f Hin) as [_ Hone].
    apply occ_pos in Hin. unfold private_frames in Hin. rewrite occ_app in Hin. fold tbl wr in Hin. lia. }
  pose proof (ex_pinfo _ _ Hx f Hf) as Ei. rewrite decide_False in Ei by done. fold sh in Ei.
  apply (orphan_detected s' f) in Hpass; [done|done|..]; rewrite Ei; cbn [owner refcount]; rewrite ?Ho.
  - lia.
  - destruct Hl. lia.
  - rewrite (ex_process _ _ Hx), decide_True by done. done.
Qed.

(** ** On the demo process *)

#[local] Existing Instances kernel_sym Reachable.demo_devices Reachable.demo_patience Reachable.demo_padding.

Definition owner_checks (s : kstate) (n : Z) : bool :=
  (refcount (pinfo s n) =? 0) || (PO_KERNEL <=? owner (pinfo s n)) && (owner (pinfo s n) <? 0)
  || bool_decide (live s (owner (pinfo s n))).

Lemma owner_checks_spec s :
  forall_range 0 512 (owner_checks s) = true → ∀ f, 0 ≤ f < 512 → refcount (pinfo s f) ≠ 0 →
  PO_KERNEL ≤ owner (pinfo s f) < 0 ∨ live s (owner (pinfo s f)).
Proof.
  intros Hb f Hf Hr. pose proof (forall_range_spec _ _ _ f Hb ltac:(lia)) as E. unfold owner_checks in E.
  rewrite !orb_true_iff, andb_true_iff, Z.eqb_eq, Z.leb_le, Z.ltb_lt, bool_decide_eq_true in E. tauto.
Qed.

Lemma demo_consistent : consistent demo.
Proof.
  split.
  - exact demo_safe.
  - reflexivity.
  - exact demo_kernel_ok.
  - exact demo_kernel_frame.
  - apply owner_checks_spec. vm_compute. reflexivity.
Qed.

Lemma demo_steady : steady demo_user.
Proof.
  split; [exact demo_running| |exact demo_user_typed].
  exact (consistent_core kernel_sym kernel_sym_ok demo demo_user demo_consistent (as_process_core 1 demo) eq_refl).
Qed.

Lemma orderly_trap_step n rdi s :
  orderly (latch 0 s) (trap_regs n rdi) → fits 64 n → fits 64 rdi → resumed (trap n rdi s) = true →
  orderly_step s (final (trap n rdi s)).
Proof.
  intros Ho Hn Hrdi Hr. apply (orderly_trap s (trap_regs n rdi) 0); [done|by apply regs_typed_trap|by split|].
  by apply resumed_after.
Qed.

Lemma demo_orderly_fork : orderly_step demo_user demo_forked.
Proof.
  apply orderly_trap_step; [|by split|by split|exact (ff_fork _ _ demo_forked_facts)].
  split; [exact demo_fork_admissible|reflexivity|intros E; discriminate E|intros E; discriminate E].
Qed.

(** The parent forks, and yields. *)
Lemma system_progresses_witness :
  (∃ s2, exception (A := ()) (trap_regs INT_SYS_YIELD 0) (latch 0 demo_forked) = Halt UserMode s2 ∧ steady s2) ∨
  (∃ s2, exception (A := ()) (trap_regs INT_SYS_YIELD 0) (latch 0 demo_forked) = Halt Spinning s2 ∧
    ∀ q, 0 ≤ q < NPROC → p_state (process s2 q) ≠ P_RUNNABLE).
Proof.
  apply (system_progresses kernel_sym demo_user).
  - exact kernel_sym_ok.
  - intros n. reflexivity.
  - apply Nat.leb_le. reflexivity.
  - exact demo_steady.
  - apply rtc_once. exact demo_orderly_fork.
  - split; [apply demo_admissible; discriminate|reflexivity|intros E; discriminate E|intros E; discriminate E].
  - apply regs_typed_trap; by split.
  - by split.
Defined.

(** The demo process may exit; with a page that a refused page_alloc left it,
    its exit stops the system. *)
Definition demo_leaked : kstate := take_page 1 1 demo.

Definition own_frames (s : kstate) : list Z :=
  table_frames (table_of s (current s)) ++ frames_where present (kmem s) (table_of s (current s)) 256 512.

Lemma demo_clean : clean_exit demo.
Proof.
  intros f Hf Ho. change (refcount (pinfo demo f) ≤ occ f (own_frames demo)).
  assert (∃ l, own_frames demo = l ∧
    forall_range 0 512 (λ f, negb (owner (pinfo demo f) =? 1) || (refcount (pinfo demo f) <=? occ f l)) = true) as (l & -> & Hb)
    by (eexists; split; [vm_compute; reflexivity|vm_compute; reflexivity]).
  pose proof (forall_range_spec _ _ _ f Hb ltac:(lia)) as Ef. cbv beta in Ef. change (current demo) with 1 in Ho.
  rewrite Ho in Ef. apply Z.leb_le in Ef. exact Ef.
Qed.

Lemma demo_leaked_consistent : consistent demo_leaked.
Proof.
  apply (consistent_take kernel_sym kernel_sym_ok demo demo_consistent); [lia|vm_compute; reflexivity|].
  exact (proj2 (demo_live 1) eq_refl).
Qed.

Lemma demo_leaked_unclean : ¬ clean_exit demo_leaked.
Proof.
  intros Hc. specialize (Hc 1 ltac:(lia) eq_refl). change (refcount (pinfo demo_leaked 1) ≤ occ 1 (own_frames demo_leaked)) in Hc.
  assert (occ 1 (own_frames demo_leaked) = 0) as E by (vm_compute; reflexivity).
  assert (refcount (pinfo demo_leaked 1) = 1) as E' by (vm_compute; reflexivity). lia.
Qed.

Lemma exit_survives_iff_witness :
  (∃ s', sys_exit demo = Ok () s' ∧ check_virtual_memory s' = Ok () s') ∧
  ∃ s', sys_exit demo_leaked = Ok () s' ∧ check_virtual_memory s' ≠ Ok () s'.
Proof.
  split.
  - destruct (exit_survives_iff kernel_sym demo kernel_sym_ok demo_consistent (proj2 (demo_live 1) eq_refl)) as (s' & E & _ & Hiff).
    exists s'. split; [exact E|]. apply Hiff. exact demo_clean.
  - assert (live demo_leaked (current demo_leaked)) as Hl by exact (proj2 (demo_live 1) eq_refl).
    destruct (exit_survives_iff kernel_sym demo_leaked kernel_sym_ok demo_leaked_consistent Hl) as (s' & E & _ & Hiff).
    exists s'. split; [exact E|]. intros Hp. apply demo_leaked_unclean, Hiff. exact Hp.
Defined.
