(* ===== verification/UserKernel.v ===== *)
(** The repository's programs on the kernel: their traps are among those the
    kernel's invariant covers. *)
From S2P Require Import Prelude X86 Machine CLib Printf Hardware PageTable Frames Syscalls Isolation Demo Duplicate Fork ForkSafe Exit PageAlloc Canonical Mmu Contracts Mapping Display ElfFormat Loader Kernel Calm System Reachable Scheduler Typing Checks Progress Running User Programs.
From ITree Require Import ITree.
Open Scope Z_scope.

(** The registers with which a program's [int] enters the kernel. *)
Definition entered_by (n : Z) (rdi rsi : option Z) (reg : x86_64_registers) : Prop :=
  reg_intno reg = n ∧ (∀ a, rdi = Some a → reg_rdi reg = a) ∧ (∀ a, rsi = Some a → reg_rsi reg = a).

(** The calls of the four programs together. *)
Definition known_calls : list Z :=
  [INT_SYS_GETPID; INT_SYS_YIELD; INT_SYS_PAGE_ALLOC; INT_SYS_FORK; INT_SYS_EXIT; INT_SYS_PANIC].

Lemma programs_known `{Program} {R} main calls n :
  (main, calls) ∈ programs_calls (R := R) → n ∈ calls →
  n ∈ known_calls.
Proof.
  assert (∀ l l' : list Z, bool_decide (Forall (λ x, x ∈ l') l) = true → n ∈ l → n ∈ l') as Hsub.
  { intros l l' Hb. apply bool_decide_eq_true in Hb. rewrite Forall_forall in Hb. apply Hb. }
  intros Hm. unfold programs_calls in Hm. rewrite !elem_of_cons, elem_of_nil in Hm.
  destruct Hm as [E|[E|[E|[E|[]]]]]; injection E as _ ->; apply Hsub; vm_compute; reflexivity.
Qed.

Section requests.
Context `{ProgramOk} (calls : list Z) (n : Z) (rdi rsi : option Z) (reg : x86_64_registers) (s : kstate).
Context (Hq : request calls n rdi rsi) (He : entered_by n rdi rsi reg).

Lemma request_address : n = INT_SYS_PAGE_ALLOC → rdi = Some (reg_rdi reg) ∧ heap_page (reg_rdi reg).
Proof. intros ->. destruct Hq as (_ & _ & a & Ea & Ha). destruct He as (_ & Hrdi & _). by rewrite (Hrdi a Ea). Qed.

Lemma request_alloc : n = INT_SYS_PAGE_ALLOC → reg_rdi reg mod PAGESIZE = 0 ∧ PROC_START_ADDR ≤ reg_rdi reg < MEMSIZE_VIRTUAL.
Proof.
  intros En. destruct (request_address En) as (_ & Hal & Ha). destruct heap_bounds as (_ & _ & Hlo & Hhi). split; [done|lia].
Qed.

Lemma request_typed : fits 64 n → regs_typed (trap_regs n (default 0 rdi)).
Proof.
  clear He reg s. intros Hn. apply regs_typed_trap; [done|]. destruct Hq as (_ & _ & Hd). destruct rdi as [a|]; [|by split]. cbn.
  destruct (_ =? INT_SYS_PAGE_ALLOC); [|destruct (_ =? INT_SYS_PANIC); [injection Hd as ->; by split|done]].
  destruct Hd as (a' & [= <-] & Ha). destruct heap_bounds as (_ & _ & Hlo & Hhi).
  destruct Ha as [_ Ha]. change MEMSIZE_VIRTUAL with 0x300000 in Hhi. change PROC_START_ADDR with 0x100000 in Hlo.
  unfold fits. change (2 ^ 64) with 0x10000000000000000. lia.
Qed.

(** A request other than a fork is admissible, whatever the state. *)
Lemma request_admissible : n ≠ INT_SYS_FORK → n ≠ INT_SYS_MAPPING → admissible s reg.
Proof.
  intros Hf Hm. destruct He as (En & _). split; rewrite En; [done| |done].
  intros Ea. pose proof (request_alloc Ea) as [_ Ha]. change MEMSIZE_VIRTUAL with 0x300000 in Ha. lia.
Qed.

Lemma request_orderly :
  n ∈ known_calls →
  n ∉ [INT_SYS_FORK; INT_SYS_EXIT; INT_SYS_PANIC] → orderly s reg.
Proof.
  unfold known_calls. rewrite !not_elem_of_cons, !elem_of_cons, elem_of_nil. intros Hn (Hf & Hx & Hp & _). destruct He as (En & _).
  split; rewrite ?En.
  - apply request_admissible; [done|]. by intros ->; destruct Hn as [|[|[|[|[|[|]]]]]].
  - unfold known_trap. rewrite En. by destruct Hn as [->|[->|[->|[?|[?|[?|[]]]]]]].
  - intros Ea _. by apply request_alloc.
  - by intros ->.
Qed.
End requests.

(** The programs and the kernel fit together.  Whatever the kernel has
    answered so far, the next system call of one of the four programs is, in
    any state of the kernel, a trap that the kernel's invariant covers, as long
    as it is not a fork; unless it is a fork or an exit, whose conditions are on
    the other processes too, it keeps to the rules under which the kernel goes
    on; and none of them makes a call that the kernel answers by stopping the
    system, but to report a failed assertion. *)
Theorem programs_admissible `{ProgramOk} {R} main calls t n rdi rsi k s reg :
  (main, calls) ∈ programs_calls → reaches (R := R) main t →
  observe t = VisF (Int n rdi rsi) k → entered_by n rdi rsi reg →
  (n ≠ INT_SYS_FORK → admissible s reg) ∧
  (n ∉ [INT_SYS_FORK; INT_SYS_EXIT; INT_SYS_PANIC] → orderly s reg) ∧
  n ∈ calls ∧ (n = INT_SYS_PANIC → reg_rdi reg = 0).
Proof.
  intros Hm Hr E He. destruct (safe_reaches _ _ _ _ _ (programs_safe_run main calls Hm) Hr) as [g' Hs].
  pose proof (safe_request _ _ _ _ _ _ _ _ Hs E) as Hq.
  split; [|split; [|split; [apply Hq|]]].
  - intros Hf. apply (request_admissible calls n rdi rsi reg s); [done..|].
    intros ->. pose proof (programs_known main calls _ Hm (proj1 Hq)) as Hc.
    unfold known_calls in Hc. rewrite !elem_of_cons, elem_of_nil in Hc. by destruct Hc as [|[|[|[|[|[|]]]]]].
  - intros Hno. apply (request_orderly calls n rdi rsi reg s); [done|done|apply (programs_known main calls _ Hm), Hq|done].
  - intros ->. destruct Hq as (_ & _ & Hq). destruct He as (_ & Ha & _). by apply Ha.
Qed.

Lemma programs_admissible_witness :
  ∃ k, observe (@allocator_main allocator_program void) = VisF (Int INT_SYS_GETPID None None) k ∧
    admissible demo (trap_regs INT_SYS_GETPID 0) ∧ orderly demo (trap_regs INT_SYS_GETPID 0).
Proof.
  assert (∃ k, observe (@allocator_main allocator_program void) = VisF (Int INT_SYS_GETPID None None) k) as [k E]
    by (unfold allocator_main, sys_getpid, int_rax, mbind, user_bind; eexists; cbn; reflexivity).
  exists k. split; [exact E|].
  destruct (@programs_admissible allocator_program allocator_program_ok void allocator_main quiet_calls _ _ _ _ k demo
    (trap_regs INT_SYS_GETPID 0) ltac:(by left) (reaches_here _) E) as (Ha & Ho & _); [by split|].
  split; [apply Ha; discriminate|apply Ho; apply (bool_decide_unpack _); vm_compute; exact I].
Defined.
