(* ===== verification/Served.v ===== *)
(** What a trap of a running process does to address spaces: the calls that
    user programs make, from the trap to the switch back to user mode. *)
From S2P Require Import Prelude X86 Machine CLib Printf Hardware PageTable Frames Syscalls Isolation Demo Duplicate Fork ForkSafe Exit PageAlloc Canonical Mmu Contracts Mapping AddressSpace Display ElfFormat Loader Through Load Kernel Calm System Reachable Scheduler Loading Faults Typing Checks Progress Running.
Open Scope Z_scope.

#[local] Opaque frames_where.

(** ** States with the same address spaces *)

(** The address spaces of live processes and the states of all are the same. *)
Record alike (s s' : kstate) : Prop := {
  al_core : core s s';
  al_state : ∀ q, p_state (process s' q) = p_state (process s q) }.

#[global] Instance alike_preorder : PreOrder alike.
Proof.
  split; [by split|]. intros s1 s2 s3 [A1 A2] [B1 B2]. split; [by transitivity s2|]. intros q. by rewrite B2.
Qed.

Lemma alike_calm s s' : calmk s s' → alike s s'.
Proof. intros Hc. split; [by apply calmk_core|]. intros q. by rewrite (calmk_process s s'). Qed.

Lemma alike_regs q g s : alike s (set_regs q g s).
Proof.
  split; [apply set_regs_core|]. intros k. unfold set_regs. rewrite process_upd. by case_decide; [subst|].
Qed.

Lemma alike_entered s s' q : entered s s' q → alike s s'.
Proof. intros [Hc _ _]. transitivity (set_current q s); [by split|by apply alike_calm]. Qed.

Lemma alike_live s s' q : alike s s' → live s' q ↔ live s q.
Proof. intros [_ Hs]. unfold live. by rewrite Hs. Qed.

Lemma entry_kept s s' q va :
  table_of s' q = table_of s q → (∀ w, 0 ≤ w < 1024 → leaf (kmem s') (table_of s q) w = leaf (kmem s) (table_of s q) w) →
  entry_of s' q va = entry_of s q va.
Proof.
  intros Et El. unfold entry_of. case_decide; [|done]. rewrite Et. pose proof (low48_range va). apply El, vpn_range. lia.
Qed.

Lemma alike_entry s s' q va : safe s → alike s s' → live s q → entry_of s' q va = entry_of s q va.
Proof.
  intros Hs [Hk _] Hq. destruct (un_kept s s' Hs (core_undisturbed s s' Hs Hk) q Hq) as (Et & _ & El).
  by apply entry_kept.
Qed.

(** ** The effect of a call *)

(** Addresses that a program may ask for. *)
Definition user_address (va : Z) : Prop := 0 ≤ va < MEMSIZE_VIRTUAL.

(** Every page writable for [p] in [s] is writable for [q] in [s']. *)
Definition keeps_pages (s : kstate) (p : Z) (s' : kstate) (q : Z) : Prop :=
  ∀ va, user_address va → user_writable (entry_of s p va) = true → user_writable (entry_of s' q va) = true.

(** Traps after which another process gets its turn. *)
Definition gives_way (reg : x86_64_registers) : Prop := reg_intno reg ∈ [INT_SYS_YIELD; INT_TIMER].

#[global] Instance gives_way_decision reg : Decision (gives_way reg).
Proof. unfold gives_way. apply _. Defined.

Lemma gives_way_not reg : gives_way reg → reg_intno reg ≠ INT_SYS_EXIT ∧ reg_intno reg ≠ INT_SYS_PAGE_ALLOC.
Proof. unfold gives_way. rewrite !elem_of_cons, elem_of_nil. by intros [->|[->|[]]]. Qed.

(** The registers with which a process goes on after a trap with [reg]: those it
    had, but for the result of a call in %rax. *)
Definition answered (reg reg' : x86_64_registers) : Prop :=
  if decide (gives_way reg) then reg' = reg else ∃ v, reg' = set_rax v reg.

Record served_by (reg : x86_64_registers) (s s' : kstate) : Prop := {
  sb_live : ∀ q, live s' q → live s q ∨ reg_intno reg = INT_SYS_FORK ∧ p_state (process s q) = P_FREE;
  sb_current : reg_intno reg ≠ INT_SYS_EXIT →
    p_state (process s' (current s)) = p_state (process s (current s)) ∧ keeps_pages s (current s) s' (current s);
  sb_registers : reg_intno reg ≠ INT_SYS_EXIT → answered reg (p_registers (process s' (current s)));
  sb_exit : reg_intno reg = INT_SYS_EXIT → p_state (process s' (current s)) = P_FREE;
  sb_alloc : reg_intno reg = INT_SYS_PAGE_ALLOC → PROC_START_ADDR ≤ reg_rdi reg < MEMSIZE_VIRTUAL →
    0 ≤ s32 (reg_rax (p_registers (process s' (current s)))) →
    user_writable (entry_of s' (current s) (reg_rdi reg)) = true;
  sb_child : ∀ c, reg_intno reg = INT_SYS_FORK → p_state (process s c) = P_FREE → live s' c →
    p_state (process s' c) = P_RUNNABLE ∧ keeps_pages s (current s) s' c }.

(** Calls that only change registers of the process. *)
Lemma served_alike reg s s' :
  safe s → live s (current s) → alike s s' →
  reg_intno reg ≠ INT_SYS_EXIT → answered reg (p_registers (process s' (current s))) →
  reg_intno reg ≠ INT_SYS_PAGE_ALLOC ∨ s32 (reg_rax (p_registers (process s' (current s)))) < 0 → served_by reg s s'.
Proof.
  intros Hs Hl Ha Hne Hans Hal. split; try done.
  - intros q Hq. left. by apply (alike_live s s').
  - intros _. split; [apply Ha|]. intros va _. by rewrite (alike_entry s s').
  - intros E _ Hx. destruct Hal as [|]; [done|lia].
  - intros c _ Hf Hc. apply (alike_live s s' c Ha) in Hc as [_ Hc]. done.
Qed.

(** What precedes a call, and what follows it, changes no address space. *)
Lemma served_after reg s1 s2 s' :
  safe s2 → served_by reg s1 s2 → alike s2 s' → (∀ q, p_registers (process s' q) = p_registers (process s2 q)) →
  (reg_intno reg ≠ INT_SYS_EXIT → live s1 (current s1)) → served_by reg s1 s'.
Proof.
  intros Hs2 [Hl Hc Hg He Ha Hch] Hk Hr Hl1.
  assert (∀ q, live s2 q → ∀ va, entry_of s' q va = entry_of s2 q va) as Hent by (intros; by apply alike_entry).
  assert (reg_intno reg ≠ INT_SYS_EXIT → live s2 (current s1)) as Hl2.
  { intros Hne. destruct (Hc Hne) as [Est _]. destruct (Hl1 Hne) as [? Hst]. split; [done|by rewrite Est]. }
  split.
  - intros q Hq. apply Hl. by apply (alike_live s2 s').
  - intros Hne. destruct (Hc Hne) as [Est Hp]. split; [by rewrite (al_state _ _ Hk)|].
    intros va Hva Hw. rewrite Hent by (by apply Hl2). by apply Hp.
  - intros Hne. rewrite Hr. by apply Hg.
  - intros E. rewrite (al_state _ _ Hk). by apply He.
  - intros E Hr2. rewrite Hr, Hent by (apply Hl2; by rewrite E). by apply Ha.
  - intros c E Hf Hlc. apply (alike_live s2 s' c Hk) in Hlc. destruct (Hch c E Hf Hlc) as [Est Hp].
    split; [by rewrite (al_state _ _ Hk)|]. intros va Hva Hw. rewrite Hent by done. by apply Hp.
Qed.

Lemma served_before reg s s1 s' :
  safe s → live s (current s) → alike s s1 → current s1 = current s → served_by reg s1 s' → served_by reg s s'.
Proof.
  intros Hs Hl Hk Ec [Hlv Hc Hg He Ha Hch]. rewrite Ec in *.
  assert (keeps_pages s (current s) s1 (current s)) as Hp by (intros va _; by rewrite (alike_entry s s1)).
  split.
  - intros q Hq. destruct (Hlv q Hq) as [?|[? Hf]]; [left; by apply (alike_live s s1)|right; by rewrite <- (al_state s s1)].
  - intros Hne. destruct (Hc Hne) as [-> Hp']. split; [apply Hk|]. intros va Hva Hw. by apply Hp', Hp.
  - done.
  - done.
  - done.
  - intros c E Hf Hlc. destruct (Hch c E) as [Est Hp']; [by rewrite (al_state s s1)|done|]. split; [done|].
    intros va Hva Hw. by apply Hp', Hp.
Qed.

(** ** The calls *)

Lemma user_writable_new n : 0 ≤ n < 512 → user_writable (new_entry (n * 4096) PTE_PWU) = true.
Proof.
  intros Hn. unfold new_entry. change (has PTE_PWU PTE_P) with true. cbv iota.
  assert (∀ f, 0 ≤ f < 4096 → has (n * 4096 + PTE_PWU) f = has PTE_PWU f) as Hf.
  { intros f Hf. rewrite <- has_flags by done. rewrite PTE_FLAGS_entry; [done|apply Z.mod_mul; lia|by vm_compute]. }
  unfold user_writable. by rewrite !Hf by (by vm_compute).
Qed.

Section calls.
Context `{Devices} (s : kstate) (Hs : safe s) (Hl : live s (current s)).
Abbreviation p := (current s).
Abbreviation reg := (p_registers (process s p)).

Lemma regs_rax x : reg_rax (p_registers (process (set_regs p (set_rax x) s) p)) = u64 x.
Proof. unfold set_regs. rewrite process_upd, decide_True by done. cbn. by destruct reg. Qed.

Lemma regs_answered v s' : ¬ gives_way reg → process s' p = process s p → answered reg (p_registers (process (set_regs p (set_rax v) s') p)).
Proof.
  intros Hg Ep. unfold answered. rewrite decide_False by done. exists v. unfold set_regs. by rewrite process_upd, decide_True, Ep.
Qed.

Lemma served_failed : reg_intno reg ≠ INT_SYS_EXIT → ¬ gives_way reg → served_by reg s (set_regs p (set_rax (-1)) s).
Proof.
  intros Hne Hg. apply served_alike; [done|done|apply alike_regs|done|by apply regs_answered|]. right. by rewrite regs_rax.
Qed.

Lemma keeps_turn n : reg_intno reg = n → n ≠ INT_SYS_YIELD → n ≠ INT_TIMER → ¬ gives_way reg.
Proof. intros <- Hy Ht. unfold gives_way. rewrite !elem_of_cons, elem_of_nil. tauto. Qed.

Lemma page_alloc_served :
  reg_intno reg = INT_SYS_PAGE_ALLOC → user_address (reg_rdi reg) → reg_rdi reg mod PAGESIZE = 0 →
  PROC_START_ADDR ≤ reg_rdi reg → ∃ s', sys_page_alloc s = Ok () s' ∧ current s' = p ∧ served_by reg s s'.
Proof.
  intros Hi Ha Hal Hlo. unfold user_address in Ha. change MEMSIZE_VIRTUAL with 0x300000 in Ha. change PAGESIZE with 4096 in Hal.
  change PROC_START_ADDR with 0x100000 in Hlo. assert (reg_intno reg ≠ INT_SYS_EXIT) as Hne by by rewrite Hi.
  destruct (find_free_pages s) as [(n & _ & Hn & Hff)|[_ Hno]].
  2:{ eexists. split; [apply (page_alloc_full s Hs Hl Hno)|]. split; [done|]. apply served_failed; [done|by eapply keeps_turn]. }
  destruct (page_alloc_maps s Hs Hl n Hff ltac:(lia) Hal ltac:(change PROC_START_ADDR with 0x100000; lia)) as (m' & E & Hm & Hs').
  eexists. split; [exact E|]. split; [done|]. set (s' := set_regs p _ _) in *.
  assert (∀ q, p_state (process s' q) = p_state (process s q)) as Hst.
  { intros q. unfold s', set_regs. rewrite process_upd. by case_decide as Eq; [subst q|]. }
  assert (∀ va, 0 ≤ va < 0x300000 → entry_of s' p va = if decide (va / 4096 = reg_rdi reg / 4096) then new_entry (n * 4096) PTE_PWU else entry_of s p va) as Hent.
  { intros va Hva. unfold entry_of. rewrite low48_small by lia. rewrite decide_True by lia.
    assert (table_of s' p = table_of s p) as ->.
    { rewrite table_of_eq. unfold s', set_regs. rewrite process_upd, decide_True by done. cbn [p_pagetable with_registers].
      change (p_pagetable (process (set_kmem m' (take_page n p s)) p)) with (p_pagetable (process s p)). rewrite <- table_of_root.
      apply shape_at_ok, (mapped_shape _ _ _ _ _ _ _ Hm). }
    change (kmem s') with m'. pose proof (Z.div_le_mono va 0x2fffff 4096). pose proof (Z.div_pos va 4096).
    rewrite (mapped_leaf _ _ _ _ _ _ _ Hm) by (change (0x2fffff / 4096) with 767 in *; lia).
    destruct (decide (va / 4096 = reg_rdi reg / 4096)) as [Ev|Ev]; [rewrite decide_True by lia|rewrite decide_False, decide_True by lia; done].
    rewrite Ev, Z.sub_diag. by rewrite Z.mul_0_l, Z.add_0_r. }
  split.
  - intros q [Hq1 Hq2]. left. split; [done|by rewrite <- Hst].
  - intros _. split; [apply Hst|]. intros va Hva Hw. unfold user_address in Hva. change MEMSIZE_VIRTUAL with 0x300000 in Hva. rewrite Hent by done.
    case_decide; [apply user_writable_new; lia|done].
  - intros _. apply regs_answered; [by eapply keeps_turn|done].
  - by rewrite Hi.
  - intros _ _ _. rewrite Hent, decide_True by done. apply user_writable_new. lia.
  - by rewrite Hi.
Qed.

Lemma exit_served : reg_intno reg = INT_SYS_EXIT → ∃ s', sys_exit s = Ok () s' ∧ served_by reg s s'.
Proof.
  intros Hi. destruct (exit_ok s Hs Hl) as (s' & E & Hx & _). exists s'. split; [done|].
  split; rewrite ?Hi; try done.
  - intros q [Hq Hst]. left. split; [done|]. rewrite (ex_process _ _ Hx) in Hst. by case_decide.
  - intros _. by rewrite (ex_process _ _ Hx), decide_True.
Qed.

Lemma fork_served :
  reg_intno reg = INT_SYS_FORK →
  (∀ c, 1 ≤ c < 16 → p_state (process s c) = P_FREE →
    (∀ k, 1 ≤ k < c → p_state (process s k) ≠ P_FREE) → fork_pre s c) → ∃ s', sys_fork s = Ok () s' ∧ current s' = p ∧ served_by reg s s'.
Proof.
  intros Hi Hpre. destruct (first_slot s) as [(c & Hc & Hf & Hfirst)|Hno].
  2:{ eexists. split; [by apply fork_no_slot|]. split; [done|]. apply served_failed; [by rewrite Hi|by eapply keeps_turn]. }
  specialize (Hpre c Hc Hf Hfirst). destruct (fork_ok s c Hs Hpre) as (s' & E & Hk & Hs'). exists s'. split; [done|]. split; [apply Hk|].
  assert (c ≠ p) as Hne by (intros ->; by destruct Hl).
  assert (live s' c) as Hlc by (apply (forked_live s s' c c Hpre Hk); by right).
  split; try (by rewrite Hi).
  - intros q [Hq Hst]. destruct (decide (q = c)) as [->|]; [by right|]. left. split; [done|].
    destruct (decide (q = p)) as [->|]; [apply Hl|]. by rewrite <- (fk_others _ _ _ Hk).
  - intros _. split; [by rewrite (fk_parent _ _ _ Hk)|]. intros va _ Hw.
    assert (entry_of s' p va = entry_of s p va) as ->; [|done].
    assert (agree (in_table (table_of s p)) (kmem s) (kmem s')) as Ha.
    { intros a Ha. pose proof (in_table_frames _ _ (shape_pages _ _ (safe_shape s Hs p Hl)) Ha) as Hin.
      apply (fk_memory _ _ _ Hk). pose proof (table_frame_range s Hs p _ Hl Hin). split; [lia|].
      by rewrite (safe_tables s Hs p _ Hl Hin). }
    destruct (live_kept s s' p Hs Hl) as (Et & _ & El); [by rewrite (fk_parent _ _ _ Hk)|done|]. by apply entry_kept.
  - intros _. unfold answered. rewrite decide_False by (by eapply keeps_turn). exists c. by rewrite (fk_parent _ _ _ Hk).
  - intros c' _ Hf' [Hr' Hst']. assert (c' = c) as ->.
    { destruct (decide (c' = c)) as [|Hn]; [done|]. assert (c' ≠ p) by (intros ->; by destruct Hl).
      by rewrite (fk_others _ _ _ Hk) in Hst'. }
    split; [by rewrite (fk_child _ _ _ Hk)|]. intros va Hva. unfold user_address in Hva. change MEMSIZE_VIRTUAL with 0x300000 in Hva.
    unfold entry_of. rewrite low48_small by lia. rewrite !(decide_True (P := va < 0x400000)) by lia.
    pose proof (Z.div_le_mono va 0x2fffff 4096). pose proof (Z.div_pos va 4096). change (0x2fffff / 4096) with 767 in *.
    set (w := va / 4096) in *. destruct (decide (w < 256)); [by rewrite (fk_kernel _ _ _ Hk) by lia|].
    intros Hw. assert (writable (leaf (kmem s) (table_of s p) w) = true) as Hwr.
    { unfold user_writable in Hw. unfold writable. by apply andb_prop in Hw as [-> _]. }
    destruct (fk_copied _ _ _ Hk w ltac:(lia) Hwr) as (Hfl & _). unfold user_writable in *.
    assert (∀ f, 0 ≤ f < 4096 → has (leaf (kmem s') (table_of s' c) w) f = has (leaf (kmem s) (table_of s p) w) f) as Hsame.
    { intros f Hf0. rewrite <- (has_flags (leaf (kmem s') _ w) f), <- (has_flags (leaf (kmem s) _ w) f) by done. by rewrite Hfl. }
    rewrite (Hsame PTE_P), (Hsame PTE_W), (Hsame PTE_U); [done|split; done..].
Qed.
End calls.

(** ** Whole traps *)

(** The traps that the user programs make. *)
Definition program_trap (reg : x86_64_registers) : Prop :=
  reg_intno reg ∈ [INT_SYS_GETPID; INT_SYS_YIELD; INT_SYS_PAGE_ALLOC; INT_SYS_FORK; INT_SYS_EXIT; INT_TIMER] ∧
  (reg_intno reg = INT_SYS_PAGE_ALLOC → reg_rdi reg mod PAGESIZE = 0 ∧ PROC_START_ADDR ≤ reg_rdi reg < MEMSIZE_VIRTUAL).

Section trap.
Context `{Devices} `{Patience} `{Padding} (L : Layout) (HL : LayoutOk L) (Hkey : no_key) (Hpat : (16 ≤ patience)%nat).

Lemma alike_registers s s' q : calmk s s' → p_registers (process s' q) = p_registers (process s q).
Proof. intros Hc. by rewrite (calmk_process s s'). Qed.

Lemma entered_registers s s' k q : entered s s' k → p_registers (process s' q) = p_registers (process s q).
Proof. intros [Hc _ _]. by rewrite (alike_registers (set_current k s) s'). Qed.

Lemma schedule_entered {A} s s' : served s → schedule (A := A) s = Halt UserMode s' → ∃ q, entered s s' q.
Proof.
  intros Hs E. unfold schedule in E. erewrite bind_ok in E by reflexivity. unfold current_proc in E.
  rewrite (sv_pid s Hs) in E. pose proof (sv_current s Hs). apply schedule_loop_enters in E as (q & _ & He); [by exists q|lia].
Qed.

Lemma resume_entered {A} s s' : served s → resume (A := A) s = Halt UserMode s' → ∃ q, entered s s' q.
Proof.
  intros Hs E. unfold resume in E. erewrite bind_ok in E by reflexivity. destruct (decide _).
  - erewrite bind_ok in E by reflexivity. apply run_enters in E. by eexists.
  - by apply (schedule_entered (A := A)).
Qed.

(** A call that schedules, once it has changed no address space. *)
Lemma scheduled_served reg s s1 s' :
  safe s → live s (current s) → p_registers (process s (current s)) = reg → calmk s s1 → served s1 → gives_way reg →
  schedule (A := ()) s1 = Halt UserMode s' → served_by reg s s'.
Proof.
  intros Hs Hl Hreg Hc Hs1 Hg E. apply schedule_entered in E as (q & He); [|done]. destruct (gives_way_not reg Hg) as [Hne Hna].
  apply served_alike; [done..| |done| |by left]; [transitivity s1; [by apply alike_calm|by eapply alike_entered]|].
  unfold answered. rewrite decide_True by done. by rewrite (entered_registers s1 s' q), (alike_registers s s1).
Qed.

(** A call returns, or schedules. *)
Definition call_served (reg : x86_64_registers) (s : kstate) (o : outcome kstate ()) : Prop :=
  ¬ gives_way reg ∧ (∃ s', o = Ok () s' ∧ (reg_intno reg ≠ INT_SYS_EXIT → current s' = current s) ∧ served_by reg s s') ∨
  gives_way reg ∧ ∃ s1, calmk s s1 ∧ o = schedule s1.

Lemma handle_served reg s :
  served s → live s (current s) → p_registers (process s (current s)) = reg → admissible s reg → program_trap reg →
  call_served reg s (handle reg s).
Proof.
  intros Hs Hl Hreg Ha [Hn Hal]. pose proof (sv_safe s Hs) as Hsafe. unfold handle. cbv zeta.
  rewrite !elem_of_cons, elem_of_nil in Hn.
  repeat match goal with |- context [if ?x =? ?y then _ else _] => destruct (Z.eqb_spec x y) as [E|?] end.
  all: try (exfalso; rewrite E in Hn; by destruct Hn as [|[|[|[|[|[|[]]]]]]]).
  1,3,5,6: left; split; [unfold gives_way; rewrite E, !elem_of_cons, elem_of_nil; by intros [|[|[]]]|].
  - erewrite bind_ok by reflexivity. rewrite put_current_rax_eq. eexists. split; [done|]. split; [done|].
    apply served_alike; [done|done|apply alike_regs|by rewrite E| |by left; rewrite E]. subst reg. apply regs_answered; [by eapply keeps_turn|done].
  - destruct (Hal E) as [Hmod Hr]. subst reg. destruct page_alloc_served with s as (s' & ? & ? & ?); try done; [|lia|by exists s'].
    unfold user_address. change PROC_START_ADDR with 0x100000 in Hr. lia.
  - subst reg. destruct (fork_served s Hsafe Hl E) as (s' & ? & ? & ?);
      [by apply (ad_fork s (p_registers (process s (current s))))|by exists s'].
  - subst reg. destruct (exit_served s Hsafe Hl E) as (s' & ? & ?). exists s'. split; [done|]. by split.
  - right. split; [unfold gives_way; rewrite E; by left|]. by exists s.
  - right. split; [unfold gives_way; rewrite E; by right; left|]. exists (set_ticks (u32 (ticks s + 1)) s). by split; [split|].
  - exfalso. by destruct Hn as [|[|[|[|[|[|[]]]]]]].
Qed.

Lemma in_handler_alike reg s s1 : in_handler reg s s1 → alike s s1.
Proof.
  intros Hi. split; [by apply (ih_core _ _ _ Hi)|]. intros q. rewrite (calmk_process _ _ _ (ih_calm _ _ _ Hi)), process_upd.
  by case_decide; [subst|].
Qed.

(** The effect of a whole trap. *)
Lemma exception_served reg s s' :
  steady s → orderly s reg → regs_typed reg → program_trap reg →
  exception (A := ()) reg s = Halt UserMode s' → served_by reg s s'.
Proof.
  intros Hst Ho Hreg Hp E. pose proof (run_safe s (sd_running s Hst)) as Hs. pose proof (run_live s (sd_running s Hst)) as Hl.
  destruct (exception_enters L HL Hkey Hpat (A := ()) s reg Hst Ho Hreg) as (s1 & E1 & Hi). rewrite E in E1. symmetry in E1.
  apply (served_before reg s s1); [done|done|by eapply in_handler_alike|by apply Hi|].
  pose proof Hi as [_ _ _ _ Hs1 Hl1 Ho1 Hreg1].
  pose proof (handle_sound s1 Hs1 Hl1 reg Hreg1 (or_admissible _ _ Ho1)) as Hh. unfold handled in Hh.
  destruct (handle_served reg s1 Hs1 Hl1 Hreg1 (or_admissible _ _ Ho1) Hp) as [(_ & s2 & E2 & _ & Hsv)|(Hn & s2 & Hc & E2)].
  - rewrite (bind_ok _ _ _ _ _ E2) in E1. rewrite E2 in Hh. destruct Hh as [Hs2 _].
    destruct (resume_entered s2 s' Hs2 E1) as (q & He).
    apply (served_after reg s1 s2); [apply Hs2|done|by eapply alike_entered|intros; by eapply entered_registers|done].
  - unfold mbind, M_bind in E1. rewrite E2 in E1.
    destruct (schedule s2) as [[] s3|e s3] eqn:Es.
    { unfold schedule in Es. apply bind_inv in Es as (? & ? & _ & Es). by apply schedule_loop_leaves in Es. }
    injection E1 as -> ->. apply (scheduled_served reg s1 s2); [apply Hs1|done|done|done|by apply (served_calm s1)|done..].
Qed.

(** Who runs after a trap of a process that stays. *)
Definition turn (reg : x86_64_registers) (s s' : kstate) : Prop :=
  if decide (gives_way reg) then next_turn s (current s') else current s' = current s.

Lemma next_turn_alike s s1 q : alike s s1 → current s1 = current s → next_turn s1 q → next_turn s q.
Proof.
  intros [_ Hs] Ec (j & Hj & Eq & Hr & Hb). exists j. rewrite <- Ec. split; [done|]. split; [done|].
  split; [by rewrite <- Hs|]. intros i Hi. rewrite <- Hs. by apply Hb.
Qed.

(** While the current process is runnable, a call other than exit enters user
    mode again: in the same process, or after yield and the timer in the next
    one. *)
Lemma exception_returns reg s :
  steady s → orderly s reg → regs_typed reg → program_trap reg → reg_intno reg ≠ INT_SYS_EXIT →
  ∃ s', exception (A := ()) reg s = Halt UserMode s' ∧ steady s' ∧ turn reg s s'.
Proof.
  intros Hst Ho Hreg Hp Hne. pose proof (sd_running s Hst) as Hrun.
  destruct (exception_enters L HL Hkey Hpat (A := ()) s reg Hst Ho Hreg) as (s1 & E1 & Hi).
  pose proof (in_handler_alike _ _ _ Hi) as Ha. pose proof Hi as [_ _ Ec Hc1 Hs1 Hl1 Ho1 Hreg1].
  assert (p_state (process s1 (current s)) = P_RUNNABLE) as Hr1 by (rewrite (al_state _ _ Ha); apply Hrun).
  pose proof (run_live s Hrun) as [Hcur _].
  assert (∃ s', (handle reg;; resume) s1 = Halt (A := ()) UserMode s' ∧ turn reg s s') as (s' & E & Ht).
  2:{ exists s'. rewrite E1. split; [done|]. split; [|done]. rewrite E in E1.
      destruct (exception_steady L HL Hkey Hpat s reg Hst Ho Hreg) as [(s3 & E3 & ?)|(s3 & E3 & _)]; rewrite E1 in E3;
        [by injection E3 as ->|done]. }
  unfold turn.
  destruct (handle_served reg s1 Hs1 Hl1 Hreg1 (or_admissible _ _ Ho1) Hp) as [(Hg & s2 & E2 & Ec2 & Hsv)|(Hg & s2 & Hc & E2)].
  - rewrite (bind_ok _ _ _ _ _ E2). destruct (decide (gives_way reg)); [done|].
    pose proof (handle_proceeds L HL Hkey Hpat s1 reg Hc1 Hs1 Hl1 Hreg1 Ho1) as Hpr. rewrite E2 in Hpr.
    pose proof (handle_sound s1 Hs1 Hl1 reg Hreg1 (or_admissible _ _ Ho1)) as Hh. unfold handled in Hh. rewrite E2 in Hh.
    destruct (sb_current _ _ _ Hsv Hne) as [Hr2 _]. rewrite Ec, Hr1 in Hr2.
    destruct (resume_enters L HL Hkey Hpat (A := ()) s2 (current s) Hpr (proj1 Hh)) as (s4 & E4 & _ & Ht); [lia|done|].
    rewrite (Ec2 Hne), Ec, (decide_True (P := p_state (process s2 (current s)) = P_RUNNABLE)) in Ht by done. by exists s4.
  - destruct (decide (gives_way reg)); [|done]. destruct (schedule_enters L HL Hkey Hpat (A := ()) s2 (current s)) as (s4 & E4 & _ & Ht).
    + by apply (consistent_calm L HL s1).
    + by apply (served_calm s1).
    + lia.
    + by rewrite (calmk_process s1 s2).
    + exists s4. unfold mbind, M_bind. rewrite E2, E4. split; [done|].
      apply (next_turn_alike s s2); [etransitivity; [exact Ha|by apply alike_calm]|by rewrite (ck_current _ _ Hc)|done].
Qed.
End trap.
