(* ===== verification/World.v ===== *)
(** The closed system: the kernel together with the programs that its processes
    run.  User code no longer stores and traps at will: it is the repository's
    programs, each as the interaction tree of its source. *)
From ITree Require Import ITree.
From Paco Require Import paco.
From S2P Require Import Prelude X86 Machine CLib Printf Hardware PageTable Frames Syscalls Isolation Demo Duplicate Fork ForkSafe Exit PageAlloc Canonical Mmu Contracts Mapping AddressSpace Display ElfFormat Loader Through Load Kernel Calm System Reachable Scheduler Loading Faults Typing Checks Progress Running User Programs UserKernel Served.
Open Scope Z_scope.

#[local] Opaque frames_where.

(** ** Worlds

    [now] is the rest of the running process's program; [waiting q] is that of
    process [q], as a function of the %rax it will find when it runs again. *)

Record world : Type := MkWorld {
  kern : kstate;
  now : user void;
  waiting : Z → Z → user void }.

(** The program of [q], from where it is. *)
Definition rest (w : world) (q : Z) : user void :=
  if decide (q = current (kern w)) then now w
  else waiting w q (reg_rax (p_registers (process (kern w) q))).

(** The kernel enters user mode in [s]. *)
Definition resume_in (s : kstate) (k : Z → Z → user void) : world :=
  MkWorld s (k (current s) (reg_rax (p_registers (process s (current s))))) k.

(** ** Memory accesses of several bytes, and printing *)

Fixpoint user_loads (n : nat) (a : Z) (s : kstate) : option Z :=
  match n with
  | O => Some 0
  | S n => b ← user_read (current s) a s; v ← user_loads n (a + 1) s; Some (b + 256 * v)
  end.

Fixpoint user_stores (n : nat) (a v : Z) (s : kstate) : option kstate :=
  match n with
  | O => Some s
  | S n => s ← user_store a (v mod 256) s; user_stores n (a + 1) (v / 256) s
  end.

(** [console_vprintf] of a process: the console is mapped at its own address. *)
Definition user_print (cpos : Z) (cells : list (Z * Z)) (s : kstate) : option (Z * kstate) :=
  let cpos := if (cpos <? 0) || (CONSOLE_ROWS * CONSOLE_COLUMNS <=? cpos) then 0 else cpos in
  match console_puts cells cpos (mach s) with
  | Ok c m => Some (c, set_mach m s)
  | Halt _ _ => None
  end.

(** ** Steps

    [rule] restricts the traps that are considered. *)

(** Who goes on with [k] after the system call [n]: the caller, and for a fork
    the processes that did not exist before. *)
Definition continued (n : Z) (s : kstate) (k : Z → user void) (waiting : Z → Z → user void) : Z → Z → user void :=
  λ q, if decide (q = current s ∨ n = INT_SYS_FORK ∧ p_state (process s q) = P_FREE) then k else waiting q.

(** An interrupted process goes on where it was, whatever is in %rax. *)
Definition interrupted (s : kstate) (t : user void) (waiting : Z → Z → user void) : Z → Z → user void :=
  λ q, if decide (q = current s) then λ _, t else waiting q.

(** The page fault of an access. *)
Definition faults (s : kstate) (t : user void) : Prop :=
  match observe t with
  | VisF e _ =>
      match e with
      | Load n a => user_loads n a s = None
      | Store n a v => user_stores n a v s = None
      | _ => False
      end
  | _ => False
  end.

Section steps.
Context `{Devices} `{Layout} `{Patience} `{Padding} (rule : kstate → x86_64_registers → Prop).

Inductive wstep : world → world → Prop :=
  | w_tau s t t' k : observe t = TauF t' → wstep (MkWorld s t k) (MkWorld s t' k)
  | w_load s t k n a ke v : observe t = VisF (Load n a) ke → user_loads n a s = Some v →
      wstep (MkWorld s t k) (MkWorld s (ke v) k)
  | w_store s t k n a v ke s' : observe t = VisF (Store n a v) ke → user_stores n a v s = Some s' →
      wstep (MkWorld s t k) (MkWorld s' (ke ()) k)
  | w_print s t k cpos cells ke c s' : observe t = VisF (Print cpos cells) ke → user_print cpos cells s = Some (c, s') →
      wstep (MkWorld s t k) (MkWorld s' (ke c) k)
  | w_call s t k n rdi rsi ke reg x s' : observe t = VisF (Int n rdi rsi) ke →
      entered_by n rdi rsi reg → regs_typed reg → fits 64 x → rule (latch x s) reg →
      exception (A := ()) reg (latch x s) = Halt UserMode s' →
      wstep (MkWorld s t k) (resume_in s' (continued n s ke k))
  | w_timer s t k reg x s' : reg_intno reg = INT_TIMER → regs_typed reg → fits 64 x → rule (latch x s) reg →
      exception (A := ()) reg (latch x s) = Halt UserMode s' →
      wstep (MkWorld s t k) (resume_in s' (interrupted s t k))
  | w_fault s t k reg x s' : faults s t →
      reg_intno reg = INT_PAGEFAULT → has (reg_err reg) PFERR_USER = true → regs_typed reg → fits 64 x → rule (latch x s) reg →
      exception (A := ()) reg (latch x s) = Halt UserMode s' →
      wstep (MkWorld s t k) (resume_in s' (interrupted s t k)).
End steps.

(** ** Programs that keep to their pages *)

(** The kernel has mapped what it granted. *)
Definition backed (s : kstate) (q : Z) (granted : pages) : Prop :=
  ∀ a, granted a → user_address a ∧ user_writable (entry_of s q a) = true.

(** [t] is the rest of a program that makes only the calls [calls], and
    accesses only pages that it has. *)
Definition behaves (calls : list Z) (s : kstate) (q : Z) (t : user void) : Prop :=
  ∃ (P : Program) g, ProgramOk ∧ safe_program calls (λ _ _, False) g t ∧ backed s q g.

Record good `{Layout} (calls : list Z) (w : world) : Prop := {
  gd_steady : steady (kern w);
  gd_runnable : ∀ q, live (kern w) q → p_state (process (kern w) q) = P_RUNNABLE;
  gd_behaves : ∀ q, live (kern w) q → behaves calls (kern w) q (rest w q) }.

(** ** Accesses succeed *)

(** The same processes with the same address spaces. *)
Record same_spaces (s s' : kstate) : Prop := {
  sm_current : current s' = current s;
  sm_process : ∀ q, process s' q = process s q;
  sm_entry : ∀ q va, live s q → entry_of s' q va = entry_of s q va }.

#[global] Instance same_spaces_preorder : PreOrder same_spaces.
Proof.
  split; [by split|]. intros s1 s2 s3 [A1 A2 A3] [B1 B2 B3]. split; [congruence|congruence|].
  intros q va Hq. rewrite B3; [by apply A3|]. unfold live. by rewrite A2.
Qed.

Lemma same_live s s' q : same_spaces s s' → live s' q ↔ live s q.
Proof. intros Hm. unfold live. by rewrite (sm_process _ _ Hm). Qed.

Lemma same_behaves calls s s' q t : same_spaces s s' → live s q → behaves calls s q t → behaves calls s' q t.
Proof.
  intros Hm Hq (P & g & HP & Ht & Hb). exists P, g. split; [done|]. split; [done|].
  intros a Ha. rewrite (sm_entry _ _ Hm) by done. by apply Hb.
Qed.

Section access.
Context (s : kstate) (Hr : running s).
Abbreviation p := (current s).

Lemma user_translates va need :
  need = PTE_PU ∨ need = PTE_PWU → 0 ≤ va < 2 ^ 47 → user_writable (entry_of s p va) = true →
  translate va need (mach s) = Some (PTE_ADDR (entry_of s p va) + PAGEOFFSET va).
Proof.
  intros Hn Hva Hw. rewrite (running_machine s Hr) at 1.
  rewrite process_translate by (try apply Hr; unfold access; destruct Hn as [->| ->]; set_solver).
  assert (canonical va = true) as -> by (unfold canonical; apply orb_true_intro; left; apply Z.ltb_lt; lia).
  assert (Z.land (entry_of s p va) PTE_PWU = PTE_PWU) as E by (apply Z.eqb_eq; by rewrite pwu_test).
  destruct Hn as [->| ->]; [|by rewrite E, Z.eqb_refl].
  assert (Z.land (entry_of s p va) PTE_PU = PTE_PU) as ->; [|by rewrite Z.eqb_refl].
  change PTE_PU with (Z.land PTE_PWU PTE_PU) at 1. by rewrite Z.land_assoc, E.
Qed.

Lemma console_user va :
  CONSOLE_ADDR ≤ va < CONSOLE_ADDR + PAGESIZE → 0 ≤ va < 2 ^ 47 ∧ user_writable (entry_of s p va) = true.
Proof.
  change CONSOLE_ADDR with 0xB8000. change PAGESIZE with 4096. intros Hva. split; [lia|]. unfold entry_of.
  rewrite low48_small, decide_True by lia.
  assert (va / 4096 = 0xB8) as -> by (symmetry; apply Z.div_unique with (va - 0xB8000); lia).
  destruct (safe_kernel s (run_safe s Hr) p 0xB8 (run_live s Hr) ltac:(lia)) as (_ & HP & HW & HU).
  unfold user_writable. by rewrite HP, HW, HU.
Qed.

Lemma granted_user g a :
  backed s p g → g (a - a mod PAGESIZE) → 0 ≤ a < 2 ^ 47 ∧ user_writable (entry_of s p a) = true.
Proof.
  intros Hb Ha. apply Hb in Ha as [Hu Hw]. unfold user_address in Hu. change PAGESIZE with 4096 in *. change MEMSIZE_VIRTUAL with 0x300000 in Hu.
  pose proof (Z.mod_pos_bound a 4096 ltac:(lia)). split; [lia|]. rewrite <- Hw. unfold entry_of. rewrite !low48_small by lia.
  assert ((a - a mod 4096) / 4096 = a / 4096) as ->; [|rewrite !decide_True by lia; done].
  pose proof (Z.div_mod a 4096). replace (a - a mod 4096) with (a / 4096 * 4096) by lia. by rewrite Z.div_mul.
Qed.

Lemma accessible_user g n a i :
  backed s p g → accessible g n a → a ≤ i < a + Z.of_nat n → 0 ≤ i < 2 ^ 47 ∧ user_writable (entry_of s p i) = true.
Proof.
  intros Hb [[-> Ha]|[H1 H2]] Hi; [|apply console_user; lia]. assert (i = a) as -> by lia. by apply (granted_user g).
Qed.

Lemma loads_ok n a :
  (∀ i, a ≤ i < a + Z.of_nat n → 0 ≤ i < 2 ^ 47 ∧ user_writable (entry_of s p i) = true) → ∃ v, user_loads n a s = Some v.
Proof.
  revert a. induction n as [|n IH]; intros a Ha; cbn [user_loads]; [by eexists|].
  destruct (Ha a ltac:(lia)) as [Hva Hw]. unfold user_read at 1. rewrite <- (running_machine s Hr), user_translates by (done || by left).
  cbn. destruct (IH (a + 1)) as [v Ev]; [intros i Hi; apply Ha; lia|]. rewrite Ev. by eexists.
Qed.
End access.

Lemma store_same s va v s' : running s → user_store va v s = Some s' → same_spaces s s'.
Proof.
  intros Hr E. destruct (user_store_undisturbed s va v s' Hr E) as ((m & ->) & Hu & _). split; [done|done|].
  intros q a Hq. destruct (un_kept _ _ (run_safe s Hr) Hu q Hq) as (Et & _ & El). by apply entry_kept.
Qed.

Lemma stores_ok (L : Layout) (HL : LayoutOk L) n a v s :
  steady s → (∀ i, a ≤ i < a + Z.of_nat n → 0 ≤ i < 2 ^ 47 ∧ user_writable (entry_of s (current s) i) = true) →
  ∃ s', user_stores n a v s = Some s' ∧ steady s' ∧ same_spaces s s'.
Proof.
  revert a v s. induction n as [|n IH]; intros a v s Hs Ha; cbn [user_stores]; [by exists s|].
  pose proof (sd_running s Hs) as Hr. destruct (Ha a ltac:(lia)) as [Hva Hw].
  assert (∃ s1, user_store a (v mod 256) s = Some s1) as [s1 E1].
  { unfold user_store. rewrite (user_translates s Hr) by (done || by right). by eexists. }
  pose proof (store_same _ _ _ _ Hr E1) as Hm. rewrite E1. cbn.
  destruct (IH (a + 1) (v / 256) s1) as (s' & E & Hs' & Hm').
  - by apply (store_steady L HL s a (v mod 256)).
  - intros i Hi. rewrite (sm_current _ _ Hm), (sm_entry _ _ Hm) by apply Hr. apply Ha. lia.
  - exists s'. split; [done|]. split; [done|]. by transitivity s1.
Qed.

Lemma print_same (L : Layout) (HL : LayoutOk L) cpos cells s :
  steady s → ∃ c s', user_print cpos cells s = Some (c, s') ∧ steady s' ∧ same_spaces s s'.
Proof.
  intros Hs. unfold user_print. set (c0 := if (cpos <? 0) || (CONSOLE_ROWS * CONSOLE_COLUMNS <=? cpos) then 0 else cpos).
  assert (0 ≤ c0 ≤ 2000) as Hc.
  { unfold c0. change (CONSOLE_ROWS * CONSOLE_COLUMNS) with 2000. destruct (Z.ltb_spec cpos 0), (Z.leb_spec 2000 cpos); cbn; lia. }
  destruct (proj1 (runs_iff _ _ _) (console_puts_ok cells c0 (mach s) Hc)) as (c & m & E & _ & Hu).
  rewrite E. exists c, (set_mach m s). split; [done|].
  pose proof (quiet_calm _ _ (screen_quiet _ _ Hu)) as Hm. assert (calmk s (set_mach m s)) as Hk by by split.
  pose proof (sd_running s Hs) as Hr. split.
  - split.
    + destruct Hr as [? ? ? ? Hcr]. split; try done; [by apply (core_safe s), calmk_core|].
      change (cr3 m = p_pagetable (process s (current s))). rewrite <- Hcr. by rewrite (proj1 Hu).
    + by apply (consistent_calm L HL s); [apply Hs|].
    + pose proof (types_console_puts cells c0 (mach s)) as Ht. unfold maintains, triple in Ht.
      destruct (sd_typed s Hs). specialize (Ht ltac:(done)). rewrite E in Ht. by split.
  - split; [done|done|]. intros q va Hq. by apply (alike_entry s _ q va (run_safe s Hr) (alike_calm _ _ Hk)).
Qed.

(** ** Steps keep worlds good *)

Lemma rest_resume s k q : rest (resume_in s k) q = k q (reg_rax (p_registers (process s q))).
Proof. unfold rest. cbn. by case_decide; [subst|]. Qed.

Lemma rest_other s t k q : q ≠ current s → rest (MkWorld s t k) q = k q (reg_rax (p_registers (process s q))).
Proof. intros Hq. unfold rest. cbn. by rewrite decide_False. Qed.

Lemma rest_now s t k : rest (MkWorld s t k) (current s) = t.
Proof. unfold rest. cbn. by rewrite decide_True. Qed.

Section good.
Context `{Devices} `{Patience} `{Padding} (L : Layout) (HL : LayoutOk L) (Hkey : no_key) (Hpat : (16 ≤ patience)%nat).
Context (calls : list Z).

Lemma good_current s t k : good calls (MkWorld s t k) → behaves calls s (current s) t.
Proof.
  intros [Hs _ Hb]. cbn in Hs, Hb. specialize (Hb (current s) (run_live s (sd_running s Hs))).
  by rewrite rest_now in Hb.
Qed.

(** The running program goes on without a trap. *)
Lemma advance_good s t k s' t' :
  good calls (MkWorld s t k) → steady s' → same_spaces s s' → behaves calls s (current s) t' →
  good calls (MkWorld s' t' k).
Proof.
  intros [Hs Hr Hb] Hs' Hm Ht. cbn in Hs, Hr, Hb. split; cbn; [done| |].
  - intros q Hq. rewrite (sm_process _ _ Hm). apply Hr. by apply (same_live s s').
  - intros q Hq. apply (same_live s s' q Hm) in Hq. apply (same_behaves calls s s'); [done|done|].
    pose proof (sm_current _ _ Hm) as Ec. destruct (decide (q = current s)) as [->|Hne].
    + assert (rest (MkWorld s' t' k) (current s) = t') as ->; [|done]. rewrite <- Ec. apply rest_now.
    + rewrite rest_other by congruence. rewrite (sm_process _ _ Hm).
      rewrite <- (rest_other s t k q) by done. by apply Hb.
Qed.

(** A trap: [k'] continues who the kernel lets continue. *)
Lemma trap_good s t k reg x s' k' (P : Program) g :
  good calls (MkWorld s t k) → orderly (latch x s) reg → regs_typed reg → fits 64 x → program_trap reg →
  exception (A := ()) reg (latch x s) = Halt UserMode s' →
  (∀ q, q ≠ current s → live s q → k' q = k q) →
  ProgramOk → backed s (current s) g →
  (∀ q rax, q = current s ∨ reg_intno reg = INT_SYS_FORK ∧ p_state (process s q) = P_FREE →
    safe_program calls (λ _ _, False) (grant (reg_intno reg) (Some (reg_rdi reg)) rax g) (k' q rax)) →
  good calls (resume_in s' k').
Proof.
  intros [Hs Hr Hb] Ho Hreg Hx Hp E Hk HP Hg Hsafe. cbn in Hs, Hr, Hb.
  pose proof (latch_steady L HL x s Hx Hs) as Hsl. pose proof (sd_running s Hs) as Hrun.
  assert (steady s') as Hs'.
  { destruct (exception_steady L HL Hkey Hpat (latch x s) reg Hsl Ho Hreg) as [(s2 & E2 & ?)|(s2 & E2 & _)];
      rewrite E in E2; [by injection E2 as ->|done]. }
  pose proof (exception_served L HL Hkey Hpat reg (latch x s) s' Hsl Ho Hreg Hp E) as [Hsl' Hsc _ Hse Hsa Hsf].
  change (current (latch x s)) with (current s) in *.
  destruct (exception_sound reg (latch x s) s' (sd_running _ Hsl) (or_admissible _ _ Ho) E) as [_ Hsp].
  change (current (latch x s)) with (current s) in *.
  assert (∀ q, live s' q → q = current s → reg_intno reg ≠ INT_SYS_EXIT) as Hnx.
  { intros q [_ Hq] -> Ei. by rewrite Hse in Hq. }
  assert (∀ q, live s q → q ≠ current s → process s' q = process s q) as Hsame by (intros q Hq Hne; by apply (sp_process _ _ _ Hsp)).
  split; cbn; [done| |].
  - intros q Hq. destruct (decide (q = current s)) as [->|Hne].
    + destruct (Hsc (Hnx _ Hq eq_refl)) as [-> _]. apply Hrun.
    + destruct (Hsl' q Hq) as [Hl|[Ef Hf]]; [rewrite (Hsame q Hl Hne); by apply Hr|by apply Hsf].
  - intros q Hq. rewrite rest_resume. destruct (decide (q = current s)) as [->|Hne].
    + exists P. eexists. split; [done|]. split; [apply Hsafe; by left|].
      destruct (Hsc (Hnx _ Hq eq_refl)) as [_ Hkp]. intros a Ha. unfold grant in Ha.
      assert (g a → user_address a ∧ user_writable (entry_of s' (current s) a) = true) as Hold.
      { intros Hga. destruct (Hg a Hga) as [Hu Hw]. split; [done|]. by apply Hkp. }
      destruct (Z.eqb_spec (reg_intno reg) INT_SYS_PAGE_ALLOC) as [Ei|]; [|by apply Hold].
      destruct Ha as [Ha|[Hrax [= <-]]]; [by apply Hold|]. destruct (proj2 Hp Ei) as [_ Hlo].
      change PROC_START_ADDR with 0x100000 in Hlo. split; [unfold user_address; lia|].
      apply Hsa; [done|change PROC_START_ADDR with 0x100000; lia|done].
    + destruct (Hsl' q Hq) as [Hl|[Ef Hf]].
      * rewrite Hk, (Hsame q Hl Hne), <- (rest_other s t k q) by done.
        destruct (Hb q Hl) as (P' & g' & HP' & Ht' & Hg'). exists P', g'. split; [done|]. split; [done|].
        intros a Ha. destruct (Hg' a Ha) as [Hu Hw]. split; [done|]. rewrite <- Hw. f_equal.
        apply (kept_entry (current s) (latch x s)); [apply (sd_running _ Hsl)|done..].
      * exists P, g. split; [done|]. split.
        { specialize (Hsafe q (reg_rax (p_registers (process s' q))) (or_intror (conj Ef Hf))).
          unfold grant in Hsafe. rewrite Ef in Hsafe. exact Hsafe. }
        intros a Ha. destruct (Hg a Ha) as [Hu Hw]. split; [done|]. destruct (Hsf q Ef Hf Hq) as [_ Hkp]. by apply Hkp.
Qed.

Lemma now_safe s t k : good calls (MkWorld s t k) →
  ∃ (P : Program) g, ProgramOk ∧ safeF calls (λ _ _, False) (safe_program calls (λ _ _, False)) g t ∧ backed s (current s) g.
Proof.
  intros Hg. destruct (good_current s t k Hg) as (P & g & HP & Ht & Hb). exists P, g. split; [done|]. split; [|done].
  punfold Ht. eapply safeF_mono; [exact Ht|]. by intros ? ? [|[]].
Qed.

Lemma accessible_loads s g n a : running s → backed s (current s) g → accessible g n a → ∃ v, user_loads n a s = Some v.
Proof. intros Hr Hb Ha. apply loads_ok; [done|]. intros i. by apply (accessible_user s Hr g n a i). Qed.

Lemma accessible_stores s g n a v :
  steady s → backed s (current s) g → accessible g n a → ∃ s', user_stores n a v s = Some s' ∧ steady s' ∧ same_spaces s s'.
Proof. intros Hs Hb Ha. apply (stores_ok L HL); [done|]. intros i. apply (accessible_user s (sd_running s Hs) g n a i Hb Ha). Qed.

(** A program of a good world never faults. *)
Lemma good_no_fault w : good calls w → ¬ faults (kern w) (now w).
Proof.
  destruct w as [s t k]. intros Hg. destruct (now_safe s t k Hg) as (P & g & _ & Ht & Hb). cbn.
  pose proof (gd_steady _ _ Hg) as Hs. cbn in Hs. unfold faults, safeF in *.
  intros E. destruct (observe t) as [| |X e ke]; [done..|]. destruct e; try done; destruct Ht as [Ha _].
  - destruct (accessible_loads s g n a) as [? E2]; [apply Hs|done..|congruence].
  - destruct (accessible_stores s g n a v) as (? & E2 & _); [done..|congruence].
Qed.

Context (Hcalls : calls ⊆ known_calls).
Context (rule : kstate → x86_64_registers → Prop).
Context (Hrule : ∀ s reg n rdi rsi (P : Program), ProgramOk → request calls n rdi rsi → entered_by n rdi rsi reg → rule s reg → orderly s reg).

Lemma timer_orderly s reg : reg_intno reg = INT_TIMER → orderly s reg.
Proof. intros E. split; [split; by rewrite E|unfold known_trap; by rewrite E|by rewrite E..]. Qed.

Lemma call_good s t k n rdi rsi ke reg x s' :
  good calls (MkWorld s t k) → observe t = VisF (Int n rdi rsi) ke →
  entered_by n rdi rsi reg → regs_typed reg → fits 64 x → rule (latch x s) reg →
  exception (A := ()) reg (latch x s) = Halt UserMode s' → good calls (resume_in s' (continued n s ke k)).
Proof.
  intros Hg E He Hreg Hx Ho Ex. destruct (now_safe s t k Hg) as (P & g & HP & Ht & Hb).
  unfold safeF in Ht. rewrite E in Ht. destruct Ht as [Hq Hk]. pose proof (Hrule _ _ _ _ _ P HP Hq He Ho) as Hor.
  pose proof He as (En & Hrdi & _). apply (trap_good s t k reg x s' _ P g); try done.
  - split; [|intros; apply (request_alloc calls n rdi rsi reg); congruence].
    rewrite En. pose proof (Hcalls n (proj1 Hq)) as Hn. pose proof (or_known _ _ Hor) as Hkn. unfold known_trap in Hkn. rewrite En in Hkn.
    unfold known_calls in Hn. rewrite !elem_of_cons, elem_of_nil in *. destruct Hn as [->|[->|[->|[->|[->|[->|[]]]]]]]; try tauto. discriminate Hkn.
  - intros q Hne [_ Hl]. unfold continued. rewrite decide_False; [done|]. by intros [|[_ ?]].
  - intros q rax Hq'. unfold continued. rewrite decide_True by (by rewrite <- En).
    assert (grant (reg_intno reg) (Some (reg_rdi reg)) rax g = grant n rdi rax g) as ->; [|apply Hk].
    unfold grant. rewrite En. destruct (Z.eqb_spec n INT_SYS_PAGE_ALLOC) as [Ea|]; [|done].
    by destruct (request_address calls n rdi rsi reg Hq He Ea) as [-> _].
Qed.

Lemma timer_good s t k reg x s' :
  good calls (MkWorld s t k) → reg_intno reg = INT_TIMER → regs_typed reg → fits 64 x →
  exception (A := ()) reg (latch x s) = Halt UserMode s' → good calls (resume_in s' (interrupted s t k)).
Proof.
  intros Hg En Hreg Hx Ex. destruct (good_current s t k Hg) as (P & g & HP & Ht & Hb).
  apply (trap_good s t k reg x s' _ P g); try done.
  - by apply timer_orderly.
  - split; rewrite En; [|done]. rewrite !elem_of_cons. tauto.
  - intros q Hne _. unfold interrupted. by rewrite decide_False.
  - intros q rax Hq. rewrite En in *. destruct Hq as [->|[Hq _]]; [|done]. unfold interrupted. by rewrite decide_True.
Qed.

Lemma good_step w w' : good calls w → wstep rule w w' → good calls w'.
Proof.
  intros Hg Hst. destruct Hst.
  1-4: destruct (now_safe _ _ _ Hg) as (P & g & HP & Ht & Hb); unfold safeF in Ht;
    match goal with E : observe _ = _ |- _ => rewrite E in Ht end; pose proof (gd_steady _ _ Hg) as Hs; cbn in Hs.
  - apply (advance_good s t k); [done..|]. by exists P, g.
  - apply (advance_good s t k); [done..|]. exists P, g. split; [done|]. by split; [apply Ht|].
  - destruct Ht as [Ha Ht]. destruct (accessible_stores s g n a v Hs Hb Ha) as (s2 & E2 & Hs2 & Hm).
    assert (s2 = s') as -> by congruence. apply (advance_good s t k); [done..|].
    apply (same_behaves calls s); [done|apply Hs|]. by exists P, g.
  - destruct (print_same L HL cpos cells s Hs) as (c2 & s2 & E2 & Hs2 & Hm).
    assert (s2 = s' ∧ c2 = c) as [-> ->] by (split; congruence). apply (advance_good s t k); [done..|].
    apply (same_behaves calls s); [done|apply Hs|]. exists P, g. split; [done|]. by split; [apply Ht|].
  - by eapply call_good.
  - by eapply timer_good.
  - exfalso. by apply (good_no_fault _ Hg).
Qed.

Lemma good_steps w w' : good calls w → rtc (wstep rule) w w' → good calls w'.
Proof. intros Hg. induction 1 as [|w1 w2 w3 Hst _ IH]; [done|]. by apply IH, (good_step w1). Qed.
End good.

(** ** Programs that neither fork nor exit *)

(** The traps that the running program can make: the timer's, at any time, and
    the system call it has come to. *)
Definition pending (w : world) (reg : x86_64_registers) : Prop :=
  regs_typed reg ∧
  (reg_intno reg = INT_TIMER ∨ ∃ n rdi rsi k, observe (now w) = VisF (Int n rdi rsi) k ∧ entered_by n rdi rsi reg).

(** Every trap is considered. *)
Definition any_trap (s : kstate) (reg : x86_64_registers) : Prop := True.

(** How far [q] is from its turn. *)
Definition distance (w : world) (q : Z) : Z := (q - current (kern w)) mod 16.

Lemma next_turn_closer s r q :
  next_turn s r → 0 ≤ current s < 16 → 0 ≤ q < 16 → p_state (process s q) = P_RUNNABLE → q ≠ current s →
  (q - r) mod 16 < (q - current s) mod 16.
Proof.
  intros (j & Hj & -> & _ & Hb) Hc Hq Hr Hne. set (i := Z.to_nat ((q - current s - 1) mod 16)).
  pose proof (Z.mod_pos_bound (q - current s - 1) 16 ltac:(lia)) as Hi.
  assert ((current s + 1 + Z.of_nat i) mod 16 = q) as Ei.
  { unfold i. rewrite Z2Nat.id, Z.add_mod_idemp_r by lia. replace (current s + 1 + (q - current s - 1)) with q by lia. by apply Z.mod_small. }
  assert (j ≤ i)%nat as Hji by (destruct (le_lt_dec j i) as [|Hlt]; [done|]; apply Hb in Hlt; by rewrite Ei in Hlt).
  assert ((q - current s) mod 16 = Z.of_nat i + 1) as ->.
  { unfold i. rewrite Z2Nat.id by lia. destruct (decide (current s < q)).
    - rewrite !Z.mod_small by lia. lia.
    - assert (∀ z, -16 ≤ z < 0 → z mod 16 = z + 16) as Hneg.
      { intros z Hz. symmetry. apply Z.mod_unique with (-1); lia. }
      rewrite !Hneg by lia. lia. }
  rewrite <- Ei. rewrite <- Zminus_mod. replace (current s + 1 + Z.of_nat i - (current s + 1 + Z.of_nat j)) with (Z.of_nat i - Z.of_nat j) by lia.
  rewrite Z.mod_small by lia. lia.
Qed.

Section quiet.
Context `{Devices} `{Patience} `{Padding} (L : Layout) (HL : LayoutOk L) (Hkey : no_key) (Hpat : (16 ≤ patience)%nat).

(** What the system can do in [w]: it is steady, every process can run, the
    running one does not fault, takes a step, and is resumed after a trap. *)
Record alive (w : world) : Prop := {
  av_steady : steady (kern w);
  av_runnable : ∀ q, live (kern w) q → p_state (process (kern w) q) = P_RUNNABLE;
  av_no_fault : ¬ faults (kern w) (now w);
  av_steps : ∃ w', wstep any_trap w w';
  av_traps : ∀ reg x, pending w reg → fits 64 x → ∃ s', exception (A := ()) reg (latch x (kern w)) = Halt UserMode s' }.

Lemma quiet_known : quiet_calls ⊆ known_calls.
Proof. apply (bool_decide_unpack _). vm_compute. exact I. Qed.

Lemma quiet_fits n : n ∈ quiet_calls → fits 64 n.
Proof. unfold quiet_calls. rewrite !elem_of_cons, elem_of_nil. by intros [->|[->|[->|[]]]]; split. Qed.

Lemma quiet_orderly s reg n rdi rsi (P : Program) :
  ProgramOk → request quiet_calls n rdi rsi → entered_by n rdi rsi reg → any_trap s reg → orderly s reg.
Proof.
  intros HP Hq He _. pose proof (proj1 Hq) as Hn. apply (request_orderly quiet_calls n rdi rsi reg s Hq He); [by apply quiet_known|].
  unfold quiet_calls in Hn. rewrite !not_elem_of_cons. rewrite !elem_of_cons, elem_of_nil in Hn.
  destruct Hn as [->|[->|[->|[]]]]; (split; [discriminate|]; split; [discriminate|]; split; [discriminate|]; apply not_elem_of_nil).
Qed.

(** What a trap leaves. *)
Record after_trap (w : world) (reg : x86_64_registers) (s' : kstate) : Prop := {
  at_steady : steady s';
  at_turn : turn reg (kern w) s';
  at_live : ∀ q, live (kern w) q → live s' q;
  at_answered : answered reg (p_registers (process s' (current (kern w))));
  at_others : ∀ q, live (kern w) q → q ≠ current (kern w) → process s' q = process (kern w) q }.

(** A trap of a good world returns. *)
Lemma pending_returns w reg x :
  good quiet_calls w → pending w reg → fits 64 x →
  ∃ s', exception (A := ()) reg (latch x (kern w)) = Halt UserMode s' ∧ after_trap w reg s'.
Proof.
  destruct w as [s t k]. intros Hg [Hreg Hp] Hx. pose proof (gd_steady _ _ Hg) as Hs. cbn in Hs, Hp |- *.
  pose proof (latch_steady L HL x s Hx Hs) as Hsl.
  assert (orderly (latch x s) reg ∧ program_trap reg ∧ reg_intno reg ≠ INT_SYS_EXIT) as (Ho & Hpt & Hne).
  { destruct Hp as [Et|(n & rdi & rsi & ke & E & He)].
    - split; [by apply timer_orderly|]. split; [split; rewrite Et; [|done]; rewrite !elem_of_cons; tauto|by rewrite Et].
    - destruct (now_safe L quiet_calls s t k Hg) as (P & g & HP & Ht & _). unfold safeF in Ht. rewrite E in Ht. destruct Ht as [Hq _].
      split; [by apply (quiet_orderly _ reg n rdi rsi P)|]. pose proof (proj1 Hq) as Hn. pose proof He as (En & _).
      unfold quiet_calls in Hn. rewrite !elem_of_cons, elem_of_nil in Hn. split; [split|].
      + rewrite En, !elem_of_cons. tauto.
      + intros Ea. apply (request_alloc quiet_calls n rdi rsi reg Hq He). congruence.
      + rewrite En. by destruct Hn as [->|[->|[->|[]]]]. }
  destruct (exception_returns L HL Hkey Hpat reg (latch x s) Hsl Ho Hreg Hpt Hne) as (s' & E & Hs' & Ht).
  exists s'. split; [done|].
  pose proof (exception_served L HL Hkey Hpat reg (latch x s) s' Hsl Ho Hreg Hpt E) as Hsv.
  destruct (exception_sound reg (latch x s) s' (sd_running _ Hsl) (or_admissible _ _ Ho) E) as [_ Hsp].
  assert (∀ q, live s q → q ≠ current s → process s' q = process s q) as Hoth by (intros q Hq Hqne; by apply (sp_process _ _ _ Hsp)).
  split; [done|exact Ht| |by apply (sb_registers _ _ _ Hsv)|exact Hoth].
  intros q [Hq Hst]. split; [done|]. cbn in Hst. destruct (decide (q = current s)) as [->|Hqne].
  - destruct (sb_current _ _ _ Hsv Hne) as [Est _]. change (current (latch x s)) with (current s) in Est. by rewrite Est.
  - by rewrite Hoth by done.
Qed.

Lemma good_alive w : good quiet_calls w → alive w.
Proof.
  intros Hg. split; [apply Hg|apply Hg|by apply (good_no_fault L HL quiet_calls)| |].
  2:{ intros reg x Hp Hx. destruct (pending_returns w reg x Hg Hp Hx) as (s' & E & _). by exists s'. }
  destruct w as [s t k]. destruct (now_safe L quiet_calls s t k Hg) as (P & g & HP & Ht & Hb).
  pose proof (gd_steady _ _ Hg) as Hs. cbn in Hs. unfold safeF in Ht. destruct (observe t) as [[]| |X e ke] eqn:E.
  - eexists. by apply w_tau.
  - destruct e as [n rdi rsi|n a|n a v|cpos cells|].
    + destruct Ht as [Hq _]. set (reg := trap_regs n (default 0 rdi)).
      assert (entered_by n rdi rsi reg) as He.
      { split; [done|]. destruct Hq as (_ & -> & _). by split; [intros a ->|]. }
      assert (regs_typed reg) as Hreg by (apply (request_typed quiet_calls n rdi rsi Hq), (quiet_fits n), Hq).
      destruct (pending_returns (MkWorld s t k) reg 0 Hg) as (s' & Ex & _); [|by split|eexists; by eapply (w_call _ s t k n rdi rsi ke reg 0)].
      split; [done|]. right. by exists n, rdi, rsi, ke.
    + destruct Ht as [Ha _]. destruct (accessible_loads s g n a (sd_running s Hs) Hb Ha) as [v Ev]. eexists. by eapply w_load.
    + destruct Ht as [Ha _]. destruct (accessible_stores L HL s g n a v Hs Hb Ha) as (s' & Ev & _). eexists. by eapply w_store.
    + destruct (print_same L HL cpos cells s Hs) as (c & s' & Ev & _). eexists. by eapply w_print.
    + done.
Qed.

Lemma quiet_steps w w' : good quiet_calls w → rtc (wstep any_trap) w w' → good quiet_calls w'.
Proof. apply (good_steps L HL Hkey Hpat quiet_calls quiet_known any_trap). intros; by eapply quiet_orderly. Qed.

(** What a step does to the kernel's choice: nothing, or a trap. *)
Lemma step_trap w w' :
  good quiet_calls w → wstep any_trap w w' →
  same_spaces (kern w) (kern w') ∨ ∃ reg x, pending w reg ∧ fits 64 x ∧ exception (A := ()) reg (latch x (kern w)) = Halt UserMode (kern w').
Proof.
  intros Hg Hst. destruct Hst.
  1-4: left; cbn; try done.
  1-2: destruct (now_safe L quiet_calls _ _ _ Hg) as (P & g & HP & Ht & Hb); unfold safeF in Ht;
    match goal with E : observe _ = _ |- _ => rewrite E in Ht end; pose proof (gd_steady _ _ Hg) as Hs; cbn in Hs.
  - destruct Ht as [Ha _]. destruct (accessible_stores L HL s g n a v Hs Hb Ha) as (s2 & E2 & _ & Hm). congruence.
  - destruct (print_same L HL cpos cells s Hs) as (c2 & s2 & E2 & _ & Hm). congruence.
  - right. exists reg, x. split; [|done]. split; [done|]. right. by exists n, rdi, rsi, ke.
  - right. exists reg, x. split; [|done]. split; [done|]. by left.
  - exfalso. by apply (good_no_fault L HL quiet_calls _ Hg).
Qed.

Lemma steps_live w w' q : good quiet_calls w → rtc (wstep any_trap) w w' → live (kern w) q → live (kern w') q.
Proof.
  intros Hg Hs. induction Hs as [|w w1 w2 Hst Hs IH]; [done|]. intros Hq.
  apply IH; [apply (quiet_steps w); [done|by apply rtc_once]|].
  destruct (step_trap w w1 Hg Hst) as [Hm|(reg & x & Hp & Hx & E)]; [by apply (same_live (kern w))|].
  destruct (pending_returns w reg x Hg Hp Hx) as (s' & E' & Ha). rewrite E in E'. injection E' as <-. by apply (at_live _ _ _ Ha).
Qed.

(** ** Everyone's turn comes *)

Lemma trap_closer w reg x s' q :
  good quiet_calls w → pending w reg → fits 64 x → exception (A := ()) reg (latch x (kern w)) = Halt UserMode s' →
  live (kern w) q → q ≠ current (kern w) →
  live s' q ∧ (q - current s') mod 16 ≤ distance w q ∧ (gives_way reg → (q - current s') mod 16 < distance w q).
Proof.
  intros Hg Hp Hx E Hq Hne. destruct (pending_returns w reg x Hg Hp Hx) as (s2 & E2 & Ha).
  rewrite E in E2. injection E2 as <-. split; [by apply (at_live _ _ _ Ha)|]. pose proof (at_turn _ _ _ Ha) as Ht. unfold turn in Ht. unfold distance. case_decide as Hgw.
  - pose proof (run_live _ (sd_running _ (gd_steady _ _ Hg))) as [? _]. destruct Hq as [? ?].
    pose proof (next_turn_closer (kern w) (current s') q Ht ltac:(lia) ltac:(lia)) as Hlt.
    specialize (Hlt ltac:(by apply (gd_runnable _ _ Hg)) Hne). split; [lia|done].
  - rewrite Ht. done.
Qed.

(** An interrupt of the timer. *)
Definition timer_step (w w' : world) : Prop :=
  ∃ reg x s', reg_intno reg = INT_TIMER ∧ regs_typed reg ∧ fits 64 x ∧
    exception (A := ()) reg (latch x (kern w)) = Halt UserMode s' ∧ w' = resume_in s' (interrupted (kern w) (now w) (waiting w)).

Lemma timer_step_step w w' : timer_step w w' → wstep any_trap w w'.
Proof. destruct w. intros (reg & x & s' & Hn & Hreg & Hx & E & ->). by eapply w_timer. Qed.

(** [waits q n w w']: a run from [w] to [w'] in which [q] is never the running
    process, with at least [n] interrupts of the timer. *)
Inductive waits (q : Z) : nat → world → world → Prop :=
  | waits_here w : q ≠ current (kern w) → waits q 0 w w
  | waits_step n w w1 w2 : q ≠ current (kern w) → wstep any_trap w w1 → waits q n w1 w2 → waits q n w w2
  | waits_timer n w w1 w2 : q ≠ current (kern w) → timer_step w w1 → waits q n w1 w2 → waits q (S n) w w2.

Lemma waits_bound q n w w' : good quiet_calls w → live (kern w) q → waits q n w w' → Z.of_nat n < distance w q.
Proof.
  intros Hg Hq Hw. revert Hg Hq. induction Hw as [w Hne|n w w1 w2 Hne Hst Hw IH|n w w1 w2 Hne Hst Hw IH]; intros Hg Hq.
  - destruct Hq as [Hq _]. pose proof (run_live _ (sd_running _ (gd_steady _ _ Hg))) as [Hc _]. unfold distance.
    pose proof (Z.mod_pos_bound (q - current (kern w)) 16 ltac:(lia)). cut ((q - current (kern w)) mod 16 ≠ 0); [lia|].
    intros E. apply Z.mod_divide in E as [z Ez]; [|lia]. lia.
  - assert (good quiet_calls w1) as Hg1 by (apply (quiet_steps w); [done|by apply rtc_once]).
    destruct (step_trap w w1 Hg Hst) as [Hm|(reg & x & Hp & Hx & E)].
    + unfold distance in *. rewrite (sm_current _ _ Hm) in IH. apply IH; [done|]. by apply (same_live (kern w)).
    + destruct (trap_closer w reg x _ q Hg Hp Hx E Hq Hne) as (Hq1 & Hle & _). specialize (IH Hg1 Hq1). unfold distance in *. lia.
  - assert (good quiet_calls w1) as Hg1 by (apply (quiet_steps w); [done|by apply rtc_once, timer_step_step]).
    destruct Hst as (reg & x & s' & Hn & Hreg & Hx & E & ->).
    assert (pending w reg) as Hp by (split; [done|by left]).
    destruct (trap_closer w reg x s' q Hg Hp Hx E Hq Hne) as (Hq1 & _ & Hlt). specialize (IH Hg1 Hq1).
    assert (gives_way reg) as Hgw by (unfold gives_way; rewrite Hn; right; by left).
    specialize (Hlt Hgw). unfold distance in *. cbn [kern resume_in] in *. lia.
Qed.

(** The timer alone brings everyone their turn. *)
Lemma turn_reached q w : good quiet_calls w → live (kern w) q → ∃ w', rtc timer_step w w' ∧ current (kern w') = q.
Proof.
  intros Hg Hq. remember (Z.to_nat (distance w q)) as d eqn:Ed. revert w Ed Hg Hq.
  induction d as [d IH] using lt_wf_ind. intros w -> Hg Hq.
  destruct (decide (q = current (kern w))) as [->|Hne]; [by exists w|].
  set (reg := trap_regs INT_TIMER 0). assert (pending w reg) as Hp by (split; [by apply regs_typed_trap; split|by left]).
  destruct (pending_returns w reg 0 Hg Hp) as (s' & E & _); [by split|].
  set (w1 := resume_in s' (interrupted (kern w) (now w) (waiting w))).
  assert (timer_step w w1) as Hst by (exists reg, 0, s'; split; [done|]; split; [apply Hp|]; by split).
  assert (good quiet_calls w1) as Hg1 by (apply (quiet_steps w); [done|by apply rtc_once, timer_step_step]).
  destruct (trap_closer w reg 0 s' q Hg Hp ltac:(by split) E Hq Hne) as (Hq1 & _ & Hlt).
  specialize (Hlt ltac:(unfold gives_way; right; by left)).
  destruct (IH (Z.to_nat (distance w1 q)) ltac:(unfold distance in *; cbn [w1 kern resume_in];
    pose proof (Z.mod_pos_bound (q - current s') 16 ltac:(lia)); lia) w1 eq_refl Hg1 Hq1) as (w' & Hs & Ec).
  exists w'. split; [by eapply rtc_l|done].
Qed.
End quiet.
