(* ===== verification/Boot.v ===== *)
(** The boot sequence [kernel] of [src/kernel.c]: from any memory that holds the
    program images to the first process in user mode. *)
From S2P Require Import Prelude X86 Machine CLib Printf Hardware PageTable Frames Syscalls Isolation Demo Duplicate Fork ForkSafe Exit PageAlloc Canonical Mmu Contracts Mapping AddressSpace Display ElfFormat Loader Through Load Segment Elf Image Kernel Setup.
Open Scope Z_scope.

#[local] Opaque frames_where.

(** ** The hardware and the kernel's page table *)

(** The bytes that the kernel writes before it sets up processes: its task
    descriptor, its page table and the console. *)
Definition boot_writes `{Layout} (a : Z) : Prop :=
  (kernel_task_descriptor ≤ a < kernel_task_descriptor + 96) ∨
  (kernel_pagetables ≤ a < kernel_pagetables + 5 * 4096) ∨ (console ≤ a < console + 4096).

(** Steps that keep the control registers and every byte outside [W]. *)
Record writes_in (W : Z → Prop) (s s' : machine) : Prop := {
  wi_cr3 : cr3 s' = cr3 s;
  wi_tables : fixed_tables s' = fixed_tables s;
  wi_mem : agree (λ a, ¬ W a) (mem s) (mem s') }.

#[global] Instance writes_in_preorder W : PreOrder (writes_in W).
Proof.
  split; [by split|]. intros s1 s2 s3 [A1 A2 A3] [B1 B2 B3]. split; [congruence..|by transitivity (mem s2)].
Qed.

Lemma writes_in_weaken (W W' : Z → Prop) s s' : (∀ a, W a → W' a) → writes_in W s s' → writes_in W' s s'.
Proof. intros HW [A1 A2 A3]. split; [done..|]. eapply agree_weaken; [|exact A3]. intros a Ha Hw. by apply Ha, HW. Qed.

Lemma io_writes W s s' : io_only s s' → writes_in W s s'.
Proof. intros Hio. destruct (quiet_fields _ _ (io_only_quiet _ _ Hio)) as (?&?&_). split; [done..|]. by rewrite (io_only_mem _ _ Hio). Qed.

Section boot.
Context `{Devices} (L : Layout) (HL : LayoutOk L).

Lemma outb_writes W port v s : runs (outb port v) s (λ _ s', writes_in W s s').
Proof. eapply runs_mono; [apply outb_io|]. intros [] s'. apply io_writes. Qed.

Lemma modify_writes W (f : machine → machine) s : writes_in W s (f s) → runs (modify f) s (λ _ s', writes_in W s s').
Proof. done. Qed.

Lemma outbs_writes W l s : runs (outbs l) s (λ _ s', writes_in W s s').
Proof.
  revert s. induction l as [|[port v] l IH]; intros s; cbn [outbs]; [by apply runs_ret|].
  apply (runs_seq_ (writes_in W)); [apply outb_writes|]. intros [] s'. apply IH.
Qed.

Lemma interrupt_mask_writes W s : runs interrupt_mask s (λ _ s', writes_in W s s').
Proof.
  unfold interrupt_mask. apply (runs_seq_ (writes_in W)); [done|]. intros e s1.
  apply (runs_seq_ (writes_in W)); [apply outb_writes|]. intros [] s2. apply outb_writes.
Qed.

Lemma interrupt_init_writes W s : runs interrupt_init s (λ _ s', writes_in W s s').
Proof.
  unfold interrupt_init. apply (runs_seq_ (writes_in W)); [by split|]. intros [] s1.
  apply (runs_seq_ (writes_in W)); [apply interrupt_mask_writes|]. intros [] s2.
  apply (runs_seq_ (writes_in W)); [apply outbs_writes|]. intros [] s3. apply interrupt_mask_writes.
Qed.

Lemma timer_init_writes W rate s : runs (timer_init rate) s (λ _ s', writes_in W s s').
Proof.
  unfold timer_init. apply (runs_seq_ (writes_in W)); [|intros [] s'; apply interrupt_mask_writes].
  destruct (0 <? rate); [|by split].
  do 3 (apply (runs_seq_ (writes_in W)); [apply outb_writes|intros []; intros ?]). by split.
Qed.

Lemma write_writes (W : Z → Prop) n a v s :
  0 ≤ a → a + Z.of_nat n ≤ 0x200000 → (∀ b, a ≤ b < a + Z.of_nat n → W b) → runs (write n a v) s (λ _ s', writes_in W s s').
Proof.
  intros Ha Hb HW. eapply runs_eq; [by apply write_ok|]. split; try done. intros b Hb'. cbn [mem set_mem].
  symmetry. apply load8_store_out. destruct (decide (a ≤ b < a + Z.of_nat n)) as [Hin|]; [|lia]. by apply HW in Hin.
Qed.

Lemma console_clear_writes s : runs console_clear s (λ _ s', writes_in (λ a, console ≤ a < console + 4096) s s').
Proof.
  set (W := λ a, console ≤ a < console + 4096). unfold console_clear. apply (runs_seq_ (writes_in W)).
  - apply (runs_for (λ _ s', writes_in W s s') _ 1 2000 0 s); [done|]. intros k s1 Hk H1.
    eapply runs_mono; [apply (write_writes W)|intros [] s2 H2; by transitivity s1];
      unfold W, console_cell, console; intros; lia.
  - intros [] s1. apply write_writes; unfold W, cursorpos, console; intros; lia.
Qed.

(** [segments_init] writes the task descriptor, and sets up what the processor
    needs for traps. *)
Lemma segments_init_ok s :
  runs segments_init s (λ _ s', agree (λ a, ¬ boot_writes a) (mem s) (mem s') ∧ traps_ready s').
Proof.
  pose proof (kernel_task_descriptor_data (L := L)) as Hd. pose proof (start_data_text (L := L)). pose proof (end_stack (L := L)).
  change KERNEL_START_ADDR with 0x40000 in *. change (KERNEL_STACK_TOP - PAGESIZE) with 0x7F000 in *. unfold segments_init.
  apply runs_bind. eapply runs_eq; [apply memset_ok; unfold sizeof_taskstate; lia|].
  apply runs_bind. eapply runs_eq; [apply write_ok; lia|].
  apply runs_bind, runs_modify, runs_bind, runs_gets, runs_modify. split.
  - intros a Ha. assert (¬ (kernel_task_descriptor ≤ a < kernel_task_descriptor + 96)) as Hout by (intros Hin; apply Ha; by left).
    cbn [mem set_mem set_cr0 set_descriptors]. rewrite load8_store_out, load8_fill by lia.
    rewrite decide_False; [done|]. exact Hout.
  - split; [done|]. cbn [mem set_mem set_cr0 set_descriptors]. rewrite (load_store_eq 8). done.
Qed.

(** [hardware_init] leaves the kernel's page table as [virtual_memory_init] makes it. *)
Lemma hardware_init_ok s :
  ∃ s', hardware_init s = Ok () s' ∧ agree (λ a, ¬ boot_writes a) (mem s) (mem s') ∧
    cr3 s' = kernel_pagetables ∧ kernel_pagetable s' = kernel_pagetables ∧ traps_ready s' ∧ shape_ok (mem s') kernel_shape ∧
    ∀ w, 0 ≤ w < 1024 → leaf (mem s') kernel_shape w = if decide (w < 512) then w * 4096 + PTE_PWU else 0.
Proof.
  destruct (proj1 (runs_iff segments_init s _) (segments_init_ok s)) as ([] & s1 & E1 & W1 & T1).
  destruct (proj1 (runs_iff interrupt_init s1 _) (interrupt_init_writes (λ _, False) s1)) as ([] & s2 & E2 & W2).
  destruct (virtual_memory_init_run L HL s2) as (m & Ev & Hsh & Hl & Ha).
  exists (set_cr3 kernel_pagetables (set_kernel_pagetable kernel_pagetables (set_mem m s2))).
  split; [|split; [|split; [done|split; [done|split; [|split; [exact Hsh|exact Hl]]]]]].
  - unfold hardware_init. erewrite bind_ok by exact E1. erewrite bind_ok by exact E2. exact Ev.
  - transitivity (mem s1); [exact W1|]. transitivity (mem s2); [eapply agree_weaken; [|apply W2]; by intros a _ []|].
    eapply agree_weaken; [|exact Ha]. intros a Hn Hin. apply Hn. right. left. exact Hin.
  - pose proof (wi_tables _ _ _ W2) as [= _ Ei]. destruct T1 as [Ti Tt]. split; [cbn; congruence|]. rewrite <- Tt. symmetry. apply load_agree.
    intros b Hb. transitivity (load8 (mem s2) b); [apply (wi_mem _ _ _ W2); by intros []|]. pose proof (task_descriptor_apart (LayoutOk := HL)). apply Ha. change PAGESIZE with 4096. lia.
Qed.

Lemma kernel_leaf_entry w f :
  0 ≤ w < 1024 → f = 3 ∨ f = 7 →
  present (w * 4096 + f) = true ∧ PTE_ADDR (w * 4096 + f) = w * 4096 ∧ has (w * 4096 + f) PTE_W = true ∧
  has (w * 4096 + f) PTE_U = bool_decide (f = 7).
Proof.
  intros Hw Hf. assert (w * 4096 mod 4096 = 0) as Hal by (by apply Z.mod_mul). unfold present.
  rewrite <- !(has_flags (w * 4096 + f)) by done.
  rewrite PTE_FLAGS_entry, PTE_ADDR_entry by (done || lia). by destruct Hf as [-> | ->].
Qed.

(** The kernel's page table once the kernel has closed it to processes. *)
Lemma kernel_maps_ok s :
  shape_ok (mem s) kernel_shape → kernel_pagetable s = kernel_pagetables →
  (∀ w, 0 ≤ w < 1024 → leaf (mem s) kernel_shape w = if decide (w < 512) then w * 4096 + PTE_PWU else 0) →
  ∃ m1 m2, virtual_memory_map kernel_pagetables 0 0 PROC_START_ADDR PTE_PW s = Ok 0 (set_mem m1 s) ∧
    virtual_memory_map kernel_pagetables 0xB8000 0xB8000 PAGESIZE PTE_PWU (set_mem m1 s) = Ok 0 (set_mem m2 s) ∧
    agree (λ a, ¬ (kernel_pagetables ≤ a < kernel_pagetables + 5 * 4096)) (mem s) m2 ∧ shape_ok m2 kernel_shape ∧ identity m2 kernel_shape 512 ∧
    ∀ w, 0 ≤ w < 256 → kernel_entry (leaf m2 kernel_shape w) w.
Proof.
  intros Hsh Hkp Hl. destruct (kernel_pages L HL) as (_ & _ & Hin).
  assert (L1 kernel_shape = kernel_pagetables) as EL by (unfold kernel_shape; cbn [L1]; lia).
  destruct (map_ok s kernel_shape 0 0 PROC_START_ADDR PTE_PW Hsh) as (m1 & E1 & M1).
  { unfold map_args. change PTE_PW with 3. change PROC_START_ADDR with 0x100000. change (0 mod 4096) with 0.
    change (0x100000 mod 4096) with 0. lia. }
  { change PROC_START_ADDR with 0x100000. lia. }
  destruct (map_ok (set_mem m1 s) kernel_shape 0xB8000 0xB8000 PAGESIZE PTE_PWU (mapped_shape _ _ _ _ _ _ _ M1)) as (m2 & E2 & M2).
  { unfold map_args. change PTE_PWU with 7. change PAGESIZE with 4096. change (0xB8000 mod 4096) with 0. change (4096 mod 4096) with 0. lia. }
  { change PAGESIZE with 4096. lia. }
  rewrite EL in E1, E2. rewrite set_mem_twice in E2.
  assert (∀ w, 0 ≤ w < 512 → leaf m2 kernel_shape w = w * 4096 + (if decide (w < 256 ∧ w ≠ 184) then 3 else 7)) as Hl2.
  { intros w Hw. rewrite (mapped_leaf _ _ _ _ _ _ _ M2) by lia. change (0xB8000 / 4096) with 184. change (PAGESIZE / 4096) with 1.
    case_decide as H1.
    - assert (w = 184) as -> by lia. done.
    - cbn [mem set_mem]. rewrite (mapped_leaf _ _ _ _ _ _ _ M1), Hl by lia. change (0 / 4096) with 0. change (PROC_START_ADDR / 4096) with 256.
      unfold new_entry. change (has PTE_PW PTE_P) with true. change PTE_PW with 3. change PTE_PWU with 7. cbv iota.
      repeat case_decide; lia. }
  exists m1, m2. split; [exact E1|]. split; [exact E2|]. split; [|split; [apply M2|split]].
  - transitivity m1; (eapply agree_weaken; [|apply (mapped_agree _ _ _ _ _ _ _ M1) || apply (mapped_agree _ _ _ _ _ _ _ M2)]);
      intros a Ha Hl4; by apply Ha, Hin, l4_in_table.
  - intros w Hw. rewrite Hl2 by done. destruct (kernel_leaf_entry w (if decide (w < 256 ∧ w ≠ 184) then 3 else 7)) as (?&?&_);
      [lia|case_decide; auto|done].
  - intros w Hw. rewrite Hl2 by lia. destruct (kernel_leaf_entry w (if decide (w < 256 ∧ w ≠ 184) then 3 else 7)) as (?&?&?&EU);
      [lia|case_decide; auto|]. split; [done|split; [done|split; [done|]]]. rewrite EU. change (CONSOLE_ADDR / 4096) with 184.
    apply bool_decide_ext. case_decide; lia.
Qed.

(** ** The state before the first process *)

(** The frames that are free for processes. *)
Definition boot_info (n : Z) : physical_pageinfo :=
  MkInfo (initial_owner (n * 4096)) (if initial_owner (n * 4096) =? PO_FREE then 0 else 1).

Definition boot_free : Z := zsum (λ n, if decide (refcount (boot_info n) = 0) then 1 else 0) (seqZ 1 511).

(** Those below [PROC_START_ADDR]. *)
Definition boot_low : Z := zsum (λ n, if decide (refcount (boot_info n) = 0) then 1 else 0) (seqZ 1 255).

Record booted (m : gmap Z Z) (s : kstate) : Prop := {
  bo_process : ∀ i, 0 ≤ i < 16 → process s i = with_state P_FREE (with_pid i zero_proc);
  bo_pinfo : ∀ n, 0 ≤ n < 512 → pinfo s n = boot_info n;
  bo_cr3 : cr3 (mach s) = kernel_pagetable (mach s);
  bo_kernel : kernel_ok s;
  bo_mem : agree (λ a, ¬ boot_writes a) m (kmem s) }.

(** The process descriptors. *)
Lemma descriptors_ok s :
  ∃ s', for_loop (Z.to_nat NPROC) 0 1 (λ i, put_process i (with_pid i);; put_process i (with_state P_FREE))
      (set_processes ∅ s) = Ok () s' ∧
    mach s' = mach s ∧ (∀ n, pinfo s' n = pinfo s n) ∧
    ∀ i, 0 ≤ i < 16 → process s' i = with_state P_FREE (with_pid i zero_proc).
Proof.
  pose (I := λ a s', mach s' = mach s ∧ (∀ n, pinfo s' n = pinfo s n) ∧
    ∀ i, process s' i = if decide (0 ≤ i < a) then with_state P_FREE (with_pid i zero_proc) else zero_proc).
  assert (runs (for_loop (Z.to_nat NPROC) 0 1 (λ i, put_process i (with_pid i);; put_process i (with_state P_FREE)))
    (set_processes ∅ s) (λ _ s', I (0 + Z.of_nat (Z.to_nat NPROC) * 1) s')) as Hr.
  { apply runs_for.
    - split; [done|split; [done|]]. intros i. by rewrite decide_False by lia.
    - intros k s1 Hk (E1 & E2 & E3). unfold runs. rewrite Z.mul_1_r, Z.add_0_l in *.
      erewrite bind_ok by apply put_process_eq. rewrite put_process_eq. split; [done|split; [done|]].
      intros i. rewrite !process_upd, !E3, (decide_True (P := Z.of_nat k = Z.of_nat k)) by done.
      rewrite (decide_False (P := 0 ≤ Z.of_nat k < Z.of_nat k)) by lia.
      destruct (decide (Z.of_nat k = i)) as [<-|]; [by rewrite decide_True by lia|].
      destruct (decide (0 ≤ i < Z.of_nat k)); [by rewrite decide_True by lia|by rewrite decide_False by lia]. }
  apply runs_iff in Hr as ([] & s' & E & E1 & E2 & E3). exists s'. split; [exact E|]. split; [done|]. split; [done|].
  intros i Hi. rewrite E3, decide_True; [done|]. change (Z.of_nat (Z.to_nat NPROC)) with 16. lia.
Qed.

(** The kernel's pages are its own. *)
Lemma kernel_frame_info f : kernel_frame f → boot_info f = MkInfo PO_KERNEL 1.
Proof.
  intros Hf. pose proof (kernel_frame_range L HL f Hf). unfold kernel_frame, image_frame in Hf.
  change stack_frame with 127 in Hf. change (KERNEL_START_ADDR / 4096) with 64 in Hf.
  unfold boot_info, initial_owner, physical_memory_isreserved. change (KERNEL_STACK_TOP - PAGESIZE) with (127 * 4096).
  change IOPHYSMEM with 0xA0000. change EXTPHYSMEM with 0x100000. change KERNEL_START_ADDR with 0x40000.
  destruct (Z.eqb_spec (f * 4096) 0), (Z.leb_spec 0xA0000 (f * 4096)), (Z.ltb_spec (f * 4096) 0x100000),
    (Z.leb_spec 0x40000 (f * 4096)), (Z.ltb_spec (f * 4096) end_addr), (Z.eqb_spec (f * 4096) (127 * 4096)); try lia; done.
Qed.

Lemma booted_kernel_ok s :
  kernel_pagetable (mach s) = kernel_pagetables → shape_ok (kmem s) kernel_shape → identity (kmem s) kernel_shape 512 →
  (∀ w, 0 ≤ w < 256 → kernel_entry (leaf (kmem s) kernel_shape w) w) → traps_ready (mach s) →
  (∀ n, 0 ≤ n < 512 → pinfo s n = boot_info n) → kernel_ok s.
Proof.
  intros Er Hsh Hid He Htr Hpi. split; try done. intros f Hf. pose proof (kernel_frame_range L HL f Hf).
  rewrite Hpi by lia. by rewrite kernel_frame_info.
Qed.

(** Everything before the first process. *)
Lemma kernel_boots {A} `{Images} command s :
  ∃ s1, kernel (A := A) command s = (setup_processes command;; run 1) s1 ∧ booted (kmem s) s1.
Proof.
  destruct (hardware_init_ok (mach s)) as (t1 & E1 & A1 & C1 & R1 & T1 & Sh1 & Lf1).
  destruct (pageinfo_init_run (set_mach t1 s)) as (s2 & E2 & M2 & _ & P2). cbn [mach set_mach] in M2.
  pose (W := λ a, console ≤ a < console + 4096).
  destruct (proj1 (runs_iff console_clear t1 _) (console_clear_writes t1)) as ([] & t3 & E3 & W3). fold W in W3.
  destruct (proj1 (runs_iff (timer_init HZ) t3 _) (timer_init_writes W HZ t3)) as ([] & t4 & E4 & W4).
  assert (writes_in W t1 t4) as W14 by (by transitivity t3).
  destruct (kernel_pages L HL) as (_ & _ & Hin). pose proof (kernel_pagetables_data (L := L)). pose proof (start_data_text (L := L)).
  pose proof (end_stack (L := L)). change (KERNEL_STACK_TOP - PAGESIZE) with 0x7F000 in *. change KERNEL_START_ADDR with 0x40000 in *.
  destruct (table_agree (mem t1) (mem t4) kernel_shape Sh1) as [Sh4 Lf4].
  { intros a Ha. apply (wi_mem _ _ _ W14). apply Hin in Ha. unfold W, console. lia. }
  pose proof (wi_tables _ _ _ W14) as [= Ek Ei]. assert (kernel_pagetable t4 = kernel_pagetables) as R4 by congruence.
  destruct (kernel_maps_ok t4 Sh4 R4) as (m1 & m2 & E5 & E6 & A6 & Sh6 & Id6 & En6).
  { intros w Hw. by rewrite Lf4, Lf1. }
  set (s4 := set_mach (set_mem m2 t4) s2).
  destruct (descriptors_ok s4) as (s5 & E7 & M5 & P5 & Pr5). exists s5. split.
  - unfold kernel. erewrite bind_ok by (apply on_machine_run; exact E1). erewrite bind_ok by exact E2.
    erewrite bind_ok by (apply on_machine_run; rewrite M2; exact E3).
    erewrite bind_ok by (apply on_machine_run; exact E4). erewrite bind_ok by reflexivity.
    cbn [mach set_mach]. rewrite R4. erewrite bind_ok by (apply on_machine_run; exact E5).
    erewrite bind_ok by reflexivity. cbn [mach set_mach]. change (kernel_pagetable (set_mem m1 t4)) with (kernel_pagetable t4).
    rewrite R4. erewrite bind_ok by (apply on_machine_run; exact E6). erewrite bind_ok by reflexivity.
    by erewrite bind_ok by exact E7.
  - assert (kmem s5 = m2) as Em by (unfold kmem; by rewrite M5).
    assert (∀ n, 0 ≤ n < 512 → pinfo s5 n = boot_info n) as Hpi by (intros n Hn; rewrite P5; by apply P2).
    split; [exact Pr5|exact Hpi| | |].
    + rewrite M5. change (cr3 t4 = kernel_pagetable t4). by rewrite R4, (wi_cr3 _ _ _ W14).
    + apply booted_kernel_ok; [rewrite M5; exact R4|rewrite Em; exact Sh6|rewrite Em; exact Id6|rewrite Em; exact En6| |exact Hpi].
      rewrite M5. destruct T1 as [Ti Tt]. split; [cbn; congruence|]. rewrite <- Tt. symmetry. apply load_agree.
      intros b Hb. pose proof (kernel_task_descriptor_data (L := L)). pose proof (task_descriptor_apart (LayoutOk := HL)).
      transitivity (load8 (mem t4) b); [apply (wi_mem _ _ _ W14); unfold W, console; lia|]. change (mem (set_mem m2 t4)) with m2. apply A6. lia.
    + rewrite Em. transitivity (mem t1); [exact A1|]. transitivity (mem t4).
      * eapply agree_weaken; [|apply W14]. intros a Ha Hw. apply Ha. by right; right.
      * eapply agree_weaken; [|exact A6]. intros a Ha Hw. apply Ha. by right; left.
Qed.
End boot.
