(* ===== verification/Start.v ===== *)
(** From power-on to user mode: the processes that [kernel] of [src/kernel.c] sets
    up, and the state in which the first of them runs. *)
From S2P Require Import Prelude X86 Machine CLib Printf Hardware PageTable Frames Syscalls Isolation Demo Duplicate Fork ForkSafe Exit PageAlloc Canonical Mmu Contracts Mapping AddressSpace Display ElfFormat Loader Through Load Segment Elf Image Kernel Setup Calm System Reachable Scheduler Boot Typing Checks Progress Running.
Open Scope Z_scope.

#[local] Opaque frames_where.

(** ** Which programs are started *)

Definition programs (command : option (list Z)) : list nat :=
  if command_is command "fork" then [4%nat]
  else if command_is command "forkexit" then [5%nat]
  else if command_is command "test" then [6%nat]
  else if command_is command "test2" then [6%nat; 6%nat]
  else [0%nat; 1%nat; 2%nat; 3%nat].

(** [process_setup] for the processes [i], [i + 1], ... *)
Fixpoint setup_list `{Devices} `{Layout} `{Images} (i : Z) (l : list nat) : M kstate () :=
  match l with
  | [] => mret ()
  | n :: l => process_setup i (Z.of_nat n);; setup_list (i + 1) l
  end.

Lemma bind_unit {S} (m : M S ()) s : (m;; mret ()) s = m s.
Proof. unfold mbind, M_bind. by destruct (m s) as [[] ?|]. Qed.

Lemma setup_processes_list `{Devices} `{Layout} `{Images} command s :
  setup_processes command s = setup_list 1 (programs command) s.
Proof.
  unfold setup_processes, programs. repeat (destruct (command_is _ _); [try (symmetry; apply bind_unit); reflexivity|]).
  reflexivity.
Qed.

(** ** A process that is ready to start *)

(** Process [p] of [s] is the program at [eh] of the memory [m]: its registers are
    those the loader sets, its segments are in its address space, with the
    permissions of the program headers, its stack page is mapped, and nothing
    else of the user address space is. *)
Record ready (p eh : Z) (m : gmap Z Z) (s : kstate) : Prop := {
  re_process : process s p = MkProc p (set_up_regs m eh) P_RUNNABLE (L1 (table_of s p)) 0;
  re_segments : ∀ i, loadable m eh i → visible p (segment m eh i) (eh + p_offset (segment m eh i)) m s;
  re_stack : user_writable (leaf (kmem s) (table_of s p) stack_page) = true;
  re_rest : ∀ w, 256 ≤ w < 1024 → w ≠ stack_page → (∀ i, loadable m eh i → ¬ in_segment m eh i w) →
    leaf (kmem s) (table_of s p) w = 0 }.

(** A program that can be started: a well-formed image, which leaves the stack
    page alone. *)
Record program_in (ok : Z → Prop) (m : gmap Z Z) (eh : Z) : Prop := {
  pg_image : image_in ok m eh;
  pg_stack : ∀ i, loadable m eh i → ¬ in_segment m eh i stack_page }.

(** The pages it takes: its table, its segments and its stack. *)
Definition program_pages (m : gmap Z Z) (eh : Z) : Z := 6 + pages_before m eh (phnum m eh).

(** Setting a process up makes it ready. *)
Lemma ready_set_up p eh ok m s s' :
  program_in ok m eh → (∀ b, ok b → kernel_memory s b) → agree ok m (kmem s) →
  display_status (process s p) = 0 → set_up p eh s s' → ready p eh m s'.
Proof.
  intros [Him _] Hok Ha Hd Hsu. pose proof (same_loadable ok m (kmem s) eh Him Ha) as Hlo.
  pose proof (same_segment ok m (kmem s) eh Him Ha) as Hseg. split.
  - rewrite (su_process _ _ _ _ Hsu), Hd. unfold set_up_regs.
    by rewrite (same_load ok m (kmem s) Ha eh 64) by (apply Him || lia).
  - intros i Hi. pose proof (su_visible _ _ _ _ Hsu i (proj2 (Hlo i) Hi)) as Hv. rewrite Hseg in Hv by apply Hi.
    apply (visible_image p _ _ ok m (kmem s)); [apply (im_fits _ _ _ Him i Hi)|done|done].
  - apply Hsu.
  - intros w Hw Hne Hno. apply (su_rest _ _ _ _ Hsu w Hw Hne). intros i Hi. apply Hlo in Hi. unfold in_segment.
    rewrite Hseg by apply Hi. by apply Hno.
Qed.

(** Setting another process up leaves it ready. *)
Lemma spares_view q s s' p :
  safe s → spares q s s' → live s p → p ≠ q →
  table_of s' p = table_of s p ∧
  (∀ w, 0 ≤ w < 1024 → leaf (kmem s') (table_of s p) w = leaf (kmem s) (table_of s p) w) ∧
  ∀ a, user_page p s a → ubyte p s' a = ubyte p s a.
Proof.
  intros Hs Hsp Hp Hne. pose proof (sp_memory _ _ _ Hsp p Hp Hne) as Ha.
  destruct (live_kept s s' p Hs Hp) as (Et & _ & El); [by rewrite (sp_process _ _ _ Hsp)| |].
  { intros a Hin. apply Ha. rewrite frames_of_live by done. apply elem_of_app. left.
    apply in_table_frames; [|done]. apply (safe_shape s Hs p Hp). }
  split; [done|]. split; [done|]. intros a Hu. pose proof (user_page_vpn _ _ _ Hu) as Hv.
  unfold ubyte, uaddr, uleaf. rewrite Et, El by lia. symmetry. apply Ha.
  change (uaddr p s a / 4096 ∈ frames_of s p). rewrite uaddr_page, frames_of_live by done.
  apply elem_of_app. right. apply elem_frames_where. exists (a / 4096). split; [lia|]. split; [apply Hu|done].
Qed.

Lemma ready_spared p q eh ok m s s' :
  program_in ok m eh → safe s → spares q s s' → live s p → p ≠ q → ready p eh m s → ready p eh m s'.
Proof.
  intros [Him _] Hs Hsp Hp Hne [R1 R2 R3 R4]. destruct (spares_view q s s' p Hs Hsp Hp Hne) as (Et & El & Eb).
  assert (∀ w, 256 ≤ w < 1024 → leaf (kmem s') (table_of s' p) w = leaf (kmem s) (table_of s p) w) as El'.
  { intros w Hw. rewrite Et. apply El. lia. }
  split.
  - by rewrite (sp_process _ _ _ Hsp), Et.
  - intros i Hi. apply (visible_kept p _ _ m s s' ok); [apply (im_fits _ _ _ Him i Hi)|by apply R2|done| |].
    + intros w Hw _. by apply El.
    + intros a Ha _. by apply Eb.
  - by rewrite El'.
  - intros w Hw Hn Hno. rewrite El' by done. by apply R4.
Qed.

(** ** All the processes *)

Section setup.
Context `{Devices} `{Images} (L : Layout) (HL : LayoutOk L).
Context (ok : Z → Prop) (m : gmap Z Z).

(** Where program [n] is. *)
Definition image (n : nat) : Z := nth n ramimages 0.

Definition programs_in (l : list nat) : Prop := Forall (λ n, (n < length ramimages)%nat ∧ program_in ok m (image n)) l.

Definition pages_of (l : list nat) : Z := zsum (program_pages m) (image <$> l).

Lemma pages_of_nonneg l : 0 ≤ pages_of l.
Proof.
  apply zsum_nonneg. intros eh _. unfold program_pages. pose proof (phnum_range m eh).
  pose proof (pages_before_mono m eh 0 (phnum m eh) ltac:(lia) ltac:(lia)) as Hm. rewrite Z.add_0_l in Hm.
  change (pages_before m eh 0) with 0 in Hm. lia.
Qed.

(** The loader works on the page table of a process under that table, so its
    pages have to lie below [PROC_START_ADDR], where memory is mapped to itself:
    when a process is set up, five free pages have to be left there. *)
Fixpoint low_needed (l : list nat) : Z :=
  match l with
  | [] => 0
  | [_] => 5
  | n :: l => program_pages m (image n) + low_needed l
  end.

Lemma low_needed_next n l free :
  0 ≤ free → low_needed (n :: l) ≤ free →
  5 ≤ free ∧ ∀ free', 0 ≤ free' → free - program_pages m (image n) ≤ free' → low_needed l ≤ free'.
Proof.
  assert (∀ k, 6 ≤ program_pages m k) as H6.
  { intros k. unfold program_pages. pose proof (phnum_range m k).
    pose proof (pages_before_mono m k 0 (phnum m k) ltac:(lia) ltac:(lia)) as Hm. rewrite Z.add_0_l in Hm.
    change (pages_before m k 0) with 0 in Hm. lia. }
  assert (∀ l, 0 ≤ low_needed l) as Hpos.
  { clear l. induction l as [|k [|k' l] IH]; cbn [low_needed] in *; [lia|lia|]. pose proof (H6 (image k)). lia. }
  intros Hf Hl. specialize (H6 (image n)). destruct l as [|n' l]; [by split; [|intros; cbn]|].
  change (program_pages m (image n) + low_needed (n' :: l) ≤ free) in Hl. pose proof (Hpos (n' :: l)).
  split; [lia|]. intros. lia.
Qed.

(** Room for the programs [l] in [free] pages, of which [low] lie below
    [PROC_START_ADDR]. *)
Definition room_for (l : list nat) (free low : Z) : Prop := pages_of l ≤ free ∧ low_needed l ≤ low.

Lemma image_lookup n : (n < length ramimages)%nat → ramimages !! n = Some (image n).
Proof. intros Hn. destruct (lookup_lt_is_Some_2 _ _ Hn) as [eh E]. unfold image. by rewrite E, (nth_lookup_Some _ _ _ _ E). Qed.

(** The processes before [i] have been set up. *)
Record progress (i : Z) (s : kstate) : Prop := {
  pr_safe : safe s;
  pr_kernel : kernel_ok s;
  pr_cr3 : cr3 (mach s) = kernel_pagetable (mach s);
  pr_ok : ∀ b, ok b → kernel_memory s b;
  pr_mem : agree ok m (kmem s);
  pr_free : ∀ q, q = 0 ∨ i ≤ q < 16 → process s q = with_state P_FREE (with_pid q zero_proc) }.

Lemma progress_live i s q : 1 ≤ i → progress i s → live s q → q < i.
Proof.
  intros Hi Hp [Hr Hq]. destruct (decide (q < i)); [done|]. by rewrite (pr_free _ _ Hp) in Hq by lia.
Qed.

Lemma progress_set_up i eh s s' :
  1 ≤ i → progress i s → set_up i eh s s' → safe s' → progress (i + 1) s'.
Proof.
  intros Hi [A1 A2 A3 A4 A5 A6] Hsu Hs'. pose proof (su_kernel _ _ _ _ Hsu) as Hk. split.
  - done.
  - by apply (kernel_ok_kept L HL s).
  - by rewrite (su_mach _ _ _ _ Hsu).
  - intros b Hb. apply (kept_memory s); [done|by apply A4].
  - intros a Ha. rewrite A5 by done. apply (kept_agree s s' Hk). by apply A4.
  - intros q Hq. rewrite (su_others _ _ _ _ Hsu) by lia. apply A6. lia.
Qed.

(** The images are in the kernel's memory all along. *)
Lemma progress_program i s eh :
  progress i s → program_in ok m eh →
  image_ok s eh ∧ (∀ j, loadable (kmem s) eh j → ¬ in_segment (kmem s) eh j stack_page) ∧
  6 + pages_before (kmem s) eh (phnum (kmem s) eh) = program_pages m eh.
Proof.
  intros Hp [Him Hst]. pose proof (pr_ok _ _ Hp) as Hok. pose proof (pr_mem _ _ Hp) as Ha. split; [|split].
  - by apply (same_image ok _ m).
  - intros j Hj. apply (same_loadable ok m (kmem s) eh Him Ha) in Hj. unfold in_segment.
    rewrite (same_segment ok m (kmem s) eh Him Ha) by apply Hj. by apply Hst.
  - by rewrite (same_phnum ok m (kmem s) eh Him Ha), (same_pages ok m (kmem s) eh Him Ha).
Qed.

(** One more process. *)
Lemma setup_next i n s :
  1 ≤ i < 16 → progress i s → (n < length ramimages)%nat → program_in ok m (image n) →
  program_pages m (image n) ≤ nfree s → 5 ≤ nlow s →
  ∃ s', process_setup i (Z.of_nat n) s = Ok () s' ∧ progress (i + 1) s' ∧ spares i s s' ∧
    nfree s' = nfree s - program_pages m (image n) ∧ nlow s - program_pages m (image n) ≤ nlow s' ∧
    live s' i ∧ ready i (image n) m s'.
Proof.
  intros Hi Hpr Hn Hpg Hfree Hlow. destruct (progress_program i s (image n) Hpr Hpg) as (Him & Hst & Epg).
  pose proof (pr_free _ _ Hpr i ltac:(lia)) as Hslot.
  destruct (process_setup_ok L HL i ltac:(lia) s n (image n)) as (s' & E & Hsu & Hs').
  - apply Hpr.
  - apply Hpr.
  - intros [_ Hl]. by rewrite Hslot in Hl.
  - by rewrite Hslot.
  - apply Hpr.
  - by apply image_lookup.
  - exact Him.
  - exact Hst.
  - lia.
  - exact Hlow.
  - assert (nfree s' = nfree s - program_pages m (image n)) as Ef by (rewrite (su_free _ _ _ _ Hsu); lia).
    exists s'. split; [exact E|]. split; [by apply (progress_set_up i (image n) s); [lia|..]|].
    split; [apply Hsu|]. split; [exact Ef|]. split.
    { pose proof (nlow_kept s s') as Hkl. rewrite Ef in Hkl. lapply Hkl; [lia|]. intros k Hk Hr.
      by rewrite (kk_pinfo _ _ (su_kernel _ _ _ _ Hsu)) by (done || lia). }
    split; [split; [lia|by rewrite (su_process _ _ _ _ Hsu)]|].
    apply (ready_set_up i (image n) ok m s s' Hpg (pr_ok _ _ Hpr) (pr_mem _ _ Hpr)); [by rewrite Hslot|done].
Qed.

Lemma setup_list_ok l : ∀ i s,
  1 ≤ i → i + Z.of_nat (length l) ≤ 16 → progress i s → programs_in l → room_for l (nfree s) (nlow s) →
  ∃ s', setup_list i l s = Ok () s' ∧ progress (i + Z.of_nat (length l)) s' ∧
    (∀ p eh, p < i → program_in ok m eh → live s p → ready p eh m s → live s' p ∧ ready p eh m s') ∧
    (∀ j n, l !! j = Some n → live s' (i + Z.of_nat j) ∧ ready (i + Z.of_nat j) (image n) m s').
Proof.
  induction l as [|n l IH]; intros i s Hi Hlen Hpr Hl [Hfree Hlow].
  { exists s. split; [done|]. rewrite Z.add_0_r. split; [done|]. split; [done|]. intros j n Hj. by rewrite lookup_nil in Hj. }
  cbn [length] in Hlen. apply Forall_cons in Hl as [[Hn Hpg] Hl].
  assert (pages_of (n :: l) = program_pages m (image n) + pages_of l) as Epg by done.
  assert (0 ≤ pages_of l) as Hnn by apply pages_of_nonneg.
  destruct (low_needed_next n l (nlow s) (nlow_nonneg s) Hlow) as [Hlow5 Hnext].
  destruct (setup_next i n s ltac:(lia) Hpr Hn Hpg ltac:(lia) Hlow5) as (s1 & E1 & Hpr1 & Hsp & Hf1 & Hw1 & Hl1 & Hr1).
  destruct (IH (i + 1) s1 ltac:(lia) ltac:(lia) Hpr1 Hl) as (s' & E' & Hpr' & Hkeep & Hnew).
  { split; [lia|]. apply Hnext; [apply nlow_nonneg|exact Hw1]. }
  exists s'. split; [cbn [setup_list]; by erewrite bind_ok by exact E1|].
  split; [cbn [length]; by replace (i + Z.of_nat (S (length l))) with (i + 1 + Z.of_nat (length l)) by lia|]. split.
  - intros p eh Hp Hpe Hlp Hr. apply Hkeep; [lia|done| |].
    + destruct (spares_kept i s s1 p (pr_safe _ _ Hpr) Hsp Hlp ltac:(lia)) as [? _]. done.
    + apply (ready_spared p i eh ok m s s1); try done; [apply Hpr|lia].
  - intros [|j] n' Hj; cbn in Hj.
    + injection Hj as <-. rewrite Z.add_0_r. apply Hkeep; [lia|done..].
    + replace (i + Z.of_nat (S j)) with (i + 1 + Z.of_nat j) by lia. by apply Hnew.
Qed.
End setup.

(** ** Booting *)

(** The kernel's image, but for what the kernel writes before it loads programs. *)
Definition boot_memory `{Layout} (a : Z) : Prop := KERNEL_START_ADDR ≤ a < end_addr ∧ ¬ boot_writes a.

Lemma zsum_occ_nil s f : (∀ q, 1 ≤ q < 16 → p_state (process s q) = P_FREE) → refs s f = 0.
Proof.
  intros Hfree. unfold refs. rewrite (zsum_ext _ (λ _, 0)).
  - clear. induction pids; cbn [zsum]; lia.
  - intros q Hq. apply elem_pids in Hq. unfold frames_of. rewrite decide_False; [done|]. intros [_ Hl]. by apply Hl, Hfree.
Qed.

(** No process, no danger. *)
Lemma safe_empty s :
  (∀ q, 1 ≤ q < 16 → p_state (process s q) = P_FREE) → (∀ f, 0 ≤ f < 512 → 0 ≤ refcount (pinfo s f) ≤ 127) →
  owner (pinfo s (CONSOLE_ADDR / 4096)) ≤ 0 ∧ refcount (pinfo s (CONSOLE_ADDR / 4096)) ≠ 0 → safe s.
Proof.
  intros Hfree Hc Hcon. assert (∀ q, ¬ live s q) as Hno by (intros q [Hr Hl]; by apply Hl, Hfree).
  split; try done; try (intros q; intros; exfalso; eapply Hno; eassumption).
  intros f Hf. rewrite zsum_occ_nil by done. by apply Hc.
Qed.

Section start.
Context `{Devices} `{Images} (L : Layout) (HL : LayoutOk L).

Lemma boot_memory_kernel m s a : booted L m s → boot_memory a → kernel_memory s a.
Proof.
  intros Hb [Ha _]. pose proof (end_stack (L := L)). change (KERNEL_STACK_TOP - PAGESIZE) with 0x7F000 in *.
  change KERNEL_START_ADDR with 0x40000 in *. pose proof (Z.div_mod a 4096). pose proof (Z.mod_pos_bound a 4096).
  assert (boot_info L (a / 4096) = MkInfo PO_KERNEL 1) as Ei.
  { apply (kernel_frame_info L HL). left. apply image_byte_frame. change KERNEL_START_ADDR with 0x40000. lia. }
  assert (0 ≤ a / 4096 < 512) as Hr by (split; [apply Z.div_pos; lia|apply Z.div_lt_upper_bound; lia]).
  split; [lia|]. split; [done|]. rewrite (bo_pinfo _ _ _ Hb), Ei by done. split; [done|split; [done|]].
  intros Hs. apply screen_page in Hs. change (CONSOLE_ADDR / 4096) with 184 in Hs. lia.
Qed.

Lemma booted_progress m s : booted L m s → progress L boot_memory m 1 s.
Proof.
  intros Hb. split.
  - apply safe_empty.
    + intros q Hq. by rewrite (bo_process _ _ _ Hb) by lia.
    + intros f Hf. rewrite (bo_pinfo _ _ _ Hb) by done. unfold boot_info. cbn [refcount]. case_match; lia.
    + change (CONSOLE_ADDR / 4096) with 184. rewrite (bo_pinfo _ _ _ Hb) by lia. unfold boot_info.
      change (initial_owner (184 * 4096)) with PO_RESERVED. done.
  - apply Hb.
  - apply Hb.
  - intros a. by apply (boot_memory_kernel m).
  - eapply agree_weaken; [|apply (bo_mem _ _ _ Hb)]. by intros a [_ ?].
  - intros q Hq. apply (bo_process _ _ _ Hb). lia.
Qed.

Lemma booted_nfree m s : booted L m s → nfree s = boot_free L.
Proof.
  intros Hb. apply zsum_ext. intros k Hk. apply elem_of_seqZ in Hk. by rewrite (bo_pinfo _ _ _ Hb) by lia.
Qed.

Lemma booted_nlow m s : booted L m s → nlow s = boot_low L.
Proof.
  intros Hb. apply zsum_ext. intros k Hk. apply elem_of_seqZ in Hk. by rewrite (bo_pinfo _ _ _ Hb) by lia.
Qed.

Lemma ready_running p eh m q s : ready p eh m s → ready p eh m (running_on q s).
Proof. intros [R1 R2 R3 R4]. split; [exact R1| |exact R3|exact R4]. intros i Hi. destruct (R2 i Hi) as [V1 V2]. split; [exact V1|exact V2]. Qed.

Lemma programs_length command : (1 ≤ length (programs command) ≤ 4)%nat.
Proof. unfold programs. repeat case_match; cbn; lia. Qed.

(** What [kernel] does up to user mode. *)
Lemma kernel_runs {A} command s :
  programs_in boot_memory (kmem s) (programs command) → room_for (kmem s) (programs command) (boot_free L) (boot_low L) →
  ∃ s1 s2, booted L (kmem s) s1 ∧ setup_list 1 (programs command) s1 = Ok () s2 ∧
    progress L boot_memory (kmem s) (1 + Z.of_nat (length (programs command))) s2 ∧
    (∀ j n, programs command !! j = Some n → live s2 (1 + Z.of_nat j) ∧ ready (1 + Z.of_nat j) (image n) (kmem s) s2) ∧
    kernel (A := A) command s = Halt UserMode (running_on 1 s2) ∧ running (running_on 1 s2).
Proof.
  intros Hp Hf. destruct (kernel_boots (A := A) L HL command s) as (s1 & E1 & Hb).
  pose proof (programs_length command) as Hlen. pose proof (booted_progress _ _ Hb) as Hpr.
  destruct (setup_list_ok L HL boot_memory (kmem s) (programs command) 1 s1) as (s2 & E2 & Hpr2 & _ & Hnew);
    [lia|lia|done|done|by rewrite (booted_nfree _ _ Hb), (booted_nlow _ _ Hb)|].
  exists s1, s2. split; [done|]. split; [done|]. split; [done|]. split; [done|].
  rewrite <- setup_processes_list in E2.
  destruct (lookup_lt_is_Some_2 (programs command) 0) as [n0 E0]; [lia|].
  destruct (Hnew 0%nat n0 E0) as [Hl1 Hr1]. change (1 + Z.of_nat 0) with 1 in Hl1, Hr1.
  assert (p_state (process s2 1) = P_RUNNABLE) as Hrun by (by rewrite (re_process _ _ _ _ Hr1)). split.
  - rewrite E1. erewrite bind_ok by exact E2. apply (run_ok L HL); [apply Hpr2|apply kernel_ok_table, Hpr2|done|done].
  - split; try done.
    + apply (core_safe s2); [apply Hpr2|by split].
    + change (p_state (process s2 0) = P_FREE). by rewrite (pr_free _ _ _ _ _ Hpr2) by lia.
Qed.

(** C9: the system boots.  When the images of the programs that the command
    selects are well formed and there is room for them ([room_for]: pages for
    all, and low ones for the page tables that the loader works on), [kernel] stops in
    user mode, with no assertion failed: process 1 runs on its own page
    table, process 1 + j is ready to start the j-th program, its segments in
    its address space as the image describes them, the other slots are free,
    the system's invariant holds, and it holds of every state that a run of user
    stores and admissible traps reaches from there. *)
Theorem kernel_starts {A} `{Patience} `{Padding} command s :
  programs_in boot_memory (kmem s) (programs command) → room_for (kmem s) (programs command) (boot_free L) (boot_low L) →
  ∃ s', kernel (A := A) command s = Halt UserMode s' ∧ running s' ∧ current s' = 1 ∧
    (∀ j n, programs command !! j = Some n → ready (1 + Z.of_nat j) (image n) (kmem s) s') ∧
    (∀ q, 1 + Z.of_nat (length (programs command)) ≤ q < 16 → p_state (process s' q) = P_FREE) ∧
    ∀ s2, rtc step s' s2 → running s2.
Proof.
  intros Hp Hf. destruct (kernel_runs (A := A) command s Hp Hf) as (s1 & s2 & _ & _ & Hpr2 & Hnew & E & Hru).
  pose proof (programs_length command) as Hlen. exists (running_on 1 s2). split; [exact E|].
  split; [exact Hru|]. split; [done|]. split; [|split].
  - intros j n Hj. apply ready_running. by apply Hnew.
  - intros q Hq. change (p_state (process s2 q) = P_FREE). by rewrite (pr_free _ _ _ _ _ Hpr2) by lia.
  - intros s3. apply steps_running. exact Hru.
Qed.
End start.

(** ** The images of [src/obj]

    The headers of the programs as the linker lays them out in [src/obj/kernel.full]:
    a read-only text segment and a data segment of 24 bytes. *)

Definition obj_images : list Z := [0x45090; 0x463d8; 0x47720; 0x48a68; 0x49db0; 0x4b420; 0x4c818].

Definition text_segment (va len : Z) : elf_program := MkPh ELF_PTYPE_LOAD 5 0xB0 va len len.
Definition data_segment (va : Z) : elf_program := MkPh ELF_PTYPE_LOAD 6 0 (va + 0x1000) 0 0x18.

Definition store_image (eh va len : Z) (m : gmap Z Z) : gmap Z Z :=
  store_phdr (eh + 64 + 56) (data_segment va) (store_phdr (eh + 64) (text_segment va len)
    (store_fields [(4%nat, 0, ELF_MAGIC); (8%nat, 0x18, va); (8%nat, 0x20, 64); (2%nat, 0x38, 2)] eh m)).

(** The memory of [src/obj/kernel] for the four allocators. *)
Definition obj_memory : gmap Z Z :=
  store_image 0x45090 0x100000 0xCB7 (store_image 0x463d8 0x140000 0xCB7
    (store_image 0x47720 0x180000 0xCB7 (store_image 0x48a68 0x1C0000 0xCB7 ∅))).

Record two_segments (m : gmap Z Z) (eh va len : Z) : Prop := {
  ts_magic : load 4 m eh = ELF_MAGIC;
  ts_phoff : phoff m eh = 64;
  ts_phnum : phnum m eh = 2;
  ts_text : segment m eh 0 = text_segment va len;
  ts_data : segment m eh 1 = data_segment va }.

Section two_segments.
Context (m : gmap Z Z) (eh va len : Z) (Hts : two_segments m eh va len).
Context (Heh : 0x45090 ≤ eh ≤ 0x4c818) (Hva : 0x100000 ≤ va ≤ 0x2F0000) (Hal : va mod 4096 = 0) (Hlen : 0 < len ≤ 0x1000).

Lemma two_loadable i : loadable m eh i ↔ i = 0 ∨ i = 1.
Proof.
  unfold loadable. rewrite (ts_phnum _ _ _ _ Hts). split; [lia|].
  intros [-> | ->]; [rewrite (ts_text _ _ _ _ Hts)|rewrite (ts_data _ _ _ _ Hts)]; (split; [lia|done]).
Qed.

Lemma obj_memory_byte b : 0x45000 ≤ b < 0x50000 → @boot_memory kernel_sym b.
Proof.
  intros Hb. split; [change (KERNEL_START_ADDR) with 0x40000; change (@end_addr kernel_sym) with 0x57008; lia|].
  unfold boot_writes. change (@kernel_task_descriptor kernel_sym) with 0x502a0.
  change (@kernel_pagetables kernel_sym) with 0x52000. change console with 0xB8000. lia.
Qed.

Lemma text_pages : seg_va (text_segment va len) = va ∧ seg_pages (text_segment va len) = 1.
Proof.
  unfold seg_pages, seg_va, end_mem, pages_to. cbn [p_va p_memsz text_segment]. rewrite Hal, Z.sub_0_r. split; [done|].
  replace (va + len - va + 4095) with (1 * 4096 + (len - 1)) by lia. rewrite Z.div_add_l, Z.div_small by lia. done.
Qed.

Lemma data_pages : seg_va (data_segment va) = va + 0x1000 ∧ seg_pages (data_segment va) = 1.
Proof.
  unfold seg_pages, seg_va, end_mem, pages_to. cbn [p_va p_memsz data_segment].
  assert ((va + 0x1000) mod 4096 = 0) as -> by (rewrite <- Z.add_mod_idemp_l, Hal by lia; done).
  rewrite Z.sub_0_r. split; [done|]. replace (va + 4096 + 24 - (va + 4096) + 4095) with 4119 by lia. done.
Qed.

Lemma two_segments_program : @program_in (@boot_memory kernel_sym) m eh ∧ program_pages m eh = 8.
Proof.
  destruct text_pages as [Tv Tp], data_pages as [Dv Dp].
  assert (∀ i w, in_segment m eh i w → (i = 0 → w = va / 4096) ∧ (i = 1 → w = va / 4096 + 1)) as Hin.
  { intros i w. unfold in_segment, in_pages_of. split; intros ->.
    - rewrite (ts_text _ _ _ _ Hts), Tv, Tp in H. lia.
    - rewrite (ts_data _ _ _ _ Hts), Dv, Dp in H. pose proof (Z.div_add va 1 4096 ltac:(done)) as E. rewrite Z.mul_1_l in E. rewrite E in H. lia. }
  assert (va / 4096 < 767 - 1) as Hst by (apply Z.div_lt_upper_bound; lia).
  assert (range (@boot_memory kernel_sym) eh 0x2000) as Hr by (intros b Hb; apply obj_memory_byte; lia).
  assert (∀ k n, 0 ≤ k → k + n ≤ 0x2000 → range (@boot_memory kernel_sym) (eh + k) n) as Hrange
    by (intros k n Hk Hn b Hb; apply Hr; lia).
  split; [split; [split|]|].
  - apply Hts.
  - rewrite <- (Z.add_0_r eh). apply Hrange; lia.
  - rewrite (ts_phoff _ _ _ _ Hts), (ts_phnum _ _ _ _ Hts). apply Hrange; lia.
  - rewrite (ts_phoff _ _ _ _ Hts). lia.
  - intros i [-> | ->]%two_loadable; [rewrite (ts_text _ _ _ _ Hts)|rewrite (ts_data _ _ _ _ Hts)]; (split; [split|cbn [p_offset text_segment data_segment]; lia]);
      unfold end_file, end_mem; cbn [p_va p_memsz p_filesz p_offset text_segment data_segment] in *; try lia.
    rewrite Tv. intros i Hi. apply obj_memory_byte. lia.
  - intros i j w Hi%two_loadable Hj%two_loadable Hij Hw Hw'. apply Hin in Hw. apply Hin in Hw'. lia.
  - intros i Hi%two_loadable Hw. apply Hin in Hw. change stack_page with 767 in Hw. lia.
  - unfold program_pages, pages_before. rewrite (ts_phnum _ _ _ _ Hts). change (seqZ 0 2) with [0; 1]. cbn [zsum].
    rewrite !decide_True by (apply two_loadable; lia). rewrite (ts_text _ _ _ _ Hts), (ts_data _ _ _ _ Hts), Tp, Dp. done.
Qed.
End two_segments.

Definition obj_state : kstate := MkK (machine_with obj_memory) ∅ ∅ 0 0 0 0 0.

(** Each of the four images, from the bytes of the memory. *)
Lemma obj_allocators n eh va :
  (n, eh, va) ∈ [(0%nat, 0x45090, 0x100000); (1%nat, 0x463d8, 0x140000); (2%nat, 0x47720, 0x180000); (3%nat, 0x48a68, 0x1C0000)] →
  @image obj_images n = eh ∧ @program_in (@boot_memory kernel_sym) obj_memory eh ∧ program_pages obj_memory eh = 8.
Proof.
  intros Hin. assert (@image obj_images n = eh ∧ two_segments obj_memory eh va 0xCB7) as [Ei Hts].
  { rewrite !elem_of_cons, elem_of_nil in Hin.
    destruct Hin as [[= -> -> ->]|[[= -> -> ->]|[[= -> -> ->]|[[= -> -> ->]|[]]]]]; (split; [reflexivity|split; vm_compute; reflexivity]). }
  split; [exact Ei|]. apply (two_segments_program obj_memory eh va 0xCB7 Hts); rewrite !elem_of_cons, elem_of_nil in Hin;
    destruct Hin as [[= -> -> ->]|[[= -> -> ->]|[[= -> -> ->]|[[= -> -> ->]|[]]]]]; (lia || reflexivity).
Qed.

Lemma obj_programs :
  @programs_in obj_images (@boot_memory kernel_sym) obj_memory (programs None) ∧
  @room_for obj_images obj_memory (programs None) (boot_free kernel_sym) (boot_low kernel_sym).
Proof.
  assert (∀ n, n ∈ programs None → (n < 7)%nat ∧ @program_in (@boot_memory kernel_sym) obj_memory (@image obj_images n) ∧
    program_pages obj_memory (@image obj_images n) = 8) as Hall.
  { intros n Hn. change (programs None) with [0%nat; 1%nat; 2%nat; 3%nat] in Hn. rewrite !elem_of_cons, elem_of_nil in Hn.
    assert (∃ eh va, (n, eh, va) ∈ [(0%nat, 0x45090, 0x100000); (1%nat, 0x463d8, 0x140000); (2%nat, 0x47720, 0x180000); (3%nat, 0x48a68, 0x1C0000)])
      as (eh & va & Hin) by (destruct Hn as [->|[->|[->|[->|[]]]]]; do 2 eexists; rewrite !elem_of_cons; eauto).
    destruct (obj_allocators n eh va Hin) as (-> & Hp & Hg). split; [|exact (conj Hp Hg)].
    destruct Hn as [->|[->|[->|[->|[]]]]]; lia. }
  split.
  - apply Forall_forall. intros n Hn. destruct (Hall n Hn) as (? & ? & _). done.
  - unfold room_for, pages_of. change (programs None) with [0%nat; 1%nat; 2%nat; 3%nat]. cbn [fmap list_fmap zsum low_needed].
    rewrite !(λ n Hn, proj2 (proj2 (Hall n Hn))) by (apply (bool_decide_unpack _); vm_compute; exact I).
    assert (boot_free kernel_sym = 390) as -> by (vm_compute; reflexivity).
    assert (boot_low kernel_sym = 134) as -> by (vm_compute; reflexivity). lia.
Qed.

Lemma kernel_starts_witness :
  ∃ s', @kernel () (λ _ _, 0) kernel_sym obj_images None obj_state = Halt UserMode s' ∧ running s' ∧ current s' = 1 ∧
    reg_rip (p_registers (process s' 3)) = 0x180000 ∧ p_state (process s' 5) = P_FREE.
Proof.
  destruct (@kernel_starts (λ _ _, 0) obj_images kernel_sym kernel_sym_ok () 1%nat (λ _, 0) None obj_state
    (proj1 obj_programs) (proj2 obj_programs)) as (s' & E & Hr & Hc & Hready & Hfree & _).
  exists s'. split; [exact E|]. split; [exact Hr|]. split; [exact Hc|]. split.
  - pose proof (re_process _ _ _ _ (Hready 2%nat 2%nat eq_refl)) as Ep. change (1 + Z.of_nat 2) with 3 in Ep.
    rewrite Ep. vm_compute. reflexivity.
  - apply Hfree. split; [discriminate|reflexivity].
Defined.
