(* ===== verification/Steady.v ===== *)
(** From boot on: [kernel] leaves the system steady, so user code that keeps to
    the rules never stops it. *)
From S2P Require Import Prelude X86 Machine CLib Printf Hardware PageTable Frames Syscalls Isolation Demo Duplicate Fork ForkSafe Exit PageAlloc Canonical Mmu Contracts Mapping AddressSpace Display ElfFormat Loader Through Load Segment Elf Image Kernel Setup Loading Calm System Reachable Scheduler Typing Checks Progress Running Boot Start.
Open Scope Z_scope.

#[local] Opaque frames_where.

(** ** Owners

    Setting up process [p] takes pages for [p] only. *)

Definition taken_for (p : Z) (s0 s : kstate) : Prop :=
  p_pid (process s p) = p ∧
  ∀ f, 0 ≤ f < 512 → refcount (pinfo s f) ≠ 0 → pinfo s f = pinfo s0 f ∨ owner (pinfo s f) = p.

Section owners.
Context `{Devices} `{Layout} `{Images} (p : Z) (Hp : 1 ≤ p < 16) (s0 : kstate).
Abbreviation takes := (maintains (taken_for p s0)).

Lemma takes_machine {A} (m : M machine A) : takes (on_machine m).
Proof. intros s Hs. unfold on_machine, zoom. by destruct (m (mach s)). Qed.

Lemma takes_put_process q f : (∀ x, p_pid (f x) = p_pid x) → takes (put_process q f).
Proof.
  intros Hf s [Hs Hi]. rewrite put_process_eq. split; [|exact Hi]. rewrite process_upd.
  case_decide; [subst|done]. by rewrite Hf.
Qed.
#[local] Hint Resolve takes_machine : types.
#[local] Hint Extern 2 (maintains (taken_for _ _) (put_process _ _)) => apply takes_put_process; reflexivity : types.

Lemma takes_assign addr : takes (assign_physical_page addr p).
Proof.
  intros s [Hs Hi]. unfold assign_physical_page. erewrite bind_ok by reflexivity. destruct (_ || _); [by split|].
  split; [exact Hs|]. intros f Hf. unfold pinfo. cbn.
  rewrite insert_insert_eq, lookup_insert_eq, !lookup_insert. case_decide as E; [|by apply Hi].
  intros _. right. cbn. apply s8_small. lia.
Qed.

Lemma takes_alloc : takes (alloc_page_process p).
Proof.
  unfold alloc_page_process. rewrite s8_small by lia. apply maintains_bind; [maintains|intros n].
  apply maintains_bind; [apply takes_assign|intros r]. maintains.
Qed.
#[local] Hint Resolve takes_alloc : types.

Lemma takes_duplicate pt : takes (duplicate_pagetable pt p).
Proof. unfold duplicate_pagetable, duplicate_body. maintains. Qed.

Lemma takes_find_free pt a : takes (sys_page_alloc_find_free pt p a).
Proof.
  unfold sys_page_alloc_find_free. rewrite s8_small by lia. apply maintains_bind; [maintains|intros n].
  destruct (_ =? _); [maintains|]. apply maintains_bind; [apply takes_assign|intros r]. maintains.
Qed.

Lemma takes_load_pages n pt a e : takes (load_pages n p pt a e).
Proof. revert a. induction n as [|n IH]; intros a; cbn [load_pages]; unfold load_page; maintains. Qed.
#[local] Hint Resolve takes_load_pages : types.

Lemma takes_segment ph src : takes (program_load_segment p ph src).
Proof.
  unfold program_load_segment. apply (yields_bind _ (λ q, p_pid q = p)); [apply yields_gets; by intros s []|].
  intros q ->. maintains.
Qed.
#[local] Hint Resolve takes_segment : types.

Lemma takes_segments n i eh ph : takes (load_segments n i p eh ph).
Proof. revert i. induction n as [|n IH]; intros i; cbn [load_segments]; maintains. Qed.
#[local] Hint Resolve takes_segments : types.

Lemma takes_load n : takes (program_load p n).
Proof. unfold program_load. maintains. Qed.

#[local] Hint Resolve takes_duplicate takes_find_free takes_load : types.

Lemma takes_setup n : takes (process_setup p n).
Proof. unfold process_setup. maintains. Qed.
End owners.

(** ** Types, from boot on *)

Section machine.
Context `{Devices} (L : Layout) (HL : LayoutOk L).
Abbreviation keeps_types := (maintains machine_typed).

Lemma types_outbs l : Forall (λ o, fits 16 (o.1)) l → keeps_types (outbs l).
Proof.
  induction l as [|[port v] l IH]; intros Hl; cbn [outbs]; [maintains|]. apply Forall_cons in Hl as [Hp Hl].
  apply maintains_bind; [by apply types_outb|intros _]. by apply IH.
Qed.

Lemma types_set_interrupts f : (∀ s, machine_typed s → fits 16 (f s)) → keeps_types (modify (λ s, set_interrupts (f s) s)).
Proof. intros Hf s Hs. specialize (Hf s Hs). by destruct Hs. Qed.

Lemma types_interrupt_mask : keeps_types interrupt_mask.
Proof. unfold interrupt_mask. maintains. Qed.
#[local] Hint Resolve types_interrupt_mask : types.

Lemma types_timer_init rate : keeps_types (timer_init rate).
Proof. unfold timer_init. maintains; apply types_set_interrupts; intros; apply u16_range. Qed.

Lemma kernel_root_fits : fits 64 kernel_pagetables.
Proof.
  pose proof (kernel_pagetables_data (L := L)). pose proof (start_data_text (L := L)). pose proof (end_stack (L := L)).
  change (KERNEL_STACK_TOP - PAGESIZE) with 0x7F000 in *. change KERNEL_START_ADDR with 0x40000 in *. unfold fits. lia.
Qed.

Lemma types_virtual_memory_init : keeps_types virtual_memory_init.
Proof.
  unfold virtual_memory_init. apply maintains_bind.
  { intros s []. split; try done. cbn. rewrite Z.mul_0_l, Z.add_0_r. exact kernel_root_fits. }
  intros _. do 7 (apply maintains_bind; [maintains|intros ?]).
  apply (yields_bind _ (fits 64)); [apply yields_gets, mt_pagetable|]. intros kpt. apply types_set_pagetable.
Qed.

Lemma types_hardware_init : keeps_types hardware_init.
Proof.
  unfold hardware_init. apply maintains_bind; [|intros _; apply maintains_bind; [|intros _; apply types_virtual_memory_init]].
  - unfold segments_init, rcr0. maintains; [by intros s []|]. intros s []. split; try done. apply u32_range.
  - unfold interrupt_init. apply maintains_bind; [by apply types_set_interrupts|intros _]. maintains.
    apply types_outbs. repeat (apply List.Forall_cons; [by split|]). by apply List.Forall_nil.
Qed.

Lemma types_console_clear : keeps_types console_clear.
Proof. unfold console_clear. maintains. Qed.

(** The loader's copies through the active page table. *)

Lemma types_vmemcpy n d s : keeps_types (vmemcpy_loop n d s).
Proof. revert d s. induction n as [|n IH]; intros d s; cbn [vmemcpy_loop]; maintains. Qed.

Lemma types_vmemset n a c : keeps_types (vmemset_loop n a c).
Proof. revert a. induction n as [|n IH]; intros a; cbn [vmemset_loop]; maintains. Qed.

Lemma types_protect n flags pt a e : keeps_types (protect_pages n flags pt a e).
Proof. revert a. induction n as [|n IH]; intros a; cbn [protect_pages]; unfold protect_page; maintains. Qed.
End machine.

#[export] Hint Resolve types_timer_init types_console_clear types_vmemcpy types_vmemset types_protect : types.

Lemma set_rip_typed v r : regs_typed r → regs_typed (set_rip v r).
Proof.
  intros (Hr & Hc & Hs). destruct r. cbn in *. split; [|by split]. 
  repeat match goal with H : Forall _ (_ :: _) |- _ => apply Forall_cons in H as [? H] end.
  repeat (apply List.Forall_cons; [by first [apply fits_u64|assumption]|]). by apply List.Forall_nil.
Qed.

Lemma set_rsp_typed v r : regs_typed r → regs_typed (set_rsp v r).
Proof.
  intros (Hr & Hc & Hs). destruct r. cbn in *. split; [|by split]. 
  repeat match goal with H : Forall _ (_ :: _) |- _ => apply Forall_cons in H as [? H] end.
  repeat (apply List.Forall_cons; [by first [apply fits_u64|assumption]|]). by apply List.Forall_nil.
Qed.

Lemma process_init_typed p : proc_typed p → proc_typed (process_init p 0).
Proof.
  intros []. split; try done. cbn [p_registers process_init].
  assert (bool_decide (regs_typed (process_init_regs 0)) = true) as Hb by (vm_compute; reflexivity).
  by apply bool_decide_eq_true in Hb.
Qed.

Section kernel.
Context `{Devices} `{Images} (L : Layout) (HL : LayoutOk L).
Abbreviation keeps_types := (maintains typed).

Lemma types_load_pages n p pt a e : keeps_types (load_pages n p pt a e).
Proof.
  revert a. induction n as [|n IH]; intros a; cbn [load_pages]; unfold load_page; maintains.
  eapply yields_maintains, types_alloc.
Qed.
#[local] Hint Resolve types_load_pages : types.

Lemma types_segment p ph src : keeps_types (program_load_segment p ph src).
Proof.
  unfold program_load_segment. apply (yields_bind _ proc_typed); [apply yields_gets; intros s Hs; apply Hs|intros q Hq].
  apply maintains_bind; [maintains|intros ok]. destruct (negb ok); [maintains|].
  apply maintains_bind; [by apply types_machine, types_set_pagetable, Hq|intros _].
  do 3 (apply maintains_bind; [maintains|intros _]).
  apply (yields_bind _ (fits 64)); [apply yields_gets; intros s Hs; apply Hs|intros kpt Hk].
  apply maintains_bind; [by apply types_machine, (types_set_pagetable (acc := through_cr3))|intros _]. maintains.
Qed.
#[local] Hint Resolve types_segment : types.

Lemma types_segments n i p eh ph : keeps_types (load_segments n i p eh ph).
Proof.
  revert i. induction n as [|n IH]; intros i; cbn [load_segments]; maintains.
  apply types_machine. unfold read_elf_program. maintains.
Qed.
#[local] Hint Resolve types_segments : types.

Lemma types_load p n : keeps_types (program_load p n).
Proof.
  unfold program_load. maintains. apply types_put_process. intros q []. split; try done. by apply set_rip_typed.
Qed.
#[local] Hint Resolve types_load : types.

Lemma types_find_free pt q a : keeps_types (sys_page_alloc_find_free pt q a).
Proof. unfold sys_page_alloc_find_free. maintains. Qed.
#[local] Hint Resolve types_find_free : types.

Lemma types_setup p n : keeps_types (process_setup p n).
Proof.
  unfold process_setup. apply maintains_bind; [apply types_put_process, process_init_typed|intros _].
  apply maintains_bind; [maintains|intros kpt]. eapply yields_bind; [apply types_duplicate|intros pt Hpt].
  apply maintains_bind; [by apply types_with_pagetable|intros _].
  apply maintains_bind; [maintains|intros r]. apply maintains_bind; [maintains|intros _].
  apply maintains_bind; [|intros _; maintains]. apply types_put_process. intros q []. split; try done. by apply set_rsp_typed.
Qed.
#[local] Hint Resolve types_setup : types.

Lemma types_setup_processes command : keeps_types (setup_processes command).
Proof. unfold setup_processes. maintains. Qed.

Lemma types_pageinfo_init : keeps_types pageinfo_init.
Proof. unfold pageinfo_init. maintains. Qed.

(** A loop over the process slots. *)
Lemma maintains_slots (f : Z → M kstate ()) n lo :
  0 ≤ lo → lo + Z.of_nat n ≤ NPROC → (∀ i, 0 ≤ i < NPROC → keeps_types (f i)) → keeps_types (for_loop n lo 1 f).
Proof.
  revert lo. induction n as [|n IH]; intros lo Hlo Hn Hf; cbn [for_loop]; [maintains|].
  apply maintains_bind; [apply Hf; lia|intros _]. apply IH; [lia|lia|done].
Qed.

Lemma types_kernel {A} command : keeps_types (kernel (A := A) command).
Proof.
  unfold kernel. apply maintains_bind; [by apply types_machine, types_hardware_init|intros _].
  apply maintains_bind; [apply types_pageinfo_init|intros _]. do 6 (apply maintains_bind; [maintains|intros ?]).
  apply maintains_bind.
  { intros s []. split; try done. intros q. unfold process. cbn. rewrite lookup_empty. exact zero_proc_typed. }
  intros _. apply maintains_bind.
  { apply maintains_slots; [done|done|]. intros i Hi. apply maintains_bind; [by apply types_with_pid|intros _; maintains]. }
  intros _. apply maintains_bind; [apply types_setup_processes|intros _]. by apply types_run.
Qed.
End kernel.

(** ** Consistency, from boot on *)

Section boot.
Context `{Devices} `{Images} (L : Layout) (HL : LayoutOk L).

Lemma booted_consistent m s : booted L m s → consistent s.
Proof.
  intros Hb. pose proof (booted_progress L HL m s Hb) as Hpr. split.
  - apply Hpr.
  - by rewrite (pr_free _ _ _ _ _ Hpr) by lia.
  - apply Hb.
  - intros f Hf. pose proof (kernel_frame_range L HL f Hf). rewrite (bo_pinfo _ _ _ Hb) by lia. by apply (kernel_frame_info L HL).
  - intros f Hf. rewrite (bo_pinfo _ _ _ Hb) by done. unfold boot_info. cbn [owner refcount]. intros Hr. left.
    unfold initial_owner in *. repeat case_match; done.
Qed.

(** One more process leaves the state consistent. *)
Lemma setup_consistent i s s' :
  1 ≤ i < 16 → consistent s → p_pid (process s i) = i → safe s' → kernel_ok s' → p_state (process s' 0) = P_FREE →
  spares i s s' → live s' i → taken_for i s s' → consistent s'.
Proof.
  intros Hi Hc Hp Hs Hk Hz Hsp Hl [_ Ht]. split; try done.
  - intros f Hf. pose proof (kernel_frame_range L HL f Hf) as Hr. destruct (ko_frames s' Hk f Hf) as [Ho Hn].
    destruct (Ht f ltac:(lia) Hn) as [->|E]; [by apply (cs_frames s Hc)|lia].
  - intros f Hf Hr. destruct (Ht f Hf Hr) as [E|E]; [|right; by rewrite E].
    rewrite E in Hr |- *. destruct (cs_owners s Hc f Hf Hr) as [?|Ho]; [by left|right].
    destruct (decide (owner (pinfo s f) = i)) as [->|Hne]; [done|].
    by apply (spares_kept i s s' _ (cs_safe s Hc) Hsp Ho Hne).
Qed.

Lemma setup_list_consistent m l : ∀ i s s',
  1 ≤ i → i + Z.of_nat (length l) ≤ 16 → progress L boot_memory m i s → programs_in boot_memory m l → room_for m l (nfree s) (nlow s) →
  consistent s → setup_list i l s = Ok () s' → consistent s'.
Proof.
  induction l as [|n l IH]; intros i s s' Hi Hlen Hpr Hl [Hfree Hlow] Hc E; [by injection E as <-|].
  cbn [length] in Hlen. apply Forall_cons in Hl as [[Hn Hpg] Hl].
  assert (pages_of m (n :: l) = program_pages m (image n) + pages_of m l) as Epg by done.
  pose proof (pages_of_nonneg m l) as Hnn.
  destruct (low_needed_next m n l (nlow s) (nlow_nonneg s) Hlow) as [Hlow5 Hnext].
  destruct (setup_next L HL boot_memory m i n s ltac:(lia) Hpr Hn Hpg ltac:(lia) Hlow5) as (s1 & E1 & Hpr1 & Hsp & Hf1 & Hw1 & Hl1 & _).
  cbn [setup_list] in E. erewrite bind_ok in E by exact E1.
  pose proof (pr_free _ _ _ _ _ Hpr i ltac:(lia)) as Hslot.
  pose proof (takes_setup i ltac:(lia) s (Z.of_nat n) s) as Ht. rewrite E1 in Ht.
  assert (room_for m l (nfree s1) (nlow s1)) as Hroom by (split; [lia|by apply Hnext; [apply nlow_nonneg|]]).
  apply (IH (i + 1) s1); try done; [lia..|].
  apply (setup_consistent i s); [lia|done|by rewrite Hslot|apply Hpr1|apply Hpr1| |done|done|].
  - by rewrite (pr_free _ _ _ _ _ Hpr1) by lia.
  - apply Ht. split; [by rewrite Hslot|]. by left.
Qed.

(** What [kernel] leaves, once the programs of the command are set up. *)
Lemma kernel_steady {A} command s :
  typed s → programs_in boot_memory (kmem s) (programs command) → room_for (kmem s) (programs command) (boot_free L) (boot_low L) →
  ∃ s1, kernel (A := A) command s = Halt UserMode s1 ∧ steady s1 ∧ current s1 = 1 ∧
    (∀ q, live s1 q ↔ 1 ≤ q ≤ Z.of_nat (length (programs command))) ∧ ∀ q, live s1 q → p_state (process s1 q) = P_RUNNABLE.
Proof.
  intros Ht Hp Hf. destruct (kernel_runs (A := A) L HL command s Hp Hf) as (s1 & s2 & Hb & E2 & Hpr2 & Hnew & E & Hru).
  pose proof (programs_length command) as Hlen. pose proof (booted_progress L HL _ _ Hb) as Hpr.
  exists (running_on 1 s2). split; [exact E|]. split; [split; [exact Hru| |]|split; [done|]].
  - apply (running_on_consistent L HL). apply (setup_list_consistent (kmem s) (programs command) 1 s1); try done; [lia| |].
    + by rewrite (booted_nfree L _ _ Hb), (booted_nlow L _ _ Hb).
    + by apply (booted_consistent (kmem s)).
  - pose proof (types_kernel L HL (A := A) command s Ht) as Hk. by rewrite E in Hk.
  - assert (∀ q, 1 ≤ q ≤ Z.of_nat (length (programs command)) → live s2 q ∧ p_state (process s2 q) = P_RUNNABLE) as Hall.
    { intros q Hq. destruct (lookup_lt_is_Some_2 (programs command) (Z.to_nat (q - 1))) as [n En]; [lia|].
      destruct (Hnew _ n En) as [Hl Hr]. replace (1 + Z.of_nat (Z.to_nat (q - 1))) with q in Hl, Hr by lia.
      split; [done|]. by rewrite (re_process _ _ _ _ Hr). }
    assert (∀ q, live s2 q → 1 ≤ q ≤ Z.of_nat (length (programs command))) as Honly.
    { intros q [Hq Hst]. destruct (decide (q ≤ Z.of_nat (length (programs command)))); [lia|].
      by rewrite (pr_free _ _ _ _ _ Hpr2) in Hst by lia. }
    split; [intros q; split; [apply Honly|intros Hq; by apply Hall]|]. intros q Hq. by apply Hall, Honly.
Qed.

(** C2: from boot on, the kernel never stops the system.  When it is started
    with well-formed program images and room for them ([room_for]: pages for
    all, and low ones for the page tables that the loader works on), [kernel]
    enters user mode; and from there, as long as no key is pressed ([no_key]: a
    key makes a trap reboot or power off) and user code keeps to the rules of
    [orderly], every trap it makes, at any time, passes the kernel's checks and ends in user mode
    again, unless no process is left that can run. *)
Theorem boot_progresses `{Patience} `{Padding} {A} command s :
  no_key → (16 ≤ patience)%nat → typed s →
  programs_in boot_memory (kmem s) (programs command) → room_for (kmem s) (programs command) (boot_free L) (boot_low L) →
  ∃ s1, kernel (A := A) command s = Halt UserMode s1 ∧ steady s1 ∧
    ∀ s2 reg x, rtc orderly_step s1 s2 → orderly (latch x s2) reg → regs_typed reg → fits 64 x →
      (∃ s3, exception (A := ()) reg (latch x s2) = Halt UserMode s3 ∧ steady s3) ∨
      (∃ s3, exception (A := ()) reg (latch x s2) = Halt Spinning s3 ∧
        ∀ q, 0 ≤ q < NPROC → p_state (process s3 q) ≠ P_RUNNABLE).
Proof.
  intros Hkey Hpat Ht Hp Hf. destruct (kernel_steady (A := A) command s Ht Hp Hf) as (s1 & E & Hst & _).
  exists s1. split; [exact E|]. split; [exact Hst|]. intros s3 reg x Hsteps Ho Hreg Hx.
  apply (exception_steady L HL Hkey Hpat); [|done|done]. apply (latch_steady L HL); [done|].
  by apply (orderly_steps_steady L HL Hkey Hpat s1).
Qed.
End boot.

(** ** The image in [src/obj] *)

Lemma obj_state_typed : typed obj_state.
Proof.
  split; try (by split).
  intros q. unfold process, obj_state. cbn [processes]. rewrite lookup_empty. exact zero_proc_typed.
Qed.

(** After boot, the first trap of process 1. *)
Lemma boot_progresses_witness :
  ∃ s1, @kernel () (λ _ _, 0) kernel_sym obj_images None obj_state = Halt UserMode s1 ∧ @steady kernel_sym s1 ∧
    let o := @exception () (λ _ _, 0) kernel_sym 16%nat (λ _, 0) (trap_regs INT_SYS_GETPID 0) (latch 0 s1) in
    (∃ s2, o = Halt UserMode s2 ∧ @steady kernel_sym s2) ∨
    (∃ s2, o = Halt Spinning s2 ∧ ∀ q, 0 ≤ q < NPROC → p_state (process s2 q) ≠ P_RUNNABLE).
Proof.
  destruct (@boot_progresses (λ _ _, 0) obj_images kernel_sym kernel_sym_ok 16%nat (λ _, 0) () None obj_state)
    as (s1 & E & Hst & Hall).
  - intros n. reflexivity.
  - apply Nat.leb_le. reflexivity.
  - exact obj_state_typed.
  - exact (proj1 obj_programs).
  - exact (proj2 obj_programs).
  - exists s1. split; [exact E|]. split; [exact Hst|]. apply Hall.
    + apply rtc_refl.
    + split; [apply demo_admissible; discriminate|reflexivity|intros E'; discriminate E'|intros E'; discriminate E'].
    + apply regs_typed_trap; by split.
    + by split.
Defined.
