(* ===== verification/Whole.v ===== *)
(** The whole system: from boot on, the kernel together with the programs it
    started. *)
From ITree Require Import ITree.
From S2P Require Import Prelude X86 Machine CLib Printf Hardware PageTable Frames Syscalls Isolation Demo Duplicate Fork ForkSafe Exit PageAlloc Canonical Mmu Contracts Mapping AddressSpace Display ElfFormat Loader Through Load Segment Elf Image Kernel Setup Loading Calm System Reachable Scheduler Typing Checks Progress Running User Programs UserKernel Served World Boot Start Steady.
Open Scope Z_scope.

#[local] Opaque frames_where.

(** ** The world after boot *)

(** [t] is one of the repository's programs, as it is linked and started, and
    makes only the calls [calls]. *)
Definition repository_program (calls : list Z) (t : user void) : Prop :=
  ∃ (P : Program) c, ProgramOk ∧ (t, c) ∈ programs_calls ∧ c ⊆ calls.

(** Process [q] is at the start of [main q]. *)
Definition started (s : kstate) (main : Z → user void) : world := MkWorld s (main (current s)) (λ q _, main q).

Lemma rest_started s main q : rest (started s main) q = main q.
Proof. unfold rest, started. cbn. by case_decide; [subst|]. Qed.

Section whole.
Context `{Devices} `{Images} `{Patience} `{Padding} (L : Layout) (HL : LayoutOk L).

(** The world that [kernel] hands to the programs is good. *)
Lemma boot_good {A} command s calls main :
  typed s → programs_in boot_memory (kmem s) (programs command) → room_for (kmem s) (programs command) (boot_free L) (boot_low L) →
  (∀ q, 1 ≤ q ≤ Z.of_nat (length (programs command)) → repository_program calls (main q)) →
  ∃ s1, kernel (A := A) command s = Halt UserMode s1 ∧ good calls (started s1 main) ∧
    ∀ q, live s1 q ↔ 1 ≤ q ≤ Z.of_nat (length (programs command)).
Proof.
  intros Ht Hp Hf Hm. destruct (kernel_steady L HL (A := A) command s Ht Hp Hf) as (s1 & E & Hst & _ & Hl & Hr).
  exists s1. split; [done|]. split; [|done]. split; [done|done|]. intros q Hq. rewrite rest_started.
  destruct (Hm q) as (P & c & HP & Hc & Hs); [by apply Hl|]. exists P, (λ _, False). split; [done|]. split; [|by intros a []].
  apply (safe_weaken c); [done|]. by apply programs_safe_run.
Qed.

Section theorems.
Context (command : option (list Z)) (s : kstate) (main : Z → user void).
Abbreviation count := (Z.of_nat (length (programs command))).

(** C3: the system runs for ever.  When the kernel is started with well-formed
    images and room for them, and its processes run p-allocator or p-test,
    [kernel] enters user mode; and from then on, as long as no key is pressed
    ([no_key]), whatever the programs do and
    whenever the timer interrupts, no process faults or is stopped: the running
    one always takes a step, every trap that it makes, and every interrupt of
    the timer, ends in user mode again, and all processes stay runnable. *)
Theorem programs_run_forever :
  no_key → (16 ≤ patience)%nat → typed s →
  programs_in boot_memory (kmem s) (programs command) → room_for (kmem s) (programs command) (boot_free L) (boot_low L) →
  (∀ q, 1 ≤ q ≤ count → repository_program quiet_calls (main q)) →
  ∃ s1, kernel (A := ()) command s = Halt UserMode s1 ∧ ∀ w, rtc (wstep any_trap) (started s1 main) w → alive L w.
Proof.
  intros Hkey Hpat Ht Hp Hf Hm. destruct (boot_good (A := ()) command s quiet_calls main Ht Hp Hf Hm) as (s1 & E & Hg & _).
  exists s1. split; [done|]. intros w Hw. apply (good_alive L HL Hkey Hpat).
  by apply (quiet_steps L HL Hkey Hpat (started s1 main)).
Qed.

(** C4: nobody starves.  In the same system, with no key pressed, at any time, a process waits for
    the processor through at most 14 interrupts of the timer: in no run in
    which it never runs are there 15; and interrupts of the timer alone bring
    it its turn. *)
Theorem turn_comes :
  no_key → (16 ≤ patience)%nat → typed s →
  programs_in boot_memory (kmem s) (programs command) → room_for (kmem s) (programs command) (boot_free L) (boot_low L) →
  (∀ q, 1 ≤ q ≤ count → repository_program quiet_calls (main q)) →
  ∃ s1, kernel (A := ()) command s = Halt UserMode s1 ∧
    (∀ q n w w', 1 ≤ q ≤ count → rtc (wstep any_trap) (started s1 main) w → waits L q n w w' → (n < 15)%nat) ∧
    ∀ q w, 1 ≤ q ≤ count → rtc (wstep any_trap) (started s1 main) w → ∃ w', rtc (timer_step L) w w' ∧ current (kern w') = q.
Proof.
  intros Hkey Hpat Ht Hp Hf Hm. destruct (boot_good (A := ()) command s quiet_calls main Ht Hp Hf Hm) as (s1 & E & Hg & Hl).
  assert (∀ q w, 1 ≤ q ≤ count → rtc (wstep any_trap) (started s1 main) w → good quiet_calls w ∧ live (kern w) q) as Hall.
  { intros q w Hq Hw. split; [by apply (quiet_steps L HL Hkey Hpat (started s1 main))|].
    apply (steps_live L HL Hkey Hpat (started s1 main)); [done|done|by apply Hl]. }
  exists s1. split; [done|]. split.
  - intros q n w w' Hq Hw Hn. destruct (Hall q w Hq Hw) as [Hgw Hlq].
    pose proof (waits_bound L HL Hkey Hpat q n w w' Hgw Hlq Hn) as Hb.
    unfold distance in Hb. pose proof (Z.mod_pos_bound (q - current (kern w)) 16 ltac:(lia)). lia.
  - intros q w Hq Hw. destruct (Hall q w Hq Hw) as [Hgw Hlq]. by apply (turn_reached L HL Hkey Hpat).
Qed.

(** C5: no program faults.  Whichever of the four programs the processes run,
    as long as no key is pressed ([no_key]) and the traps keep to the kernel's
    rules for fork and exit ([orderly]), in every
    world that the kernel and the programs come to, the kernel is steady, every
    process can run, and the running one does not access a page that the kernel
    has not mapped for it. *)
Theorem programs_never_fault :
  no_key → (16 ≤ patience)%nat → typed s →
  programs_in boot_memory (kmem s) (programs command) → room_for (kmem s) (programs command) (boot_free L) (boot_low L) →
  (∀ q, 1 ≤ q ≤ count → repository_program known_calls (main q)) →
  ∃ s1, kernel (A := ()) command s = Halt UserMode s1 ∧
    ∀ w, rtc (wstep orderly) (started s1 main) w →
      steady (kern w) ∧ (∀ q, live (kern w) q → p_state (process (kern w) q) = P_RUNNABLE) ∧ ¬ faults (kern w) (now w).
Proof.
  intros Hkey Hpat Ht Hp Hf Hm. destruct (boot_good (A := ()) command s known_calls main Ht Hp Hf Hm) as (s1 & E & Hg & _).
  exists s1. split; [done|]. intros w Hw.
  assert (good known_calls w) as Hgw.
  { apply (good_steps L HL Hkey Hpat known_calls ltac:(done) orderly) with (started s1 main); [|done|done]. by intros. }
  split; [apply Hgw|]. split; [apply Hgw|]. by apply (good_no_fault L HL known_calls).
Qed.
End theorems.
End whole.

(** ** The system in [src/obj]: four times p-allocator *)

Definition allocators (q : Z) : user void := @allocator_main allocator_program void.

Lemma allocators_repository calls : quiet_calls ⊆ calls → ∀ q, repository_program calls (allocators q).
Proof.
  intros Hs q. exists allocator_program, quiet_calls. split; [exact allocator_program_ok|]. split; [by left|done].
Qed.

#[local] Existing Instance kernel_sym.
#[local] Instance whole_images : Images := obj_images.
#[local] Instance whole_devices : Devices := λ _ _, 0.
#[local] Instance whole_patience : Patience := 16%nat.
#[local] Instance whole_padding : Padding := λ _, 0.
Abbreviation boots := (kernel (A := ()) None obj_state).

Lemma programs_run_forever_witness :
  ∃ s1, boots = Halt UserMode s1 ∧ ∀ w, rtc (wstep any_trap) (started s1 allocators) w → alive kernel_sym w.
Proof.
  apply (programs_run_forever kernel_sym kernel_sym_ok None obj_state allocators).
  - intros n. reflexivity.
  - apply Nat.leb_le. reflexivity.
  - exact obj_state_typed.
  - exact (proj1 obj_programs).
  - exact (proj2 obj_programs).
  - intros q _. by apply allocators_repository.
Defined.

Lemma turn_comes_witness :
  ∃ s1, boots = Halt UserMode s1 ∧
    (∀ q n w w', 1 ≤ q ≤ 4 → rtc (wstep any_trap) (started s1 allocators) w → waits kernel_sym q n w w' → (n < 15)%nat) ∧
    ∀ q w, 1 ≤ q ≤ 4 → rtc (wstep any_trap) (started s1 allocators) w → ∃ w', rtc (timer_step kernel_sym) w w' ∧ current (kern w') = q.
Proof.
  apply (turn_comes kernel_sym kernel_sym_ok None obj_state allocators).
  - intros n. reflexivity.
  - apply Nat.leb_le. reflexivity.
  - exact obj_state_typed.
  - exact (proj1 obj_programs).
  - exact (proj2 obj_programs).
  - intros q _. by apply allocators_repository.
Defined.

Lemma programs_never_fault_witness :
  ∃ s1, boots = Halt UserMode s1 ∧ steady s1 ∧ ¬ faults s1 (now (started s1 allocators)).
Proof.
  destruct (programs_never_fault kernel_sym kernel_sym_ok None obj_state allocators) as (s1 & E & Hall).
  - intros n. reflexivity.
  - apply Nat.leb_le. reflexivity.
  - exact obj_state_typed.
  - exact (proj1 obj_programs).
  - exact (proj2 obj_programs).
  - intros q _. apply allocators_repository, quiet_known.
  - exists s1. split; [exact E|]. destruct (Hall _ (rtc_refl _ _)) as (Hs & _ & Hn). by split.
Defined.
