(* ===== verification/TrapPath.v ===== *)
(** The way of a trap through the system: from a program's instruction through
    the processor and the assembly of [src/k-exception.S] into [exception], and
    back to user mode. *)
From ITree Require Import ITree.
From S2P Require Import Prelude X86 Machine CLib Printf Hardware Entry PageTable Frames Syscalls Isolation Demo Duplicate Fork ForkSafe Exit PageAlloc Canonical Mmu Contracts Mapping AddressSpace Display ElfFormat Loader Through Load Segment Elf Image Kernel Setup Loading Calm System Reachable Scheduler Typing Checks Progress Running User Programs UserKernel Served World Boot Start Steady Whole.
Open Scope Z_scope.

#[local] Opaque frames_where.

(** ** The kernel's stack *)

Definition on_stack (a : Z) : Prop := KERNEL_STACK_TOP - PAGESIZE ≤ a < KERNEL_STACK_TOP.

Lemma on_stack_frame a : on_stack a → a / 4096 = stack_frame.
Proof.
  unfold on_stack. change (KERNEL_STACK_TOP - PAGESIZE) with 0x7F000. change KERNEL_STACK_TOP with 0x80000. change stack_frame with 127.
  intros Ha. symmetry. apply Z.div_unique with (a - 127 * 4096); lia.
Qed.

Section stack.
Context (L : Layout) (HL : LayoutOk L).

(** Nothing that the kernel or its processes rely on is on the stack of a trap. *)
Lemma stack_written s m :
  steady s → agree (λ a, ¬ on_stack a) m (kmem s) → steady (set_kmem m s) ∧ same_spaces s (set_kmem m s).
Proof.
  intros [Hr Hc Ht] Hm. pose proof (run_safe s Hr) as Hs.
  assert (pinfo s stack_frame = MkInfo PO_KERNEL 1) as Hst by (apply (cs_frames s Hc); by right).
  assert (undisturbed s (set_kmem m s)) as Hu.
  { split; try done. intros q Hq a Ha. symmetry. apply Hm. intros Hon. apply on_stack_frame in Hon.
    pose proof (in_table_frames _ _ (shape_pages _ _ (safe_shape s Hs q Hq)) Ha) as Hf. rewrite Hon in Hf.
    rewrite (safe_tables s Hs q _ Hq Hf) in Hst. injection Hst as ->. destruct Hq. unfold PO_KERNEL in *. lia. }
  pose proof (un_safe s _ Hs Hu) as Hs'.
  split; [split|].
  - destruct Hr. by split.
  - apply (consistent_stays L HL s); [done|done|apply Hc| |apply (cs_owners s Hc)]. split; [done|done|].
    intros a [Ha1 Ha2]. symmetry. apply Hm. intros Hon. apply on_stack_frame in Hon. rewrite Hon in Ha2.
    pose proof (end_stack (L := L)). change (KERNEL_STACK_TOP - PAGESIZE) with (127 * 4096) in *. change stack_frame with 127 in *. lia.
  - destruct Ht as [[] ? ? ? ? ? ? ? ?]. by split.
  - split; [done|done|]. intros q va Hq. destruct (un_kept s _ Hs Hu q Hq) as (Et & _ & El). by apply entry_kept.
Qed.
End stack.

(** ** A trap from user mode to user mode *)

Section path.
Context `{Devices} `{Patience} `{Padding} (L : Layout) (HL : LayoutOk L) (T : Text) (Hkey : no_key) (Hpat : (16 ≤ patience)%nat).
Context (Hapart : handlers_apart L).

(** Wherever the kernel keeps the registers of a process, [exception_return]
    puts them into the processor and goes to user mode. *)
Definition returns_with (reg : x86_64_registers) : Prop :=
  ∀ k, 0 ≤ gpr k RDI → gpr k RDI + sizeof_registers ≤ MEMSIZE_PHYSICAL →
    read_registers (mem (ram k)) (gpr k RDI) = reg →
    ∃ c, Entry.run code_fuel (code Exception_return) k = Ok Resumed c ∧ ram c = ram k ∧ restored reg c.

Lemma returns_with_any reg : returns_with reg.
Proof.
  intros k Hlo Hhi E. destruct (proj1 (runs_iff _ _ _) (return_runs T k Hlo Hhi)) as (t & c & Er & -> & Em & Hr).
  exists c. split; [done|]. split; [done|]. by rewrite E in Hr.
Qed.

(** The processor, with the program of [w] in user mode, takes the trap [n],
    with %cr2 being [x]: it enters [exception] with the program's registers in
    a structure on the kernel's stack, and [exception] comes back to user mode. *)
Record trap_path (w : world) (x n : Z) (err : option Z) (c : cpu) (c1 : cpu) (s2 : kstate) : Prop := {
  tp_enters : Entry.trap n err c = Ok (Entered Exception) c1;
  tp_saves : read_registers (mem (ram c1)) (gpr c1 RDI) = registers n (u64 (default 0 err)) c;
  tp_exception : exception (A := ()) (read_registers (mem (ram c1)) (gpr c1 RDI)) (set_mach (ram c1) (latch x (kern w)))
    = Halt UserMode s2;
  tp_steady : steady s2;
  tp_answered : answered (registers n (u64 (default 0 err)) c) (p_registers (process s2 (current (kern w))));
  tp_others : ∀ q, live (kern w) q → q ≠ current (kern w) → p_registers (process s2 q) = p_registers (process (kern w) q);
  tp_returns : returns_with (p_registers (process s2 (current s2))) }.

Lemma good_trap_path w x n err c :
  good quiet_calls w → fits 64 x → ram c = mach (latch x (kern w)) → cpu_typed c → reporting n err →
  pending w (registers n (u64 (default 0 err)) c) → ∃ c1 s2, trap_path w x n err c c1 s2.
Proof.
  intros Hg Hx Ec Hc Hn Hp. destruct w as [s t k]. cbn [kern] in *. pose proof (gd_steady _ _ Hg) as Hs. cbn in Hs.
  pose proof (latch_steady L HL x s Hx Hs) as Hsl.
  assert (traps_ready (ram c)) as Htr by (rewrite Ec; apply (cs_kernel _ (sd_consistent _ Hsl))).
  destruct (trap_saves_run L T HL c n err Hapart Htr Hc Hn) as (c1 & E & Ea & Er & Em & Ho).
  set (reg := registers n (u64 (default 0 err)) c) in *.
  assert (set_mach (ram c1) (latch x s) = set_kmem (mem (ram c1)) (latch x s)) as Es1 by (rewrite Em, Ec; done).
  destruct (stack_written L HL (latch x s) (mem (ram c1)) Hsl) as [Hs1 Hm1].
  { change (kmem (latch x s)) with (mem (mach (latch x s))). rewrite <- Ec. eapply agree_weaken; [|exact Ho].
    unfold on_stack. change KERNEL_STACK_TOP with 0x80000. change sizeof_registers with 192. change PAGESIZE with 4096. lia. }
  rewrite <- Es1 in Hs1, Hm1. set (s1 := set_mach (ram c1) (latch x s)) in *.
  assert (same_spaces s s1) as Hm by (transitivity (latch x s); [by split|done]).
  assert (good quiet_calls (MkWorld s1 t k)) as Hg1.
  { apply (advance_good L quiet_calls s t k); [done|done|done|]. apply (same_behaves quiet_calls s); [done|apply Hs|].
    by apply (good_current L quiet_calls s t k). }
  assert (latch x s1 = s1) as El by (unfold s1; rewrite Em, Ec; done).
  destruct (pending_returns L HL Hkey Hpat (MkWorld s1 t k) reg x Hg1 Hp Hx) as (s2 & E2 & [Hs2 _ _ Ha2 Ho2]).
  cbn [kern] in E2, Ha2, Ho2. rewrite El in E2. exists c1, s2. split; cbn [kern]; try done.
  - by rewrite Er.
  - intros q Hq Hne. by rewrite Ho2.
  - apply returns_with_any.
Qed.
End path.

(** ** From boot on *)

Section boot.
Context `{Devices} `{Images} `{Patience} `{Padding} (L : Layout) (HL : LayoutOk L) (T : Text).

(** C6: the assembly and the kernel fit together.  From boot on, with no key
    pressed and handlers at different addresses, whatever p-allocator or p-test
    have done as processes, a system call that the running one has come to, or
    an interrupt of the timer, takes the processor through
    [src/k-exception.S] into [exception] with the program's registers as its
    argument; although the stack has been written, [exception] returns to user
    mode; the process that trapped has its registers, %rax apart after a call
    and all of them after an interrupt, the other processes have theirs; and
    [exception_return] puts those of the process that is chosen into the
    processor. *)
Theorem traps_through_assembly command s main :
  handlers_apart L → no_key → (16 ≤ patience)%nat → typed s →
  programs_in boot_memory (kmem s) (programs command) → room_for (kmem s) (programs command) (boot_free L) (boot_low L) →
  (∀ q, 1 ≤ q ≤ Z.of_nat (length (programs command)) → repository_program quiet_calls (main q)) →
  ∃ s1, kernel (A := ()) command s = Halt UserMode s1 ∧
    ∀ w x n err c, rtc (wstep any_trap) (started s1 main) w → fits 64 x →
      ram c = mach (latch x (kern w)) → cpu_typed c → reporting n err → pending w (registers n (u64 (default 0 err)) c) →
      ∃ c1 s2, trap_path L T w x n err c c1 s2.
Proof.
  intros Hap Hkey Hpat Ht Hp Hf Hm. destruct (boot_good (A := ()) L HL command s quiet_calls main Ht Hp Hf Hm) as (s1 & E & Hg & _).
  exists s1. split; [done|]. intros w x n err c Hw Hx Ec Hc Hn Hpd.
  apply (good_trap_path L HL T Hkey Hpat Hap); [|done..]. by apply (quiet_steps L HL Hkey Hpat (started s1 main)).
Qed.
End boot.

(** ** The system in [src/obj], interrupted by the timer *)

#[local] Existing Instance kernel_sym.
#[local] Instance path_images : Images := obj_images.
#[local] Instance path_devices : Devices := λ _ _, 0.
#[local] Instance path_patience : Patience := 16%nat.
#[local] Instance path_padding : Padding := λ _, 0.

(** The processor in the first program. *)
Definition user_cpu (s : kstate) : cpu :=
  MkCpu (λ r, match r with RAX => 7 | RSP => 0x2ffff0 | FS | GS => 0x23 | _ => 0 end) 0x100004 0x13 0x202 0x23 (mach (latch 0 s)).

Lemma user_cpu_typed s : cpu_typed (user_cpu s).
Proof. split; [by intros []|reflexivity..]. Qed.

Lemma user_cpu_pending s : pending (started s allocators) (registers INT_TIMER 0 (user_cpu s)).
Proof.
  split; [|by left]. split; [|by split]. repeat (apply List.Forall_cons; [by split|]). by apply List.Forall_nil.
Qed.

Lemma traps_through_assembly_witness :
  ∃ s1 c1 s2, kernel (A := ()) None obj_state = Halt UserMode s1 ∧
    trap_path kernel_sym kernel_text (started s1 allocators) 0 INT_TIMER None (user_cpu s1) c1 s2.
Proof.
  destruct (traps_through_assembly kernel_sym kernel_sym_ok kernel_text None obj_state allocators) as (s1 & E & Hall).
  - exact demo_apart.
  - intros n. reflexivity.
  - apply Nat.leb_le. reflexivity.
  - exact obj_state_typed.
  - exact (proj1 obj_programs).
  - exact (proj2 obj_programs).
  - intros q _. by apply allocators_repository.
  - destruct (Hall (started s1 allocators) 0 INT_TIMER None (user_cpu s1)) as (c1 & s2 & Hp).
    + apply rtc_refl.
    + split; reflexivity || discriminate.
    + reflexivity.
    + apply user_cpu_typed.
    + left. reflexivity.
    + apply user_cpu_pending.
    + exists s1, c1, s2. split; [exact E|exact Hp].
Defined.
